(* ===== verification/_CoqProject ===== *)
-Q . S2P
Prelude.v
Words.v
Printf.v
Conf.v
Memory.v
State.v
Util.v
Sanity.v
Faults.v
Sampling.v
ZoneBits.v
FreeList.v
Chunks.v
Lookup.v
MemOps.v
Zones.v
Heap.v
Search.v
BigZones.v
BigSpec.v
Verify.v
Profiler.v
Report.v
MemTags.v
Mte.v
Alloc.v
Interfaces.v
AllocSpec.v
NewZone.v
HeapOps.v
Retire.v
Blocks.v
Quarantine.v
Realloc.v
Hooks.v
MallocSpec.v
Init.v
HeapTheorems.v
Demo.v
Witnesses.v
HeapWitnesses.v
HookWitnesses.v
