(* ===== verification/Prelude.v ===== *)
(** * IsoAlloc: a verification development

    IsoAlloc (src/src, src/include) is a hardened memory allocator. Small requests, up to
    64 KiB, are served from zones: 4 MiB of user pages between two guard pages, cut into
    chunks of one size, with a bitmap of two bits per chunk kept elsewhere and the zone's
    pointers masked with a secret. Larger requests get a big zone of their own. This
    library models the allocator function by function and proves what its callers rely on.

    ** The program and its model

    Every operation is a function in the monad [M] of [State]: it takes the process
    ([world]: the bytes of memory, the mappings, the root, the array of zones, the big zone
    structures, the lookup table, the quarantine, the thread's zone cache, the locks) and
    returns a value and a process, or stops: [Abort] with the reason of a [LOG_AND_ABORT],
    [Fault] for an access outside the mappings, [Undef] for undefined behaviour, [Deadlock]
    for a lock taken twice, [NoFuel] for a loop bound that was too small. The operating
    system is the class [Kernel] with the laws of [KernelLaws]; the switches of the Makefile
    are the class [Config], so that a theorem over every [Config] holds for every build.
    All definitions can be evaluated.

    - [Prelude], [Words], [Conf], [Memory], [State]: automation and generic lemmas; fixed
      width arithmetic and the bit macros; constants and switches (include/conf.h); bytes and
      mappings; the records of include/iso_alloc_ds.h, the monad and its weakest
      preconditions.
    - [Util]: src/iso_alloc_util.c and src/iso_alloc_random.c, guarded mappings and random
      numbers. [Printf]: src/iso_alloc_printf.c.
    - [ZoneBits], [FreeList], [Chunks]: one zone of src/iso_alloc.c: masks, bitmap, canaries;
      the cache of free bit slots and the bitmap scans; handing out and releasing a chunk.
    - [Lookup], [Zones], [BigZones], [Alloc]: the rest of src/iso_alloc.c: finding a zone,
      creating and destroying zones and the root, big zones, [_iso_alloc], the [_iso_free]
      family, the quarantine, retirement, destruction.
    - [Sanity], [Verify], [MemOps]: src/iso_alloc_sanity.c: sampled allocations with page
      canaries, verification of all canaries, checked [memcpy], [memmove] and [memset]
      (src/libc_hook.c calls them). [Faults]: its userfaultfd thread, and the signal handler
      of src/iso_alloc_signal.c.
    - [MemTags], [Mte], [Profiler], [Report], [Search]: src/iso_alloc_mem_tags.c,
      src/iso_alloc_mte.c, src/iso_alloc_profiler.c and its report, src/iso_alloc_search.c.
    - [Interfaces], [Hooks]: src/iso_alloc_interfaces.c, src/malloc_hook.c,
      src/libc_hook.c and the C++ operators of src/iso_alloc.cpp.

    The definitions keep the names of the source; a loop of a function is a [Fixpoint] of
    its own next to it.

    ** Invariants

    [zone_inv] ([ZoneBits], [FreeList]) describes one zone: geometry, mapped pages, the
    counter of chunks in use, canaries of freed chunks, a cache of distinct free slots.
    [heap_inv] ([Heap]) describes the root: every zone is well formed, no two share memory,
    the lookup table, the thread's cache and the lists by size name existing zones of the
    right kind, the pages of preallocated bitmaps are accounted for, and every zone still
    lies between its guard pages as [_iso_new_zone] laid it out ([layouts]). [bigs_inv]
    ([BigSpec]) describes the two masked lists of big zones. [Init] shows that start-up
    establishes them, and every operation below re-establishes them.

    ** What is proved

    - One zone ([FreeList], [Chunks]): [is_zone_usable] finds a free slot exactly when there
      is one and the zone's chunk size is admitted; the cache is a bounded queue filled as a naive enumeration of the bitmap would;
      handing out and releasing chunks keep the invariant; double frees, misaligned and
      foreign pointers abort.
    - The heap ([AllocSpec], [NewZone], [HeapOps], [Blocks], [Quarantine], [HeapTheorems]): a
      block is a chunk in use or a used big zone. An allocation of any size up to 4 GiB
      returns a block that was not live, whichever path serves it; a new zone is well formed
      and guarded; [iso_free] parks and releases exactly the right blocks; the bytes of an
      answer are in no other live block; [iso_find_zone_range] agrees with a plain search.
    - Retirement ([Retire]): releasing the last chunk of a worn zone unmaps its pages and its
      bitmap, or frees its slot in a page of bitmaps, and puts a fresh zone in its place; every
      other zone stays as it is.
    - The contract ([MallocSpec]): the abstract specification [spec_step] of a memory manager
      (live blocks with their contents), and the refinement theorem [heap_refines_spec]:
      every run of a program over [iso_alloc], [iso_calloc], [iso_realloc], [iso_free],
      [iso_chunksz] and its own reads and writes, as long as the calls return, is a run of the
      specification; its state is the function [contents] of the process and of the blocks the
      program holds. The steps [heap_step] of a run have no condition on the allocator:
      quarantines are flushed, worn zones replaced and bitmap pages exhausted on the way.
      [started_program_refines_spec] begins with a process that never called the allocator.
    - Composition ([Realloc], [Hooks]): [iso_calloc] gives zeroed memory or refuses,
      [iso_realloc] preserves the contents, [iso_free_size] checks the size and accepts, as the
      sized delete, what new was asked for; all of them on blocks of either kind.
    - Big zones ([BigSpec]): search, unlinking, reuse, creation and release keep both lists
      and every other zone.
    - Around the allocator: verification decides damage of one zone, and of all zones and both
      big zone lists, exactly, and accepts every well-formed heap ([Verify]); the page canaries of sampled allocations detect every
      write outside the request and no other ([Sanity]), taking and freeing a sample keep
      the invariant of the sampler ([Sampling]), and the page fault thread stops exactly at
      reads before the first write ([Faults]); granule tags follow the pointer's and change
      when it is freed ([Mte]); the leak detector counts exactly, the profiler's tables stay
      bounded ([Profiler]) and its report is printed in full ([Report]); the pointer search
      always ends ([Search]); tags and digits round trip ([MemTags], [Printf]); [memmove] equals the
      reference ([MemOps]); rounding, logarithm and guarded mappings ([Util]).
    - [Demo], [Witnesses], [HeapWitnesses], [HookWitnesses]: a concrete kernel and process on which every
      hypothesis is discharged and the operations are evaluated.

    A statement [wp resource m Q w] says that [m] returns and satisfies [Q], or stops for a
    reason of the environment: no memory, no entropy, no zone left. It excludes faults,
    undefined behaviour, deadlocks, missing fuel and every other abort; the witnesses show
    by evaluation that the operations do return. The lemmas below [heap_refines_spec] are
    proved for any set [E] of failures that contains these: [allows E P] and [frees E P] say
    that [P] holds or that [E] is [anything], so that each lemma also describes every call
    that returns, without [P] ([wp anything]).

    ** Bounds and fuel

    Loops over zones, bitmap words, slots and list entries recurse on the number of steps
    the source allows. The walks along the masked lists of big zones use as fuel one more
    than the number of big zone structures ([big_fuel]), which the length of a list without
    repetition cannot exceed; the walk along zones of one size uses the number of zones;
    the string functions use one more than the number of bytes in memory that are not
    zero. The theorems show that the fuel suffices, since [NoFuel] satisfies no
    [wp].

    ** Hypotheses that are not the source's

    Theorems that a call returns ask for more than theorems on runs of calls that return.
    [bitmaps_room] asks that a page of preallocated bitmaps with more than 32 parts has one
    of the first 32 free: beyond them the source shifts a 32 bit integer too far. [plain_free],
    [calm], [harmless] and [enduring] restrict a release to chunks whose neighbour's bits are
    inside the bitmap (the source reads one word further), to zones without tags, and to zones
    that are not due for replacement, which [Retire] treats. None of these is asked of the
    runs of [heap_refines_spec].

    Everywhere: [plain_build] is the build without fuzz mode and without guard pages around big
    zones and their meta data; [run_build] is also without memory tags and without permanent
    frees on a resize; all are the Makefile's defaults. [mask_ok] asks for a mask of the links between big
    zones of at least 2^47: a smaller one can equal the address of a zone, which the source
    would take for the end of the list. The mask is drawn once at start-up.

    ** Not modelled

    Interleavings of threads, spin locks and CPU pinning (the locks are modelled for one
    thread); the [ARM_MTE] branches inside the allocator's other functions ([retag_on_free] is the
    one of [_iso_free], on its own, without the quarantine and its flush), the sampled call of
    the pointer search on a release ([UAF_PTR_PAGE], src/iso_alloc.c:1762), the vector loops,
    named mappings, huge pages and locked memory, the unmapping of the root's own pages,
    the frames of the stack themselves (the profiler walks a [call_stack] that is an argument
    and whose frames may be unreadable, on which it faults), the address sanitizer's annotations,
    and log output other than its formatting. System calls and library functions that answer a
    value or fail (poll, read, ioctl, open, dladdr) are arguments of the functions that call them. Destruction of
    zones and of the root, private zones and the stack search are modelled but have no theorem
    on the whole heap. *)

From Stdlib Require Export ZArith Lia.
From stdpp Require Export base gmap list numbers.

#[global] Open Scope Z_scope.

(** ** Automation *)

Create HintDb iso discriminated.
Create HintDb conf discriminated.

(** Case analysis on the boolean comparisons the C conditions become. *)
Ltac bcase :=
  match goal with
  | |- context [?a =? ?b] => destruct (Z.eqb_spec a b)
  | |- context [?a <? ?b] => destruct (Z.ltb_spec a b)
  | |- context [?a <=? ?b] => destruct (Z.leb_spec a b)
  end.

Ltac bcase_in H :=
  match type of H with
  | context [?a =? ?b] => destruct (Z.eqb_spec a b)
  | context [?a <? ?b] => destruct (Z.ltb_spec a b)
  | context [?a <=? ?b] => destruct (Z.leb_spec a b)
  end.

(** Linear arithmetic after unfolding the configuration constants. *)
Ltac clia := autounfold with conf in *; lia.

(** ** Lists *)

Section lists.
Context {A : Type}.
Implicit Types l k : list A.

(** Writing the first cell behind a filled prefix extends the prefix. *)
Lemma insert_app_replicate l n (x y : A) :
  (0 < n)%nat →
  <[length l := x]> (l ++ replicate n y) = (l ++ [x]) ++ replicate (n - 1) y.
Proof.
  intros Hn. destruct n as [|n]; [lia|].
  rewrite insert_app_r_alt by lia.
  replace (length l - length l)%nat with 0%nat by lia. simpl.
  replace (n - 0)%nat with n by lia. by rewrite <-(assoc_L (++)).
Qed.

Lemma take_app_length_eq l k n : n = length l → take n (l ++ k) = l.
Proof. intros ->. apply take_app_length. Qed.
End lists.

(** How many elements satisfy [f]. *)
Definition countb {A} (f : A → bool) (l : list A) : Z := Z.of_nat (length (List.filter f l)).

Lemma countb_cons {A} (f : A → bool) x l : countb f (x :: l) = Z.b2z (f x) + countb f l.
Proof. unfold countb. simpl. destruct (f x); simpl length; simpl Z.b2z; lia. Qed.

Lemma countb_insert {A} (f : A → bool) l i x y : l !! i = Some x →
  countb f (<[i := y]> l) = countb f l - Z.b2z (f x) + Z.b2z (f y).
Proof.
  revert i. induction l as [|z l IH]; intros [|i] Hi; simplify_eq/=; rewrite !countb_cons; [lia|].
  rewrite (IH i Hi). lia.
Qed.

Lemma countb_pos {A} (f : A → bool) l i x : l !! i = Some x → f x = true → 0 < countb f l.
Proof.
  revert i. induction l as [|z l IH]; intros [|i] Hi Hf; simplify_eq/=; rewrite countb_cons.
  - rewrite Hf. unfold countb. simpl. lia.
  - pose proof (IH i Hi Hf). destruct (f z); simpl; lia.
Qed.

Lemma countb_replicate {A} (f : A → bool) n x : f x = false → countb f (replicate n x) = 0.
Proof. intros Hf. induction n as [|n IH]; [done|]. cbn [replicate]. by rewrite countb_cons, Hf, IH. Qed.

(** ** Integers *)

Lemma half_odd c : (2 * c + 1) / 2 = c.
Proof. symmetry. apply (Z.div_unique _ _ _ 1); lia. Qed.

Lemma Z_land_ones_small x n : 0 <= n → 0 <= x < 2 ^ n → Z.land x (Z.ones n) = x.
Proof. intros. rewrite Z.land_ones by lia. by apply Z.mod_small. Qed.

Lemma Z_testbit_above x n i : 0 <= x < 2 ^ n → 0 <= n <= i → Z.testbit x i = false.
Proof.
  intros Hx Hi. destruct (decide (x = 0)) as [->|]; [apply Z.testbit_0_l|].
  apply Z.bits_above_log2; [lia|].
  apply Z.log2_lt_pow2; [lia|]. assert (2 ^ n <= 2 ^ i) by (apply Z.pow_le_mono_r; lia). lia.
Qed.

Lemma Z_bits_bound x n : 0 <= n → 0 <= x →
  (∀ i, n <= i → Z.testbit x i = false) → x < 2 ^ n.
Proof.
  intros Hn Hx Hbits. destruct (decide (x = 0)) as [->|]; [lia|].
  apply Z.log2_lt_pow2; [lia|]. destruct (Z.lt_ge_cases (Z.log2 x) n) as [|Hge]; [done|].
  pose proof (Hbits _ Hge) as Hf. rewrite Z.bit_log2 in Hf by lia. done.
Qed.

Lemma Z_land_le_r a b : 0 <= a → 0 <= b → Z.land a b <= b.
Proof.
  intros Ha Hb. rewrite <-(Z2N.id a), <-(Z2N.id b), <-N2Z.inj_land by done. apply N2Z.inj_le, N.land_le_r.
Qed.
