(* ===== verification/Words.v ===== *)
(** * Machine words

    Fixed-width unsigned arithmetic and the bit macros of
    include/iso_alloc_internal.h ([GET_BIT], [SET_BIT], [UNSET_BIT], [ALIGN_SZ_UP],
    [ALIGN_SZ_DOWN], [WHICH_BIT]), the two compiler builtins the source relies on
    ([__builtin_ctzll], [__builtin_bswap64]) and their characterisations by
    [Z.testbit]. A w-bit integer is a [Z] in [0, 2^w) and every operation that can
    wrap says so. *)

From S2P Require Import Prelude.

(** ** Widths *)

Definition u8 (x : Z) : Z := x mod 256.
Definition u16 (x : Z) : Z := x mod 65536.
Definition u32 (x : Z) : Z := x mod 4294967296.
Definition u64 (x : Z) : Z := x mod 18446744073709551616.

(** Conversion of a 64 bit pattern to [int64_t]. *)
Definition s64 (x : Z) : Z :=
  let y := u64 x in if y <? 9223372036854775808 then y else y - 18446744073709551616.

Definition is_u64 (x : Z) : Prop := 0 <= x < 2 ^ 64.

Lemma u64_pow x : u64 x = x mod 2 ^ 64. Proof. reflexivity. Qed.
Lemma u32_pow x : u32 x = x mod 2 ^ 32. Proof. reflexivity. Qed.
Lemma u64_range x : is_u64 (u64 x).
Proof. unfold is_u64. rewrite u64_pow. by apply Z.mod_pos_bound. Qed.
Lemma u32_range x : 0 <= u32 x < 2 ^ 32.
Proof. rewrite u32_pow. by apply Z.mod_pos_bound. Qed.
Lemma u16_range x : 0 <= u16 x < 65536.
Proof. by apply Z.mod_pos_bound. Qed.
Lemma u8_range x : 0 <= u8 x < 256.
Proof. by apply Z.mod_pos_bound. Qed.
Lemma u64_small x : is_u64 x → u64 x = x.
Proof. unfold is_u64. rewrite u64_pow. apply Z.mod_small. Qed.
Lemma u32_small x : 0 <= x < 2 ^ 32 → u32 x = x.
Proof. rewrite u32_pow. apply Z.mod_small. Qed.
Lemma u16_small x : 0 <= x < 65536 → u16 x = x.
Proof. apply Z.mod_small. Qed.
#[export] Hint Resolve u64_range : iso.

Lemma is_u64_bits x : is_u64 x → ∀ i, 64 <= i → Z.testbit x i = false.
Proof. intros Hx i Hi. apply (Z_testbit_above x 64); [exact Hx|lia]. Qed.

Lemma is_u64_of_bits x : 0 <= x → (∀ i, 64 <= i → Z.testbit x i = false) → is_u64 x.
Proof. intros Hx Hb. split; [done|]. by apply Z_bits_bound. Qed.

Lemma is_u64_lxor x y : is_u64 x → is_u64 y → is_u64 (Z.lxor x y).
Proof.
  intros Hx Hy. apply is_u64_of_bits.
  - apply Z.lxor_nonneg. unfold is_u64 in *. lia.
  - intros i Hi. rewrite Z.lxor_spec, !is_u64_bits by done. done.
Qed.

Lemma is_u64_land x y : is_u64 x → 0 <= y → is_u64 (Z.land x y).
Proof.
  intros Hx Hy. apply is_u64_of_bits; [apply Z.land_nonneg; lia|].
  intros i Hi. by rewrite Z.land_spec, is_u64_bits.
Qed.

Lemma is_u64_lor x y : is_u64 x → is_u64 y → is_u64 (Z.lor x y).
Proof.
  intros Hx Hy. apply is_u64_of_bits; [unfold is_u64 in *; apply Z.lor_nonneg; lia|].
  intros i Hi. by rewrite Z.lor_spec, !is_u64_bits.
Qed.
#[export] Hint Resolve is_u64_lxor is_u64_lor : iso.

Lemma lxor_cancel x m : Z.lxor (Z.lxor x m) m = x.
Proof. by rewrite Z.lxor_assoc, Z.lxor_nilpotent, Z.lxor_0_r. Qed.

(** ** Bit macros *)

Definition GET_BIT (n k : Z) : Z := Z.land (Z.shiftr n k) 1.
Definition SET_BIT (n k : Z) : Z := Z.lor n (Z.shiftl 1 k).
Definition UNSET_BIT (n k : Z) : Z := Z.land n (Z.lnot (Z.shiftl 1 k)).

Definition USED_BIT_VECTOR : Z := 0x5555555555555555.
Definition WHICH_BIT (bit_slot : Z) : Z := Z.land bit_slot 63.

Lemma GET_BIT_spec n k : 0 <= k → GET_BIT n k = Z.b2z (Z.testbit n k).
Proof.
  intros Hk. unfold GET_BIT. change 1 with (Z.ones 1). rewrite Z.land_ones by lia.
  change (2 ^ 1) with 2. rewrite <-Z.bit0_mod, Z.shiftr_spec by lia. by rewrite Z.add_0_l.
Qed.

Lemma testbit_shiftl_1 k j : 0 <= k → 0 <= j → Z.testbit (Z.shiftl 1 k) j = (k =? j).
Proof.
  intros Hk Hj. rewrite Z.shiftl_1_l. by apply Z.pow2_bits_eqb.
Qed.

Lemma SET_BIT_spec n k j : 0 <= k → 0 <= j →
  Z.testbit (SET_BIT n k) j = (k =? j) || Z.testbit n j.
Proof.
  intros Hk Hj. unfold SET_BIT. rewrite Z.lor_spec, testbit_shiftl_1 by lia.
  apply orb_comm.
Qed.

Lemma UNSET_BIT_spec n k j : 0 <= k → 0 <= j →
  Z.testbit (UNSET_BIT n k) j = negb (k =? j) && Z.testbit n j.
Proof.
  intros Hk Hj. unfold UNSET_BIT. rewrite Z.land_spec, Z.lnot_spec, testbit_shiftl_1 by lia.
  apply andb_comm.
Qed.

Lemma is_u64_SET_BIT n k : is_u64 n → 0 <= k < 64 → is_u64 (SET_BIT n k).
Proof.
  intros Hn Hk. apply is_u64_lor; [done|]. rewrite Z.shiftl_1_l. split.
  - apply Z.pow_nonneg. lia.
  - apply Z.pow_lt_mono_r; lia.
Qed.

Lemma is_u64_UNSET_BIT n k : is_u64 n → 0 <= k → is_u64 (UNSET_BIT n k).
Proof.
  intros Hn Hk. apply is_u64_of_bits.
  - apply Z.land_nonneg. unfold is_u64 in *. lia.
  - intros i Hi. rewrite UNSET_BIT_spec, is_u64_bits by (done || lia). apply andb_false_r.
Qed.
#[export] Hint Resolve is_u64_SET_BIT is_u64_UNSET_BIT : iso.

Lemma WHICH_BIT_mod s : WHICH_BIT s = s mod 64.
Proof. unfold WHICH_BIT. change 63 with (Z.ones 6). by rewrite Z.land_ones. Qed.

Lemma shiftr_6 s : Z.shiftr s 6 = s / 64.
Proof. by rewrite Z.shiftr_div_pow2. Qed.

Lemma shiftl_6 s : Z.shiftl s 6 = s * 64.
Proof. by rewrite Z.shiftl_mul_pow2. Qed.

(** [USED_BIT_VECTOR] selects the even bit positions. *)
Lemma USED_BIT_VECTOR_spec i : 0 <= i → Z.testbit USED_BIT_VECTOR i = (i <? 64) && Z.even i.
Proof.
  intros Hi. destruct (Z.ltb_spec i 64) as [Hlt|Hge].
  - assert (Hall : forallb (λ k, Bool.eqb (Z.testbit USED_BIT_VECTOR k) (Z.even k)) (seqZ 0 64) = true)
      by (vm_compute; reflexivity).
    rewrite forallb_forall in Hall. apply eqb_prop, Hall, list_elem_of_In, elem_of_seqZ. lia.
  - simpl. apply (Z_testbit_above _ 64); [|lia]. unfold USED_BIT_VECTOR. lia.
Qed.

(** ** Sizes *)

Definition SZ_ALIGNMENT : Z := 32.
#[export] Hint Unfold SZ_ALIGNMENT : conf.

(** [((n + SZ_ALIGNMENT - 1) & ~(SZ_ALIGNMENT - 1))] on a [size_t]. *)
Definition ALIGN_SZ_UP (n : Z) : Z :=
  Z.land (u64 (n + SZ_ALIGNMENT - 1)) (u64 (Z.lnot (SZ_ALIGNMENT - 1))).
Definition ALIGN_SZ_DOWN (n : Z) : Z := u64 (ALIGN_SZ_UP n - SZ_ALIGNMENT).

Lemma land_not_31 x : is_u64 x → Z.land x (u64 (Z.lnot 31)) = x - x mod 32.
Proof.
  intros Hx. change (u64 (Z.lnot 31)) with (Z.shiftl (Z.ones 59) 5).
  assert (Hb : Z.land x (Z.shiftl (Z.ones 59) 5) = Z.shiftl (Z.shiftr x 5) 5).
  { apply Z.bits_inj'. intros i Hi. rewrite Z.land_spec.
    destruct (Z.lt_ge_cases i 5).
    - rewrite !Z.shiftl_spec_low by lia. apply andb_false_r.
    - rewrite !Z.shiftl_spec, Z.shiftr_spec by lia. replace (i - 5 + 5) with i by lia.
      destruct (Z.lt_ge_cases i 64).
      + rewrite Z.ones_spec_low by lia. apply andb_true_r.
      + rewrite (is_u64_bits x) by (done || lia). done. }
  rewrite Hb, Z.shiftl_mul_pow2, Z.shiftr_div_pow2 by lia. change (2 ^ 5) with 32.
  pose proof (Z.div_mod x 32). lia.
Qed.

Lemma ALIGN_SZ_UP_eq n :
  ALIGN_SZ_UP n = u64 (n + 31) - u64 (n + 31) mod 32.
Proof.
  unfold ALIGN_SZ_UP. autounfold with conf. change (32 - 1) with 31.
  replace (n + 32 - 1) with (n + 31) by lia. apply land_not_31, u64_range.
Qed.

(** ** Compiler builtins *)

(** [__builtin_ctzll], undefined on 0 in C and never called there. *)
Fixpoint pos_ctz (p : positive) : Z :=
  match p with
  | xO q => 1 + pos_ctz q
  | _ => 0
  end.
Definition builtin_ctzll (x : Z) : Z :=
  match x with Zpos p => pos_ctz p | _ => 0 end.

(** [__builtin_bswap64] *)
Definition byte_of (x i : Z) : Z := Z.land (Z.shiftr x (8 * i)) 255.
Definition builtin_bswap64 (x : Z) : Z :=
  foldr (λ i acc, Z.lor (Z.shiftl (byte_of x i) (56 - 8 * i)) acc) 0 (seqZ 0 8).

Lemma pos_ctz_nonneg p : 0 <= pos_ctz p.
Proof. induction p; simpl; lia. Qed.

Lemma builtin_ctzll_nonneg x : 0 <= builtin_ctzll x.
Proof. destruct x; simpl; try lia. apply pos_ctz_nonneg. Qed.

Lemma builtin_ctzll_bit x : 0 < x → Z.testbit x (builtin_ctzll x) = true.
Proof.
  intros Hx. destruct x as [|p|]; try lia. clear Hx. simpl builtin_ctzll.
  induction p as [p IH|p IH|]; try reflexivity.
  change (Zpos p~0) with (2 * Zpos p). change (pos_ctz p~0) with (1 + pos_ctz p).
  replace (1 + pos_ctz p) with (Z.succ (pos_ctz p)) by lia.
  rewrite Z.double_bits_succ. exact IH.
Qed.

Lemma builtin_ctzll_low x i : 0 < x → 0 <= i < builtin_ctzll x → Z.testbit x i = false.
Proof.
  intros Hx. destruct x as [|p|]; try lia. clear Hx. simpl builtin_ctzll. revert i.
  induction p as [p IH|p IH|]; intros i Hi; simpl pos_ctz in Hi; try lia.
  change (Zpos p~0) with (2 * Zpos p).
  destruct (decide (i = 0)) as [->|]; [apply Z.testbit_even_0|].
  replace i with (Z.succ (i - 1)) by lia. rewrite Z.double_bits_succ. apply IH. lia.
Qed.

Lemma builtin_ctzll_lt x n : 0 <= n → 0 < x < 2 ^ n → builtin_ctzll x < n.
Proof.
  intros Hn Hx. destruct (Z.lt_ge_cases (builtin_ctzll x) n) as [|Hge]; [done|].
  pose proof (builtin_ctzll_bit x) as Hb. rewrite (Z_testbit_above x n) in Hb by lia.
  discriminate Hb. lia.
Qed.

(** [x & (x - 1)] clears exactly the lowest set bit. *)
Lemma land_pred_spec x j : 0 < x → 0 <= j →
  Z.testbit (Z.land x (x - 1)) j = Z.testbit x j && negb (j =? builtin_ctzll x).
Proof.
  intros Hx Hj. destruct x as [|p|]; try lia. clear Hx. simpl builtin_ctzll. revert j Hj.
  induction p as [p IH|p IH|]; intros j Hj.
  - change (Zpos p~1 - 1) with (2 * Zpos p). change (pos_ctz p~1) with 0.
    change (Zpos p~1) with (2 * Zpos p + 1). rewrite Z.land_spec.
    destruct (decide (j = 0)) as [->|]; [by rewrite Z.testbit_even_0, andb_false_r, Z.eqb_refl, andb_false_r|].
    replace j with (Z.succ (j - 1)) at 1 2 3 by lia.
    rewrite Z.testbit_odd_succ, Z.testbit_even_succ by lia.
    rewrite (proj2 (Z.eqb_neq j 0)) by done. by rewrite andb_diag, andb_true_r.
  - change (Zpos p~0) with (2 * Zpos p). change (pos_ctz p~0) with (1 + pos_ctz p).
    replace (2 * Zpos p - 1) with (2 * (Zpos p - 1) + 1) by lia. rewrite Z.land_spec.
    destruct (decide (j = 0)) as [->|].
    + by rewrite Z.testbit_even_0.
    + replace j with (Z.succ (j - 1)) at 1 2 3 by lia.
      rewrite Z.testbit_odd_succ, Z.testbit_even_succ, <-Z.land_spec by lia.
      rewrite IH by lia. f_equal. f_equal. apply eq_true_iff_eq. rewrite !Z.eqb_eq. lia.
  - change (1 - 1) with 0. rewrite Z.land_0_r, Z.testbit_0_l. change (pos_ctz 1) with 0.
    destruct (decide (j = 0)) as [->|]; [done|].
    rewrite (Z_testbit_above 1 1) by lia. done.
Qed.

Lemma is_u64_land_pred x : is_u64 x → 0 < x → is_u64 (Z.land x (x - 1)).
Proof. intros. apply is_u64_land; [done|lia]. Qed.

(** ** The set bits of a word, in increasing order *)

Definition set_bits (x : Z) : list Z := List.filter (Z.testbit x) (seqZ 0 64).

Lemma elem_of_set_bits x i : i ∈ set_bits x ↔ 0 <= i < 64 ∧ Z.testbit x i = true.
Proof. unfold set_bits. rewrite list_elem_of_In, filter_In, <-list_elem_of_In, elem_of_seqZ. naive_solver lia. Qed.

Lemma NoDup_List_filter {A} (f : A → bool) (l : list A) : NoDup l → NoDup (List.filter f l).
Proof.
  induction 1 as [|x l Hx Hl IH]; simpl; [constructor|].
  destruct (f x); [|done]. constructor; [|done].
  rewrite list_elem_of_In, filter_In, <-list_elem_of_In. tauto.
Qed.

Lemma NoDup_set_bits x : NoDup (set_bits x).
Proof. apply NoDup_List_filter, NoDup_seqZ. Qed.

(** Pulling the least element that satisfies [f] out of a filtered interval. *)
Lemma filter_seqZ_first (f g : Z → bool) m n c :
  m <= c < m + n → f c = true →
  (∀ i, m <= i < c → f i = false) →
  (∀ i, m <= i < m + n → g i = f i && negb (i =? c)) →
  List.filter f (seqZ m n) = c :: List.filter g (seqZ m n).
Proof.
  intros Hc Hfc Hlow Hg.
  assert (Hsplit : seqZ m n = seqZ m (c - m) ++ c :: seqZ (c + 1) (n - (c - m) - 1)).
  { replace n with ((c - m) + (1 + (n - (c - m) - 1))) at 1 by lia.
    rewrite seqZ_app by lia. f_equal. rewrite seqZ_cons by lia.
    replace (m + (c - m)) with c by lia. f_equal. f_equal; lia. }
  rewrite Hsplit, !filter_app. simpl. rewrite Hfc, Hg, Z.eqb_refl, andb_false_r by lia.
  assert (Hnil : ∀ h : Z → bool, (∀ i, m <= i < c → h i = false) → List.filter h (seqZ m (c - m)) = []).
  { intros h Hh.
    assert (Hf : ∀ l : list Z, (∀ i, i ∈ l → h i = false) → List.filter h l = []).
    { induction l as [|x l IH]; intros Hl; [done|]. simpl. rewrite Hl by left.
      apply IH. intros. apply Hl. by right. }
    apply Hf. intros i Hi%elem_of_seqZ. apply Hh. lia. }
  rewrite (Hnil f), (Hnil g) by (done || (intros; rewrite Hg, Hlow by lia; done)). simpl. f_equal.
  apply filter_ext_in. intros i Hi%list_elem_of_In%elem_of_seqZ. rewrite Hg by lia.
  rewrite (proj2 (Z.eqb_neq i c)) by lia. by rewrite andb_true_r.
Qed.

Lemma set_bits_cons x : is_u64 x → 0 < x →
  set_bits x = builtin_ctzll x :: set_bits (Z.land x (x - 1)).
Proof.
  intros Hx Hpos. pose proof (builtin_ctzll_nonneg x).
  assert (builtin_ctzll x < 64) by (apply builtin_ctzll_lt; unfold is_u64 in *; lia).
  apply filter_seqZ_first; [lia|by apply builtin_ctzll_bit|..]; intros i Hi.
  - apply builtin_ctzll_low; lia.
  - apply land_pred_spec; lia.
Qed.

Lemma set_bits_0 : set_bits 0 = [].
Proof. reflexivity. Qed.

Lemma set_bits_nil x : is_u64 x → set_bits x = [] → x = 0.
Proof.
  intros Hx Hnil. destruct (decide (x = 0)); [done|].
  rewrite set_bits_cons in Hnil by (unfold is_u64 in *; lia). done.
Qed.
