(* ===== verification/Printf.v ===== *)
(** * The log formatter

    src/iso_alloc_printf.c: the small printf behind [LOG] and [LOG_AND_ABORT]. A character
    is its code; a string is a list of characters without the terminating NUL. Reading past
    the terminator, writing past the buffer and an argument of the wrong kind are undefined
    behaviour ([PUndef]). *)

From S2P Require Import Prelude Words.

Definition PERCENT : Z := 37.
Definition NEWLINE : Z := 10.
Definition OUT_SIZE : Z := 65535.
Definition FMT_SIZE : Z := 63.

(** [asc_hex[n % base]] *)
Definition asc_hex (d : Z) : Z := if d <? 10 then 48 + d else 97 + (d - 10).

(** The digit loop of [_fmt]; [acc] is what has been written so far, from the end of the
    buffer. *)
Fixpoint fmt_loop (fuel : nat) (n base : Z) (acc : list Z) : list Z :=
  match fuel with
  | O => acc
  | S fuel' => if n =? 0 then acc else fmt_loop fuel' (n / base) base (asc_hex (n mod base) :: acc)
  end.

Definition _fmt (n base : Z) : list Z :=
  let s := fmt_loop 64 n base [] in
  if Z.of_nat (length s) =? 0 then [48] else s.

(** The variable arguments. *)
Inductive varg := AInt (v : Z) | AStr (s : option (list Z)).

Inductive presult := POut (out : list Z) | PUndef | PFuel.

(** [*idx] of the format [f] at position [i]. *)
Definition fchar (f : list Z) (i : nat) : option Z :=
  if (i <? length f)%nat then Some (nth i f 0) else if (i =? length f)%nat then Some 0 else None.

(** Appending [s] at [p]. *)
Definition emit (s out : list Z) : option (list Z) :=
  if Z.of_nat (length out + length s) <=? OUT_SIZE then Some (out ++ s) else None.

(** The inner loop: literal characters up to a percent sign, a NUL or a newline, which is
    copied too. *)
Fixpoint plain (fuel : nat) (f : list Z) (i : nat) (out : list Z) : option (nat * list Z) :=
  match fuel with
  | O => None
  | S fuel' =>
      match fchar f i with
      | None => None
      | Some c =>
          if (c =? PERCENT) || (c =? 0) then Some (i, out) else
          match emit [c] out with
          | None => None
          | Some out => if c =? NEWLINE then Some (i, out) else plain fuel' f (S i) out
          end
      end
  end.

(** [write(fd, out, strlen(out))]: the buffer was cleared, and must not be full. *)
Definition finish (out : list Z) : presult := if Z.of_nat (length out) <? OUT_SIZE then POut out else PUndef.

(** The outer loop. The tests [0 > j] and [0 > i] on unsigned operands are never true. *)
Fixpoint printf_loop (fuel : nat) (f : list Z) (i : nat) (args : list varg) (out : list Z) : presult :=
  match fuel with
  | O => PFuel
  | S fuel' =>
      match fchar f i with
      | None => PUndef
      | Some c =>
          if c =? 0 then finish out else
          if OUT_SIZE <=? Z.of_nat (length out) then finish out else
          match plain (S (length f)) f i out with
          | None => PUndef
          | Some (i, out) =>
              let i := S i in
              let number s i args := match emit s out with None => PUndef | Some out => printf_loop fuel' f (S i) args out end in
              match fchar f i with
              | None => PUndef
              | Some c =>
                  if c =? 0 then finish out else
                  if (c =? 120) || (c =? 112) then
                    match args with AInt v :: args => number (_fmt (u64 v) 16) i args | _ => PUndef end
                  else if (c =? 100) || (c =? 117) then
                    match args with AInt v :: args => number (_fmt (u32 v) 10) i args | _ => PUndef end
                  else if c =? 108 then
                    let i := match fchar f (S i) with Some d => if (d =? 100) || (d =? 117) then S i else i | None => i end in
                    match args with AInt v :: args => number (_fmt (u64 v) 10) i args | _ => PUndef end
                  else if c =? 115 then
                    match args with
                    | AStr None :: _ => finish out
                    | AStr (Some s) :: args => number s i args
                    | _ => PUndef
                    end
                  else printf_loop fuel' f (S i) args out
              end
          end
      end
  end.

(** What [_iso_alloc_printf] writes to the descriptor; [None] is a NULL format. *)
Definition _iso_alloc_printf (f : option (list Z)) (args : list varg) : presult :=
  match f with
  | None => POut []
  | Some f => printf_loop (S (length f)) f 0 args []
  end.

(** ** Numbers *)

Definition digit_value (c : Z) : Z := if c <? 97 then c - 48 else c - 87.

(** Reading a number back. *)
Definition parse (base : Z) (s : list Z) : Z := foldl (λ acc c, acc * base + digit_value c) 0 s.

Lemma digit_value_hex d : 0 <= d < 16 → digit_value (asc_hex d) = d.
Proof. intros Hd. unfold asc_hex, digit_value. destruct (Z.ltb_spec d 10); [rewrite (proj2 (Z.ltb_lt _ 97)) by lia|rewrite (proj2 (Z.ltb_ge _ 97)) by lia]; lia. Qed.

(** The loop writes the digits of [n] in front of [acc]. *)
Lemma fmt_loop_spec fuel n base acc : 2 <= base <= 16 → 0 <= n < base ^ Z.of_nat fuel →
  ∃ s, fmt_loop fuel n base acc = s ++ acc ∧ parse base s = n ∧ (n ≠ 0 → s ≠ []) ∧
    (∀ k, n < base ^ Z.of_nat k → (length s <= k)%nat) ∧ Forall (λ c, c ≠ 0 ∧ c ≠ PERCENT ∧ c ≠ NEWLINE) s.
Proof.
  intros Hb. revert n acc. induction fuel as [|fuel IH]; intros n acc Hn; cbn [fmt_loop].
  { exists []. simpl in Hn. assert (n = 0) as -> by lia. split_and!; try done. simpl. lia. }
  destruct (Z.eqb_spec n 0) as [->|Hne]; [exists []; split_and!; try done; simpl; lia|].
  assert (Hq : 0 <= n / base < base ^ Z.of_nat fuel).
  { split; [apply Z.div_pos; lia|]. apply Z.div_lt_upper_bound; [lia|]. rewrite Nat2Z.inj_succ, Z.pow_succ_r in Hn by lia. lia. }
  pose proof (Z.mod_pos_bound n base ltac:(lia)) as Hm. pose proof (Z.div_mod n base ltac:(lia)) as Hdm.
  destruct (IH (n / base) (asc_hex (n mod base) :: acc) Hq) as (s & -> & Hp & _ & Hl & Hok).
  exists (s ++ [asc_hex (n mod base)]). rewrite <-app_assoc. split_and!; [done| | | |].
  - unfold parse. rewrite foldl_app. simpl. fold (parse base s). rewrite Hp, digit_value_hex; lia.
  - intros _ Hnil. by apply app_nil in Hnil as [_ ?].
  - intros k Hk. rewrite length_app. simpl. destruct k as [|k]; [simpl in Hk; lia|].
    assert (n / base < base ^ Z.of_nat k) by (apply Z.div_lt_upper_bound; [lia|]; rewrite Nat2Z.inj_succ, Z.pow_succ_r in Hk by lia; lia).
    specialize (Hl k ltac:(done)). lia.
  - apply list.Forall_app. split; [done|]. apply list.Forall_singleton. unfold asc_hex, PERCENT, NEWLINE. destruct (Z.ltb_spec (n mod base) 10); lia.
Qed.

Lemma fmt_spec n base : base = 10 ∨ base = 16 → is_u64 n →
  parse base (_fmt n base) = n ∧ (1 <= length (_fmt n base) <= 20)%nat ∧ Forall (λ c, c ≠ 0 ∧ c ≠ PERCENT ∧ c ≠ NEWLINE) (_fmt n base).
Proof.
  intros Hb Hn. unfold is_u64 in Hn. assert (2 <= base <= 16) as Hb' by lia.
  assert (Hpow : 2 ^ 64 <= base ^ Z.of_nat 20) by (destruct Hb as [-> | ->]; by compute).
  assert (Hbig : base ^ Z.of_nat 20 <= base ^ Z.of_nat 64) by (apply Z.pow_le_mono_r; lia).
  destruct (fmt_loop_spec 64 n base [] Hb') as (s & Heq & Hp & Hne & Hl & Hok); [lia|]. rewrite app_nil_r in Heq.
  specialize (Hl 20%nat ltac:(lia)). unfold _fmt. rewrite Heq. cbv zeta. destruct (Z.eqb_spec (Z.of_nat (length s)) 0) as [Hz|Hz].
  - assert (s = []) as -> by (destruct s; [done|simpl in Hz; lia]). simpl in Hp. subst n. split_and!; try (simpl; lia); [done|].
    repeat constructor; done.
  - split_and!; try done; lia.
Qed.

(** The digits [_fmt] produces for a 64 bit number in base 10 or 16 read back as that
    number, never overflow its 63 character buffer, and contain no NUL. *)
Theorem fmt_roundtrip n base : base = 10 ∨ base = 16 → is_u64 n →
  parse base (_fmt n base) = n ∧ 1 <= Z.of_nat (length (_fmt n base)) <= FMT_SIZE ∧ Forall (λ c, c ≠ 0) (_fmt n base).
Proof.
  intros Hb Hn. destruct (fmt_spec n base Hb Hn) as (Hp & Hl & Hok). unfold FMT_SIZE. split; [done|]. split; [lia|].
  eapply list.Forall_impl; [exact Hok|]. naive_solver.
Qed.

(** ** The reference for numbers *)

(** The numeral of [n] in positional notation: the digits of weight [base ^ k], the highest
    first, as many as [n] needs and at least one. *)
Definition DIGITS : list Z := [48; 49; 50; 51; 52; 53; 54; 55; 56; 57; 97; 98; 99; 100; 101; 102].
Definition digit_at (base n k : Z) : Z := nth (Z.to_nat (n / base ^ k mod base)) DIGITS 0.
Definition places (base n : Z) : Z := 1 + Z.of_nat (length (List.filter (λ k, base ^ k <=? n) (seqZ 1 63))).
Definition numeral (base n : Z) : list Z := digit_at base n <$> reverse (seqZ 0 (places base n)).

Lemma asc_hex_digit d : 0 <= d < 16 → asc_hex d = nth (Z.to_nat d) DIGITS 0.
Proof.
  intros Hd. assert (Hall : forallb (λ d, asc_hex d =? nth (Z.to_nat d) DIGITS 0) (seqZ 0 16) = true) by (vm_compute; reflexivity).
  rewrite forallb_forall in Hall. apply Z.eqb_eq, Hall, list_elem_of_In, elem_of_seqZ. lia.
Qed.

(** The number of places of a number between two powers of the base. *)
Lemma filter_below (f : Z → bool) a n k : 0 <= k <= n → (∀ j, a <= j < a + n → f j = (j <? a + k)) →
  Z.of_nat (length (List.filter f (seqZ a n))) = k.
Proof.
  intros Hk Hf. replace n with (k + (n - k)) by lia. rewrite seqZ_app, filter_app, length_app by lia.
  rewrite (List.filter_ext_in _ (λ _, true)), filter_true; [rewrite (List.filter_ext_in _ (λ _, false)), filter_false|].
  - rewrite length_seqZ. simpl. lia.
  - intros j Hj%list_elem_of_In%elem_of_seqZ. rewrite Hf by lia. apply Z.ltb_ge. lia.
  - intros j Hj%list_elem_of_In%elem_of_seqZ. rewrite Hf by lia. apply Z.ltb_lt. lia.
Qed.

Lemma places_eq base n N : 2 <= base → 1 <= N <= 64 → (N = 1 ∨ base ^ (N - 1) <= n) → n < base ^ N → places base n = N.
Proof.
  intros Hb HN Hlo Hhi. unfold places. rewrite (filter_below _ _ _ (N - 1)); [lia|lia|]. intros j Hj.
  destruct (Z.ltb_spec j (1 + (N - 1))) as [Hlt|Hge].
  - apply Z.leb_le. destruct Hlo as [->|Hlo]; [lia|]. etrans; [|exact Hlo]. apply Z.pow_le_mono_r; lia.
  - apply Z.leb_gt. eapply Z.lt_le_trans; [exact Hhi|]. apply Z.pow_le_mono_r; lia.
Qed.

(** The digit loop writes the digits of the places below [N]. *)
Lemma fmt_loop_digits fuel N n base acc : 2 <= base <= 16 → 0 <= N <= Z.of_nat fuel → (N = 0 ∨ base ^ (N - 1) <= n) → 0 <= n < base ^ N →
  fmt_loop fuel n base acc = (digit_at base n <$> reverse (seqZ 0 N)) ++ acc.
Proof.
  intros Hb. revert N n acc. induction fuel as [|fuel IH]; intros N n acc HN Hlo Hn; cbn [fmt_loop].
  { assert (N = 0) as -> by lia. done. }
  destruct (Z.eqb_spec n 0) as [->|Hne].
  { destruct Hlo as [->|Hlo]; [done|]. pose proof (Z.pow_pos_nonneg base (N - 1)). destruct (decide (N = 0)) as [->|]; [done|lia]. }
  assert (HN0 : N ≠ 0) by (intros ->; simpl in Hn; lia). destruct Hlo as [?|Hlo]; [done|].
  assert (Hpow : base ^ N = base * base ^ (N - 1)) by (rewrite <-Z.pow_succ_r by lia; f_equal; lia).
  rewrite (IH (N - 1)).
  - replace N with (1 + (N - 1)) at 2 by lia. rewrite seqZ_app by lia. change (seqZ 0 1) with [0].
    rewrite reverse_app, fmap_app, <-app_assoc. f_equal.
    + replace (0 + 1) with (1 + 0) by lia. rewrite <-(fmap_add_seqZ 1 0), <-fmap_reverse, <-list_fmap_compose. apply list_fmap_ext.
      intros t k Hk%list_elem_of_lookup_2. rewrite elem_of_reverse, elem_of_seqZ in Hk. unfold compose, digit_at.
      do 3 f_equal. rewrite Z.div_div by (try lia; apply Z.pow_nonzero; lia). rewrite <-Z.pow_succ_r by lia. do 2 f_equal. lia.
    + simpl. unfold digit_at. rewrite Z.pow_0_r, Z.div_1_r. pose proof (Z.mod_pos_bound n base ltac:(lia)). rewrite asc_hex_digit by lia. done.
  - lia.
  - destruct (decide (N = 1)) as [->|HN1]; [by left|right]. apply Z.div_le_lower_bound; [lia|].
    rewrite <-Z.pow_succ_r by lia. by replace (Z.succ (N - 1 - 1)) with (N - 1) by lia.
  - split; [apply Z.div_pos; lia|]. apply Z.div_lt_upper_bound; lia.
Qed.

Lemma fmt_numeral n base : base = 10 ∨ base = 16 → is_u64 n → _fmt n base = numeral base n.
Proof.
  intros Hb Hn. unfold is_u64 in Hn. unfold _fmt, numeral. destruct (decide (n = 0)) as [->|Hne]; [by destruct Hb as [-> | ->]; vm_compute|].
  assert (HN : ∃ N, 1 <= N <= 64 ∧ base ^ (N - 1) <= n < base ^ N).
  { assert (Hind : ∀ k : nat, n < base ^ Z.of_nat k → ∃ N, 1 <= N <= Z.of_nat k ∧ base ^ (N - 1) <= n < base ^ N).
    { induction k as [|k IH]; intros Hk; [simpl in Hk; lia|]. destruct (Z.lt_ge_cases n (base ^ Z.of_nat k)) as [Hlt|Hge].
      - destruct (IH Hlt) as (N & ? & ?). exists N. split; [lia|done].
      - exists (Z.of_nat (S k)). split; [lia|]. by replace (Z.of_nat (S k) - 1) with (Z.of_nat k) by lia. }
    apply (Hind 64%nat). assert (2 ^ 64 <= base ^ Z.of_nat 64) by (apply Z.pow_le_mono_l; lia). lia. }
  destruct HN as (N & HN & Hlo & Hhi). rewrite (fmt_loop_digits 64 N) by (try lia; by right). rewrite (places_eq base n N) by (try lia; by right).
  rewrite app_nil_r. rewrite (proj2 (Z.eqb_neq _ 0)); [done|]. rewrite length_fmap, length_reverse, length_seqZ. lia.
Qed.

(** ** Whole formats *)

(** A conversion with its argument. *)
Inductive item := IHex (v : Z) | IDec (v : Z) | ILong (v : Z) | IStr (s : list Z).

Definition item_format (x : item) : list Z :=
  match x with IHex _ => [PERCENT; 120] | IDec _ => [PERCENT; 100] | ILong _ => [PERCENT; 108; 117] | IStr _ => [PERCENT; 115] end.
Definition item_arg (x : item) : varg :=
  match x with IHex v | IDec v | ILong v => AInt v | IStr s => AStr (Some s) end.
(** What is printed: the numeral of the argument as a number without sign, of which [%d] takes
    32 bits and the others 64. *)
Definition item_text (x : item) : list Z :=
  match x with IHex v => numeral 16 (u64 v) | IDec v => numeral 10 (u32 v) | ILong v => numeral 10 (u64 v) | IStr s => s end.

Lemma u32_u64 v : is_u64 (u32 v).
Proof. unfold is_u64. pose proof (u32_range v). lia. Qed.

(** A message as [LOG] builds it: pieces of text, each with a conversion behind it, a last
    text and a newline. *)
Definition message : Type := list (list Z * item) * list Z.
Definition message_format (g : message) : list Z := concat ((λ x, x.1 ++ item_format x.2) <$> g.1) ++ g.2 ++ [NEWLINE].
Definition message_args (g : message) : list varg := (λ x, item_arg x.2) <$> g.1.
Definition message_text (g : message) : list Z := concat ((λ x, x.1 ++ item_text x.2) <$> g.1) ++ g.2 ++ [NEWLINE].

Definition is_text (t : list Z) : Prop := Forall (λ c, c ≠ 0 ∧ c ≠ PERCENT ∧ c ≠ NEWLINE) t.

Lemma fchar_mid pre c rest : fchar (pre ++ c :: rest) (length pre) = Some c.
Proof.
  unfold fchar. rewrite length_app. simpl. rewrite (proj2 (Nat.ltb_lt _ _)) by lia. f_equal. by rewrite app_nth2, Nat.sub_diag by lia.
Qed.

Lemma fchar_end f : fchar f (length f) = Some 0.
Proof. unfold fchar. by rewrite Nat.ltb_irrefl, Nat.eqb_refl. Qed.

Lemma emit_ok s out : Z.of_nat (length out + length s) <= OUT_SIZE → emit s out = Some (out ++ s).
Proof. intros Hl. unfold emit. by rewrite (proj2 (Z.leb_le _ _)). Qed.

(** The literal text up to a conversion, and up to the newline. *)
Lemma plain_text fuel pre t c rest out : is_text t → (length t < fuel)%nat → c = PERCENT →
  Z.of_nat (length out + length t) <= OUT_SIZE →
  plain fuel (pre ++ t ++ c :: rest) (length pre) out = Some ((length pre + length t)%nat, out ++ t).
Proof.
  intros Ht Hf -> Hl. revert fuel pre out Hf Hl. induction Ht as [|x t (X1 & X2 & X3) Ht IH]; intros fuel pre out Hf Hl;
    (destruct fuel as [|fuel]; [simpl in Hf; lia|]); cbn [plain app].
  - rewrite fchar_mid. simpl. by rewrite Nat.add_0_r, app_nil_r.
  - rewrite fchar_mid, (proj2 (Z.eqb_neq x PERCENT)), (proj2 (Z.eqb_neq x 0)) by done. cbn [orb].
    simpl length in Hl, Hf. rewrite emit_ok by (simpl; lia). rewrite (proj2 (Z.eqb_neq x NEWLINE)) by done.
    specialize (IH fuel (pre ++ [x]) (out ++ [x]) ltac:(lia) ltac:(rewrite length_app; simpl; lia)). rewrite length_app, <-!app_assoc in IH. simpl in IH.
    rewrite Nat.add_1_r in IH. rewrite IH. f_equal. f_equal. simpl. lia.
Qed.

Lemma plain_newline fuel pre t out : is_text t → (length t < fuel)%nat → Z.of_nat (length out + length t) < OUT_SIZE →
  plain fuel (pre ++ t ++ [NEWLINE]) (length pre) out = Some ((length pre + length t)%nat, out ++ t ++ [NEWLINE]).
Proof.
  intros Ht Hf Hl. revert fuel pre out Hf Hl. induction Ht as [|x t (X1 & X2 & X3) Ht IH]; intros fuel pre out Hf Hl;
    (destruct fuel as [|fuel]; [simpl in Hf; lia|]); cbn [plain app].
  - rewrite fchar_mid. cbn [Z.eqb orb]. change (NEWLINE =? PERCENT) with false. change (NEWLINE =? 0) with false. cbn [orb].
    rewrite emit_ok by (simpl in *; lia). change (NEWLINE =? NEWLINE) with true. simpl. by rewrite Nat.add_0_r.
  - rewrite fchar_mid, (proj2 (Z.eqb_neq x PERCENT)), (proj2 (Z.eqb_neq x 0)) by done. cbn [orb].
    simpl length in Hl, Hf. rewrite emit_ok by (simpl; lia). rewrite (proj2 (Z.eqb_neq x NEWLINE)) by done.
    specialize (IH fuel (pre ++ [x]) (out ++ [x]) ltac:(lia) ltac:(rewrite length_app; simpl; lia)). rewrite length_app, <-!app_assoc in IH. simpl in IH.
    rewrite Nat.add_1_r in IH. rewrite IH. f_equal. f_equal. simpl. lia.
Qed.

Lemma first_char pre t c rest : is_text t → c ≠ 0 → ∃ d, fchar (pre ++ t ++ c :: rest) (length pre) = Some d ∧ d ≠ 0.
Proof.
  intros Ht Hc. destruct t as [|x t]; [exists c; split; [apply fchar_mid|done]|]. exists x. split; [apply (fchar_mid pre x (t ++ c :: rest))|].
  by apply list.Forall_cons in Ht as [(? & _) _].
Qed.

(** One round of the outer loop: the text in front of the conversion, then the
    conversion. *)
Lemma printf_piece fuel pre t x rest args out : is_text t → Z.of_nat (length out + length t + length (item_text x)) < OUT_SIZE →
  printf_loop (S fuel) (pre ++ t ++ item_format x ++ rest) (length pre) (item_arg x :: args) out =
  printf_loop fuel (pre ++ t ++ item_format x ++ rest) (length pre + length t + length (item_format x)) args (out ++ t ++ item_text x).
Proof.
  intros Ht Hl. cbn [printf_loop]. assert (Hfmt : ∃ k tl, item_format x = PERCENT :: k :: tl) by (destruct x; by eexists _, _).
  destruct Hfmt as (k & tl & Hx). assert (Hf : pre ++ t ++ item_format x ++ rest = pre ++ t ++ PERCENT :: (k :: tl) ++ rest) by by rewrite Hx.
  rewrite Hf. destruct (first_char pre t PERCENT ((k :: tl) ++ rest) Ht ltac:(done)) as (d & -> & Hd).
  rewrite (proj2 (Z.eqb_neq d 0)) by done. rewrite (proj2 (Z.leb_gt OUT_SIZE _)) by lia.
  rewrite plain_text by (done || rewrite ?length_app; simpl; lia). cbv zeta.
  assert (Hk : fchar (pre ++ t ++ PERCENT :: (k :: tl) ++ rest) (S (length pre + length t)) = Some k).
  { replace (pre ++ t ++ PERCENT :: (k :: tl) ++ rest) with ((pre ++ t ++ [PERCENT]) ++ k :: (tl ++ rest)) by (rewrite <-!app_assoc; done).
    replace (S (length pre + length t)) with (length (pre ++ t ++ [PERCENT])) by (rewrite !length_app; simpl; lia). apply fchar_mid. }
  rewrite Hk. assert (Hem : emit (item_text x) (out ++ t) = Some (out ++ t ++ item_text x)).
  { rewrite emit_ok by (rewrite length_app; lia). by rewrite <-app_assoc. }
  destruct x as [v|v|v|s]; simpl in Hx; injection Hx as <- <-; cbn [item_text item_arg] in *; cbn [Z.eqb Pos.eqb orb];
    rewrite ?fmt_numeral by (auto using u32_u64, u64_range).
  - rewrite Hem. f_equal. simpl. lia.
  - rewrite Hem. f_equal. simpl. lia.
  - assert (Hu : fchar (pre ++ t ++ PERCENT :: [108; 117] ++ rest) (S (S (length pre + length t))) = Some 117).
    { replace (pre ++ t ++ PERCENT :: [108; 117] ++ rest) with ((pre ++ t ++ [PERCENT; 108]) ++ 117 :: rest) by (rewrite <-!app_assoc; done).
      replace (S (S (length pre + length t))) with (length (pre ++ t ++ [PERCENT; 108])) by (rewrite !length_app; simpl; lia). apply fchar_mid. }
    rewrite Hu. cbn [Z.eqb Pos.eqb orb]. rewrite ?fmt_numeral by (auto using u64_range). rewrite Hem. f_equal. simpl. lia.
  - rewrite Hem. f_equal. simpl. lia.
Qed.

Lemma printf_message fuel pre ps last out : Forall (λ x, is_text x.1) ps → is_text last → (length ps < fuel)%nat →
  Z.of_nat (length out + length (message_text (ps, last))) < OUT_SIZE →
  printf_loop fuel (pre ++ message_format (ps, last)) (length pre) (message_args (ps, last)) out = POut (out ++ message_text (ps, last)).
Proof.
  intros Hps Hlast. revert fuel pre out. induction Hps as [|[t x] ps Ht Hps IH]; intros fuel pre out Hf Hl;
    (destruct fuel as [|fuel]; [simpl in Hf; lia|]).
  - unfold message_format, message_args, message_text in *. cbn [fst snd fmap list_fmap concat app] in *. rewrite length_app in Hl. simpl length in Hl.
    cbn [printf_loop].
    destruct (first_char pre last NEWLINE [] Hlast ltac:(done)) as (d & -> & Hd). rewrite (proj2 (Z.eqb_neq d 0)) by done.
    rewrite (proj2 (Z.leb_gt OUT_SIZE _)) by lia. rewrite plain_newline by (done || rewrite ?length_app; simpl; lia).
    replace (S (length pre + length last)) with (length (pre ++ last ++ [NEWLINE])) by (rewrite !length_app; simpl; lia).
    rewrite fchar_end. cbn [Z.eqb]. unfold finish. rewrite (proj2 (Z.ltb_lt _ _)); [done|]. rewrite !length_app. simpl. lia.
  - unfold message_format, message_args, message_text in *. cbn [fst snd] in *. rewrite !fmap_cons in *. cbn [concat fst snd] in *.
    rewrite <-!app_assoc in *. rewrite !length_app in Hl. rewrite printf_piece by (done || lia).
    specialize (IH fuel (pre ++ t ++ item_format x) (out ++ t ++ item_text x) ltac:(simpl in Hf; lia)).
    rewrite !length_app, <-!app_assoc in IH. rewrite <-Nat.add_assoc, IH; [done|]. rewrite ?length_app in *. lia.
Qed.

(** The whole of a message, as long as it fits the buffer. *)
Lemma printf_run g : Forall (λ x, is_text x.1) g.1 → is_text g.2 → Z.of_nat (length (message_text g)) < OUT_SIZE →
  _iso_alloc_printf (Some (message_format g)) (message_args g) = POut (message_text g).
Proof.
  destruct g as [ps last]. cbn [fst snd]. intros Hps Hlast Hl. unfold _iso_alloc_printf.
  apply (printf_message _ [] ps last []); try done. unfold message_format. rewrite length_app. simpl.
  assert (length ps <= length (concat ((λ x, x.1 ++ item_format x.2) <$> ps)))%nat; [|lia].
  clear. induction ps as [|[t x] ps IH]; [done|]. rewrite fmap_cons. cbn [concat fst snd]. rewrite !length_app. destruct x; simpl; lia.
Qed.

(** C39. A log line made of literal text and the conversions %x, %d, %lu and %s, with a
    newline at its end and matching arguments, is printed with the text unchanged, the
    strings copied and every number as its numeral in base 16 or 10, as long as it fits the
    64 KiB buffer. Numbers are taken without sign, by %d the low 32 bits: a negative argument
    appears as a large number, since the test for it is on an unsigned variable. *)
Theorem printf_correct g : Forall (λ x, is_text x.1) g.1 → is_text g.2 → Z.of_nat (length (message_text g)) < OUT_SIZE →
  _iso_alloc_printf (Some (message_format g)) (message_args g) = POut (message_text g).
Proof. apply printf_run. Qed.

(** A format with neither a percent sign nor a newline is read past its end: the
    loop steps over the terminating NUL before it tests for it. *)
Theorem printf_overreads f args : is_text f → f ≠ [] → Z.of_nat (length f) <= OUT_SIZE → _iso_alloc_printf (Some f) args = PUndef.
Proof.
  intros Ht Hne Hl. unfold _iso_alloc_printf. cbn [printf_loop]. destruct f as [|c f]; [done|]. pose proof (fchar_mid [] c f) as Hc. simpl in Hc.
  change (length ([] : list Z)) with 0%nat in Hc. rewrite Hc. pose proof Ht as Ht'. apply list.Forall_cons in Ht' as [(C1 & _) _].
  rewrite (proj2 (Z.eqb_neq c 0)) by done. change (OUT_SIZE <=? Z.of_nat (length ([] : list Z))) with false. cbv iota.
  assert (Hplain : ∀ fuel pre t out, is_text t → (length t < fuel)%nat → Z.of_nat (length out + length t) <= OUT_SIZE →
    plain fuel (pre ++ t) (length pre) out = Some ((length pre + length t)%nat, out ++ t)).
  { clear. intros fuel pre t out Ht. revert fuel pre out. induction Ht as [|x t (X1 & X2 & X3) Ht IH]; intros fuel pre out Hf Hl;
      (destruct fuel as [|fuel]; [simpl in Hf; lia|]); cbn [plain].
    - rewrite app_nil_r, fchar_end. simpl. by rewrite Nat.add_0_r, app_nil_r.
    - rewrite fchar_mid, (proj2 (Z.eqb_neq x PERCENT)), (proj2 (Z.eqb_neq x 0)) by done. cbn [orb].
      simpl length in Hl, Hf. rewrite emit_ok by (simpl; lia). rewrite (proj2 (Z.eqb_neq x NEWLINE)) by done.
      specialize (IH fuel (pre ++ [x]) (out ++ [x]) ltac:(lia) ltac:(rewrite length_app; simpl; lia)). rewrite length_app, <-!app_assoc in IH. simpl in IH.
      rewrite Nat.add_1_r in IH. rewrite IH. f_equal. f_equal. simpl. lia. }
  specialize (Hplain (S (length (c :: f))) [] (c :: f) [] Ht ltac:(lia) Hl). change ([] ++ c :: f) with (c :: f) in Hplain.
  change (length ([] : list Z)) with 0%nat in Hplain. rewrite Hplain. unfold fchar. rewrite (proj2 (Nat.ltb_ge _ _)) by (simpl; lia).
  by rewrite (proj2 (Nat.eqb_neq _ _)) by (simpl; lia).
Qed.
