(* ===== verification/Conf.v ===== *)
(** * Configuration

    The constants of include/conf.h, include/iso_alloc_internal.h and
    include/iso_alloc_ds.h, and the compile-time flags of the Makefile that select code
    in the modelled functions. A flag [F] of the Makefile is the field [F] of the class
    [Config]: [#if F] in the source is [if F then ... else ...] in the model, and a
    theorem stated for every [Config] holds for every build. *)

From S2P Require Import Prelude Words.

(** ** include/conf.h *)

Definition CANARY_COUNT_DIV : Z := 7.
Definition MIN_RAND_FREELIST : Z := 4.
Definition ZONE_ALLOC_RETIRE : Z := 32.
Definition POISON_BYTE : Z := 0xde.
Definition ZONE_CACHE_SZ : Z := 8.
Definition CHUNK_QUARANTINE_SZ : Z := 64.
Definition MAX_ZONES : Z := 8192.
Definition SMALL_SIZE_MAX : Z := 65536.
Definition BIG_ZONE_WASTE : Z := 8192.
Definition BIG_ZONE_MAX_FREE_LIST : Z := 64.
Definition BIG_ZONE_ALLOC_RETIRE : Z := 16.
Definition ZONE_512 : Z := 512.
Definition ZONE_1024 : Z := 1024.
Definition MAX_DEFAULT_ZONE_SZ : Z := 8192.
Definition SMALLEST_CHUNK_SZ : Z := SZ_ALIGNMENT.

(** ** include/iso_alloc_internal.h *)

Definition BITS_PER_CHUNK : Z := 2.
Definition BITS_PER_BYTE : Z := 8.
Definition BITS_PER_QWORD : Z := 64.
Definition CHUNK_ALIGNMENT : Z := 8.
Definition BIG_SZ_MAX : Z := 4294967296.
Definition MIN_BITMAP_IDX : Z := 8.
Definition WASTED_SZ_MULTIPLIER_SHIFT : Z := 3.
Definition BIG_ZONE_META_DATA_PAGE_COUNT : Z := 1.
Definition CANARY_VALIDATE_MASK : Z := 0xffffffffffffff00.
Definition BAD_BIT_SLOT : Z := -1.
Definition ZONE_USER_SIZE : Z := 4194304.
Definition TAGGED_PTR_MASK : Z := 0x00ffffffffffffff.
Definition IS_TAGGED_PTR_MASK : Z := 0xff00000000000000.
Definition UNTAGGED_BITS : Z := 56.
Definition MEM_TAG_SIZE : Z := 1.
Definition MEGABYTE_SIZE : Z := 1048576.

(** ** include/iso_alloc_ds.h *)

Definition ZONE_FREE_LIST_SZ : Z := 255.
Definition FREE_LIST_SHF : Z := 16.
Definition CHUNK_TO_ZONE_TABLE_SZ : Z := 65535 * 2.
Definition SZ_TO_ZONE_LOOKUP_IDX (size : Z) : Z := Z.shiftr size 4.
Definition ADDR_TO_CHUNK_TABLE (p : Z) : Z := Z.land (Z.shiftr p 22) 0xffff.

(** [sizeof] of the structures on x86-64 with pthread mutexes of 40 bytes. *)
Definition SIZEOF_ZONE : Z := 2112.
Definition SIZEOF_ROOT : Z := 8520.
Definition SIZEOF_BIG_ZONE : Z := 48.

(** The array [small_bitmap_sizes], the alignment entry 0 included. *)
Definition small_bitmap_sizes : list Z := [1024; 512; 256; 128; 64; 32; 16; 0].

#[export] Hint Unfold CANARY_COUNT_DIV MIN_RAND_FREELIST ZONE_ALLOC_RETIRE POISON_BYTE
  ZONE_CACHE_SZ CHUNK_QUARANTINE_SZ MAX_ZONES SMALL_SIZE_MAX BIG_ZONE_WASTE
  BIG_ZONE_MAX_FREE_LIST BIG_ZONE_ALLOC_RETIRE ZONE_512 ZONE_1024 MAX_DEFAULT_ZONE_SZ
  SMALLEST_CHUNK_SZ BITS_PER_CHUNK BITS_PER_BYTE BITS_PER_QWORD CHUNK_ALIGNMENT BIG_SZ_MAX
  MIN_BITMAP_IDX WASTED_SZ_MULTIPLIER_SHIFT BIG_ZONE_META_DATA_PAGE_COUNT
  CANARY_VALIDATE_MASK BAD_BIT_SLOT ZONE_USER_SIZE TAGGED_PTR_MASK IS_TAGGED_PTR_MASK
  UNTAGGED_BITS MEM_TAG_SIZE MEGABYTE_SIZE ZONE_FREE_LIST_SZ FREE_LIST_SHF
  CHUNK_TO_ZONE_TABLE_SZ SIZEOF_ZONE SIZEOF_ROOT SIZEOF_BIG_ZONE : conf.

(** ** The Makefile's flags *)

Class Config := {
  MASK_PTRS : bool;
  DISABLE_CANARY : bool;
  SANITIZE_CHUNKS : bool;
  VERIFY_FREE_BIT_SLOTS : bool;
  RANDOMIZE_FREELIST : bool;
  STRONG_SIZE_ISOLATION : bool;
  SMALL_MEM_STARTUP : bool;
  MEMORY_TAGGING : bool;
  NO_ZERO_ALLOCATIONS : bool;
  ABORT_ON_NULL : bool;
  ABORT_ON_UNOWNED_PTR : bool;
  ABORT_NO_ENTROPY : bool;
  FUZZ_MODE : bool;
  PROTECT_FREE_BIG_ZONES : bool;
  BIG_ZONE_GUARD : bool;
  BIG_ZONE_META_DATA_GUARD : bool;
  PERM_FREE_REALLOC : bool;
  AUTO_CTOR_DTOR : bool;
  ISO_DTOR_CLEANUP : bool;
  MEMCPY_SANITY : bool;
  MEMSET_SANITY : bool;
}.

(** The values the Makefile ships with. *)
Definition makefile_config : Config := {|
  MASK_PTRS := true;
  DISABLE_CANARY := false;
  SANITIZE_CHUNKS := false;
  VERIFY_FREE_BIT_SLOTS := false;
  RANDOMIZE_FREELIST := true;
  STRONG_SIZE_ISOLATION := false;
  SMALL_MEM_STARTUP := false;
  MEMORY_TAGGING := false;
  NO_ZERO_ALLOCATIONS := true;
  ABORT_ON_NULL := false;
  ABORT_ON_UNOWNED_PTR := true;
  ABORT_NO_ENTROPY := true;
  FUZZ_MODE := false;
  PROTECT_FREE_BIG_ZONES := false;
  BIG_ZONE_GUARD := false;
  BIG_ZONE_META_DATA_GUARD := false;
  PERM_FREE_REALLOC := false;
  AUTO_CTOR_DTOR := true;
  ISO_DTOR_CLEANUP := false;
  MEMCPY_SANITY := false;
  MEMSET_SANITY := false;
|}.

(** [default_zones]: the sizes created at startup. *)
Definition default_zones `{Config} : list Z :=
  if SMALL_MEM_STARTUP then [64; 256; 512; 1024]
  else [32; 64; 128; 256; 512; 1024; 2048; 4096; 8192].
Definition DEFAULT_ZONE_COUNT `{Config} : Z := Z.of_nat (length default_zones).

(** ** Rounding *)

Section page.
(** The globals [g_page_size] and [g_page_size_shift]. *)
Variables page shift : Z.

(** [ROUND_UP_PAGE] on a 64 bit operand. *)
Definition ROUND_UP_PAGE (n : Z) : Z :=
  u64 (Z.shiftr (u64 (u64 (n + page) - 1)) shift * page).
Definition ROUND_DOWN_PAGE (n : Z) : Z := u64 (ROUND_UP_PAGE n - page).
Definition IS_PAGE_ALIGNED (v : Z) : Z := Z.land v (page - 1).
End page.

Definition IS_ALIGNED (v : Z) : Z := Z.land v (CHUNK_ALIGNMENT - 1).
