(* ===== verification/Memory.v ===== *)
(** * Memory

    The process address space: a byte-addressed memory with little-endian 64 bit
    accesses, and the list of virtual memory areas that says which addresses may be
    accessed. Both are the language's and the platform's (x86-64 Linux), not code of the
    repository; the allocator's own reads and writes go through [ld64] and [st64]. *)

From S2P Require Import Prelude Words.

(** ** Bytes and words *)

(** Unwritten memory reads as zero: the allocator only reads anonymous mappings. *)
Definition ld8 (m : gmap Z Z) (a : Z) : Z := u8 (default 0 (m !! a)).

Fixpoint ldn (n : nat) (m : gmap Z Z) (a : Z) : Z :=
  match n with
  | O => 0
  | S n' => ld8 m a + 256 * ldn n' m (a + 1)
  end.

Fixpoint stn (n : nat) (m : gmap Z Z) (a v : Z) : gmap Z Z :=
  match n with
  | O => m
  | S n' => stn n' (<[a := u8 v]> m) (a + 1) (v / 256)
  end.

Definition ld64 (m : gmap Z Z) (a : Z) : Z := ldn 8 m a.
Definition st64 (m : gmap Z Z) (a v : Z) : gmap Z Z := stn 8 m a v.

(** [memset] *)
Fixpoint fill (n : nat) (m : gmap Z Z) (a b : Z) : gmap Z Z :=
  match n with
  | O => m
  | S n' => fill n' (<[a := b]> m) (a + 1) b
  end.

(** [memcpy] on disjoint ranges *)
Fixpoint copy (n : nat) (m : gmap Z Z) (dst src : Z) : gmap Z Z :=
  match n with
  | O => m
  | S n' => copy n' (<[dst := ld8 m src]> m) (dst + 1) (src + 1)
  end.

(** Fresh anonymous pages read as zero. *)
Definition zero_range (m : gmap Z Z) (a n : Z) : gmap Z Z :=
  filter (λ kv : Z * Z, ¬ (a <= kv.1 < a + n)) m.

Lemma ld8_range m a : 0 <= ld8 m a < 256.
Proof. apply u8_range. Qed.

Lemma ld8_insert m a v x : ld8 (<[a := v]> m) x = if decide (a = x) then u8 v else ld8 m x.
Proof.
  unfold ld8. rewrite lookup_insert. by case_decide.
Qed.

Lemma u8_idem x : u8 (u8 x) = u8 x.
Proof. unfold u8. by rewrite Z.mod_mod. Qed.

Lemma ld8_stn_other n m a v x : (x < a ∨ a + Z.of_nat n <= x) → ld8 (stn n m a v) x = ld8 m x.
Proof.
  revert m a v. induction n as [|n IH]; intros m a v Hx; simpl; [done|].
  rewrite IH by lia. rewrite ld8_insert. case_decide; [lia|done].
Qed.

Lemma ldn_ext n m m' a : (∀ x, a <= x < a + Z.of_nat n → ld8 m x = ld8 m' x) → ldn n m a = ldn n m' a.
Proof.
  revert a. induction n as [|n IH]; intros a Hx; simpl; [done|].
  rewrite (Hx a), (IH (a + 1)) by (intros; try apply Hx; lia). done.
Qed.

Lemma ldn_range n m a : 0 <= ldn n m a < 256 ^ Z.of_nat n.
Proof.
  revert a. induction n as [|n IH]; intros a; simpl ldn; [simpl; lia|].
  rewrite Nat2Z.inj_succ, Z.pow_succ_r by lia.
  pose proof (ld8_range m a). pose proof (IH (a + 1)). lia.
Qed.

Lemma ldn_stn_same n m a v : 0 <= v < 256 ^ Z.of_nat n → ldn n (stn n m a v) a = v.
Proof.
  revert m a v. induction n as [|n IH]; intros m a v Hv.
  - simpl in *. lia.
  - rewrite Nat2Z.inj_succ, Z.pow_succ_r in Hv by lia. simpl.
    rewrite ld8_stn_other by lia. rewrite ld8_insert, decide_True, u8_idem by done.
    rewrite IH.
    + unfold u8. pose proof (Z.div_mod v 256). lia.
    + split; [apply Z.div_pos; lia|]. apply Z.div_lt_upper_bound; lia.
Qed.

Lemma ld64_range m a : is_u64 (ld64 m a).
Proof. apply (ldn_range 8). Qed.
#[export] Hint Resolve ld64_range : iso.

Lemma ld64_st64_same m a v : is_u64 v → ld64 (st64 m a v) a = v.
Proof. intros Hv. by apply (ldn_stn_same 8). Qed.

Lemma ld64_ext m m' a : (∀ x, a <= x < a + 8 → ld8 m x = ld8 m' x) → ld64 m a = ld64 m' a.
Proof. apply (ldn_ext 8). Qed.

Lemma ld8_st64_other m a v x : (x < a ∨ a + 8 <= x) → ld8 (st64 m a v) x = ld8 m x.
Proof. apply (ld8_stn_other 8). Qed.

Lemma ld64_st64_other m a v b : (b + 8 <= a ∨ a + 8 <= b) → ld64 (st64 m a v) b = ld64 m b.
Proof. intros Hd. apply ld64_ext. intros x Hx. apply ld8_st64_other. lia. Qed.

Lemma ld8_fill n m a b x :
  ld8 (fill n m a b) x = if decide (a <= x < a + Z.of_nat n) then u8 b else ld8 m x.
Proof.
  revert m a. induction n as [|n IH]; intros m a; simpl; [by rewrite decide_False by lia|].
  rewrite IH, ld8_insert. repeat case_decide; try lia; done.
Qed.

Lemma ld64_fill_other n m a b x :
  (x + 8 <= a ∨ a + Z.of_nat n <= x) → ld64 (fill n m a b) x = ld64 m x.
Proof.
  intros Hd. apply ld64_ext. intros y Hy. rewrite ld8_fill, decide_False by lia. done.
Qed.

Lemma ld8_copy n m dst src x :
  (src + Z.of_nat n <= dst ∨ dst + Z.of_nat n <= src) →
  ld8 (copy n m dst src) x =
  if decide (dst <= x < dst + Z.of_nat n) then ld8 m (src + (x - dst)) else ld8 m x.
Proof.
  revert m dst src. induction n as [|n IH]; intros m dst src Hd; simpl; [by rewrite decide_False by lia|].
  rewrite IH by lia. repeat case_decide; try lia.
  - rewrite ld8_insert, decide_False by lia. f_equal. lia.
  - assert (x = dst) as -> by lia. rewrite ld8_insert, decide_True by done.
    replace (src + (dst - dst)) with src by lia. unfold ld8. by rewrite u8_idem.
  - rewrite ld8_insert, decide_False by lia. done.
Qed.

Lemma ld8_zero_range m a n x :
  ld8 (zero_range m a n) x = if decide (a <= x < a + n) then 0 else ld8 m x.
Proof.
  unfold ld8, zero_range. rewrite map_lookup_filter.
  case_decide; destruct (m !! x); simpl; try done.
  - rewrite option_guard_False; [done|]. naive_solver.
  - rewrite option_guard_True; [done|]. naive_solver.
Qed.

Lemma ld64_zero_inside m a n x : a <= x → x + 8 <= a + n → ld64 (zero_range m a n) x = 0.
Proof.
  intros. assert (Hz : ∀ k y, a <= y → y + Z.of_nat k <= a + n → ldn k (zero_range m a n) y = 0).
  { induction k as [|k IH]; intros y Hy1 Hy2; simpl; [done|].
    rewrite ld8_zero_range, decide_True, IH by lia. done. }
  apply Hz; lia.
Qed.

Lemma ld64_zero_other m a n x : (x + 8 <= a ∨ a + n <= x) → ld64 (zero_range m a n) x = ld64 m x.
Proof.
  intros. apply ld64_ext. intros y Hy. rewrite ld8_zero_range, decide_False by lia. done.
Qed.

(** Equal words have equal bytes. *)
Lemma ldn_inj n m m' a : ldn n m a = ldn n m' a → ∀ x, a <= x < a + Z.of_nat n → ld8 m x = ld8 m' x.
Proof.
  revert a. induction n as [|n IH]; intros a Heq x Hx; [lia|]. simpl in Heq.
  pose proof (ld8_range m a). pose proof (ld8_range m' a).
  assert (ld8 m a = ld8 m' a ∧ ldn n m (a + 1) = ldn n m' (a + 1)) as [H1 H2] by lia.
  destruct (decide (x = a)) as [->|]; [done|]. eapply IH; [exact H2|lia].
Qed.

Lemma ld64_inj m m' a x : ld64 m a = ld64 m' a → a <= x < a + 8 → ld8 m x = ld8 m' x.
Proof. intros Heq. by apply (ldn_inj 8). Qed.

(** A 64 bit value all of whose bytes are [b]. *)
Definition rep8 (b : Z) : Z := u8 b * 0x0101010101010101.

Lemma ld64_fill_inside n m a b x :
  a <= x → x + 8 <= a + Z.of_nat n → ld64 (fill n m a b) x = rep8 b.
Proof.
  intros. unfold ld64, rep8. simpl. rewrite !ld8_fill, !decide_True by lia. ring.
Qed.

(** ** Protection *)

Inductive prot := PROT_NONE | PROT_RW.
#[export] Instance prot_eq_dec : EqDecision prot.
Proof. solve_decision. Defined.

(** An entry of the address-space history: the newest entry that covers an address
    decides its protection; [None] is an unmapping. *)
Record vma := Vma { vma_start : Z; vma_len : Z; vma_prot : option prot }.

Definition vma_covers (v : vma) (a : Z) : bool :=
  (vma_start v <=? a) && (a <? vma_start v + vma_len v).

Fixpoint vm_prot (vm : list vma) (a : Z) : option prot :=
  match vm with
  | [] => None
  | v :: vm' => if vma_covers v a then vma_prot v else vm_prot vm' a
  end.

Definition is_rw (o : option prot) : bool :=
  match o with Some PROT_RW => true | _ => false end.

(** An access of at most a page touches only the pages of its two ends. *)
Definition can_access (vm : list vma) (a n : Z) : bool :=
  is_rw (vm_prot vm a) && is_rw (vm_prot vm (a + n - 1)).

Definition mapped_rw (vm : list vma) (a n : Z) : Prop :=
  ∀ x, a <= x < a + n → vm_prot vm x = Some PROT_RW.

Definition unmapped (vm : list vma) (a n : Z) : Prop :=
  ∀ x, a <= x < a + n → vm_prot vm x = None.

Lemma vma_covers_spec v a : vma_covers v a = true ↔ vma_start v <= a < vma_start v + vma_len v.
Proof. unfold vma_covers. rewrite andb_true_iff, Z.leb_le, Z.ltb_lt. done. Qed.

Lemma vm_prot_cons v vm a :
  vm_prot (v :: vm) a =
  if decide (vma_start v <= a < vma_start v + vma_len v) then vma_prot v else vm_prot vm a.
Proof.
  simpl. destruct (vma_covers v a) eqn:Hc.
  - apply vma_covers_spec in Hc. by rewrite decide_True.
  - rewrite decide_False; [done|]. intros Hin%vma_covers_spec. congruence.
Qed.

Lemma mapped_rw_sub vm a n b k : mapped_rw vm a n → a <= b → b + k <= a + n → mapped_rw vm b k.
Proof. intros Hm ?? x Hx. apply Hm. lia. Qed.

Lemma can_access_mapped vm a n : 0 < n → mapped_rw vm a n → can_access vm a n = true.
Proof. intros Hn Hm. unfold can_access. rewrite !Hm by lia. done. Qed.
#[export] Hint Resolve can_access_mapped : iso.
#[global] Arguments vm_prot : simpl never.
#[global] Arguments ld64 : simpl never.
#[global] Arguments st64 : simpl never.
