(* ===== verification/State.v ===== *)
(** * Program state

    The data structures of include/iso_alloc_ds.h as records, the process state the
    functions of the library run in ([world]), the operating system as a parameter
    ([Kernel]), and the state-and-failure monad [M] the operations are written in, with
    its weakest-precondition calculus.

    Pointers. A pointer to a zone is the zone's position in the array [_root->zones]
    ([w_zones]); a pointer to a big zone is the address of its metadata ([w_bigs]); user
    memory, bitmaps and tag pages are bytes of [w_mem] and are reached by address. The
    arrays the root points to ([zones], [chunk_lookup_table], [chunk_quarantine]) are
    separate mappings in the source and separate fields of [world] here; cells that were
    never written read as zero, as anonymous pages do.

    Outcomes. A call returns ([Ret]), stops in [LOG_AND_ABORT] ([Abort], one reason per
    call site), touches memory it may not ([Fault]), runs into undefined behaviour of C
    ([Undef]), blocks on a lock the thread already holds ([Deadlock]) or exhausts the
    fuel of a loop ([NoFuel]). *)

From S2P Require Import Prelude Words Conf Memory.

(** [iso_alloc_zone_t] (the build without [CPU_PIN]) *)
Record iso_alloc_zone_t := mk_zone {
  user_pages_start : Z;
  bitmap_start : Z;
  next_free_bit_slot : Z;
  canary_secret : Z;
  pointer_mask : Z;
  max_bitmap_idx : Z;
  chunk_size : Z;
  free_bit_slots_usable : Z;
  free_bit_slots_index : Z;
  is_full : bool;
  internal : bool;
  tagged : bool;
  preallocated_bitmap_idx : Z;
  bitmap_size : Z;
  af_count : Z;
  chunk_count : Z;
  alloc_count : Z;
  index : Z;
  next_sz_index : Z;
  free_bit_slots : list Z;
}.

(** [iso_alloc_big_zone_t]; field names carry the prefix [big_], [free] is [big_is_free] *)
Record iso_alloc_big_zone_t := mk_big {
  big_canary_a : Z;
  big_is_free : bool;
  big_size : Z;
  big_ttl : Z;
  big_user_pages_start : Z;
  big_next : Z;
  big_canary_b : Z;
}.

(** [iso_alloc_bitmap_t] *)
Record iso_alloc_bitmap_t := mk_bitmap {
  bitmap : Z;
  in_use : Z;
  bucket : Z;
}.

(** [_tzc]: an entry of the thread's zone cache *)
Record tzc := mk_tzc {
  tzc_chunk_size : Z;
  tzc_zone : Z;
}.

(** [iso_alloc_root], without the arrays it points to and without the locks *)
Record iso_alloc_root := mk_root {
  zones_base : Z;
  big_zone_free : Z;
  big_zone_used : Z;
  zero_alloc_page : Z;
  zone_lookup_table : gmap Z Z;
  bitmaps : list iso_alloc_bitmap_t;
  zone_handle_mask : Z;
  big_zone_next_mask : Z;
  big_zone_canary_secret : Z;
  seed : Z;
  chunk_quarantine_count : Z;
  zones_size : Z;
  zone_retirement_shf : Z;
  big_zone_free_count : Z;
  big_zone_used_count : Z;
  zones_used : Z;
}.

(** ** Field updates *)

Definition set_user_pages_start (v : Z) (r : iso_alloc_zone_t) : iso_alloc_zone_t :=
  mk_zone v (bitmap_start r) (next_free_bit_slot r) (canary_secret r) (pointer_mask r) (max_bitmap_idx r) (chunk_size r) (free_bit_slots_usable r) (free_bit_slots_index r) (is_full r) (internal r) (tagged r) (preallocated_bitmap_idx r) (bitmap_size r) (af_count r) (chunk_count r) (alloc_count r) (index r) (next_sz_index r) (free_bit_slots r).
Definition set_bitmap_start (v : Z) (r : iso_alloc_zone_t) : iso_alloc_zone_t :=
  mk_zone (user_pages_start r) v (next_free_bit_slot r) (canary_secret r) (pointer_mask r) (max_bitmap_idx r) (chunk_size r) (free_bit_slots_usable r) (free_bit_slots_index r) (is_full r) (internal r) (tagged r) (preallocated_bitmap_idx r) (bitmap_size r) (af_count r) (chunk_count r) (alloc_count r) (index r) (next_sz_index r) (free_bit_slots r).
Definition set_next_free_bit_slot (v : Z) (r : iso_alloc_zone_t) : iso_alloc_zone_t :=
  mk_zone (user_pages_start r) (bitmap_start r) v (canary_secret r) (pointer_mask r) (max_bitmap_idx r) (chunk_size r) (free_bit_slots_usable r) (free_bit_slots_index r) (is_full r) (internal r) (tagged r) (preallocated_bitmap_idx r) (bitmap_size r) (af_count r) (chunk_count r) (alloc_count r) (index r) (next_sz_index r) (free_bit_slots r).
Definition set_canary_secret (v : Z) (r : iso_alloc_zone_t) : iso_alloc_zone_t :=
  mk_zone (user_pages_start r) (bitmap_start r) (next_free_bit_slot r) v (pointer_mask r) (max_bitmap_idx r) (chunk_size r) (free_bit_slots_usable r) (free_bit_slots_index r) (is_full r) (internal r) (tagged r) (preallocated_bitmap_idx r) (bitmap_size r) (af_count r) (chunk_count r) (alloc_count r) (index r) (next_sz_index r) (free_bit_slots r).
Definition set_pointer_mask (v : Z) (r : iso_alloc_zone_t) : iso_alloc_zone_t :=
  mk_zone (user_pages_start r) (bitmap_start r) (next_free_bit_slot r) (canary_secret r) v (max_bitmap_idx r) (chunk_size r) (free_bit_slots_usable r) (free_bit_slots_index r) (is_full r) (internal r) (tagged r) (preallocated_bitmap_idx r) (bitmap_size r) (af_count r) (chunk_count r) (alloc_count r) (index r) (next_sz_index r) (free_bit_slots r).
Definition set_max_bitmap_idx (v : Z) (r : iso_alloc_zone_t) : iso_alloc_zone_t :=
  mk_zone (user_pages_start r) (bitmap_start r) (next_free_bit_slot r) (canary_secret r) (pointer_mask r) v (chunk_size r) (free_bit_slots_usable r) (free_bit_slots_index r) (is_full r) (internal r) (tagged r) (preallocated_bitmap_idx r) (bitmap_size r) (af_count r) (chunk_count r) (alloc_count r) (index r) (next_sz_index r) (free_bit_slots r).
Definition set_chunk_size (v : Z) (r : iso_alloc_zone_t) : iso_alloc_zone_t :=
  mk_zone (user_pages_start r) (bitmap_start r) (next_free_bit_slot r) (canary_secret r) (pointer_mask r) (max_bitmap_idx r) v (free_bit_slots_usable r) (free_bit_slots_index r) (is_full r) (internal r) (tagged r) (preallocated_bitmap_idx r) (bitmap_size r) (af_count r) (chunk_count r) (alloc_count r) (index r) (next_sz_index r) (free_bit_slots r).
Definition set_free_bit_slots_usable (v : Z) (r : iso_alloc_zone_t) : iso_alloc_zone_t :=
  mk_zone (user_pages_start r) (bitmap_start r) (next_free_bit_slot r) (canary_secret r) (pointer_mask r) (max_bitmap_idx r) (chunk_size r) v (free_bit_slots_index r) (is_full r) (internal r) (tagged r) (preallocated_bitmap_idx r) (bitmap_size r) (af_count r) (chunk_count r) (alloc_count r) (index r) (next_sz_index r) (free_bit_slots r).
Definition set_free_bit_slots_index (v : Z) (r : iso_alloc_zone_t) : iso_alloc_zone_t :=
  mk_zone (user_pages_start r) (bitmap_start r) (next_free_bit_slot r) (canary_secret r) (pointer_mask r) (max_bitmap_idx r) (chunk_size r) (free_bit_slots_usable r) v (is_full r) (internal r) (tagged r) (preallocated_bitmap_idx r) (bitmap_size r) (af_count r) (chunk_count r) (alloc_count r) (index r) (next_sz_index r) (free_bit_slots r).
Definition set_is_full (v : bool) (r : iso_alloc_zone_t) : iso_alloc_zone_t :=
  mk_zone (user_pages_start r) (bitmap_start r) (next_free_bit_slot r) (canary_secret r) (pointer_mask r) (max_bitmap_idx r) (chunk_size r) (free_bit_slots_usable r) (free_bit_slots_index r) v (internal r) (tagged r) (preallocated_bitmap_idx r) (bitmap_size r) (af_count r) (chunk_count r) (alloc_count r) (index r) (next_sz_index r) (free_bit_slots r).
Definition set_internal (v : bool) (r : iso_alloc_zone_t) : iso_alloc_zone_t :=
  mk_zone (user_pages_start r) (bitmap_start r) (next_free_bit_slot r) (canary_secret r) (pointer_mask r) (max_bitmap_idx r) (chunk_size r) (free_bit_slots_usable r) (free_bit_slots_index r) (is_full r) v (tagged r) (preallocated_bitmap_idx r) (bitmap_size r) (af_count r) (chunk_count r) (alloc_count r) (index r) (next_sz_index r) (free_bit_slots r).
Definition set_tagged (v : bool) (r : iso_alloc_zone_t) : iso_alloc_zone_t :=
  mk_zone (user_pages_start r) (bitmap_start r) (next_free_bit_slot r) (canary_secret r) (pointer_mask r) (max_bitmap_idx r) (chunk_size r) (free_bit_slots_usable r) (free_bit_slots_index r) (is_full r) (internal r) v (preallocated_bitmap_idx r) (bitmap_size r) (af_count r) (chunk_count r) (alloc_count r) (index r) (next_sz_index r) (free_bit_slots r).
Definition set_preallocated_bitmap_idx (v : Z) (r : iso_alloc_zone_t) : iso_alloc_zone_t :=
  mk_zone (user_pages_start r) (bitmap_start r) (next_free_bit_slot r) (canary_secret r) (pointer_mask r) (max_bitmap_idx r) (chunk_size r) (free_bit_slots_usable r) (free_bit_slots_index r) (is_full r) (internal r) (tagged r) v (bitmap_size r) (af_count r) (chunk_count r) (alloc_count r) (index r) (next_sz_index r) (free_bit_slots r).
Definition set_bitmap_size (v : Z) (r : iso_alloc_zone_t) : iso_alloc_zone_t :=
  mk_zone (user_pages_start r) (bitmap_start r) (next_free_bit_slot r) (canary_secret r) (pointer_mask r) (max_bitmap_idx r) (chunk_size r) (free_bit_slots_usable r) (free_bit_slots_index r) (is_full r) (internal r) (tagged r) (preallocated_bitmap_idx r) v (af_count r) (chunk_count r) (alloc_count r) (index r) (next_sz_index r) (free_bit_slots r).
Definition set_af_count (v : Z) (r : iso_alloc_zone_t) : iso_alloc_zone_t :=
  mk_zone (user_pages_start r) (bitmap_start r) (next_free_bit_slot r) (canary_secret r) (pointer_mask r) (max_bitmap_idx r) (chunk_size r) (free_bit_slots_usable r) (free_bit_slots_index r) (is_full r) (internal r) (tagged r) (preallocated_bitmap_idx r) (bitmap_size r) v (chunk_count r) (alloc_count r) (index r) (next_sz_index r) (free_bit_slots r).
Definition set_chunk_count (v : Z) (r : iso_alloc_zone_t) : iso_alloc_zone_t :=
  mk_zone (user_pages_start r) (bitmap_start r) (next_free_bit_slot r) (canary_secret r) (pointer_mask r) (max_bitmap_idx r) (chunk_size r) (free_bit_slots_usable r) (free_bit_slots_index r) (is_full r) (internal r) (tagged r) (preallocated_bitmap_idx r) (bitmap_size r) (af_count r) v (alloc_count r) (index r) (next_sz_index r) (free_bit_slots r).
Definition set_alloc_count (v : Z) (r : iso_alloc_zone_t) : iso_alloc_zone_t :=
  mk_zone (user_pages_start r) (bitmap_start r) (next_free_bit_slot r) (canary_secret r) (pointer_mask r) (max_bitmap_idx r) (chunk_size r) (free_bit_slots_usable r) (free_bit_slots_index r) (is_full r) (internal r) (tagged r) (preallocated_bitmap_idx r) (bitmap_size r) (af_count r) (chunk_count r) v (index r) (next_sz_index r) (free_bit_slots r).
Definition set_index (v : Z) (r : iso_alloc_zone_t) : iso_alloc_zone_t :=
  mk_zone (user_pages_start r) (bitmap_start r) (next_free_bit_slot r) (canary_secret r) (pointer_mask r) (max_bitmap_idx r) (chunk_size r) (free_bit_slots_usable r) (free_bit_slots_index r) (is_full r) (internal r) (tagged r) (preallocated_bitmap_idx r) (bitmap_size r) (af_count r) (chunk_count r) (alloc_count r) v (next_sz_index r) (free_bit_slots r).
Definition set_next_sz_index (v : Z) (r : iso_alloc_zone_t) : iso_alloc_zone_t :=
  mk_zone (user_pages_start r) (bitmap_start r) (next_free_bit_slot r) (canary_secret r) (pointer_mask r) (max_bitmap_idx r) (chunk_size r) (free_bit_slots_usable r) (free_bit_slots_index r) (is_full r) (internal r) (tagged r) (preallocated_bitmap_idx r) (bitmap_size r) (af_count r) (chunk_count r) (alloc_count r) (index r) v (free_bit_slots r).
Definition set_free_bit_slots (v : list Z) (r : iso_alloc_zone_t) : iso_alloc_zone_t :=
  mk_zone (user_pages_start r) (bitmap_start r) (next_free_bit_slot r) (canary_secret r) (pointer_mask r) (max_bitmap_idx r) (chunk_size r) (free_bit_slots_usable r) (free_bit_slots_index r) (is_full r) (internal r) (tagged r) (preallocated_bitmap_idx r) (bitmap_size r) (af_count r) (chunk_count r) (alloc_count r) (index r) (next_sz_index r) v.

Definition set_big_canary_a (v : Z) (r : iso_alloc_big_zone_t) : iso_alloc_big_zone_t :=
  mk_big v (big_is_free r) (big_size r) (big_ttl r) (big_user_pages_start r) (big_next r) (big_canary_b r).
Definition set_big_is_free (v : bool) (r : iso_alloc_big_zone_t) : iso_alloc_big_zone_t :=
  mk_big (big_canary_a r) v (big_size r) (big_ttl r) (big_user_pages_start r) (big_next r) (big_canary_b r).
Definition set_big_size (v : Z) (r : iso_alloc_big_zone_t) : iso_alloc_big_zone_t :=
  mk_big (big_canary_a r) (big_is_free r) v (big_ttl r) (big_user_pages_start r) (big_next r) (big_canary_b r).
Definition set_big_ttl (v : Z) (r : iso_alloc_big_zone_t) : iso_alloc_big_zone_t :=
  mk_big (big_canary_a r) (big_is_free r) (big_size r) v (big_user_pages_start r) (big_next r) (big_canary_b r).
Definition set_big_user_pages_start (v : Z) (r : iso_alloc_big_zone_t) : iso_alloc_big_zone_t :=
  mk_big (big_canary_a r) (big_is_free r) (big_size r) (big_ttl r) v (big_next r) (big_canary_b r).
Definition set_big_next (v : Z) (r : iso_alloc_big_zone_t) : iso_alloc_big_zone_t :=
  mk_big (big_canary_a r) (big_is_free r) (big_size r) (big_ttl r) (big_user_pages_start r) v (big_canary_b r).
Definition set_big_canary_b (v : Z) (r : iso_alloc_big_zone_t) : iso_alloc_big_zone_t :=
  mk_big (big_canary_a r) (big_is_free r) (big_size r) (big_ttl r) (big_user_pages_start r) (big_next r) v.

Definition set_bitmap (v : Z) (r : iso_alloc_bitmap_t) : iso_alloc_bitmap_t :=
  mk_bitmap v (in_use r) (bucket r).
Definition set_in_use (v : Z) (r : iso_alloc_bitmap_t) : iso_alloc_bitmap_t :=
  mk_bitmap (bitmap r) v (bucket r).
Definition set_bucket (v : Z) (r : iso_alloc_bitmap_t) : iso_alloc_bitmap_t :=
  mk_bitmap (bitmap r) (in_use r) v.

Definition set_zones_base (v : Z) (r : iso_alloc_root) : iso_alloc_root :=
  mk_root v (big_zone_free r) (big_zone_used r) (zero_alloc_page r) (zone_lookup_table r) (bitmaps r) (zone_handle_mask r) (big_zone_next_mask r) (big_zone_canary_secret r) (seed r) (chunk_quarantine_count r) (zones_size r) (zone_retirement_shf r) (big_zone_free_count r) (big_zone_used_count r) (zones_used r).
Definition set_big_zone_free (v : Z) (r : iso_alloc_root) : iso_alloc_root :=
  mk_root (zones_base r) v (big_zone_used r) (zero_alloc_page r) (zone_lookup_table r) (bitmaps r) (zone_handle_mask r) (big_zone_next_mask r) (big_zone_canary_secret r) (seed r) (chunk_quarantine_count r) (zones_size r) (zone_retirement_shf r) (big_zone_free_count r) (big_zone_used_count r) (zones_used r).
Definition set_big_zone_used (v : Z) (r : iso_alloc_root) : iso_alloc_root :=
  mk_root (zones_base r) (big_zone_free r) v (zero_alloc_page r) (zone_lookup_table r) (bitmaps r) (zone_handle_mask r) (big_zone_next_mask r) (big_zone_canary_secret r) (seed r) (chunk_quarantine_count r) (zones_size r) (zone_retirement_shf r) (big_zone_free_count r) (big_zone_used_count r) (zones_used r).
Definition set_zero_alloc_page (v : Z) (r : iso_alloc_root) : iso_alloc_root :=
  mk_root (zones_base r) (big_zone_free r) (big_zone_used r) v (zone_lookup_table r) (bitmaps r) (zone_handle_mask r) (big_zone_next_mask r) (big_zone_canary_secret r) (seed r) (chunk_quarantine_count r) (zones_size r) (zone_retirement_shf r) (big_zone_free_count r) (big_zone_used_count r) (zones_used r).
Definition set_zone_lookup_table (v : gmap Z Z) (r : iso_alloc_root) : iso_alloc_root :=
  mk_root (zones_base r) (big_zone_free r) (big_zone_used r) (zero_alloc_page r) v (bitmaps r) (zone_handle_mask r) (big_zone_next_mask r) (big_zone_canary_secret r) (seed r) (chunk_quarantine_count r) (zones_size r) (zone_retirement_shf r) (big_zone_free_count r) (big_zone_used_count r) (zones_used r).
Definition set_bitmaps (v : list iso_alloc_bitmap_t) (r : iso_alloc_root) : iso_alloc_root :=
  mk_root (zones_base r) (big_zone_free r) (big_zone_used r) (zero_alloc_page r) (zone_lookup_table r) v (zone_handle_mask r) (big_zone_next_mask r) (big_zone_canary_secret r) (seed r) (chunk_quarantine_count r) (zones_size r) (zone_retirement_shf r) (big_zone_free_count r) (big_zone_used_count r) (zones_used r).
Definition set_zone_handle_mask (v : Z) (r : iso_alloc_root) : iso_alloc_root :=
  mk_root (zones_base r) (big_zone_free r) (big_zone_used r) (zero_alloc_page r) (zone_lookup_table r) (bitmaps r) v (big_zone_next_mask r) (big_zone_canary_secret r) (seed r) (chunk_quarantine_count r) (zones_size r) (zone_retirement_shf r) (big_zone_free_count r) (big_zone_used_count r) (zones_used r).
Definition set_big_zone_next_mask (v : Z) (r : iso_alloc_root) : iso_alloc_root :=
  mk_root (zones_base r) (big_zone_free r) (big_zone_used r) (zero_alloc_page r) (zone_lookup_table r) (bitmaps r) (zone_handle_mask r) v (big_zone_canary_secret r) (seed r) (chunk_quarantine_count r) (zones_size r) (zone_retirement_shf r) (big_zone_free_count r) (big_zone_used_count r) (zones_used r).
Definition set_big_zone_canary_secret (v : Z) (r : iso_alloc_root) : iso_alloc_root :=
  mk_root (zones_base r) (big_zone_free r) (big_zone_used r) (zero_alloc_page r) (zone_lookup_table r) (bitmaps r) (zone_handle_mask r) (big_zone_next_mask r) v (seed r) (chunk_quarantine_count r) (zones_size r) (zone_retirement_shf r) (big_zone_free_count r) (big_zone_used_count r) (zones_used r).
Definition set_seed (v : Z) (r : iso_alloc_root) : iso_alloc_root :=
  mk_root (zones_base r) (big_zone_free r) (big_zone_used r) (zero_alloc_page r) (zone_lookup_table r) (bitmaps r) (zone_handle_mask r) (big_zone_next_mask r) (big_zone_canary_secret r) v (chunk_quarantine_count r) (zones_size r) (zone_retirement_shf r) (big_zone_free_count r) (big_zone_used_count r) (zones_used r).
Definition set_chunk_quarantine_count (v : Z) (r : iso_alloc_root) : iso_alloc_root :=
  mk_root (zones_base r) (big_zone_free r) (big_zone_used r) (zero_alloc_page r) (zone_lookup_table r) (bitmaps r) (zone_handle_mask r) (big_zone_next_mask r) (big_zone_canary_secret r) (seed r) v (zones_size r) (zone_retirement_shf r) (big_zone_free_count r) (big_zone_used_count r) (zones_used r).
Definition set_zones_size (v : Z) (r : iso_alloc_root) : iso_alloc_root :=
  mk_root (zones_base r) (big_zone_free r) (big_zone_used r) (zero_alloc_page r) (zone_lookup_table r) (bitmaps r) (zone_handle_mask r) (big_zone_next_mask r) (big_zone_canary_secret r) (seed r) (chunk_quarantine_count r) v (zone_retirement_shf r) (big_zone_free_count r) (big_zone_used_count r) (zones_used r).
Definition set_zone_retirement_shf (v : Z) (r : iso_alloc_root) : iso_alloc_root :=
  mk_root (zones_base r) (big_zone_free r) (big_zone_used r) (zero_alloc_page r) (zone_lookup_table r) (bitmaps r) (zone_handle_mask r) (big_zone_next_mask r) (big_zone_canary_secret r) (seed r) (chunk_quarantine_count r) (zones_size r) v (big_zone_free_count r) (big_zone_used_count r) (zones_used r).
Definition set_big_zone_free_count (v : Z) (r : iso_alloc_root) : iso_alloc_root :=
  mk_root (zones_base r) (big_zone_free r) (big_zone_used r) (zero_alloc_page r) (zone_lookup_table r) (bitmaps r) (zone_handle_mask r) (big_zone_next_mask r) (big_zone_canary_secret r) (seed r) (chunk_quarantine_count r) (zones_size r) (zone_retirement_shf r) v (big_zone_used_count r) (zones_used r).
Definition set_big_zone_used_count (v : Z) (r : iso_alloc_root) : iso_alloc_root :=
  mk_root (zones_base r) (big_zone_free r) (big_zone_used r) (zero_alloc_page r) (zone_lookup_table r) (bitmaps r) (zone_handle_mask r) (big_zone_next_mask r) (big_zone_canary_secret r) (seed r) (chunk_quarantine_count r) (zones_size r) (zone_retirement_shf r) (big_zone_free_count r) v (zones_used r).
Definition set_zones_used (v : Z) (r : iso_alloc_root) : iso_alloc_root :=
  mk_root (zones_base r) (big_zone_free r) (big_zone_used r) (zero_alloc_page r) (zone_lookup_table r) (bitmaps r) (zone_handle_mask r) (big_zone_next_mask r) (big_zone_canary_secret r) (seed r) (chunk_quarantine_count r) (zones_size r) (zone_retirement_shf r) (big_zone_free_count r) (big_zone_used_count r) v.

(** A zone of zero bytes, what [__iso_memset] and a fresh mapping give. *)
Definition zero_zone : iso_alloc_zone_t :=
  mk_zone 0 0 0 0 0 0 0 0 0 false false false 0 0 0 0 0 0 0 (replicate 255 0).
Definition zero_big : iso_alloc_big_zone_t := mk_big 0 false 0 0 0 0 0.
Definition zero_root : iso_alloc_root :=
  mk_root 0 0 0 0 ∅ (replicate 8 (mk_bitmap 0 0 0)) 0 0 0 0 0 0 0 0 0 0.

(** ** The operating system *)

(** The kernel's own state is hidden; each call answers from it and from the current
    mappings. [k_mmap] answers [None] for [MAP_FAILED]. *)
Class Kernel := {
  kst : Type;
  k_page_size : kst → Z;
  k_mmap : kst → list vma → Z → Z → option Z * kst;
  k_mprotect : kst → Z → Z → bool * kst;
  k_madvise_free : kst → gmap Z Z → Z → Z → gmap Z Z * kst;
  k_getrandom : kst → option Z * kst;
}.

(** What the allocator relies on, from the manual pages of sysconf(3), mmap(2),
    madvise(2) and getrandom(2): pages are 4 KiB to 64 KiB, a successful mapping is page
    aligned, lies in the user half of the address space and overlaps no current mapping
    (the hint is only a hint), a page freed by [MADV_FREE] keeps its bytes or reads as
    zero and no other page changes, and random values fill 64 bits. *)
Class KernelLaws `{!Kernel} := {
  kl_page : ∀ k, ∃ s, k_page_size k = 2 ^ s ∧ 12 <= s <= 16;
  kl_mmap_page : ∀ k vm h n p k', k_mmap k vm h n = (p, k') → k_page_size k' = k_page_size k;
  kl_random_page : ∀ k v k', k_getrandom k = (v, k') → k_page_size k' = k_page_size k;
  kl_mprotect_page : ∀ k a n b k', k_mprotect k a n = (b, k') → k_page_size k' = k_page_size k;
  kl_madvise_page : ∀ k m a n m' k', k_madvise_free k m a n = (m', k') → k_page_size k' = k_page_size k;
  kl_mmap_aligned : ∀ k vm h n p k',
    k_mmap k vm h n = (Some p, k') → p mod k_page_size k = 0;
  kl_mmap_range : ∀ k vm h n p k',
    k_mmap k vm h n = (Some p, k') → k_page_size k <= p ∧ p + n <= 2 ^ 47;
  kl_mmap_fresh : ∀ k vm h n p k',
    k_mmap k vm h n = (Some p, k') → unmapped vm p n;
  kl_madvise : ∀ k m a n m' k',
    k_madvise_free k m a n = (m', k') →
    ∀ x, ld8 m' x = ld8 m x ∨ (a <= x < a + n ∧ ld8 m' x = 0);
  kl_random : ∀ k v k', k_getrandom k = (Some v, k') → is_u64 v;
}.

(** ** The process *)

Section world.
Context `{!Kernel}.

(** Everything a call reads or changes; [w_zone_cache] is the running thread's. *)
Record world := mk_world {
  w_mem : gmap Z Z;
  w_vm : list vma;
  w_k : kst;
  w_root_null : bool;
  w_root : iso_alloc_root;
  w_zones : gmap Z iso_alloc_zone_t;
  w_bigs : gmap Z iso_alloc_big_zone_t;
  w_chunk_lookup_table : gmap Z Z;
  w_chunk_quarantine : list Z;
  w_zone_cache : list tzc;
  w_zone_cache_count : Z;
  w_page_size : Z;
  w_page_size_shift : Z;
  w_root_lock : bool;
  w_big_free_lock : bool;
  w_big_used_lock : bool;
}.

Definition set_w_mem (v : gmap Z Z) (r : world) : world :=
  mk_world v (w_vm r) (w_k r) (w_root_null r) (w_root r) (w_zones r) (w_bigs r) (w_chunk_lookup_table r) (w_chunk_quarantine r) (w_zone_cache r) (w_zone_cache_count r) (w_page_size r) (w_page_size_shift r) (w_root_lock r) (w_big_free_lock r) (w_big_used_lock r).
Definition set_w_vm (v : list vma) (r : world) : world :=
  mk_world (w_mem r) v (w_k r) (w_root_null r) (w_root r) (w_zones r) (w_bigs r) (w_chunk_lookup_table r) (w_chunk_quarantine r) (w_zone_cache r) (w_zone_cache_count r) (w_page_size r) (w_page_size_shift r) (w_root_lock r) (w_big_free_lock r) (w_big_used_lock r).
Definition set_w_k (v : kst) (r : world) : world :=
  mk_world (w_mem r) (w_vm r) v (w_root_null r) (w_root r) (w_zones r) (w_bigs r) (w_chunk_lookup_table r) (w_chunk_quarantine r) (w_zone_cache r) (w_zone_cache_count r) (w_page_size r) (w_page_size_shift r) (w_root_lock r) (w_big_free_lock r) (w_big_used_lock r).
Definition set_w_root_null (v : bool) (r : world) : world :=
  mk_world (w_mem r) (w_vm r) (w_k r) v (w_root r) (w_zones r) (w_bigs r) (w_chunk_lookup_table r) (w_chunk_quarantine r) (w_zone_cache r) (w_zone_cache_count r) (w_page_size r) (w_page_size_shift r) (w_root_lock r) (w_big_free_lock r) (w_big_used_lock r).
Definition set_w_root (v : iso_alloc_root) (r : world) : world :=
  mk_world (w_mem r) (w_vm r) (w_k r) (w_root_null r) v (w_zones r) (w_bigs r) (w_chunk_lookup_table r) (w_chunk_quarantine r) (w_zone_cache r) (w_zone_cache_count r) (w_page_size r) (w_page_size_shift r) (w_root_lock r) (w_big_free_lock r) (w_big_used_lock r).
Definition set_w_zones (v : gmap Z iso_alloc_zone_t) (r : world) : world :=
  mk_world (w_mem r) (w_vm r) (w_k r) (w_root_null r) (w_root r) v (w_bigs r) (w_chunk_lookup_table r) (w_chunk_quarantine r) (w_zone_cache r) (w_zone_cache_count r) (w_page_size r) (w_page_size_shift r) (w_root_lock r) (w_big_free_lock r) (w_big_used_lock r).
Definition set_w_bigs (v : gmap Z iso_alloc_big_zone_t) (r : world) : world :=
  mk_world (w_mem r) (w_vm r) (w_k r) (w_root_null r) (w_root r) (w_zones r) v (w_chunk_lookup_table r) (w_chunk_quarantine r) (w_zone_cache r) (w_zone_cache_count r) (w_page_size r) (w_page_size_shift r) (w_root_lock r) (w_big_free_lock r) (w_big_used_lock r).
Definition set_w_chunk_lookup_table (v : gmap Z Z) (r : world) : world :=
  mk_world (w_mem r) (w_vm r) (w_k r) (w_root_null r) (w_root r) (w_zones r) (w_bigs r) v (w_chunk_quarantine r) (w_zone_cache r) (w_zone_cache_count r) (w_page_size r) (w_page_size_shift r) (w_root_lock r) (w_big_free_lock r) (w_big_used_lock r).
Definition set_w_chunk_quarantine (v : list Z) (r : world) : world :=
  mk_world (w_mem r) (w_vm r) (w_k r) (w_root_null r) (w_root r) (w_zones r) (w_bigs r) (w_chunk_lookup_table r) v (w_zone_cache r) (w_zone_cache_count r) (w_page_size r) (w_page_size_shift r) (w_root_lock r) (w_big_free_lock r) (w_big_used_lock r).
Definition set_w_zone_cache (v : list tzc) (r : world) : world :=
  mk_world (w_mem r) (w_vm r) (w_k r) (w_root_null r) (w_root r) (w_zones r) (w_bigs r) (w_chunk_lookup_table r) (w_chunk_quarantine r) v (w_zone_cache_count r) (w_page_size r) (w_page_size_shift r) (w_root_lock r) (w_big_free_lock r) (w_big_used_lock r).
Definition set_w_zone_cache_count (v : Z) (r : world) : world :=
  mk_world (w_mem r) (w_vm r) (w_k r) (w_root_null r) (w_root r) (w_zones r) (w_bigs r) (w_chunk_lookup_table r) (w_chunk_quarantine r) (w_zone_cache r) v (w_page_size r) (w_page_size_shift r) (w_root_lock r) (w_big_free_lock r) (w_big_used_lock r).
Definition set_w_page_size (v : Z) (r : world) : world :=
  mk_world (w_mem r) (w_vm r) (w_k r) (w_root_null r) (w_root r) (w_zones r) (w_bigs r) (w_chunk_lookup_table r) (w_chunk_quarantine r) (w_zone_cache r) (w_zone_cache_count r) v (w_page_size_shift r) (w_root_lock r) (w_big_free_lock r) (w_big_used_lock r).
Definition set_w_page_size_shift (v : Z) (r : world) : world :=
  mk_world (w_mem r) (w_vm r) (w_k r) (w_root_null r) (w_root r) (w_zones r) (w_bigs r) (w_chunk_lookup_table r) (w_chunk_quarantine r) (w_zone_cache r) (w_zone_cache_count r) (w_page_size r) v (w_root_lock r) (w_big_free_lock r) (w_big_used_lock r).
Definition set_w_root_lock (v : bool) (r : world) : world :=
  mk_world (w_mem r) (w_vm r) (w_k r) (w_root_null r) (w_root r) (w_zones r) (w_bigs r) (w_chunk_lookup_table r) (w_chunk_quarantine r) (w_zone_cache r) (w_zone_cache_count r) (w_page_size r) (w_page_size_shift r) v (w_big_free_lock r) (w_big_used_lock r).
Definition set_w_big_free_lock (v : bool) (r : world) : world :=
  mk_world (w_mem r) (w_vm r) (w_k r) (w_root_null r) (w_root r) (w_zones r) (w_bigs r) (w_chunk_lookup_table r) (w_chunk_quarantine r) (w_zone_cache r) (w_zone_cache_count r) (w_page_size r) (w_page_size_shift r) (w_root_lock r) v (w_big_used_lock r).
Definition set_w_big_used_lock (v : bool) (r : world) : world :=
  mk_world (w_mem r) (w_vm r) (w_k r) (w_root_null r) (w_root r) (w_zones r) (w_bigs r) (w_chunk_lookup_table r) (w_chunk_quarantine r) (w_zone_cache r) (w_zone_cache_count r) (w_page_size r) (w_page_size_shift r) (w_root_lock r) (w_big_free_lock r) v.
End world.

(** ** Outcomes and the monad *)

(** One reason per [LOG_AND_ABORT] of the modelled code. *)
Inductive abort_reason :=
  | NoEntropy | MmapFailed | MprotectFailed | GuardPageFailed
  | TooManyZones | NewZoneFailed | NewZoneNoSlots
  | SlotOutsideZone | SlotInUse | DuplicateSlot
  | CanaryStart | CanaryEnd | BigCanaryA | BigCanaryB
  | ChunkMisaligned | ChunkOutsideBitmap | DoubleFree
  | NotInZone | Unaligned8 | UnownedPointer | SizeMismatch | BigSizeMismatch
  | ZeroChunkWithSize
  | LookupSizeMismatch | LookupPrivateZone | ChunkTableCorrupt
  | PrivateZoneTooSmall | PrivateZoneBig | NullReturned
  | BigDoubleFree | BigInteriorFree | BigFreeListCount | BigFreeListInUse
  | BigTooSmall | BigTooBig | BigNullPages
  | BadNextSzIndex | InconsistentChunkSizes
  | RootNotNullZone | RootInit
  | TagWrongZone | TagMisaligned | TagMismatch
  | OutOfBoundsWrite | OutOfBoundsRead
  | SanityCanaryCorrupt | NoSaneSlot | NoSanePages
  | StackUnaligned | StackBitmapPointer
  | UffdUnsupported | UffdSetup | UffdNoThreadId | UffdNoThread
  | UffdPoll | UffdEof | UffdRead | UffdEvent | UffdRegister | UffdUnregister | UninitRead
  | CrashAtNull | UseAfterFree | UnknownFault
  | ProfilerOpen.

#[export] Instance abort_reason_eq_dec : EqDecision abort_reason.
Proof. solve_decision. Defined.

(** The ways in which a call may fail to return. *)
Inductive failure :=
  | Aborted (e : abort_reason)
  | Faulted
  | Undefined
  | Deadlocked
  | OutOfFuel.
Coercion Aborted : abort_reason >-> failure.

(** Reasons that are the environment's: no entropy, no memory, no zone left. *)
Definition resource (f : failure) : Prop :=
  match f with
  | Aborted (NoEntropy | MmapFailed | MprotectFailed | GuardPageFailed | TooManyZones) => True
  | _ => False
  end.

(** Whatever it is: a statement about the calls that do return. *)
Definition anything (f : failure) : Prop := True.

Section monad.
Context `{!Kernel}.

Inductive outcome (A : Type) :=
  | Ret (a : A) (w : world)
  | Abort (e : abort_reason)
  | Fault
  | Undef
  | Deadlock
  | NoFuel.

Definition M (A : Type) : Type := world → outcome A.
End monad.

Arguments Ret {_ _} a w.
Arguments Abort {_ _} e.
Arguments Fault {_ _}.
Arguments Undef {_ _}.
Arguments Deadlock {_ _}.
Arguments NoFuel {_ _}.

Section monad_ops.
Context `{!Kernel}.

#[global] Instance M_ret : MRet M := λ A a w, Ret a w.
#[global] Instance M_bind : MBind M := λ A B f m w,
  match m w with
  | Ret a w' => f a w'
  | Abort e => Abort e
  | Fault => Fault
  | Undef => Undef
  | Deadlock => Deadlock
  | NoFuel => NoFuel
  end.

Definition abort {A} (e : abort_reason) : M A := λ _, Abort e.
Definition fault {A} : M A := λ _, Fault.
Definition undef {A} : M A := λ _, Undef.
Definition nofuel {A} : M A := λ _, NoFuel.
Definition get : M world := λ w, Ret w w.
Definition upd (f : world → world) : M unit := λ w, Ret tt (f w).
Definition when (b : bool) (m : M unit) : M unit := if b then m else mret tt.

(** Reading and writing through [_root]; a NULL root faults. *)
Definition root : M iso_alloc_root := λ w, if w_root_null w then Fault else Ret (w_root w) w.
Definition rupd (f : iso_alloc_root → iso_alloc_root) : M unit :=
  λ w, if w_root_null w then Fault else Ret tt (set_w_root (f (w_root w)) w).

(** The cell [_root->zones[i]]. The array is mapped with room for [MAX_ZONES] zones at
    start-up and is zero where no zone was made: a cell the map does not hold reads as a zone
    of zeros, as in the source, which tests indices against [zones_used] and admits the first
    unused one. A NULL zone pointer is [None] of an [option Z] and never gets here. *)
Definition zone_at (w : world) (i : Z) : iso_alloc_zone_t := default zero_zone (w_zones w !! i).
Definition zput_w (i : Z) (z : iso_alloc_zone_t) (w : world) : world :=
  set_w_zones (<[i := z]> (w_zones w)) w.
Definition zget (i : Z) : M iso_alloc_zone_t := λ w, Ret (zone_at w i) w.
Definition zput (i : Z) (z : iso_alloc_zone_t) : M unit := upd (zput_w i z).
Definition zmod (i : Z) (f : iso_alloc_zone_t → iso_alloc_zone_t) : M unit :=
  λ w, Ret tt (zput_w i (f (zone_at w i)) w).

(** User memory. *)
Definition rd64 (a : Z) : M Z := λ w,
  if can_access (w_vm w) a 8 then Ret (ld64 (w_mem w) a) w else Fault.
Definition wr64 (a v : Z) : M unit := λ w,
  if can_access (w_vm w) a 8 then Ret tt (set_w_mem (st64 (w_mem w) a v) w) else Fault.
Definition rd8 (a : Z) : M Z := λ w,
  if can_access (w_vm w) a 1 then Ret (ld8 (w_mem w) a) w else Fault.
Definition wr8 (a v : Z) : M unit := λ w,
  if can_access (w_vm w) a 1 then Ret tt (set_w_mem (<[a := u8 v]> (w_mem w)) w) else Fault.

(** Every page a range touches, the smallest page being 4096 bytes. *)
Definition range_access (vm : list vma) (a n : Z) : bool :=
  (n <=? 0) ||
  (forallb (λ i, is_rw (vm_prot vm (a + 4096 * i))) (seqZ 0 ((n + 4095) / 4096))
   && is_rw (vm_prot vm (a + n - 1))).

(** [__iso_memset]: in every build, [n] bytes of [b] starting at [a]. *)
Definition __iso_memset (a b n : Z) : M unit := λ w,
  if range_access (w_vm w) a n then Ret tt (set_w_mem (fill (Z.to_nat n) (w_mem w) a b) w)
  else Fault.

(** The locks: a second acquisition by the same thread blocks for ever. *)
Definition LOCK_ROOT : M unit := λ w,
  if w_root_lock w then Deadlock else Ret tt (set_w_root_lock true w).
Definition UNLOCK_ROOT : M unit := upd (set_w_root_lock false).
Definition LOCK_BIG_ZONE_FREE : M unit := λ w,
  if w_big_free_lock w then Deadlock else Ret tt (set_w_big_free_lock true w).
Definition UNLOCK_BIG_ZONE_FREE : M unit := upd (set_w_big_free_lock false).
Definition LOCK_BIG_ZONE_USED : M unit := λ w,
  if w_big_used_lock w then Deadlock else Ret tt (set_w_big_used_lock true w).
Definition UNLOCK_BIG_ZONE_USED : M unit := upd (set_w_big_used_lock false).

(** ** Weakest preconditions *)

(** [wp E m Q w]: from [w], [m] returns with [Q], or fails in a way [E] allows. With
    [resource] for [E] it does not fault, meet undefined behaviour, deadlock or run out of
    fuel, and stops only for want of memory, entropy or zones. *)
Definition wp {A} (E : failure → Prop) (m : M A) (Q : A → world → Prop) (w : world) : Prop :=
  match m w with
  | Ret a w' => Q a w'
  | Abort e => E (Aborted e)
  | Fault => E Faulted
  | Undef => E Undefined
  | Deadlock => E Deadlocked
  | NoFuel => E OutOfFuel
  end.

Lemma wp_ret {A} E (a : A) Q w : Q a w → wp E (mret a) Q w.
Proof. done. Qed.

Lemma wp_bind {A B} E (m : M A) (f : A → M B) Q w :
  wp E m (λ a, wp E (f a) Q) w → wp E (m ≫= f) Q w.
Proof. unfold wp, mbind, M_bind. by destruct (m w). Qed.

Lemma wp_mono {A} E (E' : failure → Prop) (m : M A) (Q Q' : A → world → Prop) w :
  wp E m Q w → (∀ e, E e → E' e) → (∀ a w', Q a w' → Q' a w') → wp E' m Q' w.
Proof. unfold wp. destruct (m w); naive_solver. Qed.

Lemma wp_post {A} E (m : M A) (Q Q' : A → world → Prop) w :
  wp E m Q w → (∀ a w', Q a w' → Q' a w') → wp E m Q' w.
Proof. intros. eapply wp_mono; eauto. Qed.

Lemma run_bind {A B} (m : M A) (f : A → M B) w a w' : m w = Ret a w' → (m ≫= f) w = f a w'.
Proof. unfold mbind, M_bind. by intros ->. Qed.

Lemma wp_eq {A} E (m : M A) Q w a w' : m w = Ret a w' → Q a w' → wp E m Q w.
Proof. unfold wp. by intros ->. Qed.

Lemma wp_abort {A} (E : failure → Prop) (e : abort_reason) Q w : E e → wp E (abort (A:=A) e) Q w.
Proof. done. Qed.

Lemma wp_get E Q w : Q w w → wp E get Q w.
Proof. done. Qed.
Lemma wp_upd E f Q w : Q tt (f w) → wp E (upd f) Q w.
Proof. done. Qed.
Lemma wp_zget E i Q w : Q (zone_at w i) w → wp E (zget i) Q w.
Proof. done. Qed.
Lemma wp_zput E i z Q w : Q tt (zput_w i z w) → wp E (zput i z) Q w.
Proof. done. Qed.
Lemma wp_zmod E i f Q w : Q tt (zput_w i (f (zone_at w i)) w) → wp E (zmod i f) Q w.
Proof. done. Qed.
Lemma wp_root E Q w : w_root_null w = false → Q (w_root w) w → wp E root Q w.
Proof. unfold wp, root. by intros ->. Qed.
Lemma wp_rupd E f Q w :
  w_root_null w = false → Q tt (set_w_root (f (w_root w)) w) → wp E (rupd f) Q w.
Proof. unfold wp, rupd. by intros ->. Qed.
Lemma wp_rd64 E a Q w : mapped_rw (w_vm w) a 8 → Q (ld64 (w_mem w) a) w → wp E (rd64 a) Q w.
Proof. intros Hm HQ. unfold wp, rd64. by rewrite can_access_mapped. Qed.
Lemma wp_wr64 E a v Q w :
  mapped_rw (w_vm w) a 8 → Q tt (set_w_mem (st64 (w_mem w) a v) w) → wp E (wr64 a v) Q w.
Proof. intros Hm HQ. unfold wp, wr64. by rewrite can_access_mapped. Qed.

Lemma range_access_mapped vm a n : mapped_rw vm a n → range_access vm a n = true.
Proof.
  intros Hm. unfold range_access. destruct (Z.leb_spec n 0); [done|]. simpl.
  rewrite andb_true_iff, forallb_forall. split.
  - intros i Hi%list_elem_of_In%elem_of_seqZ. rewrite Hm; [done|].
    pose proof (Z.mul_div_le (n + 4095) 4096). lia.
  - rewrite Hm by lia. done.
Qed.

Lemma wp_memset E a b n Q w :
  mapped_rw (w_vm w) a n → Q tt (set_w_mem (fill (Z.to_nat n) (w_mem w) a b) w) →
  wp E (__iso_memset a b n) Q w.
Proof. intros Hm HQ. unfold wp, __iso_memset. by rewrite range_access_mapped. Qed.

Lemma wp_lock_root E Q w :
  w_root_lock w = false → Q tt (set_w_root_lock true w) → wp E LOCK_ROOT Q w.
Proof. unfold wp, LOCK_ROOT. by intros ->. Qed.

Lemma wp_when E (b : bool) m Q w :
  (b = true → wp E m Q w) → (b = false → Q tt w) → wp E (when b m) Q w.
Proof. destruct b; simpl; naive_solver. Qed.

(** Reading back the zone array. *)
Lemma zone_at_put i z w : zone_at (zput_w i z w) i = z.
Proof. unfold zone_at, zput_w. simpl. by rewrite lookup_insert_eq. Qed.
Lemma zone_at_put_ne i j z w : i ≠ j → zone_at (zput_w i z w) j = zone_at w j.
Proof. intros. unfold zone_at, zput_w. simpl. by rewrite lookup_insert_ne. Qed.
End monad_ops.

(** One symbolic-execution step of the calculus. *)
Ltac wstep :=
  lazymatch goal with
  | |- wp _ (mbind _ _) _ _ => apply wp_bind; cbv beta
  | |- wp _ (mret _) _ _ => apply wp_ret; cbv beta
  | |- wp _ (zget _) _ _ => apply wp_zget; cbv beta
  | |- wp _ (zput _ _) _ _ => apply wp_zput; cbv beta
  | |- wp _ (zmod _ _) _ _ => apply wp_zmod; cbv beta
  | |- wp _ (upd _) _ _ => apply wp_upd; cbv beta
  | |- wp _ get _ _ => apply wp_get; cbv beta
  | |- wp _ root _ _ => apply wp_root; [try done|cbv beta]
  | |- wp _ (rupd _) _ _ => apply wp_rupd; [try done|cbv beta]
  end.
Ltac wsteps := repeat wstep.
