(* ===== verification/Util.v ===== *)
(** * Utilities: src/iso_alloc_util.c and src/iso_alloc_random.c

    The arithmetic helpers ([is_pow2], [next_pow2], [_log2]), the page-level memory
    management on top of the system calls, the random number sources, and what they
    guarantee. *)

From S2P Require Import Prelude Words Conf Memory State.

(** ** Arithmetic *)

Definition is_pow2 (sz : Z) : bool := Z.land sz (u64 (sz - 1)) =? 0.

Definition next_pow2 (sz : Z) : Z :=
  let sz := Z.lor sz (Z.shiftr sz 1) in
  let sz := Z.lor sz (Z.shiftr sz 2) in
  let sz := Z.lor sz (Z.shiftr sz 4) in
  let sz := Z.lor sz (Z.shiftr sz 8) in
  let sz := Z.lor sz (Z.shiftr sz 16) in
  let sz := Z.lor sz (Z.shiftr sz 32) in
  u64 (sz + 1).

Definition _log_table : list Z :=
  [ 0; 9; 1; 10; 13; 21; 2; 29;
    11; 14; 16; 18; 22; 25; 3; 30;
    8; 12; 20; 28; 15; 17; 24; 7;
    19; 27; 23; 6; 26; 5; 4; 31 ].

Definition _log2 (v : Z) : Z :=
  let v := Z.lor v (Z.shiftr v 1) in
  let v := Z.lor v (Z.shiftr v 2) in
  let v := Z.lor v (Z.shiftr v 4) in
  let v := Z.lor v (Z.shiftr v 8) in
  let v := Z.lor v (Z.shiftr v 16) in
  nth (Z.to_nat (Z.shiftr (u32 (v * 0x07C4ACDD)) 27)) _log_table 0.

(** ** Random numbers: src/iso_alloc_random.c *)

(** The wyrand step: the new seed and the value drawn. *)
Definition us_rand_step (seed : Z) : Z * Z :=
  let seed := u64 (seed + 0x5d6447c8df9375b5) in
  let tmp := seed * 0x3c5829f2fb3c3eef in
  let m1 := u64 (Z.lxor (Z.shiftr tmp 64) tmp) in
  let tmp := m1 * 0x4f38e4ccc1b0ea59 in
  (seed, u64 (Z.lxor (Z.shiftr tmp 64) tmp)).

Section effects.
Context `{!Kernel, !Config}.

(** [us_rand_uint64(&_root->seed)] *)
Definition us_rand_uint64 : M Z :=
  r ← root;
  let '(s, v) := us_rand_step (seed r) in
  rupd (set_seed s);;
  mret v.

Definition rand_uint64 : M Z := λ w,
  let '(v, k) := k_getrandom (w_k w) in
  let w := set_w_k k w in
  match v with
  | Some v => Ret v w
  | None => if ABORT_NO_ENTROPY then Abort NoEntropy else Ret 0 w
  end.

(** ** System calls *)

Definition sys_mmap (hint len : Z) (pr : prot) : M (option Z) := λ w,
  let '(p, k) := k_mmap (w_k w) (w_vm w) hint len in
  let w := set_w_k k w in
  match p with
  | Some p => Ret (Some p) (set_w_mem (zero_range (w_mem w) p len)
                             (set_w_vm (Vma p len (Some pr) :: w_vm w) w))
  | None => Ret None w
  end.

(** The length the kernel acts on: whole pages. *)
Definition page_len (w : world) (n : Z) : Z := ROUND_UP_PAGE (w_page_size w) (w_page_size_shift w) n.

(** [munmap] of an address that is not page aligned fails with EINVAL; the source never
    looks at the result. *)
Definition munmap (a n : Z) : M unit := λ w,
  if (a mod w_page_size w =? 0) && (0 <? n)
  then Ret tt (set_w_vm (Vma a (page_len w n) None :: w_vm w) w)
  else Ret tt w.

(** [mprotect]: [true] for success. *)
Definition sys_mprotect (a n : Z) (pr : prot) : M bool := λ w,
  if a mod w_page_size w =? 0 then
    let '(ok, k) := k_mprotect (w_k w) a n in
    let w := set_w_k k w in
    if ok then Ret true (set_w_vm (Vma a (page_len w n) (Some pr) :: w_vm w) w) else Ret false w
  else Ret false w.

(** ** src/iso_alloc_util.c *)

Definition mprotect_pages (p n : Z) (pr : prot) : M unit :=
  ok ← sys_mprotect p n pr;
  if ok : bool then mret tt else abort MprotectFailed.

(** [dont_need_pages]: the bytes freed by [MADV_FREE] are the kernel's choice. *)
Definition dont_need_pages (p n : Z) : M unit := λ w,
  let '(m, k) := k_madvise_free (w_k w) (w_mem w) p n in
  Ret tt (set_w_mem m (set_w_k k w)).

(** [mmap_pages]; the result is 0 (NULL) when the rounded size overflows. A failed
    huge-page attempt is retried with the same size and the kernel decides both, so one
    call of [sys_mmap] stands for the attempt that counts. *)
Definition mmap_pages (n : Z) (pr : prot) : M Z :=
  r ← rand_uint64;
  w ← get;
  let hint := Z.land (ROUND_DOWN_PAGE (w_page_size w) (w_page_size_shift w) r) 0x3FFFFFFFF000 in
  let sz := page_len w n in
  if sz <? n then mret 0 else
  p ← sys_mmap hint sz pr;
  match p with
  | None => abort MmapFailed
  | Some p => dont_need_pages p sz;; mret p
  end.

Definition mmap_rw_pages (n : Z) : M Z := mmap_pages n PROT_RW.

Definition create_guard_page (p : Z) : M Z :=
  w ← get;
  p ← (if p =? 0 then
         p ← mmap_rw_pages (w_page_size w);
         if p =? 0 then abort GuardPageFailed else mret p
       else mret p);
  mprotect_pages p (w_page_size w) PROT_NONE;;
  mret p.

Definition unmap_guarded_pages (p n : Z) : M unit :=
  w ← get;
  let sz := page_len w n in
  munmap (p - w_page_size w) (sz + Z.shiftl (w_page_size w) 1).

Definition mmap_guarded_rw_pages (n : Z) : M Z :=
  w ← get;
  let sz := page_len w n in
  if sz <? n then mret 0 else
  p ← mmap_rw_pages (u64 (sz + w_page_size w * 2));
  create_guard_page p;;
  create_guard_page (p + (w_page_size w + sz));;
  mret (p + w_page_size w).
End effects.

(** ** Correctness of the arithmetic helpers *)

(** [x] is [v] with every bit spread over the [n] positions up to it. *)
Definition smeared (v x n : Z) : Prop :=
  0 <= x ∧ ∀ i, 0 <= i → (Z.testbit x i = true ↔ ∃ j, i <= j < i + n ∧ Z.testbit v j = true).

Lemma smeared_start v : 0 <= v → smeared v v 1.
Proof.
  intros Hv. split; [done|]. intros i Hi. split; [intros; exists i; split; [lia|done]|].
  intros (j & Hj & Hb). by assert (j = i) as -> by lia.
Qed.

Lemma smeared_step v x n k : 0 < n → k = 2 * n → smeared v x n → smeared v (Z.lor x (Z.shiftr x n)) k.
Proof.
  intros Hn -> [Hx Hs]. split; [apply Z.lor_nonneg; by rewrite Z.shiftr_nonneg|].
  intros i Hi. rewrite Z.lor_spec, Z.shiftr_spec, orb_true_iff, !Hs by lia. split.
  - intros [(j & Hj & Hb)|(j & Hj & Hb)]; exists j; split; try done; lia.
  - intros (j & Hj & Hb). destruct (Z.lt_ge_cases j (i + n)); [left|right]; exists j; split; try done; lia.
Qed.

Lemma smeared_end v x n : 0 < v < 2 ^ n → 0 <= n → smeared v x n → x = 2 ^ (Z.log2 v + 1) - 1.
Proof.
  intros Hv Hn [Hx Hs]. pose proof (Z.log2_nonneg v).
  assert (Hl : Z.log2 v < n) by (apply Z.log2_lt_pow2; lia).
  rewrite Z.sub_1_r, <-Z.ones_equiv. apply Z.bits_inj'. intros i Hi. apply eq_true_iff_eq.
  rewrite Hs by lia. split.
  - intros (j & Hj & Hb). rewrite Z.ones_spec_low; [done|].
    destruct (Z.lt_ge_cases (Z.log2 v) j); [|lia]. rewrite Z.bits_above_log2 in Hb by lia. done.
  - intros Hb. destruct (Z.lt_ge_cases (Z.log2 v) i); [by rewrite Z.ones_spec_high in Hb by lia|].
    exists (Z.log2 v). split; [lia|]. apply Z.bit_log2. lia.
Qed.

Lemma log2_raw v : 0 < v < 2 ^ 32 → _log2 v = Z.log2 v.
Proof.
  intros Hv. unfold _log2.
  pose proof (smeared_start v ltac:(lia)) as H0.
  apply (smeared_step _ _ 1 2), (smeared_step _ _ 2 4), (smeared_step _ _ 4 8),
    (smeared_step _ _ 8 16), (smeared_step _ _ 16 32) in H0; [|lia..].
  apply (smeared_end v _ 32) in H0; [|lia..]. rewrite H0. clear H0.
  assert (Hl : 0 <= Z.log2 v < 32) by (split; [apply Z.log2_nonneg|apply Z.log2_lt_pow2; lia]).
  generalize dependent (Z.log2 v). intros k Hk.
  assert (Hall : forallb (λ k, nth (Z.to_nat (Z.shiftr (u32 ((2 ^ (k + 1) - 1) * 0x07C4ACDD)) 27))
                   _log_table 0 =? k) (seqZ 0 32) = true) by (vm_compute; reflexivity).
  rewrite forallb_forall in Hall. apply Z.eqb_eq, Hall, list_elem_of_In, elem_of_seqZ. lia.
Qed.

(** [_log2] computes the base-two logarithm of every 32 bit value but 0, for which it
    answers 0. *)
Theorem log2_correct v : 0 < v < 2 ^ 32 → _log2 v = Z.log2 v.
Proof. apply log2_raw. Qed.

(** [next_pow2] answers the least power of two strictly above its argument, which wraps
    to 0 when that power is 2^64. *)
Theorem next_pow2_correct sz : 0 < sz < 2 ^ 64 → next_pow2 sz = u64 (2 ^ (Z.log2 sz + 1)).
Proof.
  intros Hv. unfold next_pow2.
  pose proof (smeared_start sz ltac:(lia)) as H0.
  apply (smeared_step _ _ 1 2), (smeared_step _ _ 2 4), (smeared_step _ _ 4 8),
    (smeared_step _ _ 8 16), (smeared_step _ _ 16 32), (smeared_step _ _ 32 64) in H0; [|lia..].
  apply (smeared_end sz _ 64) in H0; [|lia..]. rewrite H0. f_equal. lia.
Qed.

(** [is_pow2] accepts exactly 0 and the powers of two. *)
Theorem is_pow2_correct sz : is_u64 sz → is_pow2 sz = true ↔ sz = 0 ∨ ∃ k, 0 <= k ∧ sz = 2 ^ k.
Proof.
  intros Hsz. unfold is_pow2. rewrite Z.eqb_eq. destruct (decide (sz = 0)) as [->|Hnz].
  { rewrite Z.land_0_l. tauto. }
  assert (Hpos : 0 < sz) by (unfold is_u64 in *; lia).
  rewrite u64_small by (unfold is_u64 in *; lia).
  assert (Hc : sz = 2 ^ builtin_ctzll sz ↔ Z.land sz (sz - 1) = 0).
  { pose proof (builtin_ctzll_nonneg sz). split; intros Heq.
    - apply Z.bits_inj'. intros j Hj. rewrite land_pred_spec, Z.testbit_0_l by done.
      rewrite Heq at 1. rewrite Z.pow2_bits_eqb by done. rewrite (Z.eqb_sym j).
      by destruct (Z.eqb_spec (builtin_ctzll sz) j).
    - apply Z.bits_inj'. intros j Hj. rewrite Z.pow2_bits_eqb by done.
      destruct (Z.eqb_spec (builtin_ctzll sz) j) as [<-|Hne]; [by apply builtin_ctzll_bit|].
      apply (f_equal (λ x, Z.testbit x j)) in Heq. rewrite Z.testbit_0_l in Heq.
      rewrite land_pred_spec, (proj2 (Z.eqb_neq j _)), andb_true_r in Heq by (done || lia). done. }
  rewrite <-Hc. split.
  - intros Heq. right. exists (builtin_ctzll sz). split; [apply builtin_ctzll_nonneg|done].
  - intros [|(k & Hk & ->)]; [done|]. f_equal.
    destruct (Z.lt_trichotomy (builtin_ctzll (2 ^ k)) k) as [Hlt|[->|Hgt]]; [|done|].
    + pose proof (builtin_ctzll_bit (2 ^ k) Hpos) as Hb. pose proof (builtin_ctzll_nonneg (2 ^ k)).
      rewrite Z.pow2_bits_eqb in Hb by done. lia.
    + pose proof (builtin_ctzll_low (2 ^ k) k Hpos ltac:(lia)) as Hb.
      rewrite Z.pow2_bits_true in Hb by done. done.
Qed.

(** ** Page rounding *)

Lemma next_multiple n p r : 0 < p → n <= r < n + p → r mod p = 0 →
  r = if n mod p =? 0 then n else n - n mod p + p.
Proof.
  intros Hp Hr [q ->]%Z.mod_divide; [|lia].
  pose proof (Z.div_mod n p ltac:(lia)) as Hd. pose proof (Z.mod_pos_bound n p Hp).
  generalize dependent (n mod p). generalize dependent (n / p). intros k m -> Hm.
  destruct (Z.eqb_spec m 0) as [->|].
  - assert (q = k) by nia. nia.
  - assert (q = k + 1) by nia. nia.
Qed.

Section rounding.
Variables page shift : Z.
Hypothesis Hshift : 12 <= shift <= 16.
Hypothesis Hpage : page = 2 ^ shift.

Lemma page_bounds : 4096 <= page <= 65536.
Proof.
  subst page. split.
  - change 4096 with (2 ^ 12). apply Z.pow_le_mono_r; lia.
  - change 65536 with (2 ^ 16). apply Z.pow_le_mono_r; lia.
Qed.

Lemma page_divides_2_64 : (2 ^ 64) mod page = 0.
Proof.
  subst page. replace 64 with ((64 - shift) + shift) by lia.
  rewrite Z.pow_add_r by lia. by rewrite Z.mod_mul by (apply Z.pow_nonzero; lia).
Qed.

Lemma ROUND_UP_PAGE_eq n : 0 <= n <= 2 ^ 64 - page →
  ROUND_UP_PAGE page shift n = (n + page - 1) / page * page.
Proof.
  intros Hn. pose proof page_bounds. pose proof page_divides_2_64 as Hdiv.
  unfold ROUND_UP_PAGE.
  assert (Hin : u64 (u64 (n + page) - 1) = n + page - 1).
  { rewrite !u64_pow. destruct (decide (n = 2 ^ 64 - page)) as [->|].
    - replace (2 ^ 64 - page + page) with (2 ^ 64) by lia. rewrite Z.mod_same by lia. done.
    - rewrite (Z.mod_small (n + page)) by lia. apply Z.mod_small. lia. }
  rewrite Hin, Z.shiftr_div_pow2, <-Hpage by lia. apply u64_small.
  pose proof (Z.mul_div_le (n + page - 1) page). pose proof (Z.div_pos (n + page - 1) page).
  unfold is_u64. lia.
Qed.

Lemma round_up_page_raw n : is_u64 n →
  let r := ROUND_UP_PAGE page shift n in
  (n <= 2 ^ 64 - page → n <= r < n + page ∧ r mod page = 0) ∧
  (2 ^ 64 - page < n → r = 0).
Proof.
  intros Hn r. pose proof page_bounds. split; intros Hc; subst r.
  - rewrite ROUND_UP_PAGE_eq by (unfold is_u64 in *; lia).
    rewrite Z.mod_mul by lia. pose proof (Z.div_mod (n + page - 1) page).
    pose proof (Z.mod_pos_bound (n + page - 1) page). lia.
  - unfold ROUND_UP_PAGE, is_u64 in *. rewrite !u64_pow.
    replace (n + page) with (n + page - 2 ^ 64 + 1 * 2 ^ 64) by lia.
    rewrite Z.mod_add by lia. rewrite (Z.mod_small (n + page - 2 ^ 64)) by lia.
    rewrite (Z.mod_small (n + page - 2 ^ 64 - 1)) by lia.
    rewrite Z.shiftr_div_pow2, <-Hpage, Z.div_small by lia. done.
Qed.

(** [ROUND_UP_PAGE] answers the least multiple of the page size that is not below its
    argument; when that multiple does not fit 64 bits it answers 0, which is how every
    caller that compares the result with its argument sees the overflow. *)
Theorem round_up_page_correct n : is_u64 n →
  let r := ROUND_UP_PAGE page shift n in
  (n <= 2 ^ 64 - page → n <= r < n + page ∧ r mod page = 0) ∧
  (2 ^ 64 - page < n → r = 0).
Proof. apply round_up_page_raw. Qed.

(** [ROUND_DOWN_PAGE] is the page below, also for an address that is page aligned. *)
Lemma round_down_page_correct n : page <= n <= 2 ^ 64 - page →
  ROUND_DOWN_PAGE page shift n =
  if n mod page =? 0 then n - page else n - n mod page.
Proof.
  intros Hn. pose proof page_bounds. unfold ROUND_DOWN_PAGE.
  destruct (round_up_page_raw n) as [Hr _]; [unfold is_u64; lia|].
  destruct (Hr ltac:(lia)) as [Hr1 Hr2].
  assert (Hcong : ROUND_UP_PAGE page shift n = if n mod page =? 0 then n else n - n mod page + page).
  { apply next_multiple; lia. }
  rewrite Hcong. pose proof (Z.mod_pos_bound n page). pose proof (Z.mod_le n page).
  destruct (Z.eqb_spec (n mod page) 0); rewrite u64_small; unfold is_u64; lia.
Qed.
End rounding.

(** ** Mapping memory *)

Section mapping.
Context `{!Kernel, !KernelLaws, !Config}.

(** The globals agree with the kernel's page size. *)
Definition page_ok (w : world) : Prop :=
  12 <= w_page_size_shift w <= 16 ∧
  w_page_size w = 2 ^ w_page_size_shift w ∧
  k_page_size (w_k w) = w_page_size w.

Lemma page_ok_k k w : page_ok w → k_page_size k = k_page_size (w_k w) → page_ok (set_w_k k w).
Proof. intros (? & ? & ?) Hk. unfold page_ok. simpl. by rewrite Hk. Qed.

Lemma page_ok_bounds w : page_ok w → 4096 <= w_page_size w <= 65536.
Proof. intros (Hs & Hp & _). by eapply page_bounds. Qed.

Lemma page_len_spec w n : page_ok w → 0 <= n <= 2 ^ 63 →
  n <= page_len w n < n + w_page_size w ∧ page_len w n mod w_page_size w = 0.
Proof.
  intros (Hs & Hp & _) Hn. pose proof (page_bounds _ _ Hs Hp).
  eapply round_up_page_raw; eauto; unfold is_u64; lia.
Qed.

Lemma page_len_aligned w n : page_ok w → 0 <= n <= 2 ^ 63 → n mod w_page_size w = 0 → page_len w n = n.
Proof.
  intros Hw Hn Ha. destruct (page_len_spec w n Hw Hn) as [Hb Hm].
  pose proof (page_ok_bounds w Hw).
  rewrite (next_multiple n (w_page_size w) (page_len w n)) by (done || lia).
  by rewrite Ha.
Qed.

Lemma page_len_mono w n n' : page_ok w → 0 <= n <= n' → n' <= 2 ^ 63 → page_len w n <= page_len w n'.
Proof.
  intros (Hs & Hp & _) Hn Hn'. pose proof (page_bounds _ _ Hs Hp). unfold page_len. rewrite !(ROUND_UP_PAGE_eq _ _ Hs Hp) by lia.
  apply Z.mul_le_mono_nonneg_r; [lia|]. apply Z.div_le_mono; lia.
Qed.

(** The world after a system call that only touched memory, mappings and the kernel. *)
Definition after_sys (m : gmap Z Z) (vm : list vma) (k : kst) (w : world) : world :=
  set_w_mem m (set_w_vm vm (set_w_k k w)).

Lemma wp_rand (E : failure → Prop) Q w :
  page_ok w → (∀ e, resource e → E e) →
  (∀ v k, is_u64 v → page_ok (set_w_k k w) → Q v (set_w_k k w)) →
  wp E rand_uint64 Q w.
Proof.
  intros Hw HE HQ. unfold wp, rand_uint64.
  destruct (k_getrandom (w_k w)) as [v k] eqn:Hr.
  assert (page_ok (set_w_k k w)) by (apply page_ok_k; [done|by apply (kl_random_page _ _ _ Hr)]).
  destruct v as [v|]; [apply HQ; [by eapply kl_random|done]|].
  destruct ABORT_NO_ENTROPY; [by apply HE|]. apply HQ; [unfold is_u64; lia|done].
Qed.

Lemma wp_us_rand E Q w :
  w_root_null w = false →
  (∀ s v, is_u64 s → is_u64 v → Q v (set_w_root (set_seed s (w_root w)) w)) →
  wp E us_rand_uint64 Q w.
Proof.
  intros Hn HQ. unfold us_rand_uint64. wsteps. unfold us_rand_step. cbv zeta. wsteps.
  apply HQ; auto with iso.
Qed.

Lemma us_rand_run w : w_root_null w = false → ∃ s v, us_rand_uint64 w = Ret v (set_w_root (set_seed s (w_root w)) w).
Proof.
  intros Hn. unfold us_rand_uint64, mbind, M_bind, root. rewrite Hn. destruct (us_rand_step _) as [s v].
  unfold rupd. rewrite Hn. by exists s, v.
Qed.

Lemma wp_mmap_pages (E : failure → Prop) n pr Q w :
  page_ok w → 0 < n <= 2 ^ 46 → (∀ e, resource e → E e) →
  (∀ p m k, p mod w_page_size w = 0 → w_page_size w <= p → p + page_len w n <= 2 ^ 47 →
     unmapped (w_vm w) p (page_len w n) →
     (∀ x, ld8 m x = if decide (p <= x < p + page_len w n) then 0 else ld8 (w_mem w) x) →
     page_ok (set_w_k k w) →
     Q p (after_sys m (Vma p (page_len w n) (Some pr) :: w_vm w) k w)) →
  wp E (mmap_pages n pr) Q w.
Proof.
  intros Hw Hn HE HQ. unfold mmap_pages. wstep. apply wp_rand; [done..|]. intros v k1 Hv Hk1.
  wsteps. change (page_len (set_w_k k1 w) n) with (page_len w n).
  destruct (page_len_spec w n) as [Hl Hm]; [done|lia|].
  destruct (Z.ltb_spec (page_len w n) n); [lia|]. wstep.
  unfold wp, sys_mmap. simpl. destruct (k_mmap k1 _ _ _) as [[p|] k2] eqn:Hmm; [|by apply HE].
  assert (Hp : k_page_size k1 = w_page_size w) by apply Hk1.
  pose proof (kl_mmap_aligned _ _ _ _ _ _ Hmm) as Ha. pose proof (kl_mmap_range _ _ _ _ _ _ Hmm) as Hr.
  pose proof (kl_mmap_fresh _ _ _ _ _ _ Hmm) as Hf. pose proof (kl_mmap_page _ _ _ _ _ _ Hmm) as Hp2.
  rewrite Hp in *. unfold mbind, M_bind, dont_need_pages, mret, M_ret. simpl.
  destruct (k_madvise_free k2 _ _ _) as [m k3] eqn:Hmad. pose proof (kl_madvise_page _ _ _ _ _ _ Hmad).
  apply (HQ p m k3); try done; try lia.
  - intros x. destruct (kl_madvise _ _ _ _ _ _ Hmad x) as [->|[Hin ->]]; [by rewrite ld8_zero_range|].
    by rewrite decide_True.
  - apply page_ok_k; [done|]. destruct Hw as (_ & _ & ?). congruence.
Qed.

Lemma wp_mprotect_pages (E : failure → Prop) p n pr Q w :
  page_ok w → (∀ e, resource e → E e) →
  (∀ k, page_ok (set_w_k k w) →
     Q tt (after_sys (w_mem w) (Vma p (page_len w n) (Some pr) :: w_vm w) k w)) →
  wp E (mprotect_pages p n pr) Q w.
Proof.
  intros Hw HE HQ. unfold mprotect_pages. wstep. unfold wp, sys_mprotect.
  destruct (p mod w_page_size w =? 0); [|by apply HE].
  destruct (k_mprotect (w_k w) p n) as [[] k] eqn:Hk; [|by apply HE].
  apply HQ, page_ok_k; [done|]. by apply (kl_mprotect_page _ _ _ _ _ Hk).
Qed.

Lemma wp_create_guard_page (E : failure → Prop) p Q w :
  page_ok w → (∀ e, resource e → E e) → p ≠ 0 →
  (∀ k, page_ok (set_w_k k w) →
     Q p (after_sys (w_mem w) (Vma p (w_page_size w) (Some PROT_NONE) :: w_vm w) k w)) →
  wp E (create_guard_page p) Q w.
Proof.
  intros Hw HE Hp HQ. unfold create_guard_page. wsteps. rewrite (proj2 (Z.eqb_neq p 0)) by done.
  wsteps. apply wp_mprotect_pages; [done..|]. intros k Hk. wsteps.
  pose proof (page_ok_bounds w Hw). rewrite page_len_aligned; [by apply HQ|done|lia|apply Z.mod_same; lia].
Qed.

(** The mapping [mmap_guarded_rw_pages n] leaves at [p]: readable and writable zero
    pages with an inaccessible page on each side, nothing else of the address space
    changed. *)
Definition guarded_mapping (w w' : world) (p n : Z) : Prop :=
  let len := page_len w n in
  let page := w_page_size w in
  p mod page = 0 ∧ page < p ∧ p + len + page <= 2 ^ 47 ∧
  mapped_rw (w_vm w') p len ∧
  (∀ x, p - page <= x < p ∨ p + len <= x < p + len + page → vm_prot (w_vm w') x = Some PROT_NONE) ∧
  unmapped (w_vm w) (p - page) (len + 2 * page) ∧
  (∀ x, ¬ (p - page <= x < p + len + page) → vm_prot (w_vm w') x = vm_prot (w_vm w) x) ∧
  (∀ x, ld8 (w_mem w') x = if decide (p - page <= x < p + len + page) then 0 else ld8 (w_mem w) x) ∧
  page_ok w' ∧
  w' = after_sys (w_mem w') (w_vm w') (w_k w') w.

Lemma wp_mmap_guarded_rw_pages n w :
  page_ok w → 0 < n <= 2 ^ 40 →
  wp resource (mmap_guarded_rw_pages n) (λ p w', guarded_mapping w w' p n) w.
Proof.
  intros Hw Hn. unfold mmap_guarded_rw_pages. wsteps.
  destruct (page_len_spec w n Hw) as [Hl Hm]; [lia|].
  pose proof (page_ok_bounds w Hw) as Hpg.
  destruct (Z.ltb_spec (page_len w n) n); [lia|]. wstep.
  rewrite u64_small by (unfold is_u64; lia).
  assert (Hlen : page_len w (page_len w n + w_page_size w * 2) = page_len w n + w_page_size w * 2).
  { apply page_len_aligned; [done|lia|]. by rewrite (Z.mul_comm _ 2), Z.mod_add by lia. }
  apply wp_mmap_pages; [done|lia|done|]. rewrite Hlen. intros p m k Ha Hb Hc Hfr Hz Hk.
  wstep. apply wp_create_guard_page; [done|done|lia|]. intros k2 Hk2. wstep.
  apply wp_create_guard_page; [done|done|simpl; lia|]. intros k3 Hk3. wsteps.
  simpl in *. unfold guarded_mapping. simpl.
  split_and!; try (simpl; lia); try done.
  - rewrite <-(Z.mul_1_l (w_page_size w)) at 1. by rewrite Z.mod_add by lia.
  - intros x Hx. rewrite !vm_prot_cons. simpl. rewrite !decide_False, decide_True by lia. done.
  - intros x Hx. rewrite !vm_prot_cons. simpl. repeat case_decide; try done; lia.
  - intros x Hx. apply Hfr. lia.
  - intros x Hx. rewrite !vm_prot_cons. simpl. rewrite !decide_False by lia. done.
  - intros x. rewrite Hz. repeat case_decide; done || lia.
Qed.

(** What a new mapping of [n] bytes at [p] means for the rest: nothing that was mapped
    changes. *)
Record fresh_map (w w' : world) (p n : Z) : Prop := {
  fm_align : p mod w_page_size w = 0;
  fm_range : w_page_size w <= p ∧ p + n <= 2 ^ 47;
  fm_rw : mapped_rw (w_vm w') p n;
  fm_fresh : unmapped (w_vm w) p n;
  fm_zero : ∀ x, p <= x < p + n → ld8 (w_mem w') x = 0;
  fm_vm : ∀ x, vm_prot (w_vm w) x ≠ None → vm_prot (w_vm w') x = vm_prot (w_vm w) x;
  fm_mem : ∀ x, vm_prot (w_vm w) x ≠ None → ld8 (w_mem w') x = ld8 (w_mem w) x;
  fm_page : page_ok w';
  fm_world : w' = after_sys (w_mem w') (w_vm w') (w_k w') w;
}.

Lemma wp_map_rw n w : page_ok w → 0 < n <= 2 ^ 46 →
  wp resource (mmap_rw_pages n) (λ p w', fresh_map w w' p (page_len w n)) w.
Proof.
  intros Hw Hn. apply wp_mmap_pages; [done..|]. intros p m k Ha Hb Hc Hfr Hz Hk.
  assert (Hin : ∀ x, vm_prot (w_vm w) x ≠ None → ¬ (p <= x < p + page_len w n)).
  { intros x Hx Hr. apply Hx, Hfr. lia. }
  constructor; try done.
  - intros x Hx. simpl. by rewrite vm_prot_cons, decide_True.
  - intros x Hx. simpl. by rewrite Hz, decide_True.
  - intros x Hx. simpl. rewrite vm_prot_cons, decide_False; [done|]. by apply Hin.
  - intros x Hx. simpl. rewrite Hz, decide_False; [done|]. by apply Hin.
Qed.

Lemma wp_map_guarded n w : page_ok w → 0 < n <= 2 ^ 40 →
  wp resource (mmap_guarded_rw_pages n) (λ p w', fresh_map w w' p (page_len w n)) w.
Proof.
  intros Hw Hn. eapply wp_post; [by apply wp_mmap_guarded_rw_pages|]. intros p w' (Ha & Hb & Hc & Hrw & _ & Hfr & Hvm & Hmem & Hpg & Heq).
  pose proof (page_ok_bounds w Hw).
  assert (Hin : ∀ x, vm_prot (w_vm w) x ≠ None → ¬ (p - w_page_size w <= x < p + page_len w n + w_page_size w)).
  { intros x Hx Hr. apply Hx, Hfr. lia. }
  constructor; try done; try lia.
  - intros x Hx. apply Hfr. lia.
  - intros x Hx. rewrite Hmem, decide_True; [done|lia].
  - intros x Hx. by apply Hvm, Hin.
  - intros x Hx. rewrite Hmem, decide_False; [done|]. by apply Hin.
Qed.

(** C26. A guarded mapping is fresh, zero, readable and writable, and bordered by two
    inaccessible pages: an access that runs off either end faults. The call fails only
    for want of memory or entropy. *)
Theorem mmap_guarded_rw_pages_correct n w :
  page_ok w → 0 < n <= 2 ^ 40 →
  wp resource (mmap_guarded_rw_pages n) (λ p w', guarded_mapping w w' p n) w.
Proof. apply wp_mmap_guarded_rw_pages. Qed.
End mapping.
