(* ===== verification/Sanity.v ===== *)
(** * Sampled allocations

    The allocation sampler of src/iso_alloc_sanity.c ([ALLOC_SANITY]): one small request in
    ten thousand gets a page of its own between two guard pages, the rest of the page is
    filled with a canary, and freeing it checks every byte around the request. This file is
    the build without [UNINIT_READ_SANITY]; [Faults] has what that flag adds. *)

From S2P Require Import Prelude Words Conf Memory State Util.

Definition SANITY_SAMPLE_ODDS : Z := 10000.
Definition MAX_SANE_SAMPLES : nat := 1024.
Definition SANE_CACHE_SIZE : Z := 65535.
Definition SANE_CACHE_IDX (p : Z) : Z := Z.land (Z.shiftr p 8) 0xffff.
Definition SANITY_CANARY_VALIDATE_MASK : Z := 0xffffffffffffff00.

(** [_sane_allocation_t] *)
Record sane_allocation := mk_sane {
  sane_address : Z;
  orig_size : Z;
  right_aligned : bool;
}.

(** The sampler's globals and its lock. *)
Record sanity := mk_sanity {
  _sanity_canary : Z;
  _sane_sampled : Z;
  _sane_cache : gmap Z Z;
  _sane_allocations : list sane_allocation;
  sane_cache_lock : bool;
}.

Definition set_sane_lock (b : bool) (s : sanity) : sanity :=
  mk_sanity (_sanity_canary s) (_sane_sampled s) (_sane_cache s) (_sane_allocations s) b.

Section model.
Context `{!Kernel, !Config}.

Definition LOCK_SANITY_CACHE (s : sanity) : M sanity := λ w,
  if sane_cache_lock s then Deadlock else Ret (set_sane_lock true s) w.
Definition UNLOCK_SANITY_CACHE (s : sanity) : M sanity := mret (set_sane_lock false s).

(** ** The canary around a sampled allocation *)

Fixpoint write_qwords (n : nat) (p canary : Z) : M unit :=
  match n with
  | O => mret tt
  | S n' => wr64 p canary;; write_qwords n' (p + 8) canary
  end.

Definition sanity_canary (s : sanity) : Z := Z.land (_sanity_canary s) SANITY_CANARY_VALIDATE_MASK.

Definition write_sanity_canary (s : sanity) (p : Z) : M unit :=
  w ← get;
  write_qwords (Z.to_nat (w_page_size w / 8)) p (sanity_canary s).

(** The byte of the canary that belongs to the address [a]. *)
Definition canary_byte (canary a : Z) : Z := u8 (Z.shiftr canary (Z.shiftl (Z.land a 7) 3)).

(** The two byte loops: [head] stops at the first address that is a multiple of 8. *)
Fixpoint check_bytes (fuel : nat) (head : bool) (start stop canary : Z) : M Z :=
  match fuel with
  | O => nofuel
  | S fuel' =>
      if (start <? stop) && (negb head || negb (Z.land start 7 =? 0)) then
        v ← rd8 start;
        if negb (v =? canary_byte canary start) then abort SanityCanaryCorrupt
        else check_bytes fuel' head (start + 1) stop canary
      else mret start
  end.

Fixpoint check_qwords (fuel : nat) (start stop canary : Z) : M Z :=
  match fuel with
  | O => nofuel
  | S fuel' =>
      if start + 8 <=? stop then
        v ← rd64 start;
        if negb (v =? canary) then abort SanityCanaryCorrupt else check_qwords fuel' (start + 8) stop canary
      else mret start
  end.

(** The part of the page outside the request. *)
Definition red_zone (page : Z) (a : sane_allocation) : Z * Z :=
  if right_aligned a then (sane_address a, sane_address a + page - orig_size a)
  else (sane_address a + orig_size a, sane_address a + page).

Definition check_sanity_canary (s : sanity) (a : sane_allocation) : M unit :=
  w ← get;
  let '(start, stop) := red_zone (w_page_size w) a in
  let fuel := S (Z.to_nat (w_page_size w)) in
  start ← check_bytes fuel true start stop (sanity_canary s);
  start ← check_qwords fuel start stop (sanity_canary s);
  check_bytes fuel false start stop (sanity_canary s);;
  mret tt.

(** ** Sampling *)

(** The position of the first entry with the given address. *)
Fixpoint find_sane (addr : Z) (l : list sane_allocation) : option nat :=
  match l with
  | [] => None
  | a :: l' => if sane_address a =? addr then Some O else S <$> find_sane addr l'
  end.

(** [_sane_cache[i]]; the array has [SANE_CACHE_SIZE] entries. *)
Definition sane_cache_get (s : sanity) (i : Z) : M Z :=
  if i <? SANE_CACHE_SIZE then mret (default 0 (_sane_cache s !! i)) else undef.
Definition sane_cache_put (s : sanity) (i v : Z) : M sanity :=
  if i <? SANE_CACHE_SIZE then
    mret (mk_sanity (_sanity_canary s) (_sane_sampled s) (<[i := u8 v]> (_sane_cache s)) (_sane_allocations s) (sane_cache_lock s))
  else undef.

Definition _get_sane_alloc (s : sanity) (p : Z) : M (option nat) :=
  c ← sane_cache_get s (SANE_CACHE_IDX p);
  if c =? 0 then mret None else
  w ← get;
  let pa := if negb (IS_PAGE_ALIGNED (w_page_size w) p =? 0) then ROUND_DOWN_PAGE (w_page_size w) (w_page_size_shift w) p else p in
  mret (find_sane pa (_sane_allocations s)).

Definition sample_entry (s : sanity) (i : nat) : sane_allocation := nth i (_sane_allocations s) (mk_sane 0 0 false).

(** [true] is [OK], [false] is [ERR]. *)
Definition _iso_alloc_free_sane_sample (s : sanity) (p : Z) : M (bool * sanity) :=
  s ← LOCK_SANITY_CACHE s;
  e ← _get_sane_alloc s p;
  match e with
  | Some i =>
      w ← get;
      let a := sample_entry s i in
      check_sanity_canary s a;;
      unmap_guarded_pages (sane_address a) (w_page_size w);;
      let s := mk_sanity (_sanity_canary s) (_sane_sampled s) (_sane_cache s)
                 (<[i := mk_sane 0 0 false]> (_sane_allocations s)) (sane_cache_lock s) in
      c ← sane_cache_get s (SANE_CACHE_IDX p);
      s ← sane_cache_put s (SANE_CACHE_IDX p) (c - 1);
      let s := mk_sanity (_sanity_canary s) (_sane_sampled s - 1) (_sane_cache s) (_sane_allocations s) (sane_cache_lock s) in
      s ← UNLOCK_SANITY_CACHE s;
      mret (true, s)
  | None =>
      s ← UNLOCK_SANITY_CACHE s;
      mret (false, s)
  end.

(** The pages of a sample, with the request at the left or the right end, and its entry [i]:
    the answer is the address of the request. *)
Definition place_sample (s : sanity) (i : nat) (size : Z) : M (Z * sanity) :=
  w ← get;
  p ← mmap_guarded_rw_pages (w_page_size w);
  if p =? 0 then abort NoSanePages else
  v ← us_rand_uint64;
  let right := v mod 2 =? 1 in
  let p := if right then p + w_page_size w - size else p in
  let addr := if right then ROUND_DOWN_PAGE (w_page_size w) (w_page_size_shift w) p else p in
  mret (p, mk_sanity (_sanity_canary s) (_sane_sampled s) (_sane_cache s)
             (<[i := mk_sane addr size (right || right_aligned (sample_entry s i))]> (_sane_allocations s)) (sane_cache_lock s)).

(** [_sane_cache[SANE_CACHE_IDX(p)]++; _sane_sampled++] *)
Definition count_sample (s : sanity) (p : Z) : M sanity :=
  c ← sane_cache_get s (SANE_CACHE_IDX p);
  s ← sane_cache_put s (SANE_CACHE_IDX p) (c + 1);
  mret (mk_sanity (_sanity_canary s) (_sane_sampled s + 1) (_sane_cache s) (_sane_allocations s) (sane_cache_lock s)).

(** [_iso_alloc_sample], called with the root locked; 0 is NULL. *)
Definition _iso_alloc_sample (s : sanity) (size : Z) : M (Z * sanity) :=
  v ← us_rand_uint64;
  if negb (v mod SANITY_SAMPLE_ODDS =? 1) then mret (0, s) else
  s ← LOCK_SANITY_CACHE s;
  UNLOCK_ROOT;;
  match find_sane 0 (_sane_allocations s) with
  | None => abort NoSaneSlot
  | Some i =>
      '(p, s) ← place_sample s i size;
      s ← count_sample s p;
      write_sanity_canary s (sane_address (sample_entry s i));;
      s ← UNLOCK_SANITY_CACHE s;
      mret (p, s)
  end.
End model.

(** ** The check is exact *)

(** All bytes from [lo] up to [hi] carry the canary: the reference the three loops are
    measured against. *)
Definition intact (m : gmap Z Z) (canary lo hi : Z) : Prop := ∀ a, lo <= a < hi → ld8 m a = canary_byte canary a.

Lemma intact_app m c lo mid hi : lo <= mid → intact m c lo mid → (intact m c lo hi ↔ intact m c mid hi).
Proof.
  intros Hle Hm. unfold intact in *. split; intros Hi a Ha; [apply Hi; lia|].
  destruct (Z.lt_ge_cases a mid); [apply Hm; lia|apply Hi; lia].
Qed.

Lemma intact_cons m c lo hi : lo < hi → (intact m c lo hi ↔ ld8 m lo = canary_byte c lo ∧ intact m c (lo + 1) hi).
Proof.
  intros Hlt. split.
  - intros Hi. split; [apply Hi; lia|]. intros a Ha. apply Hi. lia.
  - intros [H0 Hi] a Ha. destruct (decide (a = lo)) as [->|]; [done|]. apply Hi. lia.
Qed.

Lemma ld8_stn_same n m a v k : 0 <= k < Z.of_nat n → ld8 (stn n m a v) (a + k) = u8 (v / 256 ^ k).
Proof.
  revert m a v k. induction n as [|n IH]; intros m a v k Hk; [lia|]. cbn [stn]. destruct (decide (k = 0)) as [->|].
  - rewrite ld8_stn_other by lia. rewrite ld8_insert, decide_True by lia. by rewrite u8_idem, Z.pow_0_r, Z.div_1_r.
  - replace (a + k) with (a + 1 + (k - 1)) by lia. rewrite IH by lia. f_equal.
    rewrite Z.div_div by lia. f_equal. replace k with (Z.succ (k - 1)) at 2 by lia. rewrite Z.pow_succ_r by lia. done.
Qed.

Lemma canary_byte_lane c a k : Z.land a 7 = 0 → 0 <= k < 8 → canary_byte c (a + k) = u8 (c / 256 ^ k).
Proof.
  intros Ha Hk. unfold canary_byte. change 7 with (Z.ones 3) in *. rewrite Z.land_ones in * by lia.
  assert ((a + k) mod 2 ^ 3 = k) as ->. { change (2 ^ 3) with 8 in *. rewrite Z.add_mod, Ha, Z.add_0_l, Z.mod_mod by lia. apply Z.mod_small. lia. }
  rewrite Z.shiftl_mul_pow2, Z.shiftr_div_pow2 by lia. do 2 f_equal. change (2 ^ 3) with 8. change 256 with (2 ^ 8).
  rewrite <-Z.pow_mul_r by lia. f_equal. lia.
Qed.

Lemma qword_intact m c a : is_u64 c → Z.land a 7 = 0 → (ld64 m a = c ↔ intact m c a (a + 8)).
Proof.
  intros Hc Ha. assert (Hst : ∀ x, a <= x < a + 8 → ld8 (st64 m a c) x = canary_byte c x).
  { intros x Hx. replace x with (a + (x - a)) by lia. rewrite canary_byte_lane by lia. apply ld8_stn_same. lia. }
  split.
  - intros Heq x Hx. rewrite <-Hst by lia. apply (ld64_inj m (st64 m a c) a x); [|lia]. by rewrite ld64_st64_same.
  - intros Hi. rewrite <-(ld64_st64_same m a c) by done. apply ld64_ext. intros x Hx. by rewrite Hst, Hi.
Qed.

Section check.
Context `{!Kernel, !Config}.
Variables (w : world) (c : Z).

Lemma rd8_ok p : mapped_rw (w_vm w) p 1 → rd8 p w = Ret (ld8 (w_mem w) p) w.
Proof. intros Hm. unfold rd8. by rewrite can_access_mapped. Qed.

Lemma check_bytes_spec fuel head lo hi : (Z.to_nat (hi - lo) < fuel)%nat → mapped_rw (w_vm w) lo (hi - lo) →
  (∃ s, check_bytes fuel head lo hi c w = Ret s w ∧ lo <= s <= Z.max lo hi ∧ intact (w_mem w) c lo s ∧
        (s < hi → head = true ∧ Z.land s 7 = 0)) ∨
  (check_bytes fuel head lo hi c w = Abort SanityCanaryCorrupt ∧ ¬ intact (w_mem w) c lo hi).
Proof.
  revert lo. induction fuel as [|fuel IH]; intros lo Hf Hm; [lia|]. cbn [check_bytes].
  destruct (Z.ltb_spec lo hi) as [Hlt|Hge]; cbn [andb].
  2:{ left. exists lo. split; [done|]. split; [lia|]. split; [intros a Ha; lia|lia]. }
  destruct (negb head || negb (Z.land lo 7 =? 0)) eqn:Hc.
  2:{ left. exists lo. apply orb_false_iff in Hc as [Hh%negb_false_iff Hz%negb_false_iff%Z.eqb_eq]. split; [done|]. split; [lia|]. split; [intros a Ha; lia|done]. }
  erewrite run_bind by (apply rd8_ok; eapply mapped_rw_sub; [exact Hm|lia..]).
  destruct (Z.eqb_spec (ld8 (w_mem w) lo) (canary_byte c lo)) as [Heq|Hne]; cbn [negb].
  - destruct (IH (lo + 1)) as [(s & Hr & Hs & Hi & Hend)|[Hr Hi]]; [lia|eapply mapped_rw_sub; [exact Hm|lia..]| |].
    + left. exists s. split; [done|]. split; [lia|]. split; [apply intact_cons; [lia|done]|done].
    + right. split; [done|]. rewrite intact_cons by done. tauto.
  - right. split; [done|]. rewrite intact_cons by done. tauto.
Qed.

Lemma check_qwords_spec fuel lo hi : is_u64 c → (Z.to_nat (hi - lo) < fuel)%nat → mapped_rw (w_vm w) lo (hi - lo) → lo < hi → Z.land lo 7 = 0 →
  (∃ s, check_qwords fuel lo hi c w = Ret s w ∧ lo <= s <= hi ∧ intact (w_mem w) c lo s) ∨
  (check_qwords fuel lo hi c w = Abort SanityCanaryCorrupt ∧ ¬ intact (w_mem w) c lo hi).
Proof.
  intros Hc. revert lo. induction fuel as [|fuel IH]; intros lo Hf Hm Hlt Ha; [lia|]. cbn [check_qwords].
  destruct (Z.leb_spec (lo + 8) hi) as [Hle|Hgt].
  2:{ left. exists lo. split; [done|]. split; [lia|]. intros a Hx. lia. }
  erewrite run_bind by (unfold rd64; rewrite can_access_mapped; [done|lia|eapply mapped_rw_sub; [exact Hm|lia..]]).
  pose proof (qword_intact (w_mem w) c lo Hc Ha) as Hq.
  destruct (Z.eqb_spec (ld64 (w_mem w) lo) c) as [Heq|Hne]; cbn [negb].
  - assert (Hi8 : intact (w_mem w) c lo (lo + 8)) by by apply Hq.
    assert (Ha8 : Z.land (lo + 8) 7 = 0).
    { change 7 with (Z.ones 3) in *. rewrite Z.land_ones in * by lia. change (2 ^ 3) with 8 in *.
      replace (lo + 8) with (lo + 1 * 8) by lia. by rewrite Z.mod_add. }
    destruct (decide (lo + 8 < hi)) as [Hlt8|].
    + destruct (IH (lo + 8)) as [(s & Hr & Hs & Hi)|[Hr Hi]]; [lia|eapply mapped_rw_sub; [exact Hm|lia..]|done|done| |].
      * left. exists s. split; [done|]. split; [lia|]. by apply (intact_app _ _ _ (lo + 8)); [lia|..].
      * right. split; [done|]. rewrite (intact_app _ _ _ (lo + 8)); [done|lia|done].
    + left. exists (lo + 8). split; [|split; [lia|done]]. destruct fuel; [lia|]. cbn [check_qwords]. by rewrite (proj2 (Z.leb_gt _ _)) by lia.
  - right. split; [done|]. intros Hi. apply Hne, Hq. intros a Hx. apply Hi. lia.
Qed.
End check.

Section theorems.
Context `{!Kernel, !KernelLaws, !Config}.

(** The three loops together. *)
Lemma check_sanity_run s a w : is_u64 (sanity_canary s) →
  let '(lo, hi) := red_zone (w_page_size w) a in
  mapped_rw (w_vm w) lo (hi - lo) → hi - lo <= w_page_size w →
  (intact (w_mem w) (sanity_canary s) lo hi ∧ check_sanity_canary s a w = Ret tt w) ∨
  (¬ intact (w_mem w) (sanity_canary s) lo hi ∧ check_sanity_canary s a w = Abort SanityCanaryCorrupt).
Proof.
  intros Hc. unfold check_sanity_canary. destruct (red_zone (w_page_size w) a) as [lo hi] eqn:Hrz. intros Hm Hlen.
  unfold mbind, M_bind, get. rewrite Hrz. set (c := sanity_canary s) in *. set (fuel := S (Z.to_nat (w_page_size w))).
  destruct (check_bytes_spec w c fuel true lo hi) as [(s1 & -> & Hs1 & Hi1 & He1)|[-> Hn]]; [lia|done| |by right].
  destruct (Z.lt_ge_cases s1 hi) as [Hlt|Hge].
  2:{ left. split; [intros x Hx; apply Hi1; lia|]. unfold fuel. cbn [check_qwords]. rewrite (proj2 (Z.leb_gt _ _)) by lia. cbn [mret M_ret].
      cbn [check_bytes]. rewrite (proj2 (Z.ltb_ge _ _)) by lia. done. }
  destruct (check_qwords_spec w c fuel s1 hi Hc) as [(s2 & -> & Hs2 & Hi2)|[-> Hn]]; [lia|eapply mapped_rw_sub; [exact Hm|lia..]|done|by apply He1| |].
  2:{ right. split; [|done]. by rewrite (intact_app _ _ _ s1) by (done || lia). }
  assert (Hi12 : intact (w_mem w) c lo s2) by (by apply (intact_app _ _ _ s1); [lia|..]).
  destruct (check_bytes_spec w c fuel false s2 hi) as [(s3 & -> & Hs3 & Hi3 & He3)|[-> Hn]]; [lia|eapply mapped_rw_sub; [exact Hm|lia..]| |].
  - left. split; [|done]. apply (intact_app _ _ _ s2); [lia|done|]. intros x Hx. apply Hi3. destruct (Z.lt_ge_cases s3 hi); [by destruct (He3 ltac:(done))|lia].
  - right. split; [|done]. by rewrite (intact_app _ _ _ s2) by (done || lia).
Qed.

(** Freeing a sampled allocation checks the canary in three loops, bytes up to the
    first multiple of 8, then quad words, then the bytes left; together they accept
    exactly the pages in which every byte outside the request still is its byte of the
    canary, whatever the size and the alignment of the request. *)
Theorem sanity_check_exact s a w lo hi : is_u64 (sanity_canary s) → red_zone (w_page_size w) a = (lo, hi) →
  mapped_rw (w_vm w) lo (hi - lo) → hi - lo <= w_page_size w →
  (intact (w_mem w) (sanity_canary s) lo hi → check_sanity_canary s a w = Ret tt w) ∧
  (¬ intact (w_mem w) (sanity_canary s) lo hi → check_sanity_canary s a w = Abort SanityCanaryCorrupt).
Proof.
  intros Hc Hrz Hm Hlen. pose proof (check_sanity_run s a w Hc) as Hr. rewrite Hrz in Hr.
  destruct (Hr Hm Hlen) as [[Hi ->]|[Hi ->]]; tauto.
Qed.

Lemma land7_step a : Z.land a 7 = 0 → Z.land (a + 8) 7 = 0.
Proof.
  change 7 with (Z.ones 3). rewrite !Z.land_ones by lia. change (2 ^ 3) with 8. intros Ha.
  replace (a + 8) with (a + 1 * 8) by lia. by rewrite Z.mod_add.
Qed.

Lemma write_qwords_run n p c w : is_u64 c → Z.land p 7 = 0 → mapped_rw (w_vm w) p (8 * Z.of_nat n) →
  ∃ m', write_qwords n p c w = Ret tt (set_w_mem m' w) ∧ intact m' c p (p + 8 * Z.of_nat n) ∧
    ∀ x, ¬ (p <= x < p + 8 * Z.of_nat n) → ld8 m' x = ld8 (w_mem w) x.
Proof.
  intros Hc. revert p w. induction n as [|n IH]; intros p w Hp Hm.
  { exists (w_mem w). split; [by destruct w|]. split; [intros a Ha; lia|done]. }
  cbn [write_qwords]. set (w1 := set_w_mem (st64 (w_mem w) p c) w).
  erewrite (run_bind _ _ w tt w1) by (unfold wr64; rewrite can_access_mapped; [done|lia|eapply mapped_rw_sub; [exact Hm|lia..]]).
  destruct (IH (p + 8) w1 (land7_step p Hp)) as (m' & -> & Hi & Ho); [eapply mapped_rw_sub; [exact Hm|lia..]|].
  exists m'. split; [done|]. split.
  - apply (intact_app _ _ _ (p + 8)); [lia| |intros a Ha; apply Hi; lia]. intros a Ha. rewrite Ho by lia. simpl.
    replace a with (p + (a - p)) by lia. rewrite canary_byte_lane by lia. apply ld8_stn_same. lia.
  - intros x Hx. rewrite Ho by lia. apply ld8_st64_other. lia.
Qed.

Lemma page_land7 w p : page_ok w → p mod w_page_size w = 0 → Z.land p 7 = 0.
Proof.
  intros (Hs & Hp & _) Hm. change 7 with (Z.ones 3). rewrite Z.land_ones by lia. change (2 ^ 3) with 8.
  rewrite (Z.div_mod p (w_page_size w)), Hm, Z.add_0_r by (rewrite Hp; apply Z.pow_nonzero; lia).
  rewrite Hp. replace (w_page_size_shift w) with (3 + (w_page_size_shift w - 3)) by lia. rewrite Z.pow_add_r by lia. change (2 ^ 3) with 8.
  rewrite <-Z.mul_assoc, Z.mul_comm. by apply Z.mod_mul.
Qed.

(** The page filled with the canary. *)
Lemma write_sanity_run s p w : page_ok w → is_u64 (sanity_canary s) → p mod w_page_size w = 0 → mapped_rw (w_vm w) p (w_page_size w) →
  ∃ m, write_sanity_canary s p w = Ret tt (set_w_mem m w) ∧ intact m (sanity_canary s) p (p + w_page_size w) ∧
    ∀ x, ¬ (p <= x < p + w_page_size w) → ld8 m x = ld8 (w_mem w) x.
Proof.
  intros Hpg Hc Ha Hm. pose proof (page_ok_bounds w Hpg) as Hb. pose proof (page_land7 w _ Hpg Ha) as H7.
  assert (Hdiv : 8 * (w_page_size w / 8) = w_page_size w).
  { destruct Hpg as (Hsh & -> & _). replace (w_page_size_shift w) with (3 + (w_page_size_shift w - 3)) by lia. rewrite Z.pow_add_r by lia.
    change (2 ^ 3) with 8. rewrite Z.mul_comm at 1. rewrite (Z.mul_comm 8) at 1. rewrite Z.div_mul by lia. lia. }
  destruct (write_qwords_run (Z.to_nat (w_page_size w / 8)) p (sanity_canary s) w Hc H7) as (m' & Hrun & Hi & Ho).
  { rewrite Z2Nat.id by (apply Z.div_pos; lia). by rewrite Hdiv. }
  rewrite Z2Nat.id, Hdiv in * by (apply Z.div_pos; lia). by exists m'.
Qed.

(** Sampling and freeing fit together: after the sampler filled a page with its
    canary, a program that writes only inside its request, at the left or at the right
    end of the page, is never accused when it frees, and one that changes any other byte
    of the page always is. *)
Theorem sanity_write_check s a w : page_ok w → is_u64 (sanity_canary s) → sane_address a mod w_page_size w = 0 →
  mapped_rw (w_vm w) (sane_address a) (w_page_size w) → 0 <= orig_size a <= w_page_size w →
  ∃ w', write_sanity_canary s (sane_address a) w = Ret tt w' ∧
    ∀ m, let '(lo, hi) := red_zone (w_page_size w) a in
      ((∀ x, lo <= x < hi → ld8 m x = ld8 (w_mem w') x) → check_sanity_canary s a (set_w_mem m w') = Ret tt (set_w_mem m w')) ∧
      ((∃ x, lo <= x < hi ∧ ld8 m x ≠ ld8 (w_mem w') x) → check_sanity_canary s a (set_w_mem m w') = Abort SanityCanaryCorrupt).
Proof.
  intros Hpg Hc Ha Hm Hs. destruct (write_sanity_run s (sane_address a) w Hpg Hc Ha Hm) as (m' & Hrun & Hi & _).
  exists (set_w_mem m' w). split; [exact Hrun|]. intros m.
  pose proof (check_sanity_run s a (set_w_mem m (set_w_mem m' w)) Hc) as Hr. change (w_page_size (set_w_mem m (set_w_mem m' w))) with (w_page_size w) in Hr.
  destruct (red_zone (w_page_size w) a) as [lo hi] eqn:Hrz.
  assert (Hlh : sane_address a <= lo ∧ lo <= hi <= sane_address a + w_page_size w) by (unfold red_zone in Hrz; destruct (right_aligned a); simplify_eq; lia).
  assert (Hi' : intact m' (sanity_canary s) lo hi) by (intros x Hx; apply Hi; lia).
  assert (Hm' : mapped_rw (w_vm w) lo (hi - lo)) by (eapply mapped_rw_sub; [exact Hm|lia..]).
  destruct (Hr Hm' ltac:(lia)) as [[Hin ->]|[Hin ->]]; split; try done.
  - intros (x & Hx & Hne). destruct Hne. change (ld8 m x = ld8 m' x). rewrite (Hi' x Hx). by apply Hin.
  - intros Heq. destruct Hin. intros x Hx. change (ld8 m x = canary_byte (sanity_canary s) x). rewrite <-(Hi' x Hx). by apply Heq.
Qed.
End theorems.
