(* ===== verification/Faults.v ===== *)
(** * Page faults and crashes

    What the build with [UNINIT_READ_SANITY] adds to the sampler of src/iso_alloc_sanity.c:
    the userfaultfd descriptor and its thread, which is told of the first access to every
    registered page, unregisters the page on a write and stops the process on a read; and
    the SIGSEGV handler of src/iso_alloc_signal.c ([SIGNAL_HANDLER], [UAF_PTR_PAGE]).

    The answers of the system calls are arguments: an [event] is what one round of the
    thread's loop gets from poll, read and the ioctl that unregisters. [registered] are the
    pages the kernel watches. *)

From S2P Require Import Prelude Words Conf Memory State Util Sanity.

Definition ERR : Z := -1.
Definition OK : Z := 0.
Definition UFFD_FEATURE_THREAD_ID : Z := 256.
Definition UFFD_EVENT_PAGEFAULT : Z := 0x12.
Definition UFFD_PAGEFAULT_FLAG_WRITE : Z := 1.

(** The globals of the descriptor. *)
Record uffd := mk_uffd {
  _uf_fd : Z;
  uffd_features : Z;
  _page_fault_thread : Z;
  registered : gset Z;
}.

Record uffd_msg := mk_msg { msg_event : Z; pf_address : Z; pf_flags : Z }.
Record event := mk_event { poll_ret : Z; read_ret : Z; umsg : uffd_msg; unregister_ret : Z }.

Section model.
Context `{!Kernel, !Config}.

(** [THREAD_SUPPORT] is an argument; [fd], [api], [features] and [created] are the answers
    of the three system calls and of pthread_create, [tid] the thread it makes. *)
Definition _iso_alloc_setup_userfaultfd (THREAD_SUPPORT : bool) (fd api features created tid : Z) (u : uffd) : M uffd :=
  if fd =? ERR then abort UffdUnsupported else
  if api =? ERR then abort UffdSetup else
  if THREAD_SUPPORT && (Z.land features UFFD_FEATURE_THREAD_ID =? 0) then abort UffdNoThreadId else
  if _page_fault_thread u =? 0 then
    if negb (created =? OK) then abort UffdNoThread
    else mret (mk_uffd fd features tid (registered u))
  else mret (mk_uffd fd features (_page_fault_thread u) (registered u)).

(** The range that is unregistered starts here; its length is one page. *)
Definition fault_page (s : sanity) (sane_alloc : option nat) (m : uffd_msg) : Z :=
  match sane_alloc with
  | Some i => sane_address (sample_entry s i)
  | None => pf_address m
  end.

(** One round of the loop. *)
Definition handle_fault (e : event) (su : sanity * uffd) : M (sanity * uffd) :=
  let '(s, u) := su in
  if poll_ret e =? ERR then abort UffdPoll else
  if read_ret e =? OK then abort UffdEof else
  if read_ret e =? ERR then abort UffdRead else
  if negb (msg_event (umsg e) =? UFFD_EVENT_PAGEFAULT) then abort UffdEvent else
  s ← LOCK_SANITY_CACHE s;
  sane_alloc ← _get_sane_alloc s (pf_address (umsg e));
  if Z.land (pf_flags (umsg e)) UFFD_PAGEFAULT_FLAG_WRITE =? 1 then
    if unregister_ret e =? ERR then abort UffdUnregister else
    let u := mk_uffd (_uf_fd u) (uffd_features u) (_page_fault_thread u)
               (registered u ∖ {[ fault_page s sane_alloc (umsg e) ]}) in
    s ← UNLOCK_SANITY_CACHE s;
    mret (s, u)
  else if Z.land (pf_flags (umsg e)) UFFD_PAGEFAULT_FLAG_WRITE =? 0 then abort UninitRead
  else
    s ← UNLOCK_SANITY_CACHE s;
    mret (s, u).

(** The thread, up to the call of poll that waits for an event after the given ones. *)
Fixpoint _page_fault_thread_handler (es : list event) (su : sanity * uffd) : M (sanity * uffd) :=
  match es with
  | [] => mret su
  | e :: es' => su ← handle_fault e su; _page_fault_thread_handler es' su
  end.

(** [_iso_alloc_sample] of this build; [ret] is the answer of the ioctl that registers. *)
Definition _iso_alloc_sample_uninit (ret : Z) (s : sanity) (u : uffd) (size : Z) : M (Z * sanity * uffd) :=
  if _page_fault_thread u =? 0 then mret (0, s, u) else
  v ← us_rand_uint64;
  if negb (v mod SANITY_SAMPLE_ODDS =? 1) then mret (0, s, u) else
  s ← LOCK_SANITY_CACHE s;
  UNLOCK_ROOT;;
  match find_sane 0 (_sane_allocations s) with
  | None => abort NoSaneSlot
  | Some i =>
      '(p, s) ← place_sample s i size;
      w ← get;
      let start := ROUND_DOWN_PAGE (w_page_size w) (w_page_size_shift w) p in
      s ← count_sample s p;
      if ret =? ERR then abort UffdRegister else
      s ← UNLOCK_SANITY_CACHE s;
      mret (p, s, mk_uffd (_uf_fd u) (uffd_features u) (_page_fault_thread u) ({[ start ]} ∪ registered u))
  end.

(** [crash_addr] is [si->si_addr], [uaf_ptr_page] the field of the root. *)
Definition handle_signal (UAF_PTR_PAGE : bool) (uaf_ptr_page crash_addr : Z) : M unit :=
  if UAF_PTR_PAGE && (crash_addr =? 0) then abort CrashAtNull else
  w ← get;
  if UAF_PTR_PAGE && ((u64 (uaf_ptr_page - w_page_size w * 2) <=? crash_addr) &&
       (crash_addr <=? u64 (uaf_ptr_page + w_page_size w * 2))) then abort UseAfterFree else
  abort UnknownFault.
End model.

Section theorems.
Context `{!Kernel, !KernelLaws, !Config}.

(** ** The fault thread *)

(** A page fault the kernel reports: on a page of its own, with room in the sample cache. *)
Definition page_fault (w : world) (e : event) : Prop :=
  poll_ret e ≠ ERR ∧ read_ret e ≠ OK ∧ read_ret e ≠ ERR ∧ msg_event (umsg e) = UFFD_EVENT_PAGEFAULT ∧
  pf_address (umsg e) mod w_page_size w = 0 ∧ unregister_ret e ≠ ERR.

Definition is_write (e : event) : Prop := Z.testbit (pf_flags (umsg e)) 0 = true.

Lemma find_sane_address addr l i : find_sane addr l = Some i → sane_address (nth i l (mk_sane 0 0 false)) = addr.
Proof.
  revert i. induction l as [|a l IH]; intros i; simpl; [done|].
  destruct (Z.eqb_spec (sane_address a) addr) as [E|]; [by intros [= <-]|].
  destruct (find_sane addr l) as [j|]; [|done]. intros [= <-]. by apply IH.
Qed.

Lemma land_1_testbit x : Z.land x 1 = if Z.testbit x 0 then 1 else 0.
Proof.
  change 1 with (Z.ones 1) at 1. rewrite Z.land_ones, <-Z.bit0_mod by lia.
  by destruct (Z.testbit x 0).
Qed.

(** The cache is indexed by units of 256 bytes: the index of a page is even. *)
Lemma page_cache_idx w a : page_ok w → a mod w_page_size w = 0 → SANE_CACHE_IDX a < SANE_CACHE_SIZE.
Proof.
  intros (Hs & Hp & _) Ha. unfold SANE_CACHE_IDX, SANE_CACHE_SIZE.
  assert (Hb : Z.testbit (Z.land (Z.shiftr a 8) 0xffff) 0 = false).
  { rewrite Z.land_spec, Z.shiftr_spec by lia. change (0 + 8) with 8.
    assert (E : Z.testbit a 8 = Z.testbit (a mod 2 ^ w_page_size_shift w) 8) by (symmetry; apply Z.mod_pow2_bits_low; lia).
    by rewrite E, <-Hp, Ha, Z.testbit_0_l. }
  assert (Hi : 0 <= Z.land (Z.shiftr a 8) 0xffff < 65536).
  { change 0xffff with (Z.ones 16). rewrite Z.land_ones by lia. by apply Z.mod_pos_bound. }
  destruct (Z.eq_dec (Z.land (Z.shiftr a 8) 0xffff) 65535) as [E|]; [by rewrite E in Hb|lia].
Qed.

Lemma page_aligned_mod w p : page_ok w → IS_PAGE_ALIGNED (w_page_size w) p = p mod w_page_size w.
Proof.
  intros (Hs & Hp & _). unfold IS_PAGE_ALIGNED. rewrite Hp, <-Z.land_ones by lia.
  f_equal. rewrite Z.ones_equiv. lia.
Qed.

Lemma get_sane_page s p w : page_ok w → p mod w_page_size w = 0 →
  ∃ o, _get_sane_alloc s p w = Ret o w ∧ ∀ i, o = Some i → sane_address (sample_entry s i) = p.
Proof.
  intros Hw Hp. pose proof (page_cache_idx w p Hw Hp) as Hi. unfold _get_sane_alloc, sane_cache_get.
  rewrite (proj2 (Z.ltb_lt _ _) Hi). unfold mbind, M_bind, mret, M_ret, get.
  destruct (Z.eqb_spec (default 0 (_sane_cache s !! SANE_CACHE_IDX p)) 0); [by exists None|].
  eexists. split; [reflexivity|]. intros i. rewrite page_aligned_mod, Hp by done. simpl. apply find_sane_address.
Qed.

Lemma handle_fault_run s u e w : page_ok w → sane_cache_lock s = false → page_fault w e →
  handle_fault e (s, u) w =
    if Z.testbit (pf_flags (umsg e)) 0 then
      Ret (s, mk_uffd (_uf_fd u) (uffd_features u) (_page_fault_thread u) (registered u ∖ {[ pf_address (umsg e) ]})) w
    else Abort UninitRead.
Proof.
  intros Hw Hl (Hpoll & Heof & Hread & Hev & Ha & Hun). unfold handle_fault.
  apply Z.eqb_neq in Hpoll, Heof, Hread, Hun. rewrite Hpoll, Heof, Hread, Hun, Hev, Z.eqb_refl. cbn [negb].
  unfold LOCK_SANITY_CACHE, mbind, M_bind. rewrite Hl. cbv beta iota.
  destruct (get_sane_page (set_sane_lock true s) (pf_address (umsg e)) w Hw Ha) as (o & -> & Ho).
  unfold UFFD_PAGEFAULT_FLAG_WRITE. rewrite land_1_testbit. destruct (Z.testbit (pf_flags (umsg e)) 0); [|done]. simpl.
  assert (Hf : fault_page (set_sane_lock true s) o (umsg e) = pf_address (umsg e)) by (destruct o; simpl; [by apply Ho|done]).
  rewrite Hf. destruct s; simpl in *. by subst.
Qed.

(** The pages of some faults. *)
Definition fault_pages (es : list event) : gset Z := list_to_set ((λ e, pf_address (umsg e)) <$> es).

(** C29. The page fault thread lets every page be written first: as long as the kernel
    reports writes, it keeps waiting, has unregistered exactly the pages that were written
    and left the samples as they were, whether the page is one of a tracked sample or not.
    The first read of a page that is still registered stops the process. *)
Theorem page_fault_thread_correct s u es w : page_ok w → sane_cache_lock s = false → Forall (page_fault w) es →
  (Forall is_write es → ∃ u', _page_fault_thread_handler es (s, u) w = Ret (s, u') w ∧
     registered u' = registered u ∖ fault_pages es) ∧
  (¬ Forall is_write es → _page_fault_thread_handler es (s, u) w = Abort UninitRead).
Proof.
  intros Hw Hl Hes. revert u. induction Hes as [|e es He Hes IH]; intros u.
  - split; [|by destruct 1]. intros _. exists u. split; [done|]. unfold fault_pages. set_solver.
  - cbn [_page_fault_thread_handler]. unfold mbind, M_bind. rewrite handle_fault_run by done.
    destruct (Z.testbit (pf_flags (umsg e)) 0) eqn:Hb.
    + destruct (IH (mk_uffd (_uf_fd u) (uffd_features u) (_page_fault_thread u) (registered u ∖ {[ pf_address (umsg e) ]}))) as [IHw IHr].
      split.
      * intros Hall. apply list.Forall_cons in Hall as [_ Hall]. destruct (IHw Hall) as (u' & Hr & Hu).
        exists u'. split; [exact Hr|]. rewrite Hu. unfold fault_pages. simpl. set_solver.
      * intros Hn. apply IHr. intros Hall. apply Hn. by constructor.
    + split; [|done]. intros Hall. apply list.Forall_cons in Hall as [Hall _]. unfold is_write in Hall. congruence.
Qed.

(** ** Crashes *)

(** The signal handler never returns. With [UAF_PTR_PAGE] it reports a use after free
    exactly for the crashes within two pages of the page that [_iso_alloc_ptr_search] leaves
    in dangling pointers, so for every access through such a pointer at an offset of up to
    two pages either way. *)
Theorem handle_signal_correct uaf_ptr_page w : page_ok w → 2 * w_page_size w < uaf_ptr_page < 2 ^ 47 →
  (∀ a, is_u64 a → a ≠ 0 → handle_signal true uaf_ptr_page a w =
     Abort (if bool_decide (Z.abs (a - uaf_ptr_page) <= 2 * w_page_size w) then UseAfterFree else UnknownFault)) ∧
  handle_signal true uaf_ptr_page 0 w = Abort CrashAtNull ∧
  (∀ a, handle_signal false uaf_ptr_page a w = Abort UnknownFault).
Proof.
  intros Hw Hu. pose proof (page_ok_bounds w Hw). unfold handle_signal, mbind, M_bind, get. split_and!; [|done|done].
  intros a Ha Hne. apply Z.eqb_neq in Hne. rewrite Hne. cbn [andb].
  rewrite !u64_small by (unfold is_u64; lia).
  case_bool_decide; repeat bcase; try done; lia.
Qed.
End theorems.
