(* ===== verification/Sampling.v ===== *)
(** * The life of a sampled allocation

    The invariant of the sampler's globals (Sanity): which entries are in use, that their
    pages lie apart between guard pages, and that the cache counts the entries by the
    address of the request; and what [_iso_alloc_sample] and [_iso_alloc_free_sane_sample]
    do with it. *)

From S2P Require Import Prelude Words Conf Memory State Util Sanity Faults.

Lemma u8_add_l x y : u8 (u8 x + y) = u8 (x + y).
Proof. unfold u8. by rewrite Zplus_mod_idemp_l. Qed.

Section samples.
Context `{!Kernel, !KernelLaws, !Config}.

(** ** The invariant *)

Definition free_entry : sane_allocation := mk_sane 0 0 false.
Definition in_use (a : sane_allocation) : bool := negb (sane_address a =? 0).

(** The address the program got. *)
Definition sample_ptr (page : Z) (a : sane_allocation) : Z :=
  if right_aligned a then sane_address a + page - orig_size a else sane_address a.
Definition cached_at (page k : Z) (a : sane_allocation) : bool := in_use a && (SANE_CACHE_IDX (sample_ptr page a) =? k).

Record sample_ok (w : world) (a : sane_allocation) : Prop := {
  sm_aligned : sane_address a mod w_page_size w = 0;
  sm_low : w_page_size w < sane_address a;
  sm_high : sane_address a + 2 * w_page_size w <= 2 ^ 47;
  sm_rw : mapped_rw (w_vm w) (sane_address a) (w_page_size w);
  sm_guards x : sane_address a - w_page_size w <= x < sane_address a ∨
    sane_address a + w_page_size w <= x < sane_address a + 2 * w_page_size w → vm_prot (w_vm w) x = Some PROT_NONE;
  sm_size : 0 < orig_size a < w_page_size w;
}.

Record samples_ok (w : world) (s : sanity) : Prop := {
  so_canary : is_u64 (_sanity_canary s);
  so_entry i a : _sane_allocations s !! i = Some a → if in_use a then sample_ok w a else a = free_entry;
  so_apart i j a b : _sane_allocations s !! i = Some a → _sane_allocations s !! j = Some b → i ≠ j →
    in_use a = true → in_use b = true → 3 * w_page_size w <= Z.abs (sane_address a - sane_address b);
  so_cache k : default 0 (_sane_cache s !! k) = u8 (countb (cached_at (w_page_size w) k) (_sane_allocations s));
  so_count : _sane_sampled s = countb in_use (_sane_allocations s);
}.

(** ** Addresses of a sample *)

Lemma sample_ptr_page w a : sample_ok w a →
  sane_address a <= sample_ptr (w_page_size w) a ∧ sample_ptr (w_page_size w) a + orig_size a <= sane_address a + w_page_size w ∧
  (right_aligned a = true → sane_address a < sample_ptr (w_page_size w) a).
Proof. intros [_ _ _ _ _ Hs]. unfold sample_ptr. destruct (right_aligned a); lia. Qed.

Lemma round_down_in_page w a x : page_ok w → a mod w_page_size w = 0 → w_page_size w < a → a + 2 * w_page_size w <= 2 ^ 47 →
  a < x < a + w_page_size w →
  x mod w_page_size w = x - a ∧ ROUND_DOWN_PAGE (w_page_size w) (w_page_size_shift w) x = a.
Proof.
  intros Hw Ha Hlo Hhi Hx. pose proof (page_ok_bounds w Hw) as Hb. destruct Hw as (Hs & Hp & _).
  assert (Hm : x mod w_page_size w = x - a).
  { replace x with (x - a + a) at 1 by lia. rewrite Z.add_mod, Ha, Z.add_0_r, Z.mod_mod by lia. apply Z.mod_small. lia. }
  split; [done|]. rewrite (round_down_page_correct (w_page_size w) (w_page_size_shift w)) by (done || lia).
  rewrite Hm. destruct (Z.eqb_spec (x - a) 0); lia.
Qed.

(** The page of the request, as [_get_sane_alloc] computes it. *)
Definition page_of (w : world) (p : Z) : Z :=
  if negb (IS_PAGE_ALIGNED (w_page_size w) p =? 0) then ROUND_DOWN_PAGE (w_page_size w) (w_page_size_shift w) p else p.

Lemma page_of_sample w a p : page_ok w → sample_ok w a → sane_address a <= p < sane_address a + w_page_size w → page_of w p = sane_address a.
Proof.
  intros Hw Ha Hp. unfold page_of. rewrite page_aligned_mod by done. destruct (decide (p = sane_address a)) as [->|].
  - by rewrite (sm_aligned _ _ Ha).
  - destruct (round_down_in_page w (sane_address a) p Hw (sm_aligned _ _ Ha) (sm_low _ _ Ha) (sm_high _ _ Ha)) as [E1 E2]; [lia|].
    rewrite E1. destruct (Z.eqb_spec (p - sane_address a) 0); [lia|]. by rewrite E2.
Qed.

(** ** Changing one entry *)

Lemma sample_ok_frame w w' a : sample_ok w a → w_page_size w' = w_page_size w →
  (∀ x, sane_address a - w_page_size w <= x < sane_address a + 2 * w_page_size w → vm_prot (w_vm w') x = vm_prot (w_vm w) x) →
  sample_ok w' a.
Proof.
  intros [A1 A2 A3 A4 A5 A6] Hp Hvm. split; rewrite ?Hp; try done.
  - intros x Hx. rewrite Hvm by lia. by apply A4.
  - intros x Hx. rewrite Hvm by lia. by apply A5.
Qed.

Lemma samples_ok_update w w' s s' i a b : samples_ok w s → _sane_allocations s !! i = Some a →
  _sane_allocations s' = <[i := b]> (_sane_allocations s) → w_page_size w' = w_page_size w → _sanity_canary s' = _sanity_canary s →
  (if in_use b then sample_ok w' b else b = free_entry) →
  (∀ j c, j ≠ i → _sane_allocations s !! j = Some c → in_use c = true →
     sample_ok w' c ∧ (in_use b = true → 3 * w_page_size w <= Z.abs (sane_address b - sane_address c))) →
  (∀ k, default 0 (_sane_cache s' !! k) =
     u8 (default 0 (_sane_cache s !! k) - Z.b2z (cached_at (w_page_size w) k a) + Z.b2z (cached_at (w_page_size w) k b))) →
  _sane_sampled s' = _sane_sampled s - Z.b2z (in_use a) + Z.b2z (in_use b) →
  samples_ok w' s'.
Proof.
  intros Hs Hi Hl Hp Hcan Hb Hothers Hcache Hcnt.
  assert (Hlook : ∀ j c, _sane_allocations s' !! j = Some c → (j = i ∧ c = b) ∨ (j ≠ i ∧ _sane_allocations s !! j = Some c)).
  { intros j c. rewrite Hl, list_lookup_insert_Some. naive_solver. }
  split.
  - rewrite Hcan. apply Hs.
  - intros j c Hj. apply Hlook in Hj as [[-> ->]|[Hne Hj]]; [done|].
    pose proof (so_entry _ _ Hs j c Hj) as Hc. destruct (in_use c) eqn:Hu; [|done]. by eapply Hothers.
  - intros j k c d Hj Hk Hne Hc Hd. rewrite Hp.
    apply Hlook in Hj as [[-> ->]|[Hnj Hj]]; apply Hlook in Hk as [[-> ->]|[Hnk Hk]]; try done.
    + by eapply (Hothers k).
    + rewrite <-Z.abs_opp. replace (- (sane_address c - sane_address b)) with (sane_address b - sane_address c) by lia. by eapply (Hothers j).
    + by eapply (so_apart _ _ Hs j k).
  - intros k. rewrite Hcache, (so_cache _ _ Hs), Hp, Hl, (countb_insert _ _ _ a) by done.
    rewrite <-(Z.add_opp_r (u8 _)), <-Z.add_assoc, u8_add_l. f_equal. lia.
  - rewrite Hcnt, (so_count _ _ Hs), Hl, (countb_insert _ _ _ a) by done. done.
Qed.

(** The lock and the bytes do not matter. *)
Lemma samples_ok_same w w' s b : samples_ok w s → w_page_size w' = w_page_size w → w_vm w' = w_vm w → samples_ok w' (set_sane_lock b s).
Proof.
  intros [A1 A2 A3 A4 A5] Hp Hv. split; cbn [_sane_allocations _sane_cache _sane_sampled _sanity_canary set_sane_lock]; rewrite ?Hp; try done.
  intros i a Hi. pose proof (A2 i a Hi) as Ha. destruct (in_use a); [|done].
  eapply sample_ok_frame; [exact Ha|done|]. intros x _. by rewrite Hv.
Qed.

(** ** Taking a sample *)

(** What [place_sample] leaves: three fresh pages, the middle one accessible. *)
Record placed (w w' : world) (a : sane_allocation) : Prop := {
  pl_ok : sample_ok w' a;
  pl_use : in_use a = true;
  pl_page : page_ok w' ∧ w_page_size w' = w_page_size w;
  pl_fresh : unmapped (w_vm w) (sane_address a - w_page_size w) (3 * w_page_size w);
  pl_vm x : ¬ (sane_address a - w_page_size w <= x < sane_address a + 2 * w_page_size w) → vm_prot (w_vm w') x = vm_prot (w_vm w) x;
  pl_mem x : ¬ (sane_address a - w_page_size w <= x < sane_address a + 2 * w_page_size w) → ld8 (w_mem w') x = ld8 (w_mem w) x;
  pl_world : ∃ sd b, w' = set_w_root_lock b (set_w_root (set_seed sd (w_root w)) (after_sys (w_mem w') (w_vm w') (w_k w') w));
}.

Definition with_entry (s : sanity) (i : nat) (a : sane_allocation) : sanity :=
  mk_sanity (_sanity_canary s) (_sane_sampled s) (_sane_cache s) (<[i := a]> (_sane_allocations s)) (sane_cache_lock s).

Lemma wp_place_sample s i size w : page_ok w → w_root_null w = false → 0 < size < w_page_size w →
  _sane_allocations s !! i = Some free_entry →
  wp resource (place_sample s i size) (λ ps w', ∃ a, placed w w' a ∧ orig_size a = size ∧ w_root_lock w' = w_root_lock w ∧
    ps = (sample_ptr (w_page_size w) a, with_entry s i a)) w.
Proof.
  intros Hw Hn Hs Hi. pose proof (page_ok_bounds w Hw) as Hb. unfold place_sample. wsteps.
  assert (Hlen : page_len w (w_page_size w) = w_page_size w) by (apply page_len_aligned; [done|lia|apply Z.mod_same; lia]).
  eapply wp_post; [apply wp_mmap_guarded_rw_pages; [done|lia]|]. cbv beta. unfold guarded_mapping. cbv zeta. rewrite Hlen.
  intros p w1 (Ha & Hlo & Hhi & Hrw & Hg & Hfr & Hvm & Hmem & Hpg & Heq).
  destruct (Z.eqb_spec p 0); [lia|]. wstep.
  assert (E : w_page_size w1 = w_page_size w ∧ w_page_size_shift w1 = w_page_size_shift w ∧ w_root_null w1 = false ∧ w_root w1 = w_root w) by (rewrite Heq; done).
  destruct E as (Ep & Es & En & Er).
  apply wp_us_rand; [done|]. intros sd v _ _. wsteps.
  set (w2 := set_w_root _ w1).
  assert (Hpl : ∀ a, sane_address a = p → orig_size a = size → placed w w2 a).
  { intros a Eap Esz. split; rewrite ?Eap.
    - split; rewrite ?Eap, ?Esz; change (w_page_size w2) with (w_page_size w1); rewrite ?Ep; try done; try lia.
      intros x Hx. apply Hg. lia.
    - unfold in_use. rewrite Eap. by destruct (Z.eqb_spec p 0).
    - done.
    - replace (3 * w_page_size w) with (w_page_size w + 2 * w_page_size w) by lia. done.
    - intros x Hx. apply Hvm. lia.
    - intros x Hx. change (w_mem w2) with (w_mem w1). rewrite Hmem, decide_False by lia. done.
    - exists sd, (w_root_lock w). unfold w2. rewrite Er. rewrite Heq at 1. by destruct w. }
  assert (Hentry : right_aligned (sample_entry s i) = false) by (unfold sample_entry; by rewrite nth_lookup, Hi).
  assert (Hlock : w_root_lock w2 = w_root_lock w) by (unfold w2; rewrite Heq; done).
  rewrite Hentry, orb_false_r. destruct (v mod 2 =? 1).
  - destruct (round_down_in_page w p (p + w_page_size w - size)) as [_ ->]; [done..|lia|lia|].
    exists (mk_sane p size true). by split; [apply Hpl|].
  - exists (mk_sane p size false). by split; [apply Hpl|].
Qed.

Lemma find_sane_Some addr l i : find_sane addr l = Some i → ∃ a, l !! i = Some a ∧ sane_address a = addr.
Proof.
  revert i. induction l as [|a l IH]; intros i; simpl; [done|].
  destruct (Z.eqb_spec (sane_address a) addr) as [E|]; [intros [= <-]; by exists a|].
  destruct (find_sane addr l) as [j|]; [|done]. intros [= <-]. by apply IH.
Qed.

Lemma find_sane_None addr l i a : find_sane addr l = None → l !! i = Some a → sane_address a ≠ addr.
Proof.
  revert i. induction l as [|b l IH]; intros [|i]; simpl; [done..| |];
    (destruct (Z.eqb_spec (sane_address b) addr) as [E|]; [done|]); destruct (find_sane addr l) as [j|] eqn:Ef; try done.
  - by intros _ [= <-].
  - intros _. by apply IH.
Qed.

Lemma free_slot w s i : samples_ok w s → find_sane 0 (_sane_allocations s) = Some i → _sane_allocations s !! i = Some free_entry.
Proof.
  intros Hs Hf. apply find_sane_Some in Hf as (a & Hi & Ea). pose proof (so_entry _ _ Hs i a Hi) as Ha.
  unfold in_use in Ha. rewrite Ea in Ha. simpl in Ha. by rewrite <-Ha.
Qed.

(** The counter behind the cache exists unless the request ends within 256 bytes of its page. *)
Lemma sample_cache_idx w a : page_ok w → sample_ok w a → SANE_CACHE_SIZE <= SANE_CACHE_IDX (sample_ptr (w_page_size w) a) →
  orig_size a <= 256.
Proof.
  intros Hw Ha Hi. pose proof (page_ok_bounds w Hw) as Hb. unfold sample_ptr in Hi. destruct (right_aligned a) eqn:Hr.
  2:{ pose proof (page_cache_idx w _ Hw (sm_aligned _ _ Ha)). lia. }
  pose proof (sm_size _ _ Ha) as Hsz. set (p := sane_address a + w_page_size w - orig_size a) in *.
  assert (Hm : p mod w_page_size w = w_page_size w - orig_size a).
  { unfold p. replace (sane_address a + w_page_size w - orig_size a) with (w_page_size w - orig_size a + sane_address a) by lia.
    rewrite Z.add_mod, (sm_aligned _ _ Ha), Z.add_0_r, Z.mod_mod by lia. apply Z.mod_small. lia. }
  destruct Hw as (Hs & Hp & _). unfold SANE_CACHE_IDX, SANE_CACHE_SIZE in Hi.
  change (65535 <= Z.land (Z.shiftr p 8) (Z.ones 16)) in Hi. rewrite Z.land_ones, Z.shiftr_div_pow2 in Hi by lia. change (2 ^ 8) with 256 in Hi.
  pose proof (Z.mod_pos_bound (p / 256) (2 ^ 16) ltac:(lia)) as Hmb. assert (Eq : (p / 256) mod 2 ^ 16 = 2 ^ 16 - 1) by lia.
  set (k := w_page_size_shift w - 8) in *.
  assert (Hpk : w_page_size w = 256 * 2 ^ k) by (rewrite Hp; replace (w_page_size_shift w) with (8 + k) by lia; by rewrite Z.pow_add_r by lia).
  assert (H2k : 0 < 2 ^ k) by (apply Z.pow_pos_nonneg; lia).
  assert (Hqk : (p / 256) mod 2 ^ k = 2 ^ k - 1).
  { assert (Hd : 2 ^ 16 = 2 ^ k * 2 ^ (16 - k)) by (rewrite <-Z.pow_add_r by lia; f_equal; lia).
    rewrite <-(Z.mod_mod_divide (p / 256) (2 ^ 16) (2 ^ k)) by (exists (2 ^ (16 - k)); rewrite Hd; apply Z.mul_comm). rewrite Eq, Hd.
    replace (2 ^ k * 2 ^ (16 - k) - 1) with (2 ^ k - 1 + (2 ^ (16 - k) - 1) * 2 ^ k) by lia.
    rewrite Z.mod_add by lia. apply Z.mod_small. lia. }
  rewrite Hpk in Hm at 1. rewrite Z.rem_mul_r in Hm by lia. rewrite Hqk in Hm.
  pose proof (Z.mod_pos_bound p 256 ltac:(lia)). lia.
Qed.

Lemma SANE_CACHE_IDX_pos p : 0 <= SANE_CACHE_IDX p.
Proof. unfold SANE_CACHE_IDX. apply Z.land_nonneg. lia. Qed.

(** The cache with one counter changed. *)
Lemma default_insert (m : gmap Z Z) j k v : default 0 (<[j := v]> m !! k) = if j =? k then v else default 0 (m !! k).
Proof. destruct (Z.eqb_spec j k) as [->|]; by simplify_map_eq. Qed.

Definition counted (s : sanity) (p d : Z) : sanity :=
  mk_sanity (_sanity_canary s) (_sane_sampled s + d)
    (<[SANE_CACHE_IDX p := u8 (default 0 (_sane_cache s !! SANE_CACHE_IDX p) + d)]> (_sane_cache s)) (_sane_allocations s) (sane_cache_lock s).

Lemma count_sample_run s p w : count_sample s p w =
  if SANE_CACHE_IDX p <? SANE_CACHE_SIZE then Ret (counted s p 1) w else Undef.
Proof. unfold count_sample, sane_cache_get, sane_cache_put, mbind, M_bind. by destruct (SANE_CACHE_IDX p <? SANE_CACHE_SIZE). Qed.

Lemma placed_seed w sd b w' a : placed (set_w_root_lock b (set_w_root (set_seed sd (w_root w)) w)) w' a → placed w w' a.
Proof.
  intros [A1 A2 A3 A4 A5 A6 (sd' & b' & E)]. split; try done. exists sd', b'. rewrite E at 1. by destruct w.
Qed.

(** Writing inside the page of the sample. *)
Lemma placed_mem w w' a m : placed w w' a →
  (∀ x, ¬ (sane_address a <= x < sane_address a + w_page_size w) → ld8 m x = ld8 (w_mem w') x) → placed w (set_w_mem m w') a.
Proof.
  intros [A1 A2 A3 A4 A5 A6 (sd' & b' & E)] Hm. split; try done.
  - by destruct A1; split.
  - intros x Hx. change (ld8 m x = ld8 (w_mem w) x). destruct A3 as [Hw Hp]. pose proof (page_ok_bounds w' Hw).
    rewrite Hm by lia. by apply A6.
  - exists sd', b'. rewrite E at 1. done.
Qed.

(** The fresh sample joins the others. *)
Lemma samples_ok_placed w w' s i a : samples_ok w s → _sane_allocations s !! i = Some free_entry → placed w w' a →
  samples_ok w' (counted (with_entry s i a) (sample_ptr (w_page_size w) a) 1).
Proof.
  intros Hs Hi Hpl. pose proof (pl_use _ _ _ Hpl) as Hu. destruct (pl_page _ _ _ Hpl) as [Hw Hp].
  pose proof (page_ok_bounds w' Hw) as Hb. rewrite Hp in Hb.
  eapply (samples_ok_update w w' s _ i free_entry a Hs Hi); try done.
  - rewrite Hu. apply Hpl.
  - intros j c Hne Hj Hc. pose proof (so_entry _ _ Hs j c Hj) as Hok. rewrite Hc in Hok.
    assert (Hfar : 3 * w_page_size w <= Z.abs (sane_address a - sane_address c)).
    { destruct (Z.le_gt_cases (3 * w_page_size w) (Z.abs (sane_address a - sane_address c))) as [|Hlt]; [done|exfalso].
      set (x := Z.max (sane_address a - w_page_size w) (sane_address c - w_page_size w)).
      assert (Hx : vm_prot (w_vm w) x = None) by (apply (pl_fresh _ _ _ Hpl); lia).
      assert (Hcase : sane_address c <= x < sane_address c + w_page_size w ∨ ¬ (sane_address c <= x < sane_address c + w_page_size w)) by lia.
      destruct Hcase as [Hin|Hout].
      - by rewrite (sm_rw _ _ Hok) in Hx by lia.
      - by rewrite (sm_guards _ _ Hok) in Hx by lia. }
    split; [|done]. eapply sample_ok_frame; [exact Hok|done|]. intros x Hx. apply (pl_vm _ _ _ Hpl). lia.
  - intros k. cbn [_sane_cache counted with_entry]. rewrite default_insert. unfold cached_at. rewrite Hu. cbn [andb in_use free_entry sane_address negb Z.eqb Z.b2z].
    destruct (Z.eqb_spec (SANE_CACHE_IDX (sample_ptr (w_page_size w) a)) k) as [<-|]; cbn [Z.b2z].
    + f_equal. lia.
    + rewrite (so_cache _ _ Hs). unfold u8. rewrite Z.sub_0_r, Z.add_0_r, Z.mod_mod by lia. done.
  - rewrite Hu. cbn [_sane_sampled counted with_entry in_use free_entry sane_address negb Z.eqb Z.b2z]. lia.
Qed.

Lemma sanity_canary_u64 w s : samples_ok w s → is_u64 (sanity_canary s).
Proof. intros Hs. apply is_u64_land; [apply Hs|done]. Qed.

(** C27. [_iso_alloc_sample] keeps the invariant of the sampler: either it leaves the request
    to the zones and changes nothing but the seed, or it answers an address in a fresh page
    between two guard pages, records it in a free entry and the cache, fills the rest of the
    page with the canary and unlocks the root. It stops when no entry is left, and only for
    requests of up to 256 bytes it can write past the end of the cache. *)
Theorem iso_alloc_sample_correct s size w : page_ok w → w_root_null w = false → samples_ok w s → sane_cache_lock s = false →
  0 < size < w_page_size w →
  match _iso_alloc_sample s size w with
  | Ret (p, s') w' =>
      (p = 0 ∧ s' = s ∧ ∃ sd, w' = set_w_root (set_seed sd (w_root w)) w) ∨
      ∃ i a, p = sample_ptr (w_page_size w) a ∧ orig_size a = size ∧ placed w w' a ∧ w_root_lock w' = false ∧
        _sane_allocations s !! i = Some free_entry ∧ _sane_allocations s' = <[i := a]> (_sane_allocations s) ∧
        samples_ok w' s' ∧ sane_cache_lock s' = false ∧
        intact (w_mem w') (sanity_canary s') (red_zone (w_page_size w) a).1 (red_zone (w_page_size w) a).2
  | Abort e => resource e ∨ e = NoSaneSlot ∧ ∀ i a, _sane_allocations s !! i = Some a → in_use a = true
  | Undef => size <= 256
  | _ => False
  end.
Proof.
  intros Hw Hn Hs Hl Hsz. unfold _iso_alloc_sample. destruct (us_rand_run w Hn) as (sd & v & Hr).
  rewrite (run_bind _ _ _ _ _ Hr). destruct (negb (v mod SANITY_SAMPLE_ODDS =? 1)).
  { left. split_and!; [done|done|by exists sd]. }
  unfold LOCK_SANITY_CACHE, UNLOCK_ROOT, upd. unfold mbind at 1 2, M_bind at 1 2. rewrite Hl. cbv beta iota.
  set (s1 := set_sane_lock true s). set (w1 := set_w_root_lock false _).
  change (_sane_allocations s1) with (_sane_allocations s).
  destruct (find_sane 0 (_sane_allocations s)) as [i|] eqn:Hf.
  2:{ right. split; [done|]. intros i a Hi. pose proof (find_sane_None _ _ _ _ Hf Hi). unfold in_use. by destruct (Z.eqb_spec (sane_address a) 0). }
  pose proof (free_slot w s i Hs Hf) as Hi.
  pose proof (wp_place_sample s1 i size w1 Hw Hn Hsz Hi) as Hpl. unfold wp in Hpl.
  unfold mbind at 1, M_bind at 1. destruct (place_sample s1 i size w1) as [ps w2|e| | | |]; try done; [|by left].
  destruct Hpl as (a & Hpl & Esz & Hlk & ->). apply (placed_seed w sd false) in Hpl. cbv beta iota.
  change (w_page_size w1) with (w_page_size w). set (p := sample_ptr (w_page_size w) a).
  destruct (pl_page _ _ _ Hpl) as [Hw2 Hp2]. pose proof (pl_ok _ _ _ Hpl) as Hok.
  unfold mbind at 1, M_bind at 1. rewrite count_sample_run. destruct (Z.ltb_spec (SANE_CACHE_IDX p) SANE_CACHE_SIZE) as [Hidx|Hidx].
  2:{ rewrite <-Esz. apply (sample_cache_idx w2 a Hw2 Hok). by rewrite Hp2. }
  set (s2 := counted (with_entry s1 i a) p 1).
  assert (Hs2 : samples_ok w2 s2).
  { apply samples_ok_placed; [by apply (samples_ok_same w)|done|done]. }
  assert (He : sample_entry s2 i = a).
  { unfold sample_entry, s2. cbn [_sane_allocations counted with_entry]. rewrite nth_lookup, list_lookup_insert_eq; [done|]. by eapply lookup_lt_Some. }
  rewrite He. destruct (write_sanity_run s2 (sane_address a) w2) as (m & Hrun & Hint & Hout);
    [done|by eapply sanity_canary_u64|apply Hok|apply Hok|].
  rewrite (run_bind _ _ _ _ _ Hrun). right. exists i, a. cbn [UNLOCK_SANITY_CACHE mbind M_bind mret M_ret].
  rewrite Hp2 in *. split_and!; try done.
  - by apply placed_mem.
  - by apply (samples_ok_same w2).
  - intros x Hx. apply Hint. pose proof (sample_ptr_page w2 a Hok) as Hsp. unfold red_zone in Hx. destruct (right_aligned a); simpl in Hx; rewrite Hp2 in *; pose proof (sm_size _ _ Hok); lia.
Qed.

(** ** Freeing a sample *)

Lemma sample_entry_lookup s i a : _sane_allocations s !! i = Some a → sample_entry s i = a.
Proof. intros Hi. unfold sample_entry. by rewrite nth_lookup, Hi. Qed.

Lemma find_sample w s i a : samples_ok w s → page_ok w → _sane_allocations s !! i = Some a → in_use a = true →
  find_sane (sane_address a) (_sane_allocations s) = Some i.
Proof.
  intros Hs Hw Hi Hu. pose proof (page_ok_bounds w Hw). destruct (find_sane (sane_address a) (_sane_allocations s)) as [j|] eqn:Hf.
  - apply find_sane_Some in Hf as (b & Hj & Eb). destruct (decide (i = j)) as [->|Hne]; [done|].
    assert (in_use b = true) by (unfold in_use in *; by rewrite Eb).
    pose proof (so_apart _ _ Hs i j a b Hi Hj Hne Hu ltac:(done)). rewrite Eb, Z.sub_diag in *. lia.
  - by destruct (find_sane_None _ _ _ _ Hf Hi).
Qed.

Lemma get_sane_sample w s i a : samples_ok w s → page_ok w → _sane_allocations s !! i = Some a → in_use a = true →
  SANE_CACHE_IDX (sample_ptr (w_page_size w) a) < SANE_CACHE_SIZE →
  countb (cached_at (w_page_size w) (SANE_CACHE_IDX (sample_ptr (w_page_size w) a))) (_sane_allocations s) < 256 →
  _get_sane_alloc s (sample_ptr (w_page_size w) a) w = Ret (Some i) w.
Proof.
  intros Hs Hw Hi Hu Hidx Hc. set (p := sample_ptr (w_page_size w) a) in *.
  pose proof (so_entry _ _ Hs i a Hi) as Hok. rewrite Hu in Hok.
  assert (Hpos : 0 < countb (cached_at (w_page_size w) (SANE_CACHE_IDX p)) (_sane_allocations s)).
  { apply (countb_pos _ _ i a Hi). unfold cached_at. rewrite Hu. apply Z.eqb_refl. }
  unfold _get_sane_alloc, sane_cache_get, mbind, M_bind, mret, M_ret, get. rewrite (proj2 (Z.ltb_lt _ _) Hidx), (so_cache _ _ Hs).
  unfold u8. rewrite Z.mod_small by lia. destruct (Z.eqb_spec (countb (cached_at (w_page_size w) (SANE_CACHE_IDX p)) (_sane_allocations s)) 0); [lia|].
  fold (page_of w p). rewrite (page_of_sample w a p Hw Hok), (find_sample w s i a) by done || (unfold p; pose proof (sample_ptr_page w a Hok); pose proof (sm_size _ _ Hok); lia).
  done.
Qed.

Lemma unmap_sample w a : page_ok w → sample_ok w a →
  unmap_guarded_pages (sane_address a) (w_page_size w) w =
    Ret tt (set_w_vm (Vma (sane_address a - w_page_size w) (3 * w_page_size w) None :: w_vm w) w).
Proof.
  intros Hw Ha. pose proof (page_ok_bounds w Hw) as Hb. unfold unmap_guarded_pages, mbind, M_bind, get, munmap.
  assert (Hmult : ∀ k, (k * w_page_size w) mod w_page_size w = 0) by (intros; apply Z.mod_mul; lia).
  rewrite (page_len_aligned w (w_page_size w)) by (done || lia || apply Z.mod_same; lia).
  rewrite Z.shiftl_mul_pow2 by lia. change (2 ^ 1) with 2.
  replace (w_page_size w + w_page_size w * 2) with (3 * w_page_size w) by lia.
  rewrite page_len_aligned by (done || lia || apply Hmult).
  replace (sane_address a - w_page_size w) with (sane_address a + (-1) * w_page_size w) by lia.
  rewrite Z.mod_add, (sm_aligned _ _ Ha) by lia. destruct (Z.ltb_spec 0 (3 * w_page_size w)); [done|lia].
Qed.

Lemma samples_ok_removed w s i a : samples_ok w s → page_ok w → _sane_allocations s !! i = Some a → in_use a = true →
  samples_ok (set_w_vm (Vma (sane_address a - w_page_size w) (3 * w_page_size w) None :: w_vm w) w)
    (counted (with_entry s i free_entry) (sample_ptr (w_page_size w) a) (-1)).
Proof.
  intros Hs Hw Hi Hu. eapply (samples_ok_update w _ s _ i a free_entry Hs Hi); try done.
  - intros j c Hne Hj Hc. split; [|done]. pose proof (so_entry _ _ Hs j c Hj) as Hok. rewrite Hc in Hok.
    pose proof (so_apart _ _ Hs i j a c Hi Hj ltac:(done) Hu Hc).
    eapply sample_ok_frame; [exact Hok|done|]. intros x Hx. cbn [w_vm set_w_vm]. rewrite vm_prot_cons, decide_False; [done|simpl; lia].
  - intros k. cbn [_sane_cache counted with_entry]. rewrite default_insert. unfold cached_at. rewrite Hu. cbn [andb in_use free_entry sane_address negb Z.eqb Z.b2z].
    destruct (Z.eqb_spec (SANE_CACHE_IDX (sample_ptr (w_page_size w) a)) k) as [<-|]; cbn [Z.b2z].
    + f_equal. lia.
    + rewrite (so_cache _ _ Hs). unfold u8. rewrite Z.sub_0_r, Z.add_0_r, Z.mod_mod by lia. done.
  - rewrite Hu. cbn [_sane_sampled counted with_entry in_use free_entry sane_address negb Z.eqb Z.b2z]. lia.
Qed.

(** C28. [_iso_alloc_free_sane_sample] on the address a sample answered, as long as fewer than
    256 samples share its counter: when every byte of the page outside the request is still
    the canary, it unmaps the page with its guard pages, clears exactly its entry and keeps the
    invariant; when one is not, it stops the process. A pointer into no sampled page is
    refused and nothing changes. *)
Theorem free_sane_sample_correct s w : page_ok w → samples_ok w s → sane_cache_lock s = false →
  (∀ i a, let p := sample_ptr (w_page_size w) a in let '(lo, hi) := red_zone (w_page_size w) a in
     _sane_allocations s !! i = Some a → in_use a = true → SANE_CACHE_IDX p < SANE_CACHE_SIZE →
     countb (cached_at (w_page_size w) (SANE_CACHE_IDX p)) (_sane_allocations s) < 256 →
     (intact (w_mem w) (sanity_canary s) lo hi → ∃ vm s', _iso_alloc_free_sane_sample s p w = Ret (true, s') (set_w_vm vm w) ∧
        _sane_allocations s' = <[i := free_entry]> (_sane_allocations s) ∧ samples_ok (set_w_vm vm w) s' ∧ sane_cache_lock s' = false ∧
        ∀ x, vm_prot vm x = if decide (sane_address a - w_page_size w <= x < sane_address a + 2 * w_page_size w) then None else vm_prot (w_vm w) x) ∧
     (¬ intact (w_mem w) (sanity_canary s) lo hi → _iso_alloc_free_sane_sample s p w = Abort SanityCanaryCorrupt)) ∧
  (∀ p, SANE_CACHE_IDX p < SANE_CACHE_SIZE → page_of w p ≠ 0 →
     (∀ i a, _sane_allocations s !! i = Some a → sane_address a ≠ page_of w p) →
     _iso_alloc_free_sane_sample s p w = Ret (false, s) w).
Proof.
  intros Hw Hs Hl. split.
  - intros i a. cbv zeta. pose proof (check_sanity_run (set_sane_lock true s) a w) as Hchk.
    destruct (red_zone (w_page_size w) a) as [lo hi] eqn:Hrz. intros Hi Hu Hidx Hcnt.
    pose proof (so_entry _ _ Hs i a Hi) as Hok. rewrite Hu in Hok.
    assert (Hs1 : samples_ok w (set_sane_lock true s)) by (by apply (samples_ok_same w)).
    assert (Hzone : sane_address a <= lo ∧ hi <= sane_address a + w_page_size w)
      by (pose proof (sm_size _ _ Hok); unfold red_zone in Hrz; destruct (right_aligned a); simplify_eq; lia).
    specialize (Hchk (sanity_canary_u64 _ _ Hs1)). 
    destruct Hchk as [[Hint Hchk]|[Hint Hchk]]; [eapply mapped_rw_sub; [apply Hok|lia..]|lia| |];
      [split; [intros _|done]|split; [intros Hin; by destruct (Hint Hin)|intros _]];
      unfold _iso_alloc_free_sane_sample, LOCK_SANITY_CACHE; unfold mbind at 1, M_bind at 1; rewrite Hl; cbv beta iota;
      rewrite (run_bind _ _ _ _ _ (get_sane_sample w (set_sane_lock true s) i a Hs1 Hw Hi Hu Hidx Hcnt));
      (assert (He : sample_entry (set_sane_lock true s) i = a) by (by apply sample_entry_lookup));
      unfold mbind, M_bind, get, mret, M_ret; rewrite He, Hchk; [|done].
    rewrite (unmap_sample w a Hw Hok). unfold sane_cache_get, sane_cache_put. rewrite (proj2 (Z.ltb_lt _ _) Hidx).
    eexists _, _. split; [reflexivity|]. split_and!; [done| |done|].
    + eapply (samples_ok_same _ _ _ false (samples_ok_removed w s i a Hs Hw Hi Hu)); done.
    + intros x. rewrite vm_prot_cons. simpl. repeat case_decide; lia || done.
  - intros p Hidx Hne Hno. unfold _iso_alloc_free_sane_sample, LOCK_SANITY_CACHE, _get_sane_alloc, sane_cache_get.
    unfold mbind, M_bind, mret, M_ret, get, UNLOCK_SANITY_CACHE. rewrite Hl, (proj2 (Z.ltb_lt _ _) Hidx).
    assert (Hrest : set_sane_lock false (set_sane_lock true s) = s) by (destruct s; simpl in *; by subst).
    destruct (default 0 (_sane_cache (set_sane_lock true s) !! SANE_CACHE_IDX p) =? 0); [by rewrite Hrest|].
    fold (page_of w p). destruct (find_sane (page_of w p) (_sane_allocations (set_sane_lock true s))) as [i|] eqn:Hf; [|by rewrite Hrest].
    apply find_sane_Some in Hf as (a & Hi & Ea). by destruct (Hno i a Hi).
Qed.

(** ** Watching a sample for reads before the first write *)

(** [ROUND_DOWN_PAGE] of the address of a sample. *)
Lemma round_down_sample w a : page_ok w → sample_ok w a →
  ROUND_DOWN_PAGE (w_page_size w) (w_page_size_shift w) (sample_ptr (w_page_size w) a) =
    if right_aligned a then sane_address a else sane_address a - w_page_size w.
Proof.
  intros Hw Ha. pose proof (page_ok_bounds w Hw) as Hb. pose proof (sm_low _ _ Ha). pose proof (sm_high _ _ Ha).
  pose proof (sm_size _ _ Ha). unfold sample_ptr. destruct (right_aligned a).
  - apply round_down_in_page; [done|apply Ha|done|done|lia].
  - destruct Hw as (Hs & Hp & _). rewrite (round_down_page_correct (w_page_size w) (w_page_size_shift w)) by (done || lia).
    by rewrite (sm_aligned _ _ Ha).
Qed.

(** C30. With [UNINIT_READ_SANITY] a sample at the right end of its page has its page
    registered for page faults. For one at the left end the address is page aligned, where
    [ROUND_DOWN_PAGE] answers the page below: the guard page is registered instead, and reads
    before the first write are not noticed. *)
Theorem uninit_sample_watches ret s u size w : page_ok w → w_root_null w = false → samples_ok w s → sane_cache_lock s = false →
  0 < size < w_page_size w → _page_fault_thread u ≠ 0 → ret ≠ ERR →
  match _iso_alloc_sample_uninit ret s u size w with
  | Ret (p, s', u') w' =>
      (p = 0 ∧ s' = s ∧ u' = u) ∨
      ∃ a, p = sample_ptr (w_page_size w) a ∧ orig_size a = size ∧ placed w w' a ∧
        registered u' = {[ if right_aligned a then sane_address a else sane_address a - w_page_size w ]} ∪ registered u
  | Abort e => resource e ∨ e = NoSaneSlot
  | Undef => size <= 256
  | _ => False
  end.
Proof.
  intros Hw Hn Hs Hl Hsz Ht Hret. unfold _iso_alloc_sample_uninit. apply Z.eqb_neq in Ht, Hret. rewrite Ht.
  destruct (us_rand_run w Hn) as (sd & v & Hr). rewrite (run_bind _ _ _ _ _ Hr).
  destruct (negb (v mod SANITY_SAMPLE_ODDS =? 1)); [by left|].
  unfold LOCK_SANITY_CACHE, UNLOCK_ROOT, upd. unfold mbind at 1 2, M_bind at 1 2. rewrite Hl. cbv beta iota.
  set (s1 := set_sane_lock true s). set (w1 := set_w_root_lock false _).
  change (_sane_allocations s1) with (_sane_allocations s).
  destruct (find_sane 0 (_sane_allocations s)) as [i|] eqn:Hf; [|by right].
  pose proof (free_slot w s i Hs Hf) as Hi.
  pose proof (wp_place_sample s1 i size w1 Hw Hn Hsz Hi) as Hpl. unfold wp in Hpl.
  unfold mbind at 1, M_bind at 1. destruct (place_sample s1 i size w1) as [ps w2|e| | | |]; try done; [|by left].
  destruct Hpl as (a & Hpl & Esz & _ & ->). apply (placed_seed w sd false) in Hpl.
  destruct (pl_page _ _ _ Hpl) as [Hw2 Hp2]. pose proof (pl_ok _ _ _ Hpl) as Hok.
  change (w_page_size w1) with (w_page_size w). unfold mbind, M_bind, get. rewrite count_sample_run, Hp2.
  destruct (Z.ltb_spec (SANE_CACHE_IDX (sample_ptr (w_page_size w) a)) SANE_CACHE_SIZE) as [Hidx|Hidx].
  2:{ rewrite <-Esz. apply (sample_cache_idx w2 a Hw2 Hok). by rewrite Hp2. }
  rewrite Hret. right. exists a. split_and!; [done|done|done|]. cbn [registered].
  pose proof (round_down_sample w2 a Hw2 Hok) as Hrd. rewrite Hp2 in Hrd. by rewrite Hrd.
Qed.
End samples.
