(* ===== verification/ZoneBits.v ===== *)
(** * Zones: geometry, bitmap and canaries

    The pointer masking macros of include/iso_alloc_internal.h, the address arithmetic
    between chunks, bit slots and bitmap words, the two-bit chunk states, the canaries of
    src/iso_alloc.c, and the well-formedness invariant [zinv] of a zone. *)

From S2P Require Import Prelude Words Conf Memory State Util.

(** ** Pointer masking *)

Section masking.
Context `{!Config}.

Definition mask_ptr (z : iso_alloc_zone_t) (p : Z) : Z :=
  if MASK_PTRS then Z.lxor p (pointer_mask z) else p.
Definition UNMASK_USER_PTR (z : iso_alloc_zone_t) : Z := mask_ptr z (user_pages_start z).
Definition UNMASK_BITMAP_PTR (z : iso_alloc_zone_t) : Z := mask_ptr z (bitmap_start z).
Definition MASK_ZONE_PTRS (z : iso_alloc_zone_t) : iso_alloc_zone_t :=
  set_user_pages_start (mask_ptr z (user_pages_start z))
    (set_bitmap_start (mask_ptr z (bitmap_start z)) z).
Definition UNMASK_ZONE_PTRS (z : iso_alloc_zone_t) : iso_alloc_zone_t := MASK_ZONE_PTRS z.

Lemma mask_ptr_cancel z p : mask_ptr z (mask_ptr z p) = p.
Proof. unfold mask_ptr. destruct MASK_PTRS; [apply lxor_cancel|done]. Qed.

Lemma masked_user z : UNMASK_USER_PTR (MASK_ZONE_PTRS z) = user_pages_start z.
Proof. apply (mask_ptr_cancel z). Qed.

Lemma masked_bitmap z : UNMASK_BITMAP_PTR (MASK_ZONE_PTRS z) = bitmap_start z.
Proof. apply (mask_ptr_cancel z). Qed.

Lemma mask_unmask z : MASK_ZONE_PTRS (UNMASK_ZONE_PTRS z) = z.
Proof.
  destruct z. unfold UNMASK_ZONE_PTRS, MASK_ZONE_PTRS, set_user_pages_start, set_bitmap_start,
    mask_ptr. simpl. destruct MASK_PTRS; [|done]. by rewrite !lxor_cancel.
Qed.
End masking.

(** ** Bit slots *)

Definition POINTER_FROM_BITSLOT (z : iso_alloc_zone_t) (bit_slot : Z) : Z :=
  user_pages_start z + Z.shiftr bit_slot 1 * chunk_size z.

(** Bit [s] of the bitmap at address [B]. *)
Definition bm_word (m : gmap Z Z) (B i : Z) : Z := ld64 m (B + 8 * i).
Definition bm_bit (m : gmap Z Z) (B s : Z) : bool := Z.testbit (bm_word m B (s / 64)) (s mod 64).

(** The state of chunk [c]: its two bits, in-use first. *)
Inductive chunk_state := ChunkFree | ChunkInUse | ChunkWasUsed | ChunkCanary.
#[export] Instance chunk_state_eq_dec : EqDecision chunk_state.
Proof. solve_decision. Defined.

Definition state_of_bits (in_use was_used : bool) : chunk_state :=
  match in_use, was_used with
  | false, false => ChunkFree
  | true, false => ChunkInUse
  | false, true => ChunkWasUsed
  | true, true => ChunkCanary
  end.

Definition chunk_st (m : gmap Z Z) (B c : Z) : chunk_state :=
  state_of_bits (bm_bit m B (2 * c)) (bm_bit m B (2 * c + 1)).

Lemma bm_word_range m B i : is_u64 (bm_word m B i).
Proof. apply ld64_range. Qed.
#[export] Hint Resolve bm_word_range : iso.

(** Writing one word of the bitmap. *)
Lemma bm_bit_st64 m B i b s : is_u64 b →
  bm_bit (st64 m (B + 8 * i) b) B s =
  if s / 64 =? i then Z.testbit b (s mod 64) else bm_bit m B s.
Proof.
  intros Hb. unfold bm_bit, bm_word. destruct (Z.eqb_spec (s / 64) i) as [->|Hne].
  - by rewrite ld64_st64_same.
  - by rewrite ld64_st64_other by lia.
Qed.

(** A write outside the bitmap leaves it alone. *)
Lemma bm_bit_ext m m' B n s :
  (∀ x, B <= x < B + 8 * n → ld8 m' x = ld8 m x) → 0 <= s < 64 * n → bm_bit m' B s = bm_bit m B s.
Proof.
  intros Hx Hs. unfold bm_bit, bm_word. f_equal. apply ld64_ext. intros x Hr. apply Hx.
  assert (0 <= s / 64 < n) by (split; [apply Z.div_pos|apply Z.div_lt_upper_bound]; lia). lia.
Qed.

(** Setting and clearing the two bits of a slot. *)
Definition put_slot (b k : Z) (in_use was_used : bool) : Z :=
  let b := if in_use then SET_BIT b k else UNSET_BIT b k in
  if was_used then SET_BIT b (k + 1) else UNSET_BIT b (k + 1).

Lemma put_slot_range b k x y : is_u64 b → 0 <= k < 63 → is_u64 (put_slot b k x y).
Proof. intros. unfold put_slot. destruct x, y; auto 10 with iso lia. Qed.

Lemma put_slot_spec b k x y j : 0 <= k → 0 <= j →
  Z.testbit (put_slot b k x y) j =
  if j =? k then x else if j =? k + 1 then y else Z.testbit b j.
Proof.
  intros Hk Hj. unfold put_slot.
  destruct x, y; rewrite ?SET_BIT_spec, ?UNSET_BIT_spec, ?SET_BIT_spec, ?UNSET_BIT_spec by lia;
  repeat (bcase; subst; try lia; simpl; rewrite ?orb_false_r, ?orb_true_r, ?andb_true_r, ?andb_false_r); done.
Qed.

Lemma slot_div_mod s : 0 <= s → Z.even s = true → 0 <= s mod 64 < 63 ∧ (s + 1) / 64 = s / 64 ∧ (s + 1) mod 64 = s mod 64 + 1.
Proof.
  intros Hs He. apply Zeven_bool_iff in He. destruct (Zeven_ex _ He) as [q ->].
  pose proof (Z.div_mod (2 * q) 64). pose proof (Z.mod_pos_bound (2 * q) 64).
  assert (2 * q mod 64 ≠ 63) by lia.
  assert ((2 * q + 1) / 64 = 2 * q / 64) by (symmetry; apply (Z.div_unique _ _ _ (2 * q mod 64 + 1)); lia).
  split_and!; try lia. symmetry. apply (Z.mod_unique _ _ (2 * q / 64)); lia.
Qed.

Lemma bm_bit_put_slot m B s x y t : 0 <= s → Z.even s = true → 0 <= t →
  bm_bit (st64 m (B + 8 * (s / 64)) (put_slot (bm_word m B (s / 64)) (s mod 64) x y)) B t =
  if t =? s then x else if t =? s + 1 then y else bm_bit m B t.
Proof.
  intros Hs He Ht. destruct (slot_div_mod s Hs He) as (Hm & Hd & Hm1).
  rewrite bm_bit_st64 by (apply put_slot_range; auto with iso).
  destruct (Z.eqb_spec t s) as [->|Hne].
  { rewrite Z.eqb_refl, put_slot_spec, Z.eqb_refl by lia. done. }
  destruct (Z.eqb_spec t (s + 1)) as [->|Hne'].
  { rewrite Hd, Hm1, Z.eqb_refl, put_slot_spec, Z.eqb_refl by lia. bcase; [lia|done]. }
  destruct (Z.eqb_spec (t / 64) (s / 64)) as [Heq|]; [|done].
  pose proof (Z.div_mod t 64). pose proof (Z.div_mod s 64). pose proof (Z.mod_pos_bound t 64).
  rewrite put_slot_spec by lia. bcase; [lia|]. bcase; [lia|]. unfold bm_bit. by rewrite Heq.
Qed.

(** ** Canaries *)

Section canary.
Context `{!Kernel, !Config}.

Definition canary_of (secret p : Z) : Z := Z.land (Z.lxor secret p) CANARY_VALIDATE_MASK.

Definition write_canary (zi p : Z) : M unit :=
  if DISABLE_CANARY then mret tt else
  z ← zget zi;
  let canary := canary_of (canary_secret z) p in
  wr64 p canary;;
  wr64 (p + (chunk_size z - 8)) canary.

Definition check_canary (zi p : Z) : M unit :=
  if DISABLE_CANARY then mret tt else
  z ← zget zi;
  v ← rd64 p;
  let canary := canary_of (canary_secret z) p in
  (if v =? canary then mret tt else abort CanaryStart);;
  v ← rd64 (p + chunk_size z - 8);
  if v =? canary then mret tt else abort CanaryEnd.

(** [OK] is 0, [ERR] is -1. *)
Definition check_canary_no_abort (zi p : Z) : M Z :=
  if DISABLE_CANARY then mret 0 else
  z ← zget zi;
  v ← rd64 p;
  let canary := canary_of (canary_secret z) p in
  if negb (v =? canary) then mret (-1) else
  v ← rd64 (p + chunk_size z - 8);
  if negb (v =? canary) then mret (-1) else mret 0.
End canary.

Lemma canary_range secret p : is_u64 secret → is_u64 p → is_u64 (canary_of secret p).
Proof. intros. apply is_u64_land; [auto with iso|]. autounfold with conf. lia. Qed.
#[export] Hint Resolve canary_range : iso.

(** The two canary words of the chunk at [p]. *)
Definition canary_words (m : gmap Z Z) (secret cs p : Z) : Prop :=
  ld64 m p = canary_of secret p ∧ ld64 m (p + cs - 8) = canary_of secret p.

(** ** Well-formed zones *)

(** The sizes [_iso_new_zone] computes. *)
Record zone_geom (z : iso_alloc_zone_t) : Prop := {
  zg_size : 32 <= chunk_size z <= 65536;
  zg_align : chunk_size z mod 32 = 0;
  zg_count : chunk_count z = ZONE_USER_SIZE / chunk_size z;
  zg_bitmap : bitmap_size z = chunk_count z * 2 / 8;
  zg_max : max_bitmap_idx z = bitmap_size z / 8;
}.

(** The number of chunks the bitmap can describe. *)
Definition slots (z : iso_alloc_zone_t) : Z := 32 * max_bitmap_idx z.

(** A bit slot the zone may hand out: an even position of the bitmap whose in-use bit is
    clear. *)
Definition free_slot (m : gmap Z Z) (B : Z) (z : iso_alloc_zone_t) (s : Z) : Prop :=
  0 <= s < 64 * max_bitmap_idx z ∧ Z.even s = true ∧ bm_bit m B s = false.

(** The entries of the free bit slot cache that are still to be served. *)
Definition live_cache (z : iso_alloc_zone_t) : list Z :=
  drop (Z.to_nat (free_bit_slots_usable z)) (take (Z.to_nat (free_bit_slots_index z)) (free_bit_slots z)).

(** A zone whose user pages start at [U] and whose bitmap starts at [B]. *)
Record zone_mapped (vm : list vma) (U B : Z) (z : iso_alloc_zone_t) : Prop := {
  zm_user : 0 < U ∧ U + ZONE_USER_SIZE <= 2 ^ 47;
  zm_align : U mod 4096 = 0;
  zm_user_rw : mapped_rw vm U ZONE_USER_SIZE;
  zm_bitmap_rw : mapped_rw vm B (8 * max_bitmap_idx z);
  zm_disjoint : B + 8 * (max_bitmap_idx z + 1) <= U ∨ U + ZONE_USER_SIZE <= B;
}.

Record cache_ok (m : gmap Z Z) (B : Z) (z : iso_alloc_zone_t) : Prop := {
  co_len : length (free_bit_slots z) = 255%nat;
  co_idx : 0 <= free_bit_slots_usable z <= free_bit_slots_index z ∧ free_bit_slots_index z <= 255;
  co_tail : ∀ i, free_bit_slots_index z <= i < 255 → nth (Z.to_nat i) (free_bit_slots z) 0 = BAD_BIT_SLOT;
  co_free : Forall (free_slot m B z) (live_cache z);
  co_nodup : NoDup (live_cache z);
  co_next : next_free_bit_slot z = BAD_BIT_SLOT ∨
            (free_slot m B z (next_free_bit_slot z) ∧ next_free_bit_slot z ∉ live_cache z);
  co_full : is_full z = true →
            free_bit_slots_index z = 0 ∧ ∀ s, ¬ free_slot m B z s;
}.

(** Every chunk that was used and is free, or is a canary, carries its canary. *)
Definition canaries_ok `{!Config} (m : gmap Z Z) (U B : Z) (z : iso_alloc_zone_t) : Prop :=
  DISABLE_CANARY = false →
  ∀ c, 0 <= c < slots z → bm_bit m B (2 * c + 1) = true →
  canary_words m (canary_secret z) (chunk_size z) (U + c * chunk_size z).

Definition in_use_chunks (m : gmap Z Z) (B : Z) (z : iso_alloc_zone_t) : list Z :=
  List.filter (λ c, bool_decide (chunk_st m B c = ChunkInUse)) (seqZ 0 (slots z)).

Record zinv `{!Config} (vm : list vma) (m : gmap Z Z) (U B : Z) (z : iso_alloc_zone_t) : Prop := {
  zinv_geom : zone_geom z;
  zinv_mapped : zone_mapped vm U B z;
  zinv_cache : cache_ok m B z;
  zinv_canary : canaries_ok m U B z;
  zinv_secret : is_u64 (canary_secret z);
  zinv_af : af_count z = Z.of_nat (length (in_use_chunks m B z));
}.

(** A zone at rest: its pointers are masked. *)
Definition zone_inv `{!Config} (vm : list vma) (m : gmap Z Z) (z : iso_alloc_zone_t) : Prop :=
  zinv vm m (UNMASK_USER_PTR z) (UNMASK_BITMAP_PTR z) z.

Section geom.
Variable z : iso_alloc_zone_t.
Hypothesis Hg : zone_geom z.

Lemma zone_chunk_count : 64 <= chunk_count z <= 131072 ∧ chunk_count z * chunk_size z <= ZONE_USER_SIZE.
Proof.
  destruct Hg as [Hs _ Hc _ _]. rewrite Hc. autounfold with conf.
  pose proof (Z.mul_div_le 4194304 (chunk_size z)).
  assert (4194304 / chunk_size z <= 4194304 / 32) by (apply Z.div_le_compat_l; lia).
  assert (4194304 / 65536 <= 4194304 / chunk_size z) by (apply Z.div_le_compat_l; lia).
  change (4194304 / 32) with 131072 in *. change (4194304 / 65536) with 64 in *. lia.
Qed.

Lemma zone_max_idx : 2 <= max_bitmap_idx z <= 4096 ∧ slots z <= chunk_count z ∧ 8 * max_bitmap_idx z <= bitmap_size z.
Proof.
  pose proof zone_chunk_count as Hc. destruct Hg as [_ _ _ Hb Hm]. unfold slots. rewrite Hm, Hb.
  replace (chunk_count z * 2 / 8) with (chunk_count z / 4)
    by (rewrite (Z.mul_comm _ 2), <-(Z.div_mul_cancel_l (chunk_count z) 4 2) by lia; done).
  rewrite Z.div_div by lia. change (4 * 8) with 32.
  pose proof (Z.mul_div_le (chunk_count z) 32). pose proof (Z.mul_div_le (chunk_count z / 4) 8).
  rewrite Z.div_div in * by lia. change (4 * 8) with 32 in *.
  assert (64 / 32 <= chunk_count z / 32 <= 131072 / 32) by (split; apply Z.div_le_mono; lia).
  change (64 / 32) with 2 in *. change (131072 / 32) with 4096 in *. lia.
Qed.

(** A describable chunk lies inside the user pages. *)
Lemma chunk_in_zone c : 0 <= c < slots z →
  0 <= c * chunk_size z ∧ c * chunk_size z + chunk_size z <= ZONE_USER_SIZE.
Proof.
  intros Hc. pose proof zone_chunk_count. pose proof zone_max_idx. destruct Hg as [Hs _ _ _ _]. nia.
Qed.
End geom.

(** Distinct chunks do not overlap. *)
Lemma chunks_disjoint cs c d U : 0 <= cs → c ≠ d →
  U + c * cs + cs <= U + d * cs ∨ U + d * cs + cs <= U + c * cs.
Proof. intros. assert (c < d ∨ d < c) as [|] by lia; [left|right]; nia. Qed.
