(* ===== verification/FreeList.v ===== *)
(** * The free bit slot cache of a zone

    [fill_free_bit_slots], [insert_free_bit_slot], [get_next_free_bit_slot], the two
    bitmap scans and [is_zone_usable] of src/iso_alloc.c, and their correctness: the cache
    always holds distinct free slots, it is filled from the bitmap exactly as a naive
    enumeration of the free slots would, the fast and slow scans find the first free slot
    when there is one, and a zone is reported full only when it is. *)

From S2P Require Import Prelude Words Conf Memory State Util ZoneBits.

Section model.
Context `{!Kernel, !Config}.

(** The local variables of the filling loops: the array [free_bit_slots] and
    [free_bit_slots_index]. *)
Definition push (st : list Z * Z) (v : Z) : list Z * Z := (<[Z.to_nat st.2 := v]> st.1, st.2 + 1).

(** The loop over a word with no bit set: [n] more positions from [z] on. *)
Fixpoint fill_zero_word (n : nat) (bm_idx_shf z : Z) (st : list Z * Z) : list Z * Z :=
  match n with
  | O => st
  | S n' =>
      let st := push st (bm_idx_shf + z) in
      if ZONE_FREE_LIST_SZ <=? st.2 then st
      else fill_zero_word n' bm_idx_shf (z + BITS_PER_CHUNK) st
  end.

(** The loop over [free_mask]; a mask has at most 64 bits. *)
Fixpoint fill_mask_word (fuel : nat) (bm_idx_shf free_mask : Z) (st : list Z * Z) : list Z * Z :=
  match fuel with
  | O => st
  | S fuel' =>
      if free_mask =? 0 then st else
      let st := push st (bm_idx_shf + builtin_ctzll free_mask) in
      if ZONE_FREE_LIST_SZ <=? st.2 then st
      else fill_mask_word fuel' bm_idx_shf (Z.land free_mask (free_mask - 1)) st
  end.

(** The complement of a word's in-use bits. *)
Definition free_mask (w : Z) : Z := Z.land (u64 (Z.lnot w)) USED_BIT_VECTOR.

Definition fill_word (bts bm_idx_shf : Z) (st : list Z * Z) : list Z * Z :=
  if bts =? 0 then fill_zero_word 32 bm_idx_shf 0 st
  else fill_mask_word 64 bm_idx_shf (free_mask bts) st.

(** The outer loop; [max] bounds the number of words visited. *)
Fixpoint fill_loop (fuel : nat) (bm max bm_idx : Z) (st : list Z * Z) : M (list Z * Z) :=
  match fuel with
  | O => nofuel
  | S fuel' =>
      if st.2 <? ZONE_FREE_LIST_SZ then
        if max <=? bm_idx then mret st else
        bts ← rd64 (bm + 8 * bm_idx);
        fill_loop fuel' bm max (bm_idx + 1) (fill_word bts (Z.shiftl bm_idx 6) st)
      else mret st
  end.

Definition swap (l : list Z) (i j : nat) : list Z :=
  let t := nth j l 0 in
  <[i := t]> (<[j := nth i l 0]> l).

(** The randomisation loop, [i] counting down to 1. *)
Fixpoint shuffle (i : nat) (l : list Z) : M (list Z) :=
  match i with
  | O => mret l
  | S i' =>
      r ← us_rand_uint64;
      let j := Z.shiftr (u16 r * Z.of_nat i) FREE_LIST_SHF in
      shuffle i' (swap l i (Z.to_nat j))
  end.

Definition fill_free_bit_slots (zi : Z) : M unit :=
  z ← zget zi;
  v ← rand_uint64;
  rupd (set_seed v);;
  bm_idx ← (if MIN_BITMAP_IDX <? max_bitmap_idx z
            then r ← us_rand_uint64; mret (Z.land (u32 r) (max_bitmap_idx z - 1))
            else mret 0);
  let fbs := replicate (Z.to_nat ZONE_FREE_LIST_SZ) BAD_BIT_SLOT in
  zmod zi (λ z, set_free_bit_slots_usable 0 (set_free_bit_slots fbs z));;
  '(fbs, idx) ← fill_loop (S (Z.to_nat (max_bitmap_idx z))) (bitmap_start z) (max_bitmap_idx z) bm_idx (fbs, 0);
  fbs ← (if RANDOMIZE_FREELIST && (MIN_RAND_FREELIST <? idx)
         then shuffle (Z.to_nat (idx - 1)) fbs else mret fbs);
  zmod zi (λ z, set_free_bit_slots_index idx (set_free_bit_slots fbs z)).

(** The duplicate check looks at the first [ZONE_FREE_LIST_SZ >> 3] entries. *)
Definition slot_is_cached (z : iso_alloc_zone_t) (bit_slot : Z) : bool :=
  let max_cache_slots := Z.shiftr ZONE_FREE_LIST_SZ 3 in
  existsb (λ i, nth (Z.to_nat i) (free_bit_slots z) 0 =? bit_slot)
    (seqZ (free_bit_slots_usable z) (max_cache_slots - free_bit_slots_usable z)).

Definition insert_free_bit_slot (zi bit_slot : Z) : M unit :=
  z ← zget zi;
  if VERIFY_FREE_BIT_SLOTS && slot_is_cached z bit_slot then abort DuplicateSlot else
  if ZONE_FREE_LIST_SZ <=? free_bit_slots_index z then mret tt else
  zput zi (set_is_full false
    (set_free_bit_slots_index (free_bit_slots_index z + 1)
      (set_free_bit_slots (<[Z.to_nat (free_bit_slots_index z) := bit_slot]> (free_bit_slots z)) z))).

Definition get_next_free_bit_slot (zi : Z) : M Z :=
  z ← zget zi;
  if (ZONE_FREE_LIST_SZ <=? free_bit_slots_usable z) ||
     (free_bit_slots_index z <=? free_bit_slots_usable z)
  then mret BAD_BIT_SLOT else
  let s := nth (Z.to_nat (free_bit_slots_usable z)) (free_bit_slots z) 0 in
  zput zi (set_free_bit_slots_usable (free_bit_slots_usable z + 1)
    (set_free_bit_slots (<[Z.to_nat (free_bit_slots_usable z) := BAD_BIT_SLOT]> (free_bit_slots z))
      (set_next_free_bit_slot s z)));;
  mret s.

(** [iso_scan_zone_free_slot], the build with [__int128]: [n] more pairs of words. *)
Fixpoint scan_pairs (n : nat) (bm i : Z) : M Z :=
  match n with
  | O => mret BAD_BIT_SLOT
  | S n' =>
      lo ← rd64 (bm + 16 * i);
      hi ← rd64 (bm + 16 * i + 8);
      if (lo =? 0) && (hi =? 0) then mret (Z.shiftl i 7) else scan_pairs n' bm (i + 1)
  end.

Definition iso_scan_zone_free_slot (zi : Z) : M Z :=
  z ← zget zi;
  scan_pairs (Z.to_nat (Z.shiftr (max_bitmap_idx z) 1)) (bitmap_start z) 0.

(** First loop of [iso_scan_zone_free_slot_slow]: pairs of words. *)
Fixpoint scan_slow_pairs (n : nat) (bm i : Z) : M Z :=
  match n with
  | O => mret BAD_BIT_SLOT
  | S n' =>
      lo ← rd64 (bm + 16 * i);
      let free_lo := free_mask lo in
      if negb (free_lo =? 0) then mret (Z.shiftl i 7 + builtin_ctzll free_lo) else
      hi ← rd64 (bm + 16 * i + 8);
      let free_hi := free_mask hi in
      if negb (free_hi =? 0) then mret (Z.shiftl i 7 + 64 + builtin_ctzll free_hi)
      else scan_slow_pairs n' bm (i + 1)
  end.

(** Second loop: single words. *)
Fixpoint scan_slow_words (n : nat) (bm i : Z) : M Z :=
  match n with
  | O => mret BAD_BIT_SLOT
  | S n' =>
      w ← rd64 (bm + 8 * i);
      if negb (free_mask w =? 0) then mret (Z.shiftl i 6 + builtin_ctzll (free_mask w))
      else scan_slow_words n' bm (i + 1)
  end.

(** The second loop starts at the number of pairs, not at the number of words already
    seen: it looks at the upper half of the bitmap a second time. *)
Definition iso_scan_zone_free_slot_slow (zi : Z) : M Z :=
  z ← zget zi;
  let max := Z.shiftr (max_bitmap_idx z) 1 in
  r ← scan_slow_pairs (Z.to_nat max) (bitmap_start z) 0;
  if negb (r =? BAD_BIT_SLOT) then mret r else
  scan_slow_words (Z.to_nat (max_bitmap_idx z - max)) (bitmap_start z) max.

(** [true] when the zone pointer itself is returned, [false] for NULL. *)
Definition is_zone_usable (zi size : Z) : M bool :=
  z ← zget zi;
  if is_full z then mret false else
  if STRONG_SIZE_ISOLATION && (negb (internal z) && negb (size =? chunk_size z)) then mret false else
  if (ZONE_1024 <? size) && (u64 (Z.shiftl size WASTED_SZ_MULTIPLIER_SHIFT) <=? chunk_size z) then mret false else
  if (size <=? ZONE_1024) && (ZONE_1024 <? chunk_size z) then mret false else
  if negb (next_free_bit_slot z =? BAD_BIT_SLOT) then mret true else
  zmod zi UNMASK_ZONE_PTRS;;
  z ← zget zi;
  (if free_bit_slots_index z <=? free_bit_slots_usable z then fill_free_bit_slots zi else mret tt);;
  bit_slot ← get_next_free_bit_slot zi;
  if negb (bit_slot =? BAD_BIT_SLOT) then
    zmod zi MASK_ZONE_PTRS;; mret true
  else
    bit_slot ← iso_scan_zone_free_slot zi;
    if bit_slot =? BAD_BIT_SLOT then
      bit_slot ← iso_scan_zone_free_slot_slow zi;
      zmod zi MASK_ZONE_PTRS;;
      if bit_slot =? BAD_BIT_SLOT then
        zmod zi (set_is_full true);; mret false
      else
        zmod zi (set_next_free_bit_slot bit_slot);; mret true
    else
      zmod zi (set_next_free_bit_slot bit_slot);;
      zmod zi MASK_ZONE_PTRS;;
      mret true.
End model.

(** ** The bitmap as a list of free slots *)

(** The free slots of word [i], and of [n] words from [lo] on, in increasing order. *)
Definition word_slots (m : gmap Z Z) (B i : Z) : list Z :=
  (λ b, 64 * i + b) <$> set_bits (free_mask (bm_word m B i)).
Definition free_slots_from (m : gmap Z Z) (B lo n : Z) : list Z :=
  concat (map (word_slots m B) (seqZ lo n)).

Lemma free_mask_range w : is_u64 (free_mask w).
Proof. apply is_u64_land; [apply u64_range|]. unfold USED_BIT_VECTOR. lia. Qed.
#[local] Hint Resolve free_mask_range : iso.

Lemma free_mask_spec w i : 0 <= i < 64 →
  Z.testbit (free_mask w) i = Z.even i && negb (Z.testbit w i).
Proof.
  intros Hi. unfold free_mask. rewrite Z.land_spec, USED_BIT_VECTOR_spec, u64_pow by lia.
  rewrite Z.mod_pow2_bits_low, Z.lnot_spec by lia.
  rewrite (proj2 (Z.ltb_lt i 64)) by lia. simpl. apply andb_comm.
Qed.

Lemma even_mod_64 s : Z.even (s mod 64) = Z.even s.
Proof.
  rewrite (Z.div_mod s 64) at 2 by lia. rewrite Z.even_add, Z.even_mul. simpl. by destruct (Z.even _).
Qed.

Lemma elem_of_word_slots m B i s :
  s ∈ word_slots m B i ↔ s / 64 = i ∧ Z.even s = true ∧ bm_bit m B s = false.
Proof.
  unfold word_slots, bm_bit. rewrite list_elem_of_fmap. split.
  - intros (b & -> & [Hb Ht]%elem_of_set_bits). rewrite free_mask_spec, andb_true_iff, negb_true_iff in Ht by lia.
    assert (Hd : (64 * i + b) / 64 = i) by (symmetry; apply (Z.div_unique _ _ _ b); lia).
    assert (Hm : (64 * i + b) mod 64 = b) by (symmetry; apply (Z.mod_unique _ _ i); lia).
    rewrite <-(even_mod_64 (_ + _)), Hd, Hm. tauto.
  - intros (<- & He & Hf). exists (s mod 64). pose proof (Z.div_mod s 64). pose proof (Z.mod_pos_bound s 64).
    split; [lia|]. apply elem_of_set_bits. split; [lia|]. rewrite free_mask_spec, even_mod_64, He, Hf by lia. done.
Qed.

Lemma NoDup_word_slots m B i : NoDup (word_slots m B i).
Proof. apply NoDup_fmap_2; [intros x y; lia|apply NoDup_set_bits]. Qed.

Lemma free_slots_from_cons m B lo n : 0 < n →
  free_slots_from m B lo n = word_slots m B lo ++ free_slots_from m B (lo + 1) (n - 1).
Proof.
  intros Hn. unfold free_slots_from. rewrite (seqZ_cons lo n) by lia. simpl.
  by rewrite <-Z.add_1_r, <-Z.sub_1_r.
Qed.

Lemma free_slots_from_nil m B lo n : n <= 0 → free_slots_from m B lo n = [].
Proof. intros Hn. unfold free_slots_from. by rewrite seqZ_nil. Qed.

Lemma elem_of_free_slots_from m B lo n s :
  s ∈ free_slots_from m B lo n ↔ lo <= s / 64 < lo + n ∧ Z.even s = true ∧ bm_bit m B s = false.
Proof.
  unfold free_slots_from. rewrite list_elem_of_In, in_concat. split.
  - intros (l & (i & <- & Hi)%in_map_iff & Hs). rewrite <-list_elem_of_In in *.
    apply elem_of_seqZ in Hi. apply elem_of_word_slots in Hs as (<- & ? & ?). done.
  - intros (Hr & He & Hf). exists (word_slots m B (s / 64)). split.
    + apply in_map_iff. exists (s / 64). split; [done|]. apply list_elem_of_In, elem_of_seqZ. lia.
    + apply list_elem_of_In, elem_of_word_slots. done.
Qed.

Lemma NoDup_free_slots_from m B lo n : NoDup (free_slots_from m B lo n).
Proof.
  destruct (Z.le_gt_cases n 0) as [Hn|Hn]; [rewrite free_slots_from_nil by done; constructor|].
  revert lo. pattern n. apply (Z.right_induction _ ltac:(solve_proper) 1); [..|lia].
  - intros lo. rewrite free_slots_from_cons, free_slots_from_nil, app_nil_r by lia. apply NoDup_word_slots.
  - clear n Hn. intros n Hn IH lo. rewrite free_slots_from_cons by lia.
    replace (Z.succ n - 1) with n by lia. apply list.NoDup_app. split_and!; [apply NoDup_word_slots| |apply IH].
    intros s (Hd & _)%elem_of_word_slots (Hr & _)%elem_of_free_slots_from. lia.
Qed.

(** ** The filling loops *)

(** The loop variables when the cache holds [l]. *)
Definition cache_of (l : list Z) : list Z := l ++ replicate (255 - length l) BAD_BIT_SLOT.
Definition cache_st (l : list Z) : list Z * Z := (cache_of l, Z.of_nat (length l)).

Lemma push_cache_st l v : (length l < 255)%nat → push (cache_st l) v = cache_st (l ++ [v]).
Proof.
  intros Hl. unfold push, cache_st, cache_of. simpl. rewrite Nat2Z.id, insert_app_replicate by lia.
  rewrite length_app. simpl. f_equal; [|lia]. by replace (255 - (length l + 1))%nat with (255 - length l - 1)%nat by lia.
Qed.

(** The prefix of [l ++ k] the cache has room for. *)
Lemma take_255_cons (l k : list Z) x : (length l < 255)%nat →
  take 255 (l ++ x :: k) = if 255 <=? Z.of_nat (length (l ++ [x])) then l ++ [x] else take 255 ((l ++ [x]) ++ k).
Proof.
  intros Hl. rewrite length_app. simpl. destruct (Z.leb_spec 255 (Z.of_nat (length l + 1))).
  - replace (l ++ x :: k) with ((l ++ [x]) ++ k) by by rewrite <-(assoc_L (++)).
    apply take_app_length_eq. rewrite length_app. simpl. lia.
  - by rewrite <-(assoc_L (++)).
Qed.

Lemma fill_zero_word_spec n shf z l : (length l < 255)%nat →
  fill_zero_word n shf z (cache_st l) =
  cache_st (take 255 (l ++ ((λ i, shf + (z + 2 * Z.of_nat i)) <$> seq 0 n))).
Proof.
  revert z l. induction n as [|n IH]; intros z l Hl.
  { simpl. rewrite app_nil_r, take_ge by lia. done. }
  cbn [fill_zero_word]. rewrite push_cache_st by done. cbn [seq fmap list_fmap].
  rewrite Z.mul_0_r, Z.add_0_r, take_255_cons by done. change ZONE_FREE_LIST_SZ with 255.
  cbn [snd cache_st]. destruct (Z.leb_spec 255 (Z.of_nat (length (l ++ [shf + z])))) as [|Hlt]; [done|].
  rewrite IH by lia. do 3 f_equal. rewrite <-fmap_S_seq, <-list_fmap_compose.
  apply list_fmap_ext. intros i x Hx. unfold compose. autounfold with conf. lia.
Qed.

Lemma fill_mask_word_spec fuel shf mask l :
  is_u64 mask → (length (set_bits mask) <= fuel)%nat → (length l < 255)%nat →
  fill_mask_word fuel shf mask (cache_st l) =
  cache_st (take 255 (l ++ ((λ b, shf + b) <$> set_bits mask))).
Proof.
  revert mask l. induction fuel as [|fuel IH]; intros mask l Hm Hf Hl.
  { destruct (set_bits mask); [|simpl in *; lia]. simpl. rewrite app_nil_r, take_ge by lia. done. }
  cbn [fill_mask_word]. destruct (Z.eqb_spec mask 0) as [->|Hne].
  { rewrite set_bits_0. simpl. rewrite app_nil_r, take_ge by lia. done. }
  assert (0 < mask) by (unfold is_u64 in *; lia).
  rewrite set_bits_cons in Hf |- * by done. simpl in Hf. rewrite push_cache_st by done.
  rewrite fmap_cons, take_255_cons by done. change ZONE_FREE_LIST_SZ with 255.
  cbn [snd cache_st]. destruct (Z.leb_spec 255 (Z.of_nat (length (l ++ [shf + builtin_ctzll mask])))) as [|Hlt]; [done|].
  rewrite IH by (try apply is_u64_land_pred; done || lia). done.
Qed.

Lemma length_set_bits x : (length (set_bits x) <= 64)%nat.
Proof.
  unfold set_bits. etrans; [apply filter_length_le|]. by rewrite length_seqZ.
Qed.

(** A word is read the same way by both loops: its free slots go into the cache. *)
Lemma fill_word_spec m B i l : (length l < 255)%nat →
  fill_word (bm_word m B i) (Z.shiftl i 6) (cache_st l) = cache_st (take 255 (l ++ word_slots m B i)).
Proof.
  intros Hl. unfold fill_word, word_slots. rewrite shiftl_6, (Z.mul_comm i).
  destruct (Z.eqb_spec (bm_word m B i) 0) as [->|].
  - by rewrite fill_zero_word_spec.
  - apply fill_mask_word_spec; [apply free_mask_range|apply length_set_bits|done].
Qed.

Lemma take_255_app (l k j : list Z) : take 255 (take 255 (l ++ k) ++ j) = take 255 (l ++ k ++ j).
Proof.
  rewrite (assoc_L (++)). destruct (decide (length (l ++ k) <= 255)%nat).
  - by rewrite (take_ge (l ++ k)) by done.
  - rewrite take_app_le by (rewrite length_take; lia). rewrite take_take.
    rewrite (take_app_le (l ++ k) j) by lia. done.
Qed.

Section loops.
Context `{!Kernel, !Config}.

Lemma fill_loop_spec fuel bm max i l w :
  mapped_rw (w_vm w) bm (8 * max) → 0 <= i → (Z.to_nat (max - i) < fuel)%nat → (length l <= 255)%nat →
  fill_loop fuel bm max i (cache_st l) w =
  Ret (cache_st (take 255 (l ++ free_slots_from (w_mem w) bm i (max - i)))) w.
Proof.
  intros Hm. revert i l. induction fuel as [|fuel IH]; intros i l Hi Hf Hl; [lia|]. cbn [fill_loop].
  change ZONE_FREE_LIST_SZ with 255. cbn [snd cache_st].
  destruct (Z.ltb_spec (Z.of_nat (length l)) 255).
  - destruct (Z.leb_spec max i).
    { rewrite free_slots_from_nil, app_nil_r, take_ge by lia. done. }
    unfold mbind, M_bind, rd64. rewrite can_access_mapped by (try eapply mapped_rw_sub; done || lia).
    change (ld64 (w_mem w) (bm + 8 * i)) with (bm_word (w_mem w) bm i).
    rewrite fill_word_spec by lia. rewrite IH by (rewrite ?length_take; lia).
    rewrite take_255_app, (free_slots_from_cons _ _ i) by lia.
    by replace (max - (i + 1)) with (max - i - 1) by lia.
  - rewrite take_app_length_eq by lia. done.
Qed.
End loops.

(** ** The shuffle *)

Lemma lookup_swap l i j k : (i < length l)%nat → (j < length l)%nat →
  swap l i j !! k = if decide (k = i) then l !! j else if decide (k = j) then l !! i else l !! k.
Proof.
  intros Hi Hj. unfold swap. rewrite !list_lookup_insert, length_insert.
  rewrite !nth_lookup. destruct (lookup_lt_is_Some_2 l i Hi) as [x Hx], (lookup_lt_is_Some_2 l j Hj) as [y Hy].
  rewrite Hx, Hy. simpl. repeat case_decide; subst; try done; naive_solver.
Qed.

Lemma swap_Permutation l i j : (i < length l)%nat → (j < length l)%nat → swap l i j ≡ₚ l.
Proof.
  intros Hi Hj. apply Permutation_inj. split; [unfold swap; by rewrite !length_insert|].
  exists (λ k, if decide (k = i) then j else if decide (k = j) then i else k). split.
  - intros a b. repeat case_decide; lia.
  - intros k. rewrite lookup_swap by done. by repeat case_decide.
Qed.

Lemma swap_app l t i j : (i < length l)%nat → (j < length l)%nat → swap (l ++ t) i j = swap l i j ++ t.
Proof.
  intros Hi Hj. unfold swap. rewrite !app_nth1 by done.
  by rewrite insert_app_l, insert_app_l by (rewrite ?length_insert; done).
Qed.

(** The position drawn for step [i] is below [i]. *)
Lemma shuffle_position r i : 0 < i → 0 <= Z.shiftr (u16 r * i) FREE_LIST_SHF < i.
Proof.
  intros Hi. pose proof (u16_range r). change FREE_LIST_SHF with 16. rewrite Z.shiftr_div_pow2 by lia.
  change (2 ^ 16) with 65536. split; [apply Z.div_pos; nia|]. apply Z.div_lt_upper_bound; nia.
Qed.

Section fill.
Context `{!Kernel, !KernelLaws, !Config}.

(** The world after drawing random numbers. *)
Definition rng (k : kst) (s : Z) (w : world) : world := set_w_k k (set_w_root (set_seed s (w_root w)) w).

Lemma rng_id w : rng (w_k w) (seed (w_root w)) w = w.
Proof. unfold rng, set_w_k, set_w_root, set_seed. destruct w as [??? ? []]. done. Qed.

Lemma shuffle_spec E i l t w Q :
  w_root_null w = false → (i < length l)%nat →
  (∀ l' s, l' ≡ₚ l → Q (l' ++ t) (rng (w_k w) s w)) →
  wp E (shuffle i (l ++ t)) Q w.
Proof.
  revert l w Q. induction i as [|i IH]; intros l w Q Hr Hi HQ; cbn [shuffle].
  { apply wp_ret. rewrite <-(rng_id w). by apply HQ. }
  apply wp_bind, wp_us_rand; [done|]. intros s v Hs Hv. cbv zeta.
  pose proof (shuffle_position v (Z.of_nat (S i)) ltac:(lia)) as Hj.
  rewrite swap_app by lia. apply IH; [done|unfold swap; rewrite !length_insert; lia|].
  intros l' s' Hp. apply (HQ l' s'). rewrite Hp. apply swap_Permutation; lia.
Qed.

Lemma zput_put zi z1 z2 w : zput_w zi z1 (zput_w zi z2 w) = zput_w zi z1 w.
Proof. unfold zput_w, set_w_zones. simpl. by rewrite insert_insert_eq. Qed.

(** The zone with a freshly filled cache. *)
Definition refilled (l : list Z) (z : iso_alloc_zone_t) : iso_alloc_zone_t :=
  set_free_bit_slots_index (Z.of_nat (length l))
    (set_free_bit_slots_usable 0 (set_free_bit_slots (cache_of l) z)).

(** What [fill_free_bit_slots] may leave in the cache: the first 255 free slots at or
    after some word of the bitmap, in some order; word 0 when the bitmap is small. *)
Definition filled (m : gmap Z Z) (z : iso_alloc_zone_t) (l : list Z) : Prop :=
  ∃ lo, 0 <= lo < max_bitmap_idx z ∧ (max_bitmap_idx z <= MIN_BITMAP_IDX → lo = 0) ∧
    l ≡ₚ take 255 (free_slots_from m (bitmap_start z) lo (max_bitmap_idx z - lo)).

Lemma wp_fill_free_bit_slots (E : failure → Prop) zi w Q :
  let z := zone_at w zi in
  page_ok w → w_root_null w = false → (∀ e, resource e → E e) →
  0 < max_bitmap_idx z → mapped_rw (w_vm w) (bitmap_start z) (8 * max_bitmap_idx z) →
  (∀ l k s, filled (w_mem w) z l → page_ok (set_w_k k w) →
     Q tt (zput_w zi (refilled l z) (rng k s w))) →
  wp E (fill_free_bit_slots zi) Q w.
Proof.
  intros z Hw Hr HE Hmax Hm HQ. unfold fill_free_bit_slots. do 2 wstep. fold z. wstep.
  apply wp_rand; [done..|]. intros v k Hv Hk. wstep. wstep. wstep.
  apply wp_post with (λ lo w', (0 <= lo < max_bitmap_idx z ∧ (max_bitmap_idx z <= MIN_BITMAP_IDX → lo = 0))
    ∧ ∃ s, w' = rng k s w).
  { destruct (Z.ltb_spec MIN_BITMAP_IDX (max_bitmap_idx z)) as [Hbig|Hsmall].
    - apply wp_bind, wp_us_rand; [done|]. intros s r _ _. apply wp_ret. split; [|by eexists].
      split; [|lia]. pose proof (u32_range r).
      assert (0 <= Z.land (u32 r) (max_bitmap_idx z - 1)) by (apply Z.land_nonneg; lia).
      pose proof (Z_land_le_r (u32 r) (max_bitmap_idx z - 1)). lia.
    - apply wp_ret. split; [lia|]. by eexists. }
  intros lo w1 [[Hlo Hlo0] [s1 ->]]. wstep. wstep. wstep.
  change (replicate _ _, 0) with (cache_st []).
  eapply wp_eq; [apply fill_loop_spec; simpl; try done; lia|]. cbv beta. simpl w_mem.
  set (l := take 255 _). cbn [cache_st]. wstep.
  apply wp_post with (λ fbs w', ∃ l' s, l' ≡ₚ l ∧ fbs = cache_of l' ∧
    w' = zput_w zi (set_free_bit_slots_usable 0 (set_free_bit_slots (cache_of []) z)) (rng k s w)).
  { destruct (RANDOMIZE_FREELIST && (MIN_RAND_FREELIST <? Z.of_nat (length l))) eqn:Hrand.
    - apply andb_true_iff in Hrand as [_ Hl%Z.ltb_lt]. change MIN_RAND_FREELIST with 4 in Hl.
      apply shuffle_spec; [done|lia|]. intros l' s Hp. exists l', s. split_and!; [done| |done].
      unfold cache_of. by rewrite (Permutation_length Hp).
    - apply wp_ret. by exists l, s1. }
  intros fbs w2 (l' & s2 & Hp & -> & ->). wstep. rewrite zone_at_put, zput_put.
  replace (Z.of_nat (length l)) with (Z.of_nat (length l')) by by rewrite (Permutation_length Hp).
  apply (HQ l' k s2); [|done]. exists lo. done.
Qed.
End fill.

(** ** Serving the cache *)

Definition popped (s : Z) (z : iso_alloc_zone_t) : iso_alloc_zone_t :=
  set_free_bit_slots_usable (free_bit_slots_usable z + 1)
    (set_free_bit_slots (<[Z.to_nat (free_bit_slots_usable z) := BAD_BIT_SLOT]> (free_bit_slots z))
      (set_next_free_bit_slot s z)).

Definition pushed (s : Z) (z : iso_alloc_zone_t) : iso_alloc_zone_t :=
  set_is_full false
    (set_free_bit_slots_index (free_bit_slots_index z + 1)
      (set_free_bit_slots (<[Z.to_nat (free_bit_slots_index z) := s]> (free_bit_slots z)) z)).

Lemma live_cache_lookup z i : length (free_bit_slots z) = 255%nat → free_bit_slots_index z <= 255 →
  0 <= free_bit_slots_usable z →
  live_cache z !! i = if decide (free_bit_slots_usable z + Z.of_nat i < free_bit_slots_index z)
    then free_bit_slots z !! (Z.to_nat (free_bit_slots_usable z) + i)%nat else None.
Proof.
  intros Hl Hi Hu. unfold live_cache. rewrite lookup_drop, lookup_take. repeat case_decide; done || lia.
Qed.

Section cache.
Variables (m : gmap Z Z) (B : Z) (z : iso_alloc_zone_t).

Hypothesis Hc : cache_ok m B z.

Lemma live_cache_nil : free_bit_slots_index z <= free_bit_slots_usable z → live_cache z = [].
Proof. intros Hi. unfold live_cache. apply drop_ge. rewrite length_take. lia. Qed.

Lemma live_cache_cons : free_bit_slots_usable z < free_bit_slots_index z →
  let s := nth (Z.to_nat (free_bit_slots_usable z)) (free_bit_slots z) 0 in
  live_cache z = s :: live_cache (popped s z).
Proof.
  intros Hi s. destruct Hc as [Hl Hidx _ _ _ _]. apply list_eq. intros [|i]; simpl lookup.
  - rewrite live_cache_lookup, decide_True by lia. rewrite Nat.add_0_r.
    unfold s. rewrite nth_lookup. destruct (lookup_lt_is_Some_2 (free_bit_slots z) (Z.to_nat (free_bit_slots_usable z))) as [x Hx]; [lia|].
    by rewrite Hx.
  - rewrite !live_cache_lookup by (simpl; rewrite ?length_insert; lia). simpl.
    rewrite list_lookup_insert_ne by lia. repeat case_decide; try lia; [|done]. f_equal. lia.
Qed.

Lemma live_cache_pushed s : free_bit_slots_index z < 255 → live_cache (pushed s z) = live_cache z ++ [s].
Proof.
  intros Hi. destruct Hc as [Hl Hidx _ _ _ _].
  assert (Hlen : length (live_cache z) = Z.to_nat (free_bit_slots_index z - free_bit_slots_usable z)).
  { unfold live_cache. rewrite length_drop, length_take. lia. }
  apply list_eq. intros i. rewrite live_cache_lookup by (simpl; rewrite ?length_insert; lia).
  simpl. destruct (decide (i < length (live_cache z))%nat).
  - rewrite lookup_app_l, live_cache_lookup by lia. rewrite list_lookup_insert_ne by lia.
    repeat case_decide; done || lia.
  - rewrite lookup_app_r by lia. destruct (decide (i = length (live_cache z))) as [->|].
    + rewrite Nat.sub_diag, decide_True by lia. simpl.
      replace (Z.to_nat (free_bit_slots_usable z) + length (live_cache z))%nat with (Z.to_nat (free_bit_slots_index z)) by lia.
      by rewrite list_lookup_insert_eq by lia.
    + rewrite decide_False by lia. symmetry. apply lookup_ge_None_2. simpl. lia.
Qed.

(** The cache invariant is preserved by serving a slot, ... *)
Lemma cache_ok_popped : free_bit_slots_usable z < free_bit_slots_index z →
  let s := nth (Z.to_nat (free_bit_slots_usable z)) (free_bit_slots z) 0 in
  is_full z = false → cache_ok m B (popped s z) ∧ free_slot m B z s.
Proof.
  intros Hi s Hf. pose proof (live_cache_cons Hi) as Hl. fold s in Hl. cbv zeta in Hl.
  destruct Hc as [Hlen Hidx Htail Hfree Hnd Hnext Hfull].
  rewrite Hl in Hfree, Hnd. apply list.Forall_cons in Hfree as [Hs Hfree]. apply list.NoDup_cons in Hnd as [Hni Hnd].
  split; [|done]. constructor; simpl; try done.
  - by rewrite length_insert.
  - lia.
  - intros i Hr. rewrite nth_lookup, list_lookup_insert_ne, <-nth_lookup by lia. by apply Htail.
  - right. done.
Qed.

(** ... by returning one, ... *)
Lemma cache_ok_pushed s : free_bit_slots_index z < 255 → free_slot m B z s →
  s ∉ live_cache z → s ≠ next_free_bit_slot z → cache_ok m B (pushed s z).
Proof.
  intros Hi Hs Hni Hnx. pose proof (live_cache_pushed s Hi) as Hl.
  destruct Hc as [Hlen Hidx Htail Hfree Hnd Hnext Hfull]. constructor; rewrite ?Hl; simpl; try done.
  - by rewrite length_insert.
  - lia.
  - intros i Hr. rewrite nth_lookup, list_lookup_insert_ne, <-nth_lookup by lia. apply Htail. lia.
  - apply list.Forall_app. split; [done|]. by constructor.
  - apply list.NoDup_app. split_and!; [done| |apply NoDup_singleton].
    intros x Hx ->%list_elem_of_singleton. done.
  - destruct Hnext as [|[Hn1 Hn2]]; [by left|right]. split; [done|].
    rewrite elem_of_app, list_elem_of_singleton. naive_solver.
Qed.

(** ... and by refilling. *)
Lemma cache_ok_refilled l : is_full z = false → next_free_bit_slot z = BAD_BIT_SLOT →
  bitmap_start z = B → filled m z l → cache_ok m B (refilled l z) ∧ live_cache (refilled l z) = l.
Proof using Type.
  intros Hf Hn HB (lo & Hlo & _ & Hp). rewrite HB in Hp.
  assert (Hlen : (length l <= 255)%nat) by (rewrite (Permutation_length Hp), length_take; lia).
  assert (Hll : live_cache (refilled l z) = l).
  { unfold live_cache, refilled, cache_of. simpl. rewrite Nat2Z.id, drop_0. by apply take_app_length_eq. }
  split; [|done]. constructor; rewrite ?Hll; simpl; try (done || lia).
  - unfold cache_of. rewrite length_app, length_replicate. lia.
  - intros i Hr. unfold cache_of. rewrite app_nth2 by lia.
    rewrite nth_lookup, lookup_replicate_2 by lia. done.
  - apply list.Forall_forall. intros s Hs. rewrite Hp in Hs.
    assert (Hin : s ∈ free_slots_from m B lo (max_bitmap_idx z - lo)) 
      by (rewrite <-(take_drop 255 (free_slots_from _ _ _ _)), elem_of_app; by left).
    apply elem_of_free_slots_from in Hin as (Hr & He & Hb). split; [|done].
    pose proof (Z.div_mod s 64). pose proof (Z.mod_pos_bound s 64). simpl. lia.
  - rewrite Hp. eapply sublist_NoDup; [apply NoDup_free_slots_from|apply sublist_take].
  - by rewrite Hf.
Qed.
End cache.

(** ** The bitmap scans *)

Definition first_or_bad (l : list Z) : Z := default BAD_BIT_SLOT (head l).

Lemma word_slots_nil m B i : free_mask (bm_word m B i) = 0 → word_slots m B i = [].
Proof. intros Hf. unfold word_slots. by rewrite Hf, set_bits_0. Qed.

Lemma word_slots_cons m B i : free_mask (bm_word m B i) ≠ 0 →
  ∃ t, word_slots m B i = 64 * i + builtin_ctzll (free_mask (bm_word m B i)) :: t.
Proof.
  intros Hf. pose proof (free_mask_range (bm_word m B i)). unfold word_slots.
  rewrite set_bits_cons by (unfold is_u64 in *; lia). rewrite fmap_cons. by eexists.
Qed.

Section scans.
Context `{!Kernel, !Config}.

Lemma rd_bm_word bm i max w : mapped_rw (w_vm w) bm (8 * max) → 0 <= i < max →
  rd64 (bm + 8 * i) w = Ret (bm_word (w_mem w) bm i) w.
Proof.
  intros Hm Hi. unfold rd64. by rewrite can_access_mapped by (try eapply mapped_rw_sub; done || lia).
Qed.

Lemma scan_slow_words_spec n bm i max w : mapped_rw (w_vm w) bm (8 * max) → 0 <= i → i + Z.of_nat n <= max →
  scan_slow_words n bm i w = Ret (first_or_bad (free_slots_from (w_mem w) bm i (Z.of_nat n))) w.
Proof.
  intros Hm. revert i. induction n as [|n IH]; intros i Hi Hn; cbn [scan_slow_words].
  { by rewrite free_slots_from_nil. }
  unfold mbind, M_bind. erewrite rd_bm_word by (done || lia).
  rewrite free_slots_from_cons by lia.
  destruct (Z.eqb_spec (free_mask (bm_word (w_mem w) bm i)) 0) as [Heq|Hne]; cbn [negb].
  - rewrite word_slots_nil by done. rewrite IH by lia. simpl app. do 3 f_equal. lia.
  - destruct (word_slots_cons _ _ _ Hne) as [t ->]. rewrite shiftl_6, Z.mul_comm. done.
Qed.

Lemma scan_slow_pairs_spec n bm i max w : mapped_rw (w_vm w) bm (8 * max) → 0 <= i → 2 * (i + Z.of_nat n) <= max →
  scan_slow_pairs n bm i w = Ret (first_or_bad (free_slots_from (w_mem w) bm (2 * i) (2 * Z.of_nat n))) w.
Proof.
  intros Hm. revert i. induction n as [|n IH]; intros i Hi Hn; cbn [scan_slow_pairs].
  { by rewrite free_slots_from_nil. }
  unfold mbind, M_bind. replace (bm + 16 * i) with (bm + 8 * (2 * i)) by lia.
  replace (bm + 8 * (2 * i) + 8) with (bm + 8 * (2 * i + 1)) by lia.
  erewrite rd_bm_word by (done || lia). cbv zeta. rewrite Z.shiftl_mul_pow2 by lia. change (2 ^ 7) with 128.
  rewrite free_slots_from_cons by lia.
  destruct (Z.eqb_spec (free_mask (bm_word (w_mem w) bm (2 * i))) 0) as [Heq|Hne]; cbn [negb].
  2: { destruct (word_slots_cons _ _ _ Hne) as [t ->]. unfold first_or_bad. simpl head. unfold mret, M_ret. simpl default. f_equal. lia. }
  rewrite word_slots_nil by done. erewrite rd_bm_word by (done || lia). simpl app.
  rewrite free_slots_from_cons by lia.
  destruct (Z.eqb_spec (free_mask (bm_word (w_mem w) bm (2 * i + 1))) 0) as [Heq'|Hne]; cbn [negb].
  - rewrite word_slots_nil by done. rewrite IH by lia. simpl app. do 3 f_equal; lia.
  - destruct (word_slots_cons _ _ _ Hne) as [t ->]. unfold first_or_bad. simpl head. unfold mret, M_ret. simpl default. f_equal. lia.
Qed.

Lemma free_slots_from_app m B lo a b : 0 <= a → 0 <= b →
  free_slots_from m B lo (a + b) = free_slots_from m B lo a ++ free_slots_from m B (lo + a) b.
Proof. intros Ha Hb. unfold free_slots_from. by rewrite seqZ_app, map_app, concat_app by lia. Qed.

Lemma scan_slow_eq zi w :
  let z := zone_at w zi in
  0 < max_bitmap_idx z → mapped_rw (w_vm w) (bitmap_start z) (8 * max_bitmap_idx z) →
  iso_scan_zone_free_slot_slow zi w =
  Ret (first_or_bad (free_slots_from (w_mem w) (bitmap_start z) 0 (max_bitmap_idx z))) w.
Proof.
  intros z Hmax Hm. unfold iso_scan_zone_free_slot_slow, mbind, M_bind, zget. fold z.
  rewrite Z.shiftr_div_pow2 by lia. change (2 ^ 1) with 2. cbv zeta. set (h := max_bitmap_idx z / 2).
  assert (Hh : 0 <= h ∧ 2 * h <= max_bitmap_idx z < 2 * h + 2).
  { unfold h. pose proof (Z.div_mod (max_bitmap_idx z) 2). pose proof (Z.mod_pos_bound (max_bitmap_idx z) 2). lia. }
  erewrite scan_slow_pairs_spec by (done || lia). rewrite Z2Nat.id, Z.mul_0_r by lia.
  replace (max_bitmap_idx z) with (2 * h + (max_bitmap_idx z - 2 * h)) at 2 by lia.
  rewrite free_slots_from_app, Z.add_0_l by lia.
  destruct (free_slots_from (w_mem w) (bitmap_start z) 0 (2 * h)) as [|s t] eqn:Hf.
  - simpl app. cbn [first_or_bad head default]. rewrite Z.eqb_refl. cbn [negb].
    erewrite scan_slow_words_spec by (done || lia). rewrite Z2Nat.id by lia.
    replace (max_bitmap_idx z - h) with (h + (max_bitmap_idx z - 2 * h)) by lia.
    rewrite free_slots_from_app by lia. replace (h + h) with (2 * h) by lia.
    destruct (free_slots_from (w_mem w) (bitmap_start z) h h) as [|s t] eqn:Hf2; [done|].
    exfalso. assert (Hs : s ∈ free_slots_from (w_mem w) (bitmap_start z) h h) by (rewrite Hf2; left).
    assert (Hs' : s ∈ free_slots_from (w_mem w) (bitmap_start z) 0 (2 * h)).
    { apply elem_of_free_slots_from in Hs. apply elem_of_free_slots_from. split; [lia|apply Hs]. }
    rewrite Hf in Hs'. by apply not_elem_of_nil in Hs'.
  - assert (Hs : s ∈ free_slots_from (w_mem w) (bitmap_start z) 0 (2 * h)) by (rewrite Hf; left).
    apply elem_of_free_slots_from in Hs as (Hr & _). unfold first_or_bad. simpl.
    destruct (Z.eqb_spec s BAD_BIT_SLOT) as [->|]; [|done]. exfalso. change (BAD_BIT_SLOT / 64) with (-1) in Hr. lia.
Qed.

Lemma scan_fast_spec n bm i max w : mapped_rw (w_vm w) bm (8 * max) → 0 <= i → 2 * (i + Z.of_nat n) <= max →
  ∃ r, scan_pairs n bm i w = Ret r w ∧
    (r = BAD_BIT_SLOT ∨ ∃ j, i <= j < i + Z.of_nat n ∧ r = 128 * j ∧
       bm_word (w_mem w) bm (2 * j) = 0 ∧ bm_word (w_mem w) bm (2 * j + 1) = 0).
Proof.
  intros Hm. revert i. induction n as [|n IH]; intros i Hi Hn; cbn [scan_pairs].
  { eexists. split; [done|]. by left. }
  unfold mbind, M_bind. replace (bm + 16 * i) with (bm + 8 * (2 * i)) by lia.
  replace (bm + 8 * (2 * i) + 8) with (bm + 8 * (2 * i + 1)) by lia.
  do 2 erewrite rd_bm_word by (done || lia).
  destruct (_ && _) eqn:Hz.
  - apply andb_true_iff in Hz as [H1%Z.eqb_eq H2%Z.eqb_eq]. eexists. split; [done|]. right.
    exists i. rewrite Z.shiftl_mul_pow2 by lia. split_and!; done || lia.
  - destruct (IH (i + 1)) as (r & -> & Hr); [lia..|]. exists r. split; [done|].
    destruct Hr as [|(j & Hj & Hrest)]; [by left|right]. exists j. split; [lia|done].
Qed.
End scans.


(** The first free slot is the least one. *)
Lemma first_free_least m B n : ∀ lo s x,
  head (free_slots_from m B lo (Z.of_nat n)) = Some s → x ∈ free_slots_from m B lo (Z.of_nat n) → s <= x.
Proof.
  induction n as [|n IH]; intros lo s x; [by rewrite free_slots_from_nil|].
  rewrite free_slots_from_cons by lia. replace (Z.of_nat (S n) - 1) with (Z.of_nat n) by lia.
  destruct (decide (free_mask (bm_word m B lo) = 0)) as [Heq|Hne]; [rewrite word_slots_nil by done; apply IH|].
  destruct (word_slots_cons m B lo Hne) as [t Ht]. intros Hh. rewrite Ht in Hh. simpl in Hh. injection Hh as <-.
  pose proof (free_mask_range (bm_word m B lo)) as Hu.
  pose proof (builtin_ctzll_lt (free_mask (bm_word m B lo)) 64 ltac:(lia) ltac:(unfold is_u64 in *; lia)).
  rewrite elem_of_app. unfold word_slots. rewrite list_elem_of_fmap.
  intros [(b & -> & [Hb Ht']%elem_of_set_bits)|(Hr & _)%elem_of_free_slots_from].
  - destruct (Z.lt_ge_cases b (builtin_ctzll (free_mask (bm_word m B lo)))); [|lia].
    rewrite builtin_ctzll_low in Ht' by (unfold is_u64 in *; lia). done.
  - pose proof (Z.div_mod x 64). pose proof (Z.mod_pos_bound x 64). lia.
Qed.

Lemma free_slot_list m B z s :
  free_slot m B z s ↔ s ∈ free_slots_from m B 0 (max_bitmap_idx z).
Proof.
  unfold free_slot. rewrite elem_of_free_slots_from.
  assert (0 <= s < 64 * max_bitmap_idx z ↔ 0 <= s / 64 < 0 + max_bitmap_idx z); [|tauto].
  pose proof (Z.div_mod s 64). pose proof (Z.mod_pos_bound s 64). lia.
Qed.

(** ** A zone whose cache changed *)

Definition with_cache (n u i : Z) (f : bool) (l : list Z) (z : iso_alloc_zone_t) : iso_alloc_zone_t :=
  set_next_free_bit_slot n (set_free_bit_slots_usable u (set_free_bit_slots_index i
    (set_is_full f (set_free_bit_slots l z)))).

(** [z'] differs from [z] in its cache, its next slot and its [is_full] flag only. *)
Definition same_but_cache (z z' : iso_alloc_zone_t) : Prop :=
  ∃ n u i f l, z' = with_cache n u i f l z.

Lemma same_but_cache_refl z : same_but_cache z z.
Proof.
  exists (next_free_bit_slot z), (free_bit_slots_usable z), (free_bit_slots_index z), (is_full z), (free_bit_slots z).
  by destruct z.
Qed.

Lemma same_but_cache_trans x y z : same_but_cache x y → same_but_cache y z → same_but_cache x z.
Proof. intros (? & ? & ? & ? & ? & ->) (n & u & i & f & l & ->). by exists n, u, i, f, l. Qed.

Lemma same_but_cache_refilled l z : same_but_cache z (refilled l z).
Proof. exists (next_free_bit_slot z), 0, (Z.of_nat (length l)), (is_full z), (cache_of l). by destruct z. Qed.
Lemma same_but_cache_popped s z : same_but_cache z (popped s z).
Proof. exists s, (free_bit_slots_usable z + 1), (free_bit_slots_index z), (is_full z),
  (<[Z.to_nat (free_bit_slots_usable z) := BAD_BIT_SLOT]> (free_bit_slots z)). by destruct z. Qed.
Lemma same_but_cache_next s z : same_but_cache z (set_next_free_bit_slot s z).
Proof. exists s, (free_bit_slots_usable z), (free_bit_slots_index z), (is_full z), (free_bit_slots z). by destruct z. Qed.
Lemma same_but_cache_full b z : same_but_cache z (set_is_full b z).
Proof. exists (next_free_bit_slot z), (free_bit_slots_usable z), (free_bit_slots_index z), b, (free_bit_slots z). by destruct z. Qed.
#[local] Hint Resolve same_but_cache_refl same_but_cache_refilled same_but_cache_popped
  same_but_cache_next same_but_cache_full : iso.

Section usable.
Context `{!Kernel, !KernelLaws, !Config}.

(** The guards of [is_zone_usable] that do not depend on the zone's fill. *)
Definition size_fits (z : iso_alloc_zone_t) (size : Z) : bool :=
  negb (STRONG_SIZE_ISOLATION && (negb (internal z) && negb (size =? chunk_size z))) &&
  negb ((ZONE_1024 <? size) && (u64 (Z.shiftl size WASTED_SZ_MULTIPLIER_SHIFT) <=? chunk_size z)) &&
  negb ((size <=? ZONE_1024) && (ZONE_1024 <? chunk_size z)).

Lemma zinv_same_but_cache vm m U B z z' :
  zinv vm m U B z → same_but_cache z z' → cache_ok m B z' → zinv vm m U B z'.
Proof.
  intros [[????? ] [? ? ? ? ?] _ Hcan Hsec Haf] (n & u & i & f & l & ->) Hc.
  constructor; try done; by constructor.
Qed.

Lemma mask_around z y :
  same_but_cache (UNMASK_ZONE_PTRS z) y → same_but_cache z (MASK_ZONE_PTRS y).
Proof.
  intros (n & u & i & f & l & ->). exists n, u, i, f, l. rewrite <-(mask_unmask z) at 2. done.
Qed.

(** The answer of [is_zone_usable] and the zone it leaves. *)
Record usable_post (vm : list vma) (m : gmap Z Z) (size : Z) (z : iso_alloc_zone_t) (b : bool) (z' : iso_alloc_zone_t) : Prop := {
  up_same : same_but_cache z z';
  up_inv : zone_inv vm m z';
  up_iff : b = true ↔ size_fits z size = true ∧ ∃ s, free_slot m (UNMASK_BITMAP_PTR z) z s;
  up_next : b = true → free_slot m (UNMASK_BITMAP_PTR z) z (next_free_bit_slot z');
}.

Lemma zone_inv_same_but_cache vm m z z' :
  zone_inv vm m z → same_but_cache z z' → cache_ok m (UNMASK_BITMAP_PTR z) z' → zone_inv vm m z'.
Proof.
  intros Hi Hs Hc. assert (Hz : zinv vm m (UNMASK_USER_PTR z) (UNMASK_BITMAP_PTR z) z')
    by by eapply zinv_same_but_cache. destruct Hs as (? & ? & ? & ? & ? & ->). done.
Qed.

Lemma usable_yes vm m size z z' :
  zone_inv vm m z → size_fits z size = true → same_but_cache z z' →
  cache_ok m (UNMASK_BITMAP_PTR z) z' → next_free_bit_slot z' ≠ BAD_BIT_SLOT →
  usable_post vm m size z true z'.
Proof.
  intros Hi Hf Hs Hc Hn. assert (free_slot m (UNMASK_BITMAP_PTR z) z (next_free_bit_slot z')).
  { destruct (co_next _ _ _ Hc) as [|[Hfree _]]; [done|].
    destruct Hs as (? & ? & ? & ? & ? & ->). exact Hfree. }
  constructor; try done; [by eapply zone_inv_same_but_cache|]. split; [|done]. intros _. split; [done|by eexists].
Qed.

Lemma usable_no vm m size z z' :
  zone_inv vm m z → same_but_cache z z' → cache_ok m (UNMASK_BITMAP_PTR z) z' →
  size_fits z size = false ∨ is_full z' = true → usable_post vm m size z false z'.
Proof.
  intros Hi Hs Hc Hwhy. constructor; try done; [by eapply zone_inv_same_but_cache|]. split; [done|].
  intros [Hf [s Hfree]]. destruct Hwhy as [|Hfull]; [congruence|].
  destruct (proj2 (co_full _ _ _ Hc Hfull) s). destruct Hs as (? & ? & ? & ? & ? & ->). exact Hfree.
Qed.

(** A cache that served nothing and a bitmap scan. *)
Lemma cache_ok_scanned m B z n : cache_ok m B z → live_cache z = [] → is_full z = false → free_slot m B z n →
  cache_ok m B (set_next_free_bit_slot n z).
Proof.
  intros [Hlen Hidx Htail Hfree Hnd Hnext Hfull] Hl Hf Hn. constructor; simpl; try done.
  change (live_cache (set_next_free_bit_slot n z)) with (live_cache z). right. rewrite Hl. split; [done|apply not_elem_of_nil].
Qed.

Lemma cache_ok_full m B z : cache_ok m B z → free_bit_slots_index z = 0 → (∀ s, ¬ free_slot m B z s) →
  cache_ok m B (set_is_full true z).
Proof. intros [Hlen Hidx Htail Hfree Hnd Hnext Hfull] Hi Hn. by constructor. Qed.

Lemma free_slot_not_bad m B z s : free_slot m B z s → s ≠ BAD_BIT_SLOT.
Proof. intros (Hr & _) ->. change BAD_BIT_SLOT with (-1) in Hr. lia. Qed.

Lemma scan_fast_free m B z j : 0 <= j < Z.shiftr (max_bitmap_idx z) 1 →
  bm_word m B (2 * j) = 0 → free_slot m B z (128 * j).
Proof.
  intros Hj Hw. rewrite Z.shiftr_div_pow2 in Hj by lia. change (2 ^ 1) with 2 in Hj.
  pose proof (Z.mul_div_le (max_bitmap_idx z) 2). split_and!; [lia|lia| |].
  - by rewrite Z.even_mul.
  - unfold bm_bit. replace (128 * j / 64) with (2 * j) by (apply (Z.div_unique _ _ _ 0); lia).
    by rewrite Hw, Z.testbit_0_l.
Qed.

Lemma get_next_eq zi w m B :
  let z := zone_at w zi in
  let s := nth (Z.to_nat (free_bit_slots_usable z)) (free_bit_slots z) 0 in
  cache_ok m B z →
  get_next_free_bit_slot zi w =
  if free_bit_slots_usable z <? free_bit_slots_index z then Ret s (zput_w zi (popped s z) w) else Ret BAD_BIT_SLOT w.
Proof.
  intros z s Hc. pose proof (co_idx _ _ _ Hc). unfold get_next_free_bit_slot, mbind, M_bind, zget. fold z.
  change ZONE_FREE_LIST_SZ with 255. rewrite Z.ltb_antisym.
  destruct (Z.leb_spec (free_bit_slots_index z) (free_bit_slots_usable z)); [by rewrite orb_true_r|].
  rewrite (proj2 (Z.leb_gt 255 _)) by lia. done.
Qed.

(** The part of [is_zone_usable] after the cache failed. *)
Lemma wp_scan_tail E zi w B Q :
  let y := zone_at w zi in
  cache_ok (w_mem w) B y → free_bit_slots_index y = 0 → is_full y = false → bitmap_start y = B →
  0 < max_bitmap_idx y → mapped_rw (w_vm w) B (8 * max_bitmap_idx y) →
  (∀ n, free_slot (w_mem w) B y n → Q true (zput_w zi (MASK_ZONE_PTRS (set_next_free_bit_slot n y)) w)) →
  ((∀ s, ¬ free_slot (w_mem w) B y s) → Q false (zput_w zi (MASK_ZONE_PTRS (set_is_full true y)) w)) →
  wp E (bit_slot ← iso_scan_zone_free_slot zi;
    if bit_slot =? BAD_BIT_SLOT then
      bit_slot ← iso_scan_zone_free_slot_slow zi;
      zmod zi MASK_ZONE_PTRS;;
      if bit_slot =? BAD_BIT_SLOT then zmod zi (set_is_full true);; mret false
      else zmod zi (set_next_free_bit_slot bit_slot);; mret true
    else
      zmod zi (set_next_free_bit_slot bit_slot);; zmod zi MASK_ZONE_PTRS;; mret true) Q w.
Proof.
  intros y Hc Hi Hf HB Hmax Hm HQ1 HQ2. wstep. unfold iso_scan_zone_free_slot. do 2 wstep. fold y. rewrite HB.
  assert (0 <= Z.shiftr (max_bitmap_idx y) 1) by (apply Z.shiftr_nonneg; lia).
  assert (2 * Z.shiftr (max_bitmap_idx y) 1 <= max_bitmap_idx y).
  { rewrite Z.shiftr_div_pow2 by lia. apply Z.mul_div_le. lia. }
  destruct (scan_fast_spec (Z.to_nat (Z.shiftr (max_bitmap_idx y) 1)) B 0 (max_bitmap_idx y) w)
    as (r & Hr & Hres); [done|lia|lia|]. eapply wp_eq; [exact Hr|]. cbv beta.
  destruct (Z.eqb_spec r BAD_BIT_SLOT) as [->|Hne].
  - wstep. subst B. eapply wp_eq; [by apply scan_slow_eq|]. cbv beta. fold y. do 2 wstep.
    destruct (free_slots_from (w_mem w) (bitmap_start y) 0 (max_bitmap_idx y)) as [|s t] eqn:Hl.
    + cbn [first_or_bad head default]. rewrite Z.eqb_refl. wsteps. rewrite zone_at_put, zput_put.
      apply HQ2. intros s Hs%free_slot_list. rewrite Hl in Hs. by apply not_elem_of_nil in Hs.
    + assert (Hs : free_slot (w_mem w) (bitmap_start y) y s) by (apply free_slot_list; rewrite Hl; left).
      change (first_or_bad (s :: t)) with s. rewrite (proj2 (Z.eqb_neq s _)) by by eapply free_slot_not_bad.
      wsteps. rewrite zone_at_put, zput_put. exact (HQ1 s Hs).
  - destruct Hres as [|(j & Hj & -> & Hz & _)]; [done|]. wsteps. rewrite zone_at_put, zput_put. fold y.
    apply HQ1, scan_fast_free; [lia|done].
Qed.

Lemma mask_cache_ok m B z : cache_ok m B z → cache_ok m B (MASK_ZONE_PTRS z).
Proof. intros []. by constructor. Qed.

(** The cache is filled when it is empty. *)
Lemma wp_refill (E : failure → Prop) zi w B Q :
  let y := zone_at w zi in
  page_ok w → w_root_null w = false → (∀ e, resource e → E e) →
  cache_ok (w_mem w) B y → is_full y = false → next_free_bit_slot y = BAD_BIT_SLOT → bitmap_start y = B →
  0 < max_bitmap_idx y → mapped_rw (w_vm w) B (8 * max_bitmap_idx y) → w_zones w !! zi = Some y →
  (∀ y' k s, same_but_cache y y' → cache_ok (w_mem w) B y' → is_full y' = false →
     free_bit_slots_usable y' < free_bit_slots_index y' ∨ free_bit_slots_index y' = 0 →
     page_ok (set_w_k k w) → Q tt (zput_w zi y' (rng k s w))) →
  wp E (if free_bit_slots_index y <=? free_bit_slots_usable y then fill_free_bit_slots zi else mret tt) Q w.
Proof.
  intros y Hw Hr HE Hc Hf Hn HB Hmax Hm Hz HQ. destruct (Z.leb_spec (free_bit_slots_index y) (free_bit_slots_usable y)).
  - apply wp_fill_free_bit_slots; fold y; try done; [by rewrite HB|]. intros l k s Hl Hk.
    destruct (cache_ok_refilled (w_mem w) B y l) as [Hc' Hlive]; [done..|].
    apply HQ; auto with iso. unfold refilled. simpl. lia.
  - apply wp_ret. rewrite <-(rng_id w) at 1.
    replace (rng (w_k w) (seed (w_root w)) w) with (zput_w zi y (rng (w_k w) (seed (w_root w)) w)).
    + apply HQ; auto with iso lia.
    + rewrite rng_id. unfold zput_w, set_w_zones. rewrite insert_id by done. by destruct w.
Qed.

Lemma zput_rng_id zi z w : w_zones w !! zi = Some z → zput_w zi z (rng (w_k w) (seed (w_root w)) w) = w.
Proof. intros Hz. rewrite rng_id. unfold zput_w, set_w_zones. rewrite insert_id by done. by destruct w. Qed.

Lemma zput_id zi z w : w_zones w !! zi = Some z → zput_w zi z w = w.
Proof. intros Hz. rewrite <-(zput_rng_id zi z w Hz) at 2. by rewrite rng_id. Qed.

Lemma zone_at_Some w zi z : w_zones w !! zi = Some z → zone_at w zi = z.
Proof. intros Hz. unfold zone_at. by rewrite Hz. Qed.

(** Serving from the cache, else from the bitmap. *)
Lemma wp_serve E zi w B Q :
  let y := zone_at w zi in
  cache_ok (w_mem w) B y → is_full y = false → bitmap_start y = B →
  0 < max_bitmap_idx y → mapped_rw (w_vm w) B (8 * max_bitmap_idx y) →
  free_bit_slots_usable y < free_bit_slots_index y ∨ free_bit_slots_index y = 0 →
  (∀ x, same_but_cache y x → cache_ok (w_mem w) B x → next_free_bit_slot x ≠ BAD_BIT_SLOT →
     Q true (zput_w zi (MASK_ZONE_PTRS x) w)) →
  (∀ x, same_but_cache y x → cache_ok (w_mem w) B x → is_full x = true →
     Q false (zput_w zi (MASK_ZONE_PTRS x) w)) →
  wp E (bit_slot ← get_next_free_bit_slot zi;
    if negb (bit_slot =? BAD_BIT_SLOT) then zmod zi MASK_ZONE_PTRS;; mret true else
    bit_slot ← iso_scan_zone_free_slot zi;
    if bit_slot =? BAD_BIT_SLOT then
      bit_slot ← iso_scan_zone_free_slot_slow zi;
      zmod zi MASK_ZONE_PTRS;;
      if bit_slot =? BAD_BIT_SLOT then zmod zi (set_is_full true);; mret false
      else zmod zi (set_next_free_bit_slot bit_slot);; mret true
    else
      zmod zi (set_next_free_bit_slot bit_slot);; zmod zi MASK_ZONE_PTRS;; mret true) Q w.
Proof.
  intros y Hc Hf HB Hmax Hm Hor HQ1 HQ2. apply wp_bind. unfold wp at 1. rewrite (get_next_eq _ _ _ _ Hc). fold y.
  destruct (Z.ltb_spec (free_bit_slots_usable y) (free_bit_slots_index y)) as [Hlt|Hge].
  - destruct (cache_ok_popped _ _ _ Hc Hlt Hf) as [Hc' Hs]. cbv zeta in *. set (s := nth _ _ 0) in *.
    pose proof (free_slot_not_bad _ _ _ _ Hs). rewrite (proj2 (Z.eqb_neq s _)) by done. cbn [negb]. wsteps.
    rewrite zone_at_put, zput_put. by apply HQ1; auto with iso.
  - rewrite Z.eqb_refl. cbn [negb]. assert (Hi : free_bit_slots_index y = 0) by lia.
    apply (wp_scan_tail E zi w B); try done.
    + intros n Hn. apply HQ1; auto with iso; [|by eapply free_slot_not_bad].
      apply cache_ok_scanned; try done. by apply live_cache_nil.
    + intros Hno. apply HQ2; auto with iso. by apply cache_ok_full.
Qed.

Lemma wp_is_zone_usable (E : failure → Prop) zi size z w Q :
  w_zones w !! zi = Some z → page_ok w → w_root_null w = false → (∀ e, resource e → E e) →
  zone_inv (w_vm w) (w_mem w) z →
  (∀ b z' k s, usable_post (w_vm w) (w_mem w) size z b z' → page_ok (set_w_k k w) →
     Q b (zput_w zi z' (rng k s w))) →
  wp E (is_zone_usable zi size) Q w.
Proof.
  intros Hz Hw Hr HE Hinv HQ. unfold is_zone_usable. do 2 wstep. rewrite (zone_at_Some w zi z Hz).
  pose proof (zinv_cache _ _ _ _ _ Hinv) as Hc.
  pose proof (zone_max_idx _ (zinv_geom _ _ _ _ _ Hinv)) as [Hmax _].
  pose proof (zm_bitmap_rw _ _ _ _ (zinv_mapped _ _ _ _ _ Hinv)) as Hm.
  assert (Hstay : ∀ b, usable_post (w_vm w) (w_mem w) size z b z → Q b w).
  { intros b Hp. rewrite <-(zput_rng_id zi z w Hz). apply HQ; [done|by destruct w]. }
  destruct (is_full z) eqn:Hf; [apply Hstay, usable_no; auto with iso|].
  destruct (size_fits z size) eqn:Hfits.
  2: { assert (Hno : Q false w) by (apply Hstay, usable_no; auto with iso). unfold size_fits in Hfits.
    do 2 (case_match; [by apply wp_ret|]). case_match; [by apply wp_ret|]. done. }
  pose proof Hfits as ((Hg1%negb_true_iff & Hg2%negb_true_iff)%andb_true_iff & Hg3%negb_true_iff)%andb_true_iff.
  rewrite Hg1, Hg2, Hg3. destruct (Z.eqb_spec (next_free_bit_slot z) BAD_BIT_SLOT) as [Hn|Hn]; cbn [negb].
  2: { apply wp_ret, Hstay, usable_yes; auto with iso. }
  do 4 wstep. rewrite zone_at_put, (zone_at_Some w zi z Hz). set (y := UNMASK_ZONE_PTRS z).
  set (w1 := zput_w zi y w). assert (Hy : zone_at w1 zi = y) by apply zone_at_put.
  pose proof (mask_cache_ok _ _ _ Hc : cache_ok (w_mem w1) (UNMASK_BITMAP_PTR z) y) as Hcy.
  assert (Hl : w_zones w1 !! zi = Some y) by apply lookup_insert_eq.
  wstep. rewrite <-Hy at 1 2. apply (wp_refill E zi w1 (UNMASK_BITMAP_PTR z)); rewrite ?Hy; try done; [simpl; lia|].
  intros y' k s Hs Hcy' Hf' Hor Hk.
  set (w2 := zput_w zi y' (rng k s w1)). assert (Hy2 : zone_at w2 zi = y') by apply zone_at_put.
  assert (Hput : ∀ x, zput_w zi x w2 = zput_w zi x (rng k s w)) by (intros x; unfold w2, w1; rewrite zput_put; exact (zput_put zi x y (rng k s w))).
  assert (Hsz : ∀ x, same_but_cache y' x → same_but_cache z (MASK_ZONE_PTRS x)).
  { intros x Hx. apply mask_around. by eapply same_but_cache_trans. }
  apply (wp_serve E zi w2 (UNMASK_BITMAP_PTR z)); rewrite ?Hy2; try done.
  - destruct Hs as (? & ? & ? & ? & ? & ->). done.
  - destruct Hs as (? & ? & ? & ? & ? & ->). simpl. lia.
  - destruct Hs as (? & ? & ? & ? & ? & ->). done.
  - intros x Hx Hcx Hnx. rewrite Hput. apply HQ; [|done].
    apply usable_yes; auto. by apply mask_cache_ok.
  - intros x Hx Hcx Hnx. rewrite Hput. apply HQ; [|done].
    apply usable_no; auto. by apply mask_cache_ok.
Qed.

(** ** Main theorems *)

Lemma slot_is_cached_fresh m B z s : cache_ok m B z → s ≠ BAD_BIT_SLOT → s ∉ live_cache z →
  slot_is_cached z s = false.
Proof.
  intros Hc Hs Hni. unfold slot_is_cached. apply not_true_is_false. intros (i & Hi & Heq%Z.eqb_eq)%existsb_exists.
  apply list_elem_of_In, elem_of_seqZ in Hi. change (Z.shiftr ZONE_FREE_LIST_SZ 3) with 31 in Hi.
  destruct Hc as [Hlen Hidx Htail _ _ _ _]. destruct (Z.lt_ge_cases i (free_bit_slots_index z)).
  - apply Hni, list_elem_of_lookup. exists (Z.to_nat (i - free_bit_slots_usable z)).
    rewrite live_cache_lookup, decide_True by lia.
    replace (Z.to_nat (free_bit_slots_usable z) + _)%nat with (Z.to_nat i) by lia.
    rewrite nth_lookup in Heq. destruct (lookup_lt_is_Some_2 (free_bit_slots z) (Z.to_nat i)) as [x Hx]; [lia|].
    rewrite Hx in *. simpl in Heq. congruence.
  - rewrite Htail in Heq by lia. congruence.
Qed.

Lemma insert_eq zi s z w m B : w_zones w !! zi = Some z → cache_ok m B z → s ≠ BAD_BIT_SLOT → s ∉ live_cache z →
  insert_free_bit_slot zi s w =
  Ret tt (if free_bit_slots_index z <? 255 then zput_w zi (pushed s z) w else w).
Proof.
  intros Hz Hc Hs Hni. unfold insert_free_bit_slot, mbind, M_bind, zget. rewrite (zone_at_Some w zi z Hz).
  rewrite (slot_is_cached_fresh m B) by done. rewrite andb_false_r. change ZONE_FREE_LIST_SZ with 255.
  rewrite Z.leb_antisym. by destruct (free_bit_slots_index z <? 255).
Qed.

(** C23. The free bit slot cache is a bounded first-in first-out queue: a freed slot is
    appended unless all 255 cells were used up, the next slot to serve is the oldest one,
    and no other part of the state changes. *)
Theorem cache_is_fifo_queue zi z w m B :
  w_zones w !! zi = Some z → cache_ok m B z →
  (∀ s, s ≠ BAD_BIT_SLOT → s ∉ live_cache z →
     ∃ z', insert_free_bit_slot zi s w = Ret tt (zput_w zi z' w) ∧ same_but_cache z z' ∧
       live_cache z' = (if free_bit_slots_index z <? 255 then live_cache z ++ [s] else live_cache z)) ∧
  (∃ z', get_next_free_bit_slot zi w = Ret (first_or_bad (live_cache z)) (zput_w zi z' w) ∧
     same_but_cache z z' ∧ live_cache z' = tail (live_cache z)).
Proof.
  intros Hz Hc. pose proof (zput_id zi z w Hz) as Hid.
  split.
  - intros s Hs Hni. rewrite (insert_eq zi s z w m B) by done.
    destruct (Z.ltb_spec (free_bit_slots_index z) 255).
    + exists (pushed s z). split_and!; [done| |by eapply live_cache_pushed].
      exists (next_free_bit_slot z), (free_bit_slots_usable z), (free_bit_slots_index z + 1), false,
        (<[Z.to_nat (free_bit_slots_index z) := s]> (free_bit_slots z)). by destruct z.
    + exists z. rewrite Hid. auto with iso.
  - pose proof (zone_at_Some w zi z Hz) as Ha. rewrite (get_next_eq zi w m B); rewrite Ha; [|done].
    destruct (Z.ltb_spec (free_bit_slots_usable z) (free_bit_slots_index z)) as [Hlt|Hge].
    + rewrite (live_cache_cons m B z Hc Hlt). eexists. split; [done|]. auto with iso.
    + rewrite live_cache_nil by done. exists z. rewrite Hid. split_and!; [done|auto with iso|by rewrite live_cache_nil].
Qed.

(** C22. [fill_free_bit_slots] leaves in the cache at most 255 distinct free slots: those
    an enumeration of the bitmap from some word on lists first, in some order. It never
    touches memory outside the bitmap and fails only for want of entropy. *)
Theorem fill_free_bit_slots_correct zi w :
  let z := zone_at w zi in
  page_ok w → w_root_null w = false → zone_geom z →
  mapped_rw (w_vm w) (bitmap_start z) (8 * max_bitmap_idx z) →
  wp resource (fill_free_bit_slots zi)
    (λ _ w', ∃ l k s, w' = zput_w zi (refilled l z) (rng k s w) ∧ filled (w_mem w) z l ∧
       (length l <= 255)%nat ∧ NoDup l ∧ Forall (free_slot (w_mem w) (bitmap_start z) z) l) w.
Proof.
  intros z Hw Hr Hg Hm. pose proof (zone_max_idx z Hg). apply wp_fill_free_bit_slots; fold z; try done; [lia|].
  intros l k s Hl Hk. exists l, k, s. split; [done|]. split; [done|].
  assert (Hz : ∃ y, is_full y = false ∧ next_free_bit_slot y = BAD_BIT_SLOT ∧ bitmap_start y = bitmap_start z ∧
     max_bitmap_idx y = max_bitmap_idx z ∧ filled (w_mem w) y l).
  { exists (set_is_full false (set_next_free_bit_slot BAD_BIT_SLOT z)). by split_and!. }
  destruct Hz as (y & Hy1 & Hy2 & Hy3 & Hy4 & Hy5).
  destruct (cache_ok_refilled (w_mem w) _ y l Hy1 Hy2 Hy3 Hy5) as [[_ Hidx _ Hfree Hnd _ _] Hlive].
  rewrite Hlive in *. split_and!; [unfold refilled in Hidx; simpl in Hidx; lia|done|].
  eapply list.Forall_impl; [exact Hfree|]. intros x Hx. unfold free_slot in *. simpl in Hx. by rewrite Hy4 in Hx.
Qed.

(** The slow bitmap scan answers the least free slot of the zone, or [BAD_BIT_SLOT]
    exactly when there is none, and changes nothing; the 128 bit reads and the second
    loop that rescans half of the bitmap make no difference. *)
Theorem iso_scan_zone_free_slot_slow_correct zi w :
  let z := zone_at w zi in
  let free := free_slot (w_mem w) (bitmap_start z) z in
  0 < max_bitmap_idx z → mapped_rw (w_vm w) (bitmap_start z) (8 * max_bitmap_idx z) →
  ∃ r, iso_scan_zone_free_slot_slow zi w = Ret r w ∧
    ((r = BAD_BIT_SLOT ∧ ∀ s, ¬ free s) ∨ (free r ∧ ∀ s, free s → r <= s)).
Proof.
  intros z free Hmax Hm. eexists. split; [by apply scan_slow_eq|]. fold z.
  destruct (free_slots_from (w_mem w) (bitmap_start z) 0 (max_bitmap_idx z)) as [|s t] eqn:Hl; [left|right].
  - split; [done|]. intros s Hs%free_slot_list. rewrite Hl in Hs. by apply not_elem_of_nil in Hs.
  - split; [apply free_slot_list; rewrite Hl; left|]. intros x Hx%free_slot_list.
    rewrite <-(Z2Nat.id (max_bitmap_idx z)) in Hl, Hx by lia.
    eapply first_free_least; [|exact Hx]. by rewrite Hl.
Qed.

(** The zones a request of [size] bytes may be served from, as far as their chunk size goes:
    chunks of at most 1024 bytes for requests of at most 1024 bytes, chunks of less than eight
    times the request for larger ones; and, with [STRONG_SIZE_ISOLATION], private zones only
    for requests of exactly their chunk size. Whether a chunk is large enough is left to the
    callers. *)
Definition size_policy (z : iso_alloc_zone_t) (size : Z) : Prop :=
  (size <= 1024 → chunk_size z <= 1024) ∧ (1024 < size → chunk_size z < 8 * size) ∧
  (STRONG_SIZE_ISOLATION = true → internal z = false → size = chunk_size z).

Lemma size_fits_policy z size : 0 <= size < 2 ^ 61 → size_fits z size = true ↔ size_policy z size.
Proof.
  intros Hs. unfold size_fits, size_policy. change ZONE_1024 with 1024. change WASTED_SZ_MULTIPLIER_SHIFT with 3.
  rewrite Z.shiftl_mul_pow2 by lia. change (2 ^ 3) with 8. rewrite u64_small by (unfold is_u64; lia).
  rewrite !andb_true_iff, !negb_true_iff, !andb_false_iff, !negb_false_iff, !Z.ltb_ge, !Z.leb_gt, Z.eqb_eq.
  destruct STRONG_SIZE_ISOLATION, (internal z); split; intros Hx; repeat split; try (intros; first [lia|congruence]);
    destruct Hx as (? & ? & ?) || destruct Hx as ((? & ?) & ?); intuition (auto; lia).
Qed.

(** C13. For every request below 2^61 bytes [is_zone_usable] answers yes exactly when the
    zone's chunk size is one the policy against waste and, with [STRONG_SIZE_ISOLATION], the
    isolation of private zones admit, and the zone has a free slot; it does not test whether
    a chunk is large enough. The slot it then leaves in [next_free_bit_slot] is free, the zone
    invariant is kept, [is_full] is set only on a zone without free slots, and nothing
    but the zone's cache and the random state changes. *)
Theorem is_zone_usable_correct zi size z w : 0 <= size < 2 ^ 61 →
  w_zones w !! zi = Some z → page_ok w → w_root_null w = false → zone_inv (w_vm w) (w_mem w) z →
  wp resource (is_zone_usable zi size)
    (λ b w', ∃ z' k s, w' = zput_w zi z' (rng k s w) ∧ same_but_cache z z' ∧
       zone_inv (w_vm w) (w_mem w) z' ∧
       (b = true ↔ size_policy z size ∧ ∃ s, free_slot (w_mem w) (UNMASK_BITMAP_PTR z) z s) ∧
       (b = true → free_slot (w_mem w) (UNMASK_BITMAP_PTR z) z (next_free_bit_slot z'))) w.
Proof.
  intros Hs Hz Hw Hr Hinv. apply (wp_is_zone_usable resource zi size z w); try done.
  intros b z' k s [] Hk. exists z', k, s. rewrite <-size_fits_policy by done. by split_and!.
Qed.
End usable.
