(* ===== verification/Chunks.v ===== *)
(** * Handing out and taking back chunks

    [_iso_alloc_bitslot_from_zone] and [iso_free_chunk_from_zone] of src/iso_alloc.c. Both
    keep the zone invariant; together they implement the abstract chunk state machine
    free -> in use -> was used -> in use ... -> permanently retired, and every misuse the
    bitmap shows (double free, pointer inside a chunk, pointer beyond the bitmap) stops
    the program. *)

From S2P Require Import Prelude Words Conf Memory State Util ZoneBits FreeList.

Section model.
Context `{!Kernel, !Config}.

Definition _iso_alloc_bitslot_from_zone (bitslot zi : Z) : M Z :=
  z ← zget zi;
  let dwords_to_bit_slot := Z.shiftr bitslot 6 in
  let which_bit := WHICH_BIT bitslot in
  let p := POINTER_FROM_BITSLOT z bitslot in
  let bm := bitmap_start z in
  b ← rd64 (bm + 8 * dwords_to_bit_slot);
  if user_pages_start z + ZONE_USER_SIZE <=? p then abort SlotOutsideZone else
  if negb (GET_BIT b which_bit =? 0) then abort SlotInUse else
  when (negb DISABLE_CANARY && (GET_BIT b (which_bit + 1) =? 1))
    (check_canary zi p;; wr64 p 0);;
  zmod zi (λ z, set_alloc_count (u32 (alloc_count z + 1)) (set_af_count (u32 (af_count z + 1)) z));;
  let b := SET_BIT b which_bit in
  let b := UNSET_BIT b (which_bit + 1) in
  wr64 (bm + 8 * dwords_to_bit_slot) b;;
  mret p.

(** The check of one neighbour: its canary is verified when its second bit is set. *)
Definition check_neighbour (zi bm n p : Z) : M unit :=
  let bit_slot := Z.shiftl n 1 in
  b ← rd64 (bm + 8 * Z.shiftr bit_slot 6);
  when (GET_BIT b (WHICH_BIT bit_slot + 1) =? 1) (check_canary zi p).

Definition iso_free_chunk_from_zone (zi p : Z) (permanent : bool) : M unit :=
  z ← zget zi;
  let chunk_offset := u64 (p - UNMASK_USER_PTR z) in
  let cs := chunk_size z in
  if cs =? 0 then undef else
  let chunk_number := chunk_offset / cs in
  let bit_slot := s64 (Z.shiftl chunk_number 1) in
  let dwords_to_bit_slot := Z.shiftr bit_slot 6 in
  if negb (chunk_offset mod cs =? 0) then abort ChunkMisaligned else
  if max_bitmap_idx z <=? dwords_to_bit_slot then abort ChunkOutsideBitmap else
  let which_bit := WHICH_BIT bit_slot in
  let bm := UNMASK_BITMAP_PTR z in
  b ← rd64 (bm + 8 * dwords_to_bit_slot);
  if GET_BIT b which_bit =? 0 then abort DoubleFree else
  let b := SET_BIT b (which_bit + 1) in
  b ← (if negb permanent then
         insert_free_bit_slot zi bit_slot;;
         when SANITIZE_CHUNKS (__iso_memset p POISON_BYTE cs);;
         mret (UNSET_BIT b which_bit)
       else
         __iso_memset p POISON_BYTE cs;;
         mret b);
  wr64 (bm + 8 * dwords_to_bit_slot) b;;
  zmod zi (λ z, set_af_count (u32 (af_count z - 1)) z);;
  when (negb DISABLE_CANARY)
    (write_canary zi p;;
     when (negb (chunk_number + 1 =? chunk_count z)) (check_neighbour zi bm (chunk_number + 1) (p + cs));;
     when (negb (chunk_number =? 0)) (check_neighbour zi bm (chunk_number - 1) (p - cs))).
End model.

(** ** Changing the two bits of one chunk *)

Definition put_chunk (m : gmap Z Z) (B c : Z) (x y : bool) : gmap Z Z :=
  st64 m (B + 8 * (2 * c / 64)) (put_slot (bm_word m B (2 * c / 64)) (2 * c mod 64) x y).

Lemma bm_bit_put_chunk m B c x y t : 0 <= c → 0 <= t →
  bm_bit (put_chunk m B c x y) B t = if t =? 2 * c then x else if t =? 2 * c + 1 then y else bm_bit m B t.
Proof. intros Hc Ht. apply bm_bit_put_slot; [lia|by rewrite Z.even_mul|lia]. Qed.

Lemma chunk_st_put_chunk m B c x y d : 0 <= c → 0 <= d →
  chunk_st (put_chunk m B c x y) B d = if d =? c then state_of_bits x y else chunk_st m B d.
Proof.
  intros Hc Hd. unfold chunk_st. rewrite !bm_bit_put_chunk by lia.
  repeat bcase; done || lia.
Qed.

Lemma ld8_put_chunk m B c x y a n : 0 <= c < 32 * n → (a < B ∨ B + 8 * n <= a) →
  ld8 (put_chunk m B c x y) a = ld8 m a.
Proof.
  intros Hc Ha. apply ld8_st64_other.
  assert (0 <= 2 * c / 64 < n) by (split; [apply Z.div_pos|apply Z.div_lt_upper_bound]; lia). lia.
Qed.

(** The bit operations of the two routines, as [put_slot]. *)
Lemma set_unset_put_slot b k : UNSET_BIT (SET_BIT b k) (k + 1) = put_slot b k true false.
Proof. done. Qed.

Lemma free_put_slot b k : is_u64 b → 0 <= k → UNSET_BIT (SET_BIT b (k + 1)) k = put_slot b k false true.
Proof.
  intros Hb Hk. apply Z.bits_inj'. intros j Hj.
  rewrite put_slot_spec, UNSET_BIT_spec, SET_BIT_spec by lia.
  repeat bcase; subst; simpl; done || lia.
Qed.

Lemma perm_put_slot b k : is_u64 b → 0 <= k → Z.testbit b k = true → SET_BIT b (k + 1) = put_slot b k true true.
Proof.
  intros Hb Hk Ht. apply Z.bits_inj'. intros j Hj.
  rewrite put_slot_spec, SET_BIT_spec by lia.
  repeat bcase; subst; simpl; try done; lia.
Qed.

(** ** Counting chunks in use *)

Lemma filter_length_flip {A} `{!EqDecision A} (f g : A → bool) (l : list A) (c : A) :
  NoDup l → c ∈ l → f c = false → g c = true → (∀ x, x ∈ l → x ≠ c → g x = f x) →
  length (List.filter g l) = S (length (List.filter f l)).
Proof.
  intros Hnd Hc Hf Hg He. induction Hnd as [|x l Hx Hnd IH]; [by apply not_elem_of_nil in Hc|].
  simpl. apply elem_of_cons in Hc as [->|Hc].
  - rewrite Hf, Hg. simpl. f_equal. f_equal. apply filter_ext_in. intros y Hy. rewrite <-list_elem_of_In in Hy.
    apply He; [by right|]. intros ->. done.
  - rewrite (He x); [|left|intros ->; done]. destruct (f x); simpl; rewrite IH; try done; intros ? ? ?; apply He; try done; by right.
Qed.

Section inv.
Context `{!Config}.
Variables (vm : list vma) (m m' : gmap Z Z) (U B c : Z) (z z' : iso_alloc_zone_t) (x y : bool).
Hypothesis Hinv : zinv vm m U B z.
Hypothesis Hc : 0 <= c < slots z.
(** The new memory: the bits of chunk [c], and bytes outside every other chunk. *)
Hypothesis Hbits : ∀ t, 0 <= t < 64 * max_bitmap_idx z →
  bm_bit m' B t = if t =? 2 * c then x else if t =? 2 * c + 1 then y else bm_bit m B t.
Hypothesis Hother : ∀ d a, 0 <= d < slots z → d ≠ c →
  U + d * chunk_size z <= a < U + d * chunk_size z + chunk_size z → ld8 m' a = ld8 m a.
Hypothesis Hcan : DISABLE_CANARY = false → y = true →
  canary_words m' (canary_secret z) (chunk_size z) (U + c * chunk_size z).

Lemma canaries_ok_update : canaries_ok m' U B z.
Proof using Hinv Hc Hbits Hother Hcan.
  intros Hd d Hdr Hb. rewrite Hbits in Hb by (unfold slots in *; lia).
  destruct (decide (d = c)) as [->|Hne].
  - rewrite (proj2 (Z.eqb_neq _ _)), Z.eqb_refl in Hb by lia. auto.
  - rewrite !(proj2 (Z.eqb_neq _ _)) in Hb by lia.
    destruct (zinv_canary _ _ _ _ _ Hinv Hd d Hdr Hb) as [H1 H2].
    pose proof (zg_size _ (zinv_geom _ _ _ _ _ Hinv)).
    split; [rewrite <-H1|rewrite <-H2]; apply ld64_ext; intros a Ha; apply (Hother d); lia.
Qed.

Lemma in_use_update_set : x = true → y = false → chunk_st m B c ≠ ChunkInUse →
  length (in_use_chunks m' B z) = S (length (in_use_chunks m B z)).
Proof using Hc Hbits.
  intros Hx Hy Hst. apply filter_length_flip with c.
  - apply NoDup_seqZ.
  - apply elem_of_seqZ. lia.
  - by apply bool_decide_eq_false.
  - apply bool_decide_eq_true. unfold chunk_st. rewrite !Hbits by (unfold slots in *; lia).
    rewrite Z.eqb_refl, (proj2 (Z.eqb_neq (2 * c + 1) _)), Z.eqb_refl, Hx, Hy by lia. done.
  - intros d Hd%elem_of_seqZ Hne. unfold chunk_st. rewrite !Hbits by (unfold slots in *; lia).
    rewrite !(proj2 (Z.eqb_neq _ _)) by lia. done.
Qed.

Lemma in_use_update_clear : y = true → chunk_st m B c = ChunkInUse →
  length (in_use_chunks m B z) = S (length (in_use_chunks m' B z)).
Proof using Hc Hbits.
  intros Hy Hst. apply filter_length_flip with c.
  - apply NoDup_seqZ.
  - apply elem_of_seqZ. lia.
  - apply bool_decide_eq_false. unfold chunk_st. rewrite !Hbits by (unfold slots in *; lia).
    rewrite Z.eqb_refl, (proj2 (Z.eqb_neq (2 * c + 1) _)), Z.eqb_refl, Hy by lia. by destruct x.
  - by apply bool_decide_eq_true.
  - intros d Hd%elem_of_seqZ Hne. unfold chunk_st. rewrite !Hbits by (unfold slots in *; lia).
    rewrite !(proj2 (Z.eqb_neq _ _)) by lia. done.
Qed.
End inv.

(** ** The cache under a change of one chunk *)

(** Chunk [c] leaves the set of free slots. *)
Lemma cache_ok_taken m m' B c z : cache_ok m B z → 0 <= c < slots z →
  (∀ t, 0 <= t < 64 * max_bitmap_idx z → t ≠ 2 * c → t ≠ 2 * c + 1 → bm_bit m' B t = bm_bit m B t) →
  bm_bit m' B (2 * c) = true →
  ¬ (2 * c ∈ live_cache z) → next_free_bit_slot z ≠ 2 * c → cache_ok m' B z.
Proof.
  intros [Hlen Hidx Htail Hfree Hnd Hnext Hfull] Hc Hsame Hset Hni Hnx.
  assert (Hkeep : ∀ s, free_slot m B z s → s ≠ 2 * c → free_slot m' B z s).
  { intros s (Hr & He & Hb) Hne. split_and!; try done; try lia. rewrite Hsame; [done|lia|done|].
    intros ->. rewrite Z.even_add, Z.even_mul in He. done. }
  assert (Hback : ∀ s, free_slot m' B z s → free_slot m B z s).
  { intros s (Hr & He & Hb). split_and!; try done; try lia. destruct (decide (s = 2 * c)) as [->|]; [congruence|].
    rewrite <-Hsame; [done|lia|done|]. intros ->. rewrite Z.even_add, Z.even_mul in He. done. }
  constructor; try done.
  - apply list.Forall_forall. intros s Hs. apply Hkeep; [by eapply list.Forall_forall in Hfree|]. intros ->. done.
  - destruct Hnext as [|[Hn1 Hn2]]; [by left|right]. auto.
  - intros Hf. destruct (Hfull Hf) as [H0 Hno]. split; [done|]. intros s Hs. by eapply Hno, Hback.
Qed.

(** Chunk [c] joins them. *)
Lemma cache_ok_freed m m' B c z : cache_ok m B z → is_full z = false →
  (∀ t, 0 <= t < 64 * max_bitmap_idx z → t ≠ 2 * c → t ≠ 2 * c + 1 → bm_bit m' B t = bm_bit m B t) →
  bm_bit m' B (2 * c) = false → cache_ok m' B z.
Proof.
  intros [Hlen Hidx Htail Hfree Hnd Hnext Hfull] Hnf Hsame Hclr.
  assert (Hkeep : ∀ s, free_slot m B z s → free_slot m' B z s).
  { intros s (Hr & He & Hb). split_and!; try done; try lia. destruct (decide (s = 2 * c)) as [->|]; [done|].
    rewrite Hsame; [done|lia|done|]. intros ->. rewrite Z.even_add, Z.even_mul in He. done. }
  constructor; try done.
  - eapply list.Forall_impl; [exact Hfree|auto].
  - destruct Hnext as [|[Hn1 Hn2]]; [by left|right]. auto.
  - congruence.
Qed.

Section canary_checks.
Context `{!Kernel, !Config}.

Lemma check_canary_intact zi p w :
  let z := zone_at w zi in
  8 <= chunk_size z → mapped_rw (w_vm w) p (chunk_size z) →
  (DISABLE_CANARY = false → canary_words (w_mem w) (canary_secret z) (chunk_size z) p) →
  check_canary zi p w = Ret tt w.
Proof.
  intros z Hs Hm Hc. unfold check_canary, mbind, M_bind, zget. destruct DISABLE_CANARY; [done|].
  destruct (Hc eq_refl) as [H1 H2]. fold z. unfold rd64.
  rewrite can_access_mapped, H1, Z.eqb_refl by (try eapply mapped_rw_sub; done || lia). cbn [mret M_ret].
  rewrite can_access_mapped, H2, Z.eqb_refl by (try eapply mapped_rw_sub; done || lia). done.
Qed.

Definition canary_mem (m : gmap Z Z) (z : iso_alloc_zone_t) (p : Z) : gmap Z Z :=
  let v := canary_of (canary_secret z) p in st64 (st64 m p v) (p + (chunk_size z - 8)) v.

Lemma write_canary_eq zi p w :
  let z := zone_at w zi in
  DISABLE_CANARY = false → 8 <= chunk_size z → mapped_rw (w_vm w) p (chunk_size z) →
  write_canary zi p w = Ret tt (set_w_mem (canary_mem (w_mem w) z p) w).
Proof.
  intros z Hd Hs Hm. unfold write_canary, mbind, M_bind, zget. rewrite Hd. fold z. unfold wr64.
  rewrite can_access_mapped by (try eapply mapped_rw_sub; done || lia). cbn [w_vm set_w_mem].
  rewrite can_access_mapped by (try eapply mapped_rw_sub; done || lia). done.
Qed.

Lemma canary_mem_words m z p : is_u64 (canary_secret z) → is_u64 p → 16 <= chunk_size z →
  canary_words (canary_mem m z p) (canary_secret z) (chunk_size z) p.
Proof.
  intros Hs Hp Hc. unfold canary_words, canary_mem. split.
  - rewrite ld64_st64_other by lia. apply ld64_st64_same. auto with iso.
  - replace (p + chunk_size z - 8) with (p + (chunk_size z - 8)) by lia. apply ld64_st64_same. auto with iso.
Qed.

Lemma ld8_canary_mem m z p a : 8 <= chunk_size z → (a < p ∨ p + chunk_size z <= a) →
  ld8 (canary_mem m z p) a = ld8 m a.
Proof. intros Hc Ha. unfold canary_mem. by rewrite !ld8_st64_other by lia. Qed.
End canary_checks.

(** A chunk's address. *)
Definition chunk_addr (U : Z) (z : iso_alloc_zone_t) (c : Z) : Z := U + c * chunk_size z.

Section facts.
Context `{!Config}.
Variables (vm : list vma) (m : gmap Z Z) (U B : Z) (z : iso_alloc_zone_t).
Hypothesis Hinv : zinv vm m U B z.

Lemma zinv_max : 2 <= max_bitmap_idx z <= 4096.
Proof. apply zone_max_idx, (zinv_geom _ _ _ _ _ Hinv). Qed.

Lemma zinv_size : 32 <= chunk_size z <= 65536.
Proof. apply (zg_size _ (zinv_geom _ _ _ _ _ Hinv)). Qed.

Lemma chunk_addr_range c : 0 <= c < slots z →
  U <= chunk_addr U z c ∧ chunk_addr U z c + chunk_size z <= U + ZONE_USER_SIZE.
Proof. intros Hc. unfold chunk_addr. pose proof (chunk_in_zone z (zinv_geom _ _ _ _ _ Hinv) c Hc). lia. Qed.

Lemma chunk_mapped c : 0 <= c < slots z → mapped_rw vm (chunk_addr U z c) (chunk_size z).
Proof.
  intros Hc. destruct (chunk_addr_range c Hc).
  eapply mapped_rw_sub; [apply (zm_user_rw _ _ _ _ (zinv_mapped _ _ _ _ _ Hinv))|lia|lia].
Qed.

Lemma chunk_addr_u64 c : 0 <= c < slots z → is_u64 (chunk_addr U z c).
Proof.
  intros Hc. destruct (chunk_addr_range c Hc). pose proof (zm_user _ _ _ _ (zinv_mapped _ _ _ _ _ Hinv)).
  pose proof zinv_size. unfold is_u64. lia.
Qed.

(** A byte of a chunk is no byte of the bitmap. *)
Lemma chunk_not_bitmap c a : 0 <= c < slots z →
  chunk_addr U z c <= a < chunk_addr U z c + chunk_size z → a < B ∨ B + 8 * max_bitmap_idx z <= a.
Proof.
  intros Hc Ha. destruct (chunk_addr_range c Hc).
  pose proof (zm_disjoint _ _ _ _ (zinv_mapped _ _ _ _ _ Hinv)). lia.
Qed.

Lemma bitmap_word_mapped i : 0 <= i < max_bitmap_idx z → mapped_rw vm (B + 8 * i) 8.
Proof.
  intros Hi. eapply mapped_rw_sub; [apply (zm_bitmap_rw _ _ _ _ (zinv_mapped _ _ _ _ _ Hinv))|lia|lia].
Qed.

Lemma slot_word_range c : 0 <= c < slots z → 0 <= 2 * c / 64 < max_bitmap_idx z.
Proof. unfold slots. intros Hc. split; [apply Z.div_pos; lia|apply Z.div_lt_upper_bound; lia]. Qed.

Lemma used_not_cached c : 0 <= c < slots z → bm_bit m B (2 * c) = true →
  next_free_bit_slot z ≠ 2 * c ∧ ¬ (2 * c ∈ live_cache z).
Proof.
  intros Hc Hb. destruct (zinv_cache _ _ _ _ _ Hinv) as [_ _ _ Hfree _ Hnext _]. apply and_comm. split.
  - intros Hin. eapply list.Forall_forall in Hfree; [|exact Hin]. destruct Hfree as (_ & _ & ?). congruence.
  - intros Heq. destruct Hnext as [Hn|[(_ & _ & Hf) _]]; [change BAD_BIT_SLOT with (-1) in Hn; lia|].
    rewrite Heq in Hf. congruence.
Qed.
End facts.

(** ** Allocation *)

Definition allocated (z : iso_alloc_zone_t) : iso_alloc_zone_t :=
  set_alloc_count (u32 (alloc_count z + 1)) (set_af_count (u32 (af_count z + 1)) z).

(** What changes in memory when chunk [c] goes to the state with bits [x], [y]: its two
    bits, and bytes of the chunk itself. *)
Record chunk_effect (m m' : gmap Z Z) (U B c : Z) (z : iso_alloc_zone_t) (x y : bool) : Prop := {
  ce_bits : ∀ t, 0 <= t < 64 * max_bitmap_idx z →
    bm_bit m' B t = if t =? 2 * c then x else if t =? 2 * c + 1 then y else bm_bit m B t;
  ce_bytes : ∀ a, (a < B ∨ B + 8 * max_bitmap_idx z <= a) →
    (a < chunk_addr U z c ∨ chunk_addr U z c + chunk_size z <= a) → ld8 m' a = ld8 m a;
}.

Section alloc.
Context `{!Kernel, !Config}.

Lemma effect_put_chunk vm m m1 U B c z x y : zinv vm m U B z → 0 <= c < slots z →
  (∀ a, (a < chunk_addr U z c ∨ chunk_addr U z c + chunk_size z <= a) → ld8 m1 a = ld8 m a) →
  chunk_effect m (put_chunk m1 B c x y) U B c z x y.
Proof.
  intros Hinv Hc H1.
  assert (Hbm : ∀ a, B <= a < B + 8 * max_bitmap_idx z → ld8 m1 a = ld8 m a).
  { intros a Ha. apply H1. destruct (chunk_addr_range _ _ _ _ _ Hinv c Hc).
    pose proof (zm_disjoint _ _ _ _ (zinv_mapped _ _ _ _ _ Hinv)). lia. }
  constructor.
  - intros t Ht. rewrite bm_bit_put_chunk by lia. by rewrite (bm_bit_ext m m1 B (max_bitmap_idx z) t) by done.
  - intros a Ha1 Ha2. rewrite (ld8_put_chunk _ _ _ _ _ _ (max_bitmap_idx z)) by (unfold slots in *; lia). auto.
Qed.

(** Other chunks keep their bytes. *)
Lemma effect_other vm m m' U B c z x y d a : zinv vm m U B z → 0 <= c < slots z → 0 <= d < slots z → d ≠ c →
  chunk_effect m m' U B c z x y → chunk_addr U z d <= a < chunk_addr U z d + chunk_size z → ld8 m' a = ld8 m a.
Proof.
  intros Hinv Hc Hd Hne [_ Hb] Ha. pose proof (zinv_size _ _ _ _ _ Hinv).
  apply Hb; [by eapply chunk_not_bitmap|].
  pose proof (chunks_disjoint (chunk_size z) c d U). unfold chunk_addr in *. lia.
Qed.

Lemma effect_chunk_st m m' U B c z x y d : chunk_effect m m' U B c z x y → 0 <= d < slots z →
  chunk_st m' B d = if d =? c then state_of_bits x y else chunk_st m B d.
Proof.
  intros [Hb _] Hd. unfold chunk_st, slots in *. rewrite !Hb by lia. repeat bcase; done || lia.
Qed.

Lemma in_use_le m B z : Z.of_nat (length (in_use_chunks m B z)) <= Z.max 0 (slots z).
Proof.
  unfold in_use_chunks. pose proof (filter_length_le (λ c, bool_decide (chunk_st m B c = ChunkInUse)) (seqZ 0 (slots z))) as H1.
  rewrite length_seqZ in H1. lia.
Qed.

Lemma cache_ok_allocated m B z : cache_ok m B z → cache_ok m B (allocated z).
Proof. intros []. by constructor. Qed.

Lemma zinv_allocated vm m m' U B c z : zinv vm m U B z → 0 <= c < slots z →
  chunk_effect m m' U B c z true false → bm_bit m B (2 * c) = false →
  ¬ (2 * c ∈ live_cache z) → next_free_bit_slot z ≠ 2 * c → zinv vm m' U B (allocated z).
Proof.
  intros Hinv Hc He Hfree Hni Hnx. pose proof (zinv_max _ _ _ _ _ Hinv).
  assert (chunk_st m B c ≠ ChunkInUse) by (unfold chunk_st; rewrite Hfree; by destruct (bm_bit m B (2 * c + 1))).
  constructor; try apply Hinv.
  - destruct (zinv_geom _ _ _ _ _ Hinv). by constructor.
  - destruct (zinv_mapped _ _ _ _ _ Hinv). by constructor.
  - apply cache_ok_allocated, (cache_ok_taken m m' B c); try done; [apply Hinv|..].
    + intros t Ht Hn1 Hn2. rewrite (ce_bits _ _ _ _ _ _ _ _ He) by done.
      rewrite !(proj2 (Z.eqb_neq _ _)) by done. done.
    + rewrite (ce_bits _ _ _ _ _ _ _ _ He) by (unfold slots in *; lia). by rewrite Z.eqb_refl.
  - eapply (canaries_ok_update vm m m' U B c z true false); try done; [apply He|].
    intros d a Hd Hne Ha. by apply (effect_other vm m m' U B c z true false d a).
  - simpl. change (in_use_chunks m' B (allocated z)) with (in_use_chunks m' B z).
    rewrite (in_use_update_set m m' B c z true false) by (done || apply He).
    rewrite (zinv_af _ _ _ _ _ Hinv). pose proof (in_use_le m B z). unfold slots in *. rewrite u32_small by lia. lia.
Qed.

Lemma alloc_slot_eq zi c w U B :
  let z := zone_at w zi in
  zinv (w_vm w) (w_mem w) U B z → user_pages_start z = U → bitmap_start z = B →
  0 <= c < slots z → bm_bit (w_mem w) B (2 * c) = false →
  ∃ m', _iso_alloc_bitslot_from_zone (2 * c) zi w =
          Ret (chunk_addr U z c) (zput_w zi (allocated z) (set_w_mem m' w)) ∧
    chunk_effect (w_mem w) m' U B c z true false.
Proof.
  intros z Hinv HU HB Hc Hfree. unfold _iso_alloc_bitslot_from_zone, mbind, M_bind at 1, zget. fold z.
  rewrite shiftr_6, WHICH_BIT_mod, HU, HB. cbv zeta.
  pose proof (slot_word_range z c Hc) as Hw. pose proof (Z.mod_pos_bound (2 * c) 64).
  assert (Hp : POINTER_FROM_BITSLOT z (2 * c) = chunk_addr U z c).
  { unfold POINTER_FROM_BITSLOT, chunk_addr. rewrite HU, Z.shiftr_div_pow2 by lia.
    change (2 ^ 1) with 2. by rewrite (Z.mul_comm 2), Z.div_mul by lia. }
  rewrite Hp. destruct (chunk_addr_range _ _ _ _ _ Hinv c Hc) as [Hlo Hhi].
  pose proof (zinv_size _ _ _ _ _ Hinv). pose proof (chunk_mapped _ _ _ _ _ Hinv c Hc) as Hcm.
  unfold M_bind at 1. unfold rd64 at 1. rewrite can_access_mapped by (done || by eapply bitmap_word_mapped).
  rewrite (proj2 (Z.leb_gt _ _)) by lia. change (ld64 _ _) with (bm_word (w_mem w) B (2 * c / 64)).
  set (b := bm_word (w_mem w) B (2 * c / 64)).
  rewrite !GET_BIT_spec by lia. change (Z.testbit b (2 * c mod 64)) with (bm_bit (w_mem w) B (2 * c)). rewrite Hfree.
  cbn [Z.b2z negb Z.eqb].
  set (cond := negb DISABLE_CANARY && _).
  set (m1 := if cond then st64 (w_mem w) (chunk_addr U z c) 0 else w_mem w).
  assert (Hm1 : ∀ a, (a < chunk_addr U z c ∨ chunk_addr U z c + chunk_size z <= a) → ld8 m1 a = ld8 (w_mem w) a).
  { intros a Ha. unfold m1. destruct cond; [|done]. apply ld8_st64_other. lia. }
  assert (Hwhen : when cond (M_bind _ _ (λ _, wr64 (chunk_addr U z c) 0) (check_canary zi (chunk_addr U z c))) w = Ret tt (set_w_mem m1 w)).
  { unfold m1. destruct cond eqn:Hcond; [|by destruct w]. cbn [when]. unfold M_bind.
    apply andb_true_iff in Hcond as [Hd%negb_true_iff Hb2%Z.eqb_eq].
    rewrite check_canary_intact; [unfold wr64; by rewrite can_access_mapped by (try eapply mapped_rw_sub; done || lia)|fold z; lia|done|].
    intros _. fold z. apply (zinv_canary _ _ _ _ _ Hinv Hd c Hc). unfold bm_bit.
    destruct (slot_div_mod (2 * c)) as (_ & -> & ->); [lia|by rewrite Z.even_mul|]. fold b. by destruct (Z.testbit _ _). }
  exists (put_chunk m1 B c true false). split; [|by eapply effect_put_chunk].
  unfold M_bind at 1. rewrite Hwhen. unfold M_bind, zmod, wr64, mret, M_ret. cbn [zput_w set_w_zones w_vm set_w_mem w_mem].
  rewrite can_access_mapped by (done || by eapply bitmap_word_mapped).
  rewrite set_unset_put_slot. unfold put_chunk. replace (bm_word m1 B (2 * c / 64)) with b; [done|].
  apply ld64_ext. intros a Ha. symmetry. apply Hm1.
  pose proof (zm_disjoint _ _ _ _ (zinv_mapped _ _ _ _ _ Hinv)). lia.
Qed.
End alloc.

(** ** Freeing *)

Definition released (permanent : bool) (c : Z) (z : iso_alloc_zone_t) : iso_alloc_zone_t :=
  let z := if negb permanent && (free_bit_slots_index z <? 255) then pushed (2 * c) z else z in
  set_af_count (u32 (af_count z - 1)) z.

Section free.
Context `{!Kernel, !Config}.

(** The chunk above the last one the bitmap describes has its bits outside the bitmap;
    freeing is sound when that word is harmless. *)
Definition neighbour_ok (vm : list vma) (m : gmap Z Z) (B c : Z) (z : iso_alloc_zone_t) : Prop :=
  c + 1 < slots z ∨ c + 1 = chunk_count z ∨
  (mapped_rw vm (B + 8 * max_bitmap_idx z) 8 ∧ bm_bit m B (2 * (c + 1) + 1) = false).

Definition poisoned (permanent : bool) (m : gmap Z Z) (z : iso_alloc_zone_t) (p : Z) : gmap Z Z :=
  if permanent || SANITIZE_CHUNKS then fill (Z.to_nat (chunk_size z)) m p POISON_BYTE else m.

Definition freed_mem (permanent : bool) (m : gmap Z Z) (U B c : Z) (z : iso_alloc_zone_t) : gmap Z Z :=
  let p := chunk_addr U z c in
  let m := put_chunk (poisoned permanent m z p) B c permanent true in
  if DISABLE_CANARY then m else canary_mem m z p.

Lemma ld8_poisoned permanent m z p a : 0 <= chunk_size z → (a < p ∨ p + chunk_size z <= a) →
  ld8 (poisoned permanent m z p) a = ld8 m a.
Proof. intros Hs Ha. unfold poisoned. case_match; [|done]. rewrite ld8_fill, decide_False by lia. done. Qed.

Lemma freed_mem_effect vm permanent m U B c z : zinv vm m U B z → 0 <= c < slots z →
  chunk_effect m (freed_mem permanent m U B c z) U B c z permanent true.
Proof.
  intros Hinv Hc. pose proof (zinv_size _ _ _ _ _ Hinv).
  destruct (effect_put_chunk vm m (poisoned permanent m z (chunk_addr U z c)) U B c z permanent true Hinv Hc) as [Hb Ho].
  { intros a Ha. apply ld8_poisoned; [lia|done]. }
  unfold freed_mem. destruct DISABLE_CANARY; constructor; try done.
  - intros t Ht. rewrite <-Hb by done. apply (bm_bit_ext _ _ _ (max_bitmap_idx z)); [|done].
    intros a Ha. apply ld8_canary_mem; [lia|]. destruct (chunk_addr_range _ _ _ _ _ Hinv c Hc).
    pose proof (zm_disjoint _ _ _ _ (zinv_mapped _ _ _ _ _ Hinv)). lia.
  - intros a Ha1 Ha2. rewrite ld8_canary_mem by lia. auto.
Qed.

Lemma cache_ok_released vm m m' permanent U B c z : zinv vm m U B z → 0 <= c < slots z →
  chunk_effect m m' U B c z permanent true → bm_bit m B (2 * c) = true →
  cache_ok m' B (released permanent c z).
Proof.
  intros Hinv Hc [Hb _] Hused. destruct (used_not_cached _ _ _ _ _ Hinv c Hc Hused) as [Hnx Hni].
  assert (Hsame : ∀ t, 0 <= t < 64 * max_bitmap_idx z → t ≠ 2 * c → t ≠ 2 * c + 1 → bm_bit m' B t = bm_bit m B t).
  { intros t Ht H1 H2. rewrite Hb by done. by rewrite !(proj2 (Z.eqb_neq _ _)). }
  assert (H2c : bm_bit m' B (2 * c) = permanent) by (rewrite Hb by (unfold slots in *; lia); by rewrite Z.eqb_refl).
  pose proof (zinv_cache _ _ _ _ _ Hinv) as Hco.
  assert (Haf : ∀ y n, cache_ok m' B y → cache_ok m' B (set_af_count n y)) by (intros y n []; by constructor).
  unfold released. destruct permanent; cbn [negb andb]; apply Haf.
  { by apply (cache_ok_taken m m' B c). }
  assert (Hnf : cache_ok m B (set_is_full false z)) by (destruct Hco; by constructor).
  destruct (Z.ltb_spec (free_bit_slots_index z) 255) as [Hi|Hi].
  - apply (cache_ok_freed _ m' _ c) in Hnf; try done.
    apply (cache_ok_pushed m' B (set_is_full false z) Hnf (2 * c)); simpl; try done; try lia.
    split_and!; [unfold slots in *; simpl; lia..|by rewrite Z.even_mul|done].
  - apply (cache_ok_freed m m' B c); try done. destruct (is_full z) eqn:Hf; [|done].
    destruct (co_full _ _ _ Hco Hf). lia.
Qed.

Lemma zinv_released vm m permanent U B c z : zinv vm m U B z → 0 <= c < slots z → chunk_st m B c = ChunkInUse →
  zinv vm (freed_mem permanent m U B c z) U B (released permanent c z).
Proof.
  intros Hinv Hc Hst. pose proof (freed_mem_effect vm permanent m U B c z Hinv Hc) as He.
  pose proof (zinv_size _ _ _ _ _ Hinv). pose proof (zinv_max _ _ _ _ _ Hinv).
  assert (Hbit : bm_bit m B (2 * c) = true).
  { unfold chunk_st in Hst. by destruct (bm_bit m B (2 * c)), (bm_bit m B (2 * c + 1)). }
  assert (Hcan : canaries_ok (freed_mem permanent m U B c z) U B z).
  { eapply (canaries_ok_update vm m _ U B c z permanent true); try done; [apply He| |].
    - intros d a Hd Hne Ha. by apply (effect_other vm m _ U B c z permanent true d a).
    - intros Hd _. unfold freed_mem. rewrite Hd. apply canary_mem_words; [apply Hinv|by eapply chunk_addr_u64|lia]. }
  assert (Haf : af_count z = 1 + Z.of_nat (length (in_use_chunks (freed_mem permanent m U B c z) B z))).
  { rewrite (zinv_af _ _ _ _ _ Hinv), (in_use_update_clear m (freed_mem permanent m U B c z) B c z permanent true) by (done || apply He). lia. }
  pose proof (in_use_le m B z). pose proof (zinv_af _ _ _ _ _ Hinv).
  pose proof (cache_ok_released _ _ _ _ _ _ _ _ Hinv Hc He Hbit) as Hcache.
  destruct (zinv_geom _ _ _ _ _ Hinv), (zinv_mapped _ _ _ _ _ Hinv).
  assert (Hu : u32 (af_count z - 1) = af_count z - 1) by (apply u32_small; unfold slots in *; lia).
  unfold released in *. destruct (negb permanent && _).
  - constructor; [by constructor|by constructor|done|done|apply Hinv|]. simpl. rewrite Hu, Haf.
    change (in_use_chunks _ B (set_af_count _ _)) with (in_use_chunks (freed_mem permanent m U B c z) B z). lia.
  - constructor; [by constructor|by constructor|done|done|apply Hinv|]. simpl. rewrite Hu, Haf.
    change (in_use_chunks _ B (set_af_count _ _)) with (in_use_chunks (freed_mem permanent m U B c z) B z). lia.
Qed.

Lemma check_neighbour_ok zi n w U B :
  let z := zone_at w zi in
  zinv (w_vm w) (w_mem w) U B z → DISABLE_CANARY = false → 0 <= n < slots z →
  check_neighbour zi B n (chunk_addr U z n) w = Ret tt w.
Proof.
  intros z Hinv Hd Hn. unfold check_neighbour, mbind, M_bind, rd64. rewrite Z.shiftl_mul_pow2, shiftr_6, WHICH_BIT_mod by lia.
  change (2 ^ 1) with 2. rewrite (Z.mul_comm n 2). pose proof (Z.mod_pos_bound (2 * n) 64).
  rewrite can_access_mapped by (done || by eapply bitmap_word_mapped, slot_word_range).
  rewrite GET_BIT_spec by lia. destruct (Z.testbit (ld64 _ _) _) eqn:Hb; [|done]. cbn [Z.b2z Z.eqb Pos.eqb when].
  apply check_canary_intact; fold z; [pose proof (zinv_size _ _ _ _ _ Hinv); lia|by eapply chunk_mapped|].
  intros _. apply (zinv_canary _ _ _ _ _ Hinv Hd n Hn). unfold bm_bit.
  destruct (slot_div_mod (2 * n)) as (_ & -> & ->); [lia|by rewrite Z.even_mul|]. done.
Qed.

Lemma s64_small x : 0 <= x < 2 ^ 63 → s64 x = x.
Proof. intros Hx. unfold s64. rewrite u64_small by (unfold is_u64; lia). rewrite (proj2 (Z.ltb_lt _ _)) by lia. done. Qed.

(** The pointer arithmetic of a free. *)
Lemma free_offsets vm m U B z c : zinv vm m U B z → 0 <= c < slots z →
  u64 (chunk_addr U z c - U) = c * chunk_size z ∧
  c * chunk_size z / chunk_size z = c ∧ (c * chunk_size z) mod chunk_size z = 0 ∧ s64 (Z.shiftl c 1) = 2 * c.
Proof.
  intros Hinv Hc. pose proof (zinv_size _ _ _ _ _ Hinv). pose proof (zinv_max _ _ _ _ _ Hinv).
  destruct (chunk_addr_range _ _ _ _ _ Hinv c Hc). pose proof (zm_user _ _ _ _ (zinv_mapped _ _ _ _ _ Hinv)).
  unfold slots in *. split_and!.
  - rewrite u64_small; unfold chunk_addr, is_u64 in *; lia.
  - by rewrite Z.div_mul by lia.
  - by rewrite Z.mod_mul by lia.
  - rewrite Z.shiftl_mul_pow2, s64_small by lia. lia.
Qed.

Lemma mapped_chunk_memset vm m U B z c : zinv vm m U B z → 0 <= c < slots z →
  range_access vm (chunk_addr U z c) (chunk_size z) = true.
Proof. intros Hinv Hc. by eapply range_access_mapped, chunk_mapped. Qed.

(** The neighbour checks pass on a well-formed zone. *)
Lemma check_neighbours_ok zi c w U B :
  let z := zone_at w zi in
  zinv (w_vm w) (w_mem w) U B z → DISABLE_CANARY = false → 0 <= c < slots z →
  neighbour_ok (w_vm w) (w_mem w) B c z →
  (when (negb (c + 1 =? chunk_count z)) (check_neighbour zi B (c + 1) (chunk_addr U z c + chunk_size z));;
   when (negb (c =? 0)) (check_neighbour zi B (c - 1) (chunk_addr U z c - chunk_size z))) w = Ret tt w.
Proof.
  intros z Hinv Hd Hc Hn. unfold mbind, M_bind.
  replace (chunk_addr U z c + chunk_size z) with (chunk_addr U z (c + 1)) by (unfold chunk_addr; lia).
  replace (chunk_addr U z c - chunk_size z) with (chunk_addr U z (c - 1)) by (unfold chunk_addr; lia).
  assert (Hover : when (negb (c + 1 =? chunk_count z)) (check_neighbour zi B (c + 1) (chunk_addr U z (c + 1))) w = Ret tt w).
  { destruct (Z.eqb_spec (c + 1) (chunk_count z)); [done|]. cbn [negb when].
    destruct (Z.lt_ge_cases (c + 1) (slots z)) as [|Hge]; [apply check_neighbour_ok; fold z; done || lia|].
    destruct Hn as [|[|[Hm Hb]]]; [lia|done|]. assert (Heq : 2 * (c + 1) = 64 * max_bitmap_idx z) by (unfold slots in *; lia).
    unfold check_neighbour, mbind, M_bind, rd64. rewrite Z.shiftl_mul_pow2, shiftr_6, WHICH_BIT_mod by lia.
    change (2 ^ 1) with 2. rewrite (Z.mul_comm _ 2), Heq in *.
    unfold bm_bit in Hb. replace ((64 * max_bitmap_idx z + 1) / 64) with (max_bitmap_idx z) in Hb by (apply (Z.div_unique _ _ _ 1); lia).
    replace ((64 * max_bitmap_idx z + 1) mod 64) with 1 in Hb by (apply (Z.mod_unique _ _ (max_bitmap_idx z)); lia).
    rewrite (Z.mul_comm 64), Z.div_mul, Z.mod_mul by lia. rewrite can_access_mapped by done. rewrite GET_BIT_spec by lia.
    change (0 + 1) with 1. change (ld64 (w_mem w) (B + 8 * max_bitmap_idx z)) with (bm_word (w_mem w) B (max_bitmap_idx z)).
    by rewrite Hb. }
  rewrite Hover. destruct (Z.eqb_spec c 0); [done|]. cbn [negb when]. apply check_neighbour_ok; fold z; done || lia.
Qed.

Lemma neighbour_ok_effect vm m m' U B c z x y : zinv vm m U B z → 0 <= c < slots z →
  chunk_effect m m' U B c z x y → neighbour_ok vm m B c z → neighbour_ok vm m' B c z.
Proof.
  intros Hinv Hc [_ Hby] Hn. destruct (Z.lt_ge_cases (c + 1) (slots z)) as [|Hge]; [by left|].
  destruct Hn as [|[|[Hm Hb]]]; [by left|by right; left|right; right]. split; [done|]. rewrite <-Hb.
  assert (Heq : (2 * (c + 1) + 1) / 64 = max_bitmap_idx z).
  { symmetry. apply (Z.div_unique _ _ _ 1); unfold slots in *; lia. }
  unfold bm_bit, bm_word. rewrite Heq. f_equal. apply ld64_ext. intros a Ha.
  destruct (chunk_addr_range _ _ _ _ _ Hinv c Hc). pose proof (zinv_size _ _ _ _ _ Hinv).
  pose proof (zm_disjoint _ _ _ _ (zinv_mapped _ _ _ _ _ Hinv)). pose proof (zinv_max _ _ _ _ _ Hinv). apply Hby; lia.
Qed.

Lemma released_static permanent c z : chunk_size (released permanent c z) = chunk_size z ∧
  chunk_count (released permanent c z) = chunk_count z ∧ max_bitmap_idx (released permanent c z) = max_bitmap_idx z ∧
  canary_secret (released permanent c z) = canary_secret z ∧ slots (released permanent c z) = slots z.
Proof. unfold released, slots. by destruct (negb permanent && _). Qed.

(** The pointers and the mask of the zone are left alone. *)
Lemma released_ptrs permanent c z :
  UNMASK_USER_PTR (released permanent c z) = UNMASK_USER_PTR z ∧
  UNMASK_BITMAP_PTR (released permanent c z) = UNMASK_BITMAP_PTR z.
Proof. unfold released. by destruct (negb permanent && _). Qed.

Lemma free_mark_eq zi c z w permanent b k :
  let p := chunk_addr (UNMASK_USER_PTR z) z c in
  w_zones w !! zi = Some z → zone_inv (w_vm w) (w_mem w) z → 0 <= c < slots z →
  bm_bit (w_mem w) (UNMASK_BITMAP_PTR z) (2 * c) = true → is_u64 b → 0 <= k → Z.testbit b k = true →
  (if negb permanent then
     insert_free_bit_slot zi (2 * c);;
     when SANITIZE_CHUNKS (__iso_memset p POISON_BYTE (chunk_size z));;
     mret (UNSET_BIT (SET_BIT b (k + 1)) k)
   else
     __iso_memset p POISON_BYTE (chunk_size z);;
     mret (SET_BIT b (k + 1))) w =
  Ret (put_slot b k permanent true)
    (zput_w zi (if negb permanent && (free_bit_slots_index z <? 255) then pushed (2 * c) z else z)
      (set_w_mem (poisoned permanent (w_mem w) z p) w)).
Proof.
  intros p Hz Hinv Hc Hused Hb Hk Ht. destruct (used_not_cached _ _ _ _ _ Hinv c Hc Hused) as [_ Hni].
  pose proof (mapped_chunk_memset _ _ _ _ _ c Hinv Hc : range_access (w_vm w) p (chunk_size z) = true) as Hset.
  assert (Hid : ∀ m, zput_w zi z (set_w_mem m w) = set_w_mem m w) by (intros; by apply zput_id).
  assert (Hm : set_w_mem (w_mem w) w = w) by by destruct w.
  unfold poisoned. destruct permanent; cbn [negb andb orb]; unfold mbind, M_bind.
  - unfold __iso_memset. rewrite Hset, perm_put_slot by done. by rewrite zput_id.
  - rewrite (insert_eq zi (2 * c) z w _ _ Hz (zinv_cache _ _ _ _ _ Hinv)); [|change BAD_BIT_SLOT with (-1); lia|done].
    rewrite free_put_slot by done.
    destruct (free_bit_slots_index z <? 255), SANITIZE_CHUNKS; cbn [when]; unfold __iso_memset;
      cbn [w_vm zput_w set_w_zones]; by rewrite ?Hset, ?Hid, ?Hm.
Qed.

(** The checks of both neighbours at the end of a free. *)
Definition check_neighbours (zi B c : Z) (z : iso_alloc_zone_t) (p : Z) : M unit :=
  when (negb DISABLE_CANARY)
    (when (negb (c + 1 =? chunk_count z)) (check_neighbour zi B (c + 1) (p + chunk_size z));;
     when (negb (c =? 0)) (check_neighbour zi B (c - 1) (p - chunk_size z))).

(** They change nothing. *)
Lemma check_neighbour_pure zi B n p w u w' : check_neighbour zi B n p w = Ret u w' → w' = w.
Proof.
  unfold check_neighbour, check_canary, mbind, M_bind, zget, rd64, when, mret, M_ret, abort. intros Hrun. repeat (case_match; simplify_eq/=; try done).
Qed.

Lemma check_neighbours_pure zi B c z p w u w' : check_neighbours zi B c z p w = Ret u w' → w' = w.
Proof.
  unfold check_neighbours, mbind, M_bind, when. destruct (negb DISABLE_CANARY); [|by intros [= _ <-]].
  destruct (negb (c + 1 =? chunk_count z)) eqn:?.
  - destruct (check_neighbour zi B (c + 1) _ w) as [u0 w0| | | | |] eqn:H1; try done. apply check_neighbour_pure in H1 as ->.
    destruct (negb (c =? 0)); [apply check_neighbour_pure|by intros [= _ <-]].
  - destruct (negb (c =? 0)); [apply check_neighbour_pure|by intros [= _ <-]].
Qed.

Lemma free_tail_eq zi c z w permanent :
  let U := UNMASK_USER_PTR z in
  let B := UNMASK_BITMAP_PTR z in
  let z1 := if negb permanent && (free_bit_slots_index z <? 255) then pushed (2 * c) z else z in
  let m1 := poisoned permanent (w_mem w) z (chunk_addr U z c) in
  zone_inv (w_vm w) (w_mem w) z → 0 <= c < slots z → chunk_st (w_mem w) B c = ChunkInUse →
  (wr64 (B + 8 * (2 * c / 64)) (put_slot (bm_word (w_mem w) B (2 * c / 64)) (2 * c mod 64) permanent true);;
   zmod zi (λ z, set_af_count (u32 (af_count z - 1)) z);;
   when (negb DISABLE_CANARY)
     (write_canary zi (chunk_addr U z c);;
      when (negb (c + 1 =? chunk_count z)) (check_neighbour zi B (c + 1) (chunk_addr U z c + chunk_size z));;
      when (negb (c =? 0)) (check_neighbour zi B (c - 1) (chunk_addr U z c - chunk_size z))))
    (zput_w zi z1 (set_w_mem m1 w)) =
  check_neighbours zi B c z (chunk_addr U z c) (zput_w zi (released permanent c z) (set_w_mem (freed_mem permanent (w_mem w) U B c z) w)).
Proof.
  intros U B z1 m1 Hinv Hc Hst. change (zinv (w_vm w) (w_mem w) U B z) in Hinv.
  pose proof (zinv_size _ _ _ _ _ Hinv) as Hs. pose proof (slot_word_range z c Hc) as Hw.
  assert (Hb1 : bm_word m1 B (2 * c / 64) = bm_word (w_mem w) B (2 * c / 64)).
  { apply ld64_ext. intros a Ha. apply ld8_poisoned; [lia|]. destruct (chunk_addr_range _ _ _ _ _ Hinv c Hc).
    pose proof (zm_disjoint _ _ _ _ (zinv_mapped _ _ _ _ _ Hinv)). lia. }
  unfold mbind, M_bind at 1. unfold wr64. cbn [w_vm zput_w set_w_zones set_w_mem w_mem].
  rewrite can_access_mapped by (done || by eapply bitmap_word_mapped). rewrite <-Hb1.
  change (st64 m1 _ _) with (put_chunk m1 B c permanent true).
  unfold M_bind at 1. unfold zmod.
  match goal with |- context [zone_at ?w1 zi] => change (zone_at w1 zi) with (zone_at (zput_w zi z1 w) zi) end.
  rewrite zone_at_put. change (set_af_count _ z1) with (released permanent c z).
  set (m2 := put_chunk m1 B c permanent true).
  assert (Hw1 : ∀ m x, zput_w zi x (set_w_mem m (zput_w zi z1 (set_w_mem m1 w))) = zput_w zi x (set_w_mem m w)).
  { intros m x. change (set_w_mem m (zput_w zi z1 (set_w_mem m1 w))) with (zput_w zi z1 (set_w_mem m w)). apply zput_put. }
  change (set_w_mem m2 _) with (set_w_mem m2 (zput_w zi z1 (set_w_mem m1 w))). rewrite Hw1.
  destruct (released_static permanent c z) as (E1 & E2 & E3 & E4 & E5).
  unfold freed_mem in *. fold m1 m2. unfold check_neighbours. destruct DISABLE_CANARY eqn:Hdis; [done|]. cbn [negb when].
  unfold M_bind at 1. rewrite write_canary_eq; rewrite ?zone_at_put, ?E1; [|done|lia|by eapply chunk_mapped].
  replace (canary_mem _ (released permanent c z) (chunk_addr U z c)) with (canary_mem m2 z (chunk_addr U z c))
    by (unfold canary_mem; by rewrite E1, E4).
  reflexivity.
Qed.

(** Freeing a chunk in use comes down to the checks of its neighbours. *)
Lemma free_chunk_run zi c z w permanent :
  let U := UNMASK_USER_PTR z in
  let B := UNMASK_BITMAP_PTR z in
  w_zones w !! zi = Some z → zone_inv (w_vm w) (w_mem w) z → 0 <= c < slots z → chunk_st (w_mem w) B c = ChunkInUse →
  iso_free_chunk_from_zone zi (chunk_addr U z c) permanent w =
  check_neighbours zi B c z (chunk_addr U z c) (zput_w zi (released permanent c z) (set_w_mem (freed_mem permanent (w_mem w) U B c z) w)).
Proof.
  intros U B Hz Hinv Hc Hst. change (zinv (w_vm w) (w_mem w) U B z) in Hinv.
  pose proof (zinv_size _ _ _ _ _ Hinv) as Hs.
  destruct (free_offsets _ _ _ _ _ c Hinv Hc) as (Ho & Hd & Hm & Hb).
  pose proof (slot_word_range z c Hc) as Hw. pose proof (Z.mod_pos_bound (2 * c) 64).
  assert (Hused : bm_bit (w_mem w) B (2 * c) = true).
  { unfold chunk_st in Hst. by destruct (bm_bit _ _ (2 * c)), (bm_bit _ _ (2 * c + 1)). }
  destruct (used_not_cached _ _ _ _ _ Hinv c Hc Hused) as [_ Hni].
  unfold iso_free_chunk_from_zone, mbind, M_bind at 1, zget. rewrite (zone_at_Some w zi z Hz). fold U B. cbv zeta.
  rewrite Ho, Hd, Hm, Hb, shiftr_6, WHICH_BIT_mod. rewrite (proj2 (Z.eqb_neq _ _)) by lia. cbn [negb Z.eqb].
  rewrite (proj2 (Z.leb_gt _ _)) by lia. unfold M_bind at 1. unfold rd64.
  rewrite can_access_mapped by (done || by eapply bitmap_word_mapped).
  change (ld64 (w_mem w) (B + 8 * (2 * c / 64))) with (bm_word (w_mem w) B (2 * c / 64)).
  set (b := bm_word (w_mem w) B (2 * c / 64)). rewrite GET_BIT_spec by lia.
  change (Z.testbit b (2 * c mod 64)) with (bm_bit (w_mem w) B (2 * c)). rewrite Hused. cbn [Z.b2z Z.eqb].
  pose proof (bm_word_range (w_mem w) B (2 * c / 64) : is_u64 b) as Hbu.
  pose proof (free_mark_eq zi c z w permanent b (2 * c mod 64) Hz Hinv Hc Hused Hbu ltac:(lia) Hused) as Hstep.
  cbv zeta in Hstep. fold U in Hstep. unfold mbind in Hstep. unfold M_bind at 1. rewrite Hstep. clear Hstep.
  by apply free_tail_eq.
Qed.

Lemma free_chunk_eq zi c z w permanent :
  let U := UNMASK_USER_PTR z in
  let B := UNMASK_BITMAP_PTR z in
  w_zones w !! zi = Some z → zone_inv (w_vm w) (w_mem w) z → 0 <= c < slots z →
  chunk_st (w_mem w) B c = ChunkInUse → neighbour_ok (w_vm w) (w_mem w) B c z →
  iso_free_chunk_from_zone zi (chunk_addr U z c) permanent w =
  Ret tt (zput_w zi (released permanent c z) (set_w_mem (freed_mem permanent (w_mem w) U B c z) w)).
Proof.
  intros U B Hz Hinv Hc Hst Hn. unfold U. rewrite free_chunk_run by done. fold U B. change (zinv (w_vm w) (w_mem w) U B z) in Hinv.
  unfold check_neighbours. destruct DISABLE_CANARY eqn:Hdis; [done|]. cbn [negb when].
  pose proof (zinv_released _ _ permanent _ _ c _ Hinv Hc Hst) as Hinv'.
  pose proof (freed_mem_effect _ permanent _ _ _ c _ Hinv Hc) as He.
  pose proof (neighbour_ok_effect _ _ _ _ _ _ _ _ _ Hinv Hc He Hn) as Hn'.
  destruct (released_static permanent c z) as (E1 & E2 & E3 & E4 & E5).
  set (w2 := zput_w zi (released permanent c z) (set_w_mem (freed_mem permanent (w_mem w) U B c z) w)).
  pose proof (check_neighbours_ok zi c w2 U B) as Hck. assert (Hw2 : zone_at w2 zi = released permanent c z) by apply zone_at_put.
  cbv zeta in Hck. rewrite Hw2, E1, E2, E5 in Hck. replace (chunk_addr U (released permanent c z) c) with (chunk_addr U z c) in Hck
    by (unfold chunk_addr; by rewrite E1).
  apply Hck; try done. unfold neighbour_ok in *. by rewrite E2, E3, E5.
Qed.
End free.

(** ** Main theorems *)

Section theorems.
Context `{!Kernel, !Config}.

(** C14. Handing out a free slot answers the address of its chunk, inside the zone's user
    pages, marks the chunk in use, leaves the state of every other chunk and every byte
    outside the chunk and the bitmap alone, and keeps the zone invariant. *)
Theorem alloc_bitslot_correct zi c w U B :
  let z := zone_at w zi in
  zinv (w_vm w) (w_mem w) U B z → user_pages_start z = U → bitmap_start z = B →
  free_slot (w_mem w) B z (2 * c) → ¬ (2 * c ∈ live_cache z) → next_free_bit_slot z = BAD_BIT_SLOT →
  ∃ m', _iso_alloc_bitslot_from_zone (2 * c) zi w =
          Ret (chunk_addr U z c) (zput_w zi (allocated z) (set_w_mem m' w)) ∧
    U <= chunk_addr U z c ∧ chunk_addr U z c + chunk_size z <= U + ZONE_USER_SIZE ∧
    (∀ d, 0 <= d < slots z → chunk_st m' B d = if d =? c then ChunkInUse else chunk_st (w_mem w) B d) ∧
    chunk_effect (w_mem w) m' U B c z true false ∧
    zinv (w_vm w) m' U B (allocated z).
Proof.
  intros z Hinv HU HB (Hr & _ & Hb) Hni Hn. assert (Hc : 0 <= c < slots z) by (unfold slots; lia).
  destruct (alloc_slot_eq zi c w U B Hinv HU HB Hc Hb) as (m' & Heq & He). exists m'. split; [done|].
  destruct (chunk_addr_range _ _ _ _ _ Hinv c Hc). split_and!; try done.
  - intros d Hd. by rewrite (effect_chunk_st _ _ _ _ _ _ _ _ d He Hd).
  - apply (zinv_allocated _ (w_mem w) m' U B c); try done. rewrite Hn. change BAD_BIT_SLOT with (-1). lia.
Qed.

(** C15. Freeing a chunk in use marks it as used before, or as retired for ever when the
    free is permanent; no other chunk changes state, no byte outside the chunk and the
    bitmap changes, and the zone invariant holds again. In particular no canary check
    of an intact zone fails. *)
Theorem free_chunk_correct zi c z w permanent :
  let U := UNMASK_USER_PTR z in
  let B := UNMASK_BITMAP_PTR z in
  w_zones w !! zi = Some z → zone_inv (w_vm w) (w_mem w) z → 0 <= c < slots z →
  chunk_st (w_mem w) B c = ChunkInUse → neighbour_ok (w_vm w) (w_mem w) B c z →
  ∃ m' z', iso_free_chunk_from_zone zi (chunk_addr U z c) permanent w =
          Ret tt (zput_w zi z' (set_w_mem m' w)) ∧
    zone_inv (w_vm w) m' z' ∧
    (∀ d, 0 <= d < slots z → chunk_st m' B d =
       if d =? c then (if permanent then ChunkCanary else ChunkWasUsed) else chunk_st (w_mem w) B d) ∧
    chunk_effect (w_mem w) m' U B c z permanent true ∧
    af_count z' = af_count z - 1.
Proof.
  intros U B Hz Hinv Hc Hst Hn. exists (freed_mem permanent (w_mem w) U B c z), (released permanent c z).
  split; [by apply free_chunk_eq|]. pose proof (freed_mem_effect _ permanent _ _ _ c _ Hinv Hc) as He.
  split_and!; [| |done|].
  - unfold zone_inv. destruct (released_ptrs permanent c z) as [-> ->]. by apply zinv_released.
  - intros d Hd. fold U B in He. rewrite (effect_chunk_st _ _ _ _ _ _ _ _ d He Hd). by destruct permanent.
  - pose proof (zinv_af _ _ _ _ _ Hinv) as Haf.
    pose proof (in_use_update_clear (w_mem w) _ _ c z _ _ Hc (ce_bits _ _ _ _ _ _ _ _ He) eq_refl Hst) as Hcl.
    pose proof (in_use_le (w_mem w) (UNMASK_BITMAP_PTR z) z). pose proof (zinv_max _ _ _ _ _ Hinv).
    assert (u32 (af_count z - 1) = af_count z - 1) by (apply u32_small; unfold slots in *; lia).
    unfold released. by destruct (negb permanent && _).
Qed.

Lemma free_rejects_misuse_raw zi p w permanent :
  let z := zone_at w zi in
  let U := UNMASK_USER_PTR z in
  let off := p - U in
  zone_inv (w_vm w) (w_mem w) z → U <= p < 2 ^ 63 →
  (off mod chunk_size z ≠ 0 → iso_free_chunk_from_zone zi p permanent w = Abort ChunkMisaligned) ∧
  (off mod chunk_size z = 0 → slots z <= off / chunk_size z →
     iso_free_chunk_from_zone zi p permanent w = Abort ChunkOutsideBitmap) ∧
  (off mod chunk_size z = 0 → off / chunk_size z < slots z →
     bm_bit (w_mem w) (UNMASK_BITMAP_PTR z) (2 * (off / chunk_size z)) = false →
     iso_free_chunk_from_zone zi p permanent w = Abort DoubleFree).
Proof.
  intros z U off Hinv Hp. pose proof (zinv_size _ _ _ _ _ Hinv). pose proof (zinv_max _ _ _ _ _ Hinv).
  pose proof (zm_user _ _ _ _ (zinv_mapped _ _ _ _ _ Hinv)) as [HU _]. fold U in HU.
  assert (Hoff : u64 (p - U) = off) by (apply u64_small; unfold is_u64, off; lia).
  assert (Hq : 0 <= off / chunk_size z <= off).
  { split; [apply Z.div_pos; lia|]. apply Z.div_le_upper_bound; [lia|]. nia. }
  assert (Hdiv : off / chunk_size z <= 2 ^ 63 / 32).
  { transitivity (off / 32); [apply Z.div_le_compat_l; lia|apply Z.div_le_mono; lia]. }
  change (2 ^ 63 / 32) with (2 ^ 58) in Hdiv.
  assert (Hs : s64 (Z.shiftl (off / chunk_size z) 1) = 2 * (off / chunk_size z)).
  { rewrite Z.shiftl_mul_pow2, s64_small by lia. lia. }
  split_and!; intros Hm; intros; unfold iso_free_chunk_from_zone, mbind, M_bind at 1, zget; fold z U; cbv zeta;
    rewrite Hoff, Hs, shiftr_6, WHICH_BIT_mod, (proj2 (Z.eqb_neq (chunk_size z) 0)) by lia;
    set (c := off / chunk_size z) in *.
  - by rewrite (proj2 (Z.eqb_neq _ 0)) by done.
  - rewrite Hm. cbn [Z.eqb negb]. rewrite (proj2 (Z.leb_le _ _)); [done|].
    apply Z.div_le_lower_bound; unfold slots in *; lia.
  - rewrite Hm. cbn [Z.eqb negb]. pose proof (slot_word_range z c ltac:(lia)).
    rewrite (proj2 (Z.leb_gt _ _)) by lia. unfold M_bind at 1. unfold rd64. pose proof (Z.mod_pos_bound (2 * c) 64).
    rewrite can_access_mapped by (done || by eapply bitmap_word_mapped). rewrite GET_BIT_spec by lia.
    change (Z.testbit _ _) with (bm_bit (w_mem w) (UNMASK_BITMAP_PTR z) (2 * c)).
    match goal with Hb : bm_bit _ _ _ = false |- _ => by rewrite Hb end.
Qed.

(** Every free the bitmap does not justify stops the program: a pointer that is not
    the start of a chunk, a chunk the bitmap does not describe, and a chunk whose in-use
    bit is clear, whether it was freed before or never handed out. *)
Theorem free_rejects_misuse zi p w permanent :
  let z := zone_at w zi in
  let U := UNMASK_USER_PTR z in
  let off := p - U in
  zone_inv (w_vm w) (w_mem w) z → U <= p < 2 ^ 63 →
  (off mod chunk_size z ≠ 0 → iso_free_chunk_from_zone zi p permanent w = Abort ChunkMisaligned) ∧
  (off mod chunk_size z = 0 → slots z <= off / chunk_size z →
     iso_free_chunk_from_zone zi p permanent w = Abort ChunkOutsideBitmap) ∧
  (off mod chunk_size z = 0 → off / chunk_size z < slots z →
     bm_bit (w_mem w) (UNMASK_BITMAP_PTR z) (2 * (off / chunk_size z)) = false →
     iso_free_chunk_from_zone zi p permanent w = Abort DoubleFree).
Proof. apply free_rejects_misuse_raw. Qed.

(** A chunk that was freed cannot be freed again: the second call aborts. *)
Theorem double_free_detected zi c z w permanent :
  let U := UNMASK_USER_PTR z in
  let B := UNMASK_BITMAP_PTR z in
  w_zones w !! zi = Some z → zone_inv (w_vm w) (w_mem w) z → 0 <= c < slots z →
  chunk_st (w_mem w) B c = ChunkInUse → neighbour_ok (w_vm w) (w_mem w) B c z →
  (iso_free_chunk_from_zone zi (chunk_addr U z c) false;;
   iso_free_chunk_from_zone zi (chunk_addr U z c) permanent) w = Abort DoubleFree.
Proof.
  intros U B Hz Hinv Hc Hst Hn. unfold mbind, M_bind.
  pose proof (free_chunk_eq zi c z w false Hz Hinv Hc Hst Hn) as Hf. cbv zeta in Hf. fold U B in Hf. rewrite Hf.
  change (zinv (w_vm w) (w_mem w) U B z) in Hinv.
  pose proof (zinv_released _ _ false _ _ c _ Hinv Hc Hst) as Hinv'.
  pose proof (freed_mem_effect _ false _ _ _ c _ Hinv Hc) as [Hbits _].
  set (w' := zput_w _ _ _). assert (Hz' : zone_at w' zi = released false c z) by apply zone_at_put.
  destruct (released_ptrs false c z) as [HU HB]. destruct (released_static false c z) as (E1 & E2 & E3 & E4 & E5).
  pose proof (zinv_size _ _ _ _ _ Hinv). destruct (chunk_addr_range _ _ _ _ _ Hinv c Hc) as [Hlo Hhi].
  pose proof (zm_user _ _ _ _ (zinv_mapped _ _ _ _ _ Hinv)) as [_ Htop].
  assert (Hoff : chunk_addr U z c - U = c * chunk_size z) by (unfold chunk_addr; lia).
  pose proof (free_rejects_misuse_raw zi (chunk_addr U z c) w' permanent) as Hr. cbv zeta in Hr.
  rewrite Hz', HU, HB, E1, E5 in Hr. fold U B in Hr. rewrite Hoff, Z.mod_mul, Z.div_mul in Hr by lia.
  apply Hr; [unfold zone_inv; by rewrite HU, HB|lia|done|lia|].
  change (w_mem w') with (freed_mem false (w_mem w) U B c z).
  rewrite Hbits, Z.eqb_refl by (unfold slots in *; lia). done.
Qed.
End theorems.
