(* ===== verification/Lookup.v ===== *)
(** * Finding the zone of a pointer

    The chunk lookup table, the thread's zone cache and the linear search of
    src/iso_alloc.c: [search_chunk_lookup_table], [iso_find_zone_range],
    [iso_find_zone_bitmap_range], [populate_zone_cache], [clear_zone_cache]. Whatever the
    table and the cache hint at, the zone found is the one whose pages contain the
    pointer. *)

From S2P Require Import Prelude Words Conf Memory State Util ZoneBits FreeList.

(** A NULL zone pointer stored in the zone cache. *)
Definition NULL_ZONE : Z := -1.

Section model.
Context `{!Kernel, !Config}.

Definition search_chunk_lookup_table (p : Z) : M Z :=
  r ← root;
  w ← get;
  let zone_index := default 0 (w_chunk_lookup_table w !! ADDR_TO_CHUNK_TABLE p) in
  if zones_used r <? zone_index then abort ChunkTableCorrupt else mret zone_index.

(** The two range tests. *)
Definition in_user_pages (p : Z) (z : iso_alloc_zone_t) : bool :=
  (UNMASK_USER_PTR z <=? p) && (p <? UNMASK_USER_PTR z + ZONE_USER_SIZE).
Definition in_bitmap (p : Z) (z : iso_alloc_zone_t) : bool :=
  (UNMASK_BITMAP_PTR z <=? p) && (p <? UNMASK_BITMAP_PTR z + bitmap_size z).

(** The loop over the thread's zone cache, from entry [i] on. *)
Fixpoint find_cached (n : nat) (i : Z) (test : iso_alloc_zone_t → bool) : M (option Z) :=
  match n with
  | O => mret None
  | S n' =>
      w ← get;
      let zi := tzc_zone (nth (Z.to_nat i) (w_zone_cache w) (mk_tzc 0 NULL_ZONE)) in
      z ← zget zi;
      if test z then mret (Some zi) else find_cached n' (i + 1) test
  end.

(** The loop over all zones, from zone [i] on. *)
Fixpoint find_all (n : nat) (i : Z) (test : iso_alloc_zone_t → bool) : M (option Z) :=
  match n with
  | O => mret None
  | S n' =>
      z ← zget i;
      if test z then mret (Some i) else find_all n' (i + 1) test
  end.

Definition find_zone (test : iso_alloc_zone_t → bool) (p : Z) : M (option Z) :=
  zi ← search_chunk_lookup_table p;
  z ← zget zi;
  if test z then mret (Some zi) else
  w ← get;
  c ← find_cached (Z.to_nat (w_zone_cache_count w)) 0 test;
  match c with
  | Some zi => mret (Some zi)
  | None => r ← root; find_all (Z.to_nat (zones_used r)) 0 test
  end.

Definition iso_find_zone_bitmap_range (p : Z) : M (option Z) := find_zone (in_bitmap p) p.
Definition iso_find_zone_range (p : Z) : M (option Z) := find_zone (in_user_pages p) p.

(** [populate_zone_cache]; the build with thread support, where the cache is an array
    of the thread. *)
Definition populate_zone_cache (zi : Z) : M unit :=
  w ← get;
  let cache := w_zone_cache w in
  let count := w_zone_cache_count w in
  if negb (count =? 0) && (tzc_zone (nth (Z.to_nat (count - 1)) cache (mk_tzc 0 NULL_ZONE)) =? zi) then mret tt else
  z ← zget zi;
  if negb (internal z) then mret tt else
  let e := mk_tzc (chunk_size z) zi in
  if count <? ZONE_CACHE_SZ then
    upd (λ w, set_w_zone_cache_count (count + 1) (set_w_zone_cache (<[Z.to_nat count := e]> cache) w))
  else
    let shifted := drop 1 cache ++ drop (Z.to_nat ZONE_CACHE_SZ - 1) cache in
    let n := ZONE_CACHE_SZ - 1 in
    upd (λ w, set_w_zone_cache_count (n + 1) (set_w_zone_cache (<[Z.to_nat n := e]> shifted) w)).

Definition clear_zone_cache : M unit :=
  upd (λ w, set_w_zone_cache_count 0
    (set_w_zone_cache (replicate (Z.to_nat ZONE_CACHE_SZ) (mk_tzc 0 NULL_ZONE)) w)).

(** The scan of the cache before the lock is taken: newest entry first. *)
Fixpoint cached_candidate (n : nat) (cache : list tzc) (size : Z) : option Z :=
  match n with
  | O => None
  | S i => let e := nth i cache (mk_tzc 0 NULL_ZONE) in
           if size <=? tzc_chunk_size e then Some (tzc_zone e) else cached_candidate i cache size
  end.

(** ** [find_suitable_zone] *)

(** The loop that grows [size] until the lookup table has a zone for it. *)
Fixpoint grow_size (fuel : nat) (table : gmap Z Z) (size : Z) : option Z :=
  match fuel with
  | O => None
  | S fuel' =>
      if size <=? ZONE_1024 then
        if default 0 (table !! SZ_TO_ZONE_LOOKUP_IDX size) =? 0
        then grow_size fuel' table (u64 (size + ALIGN_SZ_UP (size + 1)))
        else Some size
      else Some size
  end.

(** The walk along the zones of one size; every step follows [next_sz_index]. The
    second component is the last value of the loop variable [i]. *)
Fixpoint walk_sizes (fuel : nat) (i zones size : Z) : M (option Z * Z) :=
  match fuel with
  | O => nofuel
  | S fuel' =>
      if i <? zones then
        z ← zget i;
        if negb (chunk_size z =? size) then abort LookupSizeMismatch else
        if negb (internal z) then abort LookupPrivateZone else
        u ← is_zone_usable i size;
        if u : bool then mret (Some i, i) else
        z ← zget i;
        if negb (next_sz_index z =? 0) then walk_sizes fuel' (next_sz_index z) zones size
        else mret (None, i)
      else mret (None, i)
  end.

(** The search through all zones. *)
Fixpoint walk_zones (n : nat) (i size : Z) : M (option Z) :=
  match n with
  | O => mret None
  | S n' =>
      z ← zget i;
      if (chunk_size z <? size) || negb (internal z) then walk_zones n' (i + 1) size else
      u ← is_zone_usable i size;
      if u : bool then mret (Some i) else walk_zones n' (i + 1) size
  end.

Definition find_suitable_zone (size : Z) : M (option Z) :=
  let orig_size := size in
  r ← root;
  let used := zones_used r in
  size ← (if STRONG_SIZE_ISOLATION then mret size else
          match grow_size 40 (zone_lookup_table r) size with Some s => mret s | None => nofuel end);
  let i := default 0 (zone_lookup_table r !! SZ_TO_ZONE_LOOKUP_IDX size) in
  '(f, i) ← (if negb (i =? 0) then walk_sizes (S (Z.to_nat used)) i used size else mret (None, i));
  match f with
  | Some zi => mret (Some zi)
  | None =>
      let i := if SMALL_MEM_STARTUP then
                 if (ZONE_512 <=? orig_size) && (orig_size <=? MAX_DEFAULT_ZONE_SZ) then Z.shiftr DEFAULT_ZONE_COUNT 1
                 else if MAX_DEFAULT_ZONE_SZ <? orig_size then DEFAULT_ZONE_COUNT
                 else i
               else 0 in
      walk_zones (Z.to_nat (used - i)) i orig_size
  end.
End model.
