(* ===== verification/MemOps.v ===== *)
(** * Copying and filling memory

    [_iso_alloc_memcpy], [_iso_alloc_memmove] and [_iso_alloc_memset] of
    src/iso_alloc_sanity.c (the targets of src/libc_hook.c): the bounds check against the
    zone the lookup table names, and the copy itself. The scalar loops are modelled; the
    vector code of other processors is not. *)

From S2P Require Import Prelude Words Conf Memory State Util ZoneBits FreeList Lookup.

Section model.
Context `{!Kernel, !Config}.

(** [MEM_SANITY_CHK]: [n] bytes at [p] overrun a chunk of [sz] bytes. *)
Definition MEM_SANITY_CHK (p start sz n : Z) : bool :=
  (start <=? p) && (p <? u64 (start + ZONE_USER_SIZE - n)) && (sz <? n).

(** One test of a pointer, with the zone the chunk lookup table names for it. *)
Definition mem_check (p n : Z) (e : abort_reason) : M unit :=
  zi ← search_chunk_lookup_table p;
  z ← zget zi;
  if MEM_SANITY_CHK p (UNMASK_USER_PTR z) (chunk_size z) n then abort e else mret tt.

Definition __iso_memcpy (dest src n : Z) : M Z := λ w,
  if range_access (w_vm w) dest n && range_access (w_vm w) src n
  then Ret dest (set_w_mem (copy (Z.to_nat n) (w_mem w) dest src) w)
  else Fault.

Definition _iso_alloc_memcpy (dest src n : Z) : M Z :=
  when (MEMCPY_SANITY && (SMALLEST_CHUNK_SZ <? n))
    (mem_check dest n OutOfBoundsWrite;; mem_check src n OutOfBoundsRead);;
  __iso_memcpy dest src n.

(** The loop that copies from the last byte to the first. *)
Fixpoint copy_back (n : nat) (m : gmap Z Z) (dest src : Z) : gmap Z Z :=
  match n with
  | O => m
  | S n' => copy_back n' (<[dest + Z.of_nat n' := ld8 m (src + Z.of_nat n')]> m) dest src
  end.

(** [__builtin_memmove]: all bytes are read before the first is written. *)
Fixpoint move_from (m0 : gmap Z Z) (n : nat) (m : gmap Z Z) (dest src : Z) : gmap Z Z :=
  match n with
  | O => m
  | S n' => move_from m0 n' (<[dest := ld8 m0 src]> m) (dest + 1) (src + 1)
  end.

Definition __iso_memmove (dest src n : Z) : M Z :=
  if MEMCPY_SANITY then
    if dest =? src then mret dest else
    if src <? dest then λ w,
      if range_access (w_vm w) dest n && range_access (w_vm w) src n
      then Ret dest (set_w_mem (copy_back (Z.to_nat n) (w_mem w) dest src) w)
      else Fault
    else __iso_memcpy dest src n
  else λ w,
    if range_access (w_vm w) dest n && range_access (w_vm w) src n
    then Ret dest (set_w_mem (move_from (w_mem w) (Z.to_nat n) (w_mem w) dest src) w)
    else Fault.

Definition _iso_alloc_memmove (dest src n : Z) : M Z :=
  when (MEMCPY_SANITY && (SMALLEST_CHUNK_SZ <? n))
    (mem_check dest n OutOfBoundsWrite;; mem_check src n OutOfBoundsRead);;
  __iso_memmove dest src n.

Definition _iso_alloc_memset (dest b n : Z) : M Z :=
  when (MEMSET_SANITY && (SMALLEST_CHUNK_SZ <? n)) (mem_check dest n OutOfBoundsWrite);;
  __iso_memset dest b n;;
  mret dest.

(** src/libc_hook.c *)
Definition libc_memcpy (dest src n : Z) : M Z := _iso_alloc_memcpy dest src n.
Definition libc_memmove (dest src n : Z) : M Z := _iso_alloc_memmove dest src n.
Definition libc_memset (dest b n : Z) : M Z := _iso_alloc_memset dest b n.
End model.

(** ** Both copies agree with the reference *)

Lemma ld8_move m0 n m dest src x :
  ld8 (move_from m0 n m dest src) x = if decide (dest <= x < dest + Z.of_nat n) then ld8 m0 (src + (x - dest)) else ld8 m x.
Proof.
  revert m dest src. induction n as [|n IH]; intros m dest src; simpl; [by rewrite decide_False by lia|].
  rewrite IH, ld8_insert. repeat case_decide; try lia; try done.
  - f_equal. lia.
  - subst. replace (src + (x - x)) with src by lia. unfold ld8. apply u8_idem.
Qed.

Lemma ld8_copy_back n m dest src x : src < dest →
  ld8 (copy_back n m dest src) x = if decide (dest <= x < dest + Z.of_nat n) then ld8 m (src + (x - dest)) else ld8 m x.
Proof.
  intros Hlt. revert m. induction n as [|n IH]; intros m; simpl; [by rewrite decide_False by lia|].
  rewrite IH, !ld8_insert. repeat case_decide; try lia; try done.
  subst. replace (src + (dest + Z.of_nat n - dest)) with (src + Z.of_nat n) by lia. unfold ld8. apply u8_idem.
Qed.

(** Copying upwards is right as soon as the destination does not start inside the source. *)
Lemma ld8_copy_up n m dest src x : dest < src ∨ src + Z.of_nat n <= dest →
  ld8 (copy n m dest src) x = if decide (dest <= x < dest + Z.of_nat n) then ld8 m (src + (x - dest)) else ld8 m x.
Proof.
  revert m dest src. induction n as [|n IH]; intros m dest src Hd; simpl; [by rewrite decide_False by lia|].
  rewrite IH by lia. rewrite !ld8_insert. repeat case_decide; try lia; try done.
  - f_equal. lia.
  - subst. replace (src + (x - x)) with src by lia. unfold ld8. apply u8_idem.
Qed.

(** C33. [__iso_memmove] on readable and writable ranges, overlapping in any way, returns
    the destination and leaves there the bytes the source held before the call, as
    [__builtin_memmove] does; no other byte changes. *)
Theorem memmove_correct `{!Kernel, !Config} dest src n w : 0 <= n →
  range_access (w_vm w) dest n = true → range_access (w_vm w) src n = true →
  ∃ m, __iso_memmove dest src n w = Ret dest (set_w_mem m w) ∧
    ∀ x, ld8 m x = if decide (dest <= x < dest + n) then ld8 (w_mem w) (src + (x - dest)) else ld8 (w_mem w) x.
Proof.
  intros Hn Hd Hs. unfold __iso_memmove, __iso_memcpy. destruct MEMCPY_SANITY; [|rewrite Hd, Hs].
  - destruct (Z.eqb_spec dest src) as [->|Hne]; [|destruct (Z.ltb_spec src dest); rewrite Hd, Hs].
    + exists (w_mem w). split; [by destruct w|]. intros x. case_decide; [|done]. f_equal. lia.
    + eexists; split; [done|]. intros x. rewrite ld8_copy_back, Z2Nat.id by lia. done.
    + eexists; split; [done|]. intros x. rewrite ld8_copy_up, Z2Nat.id by lia. done.
  - eexists; split; [done|]. intros x. rewrite ld8_move, Z2Nat.id by lia. done.
Qed.
