(* ===== verification/Zones.v ===== *)
(** * Creating and destroying zones

    [create_canary_chunks], [_iso_new_zone], [iso_new_zone], the part of
    [_iso_alloc_destroy_zone_unlocked] that unmaps a zone, and the initialisation of the
    root in src/iso_alloc.c. *)

From S2P Require Import Prelude Words Conf Memory State Util ZoneBits FreeList Chunks.

Section model.
Context `{!Kernel, !Config}.

(** ** Canary chunks *)

(** [n] more draws; the index is cast to [bitmap_index_t], a signed type. *)
Fixpoint canary_loop (n : nat) (zi max_bitmap_idx : Z) : M unit :=
  match n with
  | O => mret tt
  | S n' =>
      v ← us_rand_uint64;
      if max_bitmap_idx =? 0 then undef else
      let bm_idx := s64 (ALIGN_SZ_DOWN (v mod max_bitmap_idx)) in
      let bm_idx := if bm_idx <? 0 then 0 else bm_idx in
      z ← zget zi;
      b ← rd64 (bitmap_start z + 8 * bm_idx);
      if negb (GET_BIT b 0 =? 0) then canary_loop n' zi max_bitmap_idx else
      wr64 (bitmap_start z + 8 * bm_idx) (SET_BIT (SET_BIT b 0) 1);;
      write_canary zi (POINTER_FROM_BITSLOT z (Z.shiftl bm_idx 6));;
      canary_loop n' zi max_bitmap_idx
  end.

Definition create_canary_chunks (zi : Z) : M unit :=
  if DISABLE_CANARY then mret tt else
  z ← zget zi;
  if MAX_DEFAULT_ZONE_SZ <? chunk_size z then mret tt else
  canary_loop (Z.to_nat (Z.shiftr (chunk_count z) CANARY_COUNT_DIV)) zi (max_bitmap_idx z - 1).

(** ** Bitmaps *)

(** The number of entries of [small_bitmap_sizes] but the last. *)
Definition sbsi : nat := length small_bitmap_sizes - 1.

Definition put_bitmap (i : nat) (f : iso_alloc_bitmap_t → iso_alloc_bitmap_t) : M unit :=
  rupd (λ r, set_bitmaps (alter f i (bitmaps r)) r).

(** A bitmap of the page [bitmaps[i]]: [n] more positions from [k] on. [in_use] has 32
    bits, a shift by more is undefined. *)
Fixpoint take_bitmap (n : nat) (k : Z) (i : nat) (zi : Z) : M unit :=
  match n with
  | O => mret tt
  | S n' =>
      r ← root;
      let bm := nth i (bitmaps r) (mk_bitmap 0 0 0) in
      if 32 <=? k then undef else
      if GET_BIT (in_use bm) k =? 0 then
        zmod zi (λ z, set_preallocated_bitmap_idx k (set_bitmap_start (bitmap bm + bitmap_size z * k) z));;
        put_bitmap i (λ b, set_in_use (u32 (SET_BIT (in_use b) k)) b)
      else take_bitmap n' (k + 1) i zi
  end.

(** The loop over the bitmap pages, [n] more from page [i] on. *)
Fixpoint find_bitmap (n : nat) (i : nat) (zi : Z) : M unit :=
  match n with
  | O => mret tt
  | S n' =>
      r ← root;
      w ← get;
      z ← zget zi;
      let bm := nth i (bitmaps r) (mk_bitmap 0 0 0) in
      if (bucket bm =? bitmap_size z) && (in_use bm =? 0) then
        zmod zi (λ z, set_preallocated_bitmap_idx 0 (set_bitmap_start (bitmap bm) z));;
        put_bitmap i (λ b, set_in_use (u32 (SET_BIT (in_use b) 0)) b)
      else
        when (bucket bm =? bitmap_size z)
          (take_bitmap (Z.to_nat (w_page_size w / bitmap_size z)) 0 i zi);;
        z ← zget zi;
        if negb (bitmap_start z =? 0) then mret tt else find_bitmap n' (S i) zi
  end.

Definition map_bitmap (zi : Z) : M unit :=
  z ← zget zi;
  p ← mmap_guarded_rw_pages (bitmap_size z);
  zmod zi (λ z, set_preallocated_bitmap_idx (-1) (set_bitmap_start p z)).

Definition new_bitmap (zi : Z) : M unit :=
  w ← get;
  z ← zget zi;
  if bitmap_size z <=? w_page_size w then
    find_bitmap sbsi 0 zi;;
    z ← zget zi;
    if bitmap_start z =? 0 then map_bitmap zi else mret tt
  else map_bitmap zi.

(** ** User pages *)

(** Random tags, eight at a time. *)
Fixpoint write_tags (n : nat) (a : Z) : M unit :=
  match n with
  | O => mret tt
  | S n' => v ← us_rand_uint64; wr64 a v;; write_tags n' (a + 8)
  end.

Definition map_user_pages (zi : Z) (is_internal : bool) : M unit :=
  w ← get;
  z ← zget zi;
  let page := w_page_size w in
  let total_size := ZONE_USER_SIZE + Z.shiftl page 1 in
  let tag_mapping_size := if MEMORY_TAGGING && negb is_internal then page_len w (u32 (chunk_count z * MEM_TAG_SIZE)) else 0 in
  let total_size := if MEMORY_TAGGING && negb is_internal then total_size + (tag_mapping_size + page) else total_size in
  when (MEMORY_TAGGING && negb is_internal) (zmod zi (set_tagged true));;
  p ← mmap_rw_pages total_size;
  create_guard_page p;;
  z ← zget zi;
  (if MEMORY_TAGGING && tagged z then
     create_guard_page (p + page + tag_mapping_size);;
     zmod zi (set_user_pages_start (p + page + tag_mapping_size + page));;
     write_tags (Z.to_nat (Z.shiftr tag_mapping_size 3)) (p + page)
   else zmod zi (set_user_pages_start (p + page)));;
  create_guard_page
    (if MEMORY_TAGGING && tagged z then page_len w (p + tag_mapping_size + (ZONE_USER_SIZE + page * 2))
     else page_len w (p + (ZONE_USER_SIZE + page)));;
  mret tt.

(** ** [_iso_new_zone] *)

Definition chunk_size_of (size : Z) : Z :=
  if size <? SMALLEST_CHUNK_SZ then SMALLEST_CHUNK_SZ
  else if negb (size mod SZ_ALIGNMENT =? 0) then ALIGN_SZ_UP size else size.

(** The fields computed from the chunk size. *)
Definition new_zone_fields (size : Z) (is_internal : bool) (old : iso_alloc_zone_t) : iso_alloc_zone_t :=
  let count := ZONE_USER_SIZE / size in
  let bsz := count * BITS_PER_CHUNK / BITS_PER_BYTE in
  let bsz := u16 (if 8 <? bsz then bsz else 8) in
  set_max_bitmap_idx (Z.shiftr bsz 3)
    (set_bitmap_size bsz
      (set_chunk_count count
        (set_chunk_size size
          (set_is_full false
            (set_internal is_internal
              (set_next_sz_index (next_sz_index old) zero_zone)))))).

Definition link_zone (zi size : Z) : M unit :=
  r ← root;
  z ← zget zi;
  let current_idx := default 0 (zone_lookup_table r !! SZ_TO_ZONE_LOOKUP_IDX size) in
  rupd (λ r, set_zone_lookup_table (<[SZ_TO_ZONE_LOOKUP_IDX size := index z]> (zone_lookup_table r)) r);;
  if current_idx =? 0 then zmod zi (set_next_sz_index 0)
  else zmod zi (set_next_sz_index current_idx).

Definition _iso_new_zone (size : Z) (is_internal : bool) (idx : Z) : M (option Z) :=
  r ← root;
  if (MAX_ZONES <=? zones_used r) || (MAX_ZONES <=? idx) then abort TooManyZones else
  if SMALL_SIZE_MAX <? size then mret None else
  v ← rand_uint64;
  rupd (set_seed v);;
  let size := chunk_size_of size in
  let zi := if 0 <=? idx then idx else zones_used r in
  zmod zi (new_zone_fields size is_internal);;
  new_bitmap zi;;
  map_user_pages zi is_internal;;
  zmod zi (set_index zi);;
  v ← us_rand_uint64;
  zmod zi (set_canary_secret v);;
  v ← us_rand_uint64;
  zmod zi (set_pointer_mask v);;
  create_canary_chunks zi;;
  fill_free_bit_slots zi;;
  get_next_free_bit_slot zi;;
  z ← zget zi;
  upd (λ w, set_w_chunk_lookup_table (<[ADDR_TO_CHUNK_TABLE (user_pages_start z) := index z]> (w_chunk_lookup_table w)) w);;
  when (is_internal && (idx <? 0)) (link_zone zi size);;
  zmod zi MASK_ZONE_PTRS;;
  when (idx <? 0) (rupd (λ r, set_zones_used (u16 (zones_used r + 1)) r));;
  mret (Some zi).

Definition iso_new_zone (size : Z) (is_internal : bool) : M (option Z) :=
  if SMALL_SIZE_MAX <? size then mret None else
  LOCK_ROOT;;
  z ← _iso_new_zone size is_internal (-1);
  UNLOCK_ROOT;;
  mret z.

(** ** Destruction *)

(** The loop that gives a preallocated bitmap back. *)
Fixpoint release_bitmap (n : nat) (i : nat) (zi : Z) : M unit :=
  match n with
  | O => mret tt
  | S n' =>
      r ← root;
      z ← zget zi;
      let bm := nth i (bitmaps r) (mk_bitmap 0 0 0) in
      if bitmap_size z =? bucket bm then
        put_bitmap i (λ b, set_in_use (u32 (UNSET_BIT (in_use b) (preallocated_bitmap_idx z))) b);;
        __iso_memset (bitmap_start z) 0 (bitmap_size z)
      else release_bitmap n' (S i) zi
  end.

(** [_iso_alloc_destroy_zone_unlocked] after its cache flush. *)
Definition destroy_zone_pages (zi : Z) (replace : bool) : M unit :=
  w ← get;
  let page := w_page_size w in
  zmod zi UNMASK_ZONE_PTRS;;
  z ← zget zi;
  when (MEMORY_TAGGING && tagged z)
    (let s := page_len w (u32 (chunk_count z * MEM_TAG_SIZE)) in
     munmap (user_pages_start z - s - page) (page + s);;
     zmod zi (set_tagged false));;
  upd (λ w, set_w_chunk_lookup_table (<[ADDR_TO_CHUNK_TABLE (user_pages_start z) := 0]> (w_chunk_lookup_table w)) w);;
  (if preallocated_bitmap_idx z =? -1 then
     munmap (bitmap_start z - page) (bitmap_size z + page * 2)
   else release_bitmap sbsi 0 zi);;
  munmap (user_pages_start z - page) (ZONE_USER_SIZE + page * 2);;
  when replace (_iso_new_zone (chunk_size z) true (index z);; mret tt).

(** ** The root *)

Definition iso_alloc_new_root : M unit :=
  p ← mmap_guarded_rw_pages SIZEOF_ROOT;
  if p =? 0 then abort RootInit else
  upd (λ w, set_w_root_null false (set_w_root zero_root w)).

Fixpoint new_default_zones (sizes : list Z) : M unit :=
  match sizes with
  | [] => mret tt
  | s :: sizes' =>
      z ← _iso_new_zone s true (-1);
      match z with None => abort NewZoneFailed | Some _ => new_default_zones sizes' end
  end.

(** The pages of preallocated bitmaps, [n] more from [i] on. *)
Fixpoint prealloc_bitmaps (n i : nat) : M unit :=
  match n with
  | O => mret tt
  | S n' =>
      w ← get;
      p ← mmap_rw_pages (w_page_size w);
      put_bitmap i (λ b, set_bucket (nth i small_bitmap_sizes 0) (set_bitmap p b));;
      prealloc_bitmaps n' (S i)
  end.

Definition iso_alloc_initialize_global_root : M unit :=
  w ← get;
  if negb (w_root_null w) then mret tt else
  iso_alloc_new_root;;
  rupd (set_zone_retirement_shf (_log2 ZONE_ALLOC_RETIRE));;
  let zsz := page_len w (MAX_ZONES * SIZEOF_ZONE + w_page_size w * 2) in
  rupd (set_zones_size zsz);;
  p ← mmap_guarded_rw_pages zsz;
  rupd (set_zones_base p);;
  upd (set_w_zones ∅);;
  mmap_guarded_rw_pages (page_len w (CHUNK_QUARANTINE_SZ * 8));;
  upd (set_w_chunk_quarantine (replicate (Z.to_nat CHUNK_QUARANTINE_SZ) 0));;
  mmap_guarded_rw_pages CHUNK_TO_ZONE_TABLE_SZ;;
  upd (set_w_chunk_lookup_table ∅);;
  new_default_zones default_zones;;
  prealloc_bitmaps (length small_bitmap_sizes - 1 - 1) 0;;
  v ← rand_uint64;
  rupd (set_seed v);;
  v ← rand_uint64;
  rupd (set_zone_handle_mask v);;
  v ← us_rand_uint64;
  rupd (set_big_zone_next_mask v);;
  v ← us_rand_uint64;
  rupd (set_big_zone_canary_secret v).

Definition read_page_size : M unit :=
  upd (λ w, let page := k_page_size (w_k w) in
    set_w_page_size_shift (_log2 page) (set_w_page_size page w)).

Definition _iso_alloc_initialize : M unit :=
  w ← get;
  if negb (w_root_null w) then mret tt else
  read_page_size;;
  iso_alloc_initialize_global_root;;
  upd (λ w, set_w_root_lock false (set_w_big_free_lock false (set_w_big_used_lock false w)));;
  w ← get;
  if NO_ZERO_ALLOCATIONS then
    p ← mmap_pages (w_page_size w) PROT_NONE;
    rupd (set_zero_alloc_page p)
  else mret tt.
End model.
