(* ===== verification/Heap.v ===== *)
(** * The heap invariant

    All zones of the root together: each is well formed, no two share memory, the lookup
    table, the zone cache and the lists of zones of one size only name existing zones of
    the right kind. Changing one zone keeps the others well formed. *)

From S2P Require Import Prelude Words Conf Memory State Util ZoneBits FreeList Chunks Lookup Zones.

Section heap.
Context `{!Kernel, !Config}.

(** The bytes a zone depends on: its user pages and its bitmap, in bytes. *)
Definition footprint (z : iso_alloc_zone_t) (a : Z) : Prop :=
  UNMASK_USER_PTR z <= a < UNMASK_USER_PTR z + ZONE_USER_SIZE ∨
  UNMASK_BITMAP_PTR z <= a < UNMASK_BITMAP_PTR z + bitmap_size z.

Definition zones_disjoint (z z' : iso_alloc_zone_t) : Prop := ∀ a, footprint z a → footprint z' a → False.

(** Lists of zones of one size: a link goes to an older internal zone of the same size. *)
Definition link_ok (w : world) (size i : Z) : Prop :=
  i = 0 ∨ (0 < i < zones_used (w_root w) ∧
           chunk_size (zone_at w i) = size ∧ internal (zone_at w i) = true).

(** A free preallocated bitmap: [n] bytes at [a]. *)
Definition bm_free (bs : list iso_alloc_bitmap_t) (page a n : Z) : Prop :=
  ∃ i bm k, bs !! i = Some bm ∧ n = bucket bm ∧ 0 < n ∧ 0 <= k < page / n ∧
    Z.testbit (in_use bm) k = false ∧ a = bitmap bm + n * k.

(** The pages of preallocated bitmaps: free bitmaps are zero and no zone's. *)
Record bitmaps_ok (w : world) : Prop := {
  bo_slot : ∀ a n x, bm_free (bitmaps (w_root w)) (w_page_size w) a n → a <= x < a + n →
    vm_prot (w_vm w) x = Some PROT_RW ∧ ld8 (w_mem w) x = 0 ∧
    ∀ j, 0 <= j < zones_used (w_root w) → ¬ footprint (zone_at w j) x;
  bo_apart : ∀ i j bi bj, bitmaps (w_root w) !! i = Some bi → bitmaps (w_root w) !! j = Some bj → i ≠ j →
    bucket bi ≠ 0 → bucket bj ≠ 0 →
    bitmap bi + w_page_size w <= bitmap bj ∨ bitmap bj + w_page_size w <= bitmap bi;
  bo_range : ∀ i bm, bitmaps (w_root w) !! i = Some bm → bucket bm ≠ 0 →
    0 < bucket bm <= w_page_size w ∧ 0 < bitmap bm ∧ bitmap bm + w_page_size w <= 2 ^ 47 ∧ 0 <= in_use bm < 2 ^ 32;
}.

(** The bytes that belong to the zones, used or set aside for their bitmaps. *)
Definition zone_owned (w : world) (x : Z) : Prop :=
  (∃ j, 0 <= j < zones_used (w_root w) ∧ footprint (zone_at w j) x) ∨
  (∃ a n, bm_free (bitmaps (w_root w)) (w_page_size w) a n ∧ a <= x < a + n).

(** ** Where zones lie *)

(** [n] rounded up to whole pages. *)
Definition whole_pages (page n : Z) : Z := if n mod page =? 0 then n else n - n mod page + page.

Lemma whole_pages_len w n : page_ok w → 0 <= n <= 2 ^ 63 → page_len w n = whole_pages (w_page_size w) n.
Proof.
  intros Hw Hn. destruct (page_len_spec w n Hw Hn) as [Hl Hm]. pose proof (page_ok_bounds w Hw). apply next_multiple; [lia|lia|done].
Qed.

(** The mappings a zone has for itself: its user pages and, unless it uses a preallocated
    one, its bitmap, each between two guard pages. *)
Definition pages_at (page U B n i x : Z) : Prop :=
  U - page <= x < U + ZONE_USER_SIZE + page ∨ i = -1 ∧ B - page <= x < B + whole_pages page n + page.
Definition zone_pages (page : Z) (z : iso_alloc_zone_t) (x : Z) : Prop :=
  pages_at page (UNMASK_USER_PTR z) (UNMASK_BITMAP_PTR z) (bitmap_size z) (preallocated_bitmap_idx z) x.

(** The page of preallocated bitmaps [bm]. *)
Definition bitmap_page (page : Z) (bm : iso_alloc_bitmap_t) (x : Z) : Prop :=
  bucket bm ≠ 0 ∧ bitmap bm <= x < bitmap bm + page.

(** The zones in [D] as [_iso_new_zone] laid them out: between guard pages of their own, with
    a bitmap of their own or with part [preallocated_bitmap_idx] of the page of that size;
    none of these mappings is shared. *)
Record layouts (w : world) (D : Z → Prop) : Prop := {
  lo_index : ∀ i, D i → index (zone_at w i) = i;
  lo_align : ∀ i, D i → UNMASK_USER_PTR (zone_at w i) mod w_page_size w = 0 ∧
    (preallocated_bitmap_idx (zone_at w i) = -1 → UNMASK_BITMAP_PTR (zone_at w i) mod w_page_size w = 0);
  lo_mapped : ∀ i x, D i → zone_pages (w_page_size w) (zone_at w i) x → vm_prot (w_vm w) x ≠ None;
  lo_apart : ∀ i j x, D i → D j → i ≠ j → zone_pages (w_page_size w) (zone_at w i) x → ¬ zone_pages (w_page_size w) (zone_at w j) x;
  lo_slot : ∀ i, D i → preallocated_bitmap_idx (zone_at w i) ≠ -1 → ∃ l bm, (l < sbsi)%nat ∧
    bitmaps (w_root w) !! l = Some bm ∧ bucket bm = bitmap_size (zone_at w i) ∧
    0 <= preallocated_bitmap_idx (zone_at w i) < w_page_size w / bucket bm ∧ preallocated_bitmap_idx (zone_at w i) < 32 ∧
    UNMASK_BITMAP_PTR (zone_at w i) = bitmap bm + bucket bm * preallocated_bitmap_idx (zone_at w i);
  lo_page : ∀ l bm x, bitmaps (w_root w) !! l = Some bm → bitmap_page (w_page_size w) bm x →
    vm_prot (w_vm w) x = Some PROT_RW ∧ ∀ i, D i → ¬ zone_pages (w_page_size w) (zone_at w i) x;
  lo_buckets : ∀ l l' bm bm', bitmaps (w_root w) !! l = Some bm → bitmaps (w_root w) !! l' = Some bm' →
    bucket bm = bucket bm' → bucket bm ≠ 0 → l = l';
}.

(** The bytes that are mapped for the zones in [D]. *)
Definition reserved (w : world) (D : Z → Prop) (x : Z) : Prop :=
  (∃ j, D j ∧ zone_pages (w_page_size w) (zone_at w j) x) ∨ (∃ l bm, bitmaps (w_root w) !! l = Some bm ∧ bitmap_page (w_page_size w) bm x).

Definition zone_ix (w : world) (i : Z) : Prop := 0 <= i < zones_used (w_root w).
Definition zone_reserved (w : world) (x : Z) : Prop := reserved w (zone_ix w) x.

Record heap_inv (w : world) : Prop := {
  hv_root : w_root_null w = false;
  hv_page : page_ok w;
  hv_used : 0 <= zones_used (w_root w) <= MAX_ZONES;
  hv_zone : ∀ i, 0 <= i < zones_used (w_root w) →
    ∃ z, w_zones w !! i = Some z ∧ zone_inv (w_vm w) (w_mem w) z;
  hv_disj : ∀ i j, 0 <= i < zones_used (w_root w) → 0 <= j < zones_used (w_root w) → i ≠ j →
    zones_disjoint (zone_at w i) (zone_at w j);
  hv_table : ∀ a, let i := default 0 (w_chunk_lookup_table w !! a) in i = 0 ∨ 0 < i < zones_used (w_root w);
  hv_cache_len : length (w_zone_cache w) = 8%nat ∧ 0 <= w_zone_cache_count w <= 8;
  hv_cache : ∀ e, e ∈ take (Z.to_nat (w_zone_cache_count w)) (w_zone_cache w) →
    0 <= tzc_zone e < zones_used (w_root w) ∧
    tzc_chunk_size e = chunk_size (zone_at w (tzc_zone e)) ∧ internal (zone_at w (tzc_zone e)) = true;
  hv_sizes : ∀ size, 0 <= size → size mod 32 = 0 →
    link_ok w size (default 0 (zone_lookup_table (w_root w) !! SZ_TO_ZONE_LOOKUP_IDX size));
  hv_links : ∀ i, 0 <= i < zones_used (w_root w) →
    let n := next_sz_index (zone_at w i) in
    n = 0 ∨ (n < i ∧ link_ok w (chunk_size (zone_at w i)) n);
  hv_bitmaps : bitmaps_ok w;
  hv_owned : ∀ i x, 0 <= i < zones_used (w_root w) → footprint (zone_at w i) x → vm_prot (w_vm w) x ≠ None;
  hv_layouts : layouts w (zone_ix w);
}.

Lemma hv_zone_at w i : heap_inv w → 0 <= i < zones_used (w_root w) →
  w_zones w !! i = Some (zone_at w i) ∧ zone_inv (w_vm w) (w_mem w) (zone_at w i).
Proof. intros Hw Hi. destruct (hv_zone w Hw i Hi) as (z & Hz & Hinv). unfold zone_at. by rewrite Hz. Qed.

(** Two states of a zone with the same place, size and links. *)
Record same_shape (z z' : iso_alloc_zone_t) : Prop := {
  ss_user : UNMASK_USER_PTR z' = UNMASK_USER_PTR z;
  ss_bitmap : UNMASK_BITMAP_PTR z' = UNMASK_BITMAP_PTR z;
  ss_bsize : bitmap_size z' = bitmap_size z;
  ss_size : chunk_size z' = chunk_size z;
  ss_max : max_bitmap_idx z' = max_bitmap_idx z;
  ss_internal : internal z' = internal z;
  ss_next : next_sz_index z' = next_sz_index z;
  ss_index : index z' = index z;
  ss_prealloc : preallocated_bitmap_idx z' = preallocated_bitmap_idx z;
}.

Lemma same_shape_refl z : same_shape z z.
Proof. by constructor. Qed.

Lemma same_shape_cache z z' : same_but_cache z z' → same_shape z z'.
Proof. intros (? & ? & ? & ? & ? & ->). by constructor. Qed.

Lemma same_shape_trans x y z : same_shape x y → same_shape y z → same_shape x z.
Proof. intros [] []. constructor; congruence. Qed.

(** ** Layouts *)

Lemma zone_pages_same page z z' x : same_shape z z' → zone_pages page z' x ↔ zone_pages page z x.
Proof. intros [S1 S2 S3 _ _ _ _ _ S9]. unfold zone_pages. by rewrite S1, S2, S3, S9. Qed.

(** The bitmap pages stay where they are. *)
Record same_pages (bs bs' : list iso_alloc_bitmap_t) : Prop := {
  sp_old : ∀ l b', bs' !! l = Some b' → ∃ b, bs !! l = Some b ∧ bitmap b' = bitmap b ∧ bucket b' = bucket b;
  sp_len : length bs' = length bs;
}.

Lemma same_pages_refl bs : same_pages bs bs.
Proof. constructor; [|done]. intros l b Hb. by exists b. Qed.

Lemma same_pages_new bs bs' l b : same_pages bs bs' → bs !! l = Some b → ∃ b', bs' !! l = Some b' ∧ bitmap b' = bitmap b ∧ bucket b' = bucket b.
Proof.
  intros [Hold Hlen] Hb. destruct (lookup_lt_is_Some_2 bs' l) as [b' Hb']; [rewrite Hlen; by eapply lookup_lt_Some|].
  destruct (Hold l b' Hb') as (b0 & Hb0 & E1 & E2). assert (b0 = b) as -> by congruence. by exists b'.
Qed.

Lemma same_pages_alter bs l f : (∀ b, bitmap (f b) = bitmap b ∧ bucket (f b) = bucket b) → same_pages bs (alter f l bs).
Proof.
  intros Hf. constructor; [|apply length_alter]. intros j b'. destruct (decide (j = l)) as [->|Hne].
  - rewrite list_lookup_alter_eq. intros (b & Hb & ->)%fmap_Some. exists b. split; [done|]. apply Hf.
  - rewrite list_lookup_alter_ne by done. intros Hb. by exists b'.
Qed.

Lemma bitmap_page_same page bs bs' l b' x : same_pages bs bs' → bs' !! l = Some b' → bitmap_page page b' x →
  ∃ b, bs !! l = Some b ∧ bitmap_page page b x.
Proof.
  intros Hs Hb' [Hne Hx]. destruct (sp_old _ _ Hs l b' Hb') as (b & Hb & E1 & E2). exists b. split; [done|].
  unfold bitmap_page. by rewrite <-E1, <-E2.
Qed.

(** Layouts survive everything that neither moves zones or bitmap pages nor touches their
    mappings. *)
Lemma layouts_keep w w' (D D' : Z → Prop) : layouts w D → (∀ j, D' j → D j) → (∀ j, D' j → same_shape (zone_at w j) (zone_at w' j)) →
  w_page_size w' = w_page_size w → same_pages (bitmaps (w_root w)) (bitmaps (w_root w')) →
  (∀ x, reserved w D' x → vm_prot (w_vm w') x = vm_prot (w_vm w) x) → layouts w' D'.
Proof.
  intros [L1 L2 L3 L4 L5 L6 L7] HD Hsh Heq Hbs Hvm.
  assert (Hz : ∀ j x, D' j → zone_pages (w_page_size w') (zone_at w' j) x ↔ zone_pages (w_page_size w) (zone_at w j) x).
  { intros j x Hj. rewrite Heq. apply zone_pages_same; auto. }
  constructor.
  - intros i Hi. rewrite (ss_index _ _ (Hsh i Hi)). auto.
  - intros i Hi. rewrite (ss_user _ _ (Hsh i Hi)), (ss_bitmap _ _ (Hsh i Hi)), (ss_prealloc _ _ (Hsh i Hi)), Heq. auto.
  - intros i x Hi Hx. apply Hz in Hx; [|done]. rewrite Hvm; [by apply (L3 i); auto|]. left. by exists i.
  - intros i j x Hi Hj Hne Hx Hx'. apply Hz in Hx, Hx'; [|done..]. by apply (L4 i j x); auto.
  - intros i Hi. rewrite (ss_bsize _ _ (Hsh i Hi)), (ss_bitmap _ _ (Hsh i Hi)), (ss_prealloc _ _ (Hsh i Hi)), Heq. intros Hne.
    destruct (L5 i (HD i Hi) Hne) as (l & bm & Hl & Hb & A1 & A2 & A3 & A4). destruct (same_pages_new _ _ l bm Hbs Hb) as (b' & Hb' & E1 & E2).
    exists l, b'. rewrite E1, E2. done.
  - intros l b' x Hb' Hx. rewrite Heq in Hx. destruct (bitmap_page_same _ _ _ l b' x Hbs Hb' Hx) as (b & Hb & Hxb). destruct (L6 l b x Hb Hxb) as [M1 M2].
    split; [rewrite Hvm; [done|]; right; by exists l, b|]. intros i Hi. rewrite Hz by done. auto.
  - intros l l' b b' Hb Hb'. destruct (sp_old _ _ Hbs l b Hb) as (c & Hc & _ & ->). destruct (sp_old _ _ Hbs l' b' Hb') as (c' & Hc' & _ & ->).
    by apply (L7 l l' c c').
Qed.

Lemma reserved_same w w' (D D' : Z → Prop) x : (∀ j, D' j → D j) → (∀ j, D' j → same_shape (zone_at w j) (zone_at w' j)) →
  w_page_size w' = w_page_size w → same_pages (bitmaps (w_root w)) (bitmaps (w_root w')) →
  reserved w' D' x → reserved w D x.
Proof.
  intros HD Hsh Heq Hbs [(j & Hj & Hx)|(l & b' & Hb' & Hx)]; rewrite Heq in Hx.
  - left. exists j. split; [auto|]. by apply (zone_pages_same _ (zone_at w j) (zone_at w' j)); auto.
  - right. exists l. by apply (bitmap_page_same _ _ (bitmaps (w_root w')) l b' x).
Qed.

Lemma reserved_mapped w D x : layouts w D → reserved w D x → vm_prot (w_vm w) x ≠ None.
Proof. intros Hl [(j & Hj & Hx)|(l & bm & Hb & Hx)]; [by apply (lo_mapped _ _ Hl j)|]. destruct (lo_page _ _ Hl l bm x Hb Hx). congruence. Qed.

(** The zones' bytes are in their mappings. *)
Lemma bm_free_page bs page a n x : 0 < page → bm_free bs page a n → a <= x < a + n →
  ∃ l bm, bs !! l = Some bm ∧ bucket bm ≠ 0 ∧ bitmap bm <= x < bitmap bm + page.
Proof.
  intros Hp (l & bm & k & Hl & -> & Hn & Hk & _ & ->) Hx. exists l, bm. split; [done|]. split; [lia|].
  pose proof (Z.mul_div_le page (bucket bm) Hn). nia.
Qed.

Lemma footprint_reserved w D i x : page_ok w → layouts w D → D i → 0 < bitmap_size (zone_at w i) <= 2 ^ 32 → footprint (zone_at w i) x →
  zone_pages (w_page_size w) (zone_at w i) x ∨
  preallocated_bitmap_idx (zone_at w i) ≠ -1 ∧ ∃ l bm, bitmaps (w_root w) !! l = Some bm ∧ bitmap_page (w_page_size w) bm x.
Proof.
  intros Hp Hl Hi Hbs [Hx|Hx]; pose proof (page_ok_bounds w Hp); [left; left; lia|].
  destruct (decide (preallocated_bitmap_idx (zone_at w i) = -1)) as [Hn|Hn].
  - left. right. split; [done|]. destruct (page_len_spec w (bitmap_size (zone_at w i)) Hp) as [Hpl _]; [lia|]. rewrite whole_pages_len in Hpl by (done || lia). lia.
  - right. split; [done|]. destruct (lo_slot _ _ Hl i Hi Hn) as (l & bm & _ & Hb & A1 & A2 & A3 & A4). exists l, bm. split; [done|].
    unfold bitmap_page. pose proof (Z.mul_div_le (w_page_size w) (bucket bm)). split; [lia|]. nia.
Qed.

(** The parts of the process the invariant does not mention. *)
Lemma bitmaps_ok_same w w' : bitmaps_ok w → w_mem w' = w_mem w → w_vm w' = w_vm w → w_zones w' = w_zones w →
  w_root w' = w_root w → w_page_size w' = w_page_size w → bitmaps_ok w'.
Proof.
  intros [B1 B2 B3] Hm Hv Hz Hr Hp. assert (Hat : ∀ j, zone_at w' j = zone_at w j) by (intros j; unfold zone_at; by rewrite Hz).
  constructor; rewrite ?Hm, ?Hv, ?Hr, ?Hp; [|done..]. intros a n x Hf Hx. setoid_rewrite Hat. by apply (B1 a n).
Qed.

Lemma heap_inv_same w w' : heap_inv w → w_mem w' = w_mem w → w_vm w' = w_vm w → w_zones w' = w_zones w →
  w_root w' = w_root w → w_root_null w' = w_root_null w → page_ok w' → w_page_size w' = w_page_size w →
  w_chunk_lookup_table w' = w_chunk_lookup_table w →
  w_zone_cache w' = w_zone_cache w → w_zone_cache_count w' = w_zone_cache_count w → heap_inv w'.
Proof.
  intros [A1 A2 A3 A4 A5 A6 A7 A8 A9 A10 A11 A12 A13] Hm Hv Hz Hr Hn Hp Hps Ht Hc Hcc.
  assert (Hat : ∀ j, zone_at w' j = zone_at w j) by (intros j; unfold zone_at; by rewrite Hz).
  constructor; unfold link_ok in *; rewrite ?Hm, ?Hv, ?Hz, ?Hr, ?Hn, ?Ht, ?Hc, ?Hcc; try done.
  - intros i j. rewrite !Hat. apply A5.
  - intros e. rewrite Hat. apply A8.
  - intros size. rewrite Hat. apply A9.
  - intros i. rewrite !Hat. apply A10.
  - by apply (bitmaps_ok_same w).
  - intros i x. rewrite Hat. apply A12.
  - unfold zone_ix. rewrite Hr. apply (layouts_keep w _ (zone_ix w)); try done; [intros j _; rewrite Hat; apply same_shape_refl|
      rewrite Hr; apply same_pages_refl|by rewrite Hv].
Qed.

Lemma heap_inv_root_lock b w : heap_inv w → heap_inv (set_w_root_lock b w).
Proof. intros Hw. apply (heap_inv_same w); try done. apply Hw. Qed.

(** The fields of the root the invariant does not mention. *)
Lemma heap_inv_root r' w : heap_inv w → zones_used r' = zones_used (w_root w) →
  zone_lookup_table r' = zone_lookup_table (w_root w) → bitmaps r' = bitmaps (w_root w) → heap_inv (set_w_root r' w).
Proof.
  intros [A1 A2 A3 A4 A5 A6 A7 A8 A9 A10 [B1 B2 B3] A12 A13] Hu Ht Hb.
  constructor; unfold link_ok in *; simpl; rewrite ?Hu, ?Ht; try done; [constructor; simpl; rewrite ?Hu, ?Hb; done|].
  unfold zone_ix. simpl. rewrite Hu. apply (layouts_keep w _ (zone_ix w)); try done.
  simpl. rewrite Hb. apply same_pages_refl.
Qed.

Lemma heap_inv_seed s w : heap_inv w → heap_inv (set_w_root (set_seed s (w_root w)) w).
Proof. intros Hw. by apply heap_inv_root. Qed.

Lemma in_user_pages_spec p z : in_user_pages p z = true ↔ UNMASK_USER_PTR z <= p < UNMASK_USER_PTR z + ZONE_USER_SIZE.
Proof. unfold in_user_pages. rewrite andb_true_iff, Z.leb_le, Z.ltb_lt. done. Qed.

(** ** Finding a zone *)

Section find.
Variables (w : world) (test : iso_alloc_zone_t → bool).

Lemma find_all_spec n i :
  ∃ r, find_all n i test w = Ret r w ∧
    match r with
    | Some j => i <= j < i + Z.of_nat n ∧ test (zone_at w j) = true
    | None => ∀ j, i <= j < i + Z.of_nat n → test (zone_at w j) = false
    end.
Proof.
  revert i. induction n as [|n IH]; intros i; cbn [find_all].
  { exists None. split; [reflexivity|]. lia. }
  unfold mbind, M_bind, zget. destruct (test (zone_at w i)) eqn:Ht.
  - exists (Some i). split; [reflexivity|]. split; [lia|done].
  - destruct (IH (i + 1)) as (r & -> & Hr). exists r. split; [done|]. destruct r as [j|]; [intuition lia|].
    intros j Hj. destruct (decide (j = i)) as [->|]; [done|]. apply Hr. lia.
Qed.

Lemma find_cached_spec n i :
  0 <= i → i + Z.of_nat n <= Z.of_nat (length (w_zone_cache w)) →
  ∃ r, find_cached n i test w = Ret r w ∧
    ∀ j, r = Some j → test (zone_at w j) = true ∧
      ∃ e, e ∈ take (Z.to_nat (i + Z.of_nat n)) (w_zone_cache w) ∧ tzc_zone e = j.
Proof.
  revert i. induction n as [|n IH]; intros i Hi Hn; cbn [find_cached].
  { exists None. split; [reflexivity|]. done. }
  unfold mbind, M_bind, zget, get. destruct (lookup_lt_is_Some_2 (w_zone_cache w) (Z.to_nat i)) as [e He]; [lia|].
  rewrite nth_lookup, He. cbn [from_option id]. destruct (test (zone_at w (tzc_zone e))) eqn:Ht.
  - exists (Some (tzc_zone e)). split; [done|]. intros j [= <-]. split; [done|]. exists e. split; [|done].
    apply list_elem_of_lookup. exists (Z.to_nat i). rewrite lookup_take, decide_True by lia. done.
  - destruct (IH (i + 1)) as (r & -> & Hr); [lia..|]. exists r. split; [done|]. intros j Hj.
    destruct (Hr j Hj) as [Hj1 (e' & He' & Hj2)]. split; [done|]. exists e'. split; [|done].
    replace (i + Z.of_nat (S n)) with (i + 1 + Z.of_nat n) by lia. done.
Qed.
End find.

(** The search answers a zone that passes the test, or that there is none; the table
    and the cache only make it faster. *)
Lemma find_zone_spec test p w : heap_inv w → 0 < zones_used (w_root w) →
  ∃ r, find_zone test p w = Ret r w ∧
    match r with
    | Some j => 0 <= j < zones_used (w_root w) ∧ test (zone_at w j) = true
    | None => ∀ j, 0 <= j < zones_used (w_root w) → test (zone_at w j) = false
    end.
Proof.
  intros Hw Hpos. pose proof (hv_root w Hw) as Hr. pose proof (hv_used w Hw) as Hu.
  pose proof (hv_table w Hw (ADDR_TO_CHUNK_TABLE p)) as Ht. cbv zeta in Ht. unfold find_zone, search_chunk_lookup_table, mbind, M_bind, root, get, zget.
  rewrite Hr. rewrite (proj2 (Z.ltb_ge _ _)) by lia. cbn [mret M_ret].
  set (i := default 0 _) in *. destruct (test (zone_at w i)) eqn:Hti; [exists (Some i); split_and!; done || lia|].
  destruct (hv_cache_len w Hw) as [Hl Hc].
  destruct (find_cached_spec w test (Z.to_nat (w_zone_cache_count w)) 0) as (r & Hfc & Hres); [lia|lia|].
  rewrite Hfc. destruct r as [j|].
  - exists (Some j). destruct (Hres j eq_refl) as [Hj (e & He & <-)]. split; [done|]. split; [|done].
    apply (hv_cache w Hw). by rewrite Z.add_0_l, Z2Nat.id in He by lia.
  - rewrite Hr. destruct (find_all_spec w test (Z.to_nat (zones_used (w_root w))) 0) as (r & Hfa & Hres'). rewrite Hfa.
    exists r. split; [done|]. rewrite Z2Nat.id, Z.add_0_l in Hres' by lia. done.
Qed.

(** C18. [iso_find_zone_range] answers zone [i] exactly when [i] is a zone of the root whose
    user pages contain the pointer, whatever the lookup table and the thread's zone cache
    suggest first; when no zone contains it the answer is NULL. *)
Theorem iso_find_zone_range_correct p w : heap_inv w → 0 < zones_used (w_root w) →
  ∃ r, iso_find_zone_range p w = Ret r w ∧
    ∀ i, r = Some i ↔
      0 <= i < zones_used (w_root w) ∧ UNMASK_USER_PTR (zone_at w i) <= p < UNMASK_USER_PTR (zone_at w i) + ZONE_USER_SIZE.
Proof.
  intros Hw Hpos. destruct (find_zone_spec (in_user_pages p) p w Hw Hpos) as (r & Hf & Hr). exists r. split; [done|].
  intros i. rewrite <-in_user_pages_spec. destruct r as [j|].
  - destruct Hr as [Hj Ht]. split; [by intros [= ->]|]. intros [Hi Hti]. destruct (decide (i = j)) as [->|Hne]; [done|].
    exfalso. apply in_user_pages_spec in Ht, Hti. by apply (hv_disj w Hw i j Hi Hj Hne p); left.
  - split; [done|]. intros [Hi Hti]. by rewrite Hr in Hti.
Qed.

(** ** Changing one zone *)

Lemma footprint_zinv z a vm m : zone_inv vm m z →
  (∃ c, 0 <= c < slots z ∧ chunk_addr (UNMASK_USER_PTR z) z c <= a < chunk_addr (UNMASK_USER_PTR z) z c + chunk_size z) ∨
  UNMASK_BITMAP_PTR z <= a < UNMASK_BITMAP_PTR z + 8 * max_bitmap_idx z → footprint z a.
Proof.
  intros Hinv [(c & Hc & Ha)|Ha].
  - left. destruct (chunk_addr_range _ _ _ _ _ Hinv c Hc). lia.
  - right. pose proof (zone_max_idx _ (zinv_geom _ _ _ _ _ Hinv)). lia.
Qed.

(** A zone is well formed in every memory that agrees with the old one on its bitmap and
    on the chunks that carry a canary. *)
Lemma zone_inv_agree vm m m' z : zone_inv vm m z →
  (∀ a, UNMASK_BITMAP_PTR z <= a < UNMASK_BITMAP_PTR z + 8 * max_bitmap_idx z → ld8 m' a = ld8 m a) →
  (∀ c a, 0 <= c < slots z → bm_bit m (UNMASK_BITMAP_PTR z) (2 * c + 1) = true →
    chunk_addr (UNMASK_USER_PTR z) z c <= a < chunk_addr (UNMASK_USER_PTR z) z c + chunk_size z → ld8 m' a = ld8 m a) →
  zone_inv vm m' z.
Proof.
  intros Hinv Hbm Hch.
  assert (Hbit : ∀ t, 0 <= t < 64 * max_bitmap_idx z → bm_bit m' (UNMASK_BITMAP_PTR z) t = bm_bit m (UNMASK_BITMAP_PTR z) t).
  { intros t Ht. by apply (bm_bit_ext _ _ _ (max_bitmap_idx z)). }
  assert (Hfs : ∀ s, free_slot m' (UNMASK_BITMAP_PTR z) z s ↔ free_slot m (UNMASK_BITMAP_PTR z) z s).
  { intros s. unfold free_slot. split; intros (Hs & He & Hb); split_and!; try done; try lia; [rewrite <-Hbit|rewrite Hbit]; done. }
  pose proof Hinv as [Hg Hm Hc Hcan Hsec Haf]. constructor; try done.
  - destruct Hc as [H1 H2 H3 H4 H5 H6 H7]. constructor; try done.
    + eapply list.Forall_impl; [exact H4|]. intros s. by rewrite Hfs.
    + destruct H6 as [|[H6a H6b]]; [by left|right]. by rewrite Hfs.
    + intros Hfull. destruct (H7 Hfull) as [H7a H7b]. split; [done|]. intros s. by rewrite Hfs.
  - intros Hd c Hcr Hb. rewrite Hbit in Hb by (unfold slots in *; lia). destruct (Hcan Hd c Hcr Hb) as [Hc1 Hc2].
    pose proof (zg_size _ Hg). split; [rewrite <-Hc1|rewrite <-Hc2]; apply ld64_ext; intros a Ha; apply (Hch c); try done; unfold chunk_addr; lia.
  - rewrite Haf. f_equal. f_equal. unfold in_use_chunks. apply filter_ext_in. intros c Hcr.
    apply list_elem_of_In, elem_of_seqZ in Hcr. unfold chunk_st, slots in *. by rewrite !Hbit by lia.
Qed.

Lemma zone_inv_ext vm m m' z : zone_inv vm m z → (∀ a, footprint z a → ld8 m' a = ld8 m a) → zone_inv vm m' z.
Proof.
  intros Hinv Hf. apply (zone_inv_agree vm m); [done| |].
  - intros a Ha. eapply Hf, footprint_zinv; [exact Hinv|by right].
  - intros c a Hc _ Ha. eapply Hf, footprint_zinv; [exact Hinv|left; by exists c].
Qed.

Lemma same_shape_footprint z z' a : same_shape z z' → footprint z' a ↔ footprint z a.
Proof. intros []. unfold footprint. by rewrite ss_user0, ss_bitmap0, ss_bsize0. Qed.

(** The world after zone [i] became [z'], memory [m'], and random numbers were drawn. *)
Definition zone_update (i : Z) (z' : iso_alloc_zone_t) (m' : gmap Z Z) (k : kst) (s : Z) (w : world) : world :=
  zput_w i z' (set_w_mem m' (rng k s w)).

Lemma zone_at_update i z' m' k s w j :
  zone_at (zone_update i z' m' k s w) j = if decide (j = i) then z' else zone_at w j.
Proof.
  unfold zone_update. case_decide as Hd; [subst; apply zone_at_put|]. rewrite zone_at_put_ne by done. done.
Qed.

Lemma heap_inv_update i z' m' k s w : heap_inv w → 0 <= i < zones_used (w_root w) →
  zone_inv (w_vm w) m' z' → same_shape (zone_at w i) z' →
  (∀ a, ¬ footprint (zone_at w i) a → ld8 m' a = ld8 (w_mem w) a) → page_ok (set_w_k k w) →
  heap_inv (zone_update i z' m' k s w).
Proof.
  intros Hw Hi Hinv Hs Hm Hk. pose proof (zone_at_update i z' m' k s w) as Hat.
  assert (Hshape : ∀ j, same_shape (zone_at w j) (zone_at (zone_update i z' m' k s w) j)).
  { intros j. rewrite Hat. case_decide as Hd; [by subst|]. by constructor. }
  constructor; try done; try apply Hw.
  - intros j Hj. change (w_zones _) with (<[i := z']> (w_zones w)). destruct (decide (j = i)) as [->|Hne].
    + exists z'. rewrite lookup_insert_eq. done.
    + rewrite lookup_insert_ne by done. destruct (hv_zone_at w j Hw Hj) as [Hz Hzi]. exists (zone_at w j). split; [done|].
      apply (zone_inv_ext _ (w_mem w)); [done|]. intros a Ha. apply Hm. intros Hb.
      by apply (hv_disj w Hw j i Hj Hi Hne a).
  - intros j l Hj Hl Hne a. rewrite (same_shape_footprint _ _ _ (Hshape j)), (same_shape_footprint _ _ _ (Hshape l)).
    by apply (hv_disj w Hw).
  - intros e He. destruct (hv_cache w Hw e He) as (A1 & A2 & A3).
    split; [done|]. rewrite (ss_size _ _ (Hshape _)), (ss_internal _ _ (Hshape _)). done.
  - intros size Hsz Hm32. destruct (hv_sizes w Hw size Hsz Hm32) as [A0|(A1 & A2 & A3)]; [by left|right].
    split; [done|]. rewrite (ss_size _ _ (Hshape _)), (ss_internal _ _ (Hshape _)). done.
  - intros j Hj. rewrite (ss_next _ _ (Hshape j)), (ss_size _ _ (Hshape j)).
    destruct (hv_links w Hw j Hj) as [A0|(A1 & [A2|(A2 & A3 & A4)])]; [by left|left; lia|right]. split; [done|]. right.
    split; [done|]. rewrite (ss_size _ _ (Hshape _)), (ss_internal _ _ (Hshape _)). done.
  - destruct (hv_bitmaps w Hw) as [B1 B2 B3]. constructor; [|done..]. intros a n x Hf Hx. destruct (B1 a n x Hf Hx) as (C1 & C2 & C3).
    split_and!; [done| |].
    + change (w_mem _) with m'. rewrite Hm; [done|]. by apply C3.
    + intros j Hj. rewrite (same_shape_footprint _ _ _ (Hshape j)). by apply C3.
  - intros j x Hj. rewrite (same_shape_footprint _ _ _ (Hshape j)). by apply (hv_owned w Hw).
  - apply (layouts_keep w _ (zone_ix w)); try done; [apply Hw|apply same_pages_refl].
Qed.

(** Steps that only touch caches and random numbers. *)
Record quiet (w w' : world) : Prop := {
  q_mem : w_mem w' = w_mem w;
  q_vm : w_vm w' = w_vm w;
  q_root : ∃ s, w_root w' = set_seed s (w_root w);
  q_zones : ∀ j, same_but_cache (zone_at w j) (zone_at w' j);
  q_bigs : w_bigs w' = w_bigs w;
  q_table : w_chunk_lookup_table w' = w_chunk_lookup_table w;
  q_quar : w_chunk_quarantine w' = w_chunk_quarantine w;
  q_cache : w_zone_cache w' = w_zone_cache w ∧ w_zone_cache_count w' = w_zone_cache_count w;
  q_locks : w_root_lock w' = w_root_lock w ∧ w_big_free_lock w' = w_big_free_lock w ∧ w_big_used_lock w' = w_big_used_lock w;
  q_page : w_page_size w' = w_page_size w;
}.

Lemma quiet_refl w : quiet w w.
Proof.
  constructor; try done; [|intros; apply same_but_cache_refl]. exists (seed (w_root w)). unfold set_seed. by destruct (w_root w).
Qed.

Lemma quiet_trans w1 w2 w3 : quiet w1 w2 → quiet w2 w3 → quiet w1 w3.
Proof.
  intros [A1 A2 [s A3] A4 A5 A6 A7 A8 A9 A10] [B1 B2 [s' B3] B4 B5 B6 B7 B8 B9 B10]. constructor; try congruence.
  - exists s'. rewrite B3, A3. done.
  - intros j. by eapply same_but_cache_trans.
  - naive_solver congruence.
  - naive_solver congruence.
Qed.

Lemma quiet_used w w' : quiet w w' → zones_used (w_root w') = zones_used (w_root w).
Proof. intros [_ _ [s ->] _ _ _ _ _ _ _]. done. Qed.

Context `{!KernelLaws}.

Lemma wp_usable_heap (E : failure → Prop) i size w Q : heap_inv w → 0 <= i < zones_used (w_root w) →
  (∀ e, resource e → E e) →
  (∀ b w', heap_inv w' → quiet w w' →
     (b = true → free_slot (w_mem w') (UNMASK_BITMAP_PTR (zone_at w' i)) (zone_at w' i) (next_free_bit_slot (zone_at w' i))) →
     (b = true → size_fits (zone_at w i) size = true) → Q b w') →
  wp E (is_zone_usable i size) Q w.
Proof.
  intros Hw Hi HE HQ. destruct (hv_zone_at w i Hw Hi) as [Hz Hinv].
  apply (wp_is_zone_usable E i size (zone_at w i)); try done; [apply Hw..|].
  intros b z' k s [Hs Hinv' Hiff Hnext] Hk.
  assert (Hshape : same_shape (zone_at w i) z') by by apply same_shape_cache.
  change (zput_w i z' (rng k s w)) with (zone_update i z' (w_mem w) k s w).
  pose proof (zone_at_update i z' (w_mem w) k s w) as Hat. apply HQ.
  - by apply heap_inv_update.
  - constructor; try done; [by exists s|]. intros j. rewrite Hat. case_decide as Hd; [by subst|apply same_but_cache_refl].
  - intros Hb. rewrite Hat, decide_True by done. rewrite (ss_bitmap _ _ Hshape).
    destruct (Hnext Hb) as (A1 & A2). unfold free_slot. by rewrite (ss_max _ _ Hshape).
  - intros Hb. by apply Hiff.
Qed.
End heap.
