(* ===== verification/Search.v ===== *)
(** * Searching memory for pointers

    src/iso_alloc_search.c: [_iso_alloc_ptr_search] replaces the first copy of a freed
    pointer found in the zones by a pointer to a page that faults (a build with
    [UAF_PTR_PAGE]; the scalar loop), and the experimental [_iso_alloc_search_stack] looks
    for pointers into zones and bitmaps on the stack. *)

From S2P Require Import Prelude Words Conf Memory State Util ZoneBits FreeList Chunks Lookup Heap.

Section model.
Context `{!Kernel, !Config}.

(** [while(search <= tail_end)]: eight bytes at every address. *)
Fixpoint search_range (fuel : nat) (search tail_end n uaf_ptr_page : Z) : M (option Z) :=
  match fuel with
  | O => nofuel
  | S fuel' =>
      if search <=? tail_end then
        v ← rd64 search;
        if v =? n then wr64 search uaf_ptr_page;; mret (Some search)
        else search_range fuel' (search + 1) tail_end n uaf_ptr_page
      else mret None
  end.

(** The loop over the zones, [k] more from [i] on; the fuel covers all user pages. *)
Fixpoint search_zones (k : nat) (i n uaf_ptr_page : Z) : M Z :=
  match k with
  | O => mret 0
  | S k' =>
      z ← zget i;
      let search := UNMASK_USER_PTR z in
      let tail_end := search + ZONE_USER_SIZE - 8 in
      r ← search_range (Z.to_nat ZONE_USER_SIZE) search tail_end n uaf_ptr_page;
      match r with Some a => mret a | None => search_zones k' (i + 1) n uaf_ptr_page end
  end.

(** [uaf_ptr_page] is the field of the root. *)
Definition _iso_alloc_ptr_search (uaf_ptr_page n : Z) : M Z :=
  r ← root;
  let n := if MEMORY_TAGGING then Z.land n TAGGED_PTR_MASK else n in
  search_zones (Z.to_nat (zones_used r)) 0 n uaf_ptr_page.

(** The body of the loop of [_iso_alloc_search_stack] for a value [p] that may be a
    pointer; [true] when it leaves by [continue], before the look into the bitmaps. The
    offset is a difference of pointers to eight bytes. *)
Definition check_stack_zone (p zi : Z) : M bool :=
  zmod zi UNMASK_ZONE_PTRS;;
  if negb (IS_ALIGNED p =? 0) then abort StackUnaligned else
  z ← zget zi;
  let chunk_offset := (p - user_pages_start z) / 8 in
  if negb (chunk_offset mod chunk_size z =? 0) then zmod zi MASK_ZONE_PTRS;; mret true else
  let chunk_number := chunk_offset / chunk_size z in
  let bit_slot := chunk_number * BITS_PER_CHUNK in
  let dwords_to_bit_slot := bit_slot / BITS_PER_QWORD in
  if bitmap_start z + bitmap_size z <=? bitmap_start z + dwords_to_bit_slot then zmod zi MASK_ZONE_PTRS;; mret true else
  rd64 (bitmap_start z + 8 * dwords_to_bit_slot);;
  zmod zi MASK_ZONE_PTRS;;
  mret false.

Definition check_stack_value (p : Z) : M unit :=
  zone ← iso_find_zone_range p;
  skip ← match zone with Some zi => check_stack_zone p zi | None => mret false end;
  if skip : bool then mret tt else
  zone ← iso_find_zone_bitmap_range p;
  match zone with Some _ => abort StackBitmapPointer | None => mret tt end.

(** Values that are not looked at: too small, too large, or multiples of 16 MiB. *)
Definition unlikely_pointer (v : Z) : bool :=
  (v <=? 0xffffffff) || (0x800000000000 <=? v) || (Z.land v 0xffffff =? 0).

(** The loop, from [current] down to the address of a local variable. *)
Fixpoint search_stack (fuel : nat) (current stack_end : Z) : M unit :=
  match fuel with
  | O => nofuel
  | S fuel' =>
      if stack_end <? current then
        v ← rd64 current;
        if unlikely_pointer v then search_stack fuel' (current - 1) stack_end else
        check_stack_value v;;
        search_stack fuel' (current - 1) stack_end
      else mret tt
  end.

Definition _iso_alloc_search_stack (environ stack_end stack_start : Z) : M unit :=
  let stack_start := if stack_start =? 0 then environ else stack_start in
  if stack_start =? 0 then mret tt else
  search_stack (S (Z.to_nat (stack_start - stack_end))) stack_start stack_end.
End model.

(** ** The pointer search *)

Section theorems.
Context `{!Kernel, !Config}.

(** [a] is the first address from [lo] on, up to [hi], that holds [n]. *)
Definition first_copy (m : gmap Z Z) (n lo hi a : Z) : Prop :=
  lo <= a <= hi ∧ ld64 m a = n ∧ ∀ b, lo <= b < a → ld64 m b ≠ n.

Lemma search_range_run fuel search tail_end n page w : mapped_rw (w_vm w) search (tail_end + 8 - search) →
  (Z.to_nat (tail_end + 1 - search) < fuel)%nat →
  (∃ a, first_copy (w_mem w) n search tail_end a ∧
     search_range fuel search tail_end n page w = Ret (Some a) (set_w_mem (st64 (w_mem w) a page) w)) ∨
  (∀ a, search <= a <= tail_end → ld64 (w_mem w) a ≠ n) ∧ search_range fuel search tail_end n page w = Ret None w.
Proof.
  revert search. induction fuel as [|fuel IH]; intros search Hm Hf; [lia|]. cbn [search_range].
  destruct (Z.leb_spec search tail_end) as [Hle|Hgt]; [|right; split; [lia|done]].
  assert (Hm8 : mapped_rw (w_vm w) search 8) by (eapply mapped_rw_sub; [exact Hm|lia..]).
  assert (Hrd : rd64 search w = Ret (ld64 (w_mem w) search) w) by (unfold rd64; by rewrite can_access_mapped).
  unfold mbind, M_bind. rewrite Hrd. destruct (Z.eqb_spec (ld64 (w_mem w) search) n) as [Heq|Hne].
  - left. exists search. split; [split_and!; [lia|lia|done|lia]|]. unfold wr64. by rewrite can_access_mapped.
  - destruct (IH (search + 1)) as [(a & (Ha & Hn & Hb) & Hrun)|[Hno Hrun]]; [eapply mapped_rw_sub; [exact Hm|lia..]|lia| |].
    + left. exists a. split; [|done]. split; [lia|]. split; [done|]. intros b Hbr. destruct (decide (b = search)) as [->|]; [done|]. apply Hb. lia.
    + right. split; [|done]. intros a Ha. destruct (decide (a = search)) as [->|]; [done|]. apply Hno. lia.
Qed.

(** No eight bytes of the user pages of zone [j] are [n]. *)
Definition no_copy (w : world) (n j : Z) : Prop :=
  ∀ a, UNMASK_USER_PTR (zone_at w j) <= a <= UNMASK_USER_PTR (zone_at w j) + ZONE_USER_SIZE - 8 → ld64 (w_mem w) a ≠ n.

Lemma search_zones_run k i n page w : heap_inv w → 0 <= i → i + Z.of_nat k <= zones_used (w_root w) →
  (∃ j a, i <= j < i + Z.of_nat k ∧ (∀ l, i <= l < j → no_copy w n l) ∧
     first_copy (w_mem w) n (UNMASK_USER_PTR (zone_at w j)) (UNMASK_USER_PTR (zone_at w j) + ZONE_USER_SIZE - 8) a ∧
     search_zones k i n page w = Ret a (set_w_mem (st64 (w_mem w) a page) w)) ∨
  (∀ l, i <= l < i + Z.of_nat k → no_copy w n l) ∧ search_zones k i n page w = Ret 0 w.
Proof.
  intros Hw. revert i. induction k as [|k IH]; intros i Hi Hk; cbn [search_zones]; [right; split; [lia|done]|].
  destruct (hv_zone_at w i Hw ltac:(lia)) as [_ Hinv]. pose proof (zm_user_rw _ _ _ _ (zinv_mapped _ _ _ _ _ Hinv)) as Hm.
  unfold mbind, M_bind, zget. set (U := UNMASK_USER_PTR (zone_at w i)) in *.
  destruct (search_range_run (Z.to_nat ZONE_USER_SIZE) U (U + ZONE_USER_SIZE - 8) n page w) as [(a & Ha & ->)|[Hno ->]].
  { replace (U + ZONE_USER_SIZE - 8 + 8 - U) with ZONE_USER_SIZE by lia. done. }
  { apply Z2Nat.inj_lt; unfold ZONE_USER_SIZE; lia. }
  - left. exists i, a. split; [lia|]. split; [intros l Hl; lia|]. done.
  - destruct (IH (i + 1)) as [(j & a & Hj & Hl & Ha & Hrun)|[Hall Hrun]]; [lia..| |].
    + left. exists j, a. split; [lia|]. split; [|done]. intros l Hlr. destruct (decide (l = i)) as [->|]; [done|]. apply Hl. lia.
    + right. split; [|done]. intros l Hl. destruct (decide (l = i)) as [->|]; [done|]. apply Hall. lia.
Qed.

(** C37. [_iso_alloc_ptr_search] on a well-formed heap always returns: it overwrites the
    first copy of the pointer, in the order of zones and addresses and at any alignment,
    with the address of the faulting page and answers where it was; or, when no zone
    holds a copy, answers NULL and changes nothing. *)
Theorem ptr_search_correct uaf_ptr_page p w : heap_inv w →
  let n := if MEMORY_TAGGING then Z.land p TAGGED_PTR_MASK else p in
  (∃ j a, 0 <= j < zones_used (w_root w) ∧ (∀ l, 0 <= l < j → no_copy w n l) ∧
     first_copy (w_mem w) n (UNMASK_USER_PTR (zone_at w j)) (UNMASK_USER_PTR (zone_at w j) + ZONE_USER_SIZE - 8) a ∧
     _iso_alloc_ptr_search uaf_ptr_page p w = Ret a (set_w_mem (st64 (w_mem w) a uaf_ptr_page) w)) ∨
  (∀ l, 0 <= l < zones_used (w_root w) → no_copy w n l) ∧ _iso_alloc_ptr_search uaf_ptr_page p w = Ret 0 w.
Proof.
  intros Hw n. pose proof (hv_used w Hw) as Hu. unfold _iso_alloc_ptr_search, mbind, M_bind, root. rewrite (hv_root w Hw). fold n.
  destruct (search_zones_run (Z.to_nat (zones_used (w_root w))) 0 n uaf_ptr_page w Hw) as [(j & a & Hj & Hrest)|[Hno Hrun]]; [lia..| |].
  - left. exists j, a. split; [lia|done].
  - right. split; [|done]. intros l Hl. apply Hno. lia.
Qed.
End theorems.
