(* ===== verification/BigZones.v ===== *)
(** * Big allocations

    [check_big_canary], [iso_find_big_zone], [iso_free_big_zone], [_iso_big_alloc],
    [_free_big_zone_list] of src/iso_alloc.c and [_verify_big_zone_list] of
    src/iso_alloc_sanity.c. The metadata of a big zone lives at its address in [w_bigs];
    the used and the free list are linked through masked [big_next] fields. *)

From S2P Require Import Prelude Words Conf Memory State Util ZoneBits FreeList.

Section model.
Context `{!Kernel, !Config}.

(** Reading and writing the structure at address [a]. *)
Definition bget (a : Z) : M iso_alloc_big_zone_t := λ w,
  match w_bigs w !! a with
  | Some b => if can_access (w_vm w) a SIZEOF_BIG_ZONE then Ret b w else Fault
  | None => Fault
  end.
Definition bput (a : Z) (b : iso_alloc_big_zone_t) : M unit := λ w,
  if can_access (w_vm w) a SIZEOF_BIG_ZONE then Ret tt (set_w_bigs (<[a := b]> (w_bigs w)) w) else Fault.
Definition bmod (a : Z) (f : iso_alloc_big_zone_t → iso_alloc_big_zone_t) : M unit :=
  b ← bget a; bput a (f b).

Definition UNMASK_BIG_ZONE_NEXT (r : iso_alloc_root) (bnp : Z) : Z :=
  if MASK_PTRS then Z.lxor (big_zone_next_mask r) bnp else bnp.
Definition MASK_BIG_ZONE_NEXT (r : iso_alloc_root) (bnp : Z) : Z := UNMASK_BIG_ZONE_NEXT r bnp.

(** The canary of the structure at [a] whose user pages start at [u]. *)
Definition big_canary (r : iso_alloc_root) (a u : Z) : Z :=
  Z.lxor (Z.lxor a (builtin_bswap64 u)) (big_zone_canary_secret r).

Definition check_big_canary (a : Z) : M unit :=
  if DISABLE_CANARY then mret tt else
  r ← root;
  b ← bget a;
  let canary := big_canary r a (big_user_pages_start b) in
  if negb (big_canary_a b =? canary) then abort BigCanaryA else
  if negb (big_canary_b b =? canary) then abort BigCanaryB else mret tt.

(** ** [iso_find_big_zone] *)

(** The loop: [big_zone] is the current entry, [prev] the one before it or 0. *)
Fixpoint find_big (fuel : nat) (p : Z) (remove : bool) (big_zone prev : Z) : M Z :=
  match fuel with
  | O => nofuel
  | S fuel' =>
      if big_zone =? 0 then UNLOCK_BIG_ZONE_USED;; mret 0 else
      check_big_canary big_zone;;
      b ← bget big_zone;
      if p =? big_user_pages_start b then
        when remove
          (when (negb (prev =? 0)) (bmod prev (set_big_next (big_next b)));;
           rupd (λ r, set_big_zone_used_count (big_zone_used_count r - 1) r);;
           when (prev =? 0) (rupd (set_big_zone_used (big_next b)));;
           bmod big_zone (set_big_next 0));;
        UNLOCK_BIG_ZONE_USED;;
        mret big_zone
      else if (big_user_pages_start b <? p) && (p <? big_user_pages_start b + big_size b) then abort BigInteriorFree
      else if negb (big_next b =? 0) then
        r ← root;
        find_big fuel' p remove (UNMASK_BIG_ZONE_NEXT r (big_next b)) big_zone
      else UNLOCK_BIG_ZONE_USED;; mret 0
  end.

(** A list cannot be longer than the number of structures. *)
Definition big_fuel (w : world) : nat := S (size (w_bigs w)).

Definition iso_find_big_zone (p : Z) (remove : bool) : M Z :=
  LOCK_BIG_ZONE_USED;;
  r ← root;
  if big_zone_used r =? 0 then UNLOCK_BIG_ZONE_USED;; mret 0 else
  w ← get;
  find_big (big_fuel w) p remove (UNMASK_BIG_ZONE_NEXT r (big_zone_used r)) 0.

(** ** [iso_free_big_zone] *)

(** What [__iso_memset (big_zone, POISON_BYTE, sizeof(...))] leaves. *)
Definition poisoned_big : iso_alloc_big_zone_t :=
  mk_big (rep8 POISON_BYTE) true (rep8 POISON_BYTE) 0xdededede (rep8 POISON_BYTE) (rep8 POISON_BYTE) (rep8 POISON_BYTE).

Definition iso_free_big_zone (big_zone : Z) (permanent : bool) : M unit :=
  b ← bget big_zone;
  if big_is_free b then abort BigDoubleFree else
  when SANITIZE_CHUNKS (__iso_memset (big_user_pages_start b) POISON_BYTE (big_size b));;
  LOCK_BIG_ZONE_FREE;;
  r ← root;
  if negb permanent && (big_zone_free_count r <? BIG_ZONE_MAX_FREE_LIST) && (big_ttl b <? BIG_ZONE_ALLOC_RETIRE) then
    bmod big_zone (set_big_is_free true);;
    dont_need_pages (big_user_pages_start b) (big_size b);;
    when PROTECT_FREE_BIG_ZONES (mprotect_pages (big_user_pages_start b) (big_size b) PROT_NONE);;
    bmod big_zone (set_big_next (big_zone_free r));;
    rupd (set_big_zone_free (MASK_BIG_ZONE_NEXT r big_zone));;
    rupd (λ r, set_big_zone_free_count (big_zone_free_count r + 1) r);;
    UNLOCK_BIG_ZONE_FREE
  else
    UNLOCK_BIG_ZONE_FREE;;
    w ← get;
    if permanent then
      bmod big_zone (set_big_is_free true);;
      mprotect_pages (big_user_pages_start b) (big_size b) PROT_NONE;;
      dont_need_pages (big_user_pages_start b) (big_size b);;
      bput big_zone poisoned_big;;
      mprotect_pages (ROUND_DOWN_PAGE (w_page_size w) (w_page_size_shift w) big_zone) (w_page_size w) PROT_NONE
    else
      (if BIG_ZONE_GUARD then unmap_guarded_pages (big_user_pages_start b) (big_size b)
       else munmap (big_user_pages_start b) (big_size b));;
      (if BIG_ZONE_META_DATA_GUARD then unmap_guarded_pages big_zone BIG_ZONE_META_DATA_PAGE_COUNT
       else munmap big_zone BIG_ZONE_META_DATA_PAGE_COUNT).

(** ** [_iso_big_alloc] *)

(** The search of the free list, first fit; 0 when no entry can be used. *)
Fixpoint reuse_big (fuel : nat) (sz big prev : Z) : M Z :=
  match fuel with
  | O => nofuel
  | S fuel' =>
      if big =? 0 then mret 0 else
      b ← bget big;
      if negb (big_is_free b) then abort BigFreeListInUse else
      check_big_canary big;;
      if (sz <=? big_size b) && (big_size b - sz <=? BIG_ZONE_WASTE * 2) then
        bmod big (set_big_is_free false);;
        rupd (λ r, set_big_zone_free_count (big_zone_free_count r - 1) r);;
        r ← root;
        (if big =? UNMASK_BIG_ZONE_NEXT r (big_zone_free r) then rupd (set_big_zone_free (big_next b))
         else bmod prev (set_big_next (big_next b)));;
        UNLOCK_BIG_ZONE_FREE;;
        LOCK_BIG_ZONE_USED;;
        r ← root;
        bmod big (λ b, set_big_ttl (u32 (big_ttl b + 1)) (set_big_next (big_zone_used r) b));;
        rupd (set_big_zone_used (MASK_BIG_ZONE_NEXT r big));;
        rupd (λ r, set_big_zone_used_count (big_zone_used_count r + 1) r);;
        UNLOCK_BIG_ZONE_USED;;
        when PROTECT_FREE_BIG_ZONES (mprotect_pages (big_user_pages_start b) (big_size b) PROT_RW);;
        mret big
      else if negb (big_next b =? 0) then
        r ← root;
        reuse_big fuel' sz (UNMASK_BIG_ZONE_NEXT r (big_next b)) big
      else mret 0
  end.

(** A new big zone of [sz] bytes: user pages, metadata page, canaries, used list. *)
Definition create_big (sz : Z) : M Z :=
  user_pages ← (if BIG_ZONE_GUARD then mmap_guarded_rw_pages sz else mmap_rw_pages sz);
  if user_pages =? 0 then (if ABORT_ON_NULL then abort NullReturned else mret 0) else
  w ← get;
  let page := w_page_size w in
  md ← (if BIG_ZONE_META_DATA_GUARD then mmap_guarded_rw_pages (page * BIG_ZONE_META_DATA_PAGE_COUNT)
        else mmap_rw_pages (page * BIG_ZONE_META_DATA_PAGE_COUNT));
  v ← us_rand_uint64;
  let random_offset := u32 (ALIGN_SZ_DOWN v) in
  let s := page - (SIZEOF_BIG_ZONE - 1) in
  let new_big := md + Z.shiftr (u64 (random_offset * s)) 32 in
  r ← root;
  let canary := big_canary r new_big user_pages in
  bput new_big (mk_big canary false sz 1 user_pages 0 canary);;
  LOCK_BIG_ZONE_USED;;
  r ← root;
  bmod new_big (set_big_next (big_zone_used r));;
  rupd (set_big_zone_used (MASK_BIG_ZONE_NEXT r new_big));;
  rupd (λ r, set_big_zone_used_count (big_zone_used_count r + 1) r);;
  UNLOCK_BIG_ZONE_USED;;
  mret user_pages.

Definition _iso_big_alloc (size : Z) : M Z :=
  w ← get;
  let new_size := page_len w size in
  if (new_size <? size) || (BIG_SZ_MAX <? new_size) || (size <? SMALL_SIZE_MAX)
  then (if ABORT_ON_NULL then abort NullReturned else mret 0) else
  LOCK_BIG_ZONE_FREE;;
  r ← root;
  big ← (if negb (big_zone_free r =? 0) then
           if big_zone_free_count r <=? 0 then abort BigFreeListCount else
           reuse_big (big_fuel w) new_size (UNMASK_BIG_ZONE_NEXT r (big_zone_free r)) 0
         else mret 0);
  if negb (big =? 0) then b ← bget big; mret (big_user_pages_start b) else
  UNLOCK_BIG_ZONE_FREE;;
  create_big new_size.

(** ** Whole lists *)

Fixpoint verify_bigs (fuel : nat) (big : Z) : M unit :=
  match fuel with
  | O => nofuel
  | S fuel' =>
      if big =? 0 then mret tt else
      check_big_canary big;;
      b ← bget big;
      if big_size b <? SMALL_SIZE_MAX then abort BigTooSmall else
      if BIG_SZ_MAX <? big_size b then abort BigTooBig else
      if big_user_pages_start b =? 0 then abort BigNullPages else
      if negb (big_next b =? 0) then
        r ← root;
        verify_bigs fuel' (UNMASK_BIG_ZONE_NEXT r (big_next b))
      else mret tt
  end.

Definition _verify_big_zone_list (head : Z) : M unit :=
  if head =? 0 then mret tt else
  r ← root;
  w ← get;
  verify_bigs (big_fuel w) (UNMASK_BIG_ZONE_NEXT r head).

Fixpoint free_bigs (fuel : nat) (big_zone : Z) : M unit :=
  match fuel with
  | O => nofuel
  | S fuel' =>
      if big_zone =? 0 then mret tt else
      check_big_canary big_zone;;
      b ← bget big_zone;
      r ← root;
      let big := if negb (big_next b =? 0) then UNMASK_BIG_ZONE_NEXT r (big_next b) else 0 in
      (if BIG_ZONE_GUARD then unmap_guarded_pages (big_user_pages_start b) (big_size b)
       else munmap (big_user_pages_start b) (big_size b));;
      (if BIG_ZONE_META_DATA_GUARD then unmap_guarded_pages big_zone BIG_ZONE_META_DATA_PAGE_COUNT
       else munmap big_zone BIG_ZONE_META_DATA_PAGE_COUNT);;
      free_bigs fuel' big
  end.

Definition _free_big_zone_list (head : Z) : M unit :=
  if head =? 0 then mret tt else
  r ← root;
  w ← get;
  free_bigs (big_fuel w) (UNMASK_BIG_ZONE_NEXT r head).
End model.
