(* ===== verification/BigSpec.v ===== *)
(** * Correctness of big allocations

    The used and the free list of src/iso_alloc.c as linked lists through masked pointers:
    [iso_find_big_zone] finds and unlinks exactly the zone of a pointer,
    [iso_free_big_zone] puts it on the free list or gives it back, [_iso_big_alloc] takes
    the first fitting free zone or maps a new one. *)

From S2P Require Import Prelude Words Conf Memory State Util ZoneBits FreeList BigZones.

(** ** Lists without repetition *)

Lemma NoDup_app_cons_perm (l1 l2 : list Z) a : NoDup (l1 ++ a :: l2) → a ∉ l1 ++ l2.
Proof. rewrite <-Permutation_middle. by intros [? _]%list.NoDup_cons. Qed.

Lemma elem_mid (k l l' : list Z) a : k = l ++ a :: l' → a ∈ k.
Proof. intros ->. set_solver. Qed.

Lemma NoDup_pivot (l l' k k' : list Z) a : NoDup (l ++ a :: l') → l ++ a :: l' = k ++ a :: k' → l = k ∧ l' = k'.
Proof.
  revert k. induction l as [|x l IH]; intros [|y k] Hnd Heq; simpl in *; apply (f_equal (λ l, (head l, tail l))) in Heq as Ht; simpl in Ht; injection Ht; intros; subst; [done|..].
  - apply list.NoDup_cons in Hnd as [Hnd _]. set_solver.
  - apply list.NoDup_cons in Hnd as [Hnd _]. set_solver.
  - apply list.NoDup_cons in Hnd as [_ Hnd]. by destruct (IH k) as [-> ->].
Qed.

(** ** Chains *)

Section chain.
Variable f : Z → Z.

(** [l] is the list of structures reached from the stored pointer [head]. *)
Fixpoint chain (bigs : gmap Z iso_alloc_big_zone_t) (head : Z) (l : list Z) : Prop :=
  match l with
  | [] => head = 0
  | a :: l' => head ≠ 0 ∧ f head = a ∧ a ≠ 0 ∧ ∃ b, bigs !! a = Some b ∧ chain bigs (big_next b) l'
  end.

Lemma chain_elem bigs head l a : chain bigs head l → a ∈ l → a ≠ 0 ∧ ∃ b, bigs !! a = Some b.
Proof.
  revert head. induction l as [|x l IH]; intros head Hc Ha; [by apply not_elem_of_nil in Ha|].
  destruct Hc as (_ & _ & Hx & b & Hb & Hc). apply elem_of_cons in Ha as [->|Ha]; [|by eapply IH]. split; [done|by exists b].
Qed.

(** Structures off the chain, and all fields but [big_next], do not matter. *)
Lemma chain_ext bigs bigs' head l : chain bigs head l →
  (∀ a, a ∈ l → big_next <$> bigs' !! a = big_next <$> bigs !! a) → chain bigs' head l.
Proof.
  revert head. induction l as [|x l IH]; intros head Hc He; [done|]. destruct Hc as (A1 & A2 & A3 & b & Hb & Hc).
  pose proof (He x ltac:(set_solver)) as Hx. rewrite Hb in Hx. destruct (bigs' !! x) as [b'|] eqn:Hb'; [|done].
  injection Hx as Hx. split_and!; [done..|]. exists b'. split; [done|]. rewrite Hx. apply IH; [done|]. set_solver.
Qed.

(** Removing the entry [a] behind [p]. *)
Lemma chain_unlink bigs head l1 p a l2 bp ba : NoDup (l1 ++ p :: a :: l2) → chain bigs head (l1 ++ p :: a :: l2) →
  bigs !! p = Some bp → bigs !! a = Some ba →
  chain (<[p := set_big_next (big_next ba) bp]> bigs) head (l1 ++ p :: l2).
Proof.
  intros Hnd Hc Hp Ha. revert head Hnd Hc. induction l1 as [|x l1 IH]; intros head Hnd Hc; simpl in *.
  - destruct Hc as (A1 & A2 & A3 & b & Hb & (_ & _ & _ & b' & Hb' & Hc)).
    assert (b = bp) as -> by congruence. assert (b' = ba) as -> by congruence. split_and!; [done..|].
    exists (set_big_next (big_next ba) bp). rewrite lookup_insert_eq. split; [done|]. simpl.
    eapply chain_ext; [exact Hc|]. intros c Hcin. rewrite lookup_insert_ne; [done|]. intros ->.
    apply list.NoDup_cons in Hnd as [Hnd _]. set_solver.
  - apply list.NoDup_cons in Hnd as [Hx Hnd]. destruct Hc as (A1 & A2 & A3 & b & Hb & Hc). split_and!; [done..|].
    exists b. rewrite lookup_insert_ne by set_solver. split; [done|]. by apply IH.
Qed.

Lemma chain_tail bigs head l1 a l2 ba : chain bigs head (l1 ++ a :: l2) → bigs !! a = Some ba → chain bigs (big_next ba) l2.
Proof.
  intros Hc Ha. revert head Hc. induction l1 as [|x l1 IH]; intros head Hc; destruct Hc as (_ & _ & _ & b & Hb & Hc);
    [by simplify_eq|by eapply IH].
Qed.

(** A chain without repetition is no longer than the number of structures. *)
Lemma chain_length bigs head l : NoDup l → chain bigs head l → (length l <= size bigs)%nat.
Proof.
  intros Hnd Hc. rewrite <-size_dom. rewrite <-(size_list_to_set (C:=gset Z) l) by done. apply subseteq_size.
  intros a Ha%elem_of_list_to_set. destruct (chain_elem _ _ _ _ Hc Ha) as (_ & b & Hb). apply elem_of_dom. by exists b.
Qed.
End chain.

Definition apart (x n y k : Z) : Prop := x + n <= y ∨ y + k <= x.

Section big.
Context `{!Kernel, !Config}.

(** The page of the structure at [a]. *)
Definition meta_page (w : world) (a : Z) : Z := a - a mod w_page_size w.

(** A structure with its canaries, and the memory it describes. *)
Record big_entry (w : world) (a : Z) (b : iso_alloc_big_zone_t) : Prop := {
  be_addr : a ≠ 0 ∧ MASK_BIG_ZONE_NEXT (w_root w) a ≠ 0;
  be_in_page : a mod w_page_size w + SIZEOF_BIG_ZONE <= w_page_size w;
  be_meta : mapped_rw (w_vm w) a SIZEOF_BIG_ZONE;
  be_canary : DISABLE_CANARY = false →
    big_canary_a b = big_canary (w_root w) a (big_user_pages_start b) ∧
    big_canary_b b = big_canary (w_root w) a (big_user_pages_start b);
  be_size : SMALL_SIZE_MAX < big_size b <= BIG_SZ_MAX;
  be_pages : 0 < big_user_pages_start b ∧ big_user_pages_start b + big_size b <= 2 ^ 47;
  be_align : big_user_pages_start b mod w_page_size w = 0 ∧ big_size b mod w_page_size w = 0;
  be_owned : ∀ x, big_user_pages_start b <= x < big_user_pages_start b + big_size b ∨
    meta_page w a <= x < meta_page w a + w_page_size w → vm_prot (w_vm w) x ≠ None;
}.

(** The structure at [a]. *)
Definition big_at (w : world) (a : Z) : iso_alloc_big_zone_t := default zero_big (w_bigs w !! a).

(** Mappings that were not removed. *)
Definition still_mapped (w w' : world) : Prop := ∀ x, vm_prot (w_vm w) x ≠ None → vm_prot (w_vm w') x ≠ None.

(** The big zones of a process: the used list [lu], the free list [lf] and the zones [ld]
    a running call has unlinked and still holds. *)
Record bigs_inv (w : world) (lu lf ld : list Z) : Prop := {
  bi_root : w_root_null w = false;
  bi_page : page_ok w;
  bi_used : chain (UNMASK_BIG_ZONE_NEXT (w_root w)) (w_bigs w) (big_zone_used (w_root w)) lu;
  bi_free : chain (UNMASK_BIG_ZONE_NEXT (w_root w)) (w_bigs w) (big_zone_free (w_root w)) lf;
  bi_nodup : NoDup (lu ++ lf ++ ld);
  bi_counts : big_zone_used_count (w_root w) = Z.of_nat (length lu) ∧ big_zone_free_count (w_root w) = Z.of_nat (length lf);
  bi_entry : ∀ a, a ∈ lu ++ lf ++ ld → ∃ b, w_bigs w !! a = Some b ∧ big_entry w a b ∧
    big_is_free b = bool_decide (a ∈ lf) ∧
    (a ∉ lf ∨ PROTECT_FREE_BIG_ZONES = false → mapped_rw (w_vm w) (big_user_pages_start b) (big_size b));
  bi_apart : ∀ a a' b b', a ∈ lu ++ lf ++ ld → a' ∈ lu ++ lf ++ ld → w_bigs w !! a = Some b → w_bigs w !! a' = Some b' →
    (a ≠ a' → apart (big_user_pages_start b) (big_size b) (big_user_pages_start b') (big_size b') ∧
              apart (meta_page w a) (w_page_size w) (meta_page w a') (w_page_size w)) ∧
    apart (meta_page w a) (w_page_size w) (big_user_pages_start b') (big_size b');
}.

Lemma bget_ok w a b : w_bigs w !! a = Some b → mapped_rw (w_vm w) a SIZEOF_BIG_ZONE → bget a w = Ret b w.
Proof. intros Hb Hm. unfold bget. rewrite Hb, can_access_mapped; [done|by compute|done]. Qed.

Lemma bmod_ok w a f b : w_bigs w !! a = Some b → mapped_rw (w_vm w) a SIZEOF_BIG_ZONE →
  bmod a f w = Ret tt (set_w_bigs (<[a := f b]> (w_bigs w)) w).
Proof.
  intros Hb Hm. unfold bmod, mbind, M_bind. rewrite (bget_ok w a b) by done. unfold bput. rewrite can_access_mapped; [done|by compute|done].
Qed.

Lemma check_big_ok w a b : w_root_null w = false → w_bigs w !! a = Some b → big_entry w a b → check_big_canary a w = Ret tt w.
Proof.
  intros Hr Hb [_ _ Hm Hc _ _ _ _]. unfold check_big_canary. destruct DISABLE_CANARY; [done|]. destruct (Hc eq_refl) as [C1 C2].
  unfold mbind, M_bind, root. rewrite Hr, (bget_ok w a b) by done. by rewrite C1, C2, !Z.eqb_refl.
Qed.

(** Two states of one structure: only the link, the flag and the age may differ. *)
Record same_big (b b' : iso_alloc_big_zone_t) : Prop := {
  sb_pages : big_user_pages_start b' = big_user_pages_start b;
  sb_size : big_size b' = big_size b;
  sb_canary : big_canary_a b' = big_canary_a b ∧ big_canary_b b' = big_canary_b b;
}.

(** The root's secrets do not change. *)
Definition same_secrets (w w' : world) : Prop :=
  big_zone_next_mask (w_root w') = big_zone_next_mask (w_root w) ∧
  big_zone_canary_secret (w_root w') = big_zone_canary_secret (w_root w) ∧
  w_page_size w' = w_page_size w.

Lemma same_secrets_unmask w w' : same_secrets w w' → UNMASK_BIG_ZONE_NEXT (w_root w') = UNMASK_BIG_ZONE_NEXT (w_root w).
Proof. intros (Hm & _). unfold UNMASK_BIG_ZONE_NEXT. by rewrite Hm. Qed.

Lemma big_entry_moved w w' a b b' : big_entry w a b → same_big b b' → same_secrets w w' →
  mapped_rw (w_vm w') a SIZEOF_BIG_ZONE → still_mapped w w' → big_entry w' a b'.
Proof.
  intros [Hx Hi Hm Hc Hs Hp Ha Ho] [E1 E2 [E3 E4]] (S1 & S2 & S3) Hm' Hst. constructor; rewrite ?E1, ?E2, ?E3, ?E4, ?S3; try done.
  - unfold MASK_BIG_ZONE_NEXT, UNMASK_BIG_ZONE_NEXT in *. by rewrite S1.
  - unfold big_canary in *. by rewrite S2.
  - intros x. unfold meta_page. rewrite S3. intros Hin. apply Hst, Ho, Hin.
Qed.

(** Zones that moved between the lists. *)
Lemma bigs_inv_moved w w' lu lf ld lu' lf' ld' :
  bigs_inv w lu lf ld → lu' ++ lf' ++ ld' ≡ₚ lu ++ lf ++ ld →
  w_root_null w' = false → page_ok w' → same_secrets w w' → still_mapped w w' →
  (∀ a b, a ∈ lu ++ lf ++ ld → w_bigs w !! a = Some b → mapped_rw (w_vm w') a SIZEOF_BIG_ZONE ∧
     (a ∉ lf' ∨ PROTECT_FREE_BIG_ZONES = false → mapped_rw (w_vm w') (big_user_pages_start b) (big_size b)) ∧
     ∃ b', w_bigs w' !! a = Some b' ∧ same_big b b' ∧ big_is_free b' = bool_decide (a ∈ lf')) →
  chain (UNMASK_BIG_ZONE_NEXT (w_root w)) (w_bigs w') (big_zone_used (w_root w')) lu' →
  chain (UNMASK_BIG_ZONE_NEXT (w_root w)) (w_bigs w') (big_zone_free (w_root w')) lf' →
  big_zone_used_count (w_root w') = Z.of_nat (length lu') → big_zone_free_count (w_root w') = Z.of_nat (length lf') →
  bigs_inv w' lu' lf' ld'.
Proof.
  intros Hw Hperm Hr Hpg Hs Hst Hb Hu Hf Hcu Hcf.
  assert (Hin : ∀ a, a ∈ lu' ++ lf' ++ ld' → a ∈ lu ++ lf ++ ld) by (intros a; by rewrite Hperm).
  constructor; try done; rewrite ?(same_secrets_unmask w w' Hs); try done.
  - rewrite Hperm. apply Hw.
  - intros a Ha%Hin. destruct (bi_entry _ _ _ _ Hw a Ha) as (b & Hab & He & _ & _).
    destruct (Hb a b Ha Hab) as (M1 & M2 & b' & Hab' & Hsb & Hfr). exists b'. split_and!; [done|by eapply big_entry_moved|done|].
    by rewrite (sb_pages _ _ Hsb), (sb_size _ _ Hsb).
  - intros a a' c c' Ha%Hin Ha'%Hin Hc Hc'. destruct (bi_entry _ _ _ _ Hw a Ha) as (b & Hab & _).
    destruct (bi_entry _ _ _ _ Hw a' Ha') as (b' & Hab' & _).
    destruct (Hb a b Ha Hab) as (_ & _ & x & Hx & Sx & _). destruct (Hb a' b' Ha' Hab') as (_ & _ & x' & Hx' & Sx' & _).
    assert (x = c) as -> by congruence. assert (x' = c') as -> by congruence.
    unfold meta_page. rewrite (sb_pages _ _ Sx), (sb_size _ _ Sx), (sb_pages _ _ Sx'), (sb_size _ _ Sx'), (proj2 (proj2 Hs)).
    by apply (bi_apart _ _ _ _ Hw).
Qed.

(** ** [iso_find_big_zone] *)

(** The memory of the big zone at [a] contains [p]. *)
Definition in_big (w : world) (p a : Z) : Prop :=
  ∃ b, w_bigs w !! a = Some b ∧ big_user_pages_start b <= p < big_user_pages_start b + big_size b.

(** A change of the used list and of links only. *)
Definition relinked (w w' : world) : Prop :=
  ∃ bigs h n, w' = set_w_root (set_big_zone_used_count n (set_big_zone_used h (w_root w))) (set_w_bigs bigs w) ∧
    ∀ x b, w_bigs w !! x = Some b → ∃ b', bigs !! x = Some b' ∧ same_big b b'.

(** The entry before the current one, 0 for the first. *)
Definition prev_of (l : list Z) : Z := match reverse l with [] => 0 | x :: _ => x end.

Lemma prev_of_snoc l x : prev_of (l ++ [x]) = x.
Proof. unfold prev_of. by rewrite reverse_snoc. Qed.

(** The removal of [find_big]. *)
Definition unlink (a prev : Z) (b : iso_alloc_big_zone_t) : M unit :=
  when (negb (prev =? 0)) (bmod prev (set_big_next (big_next b)));;
  rupd (λ r, set_big_zone_used_count (big_zone_used_count r - 1) r);;
  when (prev =? 0) (rupd (set_big_zone_used (big_next b)));;
  bmod a (set_big_next 0).

Lemma set_big_next_same n b : same_big b (set_big_next n b).
Proof. by constructor. Qed.

Lemma same_big_refl b : same_big b b.
Proof. by constructor. Qed.

(** The structures and the head pointer an unlinking leaves. *)
Lemma unlink_run w l1 a l2 lf b : bigs_inv w (l1 ++ a :: l2) lf [] → w_bigs w !! a = Some b →
  ∃ bigs1 h, unlink a (prev_of l1) b w = Ret tt
      (set_w_root (set_big_zone_used_count (big_zone_used_count (w_root w) - 1) (set_big_zone_used h (w_root w)))
        (set_w_bigs (<[a := set_big_next 0 b]> bigs1) w)) ∧
    chain (UNMASK_BIG_ZONE_NEXT (w_root w)) bigs1 h (l1 ++ l2) ∧
    (∀ x b', w_bigs w !! x = Some b' → ∃ n, bigs1 !! x = Some (set_big_next n b')) ∧
    (∀ x, x ∉ l1 → bigs1 !! x = w_bigs w !! x).
Proof.
  intros Hw Hb. pose proof (bi_root _ _ _ _ Hw) as Hr. pose proof (bi_nodup _ _ _ _ Hw) as Hnd. pose proof (bi_used _ _ _ _ Hw) as Hu.
  apply list.NoDup_app in Hnd as (Hnd & _ & _).
  assert (Hmeta : ∀ x, x ∈ l1 ++ a :: l2 → mapped_rw (w_vm w) x SIZEOF_BIG_ZONE).
  { intros x Hx. destruct (bi_entry _ _ _ _ Hw x) as (? & _ & He & _); [set_solver|]. apply He. }
  unfold unlink. destruct (decide (l1 = [])) as [->|Hne].
  - exists (w_bigs w), (big_next b). split_and!.
    + change (prev_of []) with 0. cbn [Z.eqb negb when].
      unfold mbind, M_bind, mret, M_ret, rupd. rewrite Hr. cbn [w_root_null set_w_root w_root]. rewrite Hr.
      rewrite (bmod_ok _ a _ b); [done|done|apply Hmeta; set_solver].
    + by eapply (chain_tail _ _ _ [] a).
    + intros x b' Hx. exists (big_next b'). rewrite Hx. by destruct b'.
    + done.
  - destruct (exists_last Hne) as (l & prev & ->). rewrite prev_of_snoc.
    rewrite <-(assoc_L (++)) in Hu, Hnd, Hmeta |- *. simpl in Hu, Hnd, Hmeta |- *.
    destruct (chain_elem _ _ _ _ prev Hu) as (Hp0 & bp & Hbp); [set_solver|].
    exists (<[prev := set_big_next (big_next b) bp]> (w_bigs w)), (big_zone_used (w_root w)). split_and!.
    + rewrite (proj2 (Z.eqb_neq prev 0)) by done. cbn [negb when].
      unfold mbind at 1, M_bind at 1. rewrite (bmod_ok _ prev _ bp); [|done|apply Hmeta; set_solver].
      unfold mbind at 1, M_bind at 1, rupd. cbn [w_root_null set_w_bigs]. rewrite Hr. unfold mbind, M_bind, mret, M_ret.
      rewrite (bmod_ok _ a _ b); [by destruct w as [??? ? [] ??????????]| |apply Hmeta; set_solver].
      simpl. rewrite lookup_insert_ne; [done|]. intros ->. apply list.NoDup_app in Hnd as (_ & _ & Hnd).
      apply list.NoDup_cons in Hnd as [Hnd _]. set_solver.
    + by apply chain_unlink with a.
    + intros x b' Hx. destruct (decide (x = prev)) as [->|Hd].
      * exists (big_next b). rewrite lookup_insert_eq. congruence.
      * exists (big_next b'). rewrite lookup_insert_ne, Hx by done. by destruct b'.
    + intros x Hx. rewrite lookup_insert_ne by set_solver. done.
Qed.

Lemma unlink_ok w l1 a l2 lf b : bigs_inv w (l1 ++ a :: l2) lf [] → w_bigs w !! a = Some b →
  ∃ w', unlink a (prev_of l1) b w = Ret tt w' ∧ bigs_inv w' (l1 ++ l2) lf [a] ∧
    w_bigs w' !! a = Some (set_big_next 0 b) ∧ relinked w w'.
Proof.
  intros Hw Hb. destruct (unlink_run w l1 a l2 lf b Hw Hb) as (bigs1 & h & Heq & Hch & Hbigs & Hoff).
  pose proof (bi_nodup _ _ _ _ Hw) as Hnd. rewrite app_nil_r in Hnd. apply list.NoDup_app in Hnd as (Hnd & Hsep & _).
  destruct (bi_counts _ _ _ _ Hw) as [Hcu Hcf]. rewrite length_app in Hcu. simpl in Hcu. rewrite Heq.
  eexists. split; [done|]. split_and!; [|simpl; by rewrite lookup_insert_eq|].
  2: { eexists _, _, _. split; [done|]. intros x bx Hx. destruct (decide (x = a)) as [->|Hd].
    - exists (set_big_next 0 b). rewrite lookup_insert_eq. assert (bx = b) as -> by congruence. done.
    - destruct (Hbigs x bx Hx) as (n & Hn). exists (set_big_next n bx). rewrite lookup_insert_ne by done. done. }
  apply NoDup_app_cons_perm in Hnd. apply (bigs_inv_moved w _ (l1 ++ a :: l2) lf []); try done.
  - solve_Permutation.
  - apply Hw.
  - by destruct (bi_page _ _ _ _ Hw) as (? & ? & ?).
  - by intros x Hx.
  - intros x bx Hx Hbx. destruct (bi_entry _ _ _ _ Hw x Hx) as (bx' & Hbx' & He & Hfl & Hrw).
    assert (bx' = bx) as -> by congruence. split_and!; [apply He|done|]. simpl. destruct (decide (x = a)) as [->|Hd].
    + exists (set_big_next 0 b). rewrite lookup_insert_eq. assert (bx = b) as -> by congruence. done.
    + destruct (Hbigs x bx Hbx) as (n & Hn). exists (set_big_next n bx). rewrite lookup_insert_ne by done. done.
  - simpl. eapply chain_ext; [exact Hch|]. intros x Hx. rewrite lookup_insert_ne; [done|]. set_solver.
  - simpl. eapply chain_ext; [apply Hw|]. intros x Hx. rewrite lookup_insert_ne by set_solver.
    rewrite Hoff; [done|]. set_solver.
  - simpl. rewrite Hcu, length_app. lia.
Qed.

(** The search from [a] on, when the entries [l1] before it have been passed. *)
Lemma find_big_run fuel p (remove : bool) w l1 a l2 lf : bigs_inv w (l1 ++ a :: l2) lf [] → w_big_used_lock w = true →
  (length l2 < fuel)%nat →
  (∃ l l' x b, l1 ++ a :: l2 = l ++ x :: l' ∧ w_bigs w !! x = Some b ∧ big_user_pages_start b = p ∧
     ∃ w', (if remove then unlink x (prev_of l) b else mret tt) w = Ret tt w' ∧
     find_big fuel p remove a (prev_of l1) w = Ret x (set_w_big_used_lock false w')) ∨
  (∃ x b, x ∈ a :: l2 ∧ w_bigs w !! x = Some b ∧ big_user_pages_start b < p < big_user_pages_start b + big_size b ∧
     find_big fuel p remove a (prev_of l1) w = Abort BigInteriorFree) ∨
  ((∀ x, x ∈ a :: l2 → ¬ in_big w p x) ∧
     find_big fuel p remove a (prev_of l1) w = Ret 0 (set_w_big_used_lock false w)).
Proof.
  intros Hw Hlk. revert l1 a l2 Hw. induction fuel as [|fuel IH]; intros l1 a l2 Hw Hf; [lia|].
  pose proof (bi_root _ _ _ _ Hw) as Hr. destruct (bi_entry _ _ _ _ Hw a) as (b & Hb & He & _); [set_solver|].
  destruct (chain_elem _ _ _ _ a (bi_used _ _ _ _ Hw)) as (Ha0 & _); [set_solver|].
  cbn [find_big]. rewrite (proj2 (Z.eqb_neq a 0)) by done. 
  rewrite (run_bind _ _ _ _ _ (check_big_ok w a b Hr Hb He)), (run_bind _ _ _ _ _ (bget_ok w a b Hb (be_meta _ _ _ He))).
  destruct (Z.eqb_spec p (big_user_pages_start b)) as [Hp|Hp].
  { left. exists l1, l2, a, b. split_and!; try done. destruct remove.
    - destruct (unlink_ok w l1 a l2 lf b Hw Hb) as (w' & Hun & _). exists w'. split; [done|].
      cbn [when]. fold (unlink a (prev_of l1) b). by rewrite (run_bind _ _ _ _ _ Hun).
    - by exists w. }
  pose proof (be_size _ _ _ He). pose proof (be_pages _ _ _ He).
  destruct ((big_user_pages_start b <? p) && (p <? big_user_pages_start b + big_size b)) eqn:Hin.
  { apply andb_true_iff in Hin as [?%Z.ltb_lt ?%Z.ltb_lt]. right; left. exists a, b. split_and!; try done; set_solver. }
  assert (Hna : ¬ in_big w p a).
  { intros (b' & Hb' & Hr'). assert (b' = b) as -> by congruence. apply andb_false_iff in Hin as [?%Z.ltb_ge|?%Z.ltb_ge]; lia. }
  pose proof (chain_tail _ _ _ l1 a l2 b (bi_used _ _ _ _ Hw) Hb) as Ht. destruct l2 as [|c l2].
  { simpl in Ht. rewrite Ht. right; right. split; [|done]. intros x Hx. by apply list_elem_of_singleton in Hx as ->. }
  destruct Ht as (Hn0 & Hc & _). rewrite (proj2 (Z.eqb_neq _ 0)) by done. cbn [negb].
  unfold mbind, M_bind, root. rewrite Hr, Hc. specialize (IH (l1 ++ [a]) c l2). rewrite prev_of_snoc, <-(assoc_L (++)) in IH.
  destruct (IH Hw ltac:(simpl in Hf; lia)) as [Hi|[(x & bx & Hx & Hi)|[Hno Hi]]]; [by left|right; left|right; right].
  - exists x, bx. split; [set_solver|done].
  - split; [|done]. intros x [->|Hx]%elem_of_cons; [done|]. by apply Hno.
Qed.

(** The invariant does not depend on the locks. *)
Lemma bigs_inv_locks w w' lu lf ld : bigs_inv w lu lf ld →
  w' = set_w_big_used_lock (w_big_used_lock w') (set_w_big_free_lock (w_big_free_lock w') w) → bigs_inv w' lu lf ld.
Proof.
  intros Hw ->. destruct Hw as [A1 A2 A3 A4 A5 A6 A7 A8]. constructor; try done.
  intros a Ha. destruct (A7 a Ha) as (b & Hb & [] & Hrest). exists b. split; [done|]. split; [by constructor|done].
Qed.

Lemma unlock_lock w : w_big_used_lock w = false → set_w_big_used_lock false (set_w_big_used_lock true w) = w.
Proof. destruct w. simpl. by intros ->. Qed.

(** Two big zones that contain one address are the same. *)
Lemma in_big_unique w lu lf ld p a a' : bigs_inv w lu lf ld → a ∈ lu ++ lf ++ ld → a' ∈ lu ++ lf ++ ld → in_big w p a → in_big w p a' → a = a'.
Proof.
  intros Hw Ha Ha' (b & Hb & Hr) (b' & Hb' & Hr'). destruct (decide (a = a')) as [|Hne]; [done|].
  destruct (bi_apart _ _ _ _ Hw a a' b b') as [Hap _]; [done..|]. destruct (Hap Hne) as [[|] _]; lia.
Qed.

Lemma in_big_start w lu lf ld a b : bigs_inv w lu lf ld → a ∈ lu ++ lf ++ ld → w_bigs w !! a = Some b → in_big w (big_user_pages_start b) a.
Proof.
  intros Hw Ha Hb. destruct (bi_entry _ _ _ _ Hw a Ha) as (b0 & Hb0 & He & _). assert (b0 = b) as -> by congruence.
  exists b. pose proof (be_size _ _ _ He) as Hsz. change SMALL_SIZE_MAX with 65536 in Hsz. split; [done|lia].
Qed.

Lemma find_big_zone_raw p (remove : bool) w lu lf : bigs_inv w lu lf [] → w_big_used_lock w = false →
  (∃ l l' x b w', lu = l ++ x :: l' ∧ w_bigs w !! x = Some b ∧ big_user_pages_start b = p ∧
     iso_find_big_zone p remove w = Ret x w' ∧ w_big_used_lock w' = false ∧
     if remove then bigs_inv w' (l ++ l') lf [x] ∧ w_bigs w' !! x = Some (set_big_next 0 b) ∧ relinked w w' else w' = w) ∨
  (∃ x b, x ∈ lu ∧ w_bigs w !! x = Some b ∧ big_user_pages_start b < p < big_user_pages_start b + big_size b ∧
     iso_find_big_zone p remove w = Abort BigInteriorFree) ∨
  ((∀ x, x ∈ lu → ¬ in_big w p x) ∧ iso_find_big_zone p remove w = Ret 0 w).
Proof.
  intros Hw Hlk. set (w1 := set_w_big_used_lock true w).
  assert (Hw1 : bigs_inv w1 lu lf []) by (eapply bigs_inv_locks; [exact Hw|by destruct w]).
  assert (Hstart : iso_find_big_zone p remove w =
    if big_zone_used (w_root w) =? 0 then Ret 0 w
    else find_big (big_fuel w1) p remove (UNMASK_BIG_ZONE_NEXT (w_root w) (big_zone_used (w_root w))) 0 w1).
  { unfold iso_find_big_zone, LOCK_BIG_ZONE_USED, mbind, M_bind, root, get. rewrite Hlk. fold w1.
    change (w_root_null w1) with (w_root_null w). rewrite (bi_root _ _ _ _ Hw). change (w_root w1) with (w_root w).
    case_match; [|done]. unfold UNLOCK_BIG_ZONE_USED, upd, mret, M_ret, w1. by rewrite unlock_lock. }
  pose proof (bi_used _ _ _ _ Hw) as Hu. destruct lu as [|a l2].
  { simpl in Hu. rewrite Hu in Hstart. right; right. split; [|done]. intros x Hx. by apply not_elem_of_nil in Hx. }
  assert (Hlen : (length l2 < big_fuel w1)%nat).
  { pose proof (bi_nodup _ _ _ _ Hw) as Hnd. apply list.NoDup_app in Hnd as (Hnd & _ & _).
    pose proof (chain_length _ _ _ _ Hnd Hu). unfold big_fuel. change (w_bigs w1) with (w_bigs w). simpl in *. lia. }
  destruct Hu as (Hh & Ha & _). rewrite (proj2 (Z.eqb_neq _ 0)) in Hstart by done. rewrite Ha in Hstart. rewrite Hstart.
  destruct (find_big_run (big_fuel w1) p remove w1 [] a l2 lf Hw1 eq_refl Hlen) as [(l & l' & x & b & Hl & Hb & Hp & w' & Hun & Heq)|[(x & b & Hx & Hb & Hr & Heq)|[Hno Heq]]].
  - left. exists l, l', x, b, (set_w_big_used_lock false w'). split_and!; try done. simpl in Hl.
    destruct remove; [|injection Hun as <-; unfold w1; by rewrite unlock_lock].
    rewrite Hl in Hw1. destruct (unlink_ok w1 l x l' lf b Hw1 Hb) as (w'' & Hun' & Hw'' & Hbx & (bigs & h & n & Hrel & Hsame)).
    assert (w'' = w') as -> by congruence. split_and!; [|done|].
    + eapply bigs_inv_locks; [exact Hw''|]. by destruct w'.
    + exists bigs, h, n. split; [|exact Hsame]. rewrite Hrel. unfold w1. by destruct w; simpl in *; subst.
  - right; left. by exists x, b.
  - right; right. split; [done|]. etrans; [exact Heq|]. unfold w1. by rewrite unlock_lock.
Qed.

(** [iso_find_big_zone] answers the big zone that starts at the pointer: with
    [remove] it is unlinked from the used list, whose other entries keep their order and
    their links through the masked pointers, without it nothing changes. A pointer into
    the middle of a big zone stops the process; any other pointer gives NULL and changes
    nothing. *)
Theorem iso_find_big_zone_correct p (remove : bool) w lu lf : bigs_inv w lu lf [] → w_big_used_lock w = false →
  (∀ l x l' b, lu = l ++ x :: l' → w_bigs w !! x = Some b → big_user_pages_start b = p →
     ∃ w', iso_find_big_zone p remove w = Ret x w' ∧ w_big_used_lock w' = false ∧
       if remove then bigs_inv w' (l ++ l') lf [x] ∧ w_bigs w' !! x = Some (set_big_next 0 b) ∧ relinked w w' else w' = w) ∧
  (∀ x b, x ∈ lu → w_bigs w !! x = Some b → big_user_pages_start b < p < big_user_pages_start b + big_size b →
     iso_find_big_zone p remove w = Abort BigInteriorFree) ∧
  ((∀ x, x ∈ lu → ¬ in_big w p x) → iso_find_big_zone p remove w = Ret 0 w).
Proof.
  intros Hw Hlk. assert (Huniq : ∀ x y, x ∈ lu → y ∈ lu → in_big w p x → in_big w p y → x = y).
  { intros x y Hx Hy. apply (in_big_unique w lu lf []); [done|apply elem_of_app; by left..]. }
  assert (Hstart : ∀ y c, y ∈ lu → w_bigs w !! y = Some c → big_user_pages_start c = p → in_big w p y).
  { intros y c Hy Hc <-. apply (in_big_start w lu lf []); [done|set_solver|done]. }
  assert (Hinner : ∀ y c, w_bigs w !! y = Some c → big_user_pages_start c < p < big_user_pages_start c + big_size c → in_big w p y).
  { intros y c Hc Hr. exists c. split; [done|lia]. }
  destruct (find_big_zone_raw p remove w lu lf Hw Hlk) as [(l & l' & x & b & w' & Hl & Hb & Hp & Heq & Hrest)|[(x & b & Hx & Hb & Hr & Heq)|[Hno Heq]]].
  - assert (Hx : x ∈ lu) by exact (elem_mid _ _ _ _ Hl). split_and!.
    + intros k y k' c Hk Hc Hpc. assert (y ∈ lu) by exact (elem_mid _ _ _ _ Hk). assert (x = y) as -> by (apply Huniq; eauto).
      assert (l = k ∧ l' = k') as [<- <-].
      { pose proof (bi_nodup _ _ _ _ Hw) as Hnd. apply list.NoDup_app in Hnd as (Hnd & _ & _). rewrite Hl in Hnd, Hk.
        by apply (NoDup_pivot l l' k k' y). }
      exists w'. split; [done|]. assert (c = b) as -> by congruence. done.
    + intros y c Hy Hc Hr. assert (x = y) as -> by (apply Huniq; eauto). assert (c = b) as -> by congruence. lia.
    + intros Hno. destruct (Hno x Hx). eauto.
  - split_and!.
    + intros k y k' c Hk Hc Hpc. assert (y ∈ lu) by exact (elem_mid _ _ _ _ Hk). assert (x = y) as -> by (apply Huniq; eauto). assert (c = b) as -> by congruence. lia.
    + done.
    + intros Hno. destruct (Hno x Hx). eauto.
  - split_and!; [| |done].
    + intros k y k' c Hk Hc Hpc. assert (Hy : y ∈ lu) by exact (elem_mid _ _ _ _ Hk). destruct (Hno y Hy). eauto.
    + intros y c Hy Hc Hr. destruct (Hno y Hy). eauto.
Qed.

(** ** [iso_free_big_zone] *)

Lemma unmask_mask r a : UNMASK_BIG_ZONE_NEXT r (MASK_BIG_ZONE_NEXT r a) = a.
Proof.
  unfold MASK_BIG_ZONE_NEXT, UNMASK_BIG_ZONE_NEXT. destruct MASK_PTRS; [|done].
  rewrite <-Z.lxor_assoc, Z.lxor_nilpotent. by rewrite Z.lxor_0_l.
Qed.

Lemma wp_bget E a b Q w : w_bigs w !! a = Some b → mapped_rw (w_vm w) a SIZEOF_BIG_ZONE → Q b w → wp E (bget a) Q w.
Proof. intros Hb Hm. apply wp_eq. by apply bget_ok. Qed.

Lemma wp_bmod E a f b Q w : w_bigs w !! a = Some b → mapped_rw (w_vm w) a SIZEOF_BIG_ZONE →
  Q tt (set_w_bigs (<[a := f b]> (w_bigs w)) w) → wp E (bmod a f) Q w.
Proof. intros Hb Hm. apply wp_eq. by apply bmod_ok. Qed.

Lemma wp_lock_free E Q w : w_big_free_lock w = false → Q tt (set_w_big_free_lock true w) → wp E LOCK_BIG_ZONE_FREE Q w.
Proof. unfold wp, LOCK_BIG_ZONE_FREE. by intros ->. Qed.

Lemma wp_lock_used E Q w : w_big_used_lock w = false → Q tt (set_w_big_used_lock true w) → wp E LOCK_BIG_ZONE_USED Q w.
Proof. unfold wp, LOCK_BIG_ZONE_USED. by intros ->. Qed.

(** What an operation on big zones leaves alone: every mapped byte outside the region [R],
    the zones, the lookup tables and caches, the root but for the two lists, and what the
    structures in [l] describe. *)
Record big_frame (w w' : world) (R : Z → Prop) (l : list Z) : Prop := {
  bf_mem : ∀ x, vm_prot (w_vm w) x ≠ None → ¬ R x → ld8 (w_mem w') x = ld8 (w_mem w) x;
  bf_vm : ∀ x, vm_prot (w_vm w) x ≠ None → ¬ R x → vm_prot (w_vm w') x = vm_prot (w_vm w) x;
  bf_zones : w_zones w' = w_zones w;
  bf_tables : w_chunk_lookup_table w' = w_chunk_lookup_table w ∧ w_chunk_quarantine w' = w_chunk_quarantine w ∧
    w_zone_cache w' = w_zone_cache w ∧ w_zone_cache_count w' = w_zone_cache_count w;
  bf_root : ∃ s f fc h hc, w_root w' = set_seed s (set_big_zone_free_count fc (set_big_zone_free f
    (set_big_zone_used_count hc (set_big_zone_used h (w_root w)))));
  bf_locks : w_root_lock w' = w_root_lock w ∧ w_big_free_lock w' = w_big_free_lock w ∧ w_big_used_lock w' = w_big_used_lock w;
  bf_page : w_page_size w' = w_page_size w;
  bf_bigs : ∀ x b, x ∈ l → w_bigs w !! x = Some b → ∃ b', w_bigs w' !! x = Some b' ∧ same_big b b';
}.

(** The pages of a big zone, and all it owns. *)
Definition in_pages (b : iso_alloc_big_zone_t) (x : Z) : Prop := big_user_pages_start b <= x < big_user_pages_start b + big_size b.
Definition in_region (w : world) (a : Z) (b : iso_alloc_big_zone_t) (x : Z) : Prop :=
  in_pages b x ∨ meta_page w a <= x < meta_page w a + w_page_size w.

Lemma same_big_insert (bigs : gmap Z iso_alloc_big_zone_t) a b b1 x bx : bigs !! a = Some b → same_big b b1 → bigs !! x = Some bx →
  ∃ b', <[a := b1]> bigs !! x = Some b' ∧ same_big bx b'.
Proof.
  intros Ha Hs Hx. destruct (decide (x = a)) as [->|Hne].
  - exists b1. rewrite lookup_insert_eq. assert (bx = b) as -> by congruence. done.
  - exists bx. rewrite lookup_insert_ne by done. split; [done|apply same_big_refl].
Qed.

Context `{!KernelLaws}.

Lemma wp_dont_need E p n Q w : page_ok w →
  (∀ m k, (∀ x, ld8 m x = ld8 (w_mem w) x ∨ (p <= x < p + n ∧ ld8 m x = 0)) → page_ok (set_w_k k w) →
     Q tt (set_w_mem m (set_w_k k w))) → wp E (dont_need_pages p n) Q w.
Proof.
  intros Hw HQ. unfold wp, dont_need_pages. destruct (k_madvise_free (w_k w) (w_mem w) p n) as [m k] eqn:Hk.
  apply HQ; [by eapply kl_madvise|]. apply page_ok_k; [done|]. by eapply kl_madvise_page.
Qed.

(** No structure lies in the memory of a big zone. *)
Lemma meta_outside w lu lf ld x a b y : bigs_inv w lu lf ld → x ∈ lu ++ lf ++ ld → a ∈ lu ++ lf ++ ld → w_bigs w !! a = Some b →
  x <= y < x + SIZEOF_BIG_ZONE → ¬ (big_user_pages_start b <= y < big_user_pages_start b + big_size b).
Proof.
  intros Hw Hx Ha Hb Hy. destruct (bi_entry _ _ _ _ Hw x Hx) as (bx & Hbx & He & _).
  destruct (bi_apart _ _ _ _ Hw x a bx b) as [_ Hap]; [done..|]. unfold meta_page in Hap.
  pose proof (be_in_page _ _ _ He). pose proof (Z.mod_pos_bound x (w_page_size w)). pose proof (page_ok_bounds w (bi_page _ _ _ _ Hw)).
  destruct Hap; lia.
Qed.

(** The zone goes to the front of the free list. *)
Lemma bigs_inv_pushed w w' lu lf a b n : bigs_inv w lu lf [a] → w_bigs w !! a = Some b →
  n = big_zone_free (w_root w) →
  w_bigs w' = <[a := set_big_next n (set_big_is_free true b)]> (w_bigs w) →
  w_root w' = set_big_zone_free_count (big_zone_free_count (w_root w) + 1) (set_big_zone_free (MASK_BIG_ZONE_NEXT (w_root w) a) (w_root w)) →
  w_root_null w' = false → page_ok w' → w_page_size w' = w_page_size w →
  (∀ x, ¬ (big_user_pages_start b <= x < big_user_pages_start b + big_size b) → vm_prot (w_vm w') x = vm_prot (w_vm w) x) →
  (PROTECT_FREE_BIG_ZONES = false → w_vm w' = w_vm w) → still_mapped w w' →
  bigs_inv w' lu (a :: lf) [].
Proof.
  intros Hw Hb Hn Hbigs Hroot Hr Hpg Hps Hvm Hprot Hst. destruct (bi_counts _ _ _ _ Hw) as [Hcu Hcf].
  pose proof (bi_nodup _ _ _ _ Hw) as Hnd. destruct (bi_entry _ _ _ _ Hw a) as (b0 & Hb0 & Ha & _); [set_solver|].
  assert (Hna : (a ∉ lu) ∧ (a ∉ lf)) by (rewrite (assoc_L (++)) in Hnd; apply list.NoDup_app in Hnd as (_ & Hnd & _); set_solver).
  assert (Hkeep : ∀ x, x ≠ a → w_bigs w' !! x = w_bigs w !! x) by (intros x Hx; rewrite Hbigs; by rewrite lookup_insert_ne).
  apply (bigs_inv_moved w w' lu lf [a]); try done.
  - solve_Permutation.
  - unfold same_secrets. by rewrite Hroot.
  - intros x bx Hx Hbx. destruct (bi_entry _ _ _ _ Hw x Hx) as (bx' & Hbx' & He & Hfl & Hrw). assert (bx' = bx) as -> by congruence.
    destruct (bi_apart _ _ _ _ Hw x a bx b Hx) as [Hap1 _]; [set_solver|done..|]. split_and!.
    + intros y Hy. rewrite Hvm; [by apply (be_meta _ _ _ He)|]. eapply meta_outside; [done|done| |done|done]. set_solver.
    + intros Hor. destruct (decide (PROTECT_FREE_BIG_ZONES = false)) as [Hp|Hp].
      { rewrite (Hprot Hp). apply Hrw. by right. }
      assert (x ≠ a ∧ (x ∉ lf)) as [Hxa Hxf] by set_solver. intros y Hy. destruct (Hap1 Hxa) as [[?|?] _];
        (rewrite Hvm; [apply Hrw; [by left|done]|lia]).
    + destruct (decide (x = a)) as [->|Hne].
      * eexists. rewrite Hbigs, lookup_insert_eq. split; [done|]. assert (bx = b) as -> by congruence. split; [done|].
        rewrite bool_decide_true by set_solver. done.
      * exists bx. rewrite Hkeep by done. split; [done|]. split; [done|]. rewrite Hfl. apply bool_decide_ext. set_solver.
  - rewrite Hroot. simpl. eapply chain_ext; [apply Hw|]. intros x Hx. rewrite Hkeep; [done|]. set_solver.
  - rewrite Hroot. simpl. destruct (be_addr _ _ _ Ha) as [Ha1 Ha2]. split_and!; [done|apply unmask_mask|done|].
    exists (set_big_next n (set_big_is_free true b)). split; [by rewrite Hbigs, lookup_insert_eq|]. simpl. rewrite Hn.
    eapply chain_ext; [apply Hw|]. intros x Hx. rewrite Hkeep; [done|]. set_solver.
  - rewrite Hroot. done.
  - rewrite Hroot. simpl. rewrite Hcf. lia.
Qed.

(** The world after the steps of a retained free. *)
Lemma wp_free_keep w lu lf a b : bigs_inv w lu lf [a] → w_bigs w !! a = Some b → w_big_free_lock w = false →
  big_zone_free_count (w_root w) < BIG_ZONE_MAX_FREE_LIST → big_ttl b < BIG_ZONE_ALLOC_RETIRE →
  wp resource (iso_free_big_zone a false)
    (λ _ w', bigs_inv w' lu (a :: lf) [] ∧ big_frame w w' (in_pages b) (a :: lu ++ lf)) w.
Proof.
  intros Hw Hb Hlk Hcnt Httl. destruct (bi_entry _ _ _ _ Hw a) as (b0 & Hb0 & He & Hfl & Hrw); [set_solver|].
  assert (b0 = b) as -> by congruence. pose proof (bi_root _ _ _ _ Hw) as Hr. pose proof (bi_page _ _ _ _ Hw) as Hpg.
  assert (Hna : a ∉ lf).
  { pose proof (bi_nodup _ _ _ _ Hw) as Hnd. apply list.NoDup_app in Hnd as (_ & _ & Hnd). apply list.NoDup_app in Hnd as (_ & Hnd & _). set_solver. }
  rewrite bool_decide_false in Hfl by done. specialize (Hrw (or_introl Hna)). pose proof (be_meta _ _ _ He) as Hm.
  destruct (be_align _ _ _ He) as [Hal1 Hal2]. pose proof (be_size _ _ _ He) as Hsz. change SMALL_SIZE_MAX with 65536 in Hsz. change BIG_SZ_MAX with 4294967296 in Hsz.
  assert (Hlen : page_len w (big_size b) = big_size b) by (apply page_len_aligned; [done|lia|done]).
  unfold iso_free_big_zone. wstep. apply (wp_bget _ _ b); [done..|]. rewrite Hfl. wstep.
  apply wp_post with (λ _ w1, ∃ m, w1 = set_w_mem m w ∧ ∀ x, ¬ (big_user_pages_start b <= x < big_user_pages_start b + big_size b) → ld8 m x = ld8 (w_mem w) x).
  { apply wp_when; intros _; [|exists (w_mem w); split; [by destruct w|done]].
    apply wp_memset; [done|]. eexists. split; [done|]. intros x Hx. rewrite ld8_fill, decide_False; [done|]. lia. }
  intros _ w1 (m & -> & Hmem). wstep. apply wp_lock_free; [done|]. wsteps. cbn [negb andb w_root].
  change (w_root (set_w_big_free_lock true (set_w_mem m w))) with (w_root w).
  rewrite (proj2 (Z.ltb_lt _ _) Hcnt), (proj2 (Z.ltb_lt _ _) Httl). cbn [andb]. wstep.
  apply (wp_bmod _ _ _ b); [done..|]. wstep. apply wp_dont_need; [done|]. intros m' k Hm' Hk. wstep.
  apply wp_post with (λ _ w1, ∃ vm k, page_ok (set_w_k k w) ∧
    w1 = set_w_vm vm (set_w_k k (set_w_mem m' (set_w_bigs (<[a:=set_big_is_free true b]> (w_bigs w)) (set_w_big_free_lock true w)))) ∧
    (∀ x, ¬ (big_user_pages_start b <= x < big_user_pages_start b + big_size b) → vm_prot vm x = vm_prot (w_vm w) x) ∧
    (PROTECT_FREE_BIG_ZONES = false → vm = w_vm w) ∧ (∀ x, vm_prot (w_vm w) x ≠ None → vm_prot vm x ≠ None)).
  { apply wp_when; intros Hprot; [|exists (w_vm w), k; by split_and!].
    apply wp_mprotect_pages; [done|done|]. intros k' Hk'. exists (Vma (big_user_pages_start b) (big_size b) (Some PROT_NONE) :: w_vm w), k'.
    change (page_len _ (big_size b)) with (page_len w (big_size b)). rewrite Hlen. split_and!; try done; [|congruence|].
    - intros x Hx. by rewrite vm_prot_cons, decide_False.
    - intros x Hx. rewrite vm_prot_cons. by case_decide. }
  intros _ w1 (vm & k1 & Hk1 & -> & Hvm & Hprot & Hst). destruct (be_pages _ _ _ He) as [Hpos _].
  assert (Hm1 : mapped_rw vm a SIZEOF_BIG_ZONE).
  { intros x Hx. rewrite Hvm; [by apply Hm|]. eapply meta_outside; [done| | |done|done]; set_solver. }
  wstep. apply (wp_bmod _ _ _ (set_big_is_free true b)); [simpl; by rewrite lookup_insert_eq|done|]. do 4 wstep. unfold UNLOCK_BIG_ZONE_FREE. wsteps.
  split_and!.
  - eapply (bigs_inv_pushed w); try done. simpl. by rewrite insert_insert_eq.
  - constructor; try done.
    + intros x _ Hx. simpl. destruct (Hm' x) as [->|[? _]]; [by apply Hmem|done].
    + intros x _. apply Hvm.
    + exists (seed (w_root w)), (MASK_BIG_ZONE_NEXT (w_root w) a), (big_zone_free_count (w_root w) + 1), (big_zone_used (w_root w)), (big_zone_used_count (w_root w)).
      simpl. by destruct (w_root w).
    + intros x bx _ Hx. simpl. rewrite insert_insert_eq. by apply (same_big_insert _ a b).
Qed.

(** The zone is given up: its pages and its structure's page may change. *)
Lemma bigs_inv_dropped w w' lu lf a b : bigs_inv w lu lf [a] → w_bigs w !! a = Some b →
  (∀ x, x ≠ a → w_bigs w' !! x = w_bigs w !! x) → w_root w' = w_root w → w_root_null w' = false →
  page_ok w' → w_page_size w' = w_page_size w →
  (∀ x, ¬ (big_user_pages_start b <= x < big_user_pages_start b + big_size b) →
        ¬ (meta_page w a <= x < meta_page w a + w_page_size w) → vm_prot (w_vm w') x = vm_prot (w_vm w) x) →
  bigs_inv w' lu lf [].
Proof.
  intros Hw Hb Hkeep Hroot Hr Hpg Hps Hvm. pose proof (bi_nodup _ _ _ _ Hw) as Hnd.
  assert (Hna : a ∉ lu ++ lf) by (rewrite (assoc_L (++)) in Hnd; apply list.NoDup_app in Hnd as (_ & Hnd & _); set_solver).
  assert (Hin : ∀ x, x ∈ lu ++ lf ++ [] → x ∈ lu ++ lf ++ [a] ∧ x ≠ a) by (intros x Hx; split; [set_solver|]; intros ->; set_solver).
  assert (Hpb := page_ok_bounds w (bi_page _ _ _ _ Hw)).
  assert (Hsame : ∀ x bx y, x ∈ lu ++ lf ++ [] → w_bigs w !! x = Some bx →
    big_user_pages_start bx <= y < big_user_pages_start bx + big_size bx ∨ meta_page w x <= y < meta_page w x + w_page_size w →
    vm_prot (w_vm w') y = vm_prot (w_vm w) y).
  { intros x bx y [Hx Hne]%Hin Hbx Hy. destruct (bi_apart _ _ _ _ Hw x a bx b Hx) as [A1 A2]; [set_solver|done..|].
    destruct (bi_apart _ _ _ _ Hw a x b bx) as [_ A3]; [set_solver|done..|]. destruct (A1 Hne) as [A4 A5].
    unfold apart in *. apply Hvm; lia. }
  constructor; rewrite ?Hroot; try done.
  - eapply chain_ext; [apply Hw|]. intros x Hx. rewrite Hkeep; [done|]. set_solver.
  - eapply chain_ext; [apply Hw|]. intros x Hx. rewrite Hkeep; [done|]. set_solver.
  - rewrite app_nil_r. rewrite (assoc_L (++)) in Hnd. by apply list.NoDup_app in Hnd as (Hnd & _ & _).
  - apply Hw.
  - intros x Hx. destruct (Hin x Hx) as [Hx' Hne]. destruct (bi_entry _ _ _ _ Hw x Hx') as (bx & Hbx & He & Hfl & Hrw).
    exists bx. rewrite Hkeep by done. split_and!; [done| |done|].
    + destruct He as [E1 E2 E3 E4 E5 E6 E7 E8]. constructor; rewrite ?Hroot, ?Hps; try done.
      * intros y Hy. rewrite (Hsame x bx); [by apply E3|done|done|right; unfold meta_page].
        pose proof (Z.mod_pos_bound x (w_page_size w)). lia.
      * unfold meta_page. rewrite Hps. intros y Hy. rewrite (Hsame x bx y); [by apply E8|done..].
    + intros Hor y Hy. rewrite (Hsame x bx); [by apply Hrw|done|done|by left].
  - intros x y bx by_ [Hx Hxne]%Hin [Hy Hyne]%Hin Hbx Hby. rewrite Hkeep in Hbx, Hby by done. unfold meta_page. rewrite Hps.
    by apply (bi_apart _ _ _ _ Hw).
Qed.

(** An unmapping of part of what the zone [a] owns changes nothing else. *)
Lemma munmap_owned w w1 p n lo len : w_page_size w1 = w_page_size w → w_page_size_shift w1 = w_page_size_shift w →
  (p mod w_page_size w = 0 → 0 < n → p = lo ∧ page_len w n = len) →
  ∃ vm, munmap p n w1 = Ret tt (set_w_vm vm w1) ∧ ∀ x, ¬ (lo <= x < lo + len) → vm_prot vm x = vm_prot (w_vm w1) x.
Proof.
  intros Hp Hs Hal. unfold munmap. rewrite Hp. destruct (Z.eqb_spec (p mod w_page_size w) 0) as [Ha|Ha]; cbn [andb].
  - destruct (Z.ltb_spec 0 n) as [Hn|Hn].
    + destruct (Hal Ha Hn) as [-> <-]. eexists. split; [done|]. intros x Hx. rewrite vm_prot_cons, decide_False; [done|].
      simpl. unfold page_len. by rewrite Hp, Hs.
    + exists (w_vm w1). split; [by destruct w1|done].
  - exists (w_vm w1). split; [by destruct w1|done].
Qed.

(** [iso_free_big_zone] of a zone that is too old or has no room on the free list: its
    pages are unmapped. The build without guard pages around big zones. *)
Lemma wp_free_unmap w lu lf a b : bigs_inv w lu lf [a] → w_bigs w !! a = Some b → w_big_free_lock w = false →
  BIG_ZONE_GUARD = false → BIG_ZONE_META_DATA_GUARD = false →
  ¬ (big_zone_free_count (w_root w) < BIG_ZONE_MAX_FREE_LIST ∧ big_ttl b < BIG_ZONE_ALLOC_RETIRE) →
  wp resource (iso_free_big_zone a false)
    (λ _ w', bigs_inv w' lu lf [] ∧ unmapped (w_vm w') (big_user_pages_start b) (big_size b) ∧ big_frame w w' (in_region w a b) (a :: lu ++ lf)) w.
Proof.
  intros Hw Hb Hlk Hg1 Hg2 Hc. destruct (bi_entry _ _ _ _ Hw a) as (b0 & Hb0 & He & Hfl & Hrw); [set_solver|].
  assert (b0 = b) as -> by congruence. pose proof (bi_root _ _ _ _ Hw) as Hr. pose proof (bi_page _ _ _ _ Hw) as Hpg.
  assert (Hna : a ∉ lf).
  { pose proof (bi_nodup _ _ _ _ Hw) as Hnd. apply list.NoDup_app in Hnd as (_ & _ & Hnd). apply list.NoDup_app in Hnd as (_ & Hnd & _). set_solver. }
  rewrite bool_decide_false in Hfl by done. specialize (Hrw (or_introl Hna)). pose proof (be_meta _ _ _ He) as Hm.
  destruct (be_align _ _ _ He) as [Hal1 Hal2]. pose proof (be_size _ _ _ He) as Hsz. change SMALL_SIZE_MAX with 65536 in Hsz. change BIG_SZ_MAX with 4294967296 in Hsz.
  pose proof (page_ok_bounds w Hpg) as Hpb.
  assert (Hlen : page_len w (big_size b) = big_size b) by (apply page_len_aligned; [done|lia|done]).
  assert (Hlen1 : page_len w 1 = w_page_size w).
  { destruct (page_len_spec w 1 Hpg ltac:(lia)) as [A1 A2]. apply (next_multiple 1 (w_page_size w) _ ltac:(lia)) in A2; [|lia].
    rewrite Z.mod_1_l in A2 by lia. simpl in A2. lia. }
  unfold iso_free_big_zone. wstep. apply (wp_bget _ _ b); [done..|]. rewrite Hfl, Hg1, Hg2. wstep.
  apply wp_post with (λ _ w1, ∃ m, w1 = set_w_mem m w ∧ ∀ x, ¬ in_pages b x → ld8 m x = ld8 (w_mem w) x).
  { apply wp_when; intros _; [|exists (w_mem w); split; [by destruct w|done]]. apply wp_memset; [done|]. eexists. split; [done|].
    intros x Hx. rewrite ld8_fill, decide_False; [done|]. unfold in_pages in Hx. lia. }
  intros _ w1 (m & -> & Hmem). wstep. apply wp_lock_free; [done|]. wsteps. cbn [negb andb w_root].
  change (w_root (set_w_big_free_lock true (set_w_mem m w))) with (w_root w).
  assert ((big_zone_free_count (w_root w) <? BIG_ZONE_MAX_FREE_LIST) && (big_ttl b <? BIG_ZONE_ALLOC_RETIRE) = false) as ->.
  { apply andb_false_iff. destruct (Z.ltb_spec (big_zone_free_count (w_root w)) BIG_ZONE_MAX_FREE_LIST); [right|by left].
    apply Z.ltb_ge. destruct (Z.le_gt_cases BIG_ZONE_ALLOC_RETIRE (big_ttl b)); [done|]. by destruct Hc. }
  unfold UNLOCK_BIG_ZONE_FREE. wsteps. change BIG_ZONE_META_DATA_PAGE_COUNT with 1. set (w1 := set_w_big_free_lock false _).
  set (w2 := set_w_vm (Vma (big_user_pages_start b) (big_size b) None :: w_vm w) w1).
  assert (Hrun : munmap (big_user_pages_start b) (big_size b) w1 = Ret tt w2).
  { unfold munmap. change (w_page_size w1) with (w_page_size w). rewrite Hal1, (proj2 (Z.ltb_lt 0 _)) by lia. cbn [Z.eqb andb].
    change (page_len w1 (big_size b)) with (page_len w (big_size b)). by rewrite Hlen. }
  destruct (munmap_owned w w2 a 1 (meta_page w a) (w_page_size w)) as (vm & Hun & Hvm); [done|done| |].
  { intros Ha _. unfold meta_page. rewrite Ha, Hlen1. lia. }
  assert (Hin : ∀ x, vm_prot (w_vm w2) x = if decide (big_user_pages_start b <= x < big_user_pages_start b + big_size b) then None else vm_prot (w_vm w) x).
  { intros x. apply vm_prot_cons. }
  eapply wp_eq; [exact Hrun|]. eapply wp_eq; [exact Hun|]. split_and!.
  - apply (bigs_inv_dropped w _ lu lf a b); try done. intros x Hx1 Hx2. simpl. rewrite Hvm, Hin, decide_False by done. done.
  - intros x Hx. simpl. rewrite Hvm, Hin, decide_True; [done..|].
    destruct (bi_apart _ _ _ _ Hw a a b b) as [_ [?|?]]; [set_solver|set_solver|done|done|lia|lia].
  - constructor; try done.
    + intros x _ Hx. apply Hmem. intros Hp. apply Hx. by left.
    + intros x _ Hx. simpl. rewrite Hvm, Hin, decide_False; [done| |]; intros Hp; apply Hx; [by left|by right].
    + exists (seed (w_root w)), (big_zone_free (w_root w)), (big_zone_free_count (w_root w)), (big_zone_used (w_root w)), (big_zone_used_count (w_root w)).
      simpl. by destruct (w_root w).
    + intros x bx _ Hx. exists bx. split; [exact Hx|apply same_big_refl].
Qed.

(** What freeing the held zone [a] does. *)
Definition big_freed (w w' : world) (lu lf : list Z) (a : Z) (b : iso_alloc_big_zone_t) : Prop :=
  if (big_zone_free_count (w_root w) <? BIG_ZONE_MAX_FREE_LIST) && (big_ttl b <? BIG_ZONE_ALLOC_RETIRE)
  then bigs_inv w' lu (a :: lf) [] ∧ big_frame w w' (in_pages b) (a :: lu ++ lf)
  else bigs_inv w' lu lf [] ∧ unmapped (w_vm w') (big_user_pages_start b) (big_size b) ∧ big_frame w w' (in_region w a b) (a :: lu ++ lf).

Lemma wp_iso_free_big w lu lf a b : bigs_inv w lu lf [a] → w_bigs w !! a = Some b → w_big_free_lock w = false →
  BIG_ZONE_GUARD = false → BIG_ZONE_META_DATA_GUARD = false →
  wp resource (iso_free_big_zone a false) (λ _ w', big_freed w w' lu lf a b) w.
Proof.
  intros Hw Hb Hlk Hg1 Hg2. unfold big_freed. destruct ((_ <? _) && _) eqn:Hc.
  - apply andb_true_iff in Hc as [?%Z.ltb_lt ?%Z.ltb_lt]. by apply wp_free_keep.
  - apply wp_free_unmap; try done. intros [A1%Z.ltb_lt A2%Z.ltb_lt]. by rewrite A1, A2 in Hc.
Qed.

(** ** [_iso_big_alloc] *)

(** A free zone that serves a request of [sz] bytes without wasting too much. *)
Definition fits (sz : Z) (b : iso_alloc_big_zone_t) : bool :=
  (sz <=? big_size b) && (big_size b - sz <=? BIG_ZONE_WASTE * 2).

(** The branch of [reuse_big] that takes the zone [big]. *)
Definition take_big (big prev : Z) (b : iso_alloc_big_zone_t) : M Z :=
  bmod big (set_big_is_free false);;
  rupd (λ r, set_big_zone_free_count (big_zone_free_count r - 1) r);;
  r ← root;
  (if big =? UNMASK_BIG_ZONE_NEXT r (big_zone_free r) then rupd (set_big_zone_free (big_next b))
   else bmod prev (set_big_next (big_next b)));;
  UNLOCK_BIG_ZONE_FREE;;
  LOCK_BIG_ZONE_USED;;
  r ← root;
  bmod big (λ b, set_big_ttl (u32 (big_ttl b + 1)) (set_big_next (big_zone_used r) b));;
  rupd (set_big_zone_used (MASK_BIG_ZONE_NEXT r big));;
  rupd (λ r, set_big_zone_used_count (big_zone_used_count r + 1) r);;
  UNLOCK_BIG_ZONE_USED;;
  when PROTECT_FREE_BIG_ZONES (mprotect_pages (big_user_pages_start b) (big_size b) PROT_RW);;
  mret big.

(** The free list without the entry [a]: its structures and its head. *)
Definition cut (bigs bigs1 : gmap Z iso_alloc_big_zone_t) (l1 : list Z) : Prop :=
  (∀ x b, bigs !! x = Some b → ∃ n, bigs1 !! x = Some (set_big_next n b)) ∧ (∀ x, x ∉ l1 → bigs1 !! x = bigs !! x).

Lemma cut_refl bigs l : cut bigs bigs l.
Proof. split; [|done]. intros x b Hx. exists (big_next b). rewrite Hx. by destruct b. Qed.

Lemma cut_insert bigs p bp n l : bigs !! p = Some bp → p ∈ l → cut bigs (<[p := set_big_next n bp]> bigs) l.
Proof.
  intros Hp Hin. split.
  - intros x b Hx. rewrite lookup_insert. case_decide as Hd; [subst; exists n; congruence|].
    exists (big_next b). rewrite Hx. by destruct b.
  - intros x Hx. rewrite lookup_insert_ne; [done|]. by intros ->.
Qed.

(** The zone goes from the free list to the front of the used list. *)
Lemma bigs_inv_taken w w' lu l1 a l2 b b' bigs1 h : bigs_inv w lu (l1 ++ a :: l2) [] → w_bigs w !! a = Some b →
  chain (UNMASK_BIG_ZONE_NEXT (w_root w)) bigs1 h (l1 ++ l2) → cut (w_bigs w) bigs1 l1 →
  same_big b b' → big_is_free b' = false → big_next b' = big_zone_used (w_root w) →
  w_bigs w' = <[a := b']> bigs1 →
  w_root w' = set_big_zone_used_count (big_zone_used_count (w_root w) + 1) (set_big_zone_used (MASK_BIG_ZONE_NEXT (w_root w) a)
    (set_big_zone_free h (set_big_zone_free_count (big_zone_free_count (w_root w) - 1) (w_root w)))) →
  w_root_null w' = false → page_ok w' → w_page_size w' = w_page_size w →
  (∀ x, ¬ (big_user_pages_start b <= x < big_user_pages_start b + big_size b) → vm_prot (w_vm w') x = vm_prot (w_vm w) x) →
  mapped_rw (w_vm w') (big_user_pages_start b) (big_size b) →
  bigs_inv w' (a :: lu) (l1 ++ l2) [].
Proof.
  intros Hw Hb Hch [Hcut Hoff] Hsb Hfr Hnx Hbigs Hroot Hr Hpg Hps Hvm Hrw. destruct (bi_counts _ _ _ _ Hw) as [Hcu Hcf].
  pose proof (bi_nodup _ _ _ _ Hw) as Hnd. rewrite app_nil_r in Hnd. apply list.NoDup_app in Hnd as (Hndu & Hsep & Hnd).
  pose proof (NoDup_app_cons_perm _ _ _ Hnd) as Hna.
  destruct (bi_entry _ _ _ _ Hw a) as (b0 & Hb0 & Ha & _); [set_solver|].
  assert (Hau : a ∉ lu) by (intros Hin; apply (Hsep a Hin); set_solver). rewrite length_app in Hcf. simpl in Hcf.
  apply (bigs_inv_moved w w' lu (l1 ++ a :: l2) []); try done.
  - solve_Permutation.
  - unfold same_secrets. by rewrite Hroot.
  - intros x Hx. destruct (decide (big_user_pages_start b <= x < big_user_pages_start b + big_size b)) as [Hin|Hin]; [|by rewrite Hvm].
    by rewrite Hrw.
  - intros x bx Hx Hbx. destruct (bi_entry _ _ _ _ Hw x Hx) as (bx' & Hbx' & He & Hfl & Hrw'). assert (bx' = bx) as -> by congruence.
    destruct (bi_apart _ _ _ _ Hw x a bx b Hx) as [Hap _]; [set_solver|done..|].
    assert (Hmeta : ∀ y, x <= y < x + SIZEOF_BIG_ZONE → vm_prot (w_vm w') y = Some PROT_RW).
    { intros y Hy. rewrite Hvm; [by apply (be_meta _ _ _ He)|]. eapply meta_outside; [exact Hw|done| |done|done]. set_solver. }
    destruct (decide (x = a)) as [->|Hne].
    + assert (bx = b) as -> by congruence. split_and!; [done|done|]. exists b'. rewrite Hbigs, lookup_insert_eq. split_and!; [done..|].
      by rewrite bool_decide_false.
    + split_and!; [done| |].
      * intros Hor y Hy. destruct (Hap Hne) as [Hd _]. rewrite Hvm by (destruct Hd; lia). apply Hrw'; [|done].
        destruct Hor as [Hor|]; [left|by right]. set_solver.
      * destruct (Hcut x bx Hbx) as (n & Hn). exists (set_big_next n bx). rewrite Hbigs, lookup_insert_ne by done.
        split_and!; [done..|]. simpl. rewrite Hfl. apply bool_decide_ext. set_solver.
  - rewrite Hroot. simpl. destruct (be_addr _ _ _ Ha) as [Ha1 Ha2]. split_and!; [done|apply unmask_mask|done|]. exists b'.
    split; [by rewrite Hbigs, lookup_insert_eq|]. rewrite Hnx. eapply chain_ext; [apply Hw|]. intros x Hx.
    rewrite Hbigs, lookup_insert_ne by (intros ->; done). rewrite Hoff; [done|]. intros Hin. apply (Hsep x Hx). set_solver.
  - rewrite Hroot. simpl. eapply chain_ext; [exact Hch|]. intros x Hx. rewrite Hbigs, lookup_insert_ne; [done|]. by intros ->.
  - rewrite Hroot. simpl. rewrite Hcu. lia.
  - rewrite Hroot. simpl. rewrite Hcf, length_app. lia.
Qed.

Lemma vm_k_id w : set_w_vm (w_vm w) (set_w_k (w_k w) w) = w.
Proof. by destruct w. Qed.

Lemma after_sys_mem vm k w : after_sys (w_mem w) vm k w = set_w_vm vm (set_w_k k w).
Proof. reflexivity. Qed.

(** Unlinking [big] from the free list, the first steps of [take_big]. *)
Lemma wp_take_unlink {A} E w lu l1 a l2 b (rest : M A) (Q : A → world → Prop) : bigs_inv w lu (l1 ++ a :: l2) [] → w_bigs w !! a = Some b →
  (∀ bigs1 h, chain (UNMASK_BIG_ZONE_NEXT (w_root w)) bigs1 h (l1 ++ l2) → cut (w_bigs w) bigs1 l1 →
     wp E rest Q (set_w_root (set_big_zone_free h (set_big_zone_free_count (big_zone_free_count (w_root w) - 1) (w_root w)))
            (set_w_bigs (<[a := set_big_is_free false b]> bigs1) w))) →
  wp E (bmod a (set_big_is_free false);;
        rupd (λ r, set_big_zone_free_count (big_zone_free_count r - 1) r);;
        r ← root;
        (if a =? UNMASK_BIG_ZONE_NEXT r (big_zone_free r) then rupd (set_big_zone_free (big_next b))
         else bmod (prev_of l1) (set_big_next (big_next b)));;
        rest) Q w.
Proof.
  intros Hw Hb HQ. pose proof (bi_root _ _ _ _ Hw) as Hr. pose proof (bi_nodup _ _ _ _ Hw) as Hnd. rewrite app_nil_r in Hnd.
  apply list.NoDup_app in Hnd as (_ & _ & Hnd). pose proof (NoDup_app_cons_perm _ _ _ Hnd) as Hna.
  assert (Hmeta : ∀ x, x ∈ l1 ++ a :: l2 → mapped_rw (w_vm w) x SIZEOF_BIG_ZONE).
  { intros x Hx. destruct (bi_entry _ _ _ _ Hw x) as (? & _ & He & _); [set_solver|]. apply He. }
  pose proof (bi_free _ _ _ _ Hw) as Hf. wstep. apply (wp_bmod _ _ _ b); [done|apply Hmeta; set_solver|]. wsteps.
  cbn [w_root set_w_root set_w_bigs big_zone_free set_big_zone_free_count].
  change (UNMASK_BIG_ZONE_NEXT (set_big_zone_free_count _ (w_root w))) with (UNMASK_BIG_ZONE_NEXT (w_root w)).
  destruct (decide (l1 = [])) as [->|Hne].
  - destruct Hf as (_ & -> & _). rewrite Z.eqb_refl. wsteps. apply (HQ (w_bigs w) (big_next b)); [|apply cut_refl].
    by eapply (chain_tail _ _ _ [] a); [apply Hw|].
  - destruct (exists_last Hne) as (l & prev & ->). rewrite prev_of_snoc.
    assert (Hhead : a ≠ UNMASK_BIG_ZONE_NEXT (w_root w) (big_zone_free (w_root w))).
    { rewrite <-(assoc_L (++)) in Hf. destruct l as [|c l]; destruct Hf as (_ & -> & _); set_solver. }
    rewrite (proj2 (Z.eqb_neq _ _) Hhead). rewrite <-(assoc_L (++)) in Hf, Hnd, Hmeta. simpl in Hf, Hnd, Hmeta.
    destruct (chain_elem _ _ _ _ prev Hf) as (Hp0 & bp & Hbp); [set_solver|]. assert (a ≠ prev) by set_solver.
    apply (wp_bmod _ _ _ bp); [simpl; by rewrite lookup_insert_ne|apply Hmeta; set_solver|].
    specialize (HQ (<[prev := set_big_next (big_next b) bp]> (w_bigs w)) (big_zone_free (w_root w))).
    simpl. rewrite (insert_insert_ne (w_bigs w)) by done.
    assert (set_big_zone_free (big_zone_free (w_root w)) (set_big_zone_free_count (big_zone_free_count (w_root w) - 1) (w_root w)) =
      set_big_zone_free_count (big_zone_free_count (w_root w) - 1) (w_root w)) as Hid by by destruct (w_root w).
    rewrite Hid in HQ. apply HQ; [rewrite <-(assoc_L (++)); by apply chain_unlink with a|]. apply cut_insert; [done|set_solver].
Qed.

Lemma wp_take_big w lu l1 a l2 b : bigs_inv w lu (l1 ++ a :: l2) [] → w_bigs w !! a = Some b → w_big_used_lock w = false →
  wp resource (take_big a (prev_of l1) b)
    (λ r w', r = a ∧ bigs_inv w' (a :: lu) (l1 ++ l2) [] ∧
       big_frame (set_w_big_free_lock false w) w' (in_pages b) (lu ++ l1 ++ a :: l2)) w.
Proof.
  intros Hw Hb Hlk. destruct (bi_entry _ _ _ _ Hw a) as (b0 & Hb0 & He & Hfl & Hrw); [set_solver|].
  assert (b0 = b) as -> by congruence. pose proof (be_meta _ _ _ He) as Hm. pose proof (bi_root _ _ _ _ Hw) as Hr.
  pose proof (be_size _ _ _ He) as Hsz. change BIG_SZ_MAX with 4294967296 in Hsz. change SMALL_SIZE_MAX with 65536 in Hsz.
  destruct (be_align _ _ _ He) as [_ Hal]. pose proof (bi_page _ _ _ _ Hw) as Hpg.
  assert (Hlen : page_len w (big_size b) = big_size b) by (apply page_len_aligned; [done|lia|done]).
  unfold take_big. apply (wp_take_unlink resource w lu l1 a l2 b); [done..|]. intros bigs1 h Hch Hcut. unfold UNLOCK_BIG_ZONE_FREE. do 2 wstep.
  wstep. apply wp_lock_used; [done|]. do 3 wstep. apply (wp_bmod _ _ _ (set_big_is_free false b)); [simpl; by rewrite lookup_insert_eq|done|].
  do 4 wstep. unfold UNLOCK_BIG_ZONE_USED. do 2 wstep. simpl. rewrite insert_insert_eq.
  match goal with |- context [<[a := ?x]> bigs1] => set (b1 := x) end.
  match goal with |- wp _ _ ?Q ?W => set (w1 := W); set (post := Q) end.
  assert (Hfin : ∀ vm k, page_ok (set_w_k k w) →
    (∀ x, ¬ (big_user_pages_start b <= x < big_user_pages_start b + big_size b) → vm_prot vm x = vm_prot (w_vm w) x) →
    mapped_rw vm (big_user_pages_start b) (big_size b) → post a (set_w_vm vm (set_w_k k w1))).
  { intros vm k Hk Hvm Hmr. split; [done|]. split_and!.
    - by apply (bigs_inv_taken w _ lu l1 a l2 b b1 bigs1 h).
    - constructor; try done.
      + intros x _. apply Hvm.
      + exists (seed (w_root w)), h, (big_zone_free_count (w_root w) - 1), (MASK_BIG_ZONE_NEXT (w_root w) a), (big_zone_used_count (w_root w) + 1).
        simpl. by destruct (w_root w).
      + intros x bx _ Hx. simpl. destruct (decide (x = a)) as [->|Hne].
        * exists b1. rewrite lookup_insert_eq. change (w_bigs w !! a = Some bx) in Hx. assert (bx = b) as -> by congruence. done.
        * rewrite lookup_insert_ne by done. destruct (proj1 Hcut x bx Hx) as (n & Hn). exists (set_big_next n bx). split; [done|apply set_big_next_same]. }
  wstep. apply wp_when; intros Hp.
  2: { wstep. rewrite <-(vm_k_id w1). apply Hfin; [done|done|apply Hrw; by right]. }
  apply wp_mprotect_pages; [done|done|]. intros k Hk. wstep.
  change (page_len w1 (big_size b)) with (page_len w (big_size b)). rewrite Hlen, after_sys_mem. apply Hfin; [done|..].
  - intros x Hx. by rewrite vm_prot_cons, decide_False.
  - intros x Hx. by rewrite vm_prot_cons, decide_True.
Qed.

(** No zone of [l] fits. *)
Definition none_fits (w : world) (sz : Z) (l : list Z) : Prop :=
  ∀ x b, x ∈ l → w_bigs w !! x = Some b → fits sz b = false.

(** The first fitting zone [a] of the free list [l1 ++ a :: l2] was taken. *)
Record reused (w w' : world) (sz : Z) (lu l1 : list Z) (a : Z) (l2 : list Z) (b : iso_alloc_big_zone_t) : Prop := {
  ru_entry : w_bigs w !! a = Some b;
  ru_fits : fits sz b = true;
  ru_first : none_fits w sz l1;
  ru_inv : bigs_inv w' (a :: lu) (l1 ++ l2) [];
  ru_frame : big_frame (set_w_big_free_lock false w) w' (in_pages b) (lu ++ l1 ++ a :: l2);
}.

Lemma wp_reuse_big fuel sz w lu l1 a l2 : bigs_inv w lu (l1 ++ a :: l2) [] → w_big_used_lock w = false →
  (length l2 < fuel)%nat → none_fits w sz l1 →
  wp resource (reuse_big fuel sz a (prev_of l1)) (λ r w',
    (r = 0 ∧ w' = w ∧ none_fits w sz (l1 ++ a :: l2)) ∨
    (r ≠ 0 ∧ ∃ k1 k2 b, l1 ++ a :: l2 = k1 ++ r :: k2 ∧ reused w w' sz lu k1 r k2 b)) w.
Proof.
  intros Hw Hlk. revert l1 a l2 Hw. induction fuel as [|fuel IH]; intros l1 a l2 Hw Hf Hno; [lia|].
  pose proof (bi_root _ _ _ _ Hw) as Hr. destruct (bi_entry _ _ _ _ Hw a) as (b & Hb & He & Hfl & _); [set_solver|].
  rewrite bool_decide_true in Hfl by set_solver. destruct (be_addr _ _ _ He) as [Ha0 _].
  cbn [reuse_big]. rewrite (proj2 (Z.eqb_neq a 0)) by done. wstep. apply (wp_bget _ _ b); [done|apply He|]. rewrite Hfl. cbn [negb].
  wstep. eapply wp_eq; [by apply (check_big_ok w a b)|]. fold (fits sz b). destruct (fits sz b) eqn:Hfit.
  { fold (take_big a (prev_of l1) b). eapply wp_post; [by apply (wp_take_big w lu l1 a l2 b)|].
    intros r w' (-> & Hinv & Hfr). right. split; [done|]. exists l1, l2, b. by split. }
  assert (Hno' : none_fits w sz (l1 ++ [a])).
  { intros x bx [Hx|Hx]%elem_of_app Hbx; [by eapply Hno|]. apply list_elem_of_singleton in Hx as ->. congruence. }
  pose proof (chain_tail _ _ _ l1 a l2 b (bi_free _ _ _ _ Hw) Hb) as Ht. destruct l2 as [|c l2].
  { simpl in Ht. rewrite Ht. cbn [Z.eqb negb]. wstep. by left. }
  destruct Ht as (Hn0 & Hc & _). rewrite (proj2 (Z.eqb_neq _ 0)) by done. cbn [negb]. wsteps. rewrite Hc.
  specialize (IH (l1 ++ [a]) c l2). rewrite prev_of_snoc, <-(assoc_L (++)) in IH. apply IH; [done|simpl in Hf; lia|done].
Qed.

Lemma apart_fresh vm x n y k : 0 < n → 0 < k → (∀ z, x <= z < x + n → vm_prot vm z = None) → (∀ z, y <= z < y + k → vm_prot vm z ≠ None) → apart x n y k.
Proof.
  intros Hn Hk Hx Hy. unfold apart. destruct (Z.le_gt_cases (x + n) y); [by left|]. destruct (Z.le_gt_cases (y + k) x); [by right|].
  destruct (Hy (Z.max x y)); [lia|]. apply Hx. lia.
Qed.

Lemma apart_sym x n y k : apart x n y k → apart y k x n.
Proof. intros [|]; [by right|by left]. Qed.

(** A zone on fresh pages joins the front of the used list. *)
Lemma bigs_inv_added w w' lu lf a b : bigs_inv w lu lf [] →
  (∀ x, vm_prot (w_vm w) x ≠ None → vm_prot (w_vm w') x = vm_prot (w_vm w) x) →
  (∀ x, big_user_pages_start b <= x < big_user_pages_start b + big_size b ∨ meta_page w a <= x < meta_page w a + w_page_size w →
     vm_prot (w_vm w) x = None) →
  apart (meta_page w a) (w_page_size w) (big_user_pages_start b) (big_size b) →
  w_bigs w' = <[a := b]> (w_bigs w) → big_entry w' a b → big_is_free b = false → big_next b = big_zone_used (w_root w) →
  mapped_rw (w_vm w') (big_user_pages_start b) (big_size b) →
  big_zone_used (w_root w') = MASK_BIG_ZONE_NEXT (w_root w) a → big_zone_used_count (w_root w') = big_zone_used_count (w_root w) + 1 →
  big_zone_free (w_root w') = big_zone_free (w_root w) → big_zone_free_count (w_root w') = big_zone_free_count (w_root w) →
  same_secrets w w' → w_root_null w' = false → page_ok w' →
  bigs_inv w' (a :: lu) lf [].
Proof.
  intros Hw Hvm Hfresh Hself Hbigs Ha Hfl Hnx Hrw Hu Huc Hf Hfc Hs Hr Hpg. destruct (bi_counts _ _ _ _ Hw) as [Hcu Hcf].
  pose proof (page_ok_bounds w (bi_page _ _ _ _ Hw)) as Hpb. pose proof (be_size _ _ _ Ha) as Hsz. change SMALL_SIZE_MAX with 65536 in Hsz.
  assert (Hin : ∀ x, x ∈ (a :: lu) ++ lf ++ [] → x = a ∨ (x ∈ lu ++ lf ++ [] ∧ x ≠ a)).
  { intros x Hx. destruct (decide (x = a)) as [->|Hne]; [by left|right]. set_solver. }
  assert (Hold : ∀ x, x ∈ lu ++ lf ++ [] → x ≠ a ∧ ∃ bx, w_bigs w !! x = Some bx ∧ big_entry w x bx ∧
    apart (meta_page w a) (w_page_size w) (meta_page w x) (w_page_size w) ∧
    apart (meta_page w a) (w_page_size w) (big_user_pages_start bx) (big_size bx) ∧
    apart (big_user_pages_start b) (big_size b) (big_user_pages_start bx) (big_size bx) ∧
    apart (meta_page w x) (w_page_size w) (big_user_pages_start b) (big_size b)).
  { intros x Hx. destruct (bi_entry _ _ _ _ Hw x Hx) as (bx & Hbx & He & _). pose proof (be_owned _ _ _ He) as Ho.
    pose proof (be_size _ _ _ He) as Hxs. change SMALL_SIZE_MAX with 65536 in Hxs.
    assert (Hmm : apart (meta_page w a) (w_page_size w) (meta_page w x) (w_page_size w)) by (apply (apart_fresh (w_vm w)); auto; lia).
    split; [intros ->; destruct Hmm; lia|]. exists bx. split_and!; try done; try (apply (apart_fresh (w_vm w)); auto; lia).
    apply apart_sym, (apart_fresh (w_vm w)); auto; lia. }
  assert (Hkeep : ∀ x, x ≠ a → w_bigs w' !! x = w_bigs w !! x) by (intros x Hx; rewrite Hbigs; by rewrite lookup_insert_ne).
  assert (Hna : a ∉ lu ++ lf ++ []) by (intros Hx; by destruct (Hold a Hx)).
  assert (Hab : w_bigs w' !! a = Some b) by (by rewrite Hbigs, lookup_insert_eq).
  assert (Hps : ∀ x, meta_page w' x = meta_page w x) by (intros x; unfold meta_page; by rewrite (proj2 (proj2 Hs))).
  assert (Hst : still_mapped w w') by (intros x Hx; by rewrite Hvm).
  constructor; try done; rewrite ?(same_secrets_unmask w w' Hs), ?Hu, ?Hf.
  - destruct (be_addr _ _ _ Ha) as [Ha1 Ha2]. unfold MASK_BIG_ZONE_NEXT in *. rewrite (same_secrets_unmask w w' Hs) in Ha2.
    split_and!; [done|apply unmask_mask|done|]. exists b. split; [done|]. rewrite Hnx.
    eapply chain_ext; [apply Hw|]. intros x Hx. rewrite Hkeep; [done|]. set_solver.
  - eapply chain_ext; [apply Hw|]. intros x Hx. rewrite Hkeep; [done|]. set_solver.
  - simpl. apply list.NoDup_cons. split; [done|apply Hw].
  - rewrite Huc, Hfc, Hcu, Hcf. simpl. lia.
  - intros x [->|[Hx Hne]]%Hin.
    + exists b. split_and!; try done. rewrite bool_decide_false; [done|]. set_solver.
    + destruct (bi_entry _ _ _ _ Hw x Hx) as (bx & Hbx & He & Hflx & Hrwx). exists bx. rewrite Hkeep by done.
      split_and!; [done| |done|].
      * eapply big_entry_moved; [done|apply same_big_refl|done| |done]. intros y Hy. pose proof (be_meta _ _ _ He y Hy) as Hm. by rewrite Hvm; rewrite Hm.
      * intros Hor y Hy. specialize (Hrwx Hor y Hy). by rewrite Hvm; rewrite Hrwx.
  - intros x y bx by_ [->|[Hx Hxne]]%Hin [->|[Hy Hyne]]%Hin Hbx Hby; rewrite !Hps, (proj2 (proj2 Hs)).
    + assert (bx = b) as -> by congruence. assert (by_ = b) as -> by congruence. done.
    + assert (bx = b) as -> by congruence. destruct (Hold y Hy) as (_ & c & Hc & _ & A1 & A2 & A3 & A4).
      rewrite Hkeep in Hby by done. assert (c = by_) as -> by congruence. done.
    + assert (by_ = b) as -> by congruence. destruct (Hold x Hx) as (_ & c & Hc & _ & A1 & A2 & A3 & A4).
      rewrite Hkeep in Hbx by done. assert (c = bx) as -> by congruence. split; [|done]. intros _. by split; apply apart_sym.
    + rewrite Hkeep in Hbx, Hby by done. by apply (bi_apart _ _ _ _ Hw).
Qed.

(** The next-pointer mask hides no address: an address has 47 bits, the mask is random. *)
Definition mask_ok (w : world) : Prop := MASK_PTRS = false ∨ 2 ^ 47 <= big_zone_next_mask (w_root w).

Lemma mask_ok_nonzero w a : mask_ok w → 0 < a < 2 ^ 47 → MASK_BIG_ZONE_NEXT (w_root w) a ≠ 0.
Proof.
  intros Hm Ha. unfold MASK_BIG_ZONE_NEXT, UNMASK_BIG_ZONE_NEXT. destruct MASK_PTRS eqn:Hp; [|lia].
  intros Heq%Z.lxor_eq. destruct Hm; [congruence|lia].
Qed.

(** The structure stays inside its page. *)
Lemma meta_offset r page : 4096 <= page <= 65536 →
  0 <= Z.shiftr (u64 (u32 r * (page - (SIZEOF_BIG_ZONE - 1)))) 32 ∧
  Z.shiftr (u64 (u32 r * (page - (SIZEOF_BIG_ZONE - 1)))) 32 + SIZEOF_BIG_ZONE <= page.
Proof.
  intros Hp. change SIZEOF_BIG_ZONE with 48. change (48 - 1) with 47. pose proof (u32_range r). rewrite u64_small by (unfold is_u64; nia).
  rewrite Z.shiftr_div_pow2 by lia. split; [apply Z.div_pos; nia|].
  assert (u32 r * (page - 47) / 2 ^ 32 < page - 47) by (apply Z.div_lt_upper_bound; nia). lia.
Qed.

(** The choice between the two kinds of mapping. *)
Lemma wp_map_choice (g : bool) n w : page_ok w → 0 < n <= 2 ^ 40 →
  wp resource (if g then mmap_guarded_rw_pages n else mmap_rw_pages n) (λ p w', fresh_map w w' p (page_len w n)) w.
Proof. intros Hw Hn. destruct g; [by apply wp_map_guarded|apply wp_map_rw; [done|lia]]. Qed.

(** Two mappings one after the other. *)
Lemma fresh_twice w w1 w2 p n q k : fresh_map w w1 p n → fresh_map w1 w2 q k → 0 < n → 0 < k →
  (∀ x, vm_prot (w_vm w) x ≠ None → vm_prot (w_vm w2) x = vm_prot (w_vm w) x) ∧
  (∀ x, vm_prot (w_vm w) x ≠ None → ld8 (w_mem w2) x = ld8 (w_mem w) x) ∧
  mapped_rw (w_vm w2) p n ∧
  (∀ x, p <= x < p + n ∨ q <= x < q + k → vm_prot (w_vm w) x = None) ∧
  apart q k p n.
Proof.
  intros Hp Hq Hn Hk.
  assert (Hup : ∀ x, vm_prot (w_vm w) x ≠ None → vm_prot (w_vm w1) x ≠ None) by (intros x Hx; by rewrite (fm_vm _ _ _ _ Hp)).
  split_and!.
  - intros x Hx. rewrite (fm_vm _ _ _ _ Hq) by auto. by apply (fm_vm _ _ _ _ Hp).
  - intros x Hx. rewrite (fm_mem _ _ _ _ Hq) by auto. by apply (fm_mem _ _ _ _ Hp).
  - intros x Hx. pose proof (fm_rw _ _ _ _ Hp x Hx) as Hrw. by rewrite (fm_vm _ _ _ _ Hq); rewrite Hrw.
  - intros x [Hx|Hx]; [by apply Hp|]. destruct (vm_prot (w_vm w) x) eqn:Hv; [|done].
    destruct (Hup x); [congruence|]. by apply Hq.
  - apply (apart_fresh (w_vm w1)); [done|done|apply Hq|]. intros x Hx. by rewrite (fm_rw _ _ _ _ Hp).
Qed.

(** A new zone [a] of [sz] bytes at [p]. *)
Record created (w w' : world) (sz : Z) (lu lf : list Z) (a p : Z) : Prop := {
  cr_entry : ∃ b, w_bigs w' !! a = Some b ∧ big_user_pages_start b = p ∧ big_size b = sz;
  cr_fresh : unmapped (w_vm w) p sz;
  cr_meta : unmapped (w_vm w) (meta_page w a) (w_page_size w);
  cr_inv : bigs_inv w' (a :: lu) lf [];
  cr_frame : big_frame w w' (λ _, False) (lu ++ lf);
}.

Lemma wp_create_big w lu lf sz : bigs_inv w lu lf [] → w_big_used_lock w = false → mask_ok w →
  SMALL_SIZE_MAX < sz <= BIG_SZ_MAX → sz mod w_page_size w = 0 →
  wp resource (create_big sz) (λ p w', p ≠ 0 ∧ ∃ a, created w w' sz lu lf a p) w.
Proof.
  intros Hw Hlk Hmask Hsz Hal. change SMALL_SIZE_MAX with 65536 in Hsz. change BIG_SZ_MAX with 4294967296 in Hsz.
  pose proof (bi_page _ _ _ _ Hw) as Hpg. pose proof (page_ok_bounds w Hpg) as Hpb. unfold create_big. wstep.
  eapply wp_post; [apply wp_map_choice; [done|lia]|]. rewrite (page_len_aligned w sz) by (done || lia). intros p w1 Hp.
  pose proof (fm_range _ _ _ _ Hp) as Hpr. rewrite (proj2 (Z.eqb_neq p 0)) by lia. wsteps.
  assert (Hps1 : w_page_size w1 = w_page_size w) by (by rewrite (fm_world _ _ _ _ Hp)).
  change BIG_ZONE_META_DATA_PAGE_COUNT with 1. rewrite Hps1, Z.mul_1_r.
  eapply wp_post; [apply wp_map_choice; [apply Hp|lia]|]. intros md w2 Hmd.
  rewrite (page_len_aligned w1 (w_page_size w)) in Hmd; [|apply Hp|lia|rewrite Hps1; apply Z.mod_same; lia].
  assert (Hw2 : w2 = after_sys (w_mem w2) (w_vm w2) (w_k w2) w).
  { rewrite (fm_world _ _ _ _ Hmd) at 1. rewrite (fm_world _ _ _ _ Hp) at 1. done. }
  assert (Hr2 : w_root_null w2 = false) by (rewrite Hw2; apply Hw). wstep. apply wp_us_rand; [done|]. intros s v Hs Hv.
  wsteps. change (w_root (set_w_root (set_seed s (w_root w2)) w2)) with (set_seed s (w_root w2)).
  pose proof (meta_offset (ALIGN_SZ_DOWN v) (w_page_size w) Hpb) as [Ho1 Ho2].
  set (off := Z.shiftr _ 32) in *. set (a := md + off).
  destruct (fresh_twice w w1 w2 p sz md (w_page_size w) Hp Hmd) as (Hvm & Hmem & Hrw & Hfr & Hap); [lia|lia|].
  assert (Hoff : a mod w_page_size w = off).
  { unfold a. rewrite Z.add_comm, Zplus_mod. pose proof (fm_align _ _ _ _ Hmd) as Hma. rewrite Hps1 in Hma.
    rewrite Hma, Z.add_0_r, Z.mod_mod by lia. apply Z.mod_small. change SIZEOF_BIG_ZONE with 48 in Ho2. lia. }
  assert (Hmp : meta_page w a = md) by (unfold meta_page; lia). pose proof (fm_range _ _ _ _ Hmd) as Hmr.
  assert (Hmm : mapped_rw (w_vm w2) a SIZEOF_BIG_ZONE) by (eapply mapped_rw_sub; [apply Hmd|lia|lia]).
  remember (w_mem w2) as m2. remember (w_vm w2) as vm2. pose proof (fm_page _ _ _ _ Hmd) as Hpg2. remember (w_k w2) as k2.
  subst w2. unfold bput. eapply wp_eq; [simpl; rewrite can_access_mapped; [done|by compute|done]|].
  wstep. apply wp_lock_used; [done|]. do 3 wstep. eapply wp_bmod; [simpl; by rewrite lookup_insert_eq|done|]. do 4 wstep.
  unfold UNLOCK_BIG_ZONE_USED. wsteps. simpl. rewrite insert_insert_eq. split; [lia|]. exists a.
  match goal with |- context [<[a := set_big_next ?n ?x]> _] => set (b1 := set_big_next n x) end.
  change SIZEOF_BIG_ZONE with 48 in Ho2. change SIZEOF_BIG_ZONE with 48 in Hmm.
  constructor; [eexists; simpl; by rewrite lookup_insert_eq|apply Hp|intros x Hx; rewrite Hmp in Hx; apply Hfr; by right| |].
  - apply (bigs_inv_added w _ lu lf a b1); [exact Hw|done| |by rewrite Hmp|done| |done..]; simpl.
    + intros x. rewrite Hmp. apply Hfr.
    + constructor; try done; simpl; try lia.
      * split; [lia|]. apply mask_ok_nonzero; [done|lia].
      * rewrite Hoff. change SIZEOF_BIG_ZONE with 48. lia.
      * split; [|done]. apply Hp.
      * intros x. unfold meta_page. simpl. fold (meta_page w a). rewrite Hmp. intros [Hx|Hx]; [by rewrite Hrw|].
        by rewrite (fm_rw _ _ _ _ Hmd).
  - constructor; try done.
    + intros x Hx _. by apply Hmem.
    + intros x Hx _. by apply Hvm.
    + exists s, (big_zone_free (w_root w)), (big_zone_free_count (w_root w)), (MASK_BIG_ZONE_NEXT (w_root w) a), (big_zone_used_count (w_root w) + 1).
      simpl. by destruct (w_root w).
    + intros x bx Hx Hbx. simpl. exists bx. split; [|apply same_big_refl]. rewrite lookup_insert_ne; [done|]. intros <-.
      destruct (bi_entry _ _ _ _ Hw a) as (b0 & Hb0 & He & _); [set_solver|].
      apply (be_owned _ _ _ He (meta_page w a)); [right; lia|]. rewrite Hmp. apply Hfr. right. lia.
Qed.

Lemma reused_unlock w w' sz lu l1 a l2 b : reused (set_w_big_free_lock true w) w' sz lu l1 a l2 b → w_big_free_lock w = false →
  reused w w' sz lu l1 a l2 b.
Proof. intros [] Hlk. by constructor. Qed.

Lemma free_unlock_lock w : w_big_free_lock w = false → set_w_big_free_lock false (set_w_big_free_lock true w) = w.
Proof. destruct w. simpl. by intros ->. Qed.

(** What [_iso_big_alloc] promises for a request of [size] bytes. *)
Definition big_allocated (w w' : world) (size : Z) (lu lf : list Z) (p : Z) : Prop :=
  let sz := page_len w size in
  p ≠ 0 ∧
  ((∃ l1 a l2 b, lf = l1 ++ a :: l2 ∧ p = big_user_pages_start b ∧ reused w w' sz lu l1 a l2 b) ∨
   (none_fits w sz lf ∧ ∃ a, created w w' sz lu lf a p)).

Lemma wp_iso_big_alloc w lu lf size : bigs_inv w lu lf [] → w_big_used_lock w = false → w_big_free_lock w = false →
  mask_ok w → SMALL_SIZE_MAX < size <= BIG_SZ_MAX →
  wp resource (_iso_big_alloc size) (λ p w', big_allocated w w' size lu lf p) w.
Proof.
  intros Hw Hul Hfl Hmask Hsz. change SMALL_SIZE_MAX with 65536 in Hsz. change BIG_SZ_MAX with 4294967296 in Hsz.
  pose proof (bi_page _ _ _ _ Hw) as Hpg. pose proof (page_ok_bounds w Hpg) as Hpb.
  destruct (page_len_spec w size Hpg) as [Hl Hm]; [lia|].
  assert (Hmax : page_len w size <= 4294967296).
  { assert (page_len w 4294967296 = 4294967296) as Heq.
    { apply page_len_aligned; [done|lia|]. destruct Hpg as (Hsh & -> & _). change 4294967296 with (2 ^ 32).
      replace 32 with ((32 - w_page_size_shift w) + w_page_size_shift w) by lia. rewrite Z.pow_add_r by lia.
      apply Z.mod_mul. apply Z.pow_nonzero; lia. }
    rewrite <-Heq. by apply page_len_mono; [..|lia|lia]. }
  unfold _iso_big_alloc. wsteps. change SMALL_SIZE_MAX with 65536. change BIG_SZ_MAX with 4294967296.
  rewrite (proj2 (Z.ltb_ge _ _)), (proj2 (Z.ltb_ge _ _)), (proj2 (Z.ltb_ge _ _)) by lia. cbn [orb].
  set (sz := page_len w size) in *. wstep. apply wp_lock_free; [done|]. set (wl := set_w_big_free_lock true w).
  assert (Hwl : bigs_inv wl lu lf []) by (eapply bigs_inv_locks; [exact Hw|by destruct w]).
  do 2 wstep; [apply Hw|]. change (w_root wl) with (w_root w).
  apply wp_bind, wp_post with (λ r w', (r = 0 ∧ w' = wl ∧ none_fits w sz lf) ∨
    (r ≠ 0 ∧ ∃ k1 k2 b, lf = k1 ++ r :: k2 ∧ reused w w' sz lu k1 r k2 b)).
  { destruct (bi_counts _ _ _ _ Hw) as [_ Hcf]. pose proof (bi_free _ _ _ _ Hw) as Hf. destruct lf as [|a l2].
    { rewrite Hf. cbn [Z.eqb negb]. wstep. left. split_and!; [done..|]. intros x b Hx. by apply not_elem_of_nil in Hx. }
    destruct Hf as (Hh & Ha & _). rewrite (proj2 (Z.eqb_neq _ 0)) by done. cbn [negb].
    rewrite Hcf, (proj2 (Z.leb_gt _ _)) by (simpl; lia). rewrite Ha. change 0 with (prev_of []).
    eapply wp_post; [apply (wp_reuse_big _ sz wl lu [] a l2); try done|].
    - pose proof (bi_nodup _ _ _ _ Hw) as Hnd. apply list.NoDup_app in Hnd as (_ & _ & Hnd). rewrite app_nil_r in Hnd.
      pose proof (chain_length _ _ _ _ Hnd (bi_free _ _ _ _ Hw)). unfold big_fuel. simpl in *. lia.
    - intros x b Hx. by apply not_elem_of_nil in Hx.
    - intros r w' [(-> & -> & Hno)|(Hr & k1 & k2 & b & Heq & Hru)]; [by left|right]. split; [done|].
      exists k1, k2, b. split; [done|]. by apply reused_unlock. }
  intros r w' [(-> & -> & Hno)|(Hr & k1 & k2 & b & -> & Hru)].
  - cbn [Z.eqb negb]. unfold UNLOCK_BIG_ZONE_FREE. do 2 wstep. unfold wl. rewrite free_unlock_lock by done.
    eapply wp_post; [apply (wp_create_big w lu lf sz); [done|done|done|autounfold with conf; lia|done]|]. intros p w' (Hp & a & Hcr). split; [done|]. right.
    split; [done|]. by exists a.
  - rewrite (proj2 (Z.eqb_neq _ 0)) by done. cbn [negb]. destruct (bf_bigs _ _ _ _ (ru_frame _ _ _ _ _ _ _ _ Hru) r b) as (b' & Hb' & Hs); [set_solver|apply Hru|].
    destruct (bi_entry _ _ _ _ (ru_inv _ _ _ _ _ _ _ _ Hru) r) as (b0 & Hb0 & He & _); [set_solver|].
    assert (b0 = b') as -> by congruence. wstep. apply (wp_bget _ _ b'); [done|apply He|]. wsteps.
    pose proof (be_pages _ _ _ He). split; [lia|]. left. exists k1, r, k2, b. split_and!; [done|apply Hs|done].
Qed.

(** A request above 4 GiB is refused, also when rounding it up to whole pages
    overflows: NULL is returned and nothing changes, or the process stops when the build
    asks for it. *)
Theorem iso_big_alloc_refuses w size : page_ok w → is_u64 size → BIG_SZ_MAX < size →
  _iso_big_alloc size w = if ABORT_ON_NULL then Abort NullReturned else Ret 0 w.
Proof.
  intros Hpg Hs Hsz. change BIG_SZ_MAX with 4294967296 in Hsz. pose proof (page_ok_bounds w Hpg).
  unfold _iso_big_alloc, mbind, M_bind, get. change BIG_SZ_MAX with 4294967296.
  assert ((page_len w size <? size) || (4294967296 <? page_len w size) || (size <? SMALL_SIZE_MAX) = true) as ->.
  { destruct Hpg as (Hsh & Hp & _). destruct (round_up_page_raw _ _ Hsh Hp size Hs) as [A1 A2].
    unfold page_len. destruct (Z.le_gt_cases size (2 ^ 64 - w_page_size w)) as [Hle|Hgt].
    - destruct (A1 Hle) as [A3 _]. rewrite (proj2 (Z.ltb_lt 4294967296 _)) by lia. by rewrite orb_true_r.
    - rewrite A2 by lia. rewrite (proj2 (Z.ltb_lt 0 size)) by lia. done. }
  by destruct ABORT_ON_NULL.
Qed.
End big.
