(* ===== verification/Verify.v ===== *)
(** * Heap verification

    [_verify_zone], [_verify_all_zones] and their locked entry points of
    src/iso_alloc_sanity.c. *)

From S2P Require Import Prelude Words Conf Memory State Util ZoneBits FreeList Chunks Lookup Heap BigZones BigSpec.

Section model.
Context `{!Kernel, !Config}.

(** The bits that mark a chunk with a canary. *)
Definition CANARY_BIT_VECTOR : Z := u64 (Z.lnot USED_BIT_VECTOR).

(** The loop over one word's mask; a mask has at most 64 bits. *)
Fixpoint verify_word (fuel : nat) (zi i mask : Z) : M unit :=
  match fuel with
  | O => nofuel
  | S fuel' =>
      if mask =? 0 then mret tt else
      let j := builtin_ctzll mask in
      let mask := Z.land mask (mask - 1) in
      z ← zget zi;
      let bit_slot := Z.shiftl i 6 + j in
      check_canary zi (POINTER_FROM_BITSLOT z bit_slot);;
      verify_word fuel' zi i mask
  end.

(** [n] more words from [i] on. *)
Fixpoint verify_words (n : nat) (zi i : Z) : M unit :=
  match n with
  | O => mret tt
  | S n' =>
      z ← zget zi;
      b ← rd64 (bitmap_start z + 8 * i);
      verify_word 65 zi i (Z.land b CANARY_BIT_VECTOR);;
      verify_words n' zi (i + 1)
  end.

Definition _verify_zone (zi : Z) : M unit :=
  zmod zi UNMASK_ZONE_PTRS;;
  z ← zget zi;
  r ← root;
  if zones_used r <? next_sz_index z then abort BadNextSzIndex else
  zt ← zget (next_sz_index z);
  if negb (next_sz_index z =? 0) && negb (chunk_size z =? chunk_size zt) then abort InconsistentChunkSizes else
  verify_words (Z.to_nat (max_bitmap_idx z)) zi 0;;
  zmod zi MASK_ZONE_PTRS.

(** [n] more zones from [i] on; the loop stops at the first zone without pointers. *)
Fixpoint verify_zones (n : nat) (i : Z) : M unit :=
  match n with
  | O => mret tt
  | S n' =>
      z ← zget i;
      if (bitmap_start z =? 0) || (user_pages_start z =? 0) then mret tt else
      _verify_zone i;;
      verify_zones n' (i + 1)
  end.

Definition _verify_all_zones : M unit :=
  r ← root;
  verify_zones (Z.to_nat (zones_used r)) 0;;
  r ← root;
  _verify_big_zone_list (big_zone_used r);;
  r ← root;
  _verify_big_zone_list (big_zone_free r).

Definition verify_zone (zi : Z) : M unit := LOCK_ROOT;; _verify_zone zi;; UNLOCK_ROOT.
Definition verify_all_zones : M unit := LOCK_ROOT;; _verify_all_zones;; UNLOCK_ROOT.
End model.

(** ** What verification decides *)

Section verdicts.
Context `{!Kernel, !Config}.

Definition canary_abort (e : abort_reason) : Prop := e = CanaryStart ∨ e = CanaryEnd.

(** [m] decides [P]: it returns and changes nothing when [P] holds, and stops the process
    for a reason in [E] when it does not. *)
Definition decides (E : abort_reason → Prop) (P : Prop) (m : M unit) (w : world) : Prop :=
  (P ∧ m w = Ret tt w) ∨ (¬ P ∧ ∃ e, E e ∧ m w = Abort e).

#[global] Instance decides_proper E : Proper (iff ==> eq ==> eq ==> iff) (decides E).
Proof. intros P P' HP m ? <- w ? <-. unfold decides. by rewrite HP. Qed.

Lemma decides_ret E (P : Prop) w : P → decides E P (mret tt) w.
Proof. by left. Qed.

Lemma decides_seq E P R m m' w : decides E P m w → decides E R m' w → decides E (P ∧ R) (m;; m') w.
Proof.
  intros [[HP Hm]|[HP (e & He & Hm)]] HR; unfold decides, mbind, M_bind; rewrite Hm.
  - destruct HR as [[HR Hm']|[HR (e & He & Hm')]]; rewrite Hm'; [by left|right]. split; [tauto|by exists e].
  - right. split; [tauto|by exists e].
Qed.

Lemma decides_bind {A} E P (m : M A) (f : A → M unit) a w : m w = Ret a w → decides E P (f a) w → decides E P (m ≫= f) w.
Proof. intros Hm. unfold decides, mbind, M_bind. by rewrite Hm. Qed.

Lemma decides_mono (E E' : abort_reason → Prop) P m w : (∀ e, E e → E' e) → decides E P m w → decides E' P m w.
Proof. intros HE [?|[HP (e & He & Hm)]]; [by left|right]. split; [done|]. exists e. auto. Qed.

(** The verdict on canaries of chunks. *)
Definition verdict : Prop → M unit → world → Prop := decides canary_abort.

#[global] Instance verdict_proper : Proper (iff ==> eq ==> eq ==> iff) verdict.
Proof. apply decides_proper. Qed.

Lemma verdict_check zi p w :
  let z := zone_at w zi in
  16 <= chunk_size z → mapped_rw (w_vm w) p (chunk_size z) →
  verdict (DISABLE_CANARY = false → canary_words (w_mem w) (canary_secret z) (chunk_size z) p) (check_canary zi p) w.
Proof.
  intros z Hs Hm. destruct DISABLE_CANARY eqn:Hd.
  { left. split; [done|]. apply check_canary_intact; [fold z; lia|done|]. by rewrite Hd. }
  assert (A1 : can_access (w_vm w) p 8 = true) by (apply can_access_mapped; [lia|eapply mapped_rw_sub; [exact Hm|lia..]]).
  assert (A2 : can_access (w_vm w) (p + chunk_size z - 8) 8 = true)
    by (apply can_access_mapped; [lia|eapply mapped_rw_sub; [exact Hm|lia..]]).
  unfold verdict, decides, check_canary, canary_words, mbind, M_bind, zget, rd64. rewrite Hd, A1. fold z.
  destruct (Z.eqb_spec (ld64 (w_mem w) p) (canary_of (canary_secret z) p)) as [E1|E1]; cbn [mret M_ret abort].
  - rewrite A2. destruct (Z.eqb_spec (ld64 (w_mem w) (p + chunk_size z - 8)) (canary_of (canary_secret z) p)) as [E2|E2]; [by left|right].
    split; [tauto|]. exists CanaryEnd. split; [by right|done].
  - right. split; [tauto|]. exists CanaryStart. split; [by left|done].
Qed.

Section zone.
Variables (zi U B : Z) (w : world).
Abbreviation y := (zone_at w zi).
Hypothesis HU : user_pages_start y = U.
Hypothesis HB : bitmap_start y = B.
Hypothesis Hg : zone_geom y.
Hypothesis Hm : zone_mapped (w_vm w) U B y.

(** The canary of the chunk that has bit slot [s] or [s - 1]. *)
Definition slot_canary (s : Z) : Prop :=
  DISABLE_CANARY = false → canary_words (w_mem w) (canary_secret y) (chunk_size y) (U + s / 2 * chunk_size y).

Lemma verdict_slot s : 0 <= s < 64 * max_bitmap_idx y →
  verdict (slot_canary s) (check_canary zi (POINTER_FROM_BITSLOT y s)) w.
Proof.
  intros Hs. unfold POINTER_FROM_BITSLOT, slot_canary. rewrite HU, Z.shiftr_div_pow2 by lia. change (2 ^ 1) with 2.
  assert (Hc : 0 <= s / 2 < slots y) by (unfold slots; split; [apply Z.div_pos; lia|apply Z.div_lt_upper_bound; lia]).
  pose proof (chunk_in_zone y Hg _ Hc). pose proof (zg_size y Hg). apply verdict_check; [lia|].
  eapply mapped_rw_sub; [apply (zm_user_rw _ _ _ _ Hm)|lia..].
Qed.

Lemma verdict_word fuel i mask : is_u64 mask → (length (set_bits mask) < fuel)%nat → 0 <= i < max_bitmap_idx y →
  verdict (∀ j, 0 <= j < 64 → Z.testbit mask j = true → slot_canary (64 * i + j)) (verify_word fuel zi i mask) w.
Proof.
  intros Hmask Hf Hi. revert mask Hmask Hf. induction fuel as [|fuel IH]; intros mask Hmask Hf; [lia|]. cbn [verify_word].
  destruct (Z.eqb_spec mask 0) as [->|Hne]; [apply decides_ret; intros j _; by rewrite Z.testbit_0_l|].
  assert (0 < mask) by (unfold is_u64 in *; lia). pose proof (builtin_ctzll_nonneg mask).
  assert (builtin_ctzll mask < 64) by (apply builtin_ctzll_lt; unfold is_u64 in *; lia).
  pose proof (builtin_ctzll_bit mask ltac:(lia)) as Hbit.
  rewrite set_bits_cons in Hf by done. simpl in Hf. eapply decides_bind; [done|].
  set (j0 := builtin_ctzll mask) in *. set (mask' := Z.land mask (mask - 1)) in *.
  assert (Hiff : (∀ j, 0 <= j < 64 → Z.testbit mask j = true → slot_canary (64 * i + j)) ↔
    slot_canary (64 * i + j0) ∧ ∀ j, 0 <= j < 64 → Z.testbit mask' j = true → slot_canary (64 * i + j)).
  { unfold mask'. split.
    - intros Hall. split; [apply Hall; [lia|done]|]. intros j Hj. rewrite land_pred_spec by lia.
      intros [? _]%andb_true_iff. by apply Hall.
    - intros [Hfst Hall] j Hj Hb. destruct (decide (j = j0)) as [->|Hd]; [done|]. apply Hall; [done|].
      rewrite land_pred_spec, Hb by lia. by apply negb_true_iff, Z.eqb_neq. }
  pose proof (verdict_slot (64 * i + j0) ltac:(lia)) as Hv. rewrite shiftl_6, (Z.mul_comm i).
  specialize (IH mask' (is_u64_land_pred _ Hmask ltac:(lia)) ltac:(lia)).
  pose proof (decides_seq _ _ _ _ _ _ Hv IH) as Hboth. by rewrite <-Hiff in Hboth.
Qed.

Lemma canary_bits b j : 0 <= j < 64 → Z.testbit (Z.land b CANARY_BIT_VECTOR) j = Z.testbit b j && negb (Z.even j).
Proof.
  intros Hj. unfold CANARY_BIT_VECTOR. rewrite Z.land_spec, u64_pow, Z.mod_pow2_bits_low, Z.lnot_spec by lia.
  rewrite USED_BIT_VECTOR_spec by lia. rewrite (proj2 (Z.ltb_lt j 64)) by lia. done.
Qed.

Lemma verdict_words n i : 0 <= i → i + Z.of_nat n <= max_bitmap_idx y →
  verdict (∀ c, 32 * i <= c < 32 * (i + Z.of_nat n) → bm_bit (w_mem w) B (2 * c + 1) = true → slot_canary (2 * c + 1))
    (verify_words n zi i) w.
Proof.
  revert i. induction n as [|n IH]; intros i Hi Hn; cbn [verify_words]; [apply decides_ret; lia|].
  eapply decides_bind; [done|]. rewrite HB. eapply decides_bind.
  { unfold rd64. rewrite can_access_mapped; [done|lia|eapply mapped_rw_sub; [apply (zm_bitmap_rw _ _ _ _ Hm)|lia..]]. }
  fold (bm_word (w_mem w) B i). set (b := bm_word (w_mem w) B i).
  assert (Hb : is_u64 b) by apply bm_word_range.
  pose proof (verdict_word 65 i (Z.land b CANARY_BIT_VECTOR)) as Hw.
  pose proof (decides_seq _ _ _ _ _ _
    (Hw ltac:(apply is_u64_land; [done|by compute]) ltac:(pose proof (length_set_bits (Z.land b CANARY_BIT_VECTOR)); lia) ltac:(lia))
    (IH (i + 1) ltac:(lia) ltac:(lia))) as Hboth.
  revert Hboth. apply verdict_proper; [|done..]. split.
  - intros Hall. split.
    + intros j Hj Ht. rewrite canary_bits in Ht by done. apply andb_true_iff in Ht as [Ht Ho].
      rewrite <-Z.negb_odd, negb_involutive in Ho. apply Z.odd_spec in Ho as [k Hk].
      replace (64 * i + j) with (2 * (32 * i + k) + 1) by lia. apply Hall; [lia|].
      unfold bm_bit. replace (2 * (32 * i + k) + 1) with (j + i * 64) by lia.
      rewrite Z.div_add, Z.mod_add, Z.div_small, Z.mod_small by lia. done.
    + intros c Hc. apply Hall. lia.
  - intros [Hw1 Hw2] c Hc Hcb. destruct (decide (c < 32 * (i + 1))) as [Hlt|]; [|apply Hw2; [lia|done]].
    specialize (Hw1 (2 * c + 1 - 64 * i) ltac:(lia)).
    replace (64 * i + (2 * c + 1 - 64 * i)) with (2 * c + 1) in Hw1 by lia. apply Hw1.
    rewrite canary_bits by lia. apply andb_true_iff. split.
    + rewrite <-Hcb. unfold bm_bit. replace (2 * c + 1) with (2 * c + 1 - 64 * i + i * 64) at 2 3 by lia.
      rewrite Z.div_add, Z.mod_add, Z.div_small, Z.mod_small by lia. done.
    + replace (2 * c + 1 - 64 * i) with (1 + 2 * (c - 32 * i)) by lia. by rewrite Z.even_add_mul_2.
Qed.
End zone.

(** The canaries of a zone at rest. *)
Definition zone_canaries (w : world) (z : iso_alloc_zone_t) : Prop :=
  canaries_ok (w_mem w) (UNMASK_USER_PTR z) (UNMASK_BITMAP_PTR z) z.

Lemma verdict_zone zi z w :
  w_root_null w = false → w_zones w !! zi = Some z →
  zone_geom z → zone_mapped (w_vm w) (UNMASK_USER_PTR z) (UNMASK_BITMAP_PTR z) z →
  next_sz_index z <= zones_used (w_root w) →
  next_sz_index z = 0 ∨ chunk_size (zone_at w (next_sz_index z)) = chunk_size z →
  verdict (zone_canaries w z) (_verify_zone zi) w.
Proof.
  intros Hr Hz Hg Hm Hn Hl. set (w1 := zput_w zi (UNMASK_ZONE_PTRS z) w).
  assert (Hw1 : zone_at w1 zi = UNMASK_ZONE_PTRS z) by apply zone_at_put.
  assert (Hcs : chunk_size (zone_at w1 (next_sz_index z)) = chunk_size (zone_at w (next_sz_index z))).
  { destruct (decide (next_sz_index z = zi)) as [Heq|Hne]; [|unfold w1; by rewrite zone_at_put_ne].
    rewrite Heq, Hw1. by rewrite (zone_at_Some _ _ _ Hz). }
  pose proof (verdict_words zi (UNMASK_USER_PTR z) (UNMASK_BITMAP_PTR z) w1) as Hv. rewrite Hw1 in Hv.
  specialize (Hv ltac:(done) ltac:(done) ltac:(by destruct Hg) ltac:(by destruct Hm) (Z.to_nat (max_bitmap_idx z)) 0 ltac:(lia)).
  change (max_bitmap_idx (UNMASK_ZONE_PTRS z)) with (max_bitmap_idx z) in Hv.
  pose proof (zone_max_idx z Hg) as (Hmax & _). rewrite Z2Nat.id in Hv by lia. specialize (Hv ltac:(lia)).
  assert (Hstep : ∀ o, verify_words (Z.to_nat (max_bitmap_idx z)) zi 0 w1 = o → _verify_zone zi w =
    match o with Ret _ w' => zmod zi MASK_ZONE_PTRS w' | Abort e => Abort e | Fault => Fault | Undef => Undef | Deadlock => Deadlock | NoFuel => NoFuel end).
  { intros o Ho. unfold _verify_zone, mbind, M_bind. unfold zmod at 1, zget. rewrite (zone_at_Some _ _ _ Hz). fold w1. rewrite Hw1.
    unfold root. change (w_root_null w1) with (w_root_null w). rewrite Hr. change (next_sz_index (UNMASK_ZONE_PTRS z)) with (next_sz_index z).
    change (zones_used (w_root w1)) with (zones_used (w_root w)). rewrite (proj2 (Z.ltb_ge _ _)) by lia. rewrite Hcs.
    change (chunk_size (UNMASK_ZONE_PTRS z)) with (chunk_size z). change (max_bitmap_idx (UNMASK_ZONE_PTRS z)) with (max_bitmap_idx z).
    assert (negb (next_sz_index z =? 0) && negb (chunk_size z =? chunk_size (zone_at w (next_sz_index z))) = false) as ->.
    { destruct Hl as [->| ->]; [done|]. by rewrite Z.eqb_refl, andb_false_r. }
    rewrite Ho. by destruct o. }
  assert (Hiff : zone_canaries w z ↔
    (∀ c, 32 * 0 <= c < 32 * (0 + max_bitmap_idx z) → bm_bit (w_mem w) (UNMASK_BITMAP_PTR z) (2 * c + 1) = true →
      slot_canary zi (UNMASK_USER_PTR z) w1 (2 * c + 1))).
  { unfold zone_canaries, canaries_ok, slot_canary. rewrite Hw1. split.
    - intros Hc c Hc1 Hc2 Hd. rewrite half_odd. apply Hc; [done|unfold slots; lia|done].
    - intros Hc Hd c Hc1 Hc2. specialize (Hc c ltac:(unfold slots in *; lia) Hc2 Hd).
      by rewrite half_odd in Hc. }
  rewrite Hiff. destruct Hv as [[HP Hv]|[HP (e & He & Hv)]]; specialize (Hstep _ Hv).
  - left. split; [done|]. rewrite Hstep. unfold zmod. rewrite Hw1, mask_unmask. unfold w1. rewrite zput_put. by rewrite zput_id.
  - right. split; [done|]. by exists e.
Qed.

(** C24. [_verify_zone] decides exactly whether every canary of the zone is intact: it
    returns and leaves the whole process as it was when all are, and stops the process
    with a canary failure when a single one is not. *)
Theorem verify_zone_decides zi z w :
  w_root_null w = false → w_zones w !! zi = Some z →
  zone_geom z → zone_mapped (w_vm w) (UNMASK_USER_PTR z) (UNMASK_BITMAP_PTR z) z →
  next_sz_index z <= zones_used (w_root w) →
  next_sz_index z = 0 ∨ chunk_size (zone_at w (next_sz_index z)) = chunk_size z →
  verdict (zone_canaries w z) (_verify_zone zi) w.
Proof. apply verdict_zone. Qed.

(** ** Verification of everything *)

(** The checks of one big zone's structure. *)
Definition big_sound (w : world) (a : Z) : Prop :=
  let b := big_at w a in
  (DISABLE_CANARY = false →
     big_canary_a b = big_canary (w_root w) a (big_user_pages_start b) ∧ big_canary_b b = big_canary (w_root w) a (big_user_pages_start b)) ∧
  SMALL_SIZE_MAX <= big_size b <= BIG_SZ_MAX ∧ big_user_pages_start b ≠ 0.

Definition damage_abort (e : abort_reason) : Prop :=
  canary_abort e ∨ e = BigCanaryA ∨ e = BigCanaryB ∨ e = BigTooSmall ∨ e = BigTooBig ∨ e = BigNullPages.

(** A heap whose zones and lists can be walked; nothing is said about canaries, nor about the
    contents of the big zones' structures but their links. *)
Record walkable_heap (w : world) (lu lf : list Z) : Prop := {
  wh_root : w_root_null w = false;
  wh_used : 0 <= zones_used (w_root w);
  wh_zone : ∀ i, 0 <= i < zones_used (w_root w) → let z := zone_at w i in
    w_zones w !! i = Some z ∧ zone_geom z ∧ zone_mapped (w_vm w) (UNMASK_USER_PTR z) (UNMASK_BITMAP_PTR z) z ∧
    bitmap_start z ≠ 0 ∧ user_pages_start z ≠ 0 ∧
    next_sz_index z <= zones_used (w_root w) ∧ (next_sz_index z = 0 ∨ chunk_size (zone_at w (next_sz_index z)) = chunk_size z);
  wh_lists : chain (UNMASK_BIG_ZONE_NEXT (w_root w)) (w_bigs w) (big_zone_used (w_root w)) lu ∧
    chain (UNMASK_BIG_ZONE_NEXT (w_root w)) (w_bigs w) (big_zone_free (w_root w)) lf ∧ NoDup lu ∧ NoDup lf;
  wh_meta : ∀ a, a ∈ lu ++ lf → mapped_rw (w_vm w) a SIZEOF_BIG_ZONE;
}.

Lemma decides_zones w lu lf n i : walkable_heap w lu lf → 0 <= i → i + Z.of_nat n <= zones_used (w_root w) →
  decides damage_abort (∀ j, i <= j < i + Z.of_nat n → zone_canaries w (zone_at w j)) (verify_zones n i) w.
Proof.
  intros Hw. revert i. induction n as [|n IH]; intros i Hi Hn; cbn [verify_zones]; [apply decides_ret; lia|].
  destruct (wh_zone _ _ _ Hw i ltac:(lia)) as (Z1 & Z2 & Z3 & Z4 & Z5 & Z6 & Z7). eapply decides_bind; [done|].
  rewrite (proj2 (Z.eqb_neq _ 0) Z4), (proj2 (Z.eqb_neq _ 0) Z5). cbn [orb].
  assert (Hz : decides damage_abort (zone_canaries w (zone_at w i)) (_verify_zone i) w).
  { eapply decides_mono; [|by apply (verdict_zone i (zone_at w i) w); [apply Hw|..]]. by left. }
  pose proof (decides_seq _ _ _ _ _ _ Hz (IH (i + 1) ltac:(lia) ltac:(lia))) as Hboth. revert Hboth. apply decides_proper; [|done..]. split.
  - intros Hall. split; [apply Hall; lia|]. intros j Hj. apply Hall. lia.
  - intros [H1 H2] j Hj. destruct (decide (j = i)) as [->|Hne]; [done|]. apply H2. lia.
Qed.

Lemma decides_big w a b : w_root_null w = false → w_bigs w !! a = Some b → mapped_rw (w_vm w) a SIZEOF_BIG_ZONE →
  decides damage_abort (DISABLE_CANARY = false →
     big_canary_a b = big_canary (w_root w) a (big_user_pages_start b) ∧ big_canary_b b = big_canary (w_root w) a (big_user_pages_start b))
    (check_big_canary a) w.
Proof.
  intros Hr Hb Hm. unfold check_big_canary. destruct DISABLE_CANARY; [by apply decides_ret|].
  eapply decides_bind; [unfold root; by rewrite Hr|]. eapply decides_bind; [by apply (bget_ok w a b)|]. cbv zeta. set (c := big_canary _ _ _).
  destruct (Z.eqb_spec (big_canary_a b) c) as [E1|E1]; cbn [negb].
  - destruct (Z.eqb_spec (big_canary_b b) c) as [E2|E2]; cbn [negb]; [by apply decides_ret|right].
    split; [tauto|]. exists BigCanaryB. unfold damage_abort. split; [tauto|done].
  - right. split; [tauto|]. exists BigCanaryA. unfold damage_abort. split; [tauto|done].
Qed.

Lemma decides_abort E P e w : ¬ P → E e → decides E P (abort e) w.
Proof. right. split; [done|]. by exists e. Qed.

Lemma decides_bigs fuel w a l : w_root_null w = false →
  chain (UNMASK_BIG_ZONE_NEXT (w_root w)) (w_bigs w) (MASK_BIG_ZONE_NEXT (w_root w) a) (a :: l) →
  (∀ x, x ∈ a :: l → mapped_rw (w_vm w) x SIZEOF_BIG_ZONE) → (length l < fuel)%nat →
  decides damage_abort (∀ x, x ∈ a :: l → big_sound w x) (verify_bigs fuel a) w.
Proof.
  intros Hr. revert a l. induction fuel as [|fuel IH]; intros a l Hc Hm Hf; [lia|]. cbn [verify_bigs].
  destruct Hc as (_ & _ & Ha & b & Hb & Hc). rewrite (proj2 (Z.eqb_neq a 0)) by done.
  assert (Hat : big_at w a = b) by (unfold big_at; by rewrite Hb).
  assert (Hiff : (∀ x, x ∈ a :: l → big_sound w x) ↔
    (DISABLE_CANARY = false → big_canary_a b = big_canary (w_root w) a (big_user_pages_start b) ∧ big_canary_b b = big_canary (w_root w) a (big_user_pages_start b)) ∧
    (SMALL_SIZE_MAX <= big_size b <= BIG_SZ_MAX ∧ big_user_pages_start b ≠ 0) ∧ ∀ x, x ∈ l → big_sound w x).
  { split.
    - intros Hall. pose proof (Hall a ltac:(set_solver)) as Hs. unfold big_sound in Hs. rewrite Hat in Hs. cbv zeta in Hs.
      split; [apply Hs|]. split; [apply Hs|]. intros x Hx. apply Hall. set_solver.
    - intros (S1 & S2 & S3) x [->|Hx]%elem_of_cons; [|by apply S3]. unfold big_sound. rewrite Hat. by split. }
  rewrite Hiff.
  apply decides_seq; [apply decides_big; [done|done|apply Hm; set_solver]|].
  eapply decides_bind; [apply (bget_ok w a b); [done|apply Hm; set_solver]|]. unfold damage_abort.
  destruct (Z.ltb_spec (big_size b) SMALL_SIZE_MAX); [apply decides_abort; [lia|tauto]|].
  destruct (Z.ltb_spec BIG_SZ_MAX (big_size b)); [apply decides_abort; [lia|tauto]|].
  destruct (Z.eqb_spec (big_user_pages_start b) 0); [apply decides_abort; [tauto|tauto]|].
  destruct l as [|c l].
  { rewrite Hc. apply decides_ret. split; [tauto|]. intros x Hx%not_elem_of_nil. done. }
  pose proof Hc as (Hn0 & Hc0 & Hrest). rewrite (proj2 (Z.eqb_neq _ 0)) by done. cbn [negb].
  eapply decides_bind; [unfold root; by rewrite Hr|]. rewrite Hc0.
  eapply decides_proper; [|done|done|apply (IH c l)]; [tauto| |intros x Hx; apply Hm; set_solver|simpl in Hf; lia].
  split_and!; [|apply unmask_mask|apply Hrest..]. intros Hz. apply Hn0.
  rewrite <-Hc0 in Hz. unfold MASK_BIG_ZONE_NEXT in Hz. by rewrite unmask_mask in Hz.
Qed.

Lemma decides_big_list w head l : w_root_null w = false → NoDup l →
  chain (UNMASK_BIG_ZONE_NEXT (w_root w)) (w_bigs w) head l → (∀ a, a ∈ l → mapped_rw (w_vm w) a SIZEOF_BIG_ZONE) →
  decides damage_abort (∀ x, x ∈ l → big_sound w x) (_verify_big_zone_list head) w.
Proof.
  intros Hr Hnd Hc Hm. unfold _verify_big_zone_list. destruct l as [|a l].
  { rewrite Hc. apply decides_ret. by intros x ?%not_elem_of_nil. }
  pose proof (chain_length _ _ _ _ Hnd Hc) as Hl. destruct Hc as (Hh & Ha & Hrest). rewrite (proj2 (Z.eqb_neq head 0)) by done.
  eapply decides_bind; [unfold root; by rewrite Hr|]. eapply decides_bind; [done|]. rewrite Ha.
  apply decides_bigs; [done| |done|unfold big_fuel; simpl in Hl; lia].
  split_and!; [|apply unmask_mask|apply Hrest..]. intros Hz. apply Hh. rewrite <-Ha in Hz. unfold MASK_BIG_ZONE_NEXT in Hz. by rewrite unmask_mask in Hz.
Qed.

Lemma decides_all w lu lf : walkable_heap w lu lf →
  decides damage_abort ((∀ i, 0 <= i < zones_used (w_root w) → zone_canaries w (zone_at w i)) ∧ (∀ a, a ∈ lu ++ lf → big_sound w a)) _verify_all_zones w.
Proof.
  intros Hw. pose proof (wh_root _ _ _ Hw) as Hr. pose proof (wh_used _ _ _ Hw) as Hu. destruct (wh_lists _ _ _ Hw) as (C1 & C2 & N1 & N2).
  pose proof (wh_meta _ _ _ Hw) as Hm. unfold _verify_all_zones. eapply decides_bind; [unfold root; by rewrite Hr|].
  pose proof (decides_zones w lu lf (Z.to_nat (zones_used (w_root w))) 0 Hw ltac:(lia) ltac:(lia)) as Hz. rewrite Z.add_0_l, Z2Nat.id in Hz by lia.
  assert (Hiff : (∀ a, a ∈ lu ++ lf → big_sound w a) ↔ (∀ a, a ∈ lu → big_sound w a) ∧ (∀ a, a ∈ lf → big_sound w a)).
  { setoid_rewrite elem_of_app. naive_solver. }
  rewrite Hiff. apply decides_seq; [done|]. eapply decides_bind; [unfold root; by rewrite Hr|].
  apply decides_seq; [apply decides_big_list; try done; intros a Ha; apply Hm; set_solver|]. eapply decides_bind; [unfold root; by rewrite Hr|].
  apply decides_big_list; try done. intros a Ha. apply Hm. set_solver.
Qed.

(** A well-formed heap can be walked and has no damage, unless the masked pointer of a zone
    happens to be null, where the walk of the zones stops. *)
Lemma heap_walkable w lu lf : heap_inv w → bigs_inv w lu lf [] →
  (∀ i, 0 <= i < zones_used (w_root w) → bitmap_start (zone_at w i) ≠ 0 ∧ user_pages_start (zone_at w i) ≠ 0) → walkable_heap w lu lf.
Proof.
  intros Hw Hb Hnz. pose proof (bi_nodup _ _ _ _ Hb) as Hnd. rewrite app_nil_r in Hnd. apply list.NoDup_app in Hnd as (Hn1 & _ & Hn2).
  constructor; [apply Hw|apply Hw| |split_and!; (done || apply Hb)|].
  - intros i Hi. cbv zeta. destruct (hv_zone_at w i Hw Hi) as [Hz Hinv]. destruct (Hnz i Hi) as [N1 N2].
    split_and!; try done; try apply Hinv.
    + destruct (hv_links w Hw i Hi) as [->|[? _]]; [apply (hv_used w Hw)|lia].
    + destruct (hv_links w Hw i Hi) as [->|[? [->|(_ & -> & _)]]]; [by left|by left|by right].
  - intros a Ha. destruct (bi_entry _ _ _ _ Hb a) as (b & _ & Hbe & _); [set_solver|]. apply Hbe.
Qed.

Lemma heap_sound w lu lf : heap_inv w → bigs_inv w lu lf [] →
  (∀ i, 0 <= i < zones_used (w_root w) → zone_canaries w (zone_at w i)) ∧ (∀ a, a ∈ lu ++ lf → big_sound w a).
Proof.
  intros Hw Hb. split.
  - intros i Hi. destruct (hv_zone_at w i Hw Hi) as [_ Hinv]. apply Hinv.
  - intros a Ha. destruct (bi_entry _ _ _ _ Hb a) as (b & Hl & Hbe & _); [set_solver|]. unfold big_sound, big_at. rewrite Hl. cbn [default].
    split; [apply Hbe|]. pose proof (be_size _ _ _ Hbe). pose proof (be_pages _ _ _ Hbe). cbn. lia.
Qed.

(** C25. [verify_all_zones] decides, on every heap whose zones and lists can be walked, whether
    all canaries of all zones and the structures of all big zones of both lists (canaries, size,
    pages) are as they should be: it then returns and leaves the whole process as it was, and
    stops the process when a single one is damaged. *)
Theorem verify_all_zones_decides w lu lf : walkable_heap w lu lf → w_root_lock w = false →
  decides damage_abort ((∀ i, 0 <= i < zones_used (w_root w) → zone_canaries w (zone_at w i)) ∧ (∀ a, a ∈ lu ++ lf → big_sound w a)) verify_all_zones w.
Proof.
  intros Hw Hlk. set (w1 := set_w_root_lock true w). assert (Hw1 : walkable_heap w1 lu lf) by (destruct Hw; by constructor).
  assert (Hrun : ∀ o, _verify_all_zones w1 = o → verify_all_zones w =
    match o with Ret _ w' => UNLOCK_ROOT w' | Abort e => Abort e | Fault => Fault | Undef => Undef | Deadlock => Deadlock | NoFuel => NoFuel end).
  { intros o Ho. unfold verify_all_zones, mbind, M_bind, LOCK_ROOT. rewrite Hlk. fold w1. rewrite Ho. by destruct o. }
  unfold decides. destruct (decides_all w1 lu lf Hw1) as [[HP Hv]|[HP (e & He & Hv)]]; rewrite (Hrun _ Hv).
  - left. split; [exact HP|]. unfold UNLOCK_ROOT, upd, w1. destruct w. simpl in *. by subst.
  - right. split; [exact HP|]. by exists e.
Qed.
End verdicts.
