(* ===== verification/Profiler.v ===== *)
(** * Leak detection, memory usage and the heap profiler

    src/iso_alloc_profiler.c. The leak detector walks a zone's bitmap and counts the chunks
    in use; the profiler samples one allocation in ten thousand and groups the samples by a
    hash of the call stack. The log lines and the profile file are not modelled. *)

From S2P Require Import Prelude Words Conf Memory State Util ZoneBits FreeList Chunks Lookup Heap BigZones BigSpec Verify.

Section model.
Context `{!Kernel, !Config}.

(** ** Leaks *)

Definition builtin_popcountll (x : Z) : Z := Z.of_nat (length (set_bits x)).

(** The loop over the chunks of word [i] whose low bit is set; [bts] is the word,
    [in_use_low] the bits left, [in_use] the count so far. *)
Fixpoint leak_word (fuel : nat) (zi i bts in_use_low in_use : Z) : M Z :=
  match fuel with
  | O => nofuel
  | S fuel' =>
      if in_use_low =? 0 then mret in_use else
      let j := builtin_ctzll in_use_low in
      let in_use_low := Z.land in_use_low (in_use_low - 1) in
      let bit_two := GET_BIT bts (j + 1) in
      let bit_slot := i * BITS_PER_QWORD + j in
      z ← zget zi;
      let leak := user_pages_start z + Z.shiftr bit_slot 1 * chunk_size z in
      canary ← (if bit_two =? 1 then r ← check_canary_no_abort zi leak; mret (negb (r =? -1)) else mret false);
      if canary : bool then leak_word fuel' zi i bts in_use_low in_use
      else leak_word fuel' zi i bts in_use_low (u32 (in_use + 1))
  end.

(** [n] more words from [i] on; the counts of chunks in use and of chunks freed. *)
Fixpoint leak_words (n : nat) (zi i in_use was_used : Z) : M (Z * Z) :=
  match n with
  | O => mret (in_use, was_used)
  | S n' =>
      z ← zget zi;
      bts ← rd64 (bitmap_start z + 8 * i);
      if bts =? 0 then leak_words n' zi (i + 1) in_use was_used else
      let was_used := u32 (was_used + builtin_popcountll (Z.land (Z.land (u64 (Z.lnot bts)) (Z.shiftr bts 1)) USED_BIT_VECTOR)) in
      in_use ← leak_word 65 zi i bts (Z.land bts USED_BIT_VECTOR) in_use;
      leak_words n' zi (i + 1) in_use was_used
  end.

(** [_iso_alloc_zone_leak_detector]; a build with the leak detector. *)
Definition _iso_alloc_zone_leak_detector (zi : Z) (profile : bool) : M Z :=
  zmod zi UNMASK_ZONE_PTRS;;
  z ← zget zi;
  let bms := bitmap_size z / 8 in
  '(in_use, was_used) ← leak_words (Z.to_nat bms) zi 0 0 0;
  zmod zi MASK_ZONE_PTRS;;
  z ← zget zi;
  if profile then mret ((in_use + was_used) / chunk_count z * 100) else mret in_use.

Definition _iso_alloc_detect_leaks_in_zone (zi : Z) : M Z :=
  LOCK_ROOT;;
  leaks ← _iso_alloc_zone_leak_detector zi false;
  UNLOCK_ROOT;;
  mret leaks.

Fixpoint detect_zones (n : nat) (i total : Z) : M Z :=
  match n with
  | O => mret total
  | S n' => l ← _iso_alloc_zone_leak_detector i false; detect_zones n' (i + 1) (u64 (total + l))
  end.

(** The sizes of the big zones of a list, from the structure [big] on. *)
Fixpoint sum_bigs (fuel : nat) (extra big total : Z) : M Z :=
  match fuel with
  | O => nofuel
  | S fuel' =>
      if big =? 0 then mret total else
      b ← bget big;
      let total := u64 (total + (big_size b + extra)) in
      r ← root;
      sum_bigs fuel' extra (if negb (big_next b =? 0) then UNMASK_BIG_ZONE_NEXT r (big_next b) else 0) total
  end.

Definition big_total (extra head : Z) : M Z :=
  w ← get;
  r ← root;
  sum_bigs (big_fuel w) extra (if negb (head =? 0) then UNMASK_BIG_ZONE_NEXT r head else 0) 0.

Definition _iso_alloc_detect_leaks : M Z :=
  LOCK_ROOT;;
  r ← root;
  total_leaks ← detect_zones (Z.to_nat (zones_used r)) 0 0;
  UNLOCK_ROOT;;
  LOCK_BIG_ZONE_USED;;
  r ← root;
  big_leaks ← big_total 0 (big_zone_used r);
  UNLOCK_BIG_ZONE_USED;;
  mret (u64 (total_leaks + big_leaks)).

(** ** Memory usage, in megabytes *)

Definition __iso_alloc_zone_mem_usage (zi : Z) : M Z :=
  z ← zget zi;
  mret ((bitmap_size z + ZONE_USER_SIZE) / MEGABYTE_SIZE).

Fixpoint usage_zones (n : nat) (i total : Z) : M Z :=
  match n with
  | O => mret total
  | S n' => z ← zget i; usage_zones n' (i + 1) (u64 (total + (bitmap_size z + ZONE_USER_SIZE)))
  end.

Definition __iso_alloc_mem_usage : M Z :=
  r ← root;
  total ← usage_zones (Z.to_nat (zones_used r)) 0 0;
  mret (total / MEGABYTE_SIZE).

Definition __iso_alloc_big_zone_mem_usage (head : Z) : M Z :=
  w ← get;
  let extra := w_page_size w * BIG_ZONE_META_DATA_PAGE_COUNT +
               (if BIG_ZONE_META_DATA_GUARD then w_page_size w * 4 else w_page_size w * 2) in
  mem_usage ← big_total extra head;
  mret (mem_usage / MEGABYTE_SIZE).

Definition _iso_alloc_big_zone_mem_usage : M Z :=
  LOCK_BIG_ZONE_USED;;
  r ← root;
  a ← __iso_alloc_big_zone_mem_usage (big_zone_used r);
  UNLOCK_BIG_ZONE_USED;;
  LOCK_BIG_ZONE_FREE;;
  r ← root;
  b ← __iso_alloc_big_zone_mem_usage (big_zone_free r);
  UNLOCK_BIG_ZONE_FREE;;
  mret (u64 (a + b)).

Definition _iso_alloc_mem_usage : M Z :=
  LOCK_ROOT;;
  a ← __iso_alloc_mem_usage;
  b ← _iso_alloc_big_zone_mem_usage;
  UNLOCK_ROOT;;
  mret (u64 (a + b)).

Definition _iso_alloc_zone_mem_usage (zi : Z) : M Z :=
  LOCK_ROOT;;
  u ← __iso_alloc_zone_mem_usage zi;
  UNLOCK_ROOT;;
  mret u.
End model.

(** ** The sampling profiler *)

Definition PROFILER_ODDS : Z := 10000.
Definition HG_SIZE : Z := 65535.
Definition CHUNK_USAGE_THRESHOLD : Z := 75.
Definition BACKTRACE_DEPTH : nat := 8.
Definition BACKTRACE_DEPTH_SZ : Z := 128.

(** [iso_alloc_traces_t]; the free traces leave the bounds at zero. *)
Record trace := mk_trace {
  backtrace_hash : Z;
  callers : list Z;
  call_count : Z;
  lower_bound_size : Z;
  upper_bound_size : Z;
}.

(** The profiler's globals. *)
Record prof := mk_prof {
  _alloc_count : Z;
  _free_count : Z;
  _alloc_sampled_count : Z;
  _free_sampled_count : Z;
  _zone_profiler_map : gmap Z Z;
  _alloc_bts : list trace;
  _free_bts : list trace;
}.

(** The stack of the thread that calls a hook, as the compiler's builtins see it:
    [__builtin_frame_address] and [__builtin_return_address] of a level, [None] when the
    chain of frame pointers, which code built without them does not maintain, leads to memory
    that cannot be read. *)
Record call_stack := mk_stack { frame_address : Z → option Z; return_address : Z → option Z }.

(** The chain can be followed from level [frame] to its end or over [n] levels. *)
Fixpoint walkable_from (st : call_stack) (n : nat) (frame : Z) : bool :=
  match n with
  | O => true
  | S n' =>
      match frame_address st frame with
      | None => false
      | Some f => (f =? 0) || (bool_decide (is_Some (return_address st frame)) && walkable_from st n' (frame + 1))
      end
  end.
Definition walkable (st : call_stack) : bool := walkable_from st BACKTRACE_DEPTH 1.

(** A known allocation trace sees one more call, of [size] bytes. *)
Definition bump (size : Z) (t : trace) : trace :=
  mk_trace (backtrace_hash t) (callers t) (u64 (call_count t + 1))
    (if (lower_bound_size t =? 0) || (size <? lower_bound_size t) then size else lower_bound_size t)
    (if (upper_bound_size t =? 0) || (upper_bound_size t <? size) then size else upper_bound_size t).
Definition bump_free (t : trace) : trace :=
  mk_trace (backtrace_hash t) (callers t) (u64 (call_count t + 1)) (lower_bound_size t) (upper_bound_size t).

(** The search for the hash: the first entry that has it is updated. *)
Fixpoint update_trace (f : trace → trace) (hash : Z) (l : list trace) : option (list trace) :=
  match l with
  | [] => None
  | t :: l' => if backtrace_hash t =? hash then Some (f t :: l') else cons t <$> update_trace f hash l'
  end.

Section sampling.
Context `{!Kernel, !Config}.

(** A load along the chain of frame pointers. *)
Definition load_frame (o : option Z) : M Z := match o with Some v => mret v | None => fault end.

(** [_get_backtrace_hash] from level [frame] on; [UPDATE_BT_HASH] of one level. *)
Fixpoint update_bt_hash (st : call_stack) (n : nat) (frame hash : Z) : M Z :=
  match n with
  | O => mret hash
  | S n' =>
      f ← load_frame (frame_address st frame);
      if f =? 0 then mret hash else
      r ← load_frame (return_address st frame);
      update_bt_hash st n' (frame + 1) (Z.lxor hash r)
  end.
Definition _get_backtrace_hash (st : call_stack) : M Z := update_bt_hash st BACKTRACE_DEPTH 1 0.

(** [_save_alloc_backtrace], [_save_free_backtrace] into the [callers] of an entry;
    [SAVE_BACKTRACE_FRAME] of one level. *)
Fixpoint save_frames (st : call_stack) (n : nat) (frame : Z) (callers : list Z) : M (list Z) :=
  match n with
  | O => mret callers
  | S n' =>
      f ← load_frame (frame_address st frame);
      if f =? 0 then mret callers else
      r ← load_frame (return_address st frame);
      save_frames st n' (frame + 1) (if 0x1000 <? r then <[Z.to_nat (frame - 1) := r]> callers else callers)
  end.
Definition save_backtrace (st : call_stack) : M (list Z) := save_frames st BACKTRACE_DEPTH 1 (replicate BACKTRACE_DEPTH 0).

(** Both profilers on their array of traces. *)
Definition record_trace (f : trace → trace) (st : call_stack) (bts : list trace) : M (list trace) :=
  if Z.of_nat (length bts) <? BACKTRACE_DEPTH_SZ then
    h ← _get_backtrace_hash st;
    let hash := u16 (Z.land h HG_SIZE) in
    match update_trace f hash bts with
    | Some bts' => mret bts'
    | None => callers ← save_backtrace st; mret (bts ++ [mk_trace hash callers 0 0 0])
    end
  else mret bts.

(** The loop over the zones: the usage of zone [i], an integer percentage, divided once
    more by the number of chunks; [_zone_profiler_map] has [SMALL_SIZE_MAX] entries. *)
Fixpoint profile_zones (n : nat) (i : Z) (m : gmap Z Z) : M (gmap Z Z) :=
  match n with
  | O => mret m
  | S n' =>
      z ← zget i;
      used ← (if is_full z then mret (chunk_count z) else (u ← _iso_alloc_zone_leak_detector i true; mret (u32 u)));
      let used := used / chunk_count z * 100 in
      if CHUNK_USAGE_THRESHOLD <? used then
        if SMALL_SIZE_MAX <=? chunk_size z then undef else
        profile_zones n' (i + 1) (<[chunk_size z := default 0 (m !! chunk_size z) + 1]> m)
      else profile_zones n' (i + 1) m
  end.

Definition _iso_alloc_profile (st : call_stack) (size : Z) (p : prof) : M prof :=
  let p := mk_prof (u64 (_alloc_count p + 1)) (_free_count p) (_alloc_sampled_count p) (_free_sampled_count p)
             (_zone_profiler_map p) (_alloc_bts p) (_free_bts p) in
  v ← us_rand_uint64;
  if negb (v mod PROFILER_ODDS =? 1) then mret p else
  r ← root;
  m ← profile_zones (Z.to_nat (zones_used r)) 0 (_zone_profiler_map p);
  bts ← record_trace (bump size) st (_alloc_bts p);
  mret (mk_prof (_alloc_count p) (_free_count p) (u64 (_alloc_sampled_count p + 1)) (_free_sampled_count p) m bts (_free_bts p)).

Definition _iso_free_profile (st : call_stack) (p : prof) : M prof :=
  let p := mk_prof (_alloc_count p) (u64 (_free_count p + 1)) (_alloc_sampled_count p) (_free_sampled_count p)
             (_zone_profiler_map p) (_alloc_bts p) (_free_bts p) in
  v ← us_rand_uint64;
  if negb (v mod PROFILER_ODDS =? 1) then mret p else
  bts ← record_trace bump_free st (_free_bts p);
  mret (mk_prof (_alloc_count p) (_free_count p) (_alloc_sampled_count p) (u64 (_free_sampled_count p + 1))
          (_zone_profiler_map p) (_alloc_bts p) bts).

(** [_iso_get_alloc_traces], [_iso_get_free_traces]: one trace is copied out, the number
    of traces is returned. *)
Definition _iso_get_alloc_traces (p : prof) : M (trace * Z) :=
  LOCK_ROOT;;
  let r := (nth 0 (_alloc_bts p) (mk_trace 0 (replicate BACKTRACE_DEPTH 0) 0 0 0), Z.of_nat (length (_alloc_bts p))) in
  UNLOCK_ROOT;;
  mret r.
Definition _iso_get_free_traces (p : prof) : M (trace * Z) :=
  LOCK_ROOT;;
  let r := (nth 0 (_free_bts p) (mk_trace 0 (replicate BACKTRACE_DEPTH 0) 0 0 0), Z.of_nat (length (_free_bts p))) in
  UNLOCK_ROOT;;
  mret r.

Definition _iso_alloc_reset_traces (p : prof) : M prof :=
  LOCK_ROOT;;
  let p := mk_prof (_alloc_count p) (_free_count p) (_alloc_sampled_count p) (_free_sampled_count p)
             (_zone_profiler_map p) [] [] in
  UNLOCK_ROOT;;
  mret p.
End sampling.

(** ** What the leak detector reports *)

Section leaks.
Context `{!Kernel, !Config}.

Lemma check_no_abort_ok zi p w : let z := zone_at w zi in
  8 <= chunk_size z → mapped_rw (w_vm w) p (chunk_size z) →
  (DISABLE_CANARY = false → canary_words (w_mem w) (canary_secret z) (chunk_size z) p) → check_canary_no_abort zi p w = Ret 0 w.
Proof.
  intros z Hs Hm Hc. unfold check_canary_no_abort. destruct DISABLE_CANARY; [done|]. destruct (Hc eq_refl) as [C1 C2].
  unfold mbind, M_bind, zget, rd64. fold z.
  rewrite can_access_mapped by (lia || (eapply mapped_rw_sub; [exact Hm|lia..])). rewrite C1, Z.eqb_refl. cbn [negb].
  rewrite can_access_mapped by (lia || (eapply mapped_rw_sub; [exact Hm|lia..])). by rewrite C2, Z.eqb_refl.
Qed.

(** One round of the loop: a chunk in use, and one with an intact canary. *)
Lemma leak_step_used fuel zi i bts mask acc w : mask ≠ 0 → Z.testbit bts (builtin_ctzll mask + 1) = false →
  leak_word (S fuel) zi i bts mask acc w = leak_word fuel zi i bts (Z.land mask (mask - 1)) (u32 (acc + 1)) w.
Proof.
  intros Hne Hb. cbn [leak_word]. rewrite (proj2 (Z.eqb_neq mask 0)) by done. pose proof (builtin_ctzll_nonneg mask).
  rewrite GET_BIT_spec, Hb by lia. done.
Qed.

Lemma leak_step_canary fuel zi i bts mask acc w : mask ≠ 0 → Z.testbit bts (builtin_ctzll mask + 1) = true →
  check_canary_no_abort zi (user_pages_start (zone_at w zi) + Z.shiftr (i * 64 + builtin_ctzll mask) 1 * chunk_size (zone_at w zi)) w = Ret 0 w →
  leak_word (S fuel) zi i bts mask acc w = leak_word fuel zi i bts (Z.land mask (mask - 1)) acc w.
Proof.
  intros Hne Hb Hc. cbn [leak_word]. rewrite (proj2 (Z.eqb_neq mask 0)) by done. pose proof (builtin_ctzll_nonneg mask).
  rewrite GET_BIT_spec, Hb by lia. cbn [Z.b2z Z.eqb Pos.eqb]. change BITS_PER_QWORD with 64. unfold mbind, M_bind, zget. by rewrite Hc.
Qed.

(** The chunks of word [i] that are in use. *)
Definition word_in_use (m : gmap Z Z) (B i : Z) : list Z :=
  List.filter (λ c, bool_decide (chunk_st m B c = ChunkInUse)) (seqZ (32 * i) 32).

(** The bits the detector counts: a low bit whose high bit is clear. *)
Definition counted (bts : Z) (mask : Z) : list Z := List.filter (λ j, negb (Z.testbit bts (j + 1))) (set_bits mask).

Lemma filter_keep {A} (f : A → bool) a l : f a = true → List.filter f (a :: l) = a :: List.filter f l.
Proof. intros Hf. simpl. by rewrite Hf. Qed.
Lemma filter_skip {A} (f : A → bool) a l : f a = false → List.filter f (a :: l) = List.filter f l.
Proof. intros Hf. simpl. by rewrite Hf. Qed.

Lemma counted_cons bts mask : is_u64 mask → 0 < mask →
  counted bts mask = if Z.testbit bts (builtin_ctzll mask + 1) then counted bts (Z.land mask (mask - 1))
                     else builtin_ctzll mask :: counted bts (Z.land mask (mask - 1)).
Proof.
  intros Hm Hp. unfold counted. rewrite (set_bits_cons mask) by done. destruct (Z.testbit bts (builtin_ctzll mask + 1)) eqn:Hb.
  - apply filter_skip. by rewrite Hb.
  - apply filter_keep. by rewrite Hb.
Qed.

Lemma word_bits m B i c b : 32 * i <= c < 32 * i + 32 → 0 <= b <= 1 →
  bm_bit m B (2 * c + b) = Z.testbit (bm_word m B i) (2 * (c - 32 * i) + b).
Proof.
  intros Hc Hb. unfold bm_bit. replace (2 * c + b) with (2 * (c - 32 * i) + b + i * 64) by lia.
  rewrite Z.div_add, Z.mod_add, Z.div_small, Z.mod_small by lia. done.
Qed.

Lemma word_state m B i c : 32 * i <= c < 32 * i + 32 → chunk_st m B c = ChunkInUse ↔
  Z.testbit (bm_word m B i) (2 * (c - 32 * i)) = true ∧ Z.testbit (bm_word m B i) (2 * (c - 32 * i) + 1) = false.
Proof.
  intros Hc. unfold chunk_st. rewrite <-(word_bits m B i c 1) by lia.
  replace (2 * (c - 32 * i)) with (2 * (c - 32 * i) + 0) by lia. rewrite <-(word_bits m B i c 0) by lia. rewrite Z.add_0_r.
  destruct (bm_bit m B (2 * c)), (bm_bit m B (2 * c + 1)); simpl; naive_solver.
Qed.

Lemma counted_length m B i : let bts := bm_word m B i in
  length (counted bts (Z.land bts USED_BIT_VECTOR)) = length (word_in_use m B i).
Proof.
  intros bts. rewrite <-(length_map (λ c, 2 * (c - 32 * i)) (word_in_use m B i)). apply Permutation_length, NoDup_Permutation.
  - apply base.NoDup_ListNoDup, NoDup_filter, base.NoDup_ListNoDup, NoDup_set_bits.
  - apply base.NoDup_ListNoDup, Finite.Injective_map_NoDup; [intros x y; lia|]. apply NoDup_filter, base.NoDup_ListNoDup, NoDup_seqZ.
  - intros j. rewrite !list_elem_of_In, in_map_iff. unfold counted, word_in_use. setoid_rewrite filter_In.
    setoid_rewrite <-list_elem_of_In. setoid_rewrite elem_of_set_bits. setoid_rewrite elem_of_seqZ.
    rewrite negb_true_iff, Z.land_spec, andb_true_iff. split.
    + intros [(Hj & Hb & Hu) Hn]. rewrite USED_BIT_VECTOR_spec in Hu by lia. apply andb_true_iff in Hu as [_ Hu%Zeven_bool_iff].
      destruct (Zeven_ex _ Hu) as [k ->]. exists (k + 32 * i). split; [lia|]. split; [lia|]. apply bool_decide_eq_true, (word_state m B i); [lia|].
      replace (k + 32 * i - 32 * i) with k by lia. done.
    + intros (c & <- & Hc & Hs%bool_decide_eq_true). apply (word_state m B i) in Hs as [H2 H3]; [|lia].
      split; [|done]. split; [lia|]. split; [done|]. rewrite USED_BIT_VECTOR_spec, (proj2 (Z.ltb_lt _ 64)) by lia. by rewrite Z.even_mul.
Qed.

(** The chunks in use among the [32 * n] from [c] on. *)
Definition chunks_used (m : gmap Z Z) (B c : Z) (n : nat) : Z :=
  Z.of_nat (length (List.filter (λ c, bool_decide (chunk_st m B c = ChunkInUse)) (seqZ c (32 * Z.of_nat n)))).

Lemma chunks_used_S m B i n :
  chunks_used m B (32 * i) (S n) = Z.of_nat (length (word_in_use m B i)) + chunks_used m B (32 * (i + 1)) n.
Proof.
  unfold chunks_used, word_in_use. replace (32 * Z.of_nat (S n)) with (32 + 32 * Z.of_nat n) by lia.
  rewrite seqZ_app, filter_app, length_app by lia. replace (32 * i + 32) with (32 * (i + 1)) by lia. lia.
Qed.

Lemma counted_le bts mask : (length (counted bts mask) <= 64)%nat.
Proof. unfold counted. etransitivity; [apply filter_length_le|]. pose proof (length_set_bits mask). lia. Qed.

Lemma leak_words_step n zi i acc was w bts k : rd64 (bitmap_start (zone_at w zi) + 8 * i) w = Ret bts w →
  (bts = 0 → k = acc) → (bts ≠ 0 → leak_word 65 zi i bts (Z.land bts USED_BIT_VECTOR) acc w = Ret k w) →
  ∃ was', leak_words (S n) zi i acc was w = leak_words n zi (i + 1) k was' w.
Proof.
  intros Hrd Hc0 Hc1. cbn [leak_words]. erewrite run_bind by done. erewrite run_bind by exact Hrd.
  destruct (Z.eqb_spec bts 0) as [Hz|Hz]; [rewrite (Hc0 Hz); by eexists|]. erewrite run_bind by exact (Hc1 Hz). by eexists.
Qed.

Section zone.
Variables (zi U B : Z) (w : world).
Hypothesis HU : user_pages_start (zone_at w zi) = U.
Hypothesis HB : bitmap_start (zone_at w zi) = B.
Hypothesis Hinv : zinv (w_vm w) (w_mem w) U B (zone_at w zi).

Lemma leak_word_run fuel i mask acc : is_u64 mask → (length (set_bits mask) < fuel)%nat → 0 <= i < max_bitmap_idx (zone_at w zi) →
  (∀ j, 0 <= j < 64 → Z.testbit mask j = true → Z.even j = true) → 0 <= acc → acc + Z.of_nat (length (set_bits mask)) < 2 ^ 32 →
  leak_word fuel zi i (bm_word (w_mem w) B i) mask acc w =
  Ret (acc + Z.of_nat (length (counted (bm_word (w_mem w) B i) mask))) w.
Proof using HU HB Hinv.
  intros Hmask Hf Hi. revert mask acc Hmask Hf. induction fuel as [|fuel IH]; intros mask acc Hmask Hf Hev Ha Hacc; [lia|].
  destruct (Z.eqb_spec mask 0) as [->|Hne]; [unfold counted; by rewrite set_bits_0, Z.add_0_r|].
  assert (0 < mask) by (unfold is_u64 in *; lia). pose proof (builtin_ctzll_nonneg mask).
  assert (builtin_ctzll mask < 64) by (apply builtin_ctzll_lt; unfold is_u64 in *; lia).
  pose proof (builtin_ctzll_bit mask ltac:(lia)) as Hbit.
  rewrite set_bits_cons in Hf, Hacc by done. rewrite counted_cons by done. rewrite length_cons in Hf, Hacc. set (j := builtin_ctzll mask) in *. remember (Z.land mask (mask - 1)) as mask' eqn:Hmeq.
  pose proof (Hev j ltac:(lia) Hbit) as Hj. apply Zeven_bool_iff in Hj. destruct (Zeven_ex _ Hj) as [k Hk].
  assert (Hev' : ∀ x, 0 <= x < 64 → Z.testbit mask' x = true → Z.even x = true).
  { intros x Hx. rewrite Hmeq, land_pred_spec by lia. intros [Hx' _]%andb_true_iff. by apply Hev. }
  assert (Hc : 0 <= 32 * i + k < slots (zone_at w zi)) by (unfold slots; lia).
  assert (Hp : user_pages_start (zone_at w zi) + Z.shiftr (i * 64 + j) 1 * chunk_size (zone_at w zi) = U + (32 * i + k) * chunk_size (zone_at w zi)).
  { rewrite HU, Z.shiftr_div_pow2 by lia. change (2 ^ 1) with 2. replace (i * 64 + j) with ((32 * i + k) * 2) by lia. by rewrite Z.div_mul. }
  assert (Hm' : is_u64 mask') by (rewrite Hmeq; apply is_u64_land_pred; [done|lia]).
  destruct (Z.testbit (bm_word (w_mem w) B i) (j + 1)) eqn:Hb2.
  - rewrite leak_step_canary; [rewrite <-Hmeq, IH; [reflexivity|exact Hm'|lia|exact Hev'|lia|lia]|exact Hne|exact Hb2|]. fold j. rewrite Hp.
    apply check_no_abort_ok; [pose proof (zinv_size _ _ _ _ _ Hinv); lia|by apply (chunk_mapped _ _ _ _ _ Hinv)|].
    intros Hd. apply (zinv_canary _ _ _ _ _ Hinv Hd); [done|]. rewrite (word_bits _ _ i) by lia. rewrite <-Hb2. f_equal. lia.
  - rewrite leak_step_used; [|exact Hne|exact Hb2]. rewrite u32_small by lia. rewrite <-Hmeq, IH; [|exact Hm'|lia|exact Hev'|lia|lia]. f_equal. rewrite length_cons. lia.
Qed.

Lemma leak_words_run n i acc was : 0 <= i → i + Z.of_nat n <= max_bitmap_idx (zone_at w zi) → 0 <= acc <= 64 * i →
  ∃ was', leak_words n zi i acc was w = Ret (acc + chunks_used (w_mem w) B (32 * i) n, was') w.
Proof using HU HB Hinv.
  revert i acc was. induction n as [|n IH]; intros i acc was Hi Hn Hacc; [exists was; cbn [leak_words]; by rewrite Z.add_0_r|].
  pose proof (zinv_max _ _ _ _ _ Hinv) as Hmax. set (k := Z.of_nat (length (word_in_use (w_mem w) B i))).
  assert (Hk : 0 <= k <= 64).
  { unfold k. rewrite <-counted_length. pose proof (counted_le (bm_word (w_mem w) B i) (Z.land (bm_word (w_mem w) B i) USED_BIT_VECTOR)). lia. }
  destruct (leak_words_step n zi i acc was w (bm_word (w_mem w) B i) (acc + k)) as (was1 & ->).
  - rewrite HB. unfold rd64. rewrite can_access_mapped; [done|lia|]. apply (bitmap_word_mapped _ _ _ _ _ Hinv). lia.
  - intros Hz. unfold k. rewrite <-counted_length, Hz. unfold counted. rewrite Z.land_0_l, set_bits_0. simpl. lia.
  - intros _. unfold k. rewrite <-counted_length. pose proof (length_set_bits (Z.land (bm_word (w_mem w) B i) USED_BIT_VECTOR)).
    apply leak_word_run; try lia.
    + apply is_u64_land; [apply bm_word_range|unfold USED_BIT_VECTOR; lia].
    + intros j Hj. rewrite Z.land_spec, USED_BIT_VECTOR_spec by lia. by intros [_ [_ ?]%andb_true_iff]%andb_true_iff.
  - rewrite chunks_used_S. fold k. destruct (IH (i + 1) (acc + k) was1) as (was' & ->); [lia..|]. exists was'. do 2 f_equal. lia.
Qed.
End zone.

Lemma leak_detector_any zi z w (profile : bool) : w_zones w !! zi = Some z → zone_inv (w_vm w) (w_mem w) z →
  ∃ was, _iso_alloc_zone_leak_detector zi profile w =
    Ret (if profile then (af_count z + was) / chunk_count z * 100 else af_count z) w.
Proof.
  intros Hz Hinv. assert (Hat : zone_at w zi = z) by (unfold zone_at; by rewrite Hz). pose proof (zinv_max _ _ _ _ _ Hinv) as Hmax.
  set (w1 := zput_w zi (UNMASK_ZONE_PTRS z) w). assert (Hw1 : zone_at w1 zi = UNMASK_ZONE_PTRS z) by apply zone_at_put.
  destruct (leak_words_run zi (UNMASK_USER_PTR z) (UNMASK_BITMAP_PTR z) w1) with (n := Z.to_nat (max_bitmap_idx z)) (i := 0) (acc := 0) (was := 0)
    as (was & Hrun); rewrite ?Hw1; try done; try lia.
  { destruct Hinv as [[] [] [] ? ? ?]. constructor; try done; by constructor. }
  { change (max_bitmap_idx (UNMASK_ZONE_PTRS z)) with (max_bitmap_idx z). lia. }
  unfold _iso_alloc_zone_leak_detector, mbind, M_bind. unfold zmod at 1. rewrite Hat. fold w1. unfold zget at 1. rewrite Hw1.
  change (bitmap_size (UNMASK_ZONE_PTRS z)) with (bitmap_size z). rewrite <-(zg_max _ (zinv_geom _ _ _ _ _ Hinv)), Hrun.
  unfold zmod. rewrite Hw1. unfold zget, mret, M_ret. unfold chunks_used. rewrite Z.add_0_l, Z.mul_0_r, Z2Nat.id by lia.
  exists was. assert (Hback : zput_w zi (MASK_ZONE_PTRS (UNMASK_ZONE_PTRS z)) w1 = w).
  { unfold w1. rewrite zput_put, mask_unmask. by apply zput_id. }
  rewrite Hback, Hat. change (w_mem w1) with (w_mem w). pose proof (zinv_af _ _ _ _ _ Hinv) as Haf.
  unfold in_use_chunks, slots in Haf. rewrite <-Haf. by destruct profile.
Qed.

Lemma leak_detector_run zi z w : w_zones w !! zi = Some z → zone_inv (w_vm w) (w_mem w) z →
  _iso_alloc_zone_leak_detector zi false w = Ret (af_count z) w.
Proof. intros Hz Hinv. by destruct (leak_detector_any zi z w false Hz Hinv). Qed.
End leaks.

(** ** The recorded traces *)

Lemma update_trace_spec f hash l : (∀ t, backtrace_hash (f t) = backtrace_hash t) →
  match update_trace f hash l with
  | Some l' => backtrace_hash <$> l' = backtrace_hash <$> l ∧ hash ∈ backtrace_hash <$> l
  | None => hash ∉ backtrace_hash <$> l
  end.
Proof.
  intros Hf. induction l as [|t l IH]; cbn [update_trace]; [apply not_elem_of_nil|]. destruct (Z.eqb_spec (backtrace_hash t) hash) as [Heq|Hne].
  - rewrite !fmap_cons, Hf. split; [done|]. rewrite <-Heq. apply elem_of_cons. by left.
  - destruct (update_trace f hash l) as [l'|]; cbn [fmap option_fmap option_map].
    + destruct IH as [Heq Hin]. rewrite !fmap_cons, Heq. split; [done|]. apply elem_of_cons. by right.
    + rewrite fmap_cons, not_elem_of_cons. split; [|done]. by intros ->.
Qed.

(** At most 128 traces, no two with the same hash. *)
Definition traces_ok (l : list trace) : Prop := Z.of_nat (length l) <= BACKTRACE_DEPTH_SZ ∧ NoDup (backtrace_hash <$> l).

Section walks.
Context `{!Kernel, !Config}.

(** The walks return on a chain that can be followed, and fault on any other. *)
Lemma update_bt_hash_run st n frame hash w :
  if walkable_from st n frame then ∃ h, update_bt_hash st n frame hash w = Ret h w else update_bt_hash st n frame hash w = Fault.
Proof.
  revert frame hash. induction n as [|n IH]; intros frame hash; cbn [walkable_from update_bt_hash]; [by exists hash|].
  unfold mbind, M_bind, load_frame. destruct (frame_address st frame) as [f|]; [|done]. cbn [mret M_ret].
  destruct (f =? 0); [by exists hash|]. cbn [orb]. destruct (return_address st frame) as [r|]; [|done].
  rewrite bool_decide_eq_true_2 by done. apply IH.
Qed.

Lemma save_frames_run st n frame l w :
  if walkable_from st n frame then ∃ l', save_frames st n frame l w = Ret l' w else save_frames st n frame l w = Fault.
Proof.
  revert frame l. induction n as [|n IH]; intros frame l; cbn [walkable_from save_frames]; [by exists l|].
  unfold mbind, M_bind, load_frame. destruct (frame_address st frame) as [f|]; [|done]. cbn [mret M_ret].
  destruct (f =? 0); [by exists l|]. cbn [orb]. destruct (return_address st frame) as [r|]; [|done].
  rewrite bool_decide_eq_true_2 by done. apply IH.
Qed.

Lemma record_trace_ok f st l w : (∀ t, backtrace_hash (f t) = backtrace_hash t) → traces_ok l →
  (∃ l', record_trace f st l w = Ret l' w ∧ traces_ok l') ∨ walkable st = false ∧ record_trace f st l w = Fault.
Proof.
  intros Hf [Hl Hnd]. unfold record_trace. destruct (Z.ltb_spec (Z.of_nat (length l)) BACKTRACE_DEPTH_SZ) as [Hlt|]; [|left; by exists l].
  unfold mbind, M_bind, _get_backtrace_hash. pose proof (update_bt_hash_run st BACKTRACE_DEPTH 1 0 w) as Hh.
  pose proof (save_frames_run st BACKTRACE_DEPTH 1 (replicate BACKTRACE_DEPTH 0) w) as Hs. fold (walkable st) in Hh, Hs. fold (save_backtrace st) in Hs.
  destruct (walkable st); [left|right; by rewrite Hh]. destruct Hh as (h & ->), Hs as (cs & Hs). cbv zeta.
  set (hash := u16 _). pose proof (update_trace_spec f hash l Hf) as Hu. destruct (update_trace f hash l) as [l'|].
  - exists l'. split; [done|]. destruct Hu as [Heq _]. unfold traces_ok. rewrite Heq. split; [|done]. by rewrite <-(length_fmap backtrace_hash l'), Heq, length_fmap.
  - rewrite Hs. eexists. split; [done|]. split; [rewrite length_app; simpl; lia|]. rewrite fmap_app. simpl. rewrite list.NoDup_app.
    split; [done|]. split; [set_solver|]. apply NoDup_singleton.
Qed.
End walks.

Section theorems.
Context `{!Kernel, !Config}.

(** C34. On a well-formed zone the leak detector reports exactly the number of chunks in
    use, which is the zone's own counter: canary chunks are told apart from leaks, freed
    chunks are not counted, and the zone is left as it was. *)
Theorem leak_detector_exact zi z w : w_zones w !! zi = Some z → zone_inv (w_vm w) (w_mem w) z →
  _iso_alloc_zone_leak_detector zi false w = Ret (af_count z) w ∧
  af_count z = Z.of_nat (length (in_use_chunks (w_mem w) (UNMASK_BITMAP_PTR z) z)).
Proof. intros Hz Hinv. split; [by apply leak_detector_run|apply (zinv_af _ _ _ _ _ Hinv)]. Qed.

(** The usage of every zone can be measured, unless a zone with chunks of 64 KiB, for
    which the map has no entry, is in heavy use. *)
Lemma profile_zones_run n i m w : heap_inv w → (∀ j, 0 <= j < zones_used (w_root w) → chunk_size (zone_at w j) < SMALL_SIZE_MAX) →
  0 <= i → i + Z.of_nat n <= zones_used (w_root w) → ∃ m', profile_zones n i m w = Ret m' w.
Proof.
  intros Hw Hs. revert i m. induction n as [|n IH]; intros i m Hi Hn; cbn [profile_zones]; [by exists m|].
  destruct (hv_zone_at w i Hw ltac:(lia)) as [Hz Hinv]. unfold mbind, M_bind, zget.
  destruct (leak_detector_any i _ w true Hz Hinv) as (was & Hl). specialize (Hs i ltac:(lia)).
  destruct (is_full (zone_at w i)); rewrite ?Hl; cbn [mret M_ret]; (case_match; [rewrite (proj2 (Z.leb_gt _ _)) by lia|]; apply IH; lia).
Qed.

(** C35. The sampling profiler on a well-formed heap without zones of 64 KiB chunks: both
    hooks return when the chain of frame pointers can be followed to its end or over eight
    levels, and otherwise can only fault on it; they never hold more than 128 allocation or
    free traces, nor two for the same hash. *)
Theorem profiler_traces_bounded st size p w : heap_inv w →
  (∀ j, 0 <= j < zones_used (w_root w) → chunk_size (zone_at w j) < SMALL_SIZE_MAX) →
  traces_ok (_alloc_bts p) → traces_ok (_free_bts p) →
  ((∃ p' w', _iso_alloc_profile st size p w = Ret p' w' ∧ traces_ok (_alloc_bts p') ∧ _free_bts p' = _free_bts p) ∨
   walkable st = false ∧ _iso_alloc_profile st size p w = Fault) ∧
  ((∃ p' w', _iso_free_profile st p w = Ret p' w' ∧ traces_ok (_free_bts p') ∧ _alloc_bts p' = _alloc_bts p) ∨
   walkable st = false ∧ _iso_free_profile st p w = Fault).
Proof.
  intros Hw Hs Ha Hf. pose proof (hv_root w Hw) as Hr. destruct (us_rand_run w Hr) as (s & v & Hrand).
  pose proof (heap_inv_seed s w Hw) as Hw1. split.
  - unfold _iso_alloc_profile, mbind, M_bind. rewrite Hrand. destruct (negb _); [left; by eexists _, _|].
    unfold root. change (w_root_null _) with (w_root_null w). rewrite Hr.
    match goal with |- context [profile_zones ?n 0 ?m ?W] => destruct (profile_zones_run n 0 m W Hw1) as (m' & ->) end;
      [done|lia|pose proof (hv_used w Hw); simpl; lia|]. cbn [_alloc_bts].
    destruct (record_trace_ok (bump size) st (_alloc_bts p) (set_w_root (set_seed s (w_root w)) w)) as [(l & -> & Hl)|[Hn ->]]; [done|done| |by right].
    left. by eexists _, _.
  - unfold _iso_free_profile, mbind, M_bind. rewrite Hrand. destruct (negb _); [left; by eexists _, _|]. cbn [_free_bts].
    match goal with |- context [record_trace bump_free st _ ?W] => destruct (record_trace_ok bump_free st (_free_bts p) W) as [(l & -> & Hl)|[Hn ->]] end; [done|done| |by right].
    left. by eexists _, _.
Qed.
End theorems.
