(* ===== verification/Report.v ===== *)
(** * The profile

    The report of src/iso_alloc_profiler.c ([HEAP_PROFILER]): [_iso_output_profile] counts the
    zones by chunk size and prints the counters, the allocation and free traces with the
    symbols of their callers, and a line for every chunk size that was nearly exhausted.
    [dladdr] is an argument and may fail; what is written to the descriptor is a value. *)

From stdpp Require Import strings.
From S2P Require Import Prelude Words Printf Conf Memory State Heap Profiler.

Definition chars (s : String.string) : list Z := (λ a, Z.of_N (Ascii.N_of_ascii a)) <$> String.list_ascii_of_string s.
Definition TAB : Z := 9.

Record dl_info := mk_dl { dli_sname : option (list Z); dli_fname : option (list Z) }.

(** A call of [_iso_alloc_printf]: its format and its arguments; or a use of the
    uninitialised [Dl_info] that a failing [dladdr] leaves behind. *)
Inductive call := Printf (f : list Z) (args : list varg) | Uninitialised.

Section calls.
Variable dladdr : Z → option dl_info.

(** The body of the loops over [callers]. *)
Definition caller_calls (c : Z) : list call :=
  if c <? 0x1000 then [] else
  match dladdr c with
  | None => [Uninitialised]
  | Some dl =>
      match dli_sname dl with
      | Some s => [Printf (TAB :: chars "0x%x -> %s %s" ++ [NEWLINE]) [AInt c; AStr (Some s); AStr (dli_fname dl)]]
      | None => [Printf (TAB :: chars "0x%x -> [?]" ++ [NEWLINE]) [AInt c]]
      end
  end.

Fixpoint alloc_calls (i : Z) (bts : list trace) : list call :=
  match bts with
  | [] => []
  | t :: bts' =>
      Printf (chars "alloc_backtrace=%d,backtrace_hash=0x%x,calls=%d,lower_bound_size=%d,upper_bound_size=%d" ++ [NEWLINE])
        [AInt i; AInt (backtrace_hash t); AInt (call_count t); AInt (lower_bound_size t); AInt (upper_bound_size t)]
      :: (callers t ≫= caller_calls) ++ alloc_calls (i + 1) bts'
  end.

Fixpoint free_calls (i : Z) (bts : list trace) : list call :=
  match bts with
  | [] => []
  | t :: bts' =>
      Printf (chars "free_backtrace=%d,backtrace_hash=0x%x,calls=%d" ++ [NEWLINE]) [AInt i; AInt (backtrace_hash t); AInt (call_count t)]
      :: (callers t ≫= caller_calls) ++ free_calls (i + 1) bts'
  end.

(** The loop over all chunk sizes; [counts] is [_zone_profiler_map[i].count]. *)
Definition size_calls (totals counts : gmap Z Z) : list call :=
  seqZ 0 SMALL_SIZE_MAX ≫= λ i,
    if default 0 (counts !! i) =? 0 then []
    else [Printf (chars "%d,%d,%d" ++ [NEWLINE]) [AInt i; AInt (default 0 (totals !! i)); AInt (default 0 (counts !! i))]].

Definition profile_calls (p : prof) (totals : gmap Z Z) : list call :=
  [Printf (chars "allocated=%d" ++ [NEWLINE]) [AInt (_alloc_count p)];
   Printf (chars "alloc_sampled=%d" ++ [NEWLINE]) [AInt (_alloc_sampled_count p)];
   Printf (chars "freed=%d" ++ [NEWLINE]) [AInt (_free_count p)];
   Printf (chars "free_sampled=%d" ++ [NEWLINE]) [AInt (_free_sampled_count p)]] ++
  alloc_calls 0 (_alloc_bts p) ++ free_calls 0 (_free_bts p) ++ size_calls totals (_zone_profiler_map p).

(** The calls one after the other. *)
Fixpoint print_calls (cs : list call) : presult :=
  match cs with
  | [] => POut []
  | Uninitialised :: _ => PUndef
  | Printf f args :: cs' =>
      match _iso_alloc_printf (Some f) args with
      | POut a => match print_calls cs' with POut b => POut (a ++ b) | r => r end
      | r => r
      end
  end.

Section model.
Context `{!Kernel, !Config}.

(** [_zone_profiler_map[zone->chunk_size].total++]; the array has [SMALL_SIZE_MAX] entries. *)
Fixpoint count_totals (n : nat) (i : Z) (totals : gmap Z Z) : M (gmap Z Z) :=
  match n with
  | O => mret totals
  | S n' =>
      z ← zget i;
      if SMALL_SIZE_MAX <=? chunk_size z then undef else
      count_totals n' (i + 1) (<[chunk_size z := u64 (default 0 (totals !! chunk_size z) + 1)]> totals)
  end.

(** The report, the totals it leaves behind and [profiler_fd]. *)
Definition _iso_output_profile (p : prof) (totals : gmap Z Z) : M (presult * gmap Z Z * Z) :=
  r ← root;
  totals ← count_totals (Z.to_nat (zones_used r)) 0 totals;
  mret (print_calls (profile_calls p totals), totals, -1).

(** [env] and [default_file] are what open answers for the two paths; [env] is [None] when the
    variable is not set. *)
Definition _initialize_profiler (env : option Z) (default_file : Z) : M Z :=
  let profiler_fd := match env with Some fd => fd | None => default_file end in
  if profiler_fd =? -1 then abort ProfilerOpen else mret profiler_fd.
End model.

(** ** The report as it is meant *)

Definition caller_message (c : Z) : list message :=
  if c <? 0x1000 then [] else
  match dladdr c ≫= dli_sname with
  | Some s => [([(TAB :: chars "0x", IHex c); (chars " -> ", IStr s); (chars " ", IStr (default [] (dladdr c ≫= dli_fname)))], [])]
  | None => [([(TAB :: chars "0x", IHex c)], chars " -> [?]")]
  end.

Definition alloc_message (i : Z) (t : trace) : message :=
  ([(chars "alloc_backtrace=", IDec i); (chars ",backtrace_hash=0x", IHex (backtrace_hash t)); (chars ",calls=", IDec (call_count t));
    (chars ",lower_bound_size=", IDec (lower_bound_size t)); (chars ",upper_bound_size=", IDec (upper_bound_size t))], []).
Definition free_message (i : Z) (t : trace) : message :=
  ([(chars "free_backtrace=", IDec i); (chars ",backtrace_hash=0x", IHex (backtrace_hash t)); (chars ",calls=", IDec (call_count t))], []).

(** One line per trace, followed by its callers. *)
Definition trace_messages (line : Z → trace → message) (bts : list trace) : list message :=
  concat (imap (λ i t, line (Z.of_nat i) t :: (callers t ≫= caller_message)) bts).

Definition size_messages (totals counts : gmap Z Z) : list message :=
  (λ i, ([([], IDec i); ([44], IDec (default 0 (totals !! i))); ([44], IDec (default 0 (counts !! i)))], []))
    <$> List.filter (λ i, negb (default 0 (counts !! i) =? 0)) (seqZ 0 SMALL_SIZE_MAX).

Definition report (p : prof) (totals : gmap Z Z) : list message :=
  [([(chars "allocated=", IDec (_alloc_count p))], []); ([(chars "alloc_sampled=", IDec (_alloc_sampled_count p))], []);
   ([(chars "freed=", IDec (_free_count p))], []); ([(chars "free_sampled=", IDec (_free_sampled_count p))], [])] ++
  trace_messages alloc_message (_alloc_bts p) ++ trace_messages free_message (_free_bts p) ++ size_messages totals (_zone_profiler_map p).

(** What [dladdr] answers for the recorded callers: it does not fail, a symbol comes with its
    file, and both fit a line. *)
Definition names_ok (bts : list trace) : Prop := ∀ t c, t ∈ bts → c ∈ callers t → 0x1000 <= c →
  ∃ dl, dladdr c = Some dl ∧ ∀ s, dli_sname dl = Some s → ∃ f, dli_fname dl = Some f ∧ Z.of_nat (length s + length f) <= 65000.

(** ** The calls print the report *)

Definition message_call (g : message) : call := Printf (message_format g) (message_args g).

Lemma fmap_bind_calls {A} (f : A → list call) (g : A → list message) l : (∀ x, x ∈ l → f x = message_call <$> g x) → l ≫= f = message_call <$> (l ≫= g).
Proof.
  induction l as [|x l IH]; intros Hf; [done|]. cbn [mbind list_bind]. rewrite Hf, fmap_app by set_solver. f_equal. apply IH. set_solver.
Qed.

Lemma names_cons t bts : names_ok (t :: bts) → names_ok bts.
Proof. intros Hn u c Hu. apply Hn. set_solver. Qed.

Lemma caller_calls_messages t bts c : names_ok (t :: bts) → c ∈ callers t → caller_calls c = message_call <$> caller_message c.
Proof.
  intros Hn Hc. unfold caller_calls, caller_message. destruct (Z.ltb_spec c 0x1000); [done|].
  destruct (Hn t c) as (dl & -> & Hs); [set_solver|done|lia|]. cbn [mbind option_bind]. destruct (dli_sname dl) as [s|]; [|done].
  by destruct (Hs s eq_refl) as (f & -> & _).
Qed.

(** Both loops over traces have this shape. *)
Lemma trace_calls (calls : Z → list trace → list call) (line : Z → trace → message) :
  (∀ i, calls i [] = []) →
  (∀ i t bts, calls i (t :: bts) = message_call (line i t) :: (callers t ≫= caller_calls) ++ calls (i + 1) bts) →
  ∀ bts i, names_ok bts → calls i bts = message_call <$> concat (imap (λ j t, line (i + Z.of_nat j) t :: (callers t ≫= caller_message)) bts).
Proof.
  intros Hnil Hcons. induction bts as [|t bts IH]; intros i Hn; [by rewrite Hnil|].
  rewrite Hcons, imap_cons, IH by (by eapply names_cons). cbn [concat]. rewrite fmap_app, fmap_cons, Z.add_0_r.
  rewrite (fmap_bind_calls _ caller_message) by (intros c Hc; by eapply caller_calls_messages). cbn [app]. do 4 f_equal.
  apply imap_ext. intros j u _. cbn [compose]. by rewrite Nat2Z.inj_succ, <-Z.add_1_l, Z.add_assoc.
Qed.

Lemma size_calls_messages totals counts : size_calls totals counts = message_call <$> size_messages totals counts.
Proof.
  unfold size_calls, size_messages. induction (seqZ 0 SMALL_SIZE_MAX) as [|i l IH]; [done|].
  cbn [mbind list_bind List.filter]. rewrite IH. by destruct (default 0 (counts !! i) =? 0).
Qed.

Lemma profile_calls_report p totals : names_ok (_alloc_bts p) → names_ok (_free_bts p) → profile_calls p totals = message_call <$> report p totals.
Proof.
  intros Ha Hf. unfold profile_calls, report, trace_messages. rewrite !fmap_app, size_calls_messages.
  rewrite (trace_calls alloc_calls alloc_message), (trace_calls free_calls free_message) by done. done.
Qed.

(** ** Every line fits *)

Definition item_bound (x : item) : nat := match x with IStr s => length s | _ => 20 end.
Definition message_bound (g : message) : nat := (sum_list ((λ x, length x.1 + item_bound x.2) <$> g.1) + length g.2 + 1)%nat.

Lemma item_text_bound x : (length (item_text x) <= item_bound x)%nat.
Proof.
  assert (Hf : ∀ v base, is_u64 v → base = 10 ∨ base = 16 → (length (numeral base v) <= 20)%nat)
    by (intros v base Hv Hb; destruct (fmt_spec v base Hb Hv) as (_ & [_ ?] & _); by rewrite <-fmt_numeral).
  destruct x; simpl; [apply Hf; auto using u64_range, u32_u64..|done].
Qed.

Lemma message_text_bound g : (length (message_text g) <= message_bound g)%nat.
Proof.
  destruct g as [ps last]. unfold message_text, message_bound. cbn [fst snd]. rewrite !length_app. cbn [length].
  enough (length (concat ((λ x, x.1 ++ item_text x.2) <$> ps)) <= sum_list ((λ x, length x.1 + item_bound x.2) <$> ps))%nat by lia.
  induction ps as [|[t x] ps IH]; [done|]. rewrite !fmap_cons. cbn [concat fst snd]. rewrite !length_app.
  cbn [sum_list]. pose proof (item_text_bound x). simpl in *. lia.
Qed.

Definition message_ok (g : message) : Prop :=
  Forall (λ x, is_text x.1) g.1 ∧ is_text g.2 ∧ Z.of_nat (message_bound g) < OUT_SIZE.

Lemma print_messages gs : Forall message_ok gs → print_calls (message_call <$> gs) = POut (concat (message_text <$> gs)).
Proof.
  induction 1 as [|g gs (A1 & A2 & A3) _ IH]; [done|]. rewrite !fmap_cons. cbn [print_calls concat message_call].
  rewrite printf_run, IH; [done..|]. pose proof (message_text_bound g). lia.
Qed.

(** The literal texts and lengths are computed. *)
Lemma is_text_compute t : forallb (λ c, negb (c =? 0) && (negb (c =? PERCENT) && negb (c =? NEWLINE))) t = true → is_text t.
Proof.
  intros Ht. apply Forall_forall. intros c Hc. rewrite forallb_forall in Ht. specialize (Ht c Hc).
  rewrite !andb_true_iff, !negb_true_iff, !Z.eqb_neq in Ht. tauto.
Qed.

Ltac solve_message :=
  split; [cbn [fst]; repeat (apply list.Forall_cons_2; [apply is_text_compute; reflexivity|]); apply list.Forall_nil_2|split; [apply is_text_compute; reflexivity|unfold OUT_SIZE; cbn; lia]].

Lemma caller_messages_ok t bts c : names_ok bts → t ∈ bts → c ∈ callers t → Forall message_ok (caller_message c).
Proof.
  intros Hn Ht Hc. unfold caller_message. destruct (Z.ltb_spec c 0x1000); [constructor|].
  destruct (Hn t c Ht Hc) as (dl & -> & Hs); [lia|]. cbn [mbind option_bind].
  destruct (dli_sname dl) as [s|]; apply list.Forall_singleton; [|solve_message].
  destruct (Hs s eq_refl) as (f & -> & Hl). solve_message.
Qed.

Lemma trace_messages_ok line bts : names_ok bts → (∀ i t, message_ok (line i t)) → Forall message_ok (trace_messages line bts).
Proof.
  intros Hn Hl. unfold trace_messages. apply Forall_concat, list.Forall_forall. intros gs (i & t & -> & Hi)%elem_of_lookup_imap.
  constructor; [apply Hl|]. apply Forall_bind, list.Forall_forall. intros c Hc. eapply caller_messages_ok; [done|by eapply list_elem_of_lookup_2|done].
Qed.

Lemma report_ok p totals : names_ok (_alloc_bts p) → names_ok (_free_bts p) → Forall message_ok (report p totals).
Proof.
  intros Ha Hf. unfold report. repeat apply list.Forall_app_2.
  - repeat (constructor; [solve_message|]). constructor.
  - apply trace_messages_ok; [done|]. intros i t. solve_message.
  - apply trace_messages_ok; [done|]. intros i t. solve_message.
  - unfold size_messages. apply Forall_fmap, list.Forall_forall. intros i _. solve_message.
Qed.
End calls.

Section theorems.
Context `{!Kernel, !KernelLaws, !Config}.

(** ** Zones by chunk size *)

Definition zones_of_size (w : world) (lo n s : Z) : Z := countb (λ j, chunk_size (zone_at w j) =? s) (seqZ lo n).

Lemma count_totals_run w n i totals : 0 <= i →
  (∀ j, i <= j < i + Z.of_nat n → chunk_size (zone_at w j) < SMALL_SIZE_MAX) →
  (∀ s, 0 <= default 0 (totals !! s) <= 2 ^ 32 - Z.of_nat n) →
  ∃ totals', count_totals n i totals w = Ret totals' w ∧
    ∀ s, default 0 (totals' !! s) = default 0 (totals !! s) + zones_of_size w i (Z.of_nat n) s.
Proof.
  revert i totals. induction n as [|n IH]; intros i totals Hi Hs Ht.
  { exists totals. split; [done|]. intros s. unfold zones_of_size, countb. simpl. lia. }
  cbn [count_totals]. unfold mbind, M_bind, zget. rewrite (proj2 (Z.leb_gt _ _)) by (apply Hs; lia).
  set (z := zone_at w i). set (totals1 := <[chunk_size z := _]> totals).
  assert (Hins : ∀ s, default 0 (totals1 !! s) = default 0 (totals !! s) + Z.b2z (chunk_size z =? s)).
  { intros s. unfold totals1. destruct (Z.eqb_spec (chunk_size z) s) as [<-|Hne]; simplify_map_eq; simpl; [|lia].
    apply u64_small. specialize (Ht (chunk_size z)). unfold is_u64. lia. }
  destruct (IH (i + 1) totals1) as (totals' & Hrun & Htot); [lia|intros j Hj; apply Hs; lia| |].
  { intros s. rewrite Hins. specialize (Ht s). destruct (chunk_size z =? s); simpl; lia. }
  exists totals'. split; [exact Hrun|]. intros s. rewrite Htot, Hins. unfold zones_of_size.
  rewrite (seqZ_cons i) by lia. rewrite countb_cons. fold z. replace (Z.pred (Z.of_nat (S n))) with (Z.of_nat n) by lia.
  replace (Z.succ i) with (i + 1) by lia. lia.
Qed.

(** C36. On a heap without zones of 64 KiB chunks, and when [dladdr] finds every recorded
    caller and names that fit a line, the report of the profiler is complete: every [printf] of
    it prints its whole line; there is a line for each counter, each trace with its callers and
    each chunk size that was seen nearly exhausted, the latter with the totals of zones of that
    size, to which the call adds the present number of such zones. Nothing of the heap
    changes. Numbers are printed with [%d], that is with 32 bits. *)
Theorem output_profile_correct dladdr p totals w : heap_inv w → names_ok dladdr (_alloc_bts p) → names_ok dladdr (_free_bts p) →
  (∀ j, 0 <= j < zones_used (w_root w) → chunk_size (zone_at w j) < SMALL_SIZE_MAX) →
  (∀ s, 0 <= default 0 (totals !! s) < 2 ^ 31) →
  ∃ totals', _iso_output_profile dladdr p totals w = Ret (POut (concat (message_text <$> report dladdr p totals')), totals', -1) w ∧
    ∀ s, default 0 (totals' !! s) = default 0 (totals !! s) + zones_of_size w 0 (zones_used (w_root w)) s.
Proof.
  intros Hw Ha Hf Hs Ht. pose proof (hv_used w Hw) as Hu. pose proof (hv_root w Hw) as Hr.
  destruct (count_totals_run w (Z.to_nat (zones_used (w_root w))) 0 totals) as (totals' & Hrun & Htot); [lia|intros j Hj; apply Hs; lia| |].
  { intros s. specialize (Ht s). clia. }
  exists totals'. split.
  - unfold _iso_output_profile, mbind, M_bind, root. rewrite Hr, Hrun, profile_calls_report, print_messages; [done|by apply report_ok|done..].
  - intros s. rewrite Htot, Z2Nat.id by lia. done.
Qed.
End theorems.
