(* ===== verification/MemTags.v ===== *)
(** * Software memory tags

    src/iso_alloc_mem_tags.c, the build with [MEMORY_TAGGING]; without it tagging and
    untagging are the identity. Tagging and untagging a chunk of a zone with
    power-of-two chunks are inverse; verification of a correctly tagged pointer fails
    for every tag but 0. *)

From S2P Require Import Prelude Words Conf Memory State Util ZoneBits FreeList Chunks Zones.

Section model.
Context `{!Kernel, !Config}.

(** The address of the first tag of a zone. *)
Definition tag_page (w : world) (z : iso_alloc_zone_t) : Z :=
  UNMASK_USER_PTR z - w_page_size w - page_len w (u32 (chunk_count z * MEM_TAG_SIZE)).

Definition _iso_alloc_get_mem_tag (p zi : Z) : M Z :=
  if negb MEMORY_TAGGING then mret 0 else
  z ← zget zi;
  w ← get;
  let start := UNMASK_USER_PTR z in
  if (p <? start) || (start + ZONE_USER_SIZE <? p) then abort TagWrongZone else
  let chunk_offset := u64 (p - start) in
  if negb (Z.land chunk_offset (u32 (chunk_size z - 1)) =? 0) then abort TagMisaligned else
  rd8 (tag_page w z + chunk_offset / chunk_size z).

Definition _iso_alloc_verify_tag (p : Z) (zone : option Z) : M unit :=
  if negb MEMORY_TAGGING then mret tt else
  match zone with
  | None => mret tt
  | Some zi =>
      if p =? 0 then mret tt else
      tag ← _iso_alloc_get_mem_tag (Z.land p TAGGED_PTR_MASK) zi;
      if negb (tag =? Z.land p IS_TAGGED_PTR_MASK) then abort TagMismatch else mret tt
  end.

Definition _tag_ptr (p : Z) (zone : option Z) : M Z :=
  if negb MEMORY_TAGGING then mret p else
  match zone with
  | None => mret 0
  | Some zi =>
      if p =? 0 then mret 0 else
      tag ← _iso_alloc_get_mem_tag p zi;
      mret (Z.lor (Z.shiftl tag UNTAGGED_BITS) p)
  end.

Definition _untag_ptr (p : Z) (zone : option Z) : M Z :=
  if negb MEMORY_TAGGING then mret p else
  match zone with
  | None => mret 0
  | Some zi =>
      if p =? 0 then mret 0 else
      tag ← _iso_alloc_get_mem_tag (Z.land p TAGGED_PTR_MASK) zi;
      mret (Z.lxor (Z.shiftl tag UNTAGGED_BITS) p)
  end.

(** The condition is [UNLIKELY(c) >> 2], and [UNLIKELY] answers 0 or 1. *)
Definition _refresh_zone_mem_tags (zi : Z) : M bool :=
  if negb MEMORY_TAGGING then mret false else
  z ← zget zi;
  r ← root;
  w ← get;
  let c := (af_count z =? 0) && (u32 (Z.shiftl (chunk_count z) (zone_retirement_shf r)) <? alloc_count z) in
  if negb (Z.shiftr (Z.b2z c) 2 =? 0) then
    let s := page_len w (u32 (chunk_count z * MEM_TAG_SIZE)) in
    write_tags (Z.to_nat (s / 8)) (user_pages_start z - w_page_size w - s);;
    mret true
  else mret false.
End model.

(** ** Correctness *)

Section theorems.
Context `{!Kernel, !Config}.

(** A tag read: the byte of the chunk, when chunk sizes are powers of two. *)
Lemma get_mem_tag_eq zi c w k :
  let z := zone_at w zi in
  let U := UNMASK_USER_PTR z in
  MEMORY_TAGGING = true → zone_geom z → chunk_size z = 2 ^ k → 0 <= k → 0 <= U → U + ZONE_USER_SIZE <= 2 ^ 47 →
  0 <= c < chunk_count z → vm_prot (w_vm w) (tag_page w z + c) = Some PROT_RW →
  _iso_alloc_get_mem_tag (U + c * chunk_size z) zi w = Ret (ld8 (w_mem w) (tag_page w z + c)) w.
Proof.
  intros z U Ht Hg Hk Hk0 HU HU2 Hc Hv. pose proof (zone_chunk_count z Hg) as [_ Hcc]. destruct Hg as [Hs _ _ _ _].
  unfold _iso_alloc_get_mem_tag, mbind, M_bind. rewrite Ht. cbn [negb]. unfold zget, get. fold z U.
  assert (c * chunk_size z <= ZONE_USER_SIZE) by nia.
  rewrite (proj2 (Z.ltb_ge _ _)), (proj2 (Z.ltb_ge (U + ZONE_USER_SIZE) _)) by lia. cbn [orb].
  replace (U + c * chunk_size z - U) with (c * chunk_size z) by lia.
  rewrite u64_small by (unfold is_u64; nia). rewrite u32_small by lia.
  replace (chunk_size z - 1) with (Z.ones k) by (rewrite Hk, Z.ones_equiv; lia).
  rewrite Z.land_ones, <-Hk, Z.mod_mul, Z.div_mul by lia. cbn [Z.eqb negb]. unfold rd8, can_access.
  replace (tag_page w z + c + 1 - 1) with (tag_page w z + c) by lia. by rewrite Hv.
Qed.

Lemma land_tag_mask p t : 0 <= p < 2 ^ 56 → 0 <= t → Z.land (Z.lor (Z.shiftl t 56) p) TAGGED_PTR_MASK = p.
Proof.
  intros Hp Ht. change TAGGED_PTR_MASK with (Z.ones 56). apply Z.bits_inj'. intros i Hi.
  rewrite Z.land_spec, Z.lor_spec. destruct (Z.lt_ge_cases i 56).
  - rewrite Z.shiftl_spec_low, Z.ones_spec_low by lia. by rewrite andb_true_r.
  - rewrite Z.ones_spec_high, andb_false_r by lia. symmetry. by apply (Z_testbit_above p 56).
Qed.

Lemma lxor_tag p t : 0 <= p < 2 ^ 56 → 0 <= t → Z.lxor (Z.shiftl t 56) (Z.lor (Z.shiftl t 56) p) = p.
Proof.
  intros Hp Ht. apply Z.bits_inj'. intros i Hi. rewrite Z.lxor_spec, Z.lor_spec.
  destruct (Z.lt_ge_cases i 56).
  - by rewrite Z.shiftl_spec_low by lia.
  - rewrite (Z_testbit_above p 56) by lia. by destruct (Z.testbit _ i).
Qed.

(** What the three theorems below assume of a chunk of a tagged zone. *)
Record taggable (w : world) (zi c k : Z) : Prop := {
  tg_on : MEMORY_TAGGING = true;
  tg_geom : zone_geom (zone_at w zi);
  tg_pow : chunk_size (zone_at w zi) = 2 ^ k ∧ 0 <= k;
  tg_user : 0 < UNMASK_USER_PTR (zone_at w zi) ∧ UNMASK_USER_PTR (zone_at w zi) + ZONE_USER_SIZE <= 2 ^ 47;
  tg_chunk : 0 <= c < chunk_count (zone_at w zi);
  tg_page : vm_prot (w_vm w) (tag_page w (zone_at w zi) + c) = Some PROT_RW;
}.

(** C38. Tagging and untagging a chunk are inverse to each other, and neither changes the
    state. *)
Theorem tag_untag_roundtrip zi c k w :
  taggable w zi c k →
  let p := chunk_addr (UNMASK_USER_PTR (zone_at w zi)) (zone_at w zi) c in
  (q ← _tag_ptr p (Some zi); _untag_ptr q (Some zi)) w = Ret p w.
Proof.
  intros [Ht Hg [Hk Hk0] [HU HU2] Hc Hv] p. unfold _tag_ptr, _untag_ptr, mbind, M_bind. rewrite Ht. cbn [negb].
  pose proof (zone_chunk_count _ Hg) as [_ Hcc]. pose proof (zg_size _ Hg). autounfold with conf in HU2, Hcc.
  assert (Hp : 0 < p < 2 ^ 56) by (unfold p, chunk_addr; nia).
  rewrite (proj2 (Z.eqb_neq p 0)) by lia. unfold p, chunk_addr.
  rewrite (get_mem_tag_eq zi c w k) by (try done; lia). fold (chunk_addr (UNMASK_USER_PTR (zone_at w zi)) (zone_at w zi) c). fold p.
  set (t := ld8 _ _). pose proof (ld8_range (w_mem w) (tag_page w (zone_at w zi) + c)).
  change UNTAGGED_BITS with 56. cbn [mret M_ret].
  assert (0 <= Z.lor (Z.shiftl t 56) p) by (apply Z.lor_nonneg; split; [apply Z.shiftl_nonneg; lia|lia]).
  destruct (Z.eqb_spec (Z.lor (Z.shiftl t 56) p) 0) as [Hz|_].
  { apply Z.lor_eq_0_iff in Hz as [_ Hz]. lia. }
  rewrite land_tag_mask by lia. unfold p at 1, chunk_addr.
  rewrite (get_mem_tag_eq zi c w k) by (try done; lia). fold t. by rewrite lxor_tag by lia.
Qed.

(** Verification of the pointer [_tag_ptr] made aborts for every tag but 0: the tag is
    compared with the unshifted top byte of the pointer. *)
Theorem verify_tag_rejects_valid_tag zi c k w :
  taggable w zi c k →
  let p := chunk_addr (UNMASK_USER_PTR (zone_at w zi)) (zone_at w zi) c in
  ld8 (w_mem w) (tag_page w (zone_at w zi) + c) ≠ 0 →
  (q ← _tag_ptr p (Some zi); _iso_alloc_verify_tag q (Some zi)) w = Abort TagMismatch.
Proof.
  intros [Ht Hg [Hk Hk0] [HU HU2] Hc Hv] p Hnz. unfold _tag_ptr, _iso_alloc_verify_tag, mbind, M_bind. rewrite Ht. cbn [negb].
  pose proof (zone_chunk_count _ Hg) as [_ Hcc]. pose proof (zg_size _ Hg). autounfold with conf in HU2, Hcc.
  assert (Hp : 0 < p < 2 ^ 56) by (unfold p, chunk_addr; nia).
  rewrite (proj2 (Z.eqb_neq p 0)) by lia. unfold p, chunk_addr.
  rewrite (get_mem_tag_eq zi c w k) by (try done; lia). fold (chunk_addr (UNMASK_USER_PTR (zone_at w zi)) (zone_at w zi) c). fold p.
  set (t := ld8 _ _) in *. pose proof (ld8_range (w_mem w) (tag_page w (zone_at w zi) + c) : 0 <= t < 256).
  change UNTAGGED_BITS with 56. cbn [mret M_ret].
  destruct (Z.eqb_spec (Z.lor (Z.shiftl t 56) p) 0) as [Hz|_].
  { apply Z.lor_eq_0_iff in Hz as [_ Hz]. lia. }
  rewrite land_tag_mask by lia. unfold p at 1, chunk_addr.
  rewrite (get_mem_tag_eq zi c w k) by (try done; lia). fold t.
  destruct (Z.eqb_spec t (Z.land (Z.lor (Z.shiftl t 56) p) IS_TAGGED_PTR_MASK)) as [Heq|]; [|done].
  exfalso. apply Hnz, Z.bits_inj'. intros i Hi. rewrite Z.testbit_0_l. destruct (Z.lt_ge_cases i 56).
  - rewrite Heq, Z.land_spec. change IS_TAGGED_PTR_MASK with (Z.shiftl 255 56).
    by rewrite (Z.shiftl_spec_low 255) by lia; rewrite andb_false_r.
  - apply (Z_testbit_above t 8); lia.
Qed.

(** The refresh of all tags of a zone never happens: the shift by two is applied to the
    value of the comparison. *)
Theorem refresh_never_happens zi w :
  w_root_null w = false → _refresh_zone_mem_tags zi w = Ret false w.
Proof.
  intros Hr. unfold _refresh_zone_mem_tags, mbind, M_bind, root. destruct MEMORY_TAGGING; [|done]. cbn [negb].
  unfold zget, get. rewrite Hr. by destruct (_ && _).
Qed.
End theorems.
