(* ===== verification/Mte.v ===== *)
(** * The ARM memory tagging extension

    src/iso_alloc_mte.c: tags of four bits in the pointers and on every granule of 16 bytes,
    and the new tag [_iso_free] gives the first granule of a chunk ([ARM_MTE == 1]). The
    three instructions of the inline assembly are modelled after the architecture: [IRG]
    picks a tag that is not excluded (the choice is the field [irg_choice] of the class
    [TagUnit]), [STG] writes the tag of a granule and [LDG] reads it. The tags of the memory
    mapped with PROT_MTE are the map [granule_tag]; [Untagged] stands for any other memory. *)

From S2P Require Import Prelude Words Conf.

Definition MTE_GRANULE : Z := 16.
Definition HWCAP2_MTE : Z := Z.shiftl 1 18.
Definition INT_MAX : Z := 2147483647.

(** The random choice of the [n]-th [IRG] among the tags that [mask] does not exclude. *)
Class TagUnit := {
  irg_choice : nat → Z → Z;
  irg_choice_ok n mask : (∃ t, 0 <= t < 16 ∧ Z.testbit mask t = false) →
    0 <= irg_choice n mask < 16 ∧ Z.testbit mask (irg_choice n mask) = false;
}.

Record tags := mk_tags { granule_tag : gmap Z Z; irg_count : nat }.

Inductive tagging (A : Type) :=
  | Tagged (a : A) (t : tags)
  | Misaligned
  | Untagged
  | IntOverflow
  | TagNoFuel.
Arguments Tagged {A} a t.
Arguments Misaligned {A}.
Arguments Untagged {A}.
Arguments IntOverflow {A}.
Arguments TagNoFuel {A}.

Definition T (A : Type) : Type := tags → tagging A.
#[export] Instance T_ret : MRet T := λ _ a t, Tagged a t.
#[export] Instance T_bind : MBind T := λ _ _ f m t,
  match m t with
  | Tagged a t' => f a t'
  | Misaligned => Misaligned
  | Untagged => Untagged
  | IntOverflow => IntOverflow
  | TagNoFuel => TagNoFuel
  end.

Definition int_overflow {A} : T A := λ _, IntOverflow.
Definition tag_nofuel {A} : T A := λ _, TagNoFuel.

(** ** Pointers *)

Definition iso_mte_untag_ptr (p : Z) : Z := Z.land p (Z.shiftl 1 UNTAGGED_BITS - 1).
Definition iso_mte_extract_tag (p : Z) : Z := u8 (Z.land (Z.shiftr p UNTAGGED_BITS) 0xf).
Definition iso_is_mte_supported (hwcap2 : Z) : bool := negb (Z.land hwcap2 HWCAP2_MTE =? 0).

(** Bits 59 to 56 of [p] replaced by [t]. *)
Definition with_tag (p t : Z) : Z := p + (t - p / 2 ^ 56 mod 16) * 2 ^ 56.

(** ** The instructions *)

Section model.
Context `{!TagUnit}.

Definition irg (p mask : Z) : T Z := λ t,
  let mask := Z.land mask 0xffff in
  Tagged (with_tag p (if mask =? 0xffff then 0 else irg_choice (irg_count t) mask))
         (mk_tags (granule_tag t) (S (irg_count t))).

(** The top byte of the address is ignored. *)
Definition stg (p : Z) : T unit := λ t,
  let a := p mod 2 ^ 56 in
  if negb (a mod 16 =? 0) then Misaligned else
  match granule_tag t !! (a / 16) with
  | Some _ => Tagged tt (mk_tags (<[a / 16 := p / 2 ^ 56 mod 16]> (granule_tag t)) (irg_count t))
  | None => Untagged
  end.

Definition ldg (p : Z) : T Z := λ t,
  match granule_tag t !! (p mod 2 ^ 56 / 16) with
  | Some g => Tagged (with_tag p g) t
  | None => Untagged
  end.

(** ** The functions *)

Definition iso_mte_create_tag (p exclusion_mask : Z) : T Z := irg p (Z.lor exclusion_mask 1).
Definition iso_mte_set_tag (p : Z) : T unit := stg p.
Definition iso_mte_get_tag (p : Z) : T Z := ldg p.

(** The loop's counter is an [int]. *)
Fixpoint tag_loop (fuel : nat) (tagged_ptr i size : Z) : T unit :=
  match fuel with
  | O => tag_nofuel
  | S fuel' =>
      if i <? size then
        iso_mte_set_tag (u64 (tagged_ptr + i));;
        if INT_MAX <? i + MTE_GRANULE then int_overflow
        else tag_loop fuel' tagged_ptr (i + MTE_GRANULE) size
      else mret tt
  end.

Definition iso_mte_set_tag_range (p size : Z) : T Z :=
  tagged_ptr ← iso_mte_create_tag (iso_mte_untag_ptr p) 0;
  tag_loop (S (Z.to_nat (size / 16 + 1))) tagged_ptr 0 size;;
  mret tagged_ptr.

(** What [_iso_free] does first with the pointer. *)
Definition retag_on_free (p : Z) : T Z :=
  p ← iso_mte_create_tag p (Z.shiftl 1 (iso_mte_extract_tag p));
  iso_mte_set_tag p;;
  mret p.
End model.

(** Whether the processor lets a load or store through [p] pass. *)
Definition access_ok (t : tags) (p : Z) : bool :=
  bool_decide (granule_tag t !! (p mod 2 ^ 56 / 16) = Some (p / 2 ^ 56 mod 16)).

(** ** Pointers with and without a tag *)

Lemma untag_spec p : iso_mte_untag_ptr p = p mod 2 ^ 56.
Proof. unfold iso_mte_untag_ptr, UNTAGGED_BITS. rewrite <-(Z.land_ones p 56) by lia. done. Qed.

Lemma extract_tag_spec p : iso_mte_extract_tag p = p / 2 ^ 56 mod 16.
Proof.
  unfold iso_mte_extract_tag, UNTAGGED_BITS, u8. change 0xf with (Z.ones 4).
  rewrite Z.land_ones, Z.shiftr_div_pow2 by lia. change (2 ^ 4) with 16.
  apply Z.mod_small. pose proof (Z.mod_pos_bound (p / 2 ^ 56) 16). lia.
Qed.

(** [tagged_at a t] is the pointer to [a] with the tag [t] and nothing else in the top byte. *)
Definition tagged_at (a t : Z) : Z := a + t * 2 ^ 56.

Lemma tagged_at_fields a t : 0 <= a < 2 ^ 56 → 0 <= t < 16 →
  tagged_at a t mod 2 ^ 56 = a ∧ tagged_at a t / 2 ^ 56 mod 16 = t ∧ is_u64 (tagged_at a t).
Proof.
  intros Ha Ht. unfold tagged_at, is_u64.
  rewrite Z.mod_add, Z.div_add, Z.div_small, Z.add_0_l by lia.
  repeat split; [by apply Z.mod_small..|lia|lia].
Qed.

Lemma with_tag_at a t t' : 0 <= a < 2 ^ 56 → 0 <= t < 16 → with_tag (tagged_at a t) t' = tagged_at a t'.
Proof.
  intros Ha Ht. destruct (tagged_at_fields a t) as (_ & E & _); [done..|].
  unfold with_tag. rewrite E. unfold tagged_at. lia.
Qed.

Lemma untagged_at a : tagged_at a 0 = a.
Proof. unfold tagged_at. lia. Qed.

(** ** The instructions on such pointers *)

Section run.
Context `{!TagUnit}.

(** [mask] excludes the tag 0, but not all tags. *)
Lemma create_tag_run a t0 mask t : 0 <= a < 2 ^ 56 → 0 <= t0 < 16 →
  (∃ i, 0 < i < 16 ∧ Z.testbit mask i = false) →
  ∃ t1, 1 <= t1 < 16 ∧ Z.testbit mask t1 = false ∧
    iso_mte_create_tag (tagged_at a t0) mask t = Tagged (tagged_at a t1) (mk_tags (granule_tag t) (S (irg_count t))).
Proof.
  intros Ha Ht0 (i & Hi & Hm). unfold iso_mte_create_tag, irg.
  set (m := Z.land (Z.lor mask 1) 0xffff).
  assert (Hb : ∀ j, 0 <= j < 16 → Z.testbit m j = Z.testbit mask j || (j =? 0)).
  { intros j Hj. unfold m. change 0xffff with (Z.ones 16).
    rewrite Z.land_spec, Z.lor_spec, Z.ones_spec_low, andb_true_r by lia.
    by f_equal. }
  assert (Hfree : Z.testbit m i = false) by (rewrite Hb, Hm by lia; apply Z.eqb_neq; lia).
  destruct (irg_choice_ok (irg_count t) m) as [Hr Hc]; [exists i; split; [lia|done]|].
  rewrite Hb in Hc by lia. apply orb_false_iff in Hc as [Hc1 Hc2]. apply Z.eqb_neq in Hc2.
  exists (irg_choice (irg_count t) m). split; [lia|]. split; [done|].
  destruct (Z.eqb_spec m 0xffff) as [E|_].
  { rewrite E in Hfree. change 0xffff with (Z.ones 16) in Hfree. rewrite Z.ones_spec_low in Hfree by lia. done. }
  by rewrite with_tag_at.
Qed.

Lemma stg_run a g t : 0 <= a < 2 ^ 56 → a mod 16 = 0 → 0 <= g < 16 → is_Some (granule_tag t !! (a / 16)) →
  stg (tagged_at a g) t = Tagged tt (mk_tags (<[a / 16 := g]> (granule_tag t)) (irg_count t)).
Proof.
  intros Ha Hm Hg [x Hx]. destruct (tagged_at_fields a g) as (E1 & E2 & _); [done..|].
  unfold stg. rewrite E1, E2, Hm. simpl. by rewrite Hx.
Qed.

Lemma ldg_run a g0 g t : 0 <= a < 2 ^ 56 → 0 <= g0 < 16 → granule_tag t !! (a / 16) = Some g →
  ldg (tagged_at a g0) t = Tagged (tagged_at a g) t.
Proof.
  intros Ha Hg Hx. destruct (tagged_at_fields a g0) as (E1 & _ & _); [done..|].
  unfold ldg. rewrite E1, Hx. by rewrite with_tag_at.
Qed.

(** Every granule of [size] bytes at [a] is memory with tags. *)
Definition tagged_memory (t : tags) (a size : Z) : Prop :=
  ∀ g, a / 16 <= g < (a + size + 15) / 16 → is_Some (granule_tag t !! g).

(** What the loop leaves behind when it starts at [i]. *)
Definition range_tagged (t t' : tags) (a i size g : Z) : Prop :=
  irg_count t' = irg_count t ∧
  ∀ x, granule_tag t' !! x =
    if decide ((a + i) / 16 <= x < (a + size + 15) / 16) then Some g else granule_tag t !! x.

Lemma granule_step a i size : a mod 16 = 0 → i mod 16 = 0 → i < size →
  (a + (i + 16)) / 16 = (a + i) / 16 + 1 ∧ (a + i) / 16 < (a + size + 15) / 16 ∧ (a + i) mod 16 = 0.
Proof.
  intros Ha Hi Hs.
  assert (H16 : (a + i) mod 16 = 0) by (rewrite Z.add_mod, Ha, Hi by lia; done).
  pose proof (Z.div_mod (a + i) 16 ltac:(lia)).
  pose proof (Z.div_mod (a + size + 15) 16 ltac:(lia)). pose proof (Z.mod_pos_bound (a + size + 15) 16 ltac:(lia)).
  replace (a + (i + 16)) with (a + i + 1 * 16) by lia. rewrite Z.div_add by lia. split; [done|]. split; [nia|done].
Qed.

Lemma granule_top a i : a mod 16 = 0 → i mod 16 = 0 → (a + i + 15) / 16 = (a + i) / 16.
Proof.
  intros Ha Hi. assert (H16 : (a + i) mod 16 = 0) by (rewrite Z.add_mod, Ha, Hi by lia; done).
  pose proof (Z.div_mod (a + i) 16 ltac:(lia)).
  symmetry. apply (Z.div_unique _ _ _ 15); lia.
Qed.

(** One iteration of the loop. *)
Lemma tag_loop_step fuel a g i size t : a mod 16 = 0 → i mod 16 = 0 → 0 <= i < size → 0 <= a → 0 <= g < 16 →
  a + size <= 2 ^ 56 → tagged_memory t a size →
  tag_loop (S fuel) (tagged_at a g) i size t =
    (if INT_MAX <? i + MTE_GRANULE then int_overflow else tag_loop fuel (tagged_at a g) (i + MTE_GRANULE) size)
      (mk_tags (<[(a + i) / 16 := g]> (granule_tag t)) (irg_count t)).
Proof.
  intros Ha Hi Hs Ha0 Hg H56 Hmem. destruct (granule_step a i size) as (_ & Hlt & Hm); [done..|lia|].
  cbn [tag_loop]. destruct (Z.ltb_spec i size); [|lia].
  unfold mbind, T_bind, iso_mte_set_tag.
  replace (tagged_at a g + i) with (tagged_at (a + i) g) by (unfold tagged_at; lia).
  rewrite u64_small by (apply tagged_at_fields; lia).
  rewrite stg_run; [done|lia|done|done|].
  apply Hmem. split; [apply Z.div_le_mono; lia|done].
Qed.

Lemma tagged_memory_insert t a size x g n : tagged_memory t a size →
  tagged_memory (mk_tags (<[x := g]> (granule_tag t)) n) a size.
Proof. intros Hm y Hy. simpl. destruct (decide (x = y)) as [->|]; simplify_map_eq; eauto. Qed.

Lemma tag_loop_run a g size : a mod 16 = 0 → 0 <= a → 0 <= g < 16 → a + size <= 2 ^ 56 → size <= INT_MAX - 15 →
  ∀ fuel i t, 0 <= i → i mod 16 = 0 → size - i <= 16 * Z.of_nat fuel → tagged_memory t a size →
  ∃ t', tag_loop (S fuel) (tagged_at a g) i size t = Tagged tt t' ∧ range_tagged t t' a i size g.
Proof.
  intros Ha Ha0 Hg H56 Hint. unfold INT_MAX in Hint.
  induction fuel as [|fuel IH]; intros i t Hi0 Hi Hf Hmem;
    (destruct (Z.lt_ge_cases i size) as [Hlt|Hge];
       [|cbn [tag_loop]; destruct (Z.ltb_spec i size); [lia|];
         eexists; split; [reflexivity|split; [done|intros x; rewrite decide_False; [done|]];
         pose proof (Z.div_le_mono (a + size + 15) (a + i + 15) 16); 
         pose proof (granule_top a i Ha Hi); lia]]); [lia|].
  rewrite tag_loop_step by (done || lia).
  destruct (granule_step a i size) as (E & Hin & _); [done..|].
  unfold INT_MAX, MTE_GRANULE. destruct (Z.ltb_spec 2147483647 (i + 16)); [lia|].
  edestruct (IH (i + 16)) as (t' & Hr & Hc & Hx); [lia|by rewrite (Z.add_mod i 16), Hi by lia|lia|by apply tagged_memory_insert|].
  exists t'. split; [exact Hr|]. split; [done|]. intros x. rewrite Hx. simpl. rewrite E.
  destruct (decide (x = (a + i) / 16)) as [->|Hne].
  - rewrite decide_False, decide_True by lia. by simplify_map_eq.
  - rewrite lookup_insert_ne by done. repeat case_decide; lia || done.
Qed.

(** From 2 GiB less 15 bytes on the counter overflows. *)
Lemma tag_loop_overflows a g size : a mod 16 = 0 → 0 <= a → 0 <= g < 16 → a + size <= 2 ^ 56 → INT_MAX - 15 < size →
  ∀ fuel i t, 0 <= i <= INT_MAX - 15 → i mod 16 = 0 → INT_MAX - 15 - i <= 16 * Z.of_nat fuel → tagged_memory t a size →
  tag_loop (S fuel) (tagged_at a g) i size t = IntOverflow.
Proof.
  intros Ha Ha0 Hg H56 Hint. induction fuel as [|fuel IH]; intros i t Hi0 Hi Hf Hmem;
    (rewrite tag_loop_step by (done || lia)); unfold INT_MAX, MTE_GRANULE in *;
    (destruct (Z.ltb_spec 2147483647 (i + 16)) as [|Hi16]; [done|]); [lia|].
  pose proof (Z.div_mod i 16 ltac:(lia)).
  apply IH; [lia|by rewrite (Z.add_mod i 16), Hi by lia|lia|by apply tagged_memory_insert].
Qed.

Lemma set_tag_range_run p size t : iso_mte_untag_ptr p mod 16 = 0 → 0 < size →
  iso_mte_untag_ptr p + size <= 2 ^ 56 → tagged_memory t (iso_mte_untag_ptr p) size →
  if size <=? INT_MAX - 15 then
    ∃ g t', 1 <= g < 16 ∧ iso_mte_set_tag_range p size t = Tagged (tagged_at (iso_mte_untag_ptr p) g) t' ∧
      ∀ x, granule_tag t' !! x =
        if decide (iso_mte_untag_ptr p / 16 <= x < (iso_mte_untag_ptr p + size + 15) / 16) then Some g else granule_tag t !! x
  else iso_mte_set_tag_range p size t = IntOverflow.
Proof.
  rewrite untag_spec. set (a := p mod 2 ^ 56). intros Hm Hs H56 Hmem.
  assert (Ha : 0 <= a < 2 ^ 56) by (apply Z.mod_pos_bound; lia).
  destruct (create_tag_run a 0 0 t) as (g & Hg & _ & Hc); [done|lia|by exists 1|].
  unfold iso_mte_set_tag_range, mbind, T_bind. rewrite untag_spec. fold a.
  rewrite untagged_at in Hc. rewrite Hc. clear Hc.
  pose proof (Z.div_mod size 16 ltac:(lia)). pose proof (Z.mod_pos_bound size 16 ltac:(lia)).
  set (t1 := mk_tags _ _). assert (Hmem1 : tagged_memory t1 a size) by exact Hmem.
  destruct (Z.leb_spec size (INT_MAX - 15)) as [Hi|Hi].
  - edestruct (tag_loop_run a g size) as (t' & Hr & _ & Hx);
      [done|lia|lia|done|done|apply Z.le_refl|done| |exact Hmem1|exists g, t'; split; [done|]; split; [by rewrite Hr|]].
    { rewrite Z2Nat.id by (pose proof (Z.div_pos size 16); lia). lia. }
    intros x. by rewrite Hx, Z.add_0_r.
  - rewrite (tag_loop_overflows a g size); try done; try lia.
    all: rewrite ?Z2Nat.id by (pose proof (Z.div_pos size 16); lia); unfold INT_MAX in *; lia.
Qed.

Lemma granule_of a i size : a mod 16 = 0 → 0 <= i < size → a / 16 <= (a + i) / 16 < (a + size + 15) / 16.
Proof.
  intros Ha Hi. pose proof (Z.div_le_mono a (a + i) 16). pose proof (Z.div_le_mono (a + i + 16) (a + size + 15) 16).
  replace (a + i + 16) with (a + i + 1 * 16) in * by lia. rewrite Z.div_add in * by lia. lia.
Qed.

(** C31. [iso_mte_set_tag_range] on memory with tags answers the pointer with a random tag
    other than 0 and leaves exactly the granules of the range with that tag: the processor
    lets every access through the new pointer pass, [iso_mte_get_tag] reads it back from any
    address of the range, and no access through a pointer without a tag passes. From 2 GiB
    less 15 bytes on the [int] counter of its loop overflows. *)
Theorem mte_set_tag_range_correct p size t : iso_mte_untag_ptr p mod 16 = 0 → 0 < size →
  iso_mte_untag_ptr p + size <= 2 ^ 56 → tagged_memory t (iso_mte_untag_ptr p) size →
  if size <=? INT_MAX - 15 then
    ∃ q t', iso_mte_set_tag_range p size t = Tagged q t' ∧
      iso_mte_untag_ptr q = iso_mte_untag_ptr p ∧ iso_mte_extract_tag q ≠ 0 ∧
      (∀ i, 0 <= i < size → access_ok t' (q + i) = true ∧ access_ok t' (iso_mte_untag_ptr p + i) = false ∧
         iso_mte_get_tag (iso_mte_untag_ptr p + i) t' = Tagged (q + i) t') ∧
      (∀ x, ¬ iso_mte_untag_ptr p / 16 <= x < (iso_mte_untag_ptr p + size + 15) / 16 →
         granule_tag t' !! x = granule_tag t !! x)
  else iso_mte_set_tag_range p size t = IntOverflow.
Proof.
  intros Hm Hs H56 Hmem. pose proof (set_tag_range_run p size t Hm Hs H56 Hmem) as H'.
  destruct (size <=? INT_MAX - 15); [|exact H']. destruct H' as (g & t' & Hg & Hr & Hx).
  rewrite (untag_spec p) in *. set (a := p mod 2 ^ 56) in *.
  assert (Ha : 0 <= a < 2 ^ 56) by (apply Z.mod_pos_bound; lia).
  exists (tagged_at a g), t'. rewrite untag_spec, extract_tag_spec.
  destruct (tagged_at_fields a g) as (E1 & E2 & _); [lia..|]. rewrite E1, E2.
  split; [done|]. split; [done|]. split; [lia|]. split; [|intros x Hn; by rewrite Hx, decide_False].
  intros i Hi. replace (tagged_at a g + i) with (tagged_at (a + i) g) by (unfold tagged_at; lia).
  assert (Hl : granule_tag t' !! ((a + i) / 16) = Some g).
  { rewrite Hx, decide_True; [done|]. by apply granule_of. }
  rewrite <-(untagged_at (a + i)) at 2 3. unfold access_ok.
  destruct (tagged_at_fields (a + i) g) as (F1 & F2 & _); [lia..|].
  destruct (tagged_at_fields (a + i) 0) as (G1 & G2 & _); [lia..|].
  rewrite F1, F2, G1, G2, Hl. split_and!.
  - by apply bool_decide_eq_true.
  - apply bool_decide_eq_false. intros [=]. lia.
  - apply ldg_run; [lia..|done].
Qed.

(** C32. When [_iso_free] gives the first granule of a chunk its new tag, the tag differs from
    the one of the pointer that was freed and is not 0: the next access to the first 16 bytes
    through the old pointer is stopped, while the accesses to the rest of the chunk still
    pass until the quarantine is flushed. *)
Theorem mte_free_retags p size t q t' : iso_mte_untag_ptr p mod 16 = 0 → 0 < size <= INT_MAX - 15 →
  iso_mte_untag_ptr p + size <= 2 ^ 56 → tagged_memory t (iso_mte_untag_ptr p) size →
  iso_mte_set_tag_range p size t = Tagged q t' →
  ∃ q' t'', retag_on_free q t' = Tagged q' t'' ∧
    iso_mte_untag_ptr q' = iso_mte_untag_ptr q ∧ iso_mte_extract_tag q' ≠ 0 ∧ iso_mte_extract_tag q' ≠ iso_mte_extract_tag q ∧
    (∀ i, 0 <= i < size → access_ok t'' (q + i) = negb (i <? 16)).
Proof.
  intros Hm Hs H56 Hmem Hrun. pose proof (set_tag_range_run p size t Hm ltac:(lia) H56 Hmem) as H'.
  destruct (Z.leb_spec size (INT_MAX - 15)); [|lia]. destruct H' as (g & t1 & Hg & Hr & Hx).
  rewrite Hr in Hrun. simplify_eq. rewrite (untag_spec p) in *. set (a := p mod 2 ^ 56) in *.
  assert (Ha : 0 <= a < 2 ^ 56) by (apply Z.mod_pos_bound; lia).
  destruct (tagged_at_fields a g) as (E1 & E2 & _); [lia..|].
  destruct (create_tag_run a g (Z.shiftl 1 g) t') as (g' & Hg' & Hne & Hc); [lia|lia| |].
  { exists (if g =? 1 then 2 else 1). rewrite Z.shiftl_1_l. destruct (Z.eqb_spec g 1); (split; [lia|]);
      rewrite Z.pow2_bits_eqb by lia; apply Z.eqb_neq; lia. }
  rewrite Z.shiftl_1_l, Z.pow2_bits_eqb in Hne by lia. apply Z.eqb_neq in Hne.
  pose proof (granule_of a 0 size Hm ltac:(lia)) as Hfirst. rewrite Z.add_0_r in Hfirst.
  unfold retag_on_free, mbind, T_bind. rewrite extract_tag_spec, E2, Hc.
  unfold iso_mte_set_tag. rewrite stg_run; [|lia|done|lia|simpl; rewrite Hx, decide_True by done; eauto].
  eexists _, _. split; [reflexivity|].
  destruct (tagged_at_fields a g') as (F1 & F2 & _); [lia..|].
  rewrite !untag_spec, !extract_tag_spec, E1, F1, F2. split_and!; [done|lia|lia|].
  intros i Hi. replace (tagged_at a g + i) with (tagged_at (a + i) g) by (unfold tagged_at; lia).
  destruct (tagged_at_fields (a + i) g) as (G1 & G2 & _); [lia..|].
  unfold access_ok. rewrite G1, G2. simpl.
  pose proof (Z.div_mod a 16 ltac:(lia)) as Ea. pose proof (Z.div_mod (a + i) 16 ltac:(lia)) as Ei.
  pose proof (Z.mod_pos_bound (a + i) 16 ltac:(lia)).
  destruct (Z.ltb_spec i 16).
  - replace ((a + i) / 16) with (a / 16) by lia. simplify_map_eq. apply bool_decide_eq_false. intros [=]. lia.
  - rewrite lookup_insert_ne by lia. rewrite Hx, decide_True by (by apply granule_of). by apply bool_decide_eq_true.
Qed.
End run.
