(* ===== verification/Alloc.v ===== *)
(** * The allocator

    [_iso_alloc], [_iso_calloc], the family of [_iso_free] functions, the quarantine, zone
    retirement, [_iso_chunk_size] and the destruction of the heap, of src/iso_alloc.c. *)

From S2P Require Import Prelude Words Conf Memory State Util ZoneBits FreeList Chunks Lookup Zones BigZones Verify MemTags.

Section model.
Context `{!Kernel, !Config}.

(** ** Allocation *)

(** [return NULL], or an abort when the build asks for it. *)
Definition return_null : M Z := if ABORT_ON_NULL then abort NullReturned else mret 0.

(** The last part of the small path: the slot is taken from the chosen zone. *)
Definition alloc_from (zi free_bit_slot : Z) : M Z :=
  zmod zi UNMASK_ZONE_PTRS;;
  zmod zi (set_next_free_bit_slot BAD_BIT_SLOT);;
  p ← _iso_alloc_bitslot_from_zone free_bit_slot zi;
  zmod zi MASK_ZONE_PTRS;;
  UNLOCK_ROOT;;
  populate_zone_cache zi;;
  mret p.

(** The small path, the root locked: [zone] is the caller's private zone, [cached] the
    candidate of the thread's cache. *)
Definition alloc_small (zone cached : option Z) (size : Z) : M Z :=
  when FUZZ_MODE _verify_all_zones;;
  zone ← match zone, cached with
         | None, Some c => u ← is_zone_usable c size; mret (if u : bool then Some c else None)
         | _, _ => mret zone
         end;
  zone ← match zone with
         | None => find_suitable_zone size
         | Some _ => mret zone
         end;
  match zone with
  | Some zi =>
      z ← zget zi;
      ok ← (if negb (internal z) then is_zone_usable zi size else mret true);
      if negb ok then UNLOCK_ROOT;; return_null else
      z ← zget zi;
      if next_free_bit_slot z =? BAD_BIT_SLOT then UNLOCK_ROOT;; return_null else
      alloc_from zi (next_free_bit_slot z)
  | None =>
      zone ← _iso_new_zone size true (-1);
      match zone with
      | None => abort NewZoneFailed
      | Some zi =>
          z ← zget zi;
          if next_free_bit_slot z =? BAD_BIT_SLOT then abort NewZoneNoSlots else
          alloc_from zi (next_free_bit_slot z)
      end
  end.

(** [_iso_alloc]; the build without [ALLOC_SANITY] and [HEAP_PROFILER]. *)
Definition _iso_alloc (zone : option Z) (size : Z) : M Z :=
  w ← get;
  if NO_ZERO_ALLOCATIONS && (size =? 0) && negb (w_root_null w) then mret (zero_alloc_page (w_root w)) else
  let size := chunk_size_of size in
  zsz ← match zone with Some zi => z ← zget zi; mret (Some (chunk_size z)) | None => mret None end;
  if match zsz with Some s => s <? size | None => false end then abort PrivateZoneTooSmall else
  let cached :=
    match zone with
    | None => if size <=? SMALL_SIZE_MAX then cached_candidate (Z.to_nat (w_zone_cache_count w)) (w_zone_cache w) size else None
    | Some _ => None
    end in
  LOCK_ROOT;;
  early ← (if w_root_null w then
             if AUTO_CTOR_DTOR then
               match zone with
               | Some _ => abort RootNotNullZone
               | None =>
                   read_page_size;;
                   iso_alloc_initialize_global_root;;
                   if NO_ZERO_ALLOCATIONS && (size =? 0) then
                     UNLOCK_ROOT;; r ← root; mret (Some (zero_alloc_page r))
                   else mret None
               end
             else abort RootInit
           else mret None);
  match early with
  | Some p => mret p
  | None =>
      if size <=? SMALL_SIZE_MAX then alloc_small zone cached size
      else
        UNLOCK_ROOT;;
        match zone with
        | Some _ => abort PrivateZoneBig
        | None => _iso_big_alloc size
        end
  end.

Definition _iso_calloc (nmemb size : Z) : M Z :=
  let size := chunk_size_of size in
  if (2 ^ 64 <=? nmemb * size) || (BIG_SZ_MAX <? nmemb * size) then mret 0 else
  let res := nmemb * size in
  p ← _iso_alloc None res;
  if NO_ZERO_ALLOCATIONS && (res =? 0) then mret p else
  __iso_memset p 0 res;;
  mret p.

(** ** Freeing *)

Definition _is_zone_retired (zi : Z) : M bool :=
  z ← zget zi;
  r ← root;
  mret ((af_count z =? 0) && (u32 (Z.shiftl (chunk_count z) (zone_retirement_shf r)) <? alloc_count z)
        && (internal z && (chunk_size z <? MAX_DEFAULT_ZONE_SZ * 2))).

(** A new tag for the chunk at [p], or for all chunks. *)
Definition refresh_tag (zi p : Z) : M unit :=
  z ← zget zi;
  if negb (MEMORY_TAGGING && tagged z) then mret tt else
  refreshed ← _refresh_zone_mem_tags zi;
  if refreshed : bool then mret tt else
  z ← zget zi;
  w ← get;
  let chunk_offset := u64 (p - UNMASK_USER_PTR z) in
  v ← us_rand_uint64;
  wr8 (tag_page w z + chunk_offset / chunk_size z) (u8 v).

Definition _iso_free_internal_unlocked (p : Z) (permanent : bool) (zone : option Z) : M (option Z) :=
  when FUZZ_MODE _verify_all_zones;;
  zone ← match zone with None => iso_find_zone_range p | Some _ => mret zone end;
  match zone with
  | Some zi =>
      iso_free_chunk_from_zone zi p permanent;;
      retired ← _is_zone_retired zi;
      when retired (destroy_zone_pages zi true);;
      refresh_tag zi p;;
      mret (Some zi)
  | None =>
      big_zone ← iso_find_big_zone p true;
      if big_zone =? 0 then (if ABORT_ON_UNOWNED_PTR then abort UnownedPointer else mret None) else
      iso_free_big_zone big_zone permanent;;
      mret None
  end.

(** The quarantined chunks from entry [i] on. *)
Fixpoint free_quarantined (n : nat) (i : nat) : M unit :=
  match n with
  | O => mret tt
  | S n' =>
      w ← get;
      _iso_free_internal_unlocked (nth i (w_chunk_quarantine w) 0) false None;;
      free_quarantined n' (S i)
  end.

Definition flush_chunk_quarantine : M unit :=
  r ← root;
  free_quarantined (Z.to_nat (chunk_quarantine_count r)) 0;;
  upd (set_w_chunk_quarantine (replicate (Z.to_nat CHUNK_QUARANTINE_SZ) 0));;
  rupd (set_chunk_quarantine_count 0).

Definition flush_caches : M unit :=
  clear_zone_cache;;
  LOCK_ROOT;;
  flush_chunk_quarantine;;
  UNLOCK_ROOT.

Definition _iso_alloc_destroy_zone_unlocked (zi : Z) (flush replace : bool) : M unit :=
  when flush (clear_zone_cache;; flush_chunk_quarantine);;
  destroy_zone_pages zi replace.

Definition _iso_alloc_destroy_zone (zi : Z) : M unit :=
  LOCK_ROOT;;
  _iso_alloc_destroy_zone_unlocked zi true true;;
  UNLOCK_ROOT.

Definition _iso_free_internal (p : Z) (permanent : bool) : M unit :=
  LOCK_ROOT;;
  zone ← _iso_free_internal_unlocked p permanent None;
  UNLOCK_ROOT;;
  match zone with Some zi => populate_zone_cache zi | None => mret tt end.

Definition _iso_free (p : Z) (permanent : bool) : M unit :=
  if p =? 0 then mret tt else
  if negb (IS_ALIGNED p =? 0) then abort Unaligned8 else
  r ← root;
  if NO_ZERO_ALLOCATIONS && (p =? zero_alloc_page r) then mret tt else
  if permanent then _iso_free_internal p permanent else
  LOCK_ROOT;;
  r ← root;
  when (CHUNK_QUARANTINE_SZ <=? chunk_quarantine_count r) flush_chunk_quarantine;;
  r ← root;
  upd (λ w, set_w_chunk_quarantine (<[Z.to_nat (chunk_quarantine_count r) := p]> (w_chunk_quarantine w)) w);;
  rupd (λ r, set_chunk_quarantine_count (chunk_quarantine_count r + 1) r);;
  UNLOCK_ROOT.

Definition _iso_free_size (p size : Z) : M unit :=
  if p =? 0 then mret tt else
  r ← root;
  if NO_ZERO_ALLOCATIONS && (p =? zero_alloc_page r) && negb (size =? 0) then abort ZeroChunkWithSize else
  if NO_ZERO_ALLOCATIONS && (p =? zero_alloc_page r) then mret tt else
  if SMALL_SIZE_MAX <? size then
    big_zone ← iso_find_big_zone p true;
    if big_zone =? 0 then (if ABORT_ON_UNOWNED_PTR then abort UnownedPointer else mret tt) else
    b ← bget big_zone;
    if big_size b <? size then abort BigSizeMismatch else
    iso_free_big_zone big_zone false
  else
    LOCK_ROOT;;
    zone ← iso_find_zone_range p;
    match zone with
    | None => if ABORT_ON_UNOWNED_PTR then abort UnownedPointer else UNLOCK_ROOT
    | Some zi =>
        z ← zget zi;
        if chunk_size z <? size then abort SizeMismatch else
        _iso_free_internal_unlocked p false (Some zi);;
        UNLOCK_ROOT
    end.

Definition _iso_free_from_zone (p : Z) (zone : option Z) (permanent : bool) : M unit :=
  match zone with
  | None => mret tt
  | Some zi =>
      if p =? 0 then mret tt else
      z ← zget zi;
      p ← (if MEMORY_TAGGING && tagged z && negb (Z.land p IS_TAGGED_PTR_MASK =? 0)
           then _untag_ptr p (Some zi) else mret p);
      if negb (in_user_pages p z) then abort NotInZone else
      LOCK_ROOT;;
      _iso_free_internal_unlocked p permanent (Some zi);;
      UNLOCK_ROOT
  end.

Definition _iso_chunk_size (p : Z) : M Z :=
  if p =? 0 then mret 0 else
  r ← root;
  if NO_ZERO_ALLOCATIONS && (p =? zero_alloc_page r) then mret 0 else
  LOCK_ROOT;;
  zone ← iso_find_zone_range p;
  match zone with
  | None =>
      UNLOCK_ROOT;;
      big_zone ← iso_find_big_zone p false;
      if big_zone =? 0 then (if ABORT_ON_UNOWNED_PTR then abort UnownedPointer else mret 0) else
      b ← bget big_zone;
      mret (big_size b)
  | Some zi =>
      UNLOCK_ROOT;;
      z ← zget zi;
      mret (chunk_size z)
  end.

(** ** Destroying the heap *)

(** The loop over the zones of [_iso_alloc_destroy], [n] more from [i] on; the build
    without [DEBUG]. *)
Fixpoint destroy_zones (n : nat) (i : Z) : M unit :=
  match n with
  | O => mret tt
  | S n' =>
      when FUZZ_MODE (_verify_zone i);;
      when ISO_DTOR_CLEANUP (_iso_alloc_destroy_zone_unlocked i false false);;
      destroy_zones n' (i + 1)
  end.

(** [_iso_alloc_destroy] without the unmapping of the root's own pages
    ([ISO_DTOR_CLEANUP]), after which no call is possible. *)
Definition _iso_alloc_destroy : M unit :=
  LOCK_ROOT;;
  flush_chunk_quarantine;;
  r ← root;
  w ← get;
  when NO_ZERO_ALLOCATIONS (munmap (zero_alloc_page r) (w_page_size w));;
  destroy_zones (Z.to_nat (zones_used r)) 0;;
  LOCK_BIG_ZONE_USED;;
  r ← root;
  _free_big_zone_list (big_zone_used r);;
  UNLOCK_BIG_ZONE_USED;;
  LOCK_BIG_ZONE_FREE;;
  r ← root;
  _free_big_zone_list (big_zone_free r);;
  UNLOCK_BIG_ZONE_FREE;;
  UNLOCK_ROOT.

End model.
