(* ===== verification/Interfaces.v ===== *)
(** * The public interface

    src/iso_alloc_interfaces.c and src/malloc_hook.c: every exported function on top of
    the allocator's own. A zone handle is the zone's address masked with the root's
    secret; memory that a program passes by mistake is undefined behaviour here. *)

From S2P Require Import Prelude Words Conf Memory State Util ZoneBits FreeList Chunks Lookup MemOps Heap Zones BigZones BigSpec Verify Profiler MemTags Alloc.

Section model.
Context `{!Kernel, !Config}.

(** ** Zone handles *)

Definition UNMASK_ZONE_HANDLE (h : Z) : M Z :=
  if MASK_PTRS then r ← root; mret (Z.lxor h (zone_handle_mask r)) else mret h.

(** [&_root->zones[i]], and the zone a pointer designates; any other address would be
    read as a zone. *)
Definition zone_ptr (r : iso_alloc_root) (i : Z) : Z := zones_base r + i * SIZEOF_ZONE.
Definition zone_of_ptr (p : Z) : M (option Z) :=
  if p =? 0 then mret None else
  r ← root;
  let i := (p - zones_base r) / SIZEOF_ZONE in
  if (0 <=? i) && (i <? MAX_ZONES) && (p =? zone_ptr r i) then mret (Some i) else undef.
Definition deref_zone (p : Z) : M Z :=
  zone ← zone_of_ptr p;
  match zone with Some zi => mret zi | None => fault end.

(** ** Allocation and release *)

Definition iso_alloc_initialize : M unit := _iso_alloc_initialize.
Definition iso_alloc_destroy : M unit := _iso_alloc_destroy.
Definition iso_alloc (size : Z) : M Z := _iso_alloc None size.
Definition iso_calloc (nmemb size : Z) : M Z := _iso_calloc nmemb size.
Definition iso_free (p : Z) : M unit := _iso_free p false.
Definition iso_free_size (p size : Z) : M unit := _iso_free_size p size.
Definition iso_free_permanently (p : Z) : M unit := _iso_free p true.
Definition iso_chunksz (p : Z) : M Z := _iso_chunk_size p.

(** The handle is unmasked before any test, so that NULL is not recognised. *)
Definition iso_free_from_zone (p h : Z) : M unit :=
  zp ← UNMASK_ZONE_HANDLE h;
  if p =? 0 then mret tt else
  zone ← zone_of_ptr zp;
  _iso_free_from_zone p zone false.
Definition iso_free_from_zone_permanently (p h : Z) : M unit :=
  zp ← UNMASK_ZONE_HANDLE h;
  if p =? 0 then mret tt else
  zone ← zone_of_ptr zp;
  _iso_free_from_zone p zone true.

Definition iso_zone_chunk_count (h : Z) : M Z :=
  zp ← UNMASK_ZONE_HANDLE h;
  zi ← deref_zone zp;
  z ← zget zi;
  let canaries := if DISABLE_CANARY then 0 else Z.shiftr (chunk_count z) CANARY_COUNT_DIV in
  mret (chunk_count z - canaries).

Definition iso_realloc (p size : Z) : M Z :=
  if size =? 0 then iso_free p;; mret 0 else
  r ← iso_alloc size;
  if r =? 0 then mret r else
  chunk_size ← iso_chunksz p;
  let size := if chunk_size <? size then chunk_size else size in
  (if negb (p =? 0) then _iso_alloc_memcpy r p size;; mret tt else mret tt);;
  (if PERM_FREE_REALLOC then _iso_free p true else _iso_free_size p chunk_size);;
  mret r.

Definition iso_reallocarray (p nmemb size : Z) : M Z :=
  if (2 ^ 64 <=? nmemb * size) || (BIG_SZ_MAX <? nmemb * size) then mret 0 else
  iso_realloc p (nmemb * size).

(** ** Strings *)

(** [strlen] and [memchr(str, 0, n)], reading byte by byte; only bytes in the finite
    memory are not zero, so that the fuel [S (size m)] reaches the end of any string. *)
Fixpoint strlen (fuel : nat) (p : Z) : M Z :=
  match fuel with
  | O => nofuel
  | S fuel' => c ← rd8 p; if c =? 0 then mret 0 else n ← strlen fuel' (p + 1); mret (n + 1)
  end.
Fixpoint memchr0 (fuel : nat) (p n : Z) : M Z :=
  match fuel with
  | O => nofuel
  | S fuel' =>
      if n =? 0 then mret 0 else
      c ← rd8 p; if c =? 0 then mret 0 else k ← memchr0 fuel' (p + 1) (n - 1); mret (k + 1)
  end.

(** The zone of an optional handle. *)
Definition opt_zone (h : Z) : M (option Z) :=
  if h =? 0 then mret None else zp ← UNMASK_ZONE_HANDLE h; zone_of_ptr zp.

(** [copy_len] bytes and the NUL behind them, in a new chunk. *)
Definition dup_bytes (zone : option Z) (str copy_len : Z) : M Z :=
  p ← _iso_alloc zone (u64 (copy_len + 1));
  if p =? 0 then mret 0 else
  _iso_alloc_memcpy p str copy_len;;
  wr8 (p + copy_len) 0;;
  mret p.

Definition iso_strdup_from_zone (h str : Z) : M Z :=
  if str =? 0 then mret 0 else
  w ← get;
  n ← strlen (S (size (w_mem w))) str;
  zone ← opt_zone h;
  dup_bytes zone str n.
Definition iso_strdup (str : Z) : M Z := iso_strdup_from_zone 0 str.

Definition iso_strndup_from_zone (h str n : Z) : M Z :=
  if str =? 0 then mret 0 else
  w ← get;
  copy_len ← memchr0 (S (size (w_mem w))) str n;
  zone ← opt_zone h;
  dup_bytes zone str copy_len.
Definition iso_strndup (str n : Z) : M Z := iso_strndup_from_zone 0 str n.

(** ** Private zones *)

Definition iso_alloc_from_zone (h : Z) : M Z :=
  if h =? 0 then mret 0 else
  zp ← UNMASK_ZONE_HANDLE h;
  zi ← deref_zone zp;
  z ← zget zi;
  _iso_alloc (Some zi) (chunk_size z).

Definition iso_alloc_from_zone_tagged (h : Z) : M Z :=
  if h =? 0 then mret 0 else
  zp ← UNMASK_ZONE_HANDLE h;
  zi ← deref_zone zp;
  z ← zget zi;
  p ← _iso_alloc (Some zi) (chunk_size z);
  _tag_ptr p (Some zi).

Definition iso_alloc_tag_ptr (p h : Z) : M Z :=
  if h =? 0 then mret 0 else
  zp ← UNMASK_ZONE_HANDLE h; zone ← zone_of_ptr zp; _tag_ptr p zone.
Definition iso_alloc_untag_ptr (p h : Z) : M Z :=
  if h =? 0 then mret 0 else
  zp ← UNMASK_ZONE_HANDLE h; zone ← zone_of_ptr zp; _untag_ptr p zone.
Definition iso_alloc_verify_ptr_tag (p h : Z) : M unit :=
  if h =? 0 then mret tt else
  zp ← UNMASK_ZONE_HANDLE h; zone ← zone_of_ptr zp; _iso_alloc_verify_tag p zone.
Definition iso_alloc_get_mem_tag (p h : Z) : M Z :=
  if (h =? 0) || (p =? 0) then mret 0 else
  zp ← UNMASK_ZONE_HANDLE h; zi ← deref_zone zp; _iso_alloc_get_mem_tag p zi.

Definition iso_alloc_destroy_zone (h : Z) : M unit :=
  if h =? 0 then mret tt else
  zp ← UNMASK_ZONE_HANDLE h; zi ← deref_zone zp; _iso_alloc_destroy_zone zi.

(** A failed creation gives NULL, which is masked like any other pointer. *)
Definition iso_alloc_new_zone (size : Z) : M Z :=
  zone ← iso_new_zone size false;
  r ← root;
  UNMASK_ZONE_HANDLE (match zone with Some zi => zone_ptr r zi | None => 0 end).

(** The build without named mappings, where [name_mapping] answers 0. *)
Definition iso_alloc_name_zone (h : Z) : M Z :=
  if h =? 0 then mret 0 else
  zp ← UNMASK_ZONE_HANDLE h; zi ← deref_zone zp; mret 0.

(** ** Inspection *)

Definition iso_alloc_detect_zone_leaks (h : Z) : M Z :=
  if h =? 0 then mret 0 else
  zp ← UNMASK_ZONE_HANDLE h; zi ← deref_zone zp; _iso_alloc_detect_leaks_in_zone zi.
Definition iso_alloc_detect_leaks : M Z := _iso_alloc_detect_leaks.
Definition iso_alloc_zone_mem_usage (h : Z) : M Z :=
  if h =? 0 then mret 0 else
  zp ← UNMASK_ZONE_HANDLE h; zi ← deref_zone zp; _iso_alloc_zone_mem_usage zi.
Definition iso_alloc_mem_usage : M Z := _iso_alloc_mem_usage.
Definition iso_verify_zones : M unit := verify_all_zones.
Definition iso_verify_zone (h : Z) : M unit :=
  if h =? 0 then mret tt else
  zp ← UNMASK_ZONE_HANDLE h; zi ← deref_zone zp; verify_zone zi.
Definition iso_flush_caches : M unit := flush_caches.

(** ** src/malloc_hook.c *)

Definition EINVAL : Z := 22.
Definition ENOMEM : Z := 12.

Definition malloc (s : Z) : M Z := iso_alloc s.
Definition free (p : Z) : M unit := iso_free p.
Definition calloc (n s : Z) : M Z := iso_calloc n s.
Definition realloc (p s : Z) : M Z := iso_realloc p s.
Definition reallocarray (p n s : Z) : M Z := iso_reallocarray p n s.

(** The pair is the value of the function and of [*r]. *)
Definition __posix_memalign (a s : Z) : M (Z * Z) :=
  if negb (is_pow2 a) then mret (EINVAL, 0) else
  let s := if s <? a then a else s in
  r ← iso_alloc s;
  mret (if negb (r =? 0) then 0 else ENOMEM, r).
Definition posix_memalign (alignment s : Z) : M (Z * Z) := __posix_memalign alignment s.
Definition aligned_alloc (alignment s : Z) : M Z := iso_alloc s.
Definition memalign (alignment s : Z) : M Z := iso_alloc s.
Definition malloc_usable_size (p : Z) : M Z := iso_chunksz p.
End model.
