(* ===== verification/AllocSpec.v ===== *)
(** * Correctness of small allocations on the whole heap

    The search for a zone that can serve a request ([find_suitable_zone] of
    src/iso_alloc.c), taking a slot of it, and what both leave untouched: the records
    [keeps], [small_alloc] and [chunk_changed] say which chunks are in use, where they are
    and what they hold. *)

From S2P Require Import Prelude Words Conf Memory State Util ZoneBits FreeList Chunks Lookup Heap Zones BigZones Verify MemTags Alloc.

Section search.
Context `{!Kernel, !KernelLaws, !Config}.

(** A zone of the heap that can serve a request of [size] bytes at once. *)
Record chosen (w : world) (size j : Z) : Prop := {
  ch_range : 0 <= j < zones_used (w_root w);
  ch_size : size <= chunk_size (zone_at w j);
  ch_free : free_slot (w_mem w) (UNMASK_BITMAP_PTR (zone_at w j)) (zone_at w j) (next_free_bit_slot (zone_at w j));
}.

(** What a search leaves: the heap as it was but for caches, and a zone to use, if any,
    which is an internal one. *)
Definition searched (w w' : world) (size : Z) (r : option Z) : Prop :=
  heap_inv w' ∧ quiet w w' ∧
  ∀ j, r = Some j → chosen w' size j ∧ internal (zone_at w' j) = true.

Lemma quiet_shape w w' j : quiet w w' → same_shape (zone_at w j) (zone_at w' j).
Proof. intros Hq. apply same_shape_cache, (q_zones _ _ Hq). Qed.

(** One attempt at zone [i]: on success the search ends there. *)
Lemma wp_try_zone (E : failure → Prop) {A} i size want w (ok : M A) (ko : M A) Q :
  heap_inv w → 0 <= i < zones_used (w_root w) → (∀ e, resource e → E e) →
  want <= chunk_size (zone_at w i) → internal (zone_at w i) = true →
  (∀ w', searched w w' want (Some i) → wp E ok Q w') →
  (∀ w', searched w w' want None → wp E ko Q w') →
  wp E (u ← is_zone_usable i size; if u : bool then ok else ko) Q w.
Proof.
  intros Hw Hi HE Hs Hint Hok Hko. apply wp_bind, wp_usable_heap; try done. intros b w' Hw' Hq Hfree _.
  pose proof (quiet_shape w w' i Hq) as Hsh. destruct b; [apply Hok|apply Hko; by split_and!].
  split_and!; [done|done|]. intros j [= <-]. rewrite (ss_internal _ _ Hsh). split; [|done].
  constructor; [by rewrite (quiet_used _ _ Hq)|by rewrite (ss_size _ _ Hsh)|auto].
Qed.

Lemma searched_trans w1 w2 w3 size r : quiet w1 w2 → searched w2 w3 size r → searched w1 w3 size r.
Proof. intros Hq (A1 & A2 & A3). split_and!; [done|by eapply quiet_trans|done]. Qed.

Lemma wp_walk_zones (E : failure → Prop) n i size w Q :
  heap_inv w → 0 <= i → n = 0%nat ∨ i + Z.of_nat n <= zones_used (w_root w) → (∀ e, resource e → E e) →
  (∀ r w', searched w w' size r → Q r w') → wp E (walk_zones n i size) Q w.
Proof.
  intros Hw Hi Hn HE. revert i w Q Hw Hi Hn. induction n as [|n IH]; intros i w Q Hw Hi Hn HQ; cbn [walk_zones].
  { apply wp_ret, HQ. split_and!; [done|apply quiet_refl|done]. }
  apply wp_bind, wp_zget. destruct ((chunk_size (zone_at w i) <? size) || negb (internal (zone_at w i))) eqn:Hc.
  { apply IH; try done; lia. }
  apply orb_false_iff in Hc as [Hcs%Z.ltb_ge Hint%negb_false_iff].
  apply (wp_try_zone E i size size); try done; [lia| |].
  - intros w' Hs. apply wp_ret. by apply HQ.
  - intros w' (Hw' & Hq & _). apply IH; try done; [lia|rewrite (quiet_used _ _ Hq); lia|].
    intros r w'' Hs. apply HQ. by eapply searched_trans.
Qed.

Lemma wp_walk_sizes (E : failure → Prop) fuel i size want w Q :
  heap_inv w → 0 <= i < zones_used (w_root w) → (Z.to_nat i < fuel)%nat → want <= size → (∀ e, resource e → E e) →
  chunk_size (zone_at w i) = size → internal (zone_at w i) = true →
  (∀ r j w', searched w w' want r → 0 <= j < zones_used (w_root w) → Q (r, j) w') →
  wp E (walk_sizes fuel i (zones_used (w_root w)) size) Q w.
Proof.
  intros Hw Hi Hf Hwant HE. remember (zones_used (w_root w)) as used eqn:Hu. revert i w Q Hu Hw Hi Hf.
  induction fuel as [|fuel IH]; intros i w Q Hu Hw Hi Hf Hsz Hint HQ; [lia|]. cbn [walk_sizes].
  rewrite (proj2 (Z.ltb_lt i used)) by lia. apply wp_bind, wp_zget. rewrite Hsz, Z.eqb_refl, Hint. cbn [negb].
  apply (wp_try_zone E i size want); [done|by rewrite <-Hu|done|lia|done| |].
  - intros w' Hs. apply wp_ret. by apply HQ.
  - intros w' (Hw' & Hq & Hnone). pose proof (quiet_used _ _ Hq) as Hu'. apply wp_bind, wp_zget.
    assert (Hi' : 0 <= i < zones_used (w_root w')) by lia.
    destruct (hv_links w' Hw' i Hi') as [Hn|(Hn & Hl)].
    + rewrite Hn. cbn [Z.eqb negb]. apply wp_ret, HQ; [by split_and!|done].
    + destruct (Z.eqb_spec (next_sz_index (zone_at w' i)) 0) as [Hn0|Hn0]; cbn [negb].
      { apply wp_ret, HQ; [by split_and!|done]. }
      destruct Hl as [|(Hl1 & Hl2 & Hl3)]; [done|]. pose proof (quiet_shape w w' i Hq) as Hsh.
      apply IH; try done; try lia; [by rewrite Hl2, (ss_size _ _ Hsh)|].
      intros r j w'' Hs Hj. apply HQ; [by eapply searched_trans|done].
Qed.

Lemma ALIGN_SZ_UP_next size : 0 <= size <= 2 ^ 32 → size mod 32 = 0 → ALIGN_SZ_UP (size + 1) = size + 32.
Proof.
  intros Hs Hm. rewrite ALIGN_SZ_UP_eq, u64_small by (unfold is_u64; lia). replace (size + 1 + 31) with (size + 1 * 32) by lia.
  rewrite Z.mod_add, Hm by lia. lia.
Qed.

(** The size looked up is a multiple of 32 past the request; 40 rounds always suffice. *)
Lemma grow_size_spec fuel table size : 0 <= size → size mod 32 = 0 → 1088 - size <= 32 * Z.of_nat fuel → (0 < fuel)%nat → size <= 65536 →
  ∃ s, grow_size fuel table size = Some s ∧ size <= s ∧ s mod 32 = 0 ∧ s <= 65536.
Proof.
  revert size. induction fuel as [|fuel IH]; intros size Hs Hm Hf Hpos Hmax; [lia|]. cbn [grow_size].
  change ZONE_1024 with 1024. destruct (Z.leb_spec size 1024).
  - destruct (_ =? 0); [|by exists size]. rewrite ALIGN_SZ_UP_next by lia. rewrite u64_small by (unfold is_u64; lia).
    assert ((size + (size + 32)) mod 32 = 0).
    { replace (size + (size + 32)) with (0 + (2 * (size / 32) + 1) * 32) by (pose proof (Z.div_mod size 32); lia).
      by rewrite Z.mod_add by lia. }
    destruct (IH (size + (size + 32))) as (s & -> & A1 & A2 & A3); try lia. exists s. split_and!; done || lia.
  - exists size. split_and!; done || lia.
Qed.

Lemma wp_find_suitable_zone (E : failure → Prop) size w Q :
  heap_inv w → 0 < zones_used (w_root w) → 0 <= size <= 65536 → size mod 32 = 0 → (∀ e, resource e → E e) →
  (∀ r w', searched w w' size r → Q r w') → wp E (find_suitable_zone size) Q w.
Proof.
  intros Hw Hpos Hs Hm32 HE HQ. unfold find_suitable_zone. apply wp_bind, wp_root; [apply Hw|]. apply wp_bind.
  apply wp_post with (λ s w', w' = w ∧ size <= s ∧ s mod 32 = 0).
  { destruct STRONG_SIZE_ISOLATION; [apply wp_ret; split_and!; done || lia|].
    destruct (grow_size_spec 40 (zone_lookup_table (w_root w)) size) as (s & -> & A1 & A2 & A3); [lia..|].
    apply wp_ret. by split_and!. }
  intros s w0 (-> & Hle & Hm). apply wp_bind.
  apply wp_post with (λ x w', searched w w' size x.1 ∧ 0 <= x.2 < zones_used (w_root w)).
  { destruct (hv_sizes w Hw s ltac:(lia) Hm) as [->|(Hl1 & Hl2 & Hl3)].
    - cbn [Z.eqb negb]. pose proof (hv_used w Hw). apply wp_ret. split; [|simpl; lia]. split_and!; [done|apply quiet_refl|done].
    - rewrite (proj2 (Z.eqb_neq _ 0)) by lia. cbn [negb]. apply (wp_walk_sizes E _ _ s size); try done; try lia. }
  intros [[j|] i] w' [Hsr Hi]; [by apply wp_ret, HQ|]. destruct Hsr as (Hw' & Hq & _). cbn [snd] in Hi.
  set (k := if SMALL_MEM_STARTUP then _ else 0).
  assert (0 <= k) by (unfold k, DEFAULT_ZONE_COUNT, default_zones; destruct SMALL_MEM_STARTUP; [|lia]; repeat case_match; rewrite ?Z.shiftr_nonneg; lia).
  apply wp_walk_zones; try done; [rewrite (quiet_used _ _ Hq); pose proof (hv_used w Hw); lia|].
  intros r w'' Hsr. apply HQ. by eapply searched_trans.
Qed.
End search.

(** ** Taking a slot *)

Section take.
Context `{!Kernel, !KernelLaws, !Config}.

Definition taken (z : iso_alloc_zone_t) : iso_alloc_zone_t :=
  MASK_ZONE_PTRS (allocated (set_next_free_bit_slot BAD_BIT_SLOT (UNMASK_ZONE_PTRS z))).

Lemma taken_shape z : same_shape z (taken z).
Proof.
  unfold taken, UNMASK_ZONE_PTRS. constructor; try done;
    unfold UNMASK_USER_PTR, UNMASK_BITMAP_PTR, MASK_ZONE_PTRS, allocated, mask_ptr; simpl;
    destruct MASK_PTRS; try done; by rewrite !lxor_cancel.
Qed.

(** Pointers in the clear, the next slot handed over. *)
Lemma zinv_opened vm m z : zone_inv vm m z →
  zinv vm m (UNMASK_USER_PTR z) (UNMASK_BITMAP_PTR z) (set_next_free_bit_slot BAD_BIT_SLOT (UNMASK_ZONE_PTRS z)).
Proof.
  intros [[?????] [?????] [??????] Hcan Hsec Haf]. constructor; try done; try by constructor.
  constructor; try done. by left.
Qed.

Lemma zinv_masked vm m U B z : zinv vm m U B z → zinv vm m U B (MASK_ZONE_PTRS z).
Proof. intros [[?????] [?????] [??????] Hcan Hsec Haf]. constructor; try done; by constructor. Qed.

Lemma free_slot_even m B z s : free_slot m B z s → ∃ c, s = 2 * c ∧ 0 <= c < slots z ∧ bm_bit m B (2 * c) = false.
Proof.
  intros (Hr & He & Hb). apply Zeven_bool_iff in He. destruct (Zeven_ex _ He) as [c ->]. exists c.
  split_and!; try done; unfold slots; lia.
Qed.

Lemma alloc_from_eq zi c w :
  let z := zone_at w zi in
  let U := UNMASK_USER_PTR z in
  let B := UNMASK_BITMAP_PTR z in
  zone_inv (w_vm w) (w_mem w) z → free_slot (w_mem w) B z (2 * c) → next_free_bit_slot z = 2 * c →
  ∃ m', alloc_from zi (2 * c) w =
      (UNLOCK_ROOT;; populate_zone_cache zi;; mret (chunk_addr U z c)) (zput_w zi (taken z) (set_w_mem m' w)) ∧
    chunk_effect (w_mem w) m' U B c z true false ∧ zone_inv (w_vm w) m' (taken z).
Proof.
  intros z U B Hinv Hfree Hn. set (y := set_next_free_bit_slot BAD_BIT_SLOT (UNMASK_ZONE_PTRS z)).
  pose proof (zinv_opened _ _ _ Hinv : zinv (w_vm w) (w_mem w) U B y) as Hy.
  pose proof Hfree as (Hr & _ & Hb). assert (Hc : 0 <= c < slots z) by (unfold slots; lia).
  assert (Hni : ¬ (2 * c ∈ live_cache y)).
  { destruct (co_next _ _ _ (zinv_cache _ _ _ _ _ Hinv)) as [Hbad|[_ Hni]]; [change BAD_BIT_SLOT with (-1) in Hbad; lia|].
    by rewrite Hn in Hni. }
  set (w1 := zput_w zi y w). assert (Hw1 : zone_at w1 zi = y) by apply zone_at_put.
  destruct (alloc_slot_eq zi c w1 U B) as (m' & Heq & He); rewrite ?Hw1; try done.
  rewrite Hw1 in Heq, He. exists m'. split_and!.
  - unfold alloc_from, mbind, M_bind. unfold zmod at 1 2. rewrite zone_at_put, zput_put. fold z y w1. rewrite Heq.
    unfold zmod. rewrite zone_at_put, zput_put.
    change (set_w_mem m' w1) with (zput_w zi y (set_w_mem m' w)). rewrite zput_put. done.
  - destruct He. by constructor.
  - unfold zone_inv. destruct (taken_shape z). rewrite ss_user, ss_bitmap. unfold taken. apply zinv_masked.
    apply (zinv_allocated _ (w_mem w) m' U B c); try done; simpl; change BAD_BIT_SLOT with (-1); lia.
Qed.

(** ** The thread's zone cache *)

Lemma heap_inv_cache c n w : heap_inv w → length c = 8%nat → 0 <= n <= 8 →
  (∀ e, e ∈ take (Z.to_nat n) c →
    0 <= tzc_zone e < zones_used (w_root w) ∧
    tzc_chunk_size e = chunk_size (zone_at w (tzc_zone e)) ∧ internal (zone_at w (tzc_zone e)) = true) →
  heap_inv (set_w_zone_cache_count n (set_w_zone_cache c w)).
Proof.
  intros Hw Hl Hn He. pose proof Hw as []. constructor; try done; [by apply (bitmaps_ok_same w)|].
  apply (layouts_keep w _ (zone_ix w)); try done. apply same_pages_refl.
Qed.

Definition cache_step (w w' : world) : Prop :=
  ∃ c n, w' = set_w_zone_cache_count n (set_w_zone_cache c w).

Lemma populate_spec zi w : heap_inv w → 0 <= zi < zones_used (w_root w) →
  ∃ w', populate_zone_cache zi w = Ret tt w' ∧ heap_inv w' ∧ cache_step w w'.
Proof.
  intros Hw Hi. destruct (hv_cache_len w Hw) as [Hl Hn]. pose proof (hv_cache w Hw) as Hc.
  assert (Hstay : heap_inv w ∧ cache_step w w).
  { split; [done|]. exists (w_zone_cache w), (w_zone_cache_count w). by destruct w. }
  unfold populate_zone_cache, mbind, M_bind, get. case_match; [by exists w|]. unfold zget.
  destruct (internal (zone_at w zi)) eqn:Hint; cbn [negb]; [|by exists w]. change ZONE_CACHE_SZ with 8.
  set (e := mk_tzc _ _). assert (He : 0 <= tzc_zone e < zones_used (w_root w) ∧
    tzc_chunk_size e = chunk_size (zone_at w (tzc_zone e)) ∧ internal (zone_at w (tzc_zone e)) = true) by done.
  destruct (Z.ltb_spec (w_zone_cache_count w) 8).
  - eexists. split; [done|]. split; [|by eexists _, _].
    apply heap_inv_cache; [done|by rewrite length_insert|lia|]. intros e' (k & Hk)%list_elem_of_lookup.
    rewrite lookup_take in Hk. case_decide; [|done]. rewrite list_lookup_insert in Hk. case_decide as Hd; [naive_solver|].
    apply Hc, list_elem_of_lookup. exists k. rewrite lookup_take, decide_True; [done|]. lia.
  - assert (Hn8 : w_zone_cache_count w = 8) by lia. eexists. split; [done|]. split; [|by eexists _, _].
    apply heap_inv_cache; [done|rewrite length_insert, length_app, !length_drop; simpl; lia|lia|].
    intros e' (k & Hk)%list_elem_of_lookup. rewrite lookup_take in Hk. case_decide; [|done].
    rewrite list_lookup_insert in Hk. case_decide as Hd; [naive_solver|].
    apply Hc. rewrite Hn8, take_ge by (rewrite Hl; done). apply list_elem_of_lookup.
    apply list_elem_of_lookup_2 in Hk. rewrite elem_of_app in Hk.
    destruct Hk as [(i & Hk)%list_elem_of_lookup|(i & Hk)%list_elem_of_lookup]; rewrite lookup_drop in Hk; by eexists.
Qed.
End take.

(** ** The chunks in use *)

Section alloc.
Context `{!Kernel, !KernelLaws, !Config}.

(** Chunk [d] of zone [j] is in use. *)
Definition in_use_at (w : world) (j d : Z) : Prop :=
  0 <= j < zones_used (w_root w) ∧ 0 <= d < slots (zone_at w j) ∧
  chunk_st (w_mem w) (UNMASK_BITMAP_PTR (zone_at w j)) d = ChunkInUse.

Definition chunk_at (w : world) (j d : Z) : Z := chunk_addr (UNMASK_USER_PTR (zone_at w j)) (zone_at w j) d.
Definition in_chunk (w : world) (j d a : Z) : Prop :=
  chunk_at w j d <= a < chunk_at w j d + chunk_size (zone_at w j).

(** The chunks waiting to be freed, and their number. *)
Definition quarantine (w : world) : list Z * Z := (w_chunk_quarantine w, chunk_quarantine_count (w_root w)).

(** The fields of a zone that decide about tags and retirement, its chunks in use apart. *)
Definition same_life (z z' : iso_alloc_zone_t) : Prop :=
  tagged z' = tagged z ∧ chunk_count z' = chunk_count z ∧ alloc_count z' = alloc_count z.

(** The same, after at most one more allocation from the zone. *)
Definition aged (z z' : iso_alloc_zone_t) : Prop :=
  tagged z' = tagged z ∧ chunk_count z' = chunk_count z ∧
  (alloc_count z' = alloc_count z ∨ alloc_count z' = u32 (alloc_count z + 1)).

(** The constants of the root that decide how a pointer is freed. *)
Definition same_policy (w w' : world) : Prop :=
  zone_retirement_shf (w_root w') = zone_retirement_shf (w_root w) ∧ zero_alloc_page (w_root w') = zero_alloc_page (w_root w).

(** The root's two lists of big zones. *)
Definition big_lists (r : iso_alloc_root) : Z * Z * Z * Z :=
  (big_zone_used r, big_zone_used_count r, big_zone_free r, big_zone_free_count r).

(** What an operation on zones leaves alone: the big zones, all mappings, and every mapped
    byte that is not the zones'; memory they take was theirs or not mapped. *)
Record others_kept (w w' : world) : Prop := {
  ok_bigs : w_bigs w' = w_bigs w ∧ big_lists (w_root w') = big_lists (w_root w);
  ok_secrets : big_zone_next_mask (w_root w') = big_zone_next_mask (w_root w) ∧
    big_zone_canary_secret (w_root w') = big_zone_canary_secret (w_root w) ∧ w_page_size w' = w_page_size w;
  ok_locks : w_big_free_lock w' = w_big_free_lock w ∧ w_big_used_lock w' = w_big_used_lock w;
  ok_vm : ∀ x, vm_prot (w_vm w) x ≠ None → vm_prot (w_vm w') x = vm_prot (w_vm w) x;
  ok_mem : ∀ x, vm_prot (w_vm w) x ≠ None → ¬ zone_owned w x → ld8 (w_mem w') x = ld8 (w_mem w) x;
  ok_owned : ∀ x, zone_owned w' x → zone_owned w x ∨ vm_prot (w_vm w) x = None;
  ok_reserved : ∀ x, zone_reserved w' x → zone_reserved w x ∨ vm_prot (w_vm w) x = None;
}.

Lemma others_kept_trans w1 w2 w3 : others_kept w1 w2 → others_kept w2 w3 → others_kept w1 w3.
Proof.
  intros [[A1 A2] (A3 & A4 & A5) [A6 A7] A8 A9 A10 A11] [[B1 B2] (B3 & B4 & B5) [B6 B7] B8 B9 B10 B11].
  assert (Hno : ∀ x, vm_prot (w_vm w2) x = None → vm_prot (w_vm w1) x = None).
  { intros x Hx. destruct (vm_prot (w_vm w1) x) eqn:Hv; [|done]. rewrite A8 in Hx; congruence. }
  constructor; [split; congruence|split_and!; congruence|split; congruence| | | |].
  - intros x Hx. rewrite B8; [by apply A8|]. by rewrite A8.
  - intros x Hx Hn. rewrite B9; [by apply A9|by rewrite A8|]. intros Ho. by destruct (A10 x Ho).
  - intros x Ho. destruct (B10 x Ho) as [Ho'|Hx]; [by apply A10|right; by apply Hno].
  - intros x Ho. destruct (B11 x Ho) as [Ho'|Hx]; [by apply A11|right; by apply Hno].
Qed.

(** The chunks in use and their contents are the same in both worlds. *)
Record keeps (w w' : world) : Prop := {
  kp_heap : heap_inv w';
  kp_used : zones_used (w_root w) <= zones_used (w_root w');
  kp_shape : ∀ j, 0 <= j < zones_used (w_root w) → same_shape (zone_at w j) (zone_at w' j);
  kp_in_use : ∀ j d, in_use_at w' j d ↔ in_use_at w j d;
  kp_bytes : ∀ j d a, in_use_at w j d → in_chunk w j d a → ld8 (w_mem w') a = ld8 (w_mem w) a;
  kp_quar : quarantine w' = quarantine w;
  kp_life : ∀ j, 0 <= j < zones_used (w_root w) → same_life (zone_at w j) (zone_at w' j);
  kp_policy : same_policy w w';
  kp_others : others_kept w w';
}.

(** A successful small allocation: [p] is chunk [c] of zone [i], large enough, not in use
    before; every other chunk in use stays in use with its contents. *)
Record small_alloc (w w' : world) (size p i c : Z) : Prop := {
  sa_heap : heap_inv w';
  sa_chunk : in_use_at w' i c;
  sa_addr : p = chunk_at w' i c;
  sa_size : size <= chunk_size (zone_at w' i);
  sa_fresh : ¬ in_use_at w i c;
  sa_in_use : ∀ j d, in_use_at w' j d ↔ in_use_at w j d ∨ (j = i ∧ d = c);
  sa_bytes : ∀ j d a, in_use_at w j d → in_chunk w j d a → ld8 (w_mem w') a = ld8 (w_mem w) a;
  sa_shape : ∀ j, 0 <= j < zones_used (w_root w) → same_shape (zone_at w j) (zone_at w' j);
  sa_lock : w_root_lock w' = false;
  sa_quar : quarantine w' = quarantine w;
  sa_life : ∀ j, 0 <= j < zones_used (w_root w) → aged (zone_at w j) (zone_at w' j);
  sa_policy : same_policy w w';
  sa_others : others_kept w w';
}.

Lemma same_shape_chunk w w' j d : same_shape (zone_at w j) (zone_at w' j) → chunk_at w' j d = chunk_at w j d.
Proof. intros []. unfold chunk_at, chunk_addr. congruence. Qed.

Lemma same_shape_in_use w w' j d : same_shape (zone_at w j) (zone_at w' j) → w_mem w' = w_mem w →
  zones_used (w_root w') = zones_used (w_root w) → in_use_at w' j d ↔ in_use_at w j d.
Proof. intros [] Hm Hu. unfold in_use_at, slots. by rewrite ss_max, ss_bitmap, Hm, Hu. Qed.

Lemma owned_same w w' x : zones_used (w_root w') = zones_used (w_root w) → bitmaps (w_root w') = bitmaps (w_root w) →
  w_page_size w' = w_page_size w → (∀ j, same_shape (zone_at w j) (zone_at w' j)) → zone_owned w' x → zone_owned w x.
Proof.
  intros Hu Hb Hp Hsh [(j & Hj & Hf)|(a & n & Hf & Hx)].
  - left. exists j. split; [by rewrite <-Hu|]. by apply (same_shape_footprint _ _ x (Hsh j)).
  - right. exists a, n. by rewrite <-Hb, <-Hp.
Qed.

Lemma zone_reserved_same w w' x : zones_used (w_root w') = zones_used (w_root w) → bitmaps (w_root w') = bitmaps (w_root w) →
  w_page_size w' = w_page_size w → (∀ j, same_shape (zone_at w j) (zone_at w' j)) → zone_reserved w' x → zone_reserved w x.
Proof.
  intros Hu Hb Heq Hsh. unfold zone_reserved, zone_ix. rewrite Hu. apply reserved_same; try done. rewrite Hb. apply same_pages_refl.
Qed.

Lemma quiet_keeps w w' : heap_inv w' → quiet w w' → keeps w w'.
Proof.
  intros Hw' Hq. pose proof (quiet_used _ _ Hq) as Hu. constructor; [done|lia| | | | | | |].
  - intros j _. by apply quiet_shape.
  - intros j d. by apply same_shape_in_use; [apply quiet_shape|apply Hq|].
  - intros. by rewrite (q_mem _ _ Hq).
  - unfold quarantine. destruct (q_root _ _ Hq) as [s ->]. by rewrite (q_quar _ _ Hq).
  - intros j _. by destruct (q_zones _ _ Hq j) as (? & ? & ? & ? & ? & ->).
  - unfold same_policy. by destruct (q_root _ _ Hq) as [s ->].
  - destruct (q_root _ _ Hq) as [s Hr]. destruct (q_locks _ _ Hq) as (_ & L1 & L2).
    constructor; rewrite ?Hr, ?(q_mem _ _ Hq), ?(q_vm _ _ Hq), ?(q_page _ _ Hq), ?(q_bigs _ _ Hq); try done.
    + intros x Ho. left. revert Ho. apply owned_same; [by rewrite Hr|by rewrite Hr|apply Hq|]. intros j. by apply quiet_shape.
    + intros x Ho. left. revert Ho. apply zone_reserved_same; [by rewrite Hr|by rewrite Hr|apply Hq|]. intros j. by apply quiet_shape.
Qed.

Lemma same_life_trans x y z : same_life x y → same_life y z → same_life x z.
Proof. intros (? & ? & ?) (? & ? & ?). split_and!; congruence. Qed.

Lemma same_policy_trans w1 w2 w3 : same_policy w1 w2 → same_policy w2 w3 → same_policy w1 w3.
Proof. intros [] []. split; congruence. Qed.

Lemma aged_after x y z : same_life x y → aged y z → aged x z.
Proof. intros (? & ? & Ha) (? & ? & Hb). rewrite Ha in Hb. split_and!; congruence || done. Qed.

Lemma keeps_trans w1 w2 w3 : keeps w1 w2 → keeps w2 w3 → keeps w1 w3.
Proof.
  intros [A1 A2 A3 A4 A5 A6 A7 A8 A9] [B1 B2 B3 B4 B5 B6 B7 B8 B9].
  constructor; [done|lia| | | |by rewrite B6| |by eapply same_policy_trans|by eapply others_kept_trans].
  - intros j Hj. eapply same_shape_trans; [by apply A3|]. apply B3. lia.
  - intros j d. by rewrite B4, A4.
  - intros j d a Hin Ha. rewrite (B5 j d a); [by eapply A5|by apply A4|]. unfold in_chunk.
    pose proof (A3 j (proj1 Hin)) as Hs. by rewrite (same_shape_chunk _ _ _ _ Hs), (ss_size _ _ Hs).
  - intros j Hj. eapply same_life_trans; [by apply A7|]. apply B7. lia.
Qed.

Lemma keeps_alloc w1 w2 w3 size p i c : keeps w1 w2 → small_alloc w2 w3 size p i c → small_alloc w1 w3 size p i c.
Proof.
  intros [A1 A2 A3 A4 A5 A6 A7 A8 A9] [B1 B2 B3 B4 B5 B6 B7 B8 B9 B10 B11 B12 B13].
  constructor; try done; [| | | |by rewrite B10| |by eapply same_policy_trans|by eapply others_kept_trans].
  - by rewrite <-A4.
  - intros j d. by rewrite B6, A4.
  - intros j d a Hin Ha. rewrite (B7 j d a); [by eapply A5|by apply A4|]. unfold in_chunk.
    pose proof (A3 j (proj1 Hin)) as Hs. by rewrite (same_shape_chunk _ _ _ _ Hs), (ss_size _ _ Hs).
  - intros j Hj. eapply same_shape_trans; [by apply A3|]. apply B8. lia.
  - intros j Hj. eapply aged_after; [by apply A7|]. apply B11. lia.
Qed.

(** Steps that change neither memory nor zones nor the root. *)
Lemma small_alloc_then w w1 w2 size p i c : small_alloc w w1 size p i c →
  heap_inv w2 → w_mem w2 = w_mem w1 → w_zones w2 = w_zones w1 → w_root w2 = w_root w1 → w_root_lock w2 = false →
  w_chunk_quarantine w2 = w_chunk_quarantine w1 → others_kept w1 w2 → small_alloc w w2 size p i c.
Proof.
  intros [B1 B2 B3 B4 B5 B6 B7 B8 B9 B10 B11 B12 B13] Hw2 Hm Hz Hr Hl Hq Hok.
  assert (Hat : ∀ j, zone_at w2 j = zone_at w1 j) by (intros j; unfold zone_at; by rewrite Hz).
  assert (Hin : ∀ j d, in_use_at w2 j d ↔ in_use_at w1 j d) by (intros j d; unfold in_use_at; by rewrite Hat, Hm, Hr).
  constructor; try done; unfold chunk_at in *; rewrite ?Hat; try done.
  - by apply Hin.
  - intros j d. by rewrite Hin.
  - intros j d a. rewrite Hm. apply B7.
  - intros j. rewrite Hat. apply B8.
  - unfold quarantine in *. by rewrite Hq, Hr.
  - intros j. rewrite Hat. apply B11.
  - unfold same_policy in *. by rewrite Hr.
  - by eapply others_kept_trans.
Qed.

Lemma chunk_st_footprint w m' j d : heap_inv w → 0 <= j < zones_used (w_root w) → 0 <= d < slots (zone_at w j) →
  (∀ a, footprint (zone_at w j) a → ld8 m' a = ld8 (w_mem w) a) →
  chunk_st m' (UNMASK_BITMAP_PTR (zone_at w j)) d = chunk_st (w_mem w) (UNMASK_BITMAP_PTR (zone_at w j)) d.
Proof.
  intros Hw Hj Hd Hf. destruct (hv_zone_at w j Hw Hj) as [_ Hij]. unfold chunk_st, slots in *.
  rewrite !(bm_bit_ext (w_mem w) m' _ (max_bitmap_idx (zone_at w j))); try done; try lia;
    intros a Ha; apply Hf; eapply footprint_zinv; [exact Hij|by right|exact Hij|by right].
Qed.

(** Chunk [c] of zone [i] changed its state, and nothing else did. *)
Record chunk_changed (w w' : world) (i c : Z) (used : bool) : Prop := {
  cc_heap : heap_inv w';
  cc_shape : ∀ j, same_shape (zone_at w j) (zone_at w' j);
  cc_in_use : ∀ j d, in_use_at w' j d ↔ (in_use_at w j d ∧ ¬ (j = i ∧ d = c)) ∨ (used = true ∧ j = i ∧ d = c);
  cc_bytes : ∀ j d a, in_use_at w j d → ¬ (j = i ∧ d = c) → in_chunk w j d a → ld8 (w_mem w') a = ld8 (w_mem w) a;
  cc_out : ∀ x, ¬ footprint (zone_at w i) x → ld8 (w_mem w') x = ld8 (w_mem w) x;
}.

(** The effect on the whole heap of changing the two bits of one chunk. *)
Lemma heap_effect w i c m' z' x y b :
  let z := zone_at w i in
  heap_inv w → 0 <= i < zones_used (w_root w) → 0 <= c < slots z →
  chunk_effect (w_mem w) m' (UNMASK_USER_PTR z) (UNMASK_BITMAP_PTR z) c z x y →
  zone_inv (w_vm w) m' z' → same_shape z z' →
  chunk_changed w (set_w_root_lock b (zput_w i z' (set_w_mem m' w))) i c (bool_decide (state_of_bits x y = ChunkInUse)).
Proof.
  intros z Hw Hi Hc He Hinv' Hsh. set (w' := set_w_root_lock b _). destruct (hv_zone_at w i Hw Hi) as [Hz Hinv]. fold z in Hz, Hinv.
  assert (Hfp : ∀ a, ¬ footprint z a → ld8 m' a = ld8 (w_mem w) a).
  { intros a Ha. apply He.
    - destruct (decide (a < UNMASK_BITMAP_PTR z ∨ UNMASK_BITMAP_PTR z + 8 * max_bitmap_idx z <= a)); [done|].
      destruct Ha. eapply footprint_zinv; [exact Hinv|right; lia].
    - destruct (decide (a < chunk_addr (UNMASK_USER_PTR z) z c ∨ chunk_addr (UNMASK_USER_PTR z) z c + chunk_size z <= a)); [done|].
      destruct Ha. eapply footprint_zinv; [exact Hinv|left; exists c; split; [done|lia]]. }
  assert (Hat : ∀ j, zone_at w' j = if decide (j = i) then z' else zone_at w j).
  { intros j. unfold w', zone_at. simpl. case_decide as Hd; [subst; by rewrite lookup_insert_eq|by rewrite lookup_insert_ne]. }
  assert (Hshape : ∀ j, same_shape (zone_at w j) (zone_at w' j)).
  { intros j. rewrite Hat. case_decide as Hd; [by subst|apply same_shape_refl]. }
  assert (Hother : ∀ j a, 0 <= j < zones_used (w_root w) → j ≠ i → footprint (zone_at w j) a → ld8 m' a = ld8 (w_mem w) a).
  { intros j a Hj Hne Ha. apply Hfp. intros Hb. by apply (hv_disj w Hw j i Hj Hi Hne a). }
  constructor; [|done| | |exact Hfp].
  - pose proof (heap_inv_update i z' m' (w_k w) (seed (w_root w)) w Hw Hi Hinv' Hsh Hfp (hv_page w Hw)) as Hh.
    unfold zone_update in Hh. rewrite rng_id in Hh. by apply heap_inv_root_lock.
  - intros j d. pose proof (Hshape j) as Hsj. unfold in_use_at at 1, slots. rewrite (ss_max _ _ Hsj), (ss_bitmap _ _ Hsj).
    fold (slots (zone_at w j)). change (w_mem w') with m'. change (zones_used (w_root w')) with (zones_used (w_root w)).
    destruct (decide (j = i)) as [->|Hne].
    + fold z. assert (Hst : 0 <= d < slots z → chunk_st m' (UNMASK_BITMAP_PTR z) d = if d =? c then state_of_bits x y else chunk_st (w_mem w) (UNMASK_BITMAP_PTR z) d).
      { intros Hd. by rewrite (effect_chunk_st _ _ _ _ _ _ _ _ d He Hd). }
      rewrite bool_decide_eq_true. unfold in_use_at. fold z. split.
      * intros (_ & Hd & Hs). rewrite (Hst Hd) in Hs. destruct (Z.eqb_spec d c) as [->|Hdc]; [by right|left].
        split; [done|]. by intros [_ ?].
      * intros [[(_ & Hd & Hs) Hn]|(Hs & _ & ->)]; (split; [done|]); (split; [done|]); rewrite Hst by done.
        -- destruct (Z.eqb_spec d c) as [->|]; [by destruct Hn|done].
        -- by rewrite Z.eqb_refl.
    + assert (Hst : 0 <= j < zones_used (w_root w) → 0 <= d < slots (zone_at w j) →
        chunk_st m' (UNMASK_BITMAP_PTR (zone_at w j)) d = chunk_st (w_mem w) (UNMASK_BITMAP_PTR (zone_at w j)) d).
      { intros Hj Hd. apply (chunk_st_footprint w); [done..|]. intros a. by apply Hother. }
      unfold in_use_at. split.
      * intros (Hj & Hd & Hs). rewrite (Hst Hj Hd) in Hs. left. split; [done|]. by intros [? _].
      * intros [[(Hj & Hd & Hs) _]|(_ & ? & _)]; [|done]. by rewrite (Hst Hj Hd).
  - intros j d a (Hj & Hd & _) Hne Ha. change (w_mem w') with m'. destruct (decide (j = i)) as [->|Hji].
    + by apply (effect_other _ _ _ _ _ _ _ _ _ d a Hinv Hc Hd ltac:(naive_solver) He).
    + apply (Hother j a Hj Hji). destruct (hv_zone_at w j Hw Hj) as [_ Hij]. eapply footprint_zinv; [exact Hij|left; by exists d].
Qed.

(** The effect of [alloc_slot_eq] on the whole heap. *)
Lemma small_alloc_update w i c size m' :
  let z := zone_at w i in
  heap_inv w → 0 <= i < zones_used (w_root w) → size <= chunk_size z → 0 <= c < slots z →
  bm_bit (w_mem w) (UNMASK_BITMAP_PTR z) (2 * c) = false →
  chunk_effect (w_mem w) m' (UNMASK_USER_PTR z) (UNMASK_BITMAP_PTR z) c z true false →
  zone_inv (w_vm w) m' (taken z) →
  let w' := set_w_root_lock false (zput_w i (taken z) (set_w_mem m' w)) in
  small_alloc w w' size (chunk_addr (UNMASK_USER_PTR z) z c) i c.
Proof.
  intros z Hw Hi Hs Hc Hfree He Hinv' w'.
  destruct (heap_effect w i c m' (taken z) true false false Hw Hi Hc He Hinv' (taken_shape z)) as [A1 A2 A3 A4 A5]. fold w' in A1, A2, A3, A4, A5.
  assert (Hnot : ¬ in_use_at w i c).
  { intros (_ & _ & Hst). unfold chunk_st in Hst. fold z in Hst. rewrite Hfree in Hst.
    by destruct (bm_bit (w_mem w) (UNMASK_BITMAP_PTR z) (2 * c + 1)). }
  constructor; try done.
  - apply A3. by right.
  - by rewrite (same_shape_chunk w w' i c (A2 i)).
  - by rewrite (ss_size _ _ (A2 i)).
  - intros j d. rewrite A3, bool_decide_eq_true. split; [naive_solver|]. intros [Hin|Hin]; [|naive_solver].
    left. split; [done|]. by intros [-> ->].
  - intros j d a Hin. apply A4; [done|]. by intros [-> ->].
  - intros j _. unfold w', zone_at. simpl. destruct (decide (j = i)) as [->|Hne]; [|rewrite lookup_insert_ne by done; unfold aged; tauto].
    rewrite lookup_insert_eq. fold (zone_at w i). unfold aged. split_and!; [done|done|by right].
  - constructor; try done.
    + intros x _ Hno. apply A5. intros Hf. apply Hno. left. by exists i.
    + intros x Ho. left. by apply (owned_same w w').
    + intros x Ho. left. by apply (zone_reserved_same w w').
Qed.

Lemma wp_alloc_from E zi size w : heap_inv w → chosen w size zi →
  wp E (alloc_from zi (next_free_bit_slot (zone_at w zi))) (λ p w', ∃ c, small_alloc w w' size p zi c) w.
Proof.
  intros Hw [Hi Hs Hfree]. destruct (hv_zone_at w zi Hw Hi) as [_ Hinv].
  destruct (free_slot_even _ _ _ _ Hfree) as (c & Hn & Hc & Hb). rewrite Hn in Hfree |- *.
  destruct (alloc_from_eq zi c w Hinv Hfree Hn) as (m' & Heq & He & Hinv').
  pose proof (small_alloc_update w zi c size m' Hw Hi Hs Hc Hb He Hinv') as Hsa. cbv zeta in Hsa.
  set (w1 := set_w_root_lock false _) in Hsa.
  destruct (populate_spec zi w1 (sa_heap _ _ _ _ _ _ Hsa)) as (w2 & Hpop & Hw2 & (ch & n & Hw2eq)).
  { apply Hi. }
  unfold wp. rewrite Heq. unfold mbind, M_bind, UNLOCK_ROOT, upd. fold w1. rewrite Hpop. unfold mret, M_ret.
  exists c. apply (small_alloc_then w w1); try done; rewrite Hw2eq; try done.
  constructor; try done; intros x Ho; left; exact Ho.
Qed.

(** The cached candidate is a zone of the cache that is large enough. *)
Lemma cached_candidate_spec n w size i : heap_inv w → (n <= Z.to_nat (w_zone_cache_count w))%nat →
  cached_candidate n (w_zone_cache w) size = Some i →
  0 <= i < zones_used (w_root w) ∧ size <= chunk_size (zone_at w i) ∧ internal (zone_at w i) = true.
Proof.
  intros Hw. destruct (hv_cache_len w Hw) as [Hl Hc]. induction n as [|n IH]; intros Hn; [done|]. cbn [cached_candidate].
  destruct (lookup_lt_is_Some_2 (w_zone_cache w) n) as [e He]; [lia|]. rewrite nth_lookup, He. cbn [from_option id].
  destruct (Z.leb_spec size (tzc_chunk_size e)); [|intros; apply IH; [lia|done]]. intros [= <-].
  assert (Hin : e ∈ take (Z.to_nat (w_zone_cache_count w)) (w_zone_cache w)).
  { apply list_elem_of_lookup. exists n. rewrite lookup_take, decide_True by lia. done. }
  destruct (hv_cache w Hw e Hin) as (A1 & A2 & A3). rewrite <-A2. done.
Qed.
End alloc.
