(* ===== verification/NewZone.v ===== *)
(** * Correctness of zone creation

    [_iso_new_zone] on a well-formed heap takes a preallocated bitmap or maps one, maps
    fresh guarded user pages, sets the canary chunks, fills the free slot cache and leaves
    a well-formed heap with one zone more. *)

From S2P Require Import Prelude Words Conf Memory State Util ZoneBits FreeList Chunks Lookup Heap Zones BigZones Verify MemTags Alloc AllocSpec.

Section build.
Context `{!Kernel, !KernelLaws, !Config}.

(** The process while zone [zi] is under construction: the zone, the random seed, the
    preallocated bitmaps, memory, mappings and the kernel may differ from [w]. *)
Definition building (zi : Z) (w : world) (z : iso_alloc_zone_t) (s : Z) (bs : list iso_alloc_bitmap_t)
    (m : gmap Z Z) (vm : list vma) (k : kst) : world :=
  zput_w zi z (set_w_root (set_seed s (set_bitmaps bs (w_root w))) (after_sys m vm k w)).

Section steps.
Variables (zi : Z) (w : world).
Abbreviation B := (building zi w).

Lemma building_start z : zput_w zi z w = B z (seed (w_root w)) (bitmaps (w_root w)) (w_mem w) (w_vm w) (w_k w).
Proof. unfold building. f_equal. destruct w as [???? [] ???????????]. done. Qed.

Lemma building_zone z s bs m vm k : zone_at (B z s bs m vm k) zi = z.
Proof. apply zone_at_put. Qed.

Lemma building_put z z' s bs m vm k : zput_w zi z' (B z s bs m vm k) = B z' s bs m vm k.
Proof. apply zput_put. Qed.

Lemma building_seed z s bs m vm k s' : set_w_root (set_seed s' (w_root (B z s bs m vm k))) (B z s bs m vm k) = B z s' bs m vm k.
Proof. reflexivity. Qed.

Lemma building_sys z s bs m vm k m' vm' k' : after_sys m' vm' k' (B z s bs m vm k) = B z s bs m' vm' k'.
Proof. reflexivity. Qed.

Lemma building_mem z s bs m vm k m' : set_w_mem m' (B z s bs m vm k) = B z s bs m' vm k.
Proof. reflexivity. Qed.

Lemma building_rng z s bs m vm k k' s' : rng k' s' (B z s bs m vm k) = B z s' bs m vm k'.
Proof. reflexivity. Qed.

Lemma building_bitmaps z s bs m vm k bs' :
  set_w_root (set_bitmaps bs' (w_root (B z s bs m vm k))) (B z s bs m vm k) = B z s bs' m vm k.
Proof. reflexivity. Qed.

Lemma building_page z s bs m vm k : page_ok (set_w_k k w) → page_ok (B z s bs m vm k).
Proof. done. Qed.
End steps.

(** ** Bitmaps *)

Section bitmaps.
Variables (zi : Z) (w : world) (z : iso_alloc_zone_t) (s : Z) (bs : list iso_alloc_bitmap_t) (k : kst).
Hypothesis Hroot : w_root_null w = false.
Let W : world := building zi w z s bs (w_mem w) (w_vm w) k.

Lemma W_zone : zone_at W zi = z.
Proof. apply building_zone. Qed.

Lemma W_put z' : zput_w zi z' W = building zi w z' s bs (w_mem w) (w_vm w) k.
Proof. apply building_put. Qed.

(** Slot [j] of page [i] was taken. *)
Definition taken_slot (i : nat) (bm : iso_alloc_bitmap_t) (j : Z) : world :=
  building zi w (set_preallocated_bitmap_idx j (set_bitmap_start (bitmap bm + bitmap_size z * j) z)) s
    (alter (λ b, set_in_use (u32 (SET_BIT (in_use b) j)) b) i bs) (w_mem w) (w_vm w) k.

(** The search for a free part of a page: beyond bit 31 of [in_use] it is undefined. *)
Lemma take_bitmap_run n j i bm : bs !! i = Some bm → 0 <= j →
  (∃ l, j <= l < j + Z.of_nat n ∧ l < 32 ∧ Z.testbit (in_use bm) l = false ∧ take_bitmap n j i zi W = Ret tt (taken_slot i bm l)) ∨
  take_bitmap n j i zi W = Ret tt W ∨
  (take_bitmap n j i zi W = Undef ∧ 32 < j + Z.of_nat n ∧ ∀ l, j <= l < 32 → Z.testbit (in_use bm) l = true).
Proof using Hroot.
  intros Hi. revert j. induction n as [|n IH]; intros j Hj; cbn [take_bitmap]; [by right; left|].
  unfold mbind, M_bind, root. change (w_root_null W) with (w_root_null w). rewrite Hroot.
  change (bitmaps (w_root W)) with bs. rewrite nth_lookup, Hi. cbn [from_option id].
  destruct (Z.leb_spec 32 j) as [Hge|Hlt]; [right; right; split; [done|]; split; [lia|]; intros l Hl; lia|].
  rewrite GET_BIT_spec by done. destruct (Z.testbit (in_use bm) j) eqn:Hb; cbn [Z.b2z Z.eqb].
  - destruct (IH (j + 1)) as [(l & Hl & Hrest)|[Hrest|(Hrest & Hn & Hall)]]; [lia|left|by right; left|right; right].
    + exists l. split; [lia|done].
    + split; [done|]. split; [lia|]. intros l Hl. destruct (decide (l = j)) as [->|]; [done|]. apply Hall. lia.
  - left. exists j. split_and!; [lia|lia|lia|done|]. unfold zmod, put_bitmap, rupd. rewrite W_zone, W_put.
    change (w_root_null (building _ _ _ _ _ _ _ _)) with (w_root_null w). by rewrite Hroot.
Qed.

(** A free slot of a page for bitmaps of the size of [z]. *)
Definition slot_for (i : nat) (bm : iso_alloc_bitmap_t) (j : Z) : Prop :=
  bs !! i = Some bm ∧ bucket bm = bitmap_size z ∧ 0 <= j < w_page_size w / bitmap_size z ∧ j < 32 ∧ Z.testbit (in_use bm) j = false.

Lemma find_bitmap_run n i : bitmap_start z = 0 → 0 < bitmap_size z → (∀ i bm, bs !! i = Some bm → bucket bm = bitmap_size z →
    0 < bitmap bm ∧ 0 < w_page_size w / bitmap_size z) →
  (∃ i' bm l, (i' < i + n)%nat ∧ slot_for i' bm l ∧ find_bitmap n i zi W = Ret tt (taken_slot i' bm l)) ∨ find_bitmap n i zi W = Ret tt W ∨
  (find_bitmap n i zi W = Undef ∧ ∃ i' bm, bs !! i' = Some bm ∧ bucket bm = bitmap_size z ∧
     32 < w_page_size w / bitmap_size z ∧ ∀ l, 0 <= l < 32 → Z.testbit (in_use bm) l = true).
Proof using Hroot.
  intros Hz Hpos Hbs. revert i. induction n as [|n IH]; intros i; cbn [find_bitmap]; [by right; left|].
  assert (Hnext : ∀ R, find_bitmap n (S i) zi W = R → (∃ i' bm l, (i' < i + S n)%nat ∧ slot_for i' bm l ∧ R = Ret tt (taken_slot i' bm l)) ∨ R = Ret tt W ∨
    (R = Undef ∧ ∃ i' bm, bs !! i' = Some bm ∧ bucket bm = bitmap_size z ∧ 32 < w_page_size w / bitmap_size z ∧ ∀ l, 0 <= l < 32 → Z.testbit (in_use bm) l = true)).
  { intros R <-. destruct (IH (S i)) as [(i' & bm & l & Hi' & Hrest)|Hrest]; [left; exists i', bm, l; split; [lia|done]|by right]. }
  unfold mbind, M_bind, root, get, zget. change (w_root_null W) with (w_root_null w). rewrite Hroot.
  change (bitmaps (w_root W)) with bs. rewrite W_zone.
  change (w_page_size W) with (w_page_size w). rewrite nth_lookup. destruct (bs !! i) as [bm|] eqn:Hi; cbn [from_option id].
  2: { cbn [bucket]. rewrite (proj2 (Z.eqb_neq 0 _)) by lia. cbn [andb when mret M_ret]. unfold mret, M_ret. rewrite W_zone, Hz. by apply Hnext. }
  destruct (Z.eqb_spec (bucket bm) (bitmap_size z)) as [Hbk|Hbk]; cbn [andb when].
  2: { unfold mret, M_ret. rewrite W_zone, Hz. by apply Hnext. }
  destruct (Hbs i bm Hi Hbk) as (Hbm & Hcnt). destruct (Z.eqb_spec (in_use bm) 0) as [Hz0|Hz0].
  - left. exists i, bm, 0. split; [lia|]. split; [split_and!; [done|done|lia|done|lia|by rewrite Hz0, Z.testbit_0_l]|].
    unfold zmod, put_bitmap, rupd. rewrite W_zone, W_put.
    change (w_root_null (building _ _ _ _ _ _ _ _)) with (w_root_null w). rewrite Hroot. unfold taken_slot.
    by rewrite Z.mul_0_r, Z.add_0_r.
  - destruct (take_bitmap_run (Z.to_nat (w_page_size w / bitmap_size z)) 0 i bm Hi ltac:(lia)) as [(l & Hl & Hl32 & Hlb & ->)|[-> |(-> & Hn & Hall)]].
    + left. exists i, bm, l. rewrite Z2Nat.id in Hl by lia. split; [lia|]. split; [split_and!; [done|done|lia|lia|done|done]|].
      unfold taken_slot. rewrite building_zone. cbn [bitmap_start set_preallocated_bitmap_idx set_bitmap_start].
      rewrite (proj2 (Z.eqb_neq _ 0)) by nia. done.
    + rewrite W_zone, Hz. by apply Hnext.
    + right; right. split; [done|]. exists i, bm. rewrite Z2Nat.id in Hn by lia. done.
Qed.
End bitmaps.

(** The bitmap of a new zone: [n] zero bytes at [a] that belong to no zone. *)
Record bitmap_made (w : world) (a n i : Z) (bs : list iso_alloc_bitmap_t) (m : gmap Z Z) (vm : list vma) : Prop := {
  bmd_vm : ∀ x, vm_prot (w_vm w) x ≠ None → vm_prot vm x = vm_prot (w_vm w) x;
  bmd_mem : ∀ x, vm_prot (w_vm w) x ≠ None → ld8 m x = ld8 (w_mem w) x;
  bmd_rw : mapped_rw vm a n;
  bmd_range : 0 < a ∧ a + n <= 2 ^ 47;
  bmd_zero : ∀ x, a <= x < a + n → ld8 m x = 0;
  bmd_apart : ∀ j x, 0 <= j < zones_used (w_root w) → footprint (zone_at w j) x → ¬ (a <= x < a + n);
  bmd_free : ∀ b l x, bm_free bs (w_page_size w) b l → b <= x < b + l →
    bm_free (bitmaps (w_root w)) (w_page_size w) b l ∧ ¬ (a <= x < a + n);
  bmd_pages : ∀ i b', bs !! i = Some b' → ∃ b, bitmaps (w_root w) !! i = Some b ∧ bitmap b' = bitmap b ∧
    bucket b' = bucket b ∧ (0 <= in_use b < 2 ^ 32 → 0 <= in_use b' < 2 ^ 32);
  bmd_same : (∀ i b, bitmaps (w_root w) !! i = Some b → bucket b = 0) → bs = bitmaps (w_root w);
  bmd_slot : ∀ x, a <= x < a + n → zone_owned w x ∨ vm_prot (w_vm w) x = None;
  bmd_kept : same_pages (bitmaps (w_root w)) bs;
  bmd_left : ∀ b l, bm_free (bitmaps (w_root w)) (w_page_size w) b l → bm_free bs (w_page_size w) b l ∨ b = a ∧ l = n;
  bmd_place :
    i = -1 ∧ a mod w_page_size w = 0 ∧
      (let own x := a - w_page_size w <= x < a + whole_pages (w_page_size w) n + w_page_size w in
       ∀ x, (own x → vm_prot (w_vm w) x = None ∧ vm_prot vm x ≠ None) ∧ (¬ own x → vm_prot vm x = vm_prot (w_vm w) x)) ∨
    i ≠ -1 ∧ vm = w_vm w ∧ ∃ l bm, (l < sbsi)%nat ∧ bitmaps (w_root w) !! l = Some bm ∧ bucket bm = n ∧
      0 <= i < w_page_size w / n ∧ i < 32 ∧ a = bitmap bm + n * i;
}.

(** Room for another bitmap in the pages whose [in_use] word has fewer bits than slots. *)
Definition bitmaps_room (w : world) : Prop := ∀ i bm, bitmaps (w_root w) !! i = Some bm → bucket bm ≠ 0 →
  w_page_size w / bucket bm <= 32 ∨ ∃ l, 0 <= l < 32 ∧ Z.testbit (in_use bm) l = false.

(** A claim for the processes in which [P] holds, and for the calls that return when [E] is
    [anything]. *)
Definition allows (E : failure → Prop) (P : Prop) : Prop := (∀ f, resource f → E f) ∧ ((∀ f, E f) ∨ P).

Lemma allows_resource (P : Prop) : P → allows resource P.
Proof. intros HP. split; [done|by right]. Qed.
Lemma allows_anything (P : Prop) : allows anything P.
Proof. split; [done|by left]. Qed.
Lemma allows_mono E (P P' : Prop) : (P → P') → allows E P → allows E P'.
Proof. intros Hi [HE [HA|HP]]; (split; [done|]); [by left|right; auto]. Qed.

Lemma set_bit_u32 x j l : 0 <= x < 2 ^ 32 → 0 <= j < 32 → 0 <= l → Z.testbit (u32 (SET_BIT x j)) l = Z.testbit x l || (l =? j).
Proof.
  intros Hx Hj Hl. rewrite u32_pow. destruct (Z.lt_ge_cases l 32).
  - rewrite Z.mod_pow2_bits_low, SET_BIT_spec by lia. by rewrite orb_comm, Z.eqb_sym.
  - rewrite Z.mod_pow2_bits_high by lia. rewrite (Z_testbit_above x 32) by lia. symmetry. apply Z.eqb_neq. lia.
Qed.

(** What the creation of a zone asks of the process: the preallocated bitmaps are in order,
    and the zones lie in mapped memory or above the addresses that can be mapped. *)
Record new_base (w : world) : Prop := {
  nb_root : w_root_null w = false;
  nb_page : page_ok w;
  nb_bitmaps : bitmaps_ok w;
  nb_owned : ∀ j x, 0 <= j < zones_used (w_root w) → footprint (zone_at w j) x → vm_prot (w_vm w) x ≠ None ∨ 2 ^ 47 <= x;
}.

Lemma heap_base w : heap_inv w → new_base w.
Proof. intros Hw. constructor; [apply Hw|apply Hw|apply Hw|]. intros j x Hj Hf. left. by apply (hv_owned w Hw j). Qed.

Lemma bitmap_made_taken w z i bm j : new_base w → 0 < bitmap_size z → (i < sbsi)%nat →
  slot_for w z (bitmaps (w_root w)) i bm j →
  bitmap_made w (bitmap bm + bitmap_size z * j) (bitmap_size z) j
    (alter (λ b, set_in_use (u32 (SET_BIT (in_use b) j)) b) i (bitmaps (w_root w))) (w_mem w) (w_vm w).
Proof.
  intros Hw Hpos Hlt (Hi & Hbk & Hj & Hj32 & Hbit). destruct (nb_bitmaps w Hw) as [B1 B2 B3].
  destruct (B3 i bm Hi ltac:(lia)) as (Hb1 & Hb2 & Hb3 & Hb4). set (n := bitmap_size z) in *.
  assert (Hfree : bm_free (bitmaps (w_root w)) (w_page_size w) (bitmap bm + n * j) n).
  { exists i, bm, j. split_and!; try done; lia. }
  assert (Hfit : n * j + n <= w_page_size w) by (pose proof (Z.mul_div_le (w_page_size w) n); nia).
  assert (Hin : ∀ l b', alter (λ b, set_in_use (u32 (SET_BIT (in_use b) j)) b) i (bitmaps (w_root w)) !! l = Some b' →
    ∃ b, bitmaps (w_root w) !! l = Some b ∧ b' = if decide (l = i) then set_in_use (u32 (SET_BIT (in_use b) j)) b else b).
  { intros l b'. destruct (decide (l = i)) as [->|Hne].
    - rewrite list_lookup_alter_eq, Hi. intros [= <-]. by exists bm.
    - rewrite list_lookup_alter_ne by done. intros Hl. by exists b'. }
  constructor; try done.
  - intros x Hx. by apply (B1 _ _ x Hfree).
  - split; [nia|lia].
  - intros x Hx. by apply (B1 _ _ x Hfree).
  - intros l x Hl Hf Hx. by apply (proj2 (proj2 (B1 _ _ x Hfree Hx)) l Hl).
  - intros b l x (i' & bm' & k & Hi' & Hn' & Hl & Hk & Hkb & ->) Hx. destruct (Hin i' bm' Hi') as (b0 & Hb0 & ->).
    pose proof (Z.mul_div_le (w_page_size w) l Hl) as Hml. destruct (decide (i' = i)) as [->|Hne].
    + assert (b0 = bm) as -> by congruence. simpl in *. rewrite set_bit_u32 in Hkb by lia.
      apply orb_false_iff in Hkb as [Hkb Hkj%Z.eqb_neq]. split; [exists i, bm, k; split_and!; done || lia|]. rewrite Hbk in Hn'. subst l. nia.
    + split; [exists i', b0, k; split_and!; done || lia|]. destruct (B2 i' i b0 bm Hb0 Hi Hne) as [Hap|Hap]; [lia|lia|nia|nia].
  - intros l b' Hl. destruct (Hin l b' Hl) as (b & Hb & ->). exists b. split; [done|]. case_decide; [|done].
    split_and!; [done|done|]. intros _. simpl. pose proof (u32_range (SET_BIT (in_use b) j)). lia.
  - intros Hno. specialize (Hno i bm Hi). lia.
  - intros x Hx. left. right. by exists (bitmap bm + n * j), n.
  - by apply same_pages_alter.
  - intros b l (i' & bm' & k & Hi' & -> & Hl & Hk & Hkb & ->). destruct (decide (i' = i)) as [->|Hne].
    + assert (bm' = bm) as -> by congruence. destruct (decide (k = j)) as [->|Hkj]; [right; by rewrite Hbk|left].
      exists i, (set_in_use (u32 (SET_BIT (in_use bm) j)) bm), k. rewrite list_lookup_alter_eq, Hi. split_and!; try done; try lia. simpl.
      destruct (Z.lt_ge_cases k 32) as [Hk32|Hk32]; [rewrite set_bit_u32 by lia; rewrite Hkb; by apply Z.eqb_neq|].
      apply (Z_testbit_above _ 32); [apply u32_range|lia].
    + left. exists i', bm', k. rewrite list_lookup_alter_ne by done. done.
  - right. split; [lia|]. split; [done|]. exists i, bm. done.
Qed.

Lemma bitmap_made_mapped w a n len m vm : new_base w → 0 < n <= len →
  (∀ x, vm_prot (w_vm w) x ≠ None → vm_prot vm x = vm_prot (w_vm w) x) →
  (∀ x, vm_prot (w_vm w) x ≠ None → ld8 m x = ld8 (w_mem w) x) →
  mapped_rw vm a len → unmapped (w_vm w) a len → 0 < a ∧ a + len <= 2 ^ 47 → (∀ x, a <= x < a + len → ld8 m x = 0) →
  a mod w_page_size w = 0 → len = whole_pages (w_page_size w) n →
  (∀ x, a - w_page_size w <= x < a + len + w_page_size w → vm_prot (w_vm w) x = None ∧ vm_prot vm x ≠ None) →
  (∀ x, ¬ (a - w_page_size w <= x < a + len + w_page_size w) → vm_prot vm x = vm_prot (w_vm w) x) →
  bitmap_made w a n (-1) (bitmaps (w_root w)) m vm.
Proof.
  intros Hw Hn Hvm Hm Hrw Hun Hr Hz Hal Hlen Hown Hout. destruct (nb_bitmaps w Hw) as [B1 B2 B3]. constructor; try done.
  - eapply mapped_rw_sub; [exact Hrw|lia|lia].
  - lia.
  - intros x Hx. apply Hz. lia.
  - intros j x Hj Hf Hx. destruct (nb_owned w Hw j x Hj Hf) as [Hv|]; [apply Hv, Hun|]; lia.
  - intros b l x Hf Hx. split; [done|]. intros Hx'. destruct (B1 b l x Hf Hx) as (Hx1 & _). rewrite Hun in Hx1; [done|lia].
  - intros i b' Hb'. by exists b'.
  - intros x Hx. right. apply Hun. lia.
  - apply same_pages_refl.
  - intros b l Hf. by left.
  - left. rewrite <-Hlen. split; [done|]. split; [done|]. cbv zeta. intros x. split; [apply Hown|apply Hout].
Qed.

Lemma wp_new_bitmap E w zi z s k Q : new_base w → allows E (bitmaps_room w) → page_ok (set_w_k k w) → bitmap_start z = 0 →
  0 < bitmap_size z <= 65536 →
  (∀ a i bs m vm k', bitmap_made w a (bitmap_size z) i bs m vm → page_ok (set_w_k k' w) →
     Q tt (building zi w (set_preallocated_bitmap_idx i (set_bitmap_start a z)) s bs m vm k')) →
  wp E (new_bitmap zi) Q (building zi w z s (bitmaps (w_root w)) (w_mem w) (w_vm w) k).
Proof.
  intros Hw [HE Hroom] Hk Hz0 Hsz HQ. set (W := building zi w z s _ _ _ _).
  assert (HW : zone_at W zi = z) by apply building_zone.
  assert (Hmap : wp E (map_bitmap zi) Q W).
  { unfold map_bitmap. do 2 wstep. rewrite HW. wstep. eapply wp_mono; [apply wp_mmap_guarded_rw_pages; [done|lia]|done|].
    intros p w' (F1 & F2 & F3 & F4 & F5 & F6 & F7 & F8 & F9 & F10). wstep. change (w_page_size W) with (w_page_size w) in *.
    change (page_len W (bitmap_size z)) with (page_len w (bitmap_size z)) in *. change (w_vm W) with (w_vm w) in *. change (w_mem W) with (w_mem w) in *.
    pose proof (page_ok_bounds w (nb_page w Hw)).
    destruct (page_len_spec w (bitmap_size z) (nb_page w Hw)) as [Hl _]; [lia|].
    assert (Hk' : page_ok (set_w_k (w_k w') w)) by (rewrite F10 in F9; exact F9).
    assert (Hin : ∀ x, vm_prot (w_vm w) x ≠ None → ¬ (p - w_page_size w <= x < p + page_len w (bitmap_size z) + w_page_size w)).
    { intros x Hx Hr. apply Hx, F6. lia. }
    rewrite F10. unfold W. rewrite building_sys, building_zone, building_put. apply HQ; [|done].
    apply (bitmap_made_mapped w p _ (page_len w (bitmap_size z))); try done; try lia.
    - intros x Hx. by apply F7, Hin.
    - intros x Hx. rewrite F8, decide_False; [done|by apply Hin].
    - intros x Hx. apply F6. lia.
    - intros x Hx. rewrite F8, decide_True; [done|lia].
    - apply whole_pages_len; [apply Hw|lia].
    - intros x Hx. split; [apply F6; lia|]. destruct (decide (p <= x < p + page_len w (bitmap_size z))) as [Hin'|Hout']; [by rewrite F4|by rewrite F5 by lia]. }
  unfold new_bitmap. wsteps. rewrite HW. change (w_page_size W) with (w_page_size w).
  destruct (Z.leb_spec (bitmap_size z) (w_page_size w)) as [Hle|Hgt]; [|done]. wstep.
  destruct (find_bitmap_run zi w z s (bitmaps (w_root w)) k (nb_root w Hw) sbsi 0 Hz0) as [(i & bm & l & Hlt & Hslot & Heq)|[Heq|(Heq & i & bm & Hi & Hbk & Hbig & Hall)]]; [lia| | | |].
  { intros i bm Hi Hbk. destruct (bo_range w (nb_bitmaps w Hw) i bm Hi) as (Hb1 & Hb2 & _); [lia|]. split; [done|]. apply Z.div_str_pos. lia. }
  - eapply wp_eq; [exact Heq|]. do 2 wstep. unfold taken_slot. rewrite building_zone. cbn [bitmap_start set_preallocated_bitmap_idx set_bitmap_start].
    pose proof (bitmap_made_taken w z i bm l Hw ltac:(lia) ltac:(lia) Hslot) as Hmade. pose proof (bmd_range _ _ _ _ _ _ _ Hmade).
    rewrite (proj2 (Z.eqb_neq _ 0)) by lia. wstep. by apply HQ.
  - eapply wp_eq; [exact Heq|]. do 2 wstep. fold W. rewrite HW, Hz0. done.
  - fold W in Heq. unfold wp. rewrite Heq. destruct Hroom as [HA|Hroom]; [by apply HA|]. exfalso.
    destruct (Hroom i bm Hi) as [|(l & Hl & Hb)]; [lia|rewrite Hbk in *; lia|]. by rewrite Hall in Hb.
Qed.

(** ** User pages *)

(** The user pages at [U]: fresh, zero, and between two inaccessible pages. *)
Record pages_made (page : Z) (m m' : gmap Z Z) (vm vm' : list vma) (U : Z) : Prop := {
  pm_align : U mod page = 0;
  pm_range : page < U ∧ U + ZONE_USER_SIZE + page <= 2 ^ 47;
  pm_rw : mapped_rw vm' U ZONE_USER_SIZE;
  pm_guards : ∀ a, U - page <= a < U ∨ U + ZONE_USER_SIZE <= a < U + ZONE_USER_SIZE + page → vm_prot vm' a = Some PROT_NONE;
  pm_fresh : unmapped vm (U - page) (ZONE_USER_SIZE + 2 * page);
  pm_zero : ∀ a, U <= a < U + ZONE_USER_SIZE → ld8 m' a = 0;
  pm_vm : ∀ a, vm_prot vm a ≠ None → vm_prot vm' a = vm_prot vm a;
  pm_mem : ∀ a, vm_prot vm a ≠ None → ld8 m' a = ld8 m a;
  pm_out : ∀ a, ¬ (U - page <= a < U + ZONE_USER_SIZE + page) → vm_prot vm' a = vm_prot vm a;
}.

Lemma zone_size_pages w : page_ok w → ZONE_USER_SIZE mod w_page_size w = 0.
Proof.
  intros (Hs & -> & _). change ZONE_USER_SIZE with (2 ^ 22).
  replace 22 with ((22 - w_page_size_shift w) + w_page_size_shift w) by lia. rewrite Z.pow_add_r by lia.
  apply Z.mod_mul. apply Z.pow_nonzero; lia.
Qed.

Lemma wp_map_user_pages (E : failure → Prop) w zi z s bs m vm k Q : page_ok (set_w_k k w) → (∀ f, resource f → E f) → tagged z = false →
  (∀ U m' vm' k', pages_made (w_page_size w) m m' vm vm' U → page_ok (set_w_k k' w) →
     Q tt (building zi w (set_user_pages_start U z) s bs m' vm' k')) →
  wp E (map_user_pages zi true) Q (building zi w z s bs m vm k).
Proof.
  intros Hk HE Htag HQ. set (W := building zi w z s bs m vm k). assert (HW : zone_at W zi = z) by apply building_zone.
  assert (Hpg : page_ok W) by done. pose proof (page_ok_bounds W Hpg) as Hp. pose proof (zone_size_pages W Hpg) as Hzs.
  change (w_page_size W) with (w_page_size w) in Hp, Hzs.
  assert (Hlen : page_len W (ZONE_USER_SIZE + Z.shiftl (w_page_size w) 1) = ZONE_USER_SIZE + 2 * w_page_size w).
  { rewrite Z.shiftl_mul_pow2 by lia. replace (ZONE_USER_SIZE + w_page_size w * 2 ^ 1) with (ZONE_USER_SIZE + 2 * w_page_size w) by lia.
    apply page_len_aligned; [done|change ZONE_USER_SIZE with 4194304; lia|]. change (w_page_size W) with (w_page_size w). by rewrite Z.mod_add by lia. }
  assert (Hal : ∀ p, p mod w_page_size w = 0 → 0 <= p <= 2 ^ 47 → page_len W (p + (ZONE_USER_SIZE + w_page_size w)) = p + (ZONE_USER_SIZE + w_page_size w)).
  { intros p Hpm Hpr. apply page_len_aligned; [done|change ZONE_USER_SIZE with 4194304; lia|]. change (w_page_size W) with (w_page_size w).
    rewrite Z.add_mod, Hpm, (Z.add_mod ZONE_USER_SIZE), Hzs, Z.mod_same by lia. done. }
  unfold map_user_pages. do 4 wstep. rewrite HW. rewrite andb_false_r. cbn [when]. wstep. wstep. wstep.
  change (w_page_size W) with (w_page_size w). apply wp_mmap_pages; [done|rewrite Z.shiftl_mul_pow2 by lia; change ZONE_USER_SIZE with 4194304; lia|done|].
  rewrite Hlen. intros p m' k1 Ha Hb Hc Hfr Hzero Hk1. change (w_page_size W) with (w_page_size w) in Ha, Hb. wstep.
  apply wp_create_guard_page; [done|done|lia|]. intros k2 Hk2. do 3 wstep.
  unfold W. rewrite !building_sys, building_zone, Htag, andb_false_r. do 2 wstep. rewrite building_zone, building_put.
  fold W. rewrite Hal by (done || (change ZONE_USER_SIZE with 4194304 in Hc; lia)). apply wp_create_guard_page; [done|done|change ZONE_USER_SIZE with 4194304; lia|]. intros k3 Hk3. wstep.
  rewrite building_sys. apply HQ; [|done]. change (w_vm W) with vm in Hfr. change (w_mem W) with m in Hzero.
  match goal with |- pages_made _ _ _ _ ?x _ => set (vm' := x) end. assert (Hvm : ∀ a, vm_prot vm' a =
    if decide (p + w_page_size w <= a < p + w_page_size w + ZONE_USER_SIZE) then Some PROT_RW
    else if decide (p <= a < p + (ZONE_USER_SIZE + 2 * w_page_size w)) then Some PROT_NONE else vm_prot vm a).
  { intros a. unfold vm'. simpl. rewrite !vm_prot_cons. simpl. change ZONE_USER_SIZE with 4194304. repeat case_decide; done || lia. }
  change ZONE_USER_SIZE with 4194304 in *. constructor; change ZONE_USER_SIZE with 4194304.
  - rewrite Z.add_mod, Ha, Z.mod_same by lia. done.
  - lia.
  - intros a Hin. rewrite Hvm, decide_True by lia. done.
  - intros a Hin. rewrite Hvm, decide_False, decide_True by lia. done.
  - intros a Hin. apply Hfr. lia.
  - intros a Hin. simpl. rewrite Hzero, decide_True by lia. done.
  - intros a Hin. rewrite Hvm. assert (¬ (p <= a < p + (4194304 + 2 * w_page_size w))) by (intros ?; apply Hin, Hfr; lia).
    rewrite !decide_False by lia. done.
  - intros a Hin. simpl. rewrite Hzero. assert (¬ (p <= a < p + (4194304 + 2 * w_page_size w))) by (intros ?; apply Hin, Hfr; lia).
    rewrite !decide_False by lia. done.
  - intros a Hin. rewrite Hvm, !decide_False by lia. done.
Qed.

(** ** Canary chunks *)

(** The word of the bitmap a draw selects. *)
Definition canary_word (v n : Z) : Z :=
  let i := s64 (ALIGN_SZ_DOWN (v mod n)) in if i <? 0 then 0 else i.

Lemma canary_word_range v n : 0 < n <= 4096 → 0 <= canary_word v n < n.
Proof.
  intros Hn. unfold canary_word, ALIGN_SZ_DOWN. change SZ_ALIGNMENT with 32. pose proof (Z.mod_pos_bound v n ltac:(lia)).
  set (x := v mod n) in *. rewrite ALIGN_SZ_UP_eq, (u64_small (x + 31)) by (unfold is_u64; lia).
  pose proof (Z.mod_pos_bound (x + 31) 32 ltac:(lia)). pose proof (Z.div_mod (x + 31) 32 ltac:(lia)).
  destruct (Z.lt_ge_cases (x + 31 - (x + 31) mod 32) 32) as [Hlt|Hge].
  - assert (x + 31 - (x + 31) mod 32 = 0) as -> by lia. change (s64 (u64 (0 - 32))) with (-32). simpl. lia.
  - rewrite u64_small by (unfold is_u64; lia). rewrite s64_small by lia. destruct (Z.ltb_spec (x + 31 - (x + 31) mod 32 - 32) 0); lia.
Qed.

(** The zone with an empty cache; a new zone's cache is not set up yet. *)
Definition blanked (z : iso_alloc_zone_t) : iso_alloc_zone_t := with_cache BAD_BIT_SLOT 0 0 false (replicate 255 BAD_BIT_SLOT) z.

Lemma cache_ok_blanked m B z : cache_ok m B (blanked z).
Proof.
  assert (Hl : live_cache (blanked z) = []) by done. constructor; rewrite ?Hl; try done.
  - intros i Hi. change (free_bit_slots (blanked z)) with (replicate 255 BAD_BIT_SLOT).
    rewrite nth_lookup, lookup_replicate_2 by lia. done.
  - by constructor.
  - by left.
Qed.

Lemma zinv_canaried vm m m' U B c z : zinv vm m U B (blanked z) → 0 <= c < slots z → bm_bit m B (2 * c) = false →
  chunk_effect m m' U B c (blanked z) true true →
  (DISABLE_CANARY = false → canary_words m' (canary_secret z) (chunk_size z) (chunk_addr U z c)) →
  zinv vm m' U B (blanked z).
Proof.
  intros Hinv Hc Hb He Hcw. constructor; try apply Hinv; [apply cache_ok_blanked| |].
  - eapply (canaries_ok_update vm m m' U B c (blanked z) true true); try done; [apply He|..].
    + intros d a Hd Hne Ha. by apply (effect_other vm m m' U B c (blanked z) true true d a).
    + intros Hd _. by apply Hcw.
  - rewrite (zinv_af _ _ _ _ _ Hinv). f_equal. f_equal. apply List.filter_ext_in. intros d Hd%list_elem_of_In%elem_of_seqZ.
    apply bool_decide_ext. change (slots (blanked z)) with (slots z) in Hd.
    rewrite (effect_chunk_st m m' U B c (blanked z) true true d He) by (change (slots (blanked z)) with (slots z); lia).
    destruct (Z.eqb_spec d c) as [->|]; [|done]. unfold chunk_st. rewrite Hb. by destruct (bm_bit m B (2 * c + 1)).
Qed.

(** A zone before its cache is filled: chunk 1 of every bitmap word is free, nothing is in
    use. *)
Record fresh_zone (vm : list vma) (m : gmap Z Z) (U B : Z) (z : iso_alloc_zone_t) : Prop := {
  fz_inv : zinv vm m U B (blanked z);
  fz_free : ∀ i, 0 <= i < max_bitmap_idx z → bm_bit m B (64 * i + 2) = false;
  fz_user : user_pages_start z = U;
  fz_bitmap : bitmap_start z = B;
  fz_af : af_count z = 0;
}.

Definition same_outside (m m' : gmap Z Z) (U B n : Z) : Prop :=
  ∀ a, ¬ (U <= a < U + ZONE_USER_SIZE) → ¬ (B <= a < B + n) → ld8 m' a = ld8 m a.

Lemma fresh_zone_canary vm m U B z i : fresh_zone vm m U B z → 0 <= i < max_bitmap_idx z → bm_bit m B (64 * i) = false →
  let m' := canary_mem (put_chunk m B (32 * i) true true) z (chunk_addr U z (32 * i)) in
  fresh_zone vm m' U B z ∧ same_outside m m' U B (8 * max_bitmap_idx z).
Proof.
  intros [Hinv Hfree HU HB Haf] Hi Hb m'. assert (Hc : 0 <= 32 * i < slots z) by (unfold slots; lia).
  assert (Hcb : 0 <= 32 * i < slots (blanked z)) by done.
  pose proof (zinv_size _ _ _ _ _ Hinv) as Hs. change (chunk_size (blanked z)) with (chunk_size z) in Hs.
  destruct (chunk_addr_range _ _ _ _ _ Hinv (32 * i) Hcb) as [Hlo Hhi]. change (chunk_addr U (blanked z) (32 * i)) with (chunk_addr U z (32 * i)) in Hlo, Hhi.
  change (chunk_size (blanked z)) with (chunk_size z) in Hhi.
  assert (Hout : ∀ a, (a < chunk_addr U z (32 * i) ∨ chunk_addr U z (32 * i) + chunk_size z <= a) →
    ld8 m' a = ld8 (put_chunk m B (32 * i) true true) a) by (intros a Ha; apply ld8_canary_mem; lia).
  assert (He : chunk_effect m m' U B (32 * i) (blanked z) true true).
  { constructor.
    - intros t Ht. change (max_bitmap_idx (blanked z)) with (max_bitmap_idx z) in Ht. rewrite <-bm_bit_put_chunk by lia.
      apply (bm_bit_ext _ _ _ (max_bitmap_idx z)); [|done]. intros x Hx. apply Hout.
      pose proof (zm_disjoint _ _ _ _ (zinv_mapped _ _ _ _ _ Hinv)) as Hd. change (max_bitmap_idx (blanked z)) with (max_bitmap_idx z) in Hd. lia.
    - intros a Ha1 Ha2. rewrite Hout by done. apply (ld8_put_chunk _ _ _ _ _ _ (max_bitmap_idx z)); [unfold slots in Hc; lia|done]. }
  split.
  - constructor; try done.
    + apply (zinv_canaried vm m m' U B (32 * i)); try done; [by replace (2 * (32 * i)) with (64 * i) by lia|].
      intros _. apply canary_mem_words; [apply (zinv_secret _ _ _ _ _ Hinv)|by apply (chunk_addr_u64 _ _ _ _ _ Hinv)|lia].
    + intros j Hj. rewrite (ce_bits _ _ _ _ _ _ _ _ He) by (change (max_bitmap_idx (blanked z)) with (max_bitmap_idx z); lia).
      rewrite !(proj2 (Z.eqb_neq _ _)) by lia. by apply Hfree.
  - intros a Ha1 Ha2. apply He; [change (max_bitmap_idx (blanked z)) with (max_bitmap_idx z); lia|].
    change (chunk_size (blanked z)) with (chunk_size z). change (chunk_addr U (blanked z) (32 * i)) with (chunk_addr U z (32 * i)). lia.
Qed.

Lemma same_outside_refl m U B n : same_outside m m U B n.
Proof. done. Qed.

Lemma same_outside_trans m1 m2 m3 U B n : same_outside m1 m2 U B n → same_outside m2 m3 U B n → same_outside m1 m3 U B n.
Proof. intros A1 A2 a Ha Hb. rewrite A2 by done. by apply A1. Qed.

(** One draw: the word's first chunk becomes a canary unless it already is one. *)
Lemma wp_canary_loop E w zi n z s bs m vm k U B Q : w_root_null w = false → DISABLE_CANARY = false → fresh_zone vm m U B z →
  (∀ s' m', fresh_zone vm m' U B z → same_outside m m' U B (8 * max_bitmap_idx z) → Q tt (building zi w z s' bs m' vm k)) →
  wp E (canary_loop n zi (max_bitmap_idx z - 1)) Q (building zi w z s bs m vm k).
Proof.
  intros Hr Hd. revert s m Q. induction n as [|n IH]; intros s m Q Hfz HQ; cbn [canary_loop]; [wstep; by apply HQ|].
  pose proof Hfz as [Hinv Hfree HU HB _]. pose proof (zinv_max _ _ _ _ _ Hinv) as Hmax. change (max_bitmap_idx (blanked z)) with (max_bitmap_idx z) in Hmax.
  wstep. apply wp_us_rand; [done|]. intros s' v _ _. rewrite building_seed, (proj2 (Z.eqb_neq _ 0)) by lia.
  fold (canary_word v (max_bitmap_idx z - 1)). pose proof (canary_word_range v (max_bitmap_idx z - 1) ltac:(lia)) as Hi.
  set (i := canary_word _ _) in *. do 3 wstep. rewrite building_zone, HB.
  assert (Hword : mapped_rw vm (B + 8 * i) 8).
  { eapply mapped_rw_sub; [apply (zm_bitmap_rw _ _ _ _ (zinv_mapped _ _ _ _ _ Hinv))|lia|]. change (max_bitmap_idx (blanked z)) with (max_bitmap_idx z). lia. }
  apply wp_rd64; [done|]. cbn [building zput_w set_w_zones w_mem set_w_root after_sys set_w_mem].
  change (ld64 m (B + 8 * i)) with (bm_word m B i). set (b := bm_word m B i). rewrite GET_BIT_spec by lia.
  assert (Hbit : Z.testbit b 0 = bm_bit m B (64 * i)).
  { unfold bm_bit. replace (64 * i / 64) with i by (apply (Z.div_unique _ _ _ 0); lia). by replace (64 * i mod 64) with 0 by (apply (Z.mod_unique _ _ i); lia). }
  rewrite Hbit. destruct (bm_bit m B (64 * i)) eqn:Hb; cbn [Z.b2z Z.eqb negb]; [by apply IH|].
  destruct (fresh_zone_canary vm m U B z i Hfz ltac:(lia) Hb) as [Hfz' Hout].
  assert (Hput : st64 m (B + 8 * i) (SET_BIT (SET_BIT b 0) 1) = put_chunk m B (32 * i) true true).
  { unfold put_chunk. replace (2 * (32 * i) / 64) with i by (apply (Z.div_unique _ _ _ 0); lia).
    by replace (2 * (32 * i) mod 64) with 0 by (apply (Z.mod_unique _ _ i); lia). }
  assert (Hp : POINTER_FROM_BITSLOT z (Z.shiftl i 6) = chunk_addr U z (32 * i)).
  { unfold POINTER_FROM_BITSLOT, chunk_addr. rewrite HU, shiftl_6, Z.shiftr_div_pow2 by lia.
    replace (i * 64 / 2 ^ 1) with (32 * i) by (apply (Z.div_unique _ _ _ 0); lia). done. }
  wstep. apply wp_wr64; [done|]. rewrite building_mem. cbn [building zput_w set_w_zones w_mem set_w_root after_sys set_w_mem]. rewrite Hput, Hp.
  assert (Hc : 0 <= 32 * i < slots (blanked z)) by (unfold slots; change (max_bitmap_idx (blanked z)) with (max_bitmap_idx z); lia).
  wstep. eapply wp_eq; [apply write_canary_eq; rewrite ?building_zone; [done|pose proof (zinv_size _ _ _ _ _ Hinv) as Hs; simpl in Hs; lia|]|].
  { apply (chunk_mapped _ _ _ _ _ Hinv _ Hc). }
  rewrite building_zone. change (set_w_mem ?x (building zi w z s' bs ?y vm k)) with (building zi w z s' bs x vm k).
  change (w_mem (building zi w z s' bs ?y vm k)) with y.
  apply IH; [done|]. intros s'' m' Hfz'' Hout'. apply HQ; [done|]. by eapply same_outside_trans.
Qed.

Lemma wp_create_canary_chunks E w zi z s bs m vm k U B Q : w_root_null w = false → fresh_zone vm m U B z →
  (∀ s' m', fresh_zone vm m' U B z → same_outside m m' U B (8 * max_bitmap_idx z) → Q tt (building zi w z s' bs m' vm k)) →
  wp E (create_canary_chunks zi) Q (building zi w z s bs m vm k).
Proof.
  intros Hr Hfz HQ. unfold create_canary_chunks. destruct DISABLE_CANARY eqn:Hd; [wstep; by apply HQ|].
  do 2 wstep. rewrite building_zone. case_match; [wstep; by apply HQ|]. by apply wp_canary_loop with U B.
Qed.

(** ** The first cache *)

Lemma get_next_run zi w : let z := zone_at w zi in
  free_bit_slots_usable z < free_bit_slots_index z → free_bit_slots_usable z < 255 →
  let s := nth (Z.to_nat (free_bit_slots_usable z)) (free_bit_slots z) 0 in
  get_next_free_bit_slot zi w = Ret s (zput_w zi (popped s z) w).
Proof.
  intros z A1 A2 s. unfold get_next_free_bit_slot, mbind, M_bind, zget. fold z. change ZONE_FREE_LIST_SZ with 255.
  by rewrite (proj2 (Z.leb_gt 255 _)), (proj2 (Z.leb_gt (free_bit_slots_index z) _)) by lia.
Qed.

(** Filling and serving the first slot turns a fresh zone into a well-formed one. *)
Lemma fresh_zone_served vm m U B z l : fresh_zone vm m U B z → is_full z = false → filled m z l →
  let y := refilled l z in
  let s := nth 0 (free_bit_slots y) 0 in
  (0 < length l <= 255)%nat ∧ zinv vm m U B (popped s y) ∧ free_slot m B z s.
Proof.
  intros [Hinv Hfree HU HB Haf] Hnf Hl y s.
  assert (Hlen : (0 < length l <= 255)%nat).
  { destruct Hl as (lo & Hlo & _ & Hp). rewrite HB in Hp. split; [|rewrite (Permutation_length Hp), length_take; lia].
    assert (Hin : 64 * lo + 2 ∈ free_slots_from m B lo (max_bitmap_idx z - lo)).
    { apply elem_of_free_slots_from. replace ((64 * lo + 2) / 64) with lo by (apply (Z.div_unique _ _ _ 2); lia).
      split_and!; [lia|lia| |by apply Hfree]. replace (64 * lo + 2) with (2 * (32 * lo + 1)) by lia. by rewrite Z.even_mul. }
    rewrite (Permutation_length Hp), length_take. destruct (free_slots_from m B lo (max_bitmap_idx z - lo)); [by apply not_elem_of_nil in Hin|simpl; lia]. }
  set (z0 := set_next_free_bit_slot BAD_BIT_SLOT z).
  destruct (cache_ok_refilled m B z0 l) as [Hc0 Hlive]; [done|done|done|done|].
  destruct (cache_ok_popped m B (refilled l z0) Hc0) as [Hc1 Hs]; [simpl; lia|done|].
  split; [done|]. split; [|exact Hs].
  apply (zinv_same_but_cache vm m U B (blanked z)); [done| |exact Hc1].
  exists s, 1, (Z.of_nat (length l)), (is_full z), (<[0%nat := BAD_BIT_SLOT]> (cache_of l)). by destruct z.
Qed.

(** The fields of a zone that its free bit slot cache leaves alone. *)
Record same_frame (z z' : iso_alloc_zone_t) : Prop := {
  sf_index : index z' = index z;
  sf_user : user_pages_start z' = user_pages_start z;
  sf_bitmap : bitmap_start z' = bitmap_start z;
  sf_size : chunk_size z' = chunk_size z;
  sf_bitmap_size : bitmap_size z' = bitmap_size z;
  sf_max : max_bitmap_idx z' = max_bitmap_idx z;
  sf_internal : internal z' = internal z;
  sf_af : af_count z' = af_count z;
  sf_next : next_sz_index z' = next_sz_index z;
  sf_tagged : tagged z' = tagged z;
  sf_prealloc : preallocated_bitmap_idx z' = preallocated_bitmap_idx z;
}.

Lemma wp_first_slots (E : failure → Prop) {A} w zi z s bs m vm k U B (rest : M A) Q : (∀ f, resource f → E f) → w_root_null w = false → page_ok (set_w_k k w) → fresh_zone vm m U B z → is_full z = false →
  (∀ z' s' k', zinv vm m U B z' → free_slot m B z' (next_free_bit_slot z') → same_frame z z' → page_ok (set_w_k k' w) →
     wp E rest Q (building zi w z' s' bs m vm k')) →
  wp E (fill_free_bit_slots zi;; get_next_free_bit_slot zi;; rest) Q (building zi w z s bs m vm k).
Proof.
  intros HE Hr Hk Hfz Hnf HQ. wstep. pose proof (zinv_max _ _ _ _ _ (fz_inv _ _ _ _ _ Hfz)) as Hmax.
  change (max_bitmap_idx (blanked z)) with (max_bitmap_idx z) in Hmax.
  apply wp_fill_free_bit_slots; rewrite ?building_zone; [done|done|done|lia| |].
  { rewrite (fz_bitmap _ _ _ _ _ Hfz). apply (zm_bitmap_rw _ _ _ _ (zinv_mapped _ _ _ _ _ (fz_inv _ _ _ _ _ Hfz))). }
  intros l k' s' Hl Hk'. rewrite building_rng, building_put. change (w_mem (building zi w z s bs m vm k)) with m in Hl.
  destruct (fresh_zone_served vm m U B z l Hfz Hnf Hl) as (Hlen & Hinv & Hs). wstep.
  eapply wp_eq; [apply get_next_run; rewrite building_zone; simpl; lia|]. rewrite building_zone, building_put. by apply HQ.
Qed.

(** ** A fresh zone *)

Lemma bm_bit_zero m B n t : (∀ x, B <= x < B + 8 * n → ld8 m x = 0) → 0 <= t < 64 * n → bm_bit m B t = false.
Proof.
  intros Hz Ht. rewrite (bm_bit_ext (zero_range m B (8 * n)) m B n t); [|intros x Hx; rewrite ld8_zero_range, decide_True by lia; by apply Hz|done].
  unfold bm_bit, bm_word. assert (0 <= t / 64 < n) by (split; [apply Z.div_pos|apply Z.div_lt_upper_bound]; lia).
  rewrite ld64_zero_inside by lia. apply Z.testbit_0_l.
Qed.

Lemma in_use_none m B z : (∀ t, 0 <= t < 64 * max_bitmap_idx z → bm_bit m B t = false) → in_use_chunks m B z = [].
Proof.
  intros Hz. unfold in_use_chunks. destruct (List.filter _ _) as [|c l] eqn:Hf; [done|].
  assert (Hin : List.In c (c :: l)) by by left. rewrite <-Hf in Hin. apply List.filter_In in Hin as [Hc%list_elem_of_In%elem_of_seqZ Hst].
  apply bool_decide_eq_true in Hst. unfold chunk_st in Hst. rewrite Hz in Hst by (unfold slots in Hc; lia).
  by destruct (bm_bit m B (2 * c + 1)).
Qed.

Lemma fresh_zone_start page vm m U B z : zone_geom z → is_u64 (canary_secret z) → af_count z = 0 →
  user_pages_start z = U → bitmap_start z = B → 4096 <= page → page mod 4096 = 0 → U mod page = 0 →
  page < U ∧ U + ZONE_USER_SIZE + page <= 2 ^ 47 → mapped_rw vm U ZONE_USER_SIZE → mapped_rw vm B (bitmap_size z) →
  (∀ x, B <= x < B + bitmap_size z → ld8 m x = 0) →
  B + bitmap_size z <= U - page ∨ U + ZONE_USER_SIZE + page <= B → fresh_zone vm m U B z.
Proof.
  intros Hg Hsec Haf HU HB Hp Hp4 Hal Hr Hrw Hbrw Hz Hap. pose proof (zone_max_idx z Hg) as (Hmax & _ & Hbs).
  assert (Hbits : ∀ t, 0 <= t < 64 * max_bitmap_idx z → bm_bit m B t = false).
  { intros t. apply bm_bit_zero. intros x Hx. apply Hz. lia. }
  constructor; [|intros i Hi; apply Hbits; lia|done..]. constructor.
  - destruct Hg. by constructor.
  - constructor; change (max_bitmap_idx (blanked z)) with (max_bitmap_idx z); [lia| |done|eapply mapped_rw_sub; [exact Hbrw|lia|lia]|lia].
    apply Z.mod_divide in Hp4 as [q Hq]; [|lia]. apply Z.mod_divide in Hal as [r Hr']; [|lia]. rewrite Hr', Hq, Z.mul_assoc. by apply Z.mod_mul.
  - apply cache_ok_blanked.
  - intros _ c Hc Hb. rewrite Hbits in Hb; [done|]. unfold slots in Hc. change (max_bitmap_idx (blanked z)) with (max_bitmap_idx z) in Hc. lia.
  - done.
  - change (in_use_chunks m B (blanked z)) with (in_use_chunks m B z). rewrite in_use_none by done. done.
Qed.

(** ** The heap with the new zone *)

(** A zone at [U] with a bitmap of [n] bytes at [B] can be added; [i] is the number of the
    preallocated bitmap or -1. *)
Record extends (w : world) (bs : list iso_alloc_bitmap_t) (m : gmap Z Z) (vm : list vma) (U B n i : Z) : Prop := {
  ex_vm : ∀ x, vm_prot (w_vm w) x ≠ None → vm_prot vm x = vm_prot (w_vm w) x;
  ex_user : ∀ x, U <= x < U + ZONE_USER_SIZE → vm_prot (w_vm w) x = None;
  ex_mem : ∀ x, vm_prot (w_vm w) x ≠ None → ¬ (B <= x < B + n) → ld8 m x = ld8 (w_mem w) x;
  ex_apart : ∀ j x, 0 <= j < zones_used (w_root w) → footprint (zone_at w j) x → ¬ (B <= x < B + n);
  ex_free : ∀ b l x, bm_free bs (w_page_size w) b l → b <= x < b + l →
    bm_free (bitmaps (w_root w)) (w_page_size w) b l ∧ ¬ (B <= x < B + n);
  ex_pages : ∀ i b', bs !! i = Some b' → ∃ b, bitmaps (w_root w) !! i = Some b ∧ bitmap b' = bitmap b ∧
    bucket b' = bucket b ∧ (0 <= in_use b < 2 ^ 32 → 0 <= in_use b' < 2 ^ 32);
  ex_rw : mapped_rw vm U ZONE_USER_SIZE ∧ mapped_rw vm B n;
  ex_slot : ∀ x, B <= x < B + n → zone_owned w x ∨ vm_prot (w_vm w) x = None;
  ex_kept : same_pages (bitmaps (w_root w)) bs;
  ex_align : U mod w_page_size w = 0 ∧ (i = -1 → B mod w_page_size w = 0);
  ex_own : ∀ x, pages_at (w_page_size w) U B n i x → vm_prot (w_vm w) x = None ∧ vm_prot vm x ≠ None;
  ex_out : ∀ x, ¬ pages_at (w_page_size w) U B n i x → vm_prot vm x = vm_prot (w_vm w) x;
  ex_part : i ≠ -1 → ∃ l bm, (l < sbsi)%nat ∧ bitmaps (w_root w) !! l = Some bm ∧ bucket bm = n ∧
    0 <= i < w_page_size w / n ∧ i < 32 ∧ B = bitmap bm + n * i;
}.

Lemma extends_made w B n i bs m1 vm1 m2 vm2 m3 U : bitmap_made w B n i bs m1 vm1 → pages_made (w_page_size w) m1 m2 vm1 vm2 U →
  4096 <= w_page_size w → same_outside m2 m3 U B n → extends w bs m3 vm2 U B n i.
Proof.
  intros Hb Hp Hpg Ho.
  assert (Hup : ∀ x, vm_prot (w_vm w) x ≠ None → vm_prot vm1 x ≠ None) by (intros x Hx; by rewrite (bmd_vm _ _ _ _ _ _ _ Hb)).
  assert (Hvic : ∀ x, U - w_page_size w <= x < U + ZONE_USER_SIZE + w_page_size w → vm_prot vm1 x = None) by (intros x Hx; apply (pm_fresh _ _ _ _ _ _ Hp); lia).
  assert (Hu : ∀ x, U - w_page_size w <= x < U + ZONE_USER_SIZE + w_page_size w → vm_prot (w_vm w) x = None).
  { intros x Hx. destruct (vm_prot (w_vm w) x) eqn:Hv; [|done]. destruct (Hup x); [congruence|by apply Hvic]. }
  constructor; try apply Hb; try done.
  - intros x Hx. rewrite (pm_vm _ _ _ _ _ _ Hp) by auto. by apply Hb.
  - intros x Hx. apply Hu. lia.
  - intros x Hx Hnb. rewrite Ho; [|intros Hxu; apply Hx, Hu; lia|done]. rewrite (pm_mem _ _ _ _ _ _ Hp) by auto. by apply Hb.
  - split; [apply Hp|]. intros x Hx. pose proof (bmd_rw _ _ _ _ _ _ _ Hb x Hx) as Hrw. by rewrite (pm_vm _ _ _ _ _ _ Hp); rewrite Hrw.
  - split; [apply Hp|]. intros ->. by destruct (bmd_place _ _ _ _ _ _ _ Hb) as [(_ & Hal & _)|[? _]].
  - intros x [Hx|[-> Hx]].
    + split; [by apply Hu|]. destruct (decide (U <= x < U + ZONE_USER_SIZE)) as [Hin|Hout]; [by rewrite (pm_rw _ _ _ _ _ _ Hp)|].
      by rewrite (pm_guards _ _ _ _ _ _ Hp) by lia.
    + destruct (bmd_place _ _ _ _ _ _ _ Hb) as [(_ & _ & Hown)|[? _]]; [|done]. destruct (proj1 (Hown x) Hx) as [N1 N2]. split; [done|].
      by rewrite (pm_vm _ _ _ _ _ _ Hp).
  - intros x Hx. rewrite (pm_out _ _ _ _ _ _ Hp) by (intros Hin; apply Hx; by left).
    destruct (bmd_place _ _ _ _ _ _ _ Hb) as [(-> & _ & Hown)|(_ & -> & _)]; [|done]. apply (Hown x). intros Hin. apply Hx. by right.
  - intros Hne. by destruct (bmd_place _ _ _ _ _ _ _ Hb) as [[? _]|(_ & _ & Hpart)].
Qed.

(** Zone [i] joins the zones in [D]. *)
Section joins.
Context (w w' : world) (D : Z → Prop) (i : Z).
Let zf : iso_alloc_zone_t := zone_at w' i.
Hypothesis Hl : layouts w D.
Hypothesis Hold : ∀ j, D j → zone_at w' j = zone_at w j.
Hypothesis Hix : index zf = i.
Hypothesis Hpg : w_page_size w' = w_page_size w.
Hypothesis Hex : extends w (bitmaps (w_root w')) (w_mem w') (w_vm w') (UNMASK_USER_PTR zf) (UNMASK_BITMAP_PTR zf) (bitmap_size zf) (preallocated_bitmap_idx zf).

Lemma layouts_add : layouts w' (λ j, D j ∨ j = i).
Proof using Hl Hold Hix Hpg Hex.
  destruct Hl as [L1 L2 L3 L4 L5 L6 L7]. assert (Hown : ∀ x, zone_pages (w_page_size w) zf x → vm_prot (w_vm w) x = None ∧ vm_prot (w_vm w') x ≠ None) by apply (ex_own _ _ _ _ _ _ _ _ Hex).
  pose proof (ex_kept _ _ _ _ _ _ _ _ Hex) as Hbs.
  constructor; rewrite ?Hpg.
  - intros j [Hj| ->]; [rewrite Hold by done; auto|done].
  - intros j [Hj| ->]; [rewrite Hold by done; auto|]. apply (ex_align _ _ _ _ _ _ _ _ Hex).
  - intros j x [Hj| ->] Hx; [|by apply Hown]. rewrite Hold in Hx by done. rewrite (ex_vm _ _ _ _ _ _ _ _ Hex); by apply (L3 j).
  - intros j l x [Hj| ->] [Hl'| ->] Hne Hx Hx'; [| | |done].
    + rewrite (Hold j Hj) in Hx. rewrite (Hold l Hl') in Hx'. by apply (L4 j l x).
    + rewrite (Hold j Hj) in Hx. apply (L3 j x Hj Hx). by apply Hown.
    + rewrite (Hold l Hl') in Hx'. apply (L3 l x Hl' Hx'). by apply Hown.
  - intros j [Hj| ->] Hne.
    + rewrite (Hold j Hj) in Hne |- *. destruct (L5 j Hj Hne) as (l & bm & A0 & A1 & A2 & A3 & A4 & A5).
      destruct (same_pages_new _ _ l bm Hbs A1) as (b' & Hb' & E1 & E2). exists l, b'. rewrite E1, E2. done.
    + destruct (ex_part _ _ _ _ _ _ _ _ Hex Hne) as (l & bm & A0 & A1 & A2 & A3 & A4 & A5).
      destruct (same_pages_new _ _ l bm Hbs A1) as (b' & Hb' & E1 & E2). exists l, b'. rewrite E1, E2, A2. done.
  - intros l b' x Hb' Hx. destruct (bitmap_page_same _ _ _ l b' x Hbs Hb' Hx) as (b & Hb & Hxb). destruct (L6 l b x Hb Hxb) as [M1 M2].
    assert (Hm : vm_prot (w_vm w) x ≠ None) by congruence.
    split; [by rewrite (ex_vm _ _ _ _ _ _ _ _ Hex)|]. intros j [Hj| ->] Hz; [rewrite Hold in Hz by done; by apply (M2 j)|]. by apply Hm, Hown.
  - intros l l' b b' Hb Hb'. destruct (sp_old _ _ Hbs l b Hb) as (c & Hc & _ & ->). destruct (sp_old _ _ Hbs l' b' Hb') as (c' & Hc' & _ & ->).
    by apply (L7 l l' c c').
Qed.

Lemma reserved_add (D' : Z → Prop) x : (∀ j, D' j → D j ∨ j = i) → reserved w' D' x → reserved w D x ∨ vm_prot (w_vm w) x = None.
Proof using Hold Hpg Hex.
  intros HD [(j & Hj & Hx)|(l & b' & Hb' & Hx)]; rewrite Hpg in Hx.
  - destruct (HD j Hj) as [Hj'| ->]; [rewrite Hold in Hx by done; left; left; by exists j|]. right. by apply (ex_own _ _ _ _ _ _ _ _ Hex).
  - left. right. exists l. by apply (bitmap_page_same _ _ (bitmaps (w_root w')) l b' x (ex_kept _ _ _ _ _ _ _ _ Hex)).
Qed.
End joins.

Lemma layouts_sub w (D D' : Z → Prop) : layouts w D → (∀ j, D' j → D j) → layouts w D'.
Proof. intros Hl HD. apply (layouts_keep w w D); try done; apply same_pages_refl. Qed.

(** Well-formedness of a zone only depends on its own mappings and bytes. *)
Lemma zone_inv_vm vm vm' m z : zone_inv vm m z → (∀ x, footprint z x → vm_prot vm' x = vm_prot vm x) → zone_inv vm' m z.
Proof.
  intros Hinv Hvm. pose proof (footprint_zinv z) as Hfp. destruct Hinv as [Hg Hm Hc Hcan Hsec Haf] eqn:HI. clear HI. constructor; try done.
  destruct Hm as [M1 M2 M3 M4 M5]. constructor; try done.
  - intros x Hx. rewrite Hvm; [by apply M3|]. by left.
  - intros x Hx. rewrite Hvm; [by apply M4|]. right. pose proof (zone_max_idx z Hg). lia.
Qed.

(** The process after the last steps of [_iso_new_zone]. *)
Definition zone_added (w : world) (zf : iso_alloc_zone_t) (s : Z) (bs : list iso_alloc_bitmap_t) (m : gmap Z Z) (vm : list vma) (k : kst) (U : Z) : world :=
  let used := zones_used (w_root w) in
  set_w_root (set_zones_used (used + 1) (set_zone_lookup_table
      (<[SZ_TO_ZONE_LOOKUP_IDX (chunk_size zf) := used]> (zone_lookup_table (w_root w))) (set_seed s (set_bitmaps bs (w_root w)))))
    (set_w_chunk_lookup_table (<[ADDR_TO_CHUNK_TABLE U := used]> (w_chunk_lookup_table w))
      (zput_w used zf (after_sys m vm k w))).

Section added.
Variables (w : world) (zf : iso_alloc_zone_t) (s : Z) (bs : list iso_alloc_bitmap_t) (m : gmap Z Z) (vm : list vma) (k : kst) (U B : Z).
Hypothesis Hw : heap_inv w.
Hypothesis Hused : zones_used (w_root w) < MAX_ZONES.
Hypothesis Hk : page_ok (set_w_k k w).
Hypothesis HU : UNMASK_USER_PTR zf = U.
Hypothesis HB : UNMASK_BITMAP_PTR zf = B.
Hypothesis Hex : extends w bs m vm U B (bitmap_size zf) (preallocated_bitmap_idx zf).
Hypothesis Hidx : index zf = zones_used (w_root w).
Hypothesis Hinv : zone_inv vm m zf.
Hypothesis Hint : internal zf = true.
Hypothesis Hnext : next_sz_index zf = default 0 (zone_lookup_table (w_root w) !! SZ_TO_ZONE_LOOKUP_IDX (chunk_size zf)).
Let used : Z := zones_used (w_root w).
Let w' : world := zone_added w zf s bs m vm k U.

Lemma added_at j : zone_at w' j = if decide (j = used) then zf else zone_at w j.
Proof. unfold w', zone_at. simpl. case_decide as Hd; [subst; by rewrite lookup_insert_eq|by rewrite lookup_insert_ne]. Qed.

Lemma added_old j : 0 <= j < used → zone_at w' j = zone_at w j.
Proof. intros Hj. rewrite added_at. case_decide; [lia|done]. Qed.

Lemma added_new : zone_at w' used = zf.
Proof. rewrite added_at. by case_decide. Qed.

Lemma added_range j : 0 <= j < zones_used (w_root w') → 0 <= j < used ∨ j = used.
Proof. intros Hj. change (zones_used (w_root w')) with (used + 1) in Hj. lia. Qed.

Lemma added_footprint x : footprint zf x ↔ U <= x < U + ZONE_USER_SIZE ∨ B <= x < B + bitmap_size zf.
Proof using HU HB. unfold footprint. by rewrite HU, HB. Qed.

Lemma added_disjoint j x : 0 <= j < used → footprint (zone_at w j) x → ¬ footprint zf x.
Proof using Hw HU HB Hex.
  intros Hj Hf. rewrite added_footprint. intros [Hx|Hx]; [|by apply (ex_apart _ _ _ _ _ _ _ _ Hex j x)].
  by apply (hv_owned w Hw j x Hj Hf), (ex_user _ _ _ _ _ _ _ _ Hex).
Qed.

Lemma added_mem j x : 0 <= j < used → footprint (zone_at w j) x → ld8 m x = ld8 (w_mem w) x ∧ vm_prot vm x = vm_prot (w_vm w) x.
Proof using Hw Hex.
  intros Hj Hf. pose proof (hv_owned w Hw j x Hj Hf) as Hv. split; [|by apply (ex_vm _ _ _ _ _ _ _ _ Hex)].
  apply (ex_mem _ _ _ _ _ _ _ _ Hex); [done|]. by apply (ex_apart _ _ _ _ _ _ _ _ Hex j).
Qed.

Lemma added_link size i : link_ok w size i → link_ok w' size i.
Proof.
  intros [->|(A1 & A2 & A3)]; [by left|right]. rewrite added_old by (subst used; lia). split_and!; try done; [lia|].
  change (zones_used (w_root w')) with (used + 1). subst used. lia.
Qed.

Lemma added_bitmaps : bitmaps_ok w'.
Proof using Hw HU HB Hex.
  destruct (hv_bitmaps w Hw) as [B1 B2 B3]. constructor.
  - intros a n x Hf Hx. destruct (ex_free _ _ _ _ _ _ _ _ Hex a n x Hf Hx) as [Hf' Hnb]. destruct (B1 a n x Hf' Hx) as (C1 & C2 & C3).
    assert (Hv : vm_prot (w_vm w) x ≠ None) by (by rewrite C1). split_and!.
    + change (w_vm w') with vm. by rewrite (ex_vm _ _ _ _ _ _ _ _ Hex).
    + change (w_mem w') with m. by rewrite (ex_mem _ _ _ _ _ _ _ _ Hex).
    + intros j [Hj| ->]%added_range; [rewrite added_old by done; by apply C3|]. rewrite added_new, added_footprint.
      intros [Hu|Hb]; [|done]. by apply Hv, (ex_user _ _ _ _ _ _ _ _ Hex).
  - intros i j bi bj Hi Hj. destruct (ex_pages _ _ _ _ _ _ _ _ Hex i bi Hi) as (bi' & A1 & A2 & A3 & _).
    destruct (ex_pages _ _ _ _ _ _ _ _ Hex j bj Hj) as (bj' & C1 & C2 & C3 & _). rewrite A2, A3, C2, C3. by apply B2.
  - intros i b' Hb. destruct (ex_pages _ _ _ _ _ _ _ _ Hex i b' Hb) as (b & A1 & A2 & A3 & A4). rewrite A2, A3. intros Hne.
    destruct (B3 i b A1 Hne) as (D1 & D2 & D3 & D4). split; [done|]. split; [done|]. split; [done|by apply A4].
Qed.

Lemma added_sizes size : 0 <= size → size mod 32 = 0 →
  link_ok w' size (default 0 (zone_lookup_table (w_root w') !! SZ_TO_ZONE_LOOKUP_IDX size)).
Proof using Hw HU HB Hex Hinv Hint.
  intros Hs Hm. change (zone_lookup_table (w_root w')) with (<[SZ_TO_ZONE_LOOKUP_IDX (chunk_size zf) := used]> (zone_lookup_table (w_root w))).
  destruct (zinv_geom _ _ _ _ _ Hinv) as [[G1 _] G2 _ _ _]. rewrite lookup_insert. case_decide as Hd; [|apply added_link, (hv_sizes w Hw size Hs Hm)].
  assert (size = chunk_size zf) as ->.
  { unfold SZ_TO_ZONE_LOOKUP_IDX in Hd. rewrite !Z.shiftr_div_pow2 in Hd by lia. change (2 ^ 4) with 16 in Hd.
    pose proof (Z.div_mod size 32). pose proof (Z.div_mod (chunk_size zf) 32). pose proof (Z.div_mod size 16).
    pose proof (Z.div_mod (chunk_size zf) 16). pose proof (Z.mod_pos_bound size 16). pose proof (Z.mod_pos_bound (chunk_size zf) 16). lia. }
  cbn [default from_option id]. pose proof (hv_used w Hw). destruct (decide (used = 0)) as [Hz|Hz]; [by left|right].
  rewrite added_new. split_and!; [subst used; lia| |done|done]. change (zones_used (w_root w')) with (used + 1). lia.
Qed.

Lemma added_extends : extends w (bitmaps (w_root w')) (w_mem w') (w_vm w') (UNMASK_USER_PTR (zone_at w' used)) (UNMASK_BITMAP_PTR (zone_at w' used))
  (bitmap_size (zone_at w' used)) (preallocated_bitmap_idx (zone_at w' used)).
Proof using HU HB Hex. rewrite added_new, HU, HB. exact Hex. Qed.

Lemma added_ix j : zone_ix w' j → zone_ix w j ∨ j = used.
Proof. apply added_range. Qed.

Lemma heap_inv_added : heap_inv w'.
Proof using Hw Hused Hk HU HB Hex Hidx Hinv Hint Hnext.
  pose proof (hv_used w Hw) as Hu. assert (Hu' : zones_used (w_root w') = used + 1) by done. constructor.
  - apply (hv_root w Hw).
  - exact Hk.
  - rewrite Hu'. subst used. lia.
  - intros j [Hj| ->]%added_range.
    + destruct (hv_zone_at w j Hw Hj) as [Hz Hzi]. exists (zone_at w j). split.
      * simpl. rewrite lookup_insert_ne; [done|]. subst used. lia.
      * apply (zone_inv_vm (w_vm w)); [apply (zone_inv_ext _ (w_mem w)); [done|]|]; intros x Hx; by apply (added_mem j).
    + exists zf. split; [|done]. simpl. by rewrite lookup_insert_eq.
  - intros i j [Hi| ->]%added_range [Hj| ->]%added_range Hne x; rewrite ?added_new, ?added_old by done.
    + by apply (hv_disj w Hw).
    + intros A1 A2. by apply (added_disjoint i x).
    + intros A1 A2. by apply (added_disjoint j x).
    + done.
  - intros a. cbv zeta. change (w_chunk_lookup_table w') with (<[ADDR_TO_CHUNK_TABLE U := used]> (w_chunk_lookup_table w)).
    rewrite Hu'. rewrite lookup_insert. case_decide; [simpl; subst used; lia|]. pose proof (hv_table w Hw a) as Ht. cbv zeta in Ht. subst used. lia.
  - apply (hv_cache_len w Hw).
  - intros e He. destruct (hv_cache w Hw e He) as (A1 & A2 & A3). rewrite Hu', added_old by done. split_and!; try done; subst used; lia.
  - apply added_sizes.
  - intros i Hi. cbv zeta. destruct (added_range i Hi) as [Hj| ->].
    + rewrite added_old by done. destruct (hv_links w Hw i Hj) as [|[A1 A2]]; [by left|right]. split; [done|]. by apply added_link.
    + rewrite added_new, Hnext. destruct (zinv_geom _ _ _ _ _ Hinv) as [[G1 _] G2 _ _ _].
      destruct (hv_sizes w Hw (chunk_size zf) ltac:(lia) G2) as [->|Hl]; [by left|right]. split; [subst used; lia|]. apply added_link. by right.
  - by apply added_bitmaps.
  - intros i x [Hi| ->]%added_range Hf.
    + rewrite added_old in Hf by done. change (w_vm w') with vm. rewrite (proj2 (added_mem i x Hi Hf)). by apply (hv_owned w Hw i).
    + rewrite added_new, added_footprint in Hf. change (w_vm w') with vm. destruct (ex_rw _ _ _ _ _ _ _ _ Hex) as [R1 R2].
      destruct Hf as [Hf|Hf]; [by rewrite R1|by rewrite R2].
  - eapply layouts_sub; [|apply added_ix]. apply (layouts_add w); try done; [apply Hw|intros j Hj; by apply added_old|by rewrite added_new|apply added_extends].
Qed.

Lemma keeps_added : af_count zf = 0 → keeps w w'.
Proof using Hw Hused Hk HU HB Hex Hidx Hinv Hint Hnext.
  intros Haf. assert (Hu' : zones_used (w_root w') = used + 1) by done. constructor.
  - apply heap_inv_added.
  - rewrite Hu'. subst used. lia.
  - intros j Hj. rewrite added_old by done. apply same_shape_refl.
  - intros j d. unfold in_use_at. split.
    + intros (Hj & Hd & Hst). destruct (added_range j Hj) as [Hj'| ->].
      * rewrite added_old in Hd, Hst by done. split; [done|]. split; [done|]. rewrite <-Hst. symmetry. apply (chunk_st_footprint w); [done..|].
        intros a Ha. by apply (added_mem j).
      * rewrite added_new in Hd, Hst. exfalso. pose proof (zinv_af _ _ _ _ _ Hinv) as Hc. rewrite Haf in Hc.
        destruct (in_use_chunks m (UNMASK_BITMAP_PTR zf) zf) as [|c l] eqn:Hl; [|simpl in Hc; lia].
        assert (Hin : List.In d (in_use_chunks m (UNMASK_BITMAP_PTR zf) zf)).
        { apply List.filter_In. split; [apply list_elem_of_In, elem_of_seqZ; lia|]. by apply bool_decide_eq_true. }
        by rewrite Hl in Hin.
    + intros (Hj & Hd & Hst). rewrite added_old, Hu' by done. split; [subst used; lia|]. split; [done|]. rewrite <-Hst.
      apply (chunk_st_footprint w); [done..|]. intros a Ha. by apply (added_mem j).
  - intros j d a (Hj & Hd & _) Ha. apply (added_mem j); [done|]. destruct (hv_zone_at w j Hw Hj) as [_ Hij].
    eapply footprint_zinv; [exact Hij|left; by exists d].
  - done.
  - intros j Hj. by rewrite added_old.
  - done.
  - constructor; try done.
    + apply (ex_vm _ _ _ _ _ _ _ _ Hex).
    + intros x Hv Hno. apply (ex_mem _ _ _ _ _ _ _ _ Hex); [done|]. intros Hb. by destruct (ex_slot _ _ _ _ _ _ _ _ Hex x Hb).
    + intros x [(j & Hj & Hf)|(b & l & Hf & Hx)].
      * destruct (added_range j Hj) as [Hj'| ->]; [rewrite added_old in Hf by done; left; left; by exists j|].
        rewrite added_new, added_footprint in Hf. destruct Hf as [Hf|Hf]; [right; by apply (ex_user _ _ _ _ _ _ _ _ Hex)|by apply (ex_slot _ _ _ _ _ _ _ _ Hex)].
      * left. right. exists b, l. split; [|done]. by apply (ex_free _ _ _ _ _ _ _ _ Hex b l x).
    + intros x Hx. apply (reserved_add w w' (zone_ix w) used) with (zone_ix w'); try done; [intros j Hj; by apply added_old|apply added_extends|apply added_ix].
Qed.
End added.

(** ** [_iso_new_zone] *)

Lemma chunk_size_of_raw size : 0 <= size <= 65536 →
  32 <= chunk_size_of size <= 65536 ∧ chunk_size_of size mod 32 = 0 ∧ size <= chunk_size_of size < size + 32 + Z.max 0 (32 - size).
Proof.
  intros Hs. unfold chunk_size_of. change SMALLEST_CHUNK_SZ with 32. change SZ_ALIGNMENT with 32.
  destruct (Z.ltb_spec size 32); [split_and!; done || lia|]. destruct (Z.eqb_spec (size mod 32) 0) as [Hm|Hm]; cbn [negb]; [split_and!; done || lia|].
  rewrite ALIGN_SZ_UP_eq, u64_small by (unfold is_u64; lia). pose proof (Z.mod_pos_bound (size + 31) 32). pose proof (Z.div_mod (size + 31) 32).
  assert ((size + 31 - (size + 31) mod 32) mod 32 = 0).
  { replace (size + 31 - (size + 31) mod 32) with ((size + 31) / 32 * 32) by lia. by apply Z.mod_mul. }
  assert (size + 31 - (size + 31) mod 32 <= 65536).
  { assert ((size + 31) / 32 <= 65567 / 32) by (apply Z.div_le_mono; lia). change (65567 / 32) with 2048 in *. lia. }
  split_and!; lia.
Qed.

Lemma new_zone_geom cs old : 32 <= cs <= 65536 → cs mod 32 = 0 → zone_geom (new_zone_fields cs true old).
Proof.
  intros Hc Hm. assert (Hcnt : 64 <= ZONE_USER_SIZE / cs <= 131072).
  { change ZONE_USER_SIZE with 4194304. change 64 with (4194304 / 65536). change 131072 with (4194304 / 32).
    split; apply Z.div_le_compat_l; lia. }
  assert (Hb : 16 <= ZONE_USER_SIZE / cs * 2 / 8 <= 32768).
  { change 16 with (64 * 2 / 8). change 32768 with (131072 * 2 / 8). split; apply Z.div_le_mono; lia. }
  unfold new_zone_fields. change BITS_PER_CHUNK with 2. change BITS_PER_BYTE with 8. cbv zeta. rewrite (proj2 (Z.ltb_lt 8 _)) by lia.
  rewrite u16_small by lia. constructor; simpl; try done. by rewrite Z.shiftr_div_pow2 by lia.
Qed.

Lemma put_through i z1 z2 r r' t V :
  set_w_root r' (zput_w i z2 (set_w_root r (set_w_chunk_lookup_table t (zput_w i z1 V)))) =
  set_w_root r' (set_w_chunk_lookup_table t (zput_w i z2 V)).
Proof. destruct V. unfold zput_w, set_w_zones, set_w_root, set_w_chunk_lookup_table. simpl. f_equal. apply insert_insert_eq. Qed.

(** The last steps: lookup tables, masking and the count. *)
Lemma wp_finish E w z s bs m vm k cs Q : let used := zones_used (w_root w) in
  w_root_null w = false → 0 <= used < MAX_ZONES → index z = used → cs = chunk_size z →
  Q (Some used) (zone_added w (MASK_ZONE_PTRS (set_next_sz_index
      (default 0 (zone_lookup_table (w_root w) !! SZ_TO_ZONE_LOOKUP_IDX (chunk_size z))) z)) s bs m vm k (user_pages_start z)) →
  wp E (z ← zget used;
    upd (λ w, set_w_chunk_lookup_table (<[ADDR_TO_CHUNK_TABLE (user_pages_start z) := index z]> (w_chunk_lookup_table w)) w);;
    link_zone used cs;;
    zmod used MASK_ZONE_PTRS;;
    rupd (λ r, set_zones_used (u16 (zones_used r + 1)) r);;
    mret (Some used)) Q (building used w z s bs m vm k).
Proof.
  intros used Hr Hu Hidx -> HQ. change MAX_ZONES with 8192 in Hu. do 4 wstep. rewrite building_zone. unfold link_zone. do 7 wstep.
  set (W := set_w_chunk_lookup_table _ _). assert (HW : ∀ r, zone_at (set_w_root r W) used = z) by (intros r; apply building_zone).
  change (zone_at W used) with (zone_at (building used w z s bs m vm k) used). rewrite building_zone.
  change (zone_lookup_table (w_root W)) with (zone_lookup_table (w_root w)). set (cur := default 0 _) in *.
  assert (Hif : (if cur =? 0 then zmod used (set_next_sz_index 0) else zmod used (set_next_sz_index cur)) = zmod used (set_next_sz_index cur)).
  { by destruct (Z.eqb_spec cur 0) as [->|]. }
  rewrite Hif. wsteps. rewrite HW, zone_at_put, zput_put.
  unfold wp, mret, M_ret. cbn [w_root zput_w set_w_zones set_w_root zones_used set_zone_lookup_table].
  change (zones_used (w_root W)) with used. rewrite u16_small by lia.
  unfold W, building. rewrite put_through, Hidx. exact HQ.
Qed.

Lemma page_mod_4096 w : page_ok w → w_page_size w mod 4096 = 0.
Proof.
  intros (Hs & -> & _). change 4096 with (2 ^ 12). replace (w_page_size_shift w) with ((w_page_size_shift w - 12) + 12) by lia.
  rewrite Z.pow_add_r by lia. by apply Z.mod_mul.
Qed.

(** The zone [z0] between the mapping of its pages and the canary chunks. *)
Definition laid_out (zi a i U secret mask : Z) (z0 : iso_alloc_zone_t) : iso_alloc_zone_t :=
  set_pointer_mask mask (set_canary_secret secret (set_index zi (set_user_pages_start U
    (set_preallocated_bitmap_idx i (set_bitmap_start a z0))))).

Lemma laid_out_frame zi a i U secret mask z0 : let z := laid_out zi a i U secret mask z0 in
  is_full z = is_full z0 ∧ index z = zi ∧ user_pages_start z = U ∧ bitmap_start z = a ∧ chunk_size z = chunk_size z0 ∧
  bitmap_size z = bitmap_size z0 ∧ max_bitmap_idx z = max_bitmap_idx z0 ∧ internal z = internal z0 ∧ af_count z = af_count z0 ∧
  chunk_count z = chunk_count z0 ∧ canary_secret z = secret ∧ next_sz_index z = next_sz_index z0 ∧ tagged z = tagged z0 ∧ preallocated_bitmap_idx z = i.
Proof. by destruct z0. Qed.

Lemma laid_out_fresh w zi a i U secret mask z0 bs m1 vm1 m2 vm2 : page_ok w → zone_geom z0 → af_count z0 = 0 → is_u64 secret →
  let z := laid_out zi a i U secret mask z0 in
  bitmap_made w a (bitmap_size z) i bs m1 vm1 → pages_made (w_page_size w) m1 m2 vm1 vm2 U → fresh_zone vm2 m2 U a z.
Proof.
  intros Hpg Hg Haf Hsec z Hb Hp. pose proof (page_ok_bounds w Hpg) as Hpb.
  pose proof (laid_out_frame zi a i U secret mask z0) as (_ & _ & F1 & F2 & F3 & F4 & F5 & _ & F6 & F7 & F8 & _). fold z in F1, F2, F3, F4, F5, F6, F7, F8. clearbody z.
  assert (Hgz : zone_geom z) by (destruct Hg; constructor; by rewrite ?F3, ?F4, ?F5, ?F7). pose proof (zone_max_idx z Hgz) as (Hmax & _ & Hbs).
  assert (Hmapped : ∀ x, a <= x < a + bitmap_size z → vm_prot vm1 x ≠ None) by (intros x Hx; by rewrite (bmd_rw _ _ _ _ _ _ _ Hb)).
  apply (fresh_zone_start (w_page_size w)); try done; [by rewrite F8|by rewrite F6|lia|by apply page_mod_4096|apply Hp|apply Hp|apply Hp|..].
  - intros x Hx. rewrite (pm_vm _ _ _ _ _ _ Hp) by auto. by apply (bmd_rw _ _ _ _ _ _ _ Hb).
  - intros x Hx. rewrite (pm_mem _ _ _ _ _ _ Hp) by auto. by apply (bmd_zero _ _ _ _ _ _ _ Hb).
  - destruct (Z.le_gt_cases (a + bitmap_size z) (U - w_page_size w)); [by left|].
    destruct (Z.le_gt_cases (U + ZONE_USER_SIZE + w_page_size w) a); [by right|]. exfalso.
    apply (Hmapped (Z.max a (U - w_page_size w))); [lia|]. apply (pm_fresh _ _ _ _ _ _ Hp). change ZONE_USER_SIZE with 4194304 in *. lia.
Qed.

(** A zone that [_iso_new_zone] has built, before it is published: it lies at [U] with its
    bitmap at [B] and has a free slot at hand. *)
Record zone_built (w : world) (zi cs next : Z) (z : iso_alloc_zone_t) (bs : list iso_alloc_bitmap_t) (m : gmap Z Z) (vm : list vma) (U B : Z) : Prop := {
  zb_made : ∃ m1 vm1 m2, bitmap_made w B (bitmap_size z) (preallocated_bitmap_idx z) bs m1 vm1 ∧ pages_made (w_page_size w) m1 m2 vm1 vm U ∧
    same_outside m2 m U B (8 * max_bitmap_idx z);
  zb_inv : zinv vm m U B z;
  zb_slot : free_slot m B z (next_free_bit_slot z);
  zb_index : index z = zi;
  zb_size : chunk_size z = cs;
  zb_internal : internal z = true;
  zb_af : af_count z = 0;
  zb_pointers : user_pages_start z = U ∧ bitmap_start z = B;
  zb_next : next_sz_index z = next;
  zb_tagged : tagged z = false;
}.

(** The body of [_iso_new_zone]: bitmap, user pages, secrets, canary chunks and free slots. *)
Lemma wp_build_zone (E : failure → Prop) {A} w zi cs old v k (rest : M A) Q : new_base w → allows E (bitmaps_room w) → page_ok (set_w_k k w) →
  32 <= cs <= 65536 → cs mod 32 = 0 →
  (∀ z s bs m vm k' U B, zone_built w zi cs (next_sz_index old) z bs m vm U B → page_ok (set_w_k k' w) →
     wp E rest Q (building zi w z s bs m vm k')) →
  wp E (new_bitmap zi;; map_user_pages zi true;; zmod zi (set_index zi);;
    secret ← us_rand_uint64; zmod zi (set_canary_secret secret);; mask ← us_rand_uint64; zmod zi (set_pointer_mask mask);;
    create_canary_chunks zi;; fill_free_bit_slots zi;; get_next_free_bit_slot zi;; rest) Q
    (building zi w (new_zone_fields cs true old) v (bitmaps (w_root w)) (w_mem w) (w_vm w) k).
Proof.
  intros Hw Hroom Hk Hcs Hcm HQ. pose proof (nb_root w Hw) as Hr. pose proof (nb_page w Hw) as Hpg. set (zF := new_zone_fields cs true old).
  pose proof (new_zone_geom cs old Hcs Hcm) as HgF. fold zF in HgF.
  wstep. apply wp_new_bitmap; [done|done|done|done| |].
  { destruct (zone_chunk_count zF HgF) as [Hc1 _]. rewrite (zg_bitmap _ HgF). split; [apply Z.div_str_pos; lia|apply Z.div_le_upper_bound; lia]. }
  pose proof (proj1 Hroom) as HE.
  intros a i bs m1 vm1 k1 Hbm Hk1. wstep. apply wp_map_user_pages; [done|done|done|]. intros U m2 vm2 k2 Hpm Hk2.
  do 2 wstep. rewrite building_zone, building_put. wstep. apply wp_us_rand; [done|]. intros s1 secret _ Hsec. rewrite building_seed.
  do 2 wstep. rewrite building_zone, building_put. wstep. apply wp_us_rand; [done|]. intros s2 mask _ _. rewrite building_seed.
  do 2 wstep. rewrite building_zone, building_put.
  match goal with |- wp _ _ _ (building _ _ ?Z _ _ _ _ _) => change Z with (laid_out zi a i U secret mask zF) end.
  pose proof (laid_out_frame zi a i U secret mask zF) as Hlo.
  assert (Hfz : fresh_zone vm2 m2 U a (laid_out zi a i U secret mask zF)).
  { apply (laid_out_fresh w zi a i U secret mask zF bs m1 vm1 m2 vm2 Hpg HgF eq_refl Hsec); [|done]. cbv zeta in Hlo. by destruct Hlo as (_ & _ & _ & _ & _ & -> & _). }
  cbv zeta in Hlo. set (z := laid_out zi a i U secret mask zF) in *. clearbody z.
  change (chunk_size zF) with cs in Hlo. change (internal zF) with true in Hlo. change (af_count zF) with 0 in Hlo. change (is_full zF) with false in Hlo.
  change (next_sz_index zF) with (next_sz_index old) in Hlo. change (tagged zF) with false in Hlo.
  wstep. apply wp_create_canary_chunks with U a; [done|exact Hfz|]. intros s3 m3 Hfz3 Hout. apply wp_first_slots with U a; [done|done|done|done|apply Hlo|].
  intros z5 s4 k4 Hinv Hsl [F1 F2 F3 F4 F5 F6 F7 F8 F9 F10 F11] Hk4. destruct Hlo as (_ & L1 & L2 & L3 & L4 & L5 & L6 & L7 & L8 & _ & _ & L9 & L10 & L11).
  apply (HQ z5 s4 bs m3 vm2 k4 U a); [|done]. constructor; try done; try congruence; [|split; congruence].
  exists m1, vm1, m2. rewrite F5, F6, L5, F11, L11. done.
Qed.

(** What creating an internal zone for requests of [size] bytes does. *)
Record zone_created (w w' : world) (size i : Z) : Prop := {
  zc_index : i = zones_used (w_root w) ∧ zones_used (w_root w') = i + 1;
  zc_keeps : keeps w w';
  zc_chosen : chosen w' size i;
  zc_size : chunk_size (zone_at w' i) = chunk_size_of size;
  zc_internal : internal (zone_at w' i) = true;
  zc_guards : ∀ a, UNMASK_USER_PTR (zone_at w' i) - w_page_size w <= a < UNMASK_USER_PTR (zone_at w' i) ∨
    UNMASK_USER_PTR (zone_at w' i) + ZONE_USER_SIZE <= a < UNMASK_USER_PTR (zone_at w' i) + ZONE_USER_SIZE + w_page_size w →
    vm_prot (w_vm w') a = Some PROT_NONE;
  zc_locks : w_root_lock w' = w_root_lock w ∧ w_big_free_lock w' = w_big_free_lock w ∧ w_big_used_lock w' = w_big_used_lock w;
  zc_bitmaps : (∀ l b, bitmaps (w_root w) !! l = Some b → bucket b = 0) → bitmaps (w_root w') = bitmaps (w_root w);
  zc_bigs : w_bigs w' = w_bigs w ∧ big_lists (w_root w') = big_lists (w_root w);
}.

Lemma zone_created_added w z s bs m1 vm1 m2 m vm k size U B : heap_inv w → zones_used (w_root w) < MAX_ZONES → page_ok (set_w_k k w) → index z = zones_used (w_root w) →
  0 <= size <= 65536 → chunk_size z = chunk_size_of size → internal z = true → af_count z = 0 → user_pages_start z = U → bitmap_start z = B →
  bitmap_made w B (bitmap_size z) (preallocated_bitmap_idx z) bs m1 vm1 → pages_made (w_page_size w) m1 m2 vm1 vm U → same_outside m2 m U B (8 * max_bitmap_idx z) →
  zinv vm m U B z → free_slot m B z (next_free_bit_slot z) →
  zone_created w (zone_added w (MASK_ZONE_PTRS (set_next_sz_index
      (default 0 (zone_lookup_table (w_root w) !! SZ_TO_ZONE_LOOKUP_IDX (chunk_size z))) z)) s bs m vm k U) size (zones_used (w_root w)).
Proof.
  intros Hw Hmx Hk Hix Hsz Hcs Hi Haf HU HB Hbm Hpm Hout Hinv Hsl. pose proof (hv_used w Hw) as Hu. set (zf := MASK_ZONE_PTRS _).
  assert (HUf : UNMASK_USER_PTR zf = U) by (unfold zf; rewrite masked_user; exact HU).
  assert (HBf : UNMASK_BITMAP_PTR zf = B) by (unfold zf; rewrite masked_bitmap; exact HB).
  assert (Hzf : zone_inv vm m zf).
  { unfold zone_inv. rewrite HUf, HBf. apply zinv_masked. destruct Hinv as [[] [] [] ? ? ?]. constructor; try done; by constructor. }
  pose proof (zone_max_idx z (zinv_geom _ _ _ _ _ Hinv)) as (_ & _ & Hbs). pose proof (page_ok_bounds w (hv_page w Hw)) as Hpb.
  assert (Hex : extends w bs m vm U B (bitmap_size zf) (preallocated_bitmap_idx zf)).
  { apply (extends_made w B (bitmap_size z) (preallocated_bitmap_idx z) bs m1 vm1 m2); [done|done|lia|]. intros x Hx1 Hx2. apply Hout; [done|lia]. }
  pose proof (keeps_added w zf s bs m vm k U B Hw Hmx Hk HUf HBf Hex Hix Hzf Hi eq_refl Haf) as Hkeep.
  assert (Hat : zone_at (zone_added w zf s bs m vm k U) (zones_used (w_root w)) = zf) by (unfold zone_at; simpl; by rewrite lookup_insert_eq).
  destruct (chunk_size_of_raw size Hsz) as (_ & _ & Hle & _).
  constructor; rewrite ?Hat; [by split|exact Hkeep| |exact Hcs|exact Hi| |by split_and!| |done].
  - constructor; rewrite ?Hat.
    + change (zones_used (w_root (zone_added w zf s bs m vm k U))) with (zones_used (w_root w) + 1). lia.
    + change (chunk_size zf) with (chunk_size z). lia.
    + rewrite HBf. exact Hsl.
  - rewrite HUf. intros x Hx. by apply (pm_guards _ _ _ _ _ _ Hpm).
  - apply (bmd_same _ _ _ _ _ _ _ Hbm).
Qed.

Lemma wp_iso_new_zone (E : failure → Prop) w size : heap_inv w → allows E (bitmaps_room w) → 0 <= size <= SMALL_SIZE_MAX →
  wp E (_iso_new_zone size true (-1)) (λ r w', ∃ i, r = Some i ∧ zone_created w w' size i) w.
Proof.
  intros Hw Hroom Hsz. change SMALL_SIZE_MAX with 65536 in Hsz. pose proof (hv_root w Hw) as Hr. pose proof (hv_page w Hw) as Hpg.
  pose proof (hv_used w Hw) as Hu. destruct (chunk_size_of_raw size Hsz) as (Hcs & Hcm & Hle & _). pose proof (page_ok_bounds w Hpg) as Hpb.
  unfold _iso_new_zone. wsteps. change MAX_ZONES with 8192. destruct (Z.leb_spec 8192 (zones_used (w_root w))) as [Hfull|Hroomz]; [by apply Hroom|].
  cbn [orb Z.leb Z.compare]. change SMALL_SIZE_MAX with 65536. rewrite (proj2 (Z.ltb_ge 65536 size)) by lia.
  wstep. apply wp_rand; [done|apply Hroom|]. intros v k Hv Hk. do 2 wstep. set (cs := chunk_size_of size) in *. set (zi := zones_used (w_root w)) in *.
  do 2 wstep. change (zone_at _ zi) with (zone_at w zi).
  match goal with |- wp _ _ _ ?W => change W with (building zi w (new_zone_fields cs true (zone_at w zi)) v (bitmaps (w_root w)) (w_mem w) (w_vm w) k) end.
  apply wp_build_zone; [by apply heap_base|done..|]. intros z s bs m vm k' U B [(m1 & vm1 & m2 & Hbm & Hpm & Hout) Hinv Hsl Hix Hcsz Hi Haf [HU HB] _] Hk'.
  cbn [andb Z.ltb Z.compare when]. apply (wp_finish E w z s bs m vm k' cs); [done|change MAX_ZONES with 8192; lia|done|done|].
  exists zi. split; [done|]. rewrite HU. by apply zone_created_added with m1 vm1 m2 B.
Qed.
End build.
