(* ===== verification/HeapOps.v ===== *)
(** * The allocator on the whole heap

    Allocation and release as the program performs them: [_iso_alloc] searches the
    thread's zone cache, the lists of zones of one size and all zones, and creates a zone
    when none can serve the request; [_iso_free_internal] finds the zone of a pointer and
    releases the chunk. The theorems hold for every process that satisfies [heap_inv]. *)

From S2P Require Import Prelude Words Conf Memory State Util ZoneBits FreeList Chunks Lookup Heap Zones BigZones BigSpec Verify MemTags Alloc AllocSpec NewZone.

Section ops.
Context `{!Kernel, !KernelLaws, !Config}.

(** ** Allocating *)

Lemma quiet_room w w' : quiet w w' → bitmaps_room w → bitmaps_room w'.
Proof. intros Hq. unfold bitmaps_room. destruct (q_root _ _ Hq) as [s ->]. rewrite (q_page _ _ Hq). done. Qed.

Lemma searched_refl w size : heap_inv w → searched w w size None.
Proof. intros Hw. split_and!; [done|apply quiet_refl|done]. Qed.

(** The thread's candidate, tried first. *)
Definition candidate_ok (w : world) (size : Z) (cached : option Z) : Prop :=
  ∀ i, cached = Some i → 0 <= i < zones_used (w_root w) ∧ size <= chunk_size (zone_at w i) ∧ internal (zone_at w i) = true.

Lemma wp_try_cached (E : failure → Prop) w cached size : heap_inv w → (∀ f, resource f → E f) → candidate_ok w size cached →
  wp E (match cached with Some c => u ← is_zone_usable c size; mret (if u : bool then Some c else None) | None => mret None end)
    (λ r w', searched w w' size r) w.
Proof.
  intros Hw HE Hc. destruct cached as [i|]; [|by apply wp_ret, searched_refl]. destruct (Hc i eq_refl) as (Hi & Hs & Hint).
  apply wp_bind, wp_usable_heap; try done. intros b w' Hw' Hq Hfree _. apply wp_ret. pose proof (quiet_shape w w' i Hq) as Hsh.
  split_and!; [done|done|]. intros j. destruct b; [|done]. intros [= <-]. rewrite (ss_internal _ _ Hsh). split; [|done].
  constructor; [by rewrite (quiet_used _ _ Hq)|by rewrite (ss_size _ _ Hsh)|auto].
Qed.

Lemma chosen_slot w size i : chosen w size i → (next_free_bit_slot (zone_at w i) =? BAD_BIT_SLOT) = false.
Proof. intros [_ _ [Hr _]]. change BAD_BIT_SLOT with (-1). apply Z.eqb_neq. lia. Qed.

Lemma wp_alloc_chosen E w w1 size i : keeps w w1 → chosen w1 size i →
  wp E (alloc_from i (next_free_bit_slot (zone_at w1 i))) (λ p w', ∃ i c, small_alloc w w' size p i c) w1.
Proof.
  intros Hk Hch. eapply wp_post; [apply (wp_alloc_from _ _ size); [apply Hk|done]|]. intros p w' (c & Hsa). exists i, c. by eapply keeps_alloc.
Qed.

Lemma wp_alloc_small (E : failure → Prop) w cached size : heap_inv w → allows E (bitmaps_room w) → 0 < zones_used (w_root w) → FUZZ_MODE = false →
  0 <= size <= SMALL_SIZE_MAX → size mod 32 = 0 → candidate_ok w size cached →
  wp E (alloc_small None cached size) (λ p w', ∃ i c, small_alloc w w' size p i c) w.
Proof.
  intros Hw Hroom Hpos Hfz Hs Hm Hc. change SMALL_SIZE_MAX with 65536 in Hs. unfold alloc_small. rewrite Hfz. wstep. cbn [when]. do 2 wstep.
  eapply wp_post; [apply (wp_try_cached E w cached size); [done|apply Hroom|done]|]. intros r w1 Hs1. pose proof Hs1 as (Hw1 & Hq1 & _). wstep.
  apply wp_post with (λ r w', searched w w' size r).
  { destruct r as [i|]; [by apply wp_ret|]. apply wp_find_suitable_zone; try done; [by rewrite (quiet_used _ _ Hq1)|apply Hroom|].
    intros r w' Hs'. by eapply searched_trans. }
  clear r w1 Hs1 Hw1 Hq1. intros [i|] w1 (Hw1 & Hq & Hch).
  - destruct (Hch i eq_refl) as [Hch' Hint]. do 2 wstep. rewrite Hint. cbn [negb]. do 2 wstep. cbn [negb]. do 2 wstep.
    rewrite (chosen_slot _ _ _ Hch'). apply wp_alloc_chosen; [by apply quiet_keeps|done].
  - wstep. eapply wp_post; [apply (wp_iso_new_zone E w1 size); [done|eapply allows_mono; [by eapply quiet_room|done]|done]|]. intros r w2 (i & -> & Hz).
    do 2 wstep. rewrite (chosen_slot _ _ _ (zc_chosen _ _ _ _ Hz)). apply wp_alloc_chosen; [|apply Hz].
    eapply keeps_trans; [by apply quiet_keeps|apply Hz].
Qed.

Lemma keeps_lock b w : heap_inv w → keeps w (set_w_root_lock b w).
Proof.
  intros Hw. constructor; [by apply heap_inv_root_lock|done| |done|done|done|done|done|].
  - intros j _. apply same_shape_refl.
  - constructor; try done; intros x Ho; left; exact Ho.
Qed.

(** A request whose rounded size [chunk_size_of size] is at most 64 KiB. *)
Lemma wp_iso_alloc_rounded (E : failure → Prop) w size : heap_inv w → allows E (bitmaps_room w) → 0 < zones_used (w_root w) → FUZZ_MODE = false →
  w_root_lock w = false → NO_ZERO_ALLOCATIONS && (size =? 0) = false → 0 <= chunk_size_of size <= SMALL_SIZE_MAX →
  chunk_size_of size mod 32 = 0 →
  wp E (_iso_alloc None size) (λ p w', ∃ i c, small_alloc w w' (chunk_size_of size) p i c) w.
Proof.
  intros Hw Hroom Hpos Hfz Hl Hz Hcs Hm. change SMALL_SIZE_MAX with 65536 in Hcs.
  unfold _iso_alloc. do 2 wstep. rewrite Hz. cbn [andb]. do 3 wstep. set (cs := chunk_size_of size) in *. change SMALL_SIZE_MAX with 65536.
  rewrite (proj2 (Z.leb_le cs 65536)) by lia. apply wp_lock_root; [done|]. wstep. rewrite (hv_root w Hw). wstep.
  pose proof (keeps_lock true w Hw) as Hk. eapply wp_post.
  - apply (wp_alloc_small E (set_w_root_lock true w)); try done; [apply Hk|]. intros i Hi.
    by apply (cached_candidate_spec (Z.to_nat (w_zone_cache_count w)) w) in Hi.
  - intros p w' (i & c & Hsa). exists i, c. by apply (keeps_alloc _ _ _ _ _ _ _ Hk).
Qed.

Lemma small_alloc_weaken w w' size size' p i c : small_alloc w w' size p i c → size' <= size → small_alloc w w' size' p i c.
Proof. intros [] Hle. constructor; try done. lia. Qed.

(** A request of at most 64 KiB that is not for zero bytes. *)
Lemma wp_iso_alloc_small (E : failure → Prop) w size : heap_inv w → allows E (bitmaps_room w) → 0 < zones_used (w_root w) → FUZZ_MODE = false →
  w_root_lock w = false → 0 <= size <= SMALL_SIZE_MAX → NO_ZERO_ALLOCATIONS && (size =? 0) = false →
  wp E (_iso_alloc None size) (λ p w', ∃ i c, small_alloc w w' size p i c) w.
Proof.
  intros Hw Hroom Hpos Hfz Hl Hs Hz. change SMALL_SIZE_MAX with 65536 in Hs. destruct (chunk_size_of_raw size Hs) as (Hcs & Hm & Hle & _).
  eapply wp_post; [apply wp_iso_alloc_rounded; try done; change SMALL_SIZE_MAX with 65536; lia|].
  intros p w' (i & c & Hsa). exists i, c. eapply small_alloc_weaken; [done|lia].
Qed.

(** ** Releasing *)

(** Freeing chunk [c] of zone [i] would make the zone eligible for retirement. *)
Definition retiring (w : world) (i : Z) : bool :=
  let z := zone_at w i in
  (af_count z =? 1) && (u32 (Z.shiftl (chunk_count z) (zone_retirement_shf (w_root w))) <? alloc_count z)
  && (internal z && (chunk_size z <? MAX_DEFAULT_ZONE_SZ * 2)).

(** The conditions under which freeing chunk [c] of zone [i] is only a release: the
    harmless neighbour of [neighbour_ok], no tags, no retirement. *)
Record plain_free (w : world) (i c : Z) : Prop := {
  pf_in_use : in_use_at w i c;
  pf_neighbour : neighbour_ok (w_vm w) (w_mem w) (UNMASK_BITMAP_PTR (zone_at w i)) c (zone_at w i);
  pf_untagged : MEMORY_TAGGING && tagged (zone_at w i) = false;
  pf_stays : retiring w i = false;
}.

Lemma released_shape permanent c z : same_shape z (released permanent c z).
Proof. unfold released. destruct (negb permanent && _); by constructor. Qed.

Lemma released_fields permanent c z : same_life z (released permanent c z).
Proof. unfold same_life, released. by destruct (negb permanent && _). Qed.

Lemma released_af vm m permanent c z : zone_inv vm m z → 0 <= c < slots z → chunk_st m (UNMASK_BITMAP_PTR z) c = ChunkInUse →
  1 <= af_count z ∧ af_count (released permanent c z) = af_count z - 1.
Proof.
  intros Hinv Hc Hst. pose proof (zinv_af _ _ _ _ _ Hinv) as Haf. pose proof (in_use_le m (UNMASK_BITMAP_PTR z) z).
  pose proof (zinv_max _ _ _ _ _ Hinv). assert (1 <= af_count z).
  { assert (Hin : List.In c (in_use_chunks m (UNMASK_BITMAP_PTR z) z)).
    { apply List.filter_In. split; [apply list_elem_of_In, elem_of_seqZ; lia|]. by apply bool_decide_eq_true. }
    destruct (in_use_chunks m (UNMASK_BITMAP_PTR z) z); [done|]. simpl in Haf. lia. }
  split; [done|]. assert (u32 (af_count z - 1) = af_count z - 1) by (apply u32_small; unfold slots in *; lia).
  unfold released. by destruct (negb permanent && _).
Qed.

(** A pointer into the user pages of zone [i] leads to zone [i]. *)
Lemma find_zone_range_run w p i : heap_inv w → 0 <= i < zones_used (w_root w) →
  UNMASK_USER_PTR (zone_at w i) <= p < UNMASK_USER_PTR (zone_at w i) + ZONE_USER_SIZE → iso_find_zone_range p w = Ret (Some i) w.
Proof.
  intros Hw Hi Hp. destruct (find_zone_spec (in_user_pages p) p w Hw ltac:(lia)) as (r & Hf & Hr). unfold iso_find_zone_range. rewrite Hf.
  destruct r as [j|].
  - destruct Hr as [Hj Ht%in_user_pages_spec]. destruct (decide (i = j)) as [->|Hne]; [done|]. exfalso.
    by apply (hv_disj w Hw i j Hi Hj Hne p); left.
  - apply in_user_pages_spec in Hp. by rewrite Hr in Hp.
Qed.

Lemma chunk_at_range w i c : heap_inv w → 0 <= i < zones_used (w_root w) → 0 <= c < slots (zone_at w i) →
  UNMASK_USER_PTR (zone_at w i) <= chunk_at w i c ∧ chunk_at w i c + chunk_size (zone_at w i) <= UNMASK_USER_PTR (zone_at w i) + ZONE_USER_SIZE.
Proof. intros Hw Hi Hc. destruct (hv_zone_at w i Hw Hi) as [_ Hinv]. by apply (chunk_addr_range _ _ _ _ _ Hinv). Qed.

Lemma chunk_in_pages w i c : heap_inv w → in_use_at w i c →
  UNMASK_USER_PTR (zone_at w i) <= chunk_at w i c < UNMASK_USER_PTR (zone_at w i) + ZONE_USER_SIZE.
Proof.
  intros Hw (Hi & Hc & _). destruct (chunk_at_range w i c Hw Hi Hc). pose proof (zinv_size _ _ _ _ _ (proj2 (hv_zone_at w i Hw Hi))). lia.
Qed.

Lemma find_chunk_run w i c : heap_inv w → in_use_at w i c → iso_find_zone_range (chunk_at w i c) w = Ret (Some i) w.
Proof. intros Hw Hin. apply find_zone_range_run; [done|apply Hin|by apply chunk_in_pages]. Qed.

Lemma refresh_tag_untagged zi p w : MEMORY_TAGGING && tagged (zone_at w zi) = false → refresh_tag zi p w = Ret tt w.
Proof. intros Ht. unfold refresh_tag, mbind, M_bind, zget. by rewrite Ht. Qed.

Lemma is_zone_retired_run zi w : w_root_null w = false → _is_zone_retired zi w =
  Ret ((af_count (zone_at w zi) =? 0) && (u32 (Z.shiftl (chunk_count (zone_at w zi)) (zone_retirement_shf (w_root w))) <? alloc_count (zone_at w zi))
       && (internal (zone_at w zi) && (chunk_size (zone_at w zi) <? MAX_DEFAULT_ZONE_SZ * 2))) w.
Proof. intros Hr. unfold _is_zone_retired, mbind, M_bind, zget, root. by rewrite Hr. Qed.

(** The process after chunk [c] of zone [i] was released: the bits of the chunk, its zone and
    the poisoned bytes. *)
Definition after_free (permanent : bool) (i c : Z) (w : world) : world :=
  let z := zone_at w i in
  zput_w i (released permanent c z) (set_w_mem (freed_mem permanent (w_mem w) (UNMASK_USER_PTR z) (UNMASK_BITMAP_PTR z) c z) w).

Lemma after_free_changed w permanent i c : let z := zone_at w i in let w' := after_free permanent i c w in
  heap_inv w → in_use_at w i c → chunk_changed w w' i c false ∧ af_count (zone_at w' i) = af_count z - 1 ∧
  chunk_st (w_mem w') (UNMASK_BITMAP_PTR z) c = (if permanent then ChunkCanary else ChunkWasUsed).
Proof.
  intros z w' Hw (Hi & Hc & Hst). destruct (hv_zone_at w i Hw Hi) as [Hz Hinv]. fold z in Hz, Hinv, Hc, Hst.
  set (m' := freed_mem permanent (w_mem w) (UNMASK_USER_PTR z) (UNMASK_BITMAP_PTR z) c z).
  destruct (released_af _ _ permanent c z Hinv Hc Hst) as [Haf1 Haf].
  pose proof (freed_mem_effect _ permanent _ _ _ c _ Hinv Hc) as He. fold m' in He.
  pose proof (zinv_released _ _ permanent _ _ c _ Hinv Hc Hst) as Hinv'. fold m' in Hinv'.
  assert (Hsh : same_shape z (released permanent c z)) by apply released_shape.
  assert (Hzi : zone_inv (w_vm w) m' (released permanent c z)) by (unfold zone_inv; by rewrite (ss_user _ _ Hsh), (ss_bitmap _ _ Hsh)).
  pose proof (heap_effect w i c m' (released permanent c z) permanent true (w_root_lock w) Hw Hi Hc He Hzi Hsh) as Hcc.
  assert (bool_decide (state_of_bits permanent true = ChunkInUse) = false) as Hbd by by destruct permanent. rewrite Hbd in Hcc.
  replace (set_w_root_lock (w_root_lock w) (zput_w i (released permanent c z) (set_w_mem m' w))) with w' in Hcc by (unfold w', after_free; by destruct w).
  split_and!; [done|unfold w', after_free; by rewrite zone_at_put|].
  change (w_mem w') with m'. rewrite (effect_chunk_st _ _ _ _ _ _ _ _ c He Hc), Z.eqb_refl. by destruct permanent.
Qed.

Lemma after_free_life w permanent i c j : same_life (zone_at w j) (zone_at (after_free permanent i c w) j).
Proof. unfold after_free. destruct (decide (i = j)) as [<-|Hne]; [rewrite zone_at_put; apply released_fields|by rewrite zone_at_put_ne]. Qed.

(** The release itself. Above the last chunk of the bitmap the check of the neighbour reads
    outside it: where that word is not harmless the call may fail, but never has another
    effect. *)
Lemma wp_free_chunk (E : failure → Prop) w permanent i c : let z := zone_at w i in
  heap_inv w → in_use_at w i c → (∀ f, E f) ∨ neighbour_ok (w_vm w) (w_mem w) (UNMASK_BITMAP_PTR z) c z →
  wp E (iso_free_chunk_from_zone i (chunk_at w i c) permanent) (λ _ w', w' = after_free permanent i c w) w.
Proof.
  intros z Hw (Hi & Hc & Hst) Hor. destruct (hv_zone_at w i Hw Hi) as [Hz Hinv]. unfold wp, chunk_at. destruct Hor as [HE|Hn].
  - rewrite (free_chunk_run i c _ w permanent Hz Hinv Hc Hst). fold (after_free permanent i c w).
    destruct (check_neighbours _ _ _ _ _ _) as [u w'| | | | |] eqn:Hck; try done. by apply check_neighbours_pure in Hck.
  - by rewrite (free_chunk_eq i c _ w permanent Hz Hinv Hc Hst Hn).
Qed.

Lemma free_chunk_changed w permanent i c : let z := zone_at w i in
  heap_inv w → in_use_at w i c → neighbour_ok (w_vm w) (w_mem w) (UNMASK_BITMAP_PTR z) c z →
  iso_free_chunk_from_zone i (chunk_at w i c) permanent w = Ret tt (after_free permanent i c w).
Proof.
  intros z Hw (Hi & Hc & Hst) Hn. destruct (hv_zone_at w i Hw Hi) as [Hz Hinv]. by apply (free_chunk_eq i c _ w permanent).
Qed.

(** The rest of a release that does not retire the zone. *)
Lemma free_rest_run w permanent i c : heap_inv w → in_use_at w i c → MEMORY_TAGGING && tagged (zone_at w i) = false → retiring w i = false →
  let w' := after_free permanent i c w in
  (retired ← _is_zone_retired i; when retired (destroy_zone_pages i true);; refresh_tag i (chunk_at w i c);; mret (Some i)) w' = Ret (Some i) w' ∧
  others_kept w w'.
Proof.
  intros Hw Hin Ht Hret w'. destruct (after_free_changed w permanent i c Hw Hin) as (Hcc & Haf & _). fold w' in Hcc, Haf.
  destruct (after_free_life w permanent i c i) as (L1 & L2 & L3). fold w' in L1, L2, L3. pose proof (cc_shape _ _ _ _ _ Hcc i) as Hsh. split.
  - erewrite (run_bind (_is_zone_retired i) _ w' false w').
    { cbn [when]. erewrite run_bind by done. erewrite run_bind; [done|]. apply refresh_tag_untagged. by rewrite L1. }
    rewrite is_zone_retired_run by apply Hw. f_equal. unfold retiring in Hret.
    rewrite Haf, (ss_internal _ _ Hsh), (ss_size _ _ Hsh), L2, L3. change (w_root w') with (w_root w). rewrite <-Hret.
    f_equal. f_equal. destruct (Z.eqb_spec (af_count (zone_at w i) - 1) 0), (Z.eqb_spec (af_count (zone_at w i)) 1); done || lia.
  - constructor; try done.
    + intros x _ Hno. apply (cc_out _ _ _ _ _ Hcc). intros Hf. apply Hno. left. destruct Hin as [Hi _]. by exists i.
    + intros x Ho. left. apply (owned_same w w'); try done. apply Hcc.
    + intros x Ho. left. apply (zone_reserved_same w w'); try done. apply Hcc.
Qed.

Lemma free_unlocked_run w permanent i c : heap_inv w → FUZZ_MODE = false → plain_free w i c →
  let w' := after_free permanent i c w in
  _iso_free_internal_unlocked (chunk_at w i c) permanent None w = Ret (Some i) w' ∧ chunk_changed w w' i c false ∧ others_kept w w' ∧
    chunk_st (w_mem w') (UNMASK_BITMAP_PTR (zone_at w i)) c = (if permanent then ChunkCanary else ChunkWasUsed).
Proof.
  intros Hw Hfz [Hin Hn Ht Hret] w'. destruct (after_free_changed w permanent i c Hw Hin) as (Hcc & Haf & Hst).
  destruct (free_rest_run w permanent i c Hw Hin Ht Hret) as [Hrest Hok]. split_and!; try done.
  unfold _iso_free_internal_unlocked. rewrite Hfz. cbn [when]. erewrite run_bind by done.
  erewrite run_bind by (by apply find_chunk_run). cbv iota beta. erewrite run_bind by (by apply free_chunk_changed). exact Hrest.
Qed.

Lemma wp_free_unlocked w permanent i c : heap_inv w → FUZZ_MODE = false → in_use_at w i c →
  MEMORY_TAGGING && tagged (zone_at w i) = false → retiring w i = false →
  wp anything (_iso_free_internal_unlocked (chunk_at w i c) permanent None) (λ _ w', w' = after_free permanent i c w ∧ others_kept w w') w.
Proof.
  intros Hw Hfz Hin Ht Hret. destruct (free_rest_run w permanent i c Hw Hin Ht Hret) as [Hrest Hok].
  unfold _iso_free_internal_unlocked. rewrite Hfz. cbn [when]. do 3 wstep. eapply wp_eq; [by apply find_chunk_run|]. cbv iota beta. wstep.
  eapply wp_post; [apply wp_free_chunk; [done|done|by left]|]. cbv beta. intros _ w1 ->. by eapply wp_eq.
Qed.

Lemma chunk_changed_then w w1 w2 i c b : chunk_changed w w1 i c b → heap_inv w2 → w_mem w2 = w_mem w1 → w_zones w2 = w_zones w1 →
  w_root w2 = w_root w1 → chunk_changed w w2 i c b.
Proof.
  intros [B1 B2 B3 B4 B5] Hw2 Hm Hz Hr.
  assert (Hat : ∀ j, zone_at w2 j = zone_at w1 j) by (intros j; unfold zone_at; by rewrite Hz).
  constructor; [done|intros j; rewrite Hat; apply B2| |by rewrite Hm|by rewrite Hm].
  intros j d. rewrite <-B3. unfold in_use_at. by rewrite Hat, Hm, Hr.
Qed.

(** What [_iso_free_internal] does with a chunk in use. *)
Record small_free (w w' : world) (permanent : bool) (i c : Z) : Prop := {
  sf_changed : chunk_changed w w' i c false;
  sf_state : chunk_st (w_mem w') (UNMASK_BITMAP_PTR (zone_at w' i)) c = (if permanent then ChunkCanary else ChunkWasUsed);
  sf_root : w_root w' = w_root w;
  sf_maps : w_vm w' = w_vm w ∧ w_bigs w' = w_bigs w;
  sf_lock : w_root_lock w' = false;
}.

Lemma free_internal_run w permanent i c : heap_inv w → FUZZ_MODE = false → w_root_lock w = false → plain_free w i c →
  ∃ w', _iso_free_internal (chunk_at w i c) permanent w = Ret tt w' ∧ small_free w w' permanent i c.
Proof.
  intros Hw Hfz Hl Hpf. set (w1 := set_w_root_lock true w). assert (Hpf1 : plain_free w1 i c) by (destruct Hpf; by constructor).
  pose proof (heap_inv_root_lock true w Hw : heap_inv w1) as Hw1.
  destruct (free_unlocked_run w1 permanent i c Hw1 Hfz Hpf1) as (Hrun & Hcc & _ & Hst). set (w2 := after_free permanent i c w1) in *.
  assert (Hr : w_root w2 = w_root w) by done.
  assert (Hcc' : chunk_changed w w2 i c false) by (destruct Hcc; by constructor).
  set (w3 := set_w_root_lock false w2). assert (Hw3 : heap_inv w3) by (apply heap_inv_root_lock, Hcc).
  assert (Hi : 0 <= i < zones_used (w_root w3)) by (change (w_root w3) with (w_root w2); rewrite Hr; apply (pf_in_use _ _ _ Hpf)).
  destruct (populate_spec i w3 Hw3 Hi) as (w4 & Hpop & Hw4 & (ch & n & Heq)). exists w4. split.
  - unfold _iso_free_internal. erewrite run_bind by (unfold LOCK_ROOT; by rewrite Hl). fold w1.
    erewrite run_bind by exact Hrun. erewrite run_bind by done. exact Hpop.
  - assert (Hz4 : w_zones w4 = w_zones w2) by (by rewrite Heq). assert (Hat : zone_at w4 i = zone_at w2 i) by (unfold zone_at; by rewrite Hz4).
    constructor; [apply (chunk_changed_then w w2); [done|done|by rewrite Heq..]| |rewrite Heq; exact Hr|by rewrite Heq|by rewrite Heq].
    rewrite Hat, (ss_bitmap _ _ (cc_shape _ _ _ _ _ Hcc' i)), Heq. exact Hst.
Qed.

(** ** Chunks in use do not overlap *)

Lemma in_use_disjoint w i c j d a : heap_inv w → in_use_at w i c → in_use_at w j d → in_chunk w i c a → in_chunk w j d a → i = j ∧ c = d.
Proof.
  intros Hw (Hi & Hc & _) (Hj & Hd & _) Ha Hb. destruct (hv_zone_at w i Hw Hi) as [_ Hii]. destruct (hv_zone_at w j Hw Hj) as [_ Hij].
  destruct (decide (i = j)) as [->|Hne].
  - split; [done|]. destruct (decide (c = d)) as [|Hcd]; [done|]. exfalso. pose proof (zinv_size _ _ _ _ _ Hij).
    destruct (chunks_disjoint (chunk_size (zone_at w j)) c d (UNMASK_USER_PTR (zone_at w j)) ltac:(lia) Hcd);
      unfold in_chunk, chunk_at, chunk_addr in *; lia.
  - exfalso. apply (hv_disj w Hw i j Hi Hj Hne a); eapply footprint_zinv; [exact Hii| |exact Hij|]; left; by eexists.
Qed.

Lemma chunk_at_facts w i c : heap_inv w → in_use_at w i c →
  0 < chunk_at w i c ∧ chunk_at w i c + chunk_size (zone_at w i) <= 2 ^ 47 ∧ chunk_at w i c mod 32 = 0 ∧
  mapped_rw (w_vm w) (chunk_at w i c) (chunk_size (zone_at w i)) ∧ 32 <= chunk_size (zone_at w i) <= 65536.
Proof.
  intros Hw (Hi & Hc & _). destruct (hv_zone_at w i Hw Hi) as [_ Hinv]. destruct (chunk_at_range w i c Hw Hi Hc).
  pose proof (zinv_mapped _ _ _ _ _ Hinv) as [Hu Hal _ _ _]. split_and!; try lia.
  - unfold chunk_at, chunk_addr. pose proof (zg_align _ (zinv_geom _ _ _ _ _ Hinv)) as Hm.
    rewrite Z.add_mod, Z.mul_mod, Hm, Z.mul_0_r by lia. replace (UNMASK_USER_PTR (zone_at w i)) with (4096 * (UNMASK_USER_PTR (zone_at w i) / 4096))
      by (pose proof (Z.div_mod (UNMASK_USER_PTR (zone_at w i)) 4096); lia).
    replace (4096 * (UNMASK_USER_PTR (zone_at w i) / 4096)) with (0 + (128 * (UNMASK_USER_PTR (zone_at w i) / 4096)) * 32) by lia.
    by rewrite Z.mod_add.
  - by apply (chunk_mapped _ _ _ _ _ Hinv).
  - apply (zinv_size _ _ _ _ _ Hinv).
  - apply (zinv_size _ _ _ _ _ Hinv).
Qed.

(** ** Stores of the program *)

(** A memory that differs from the process's inside chunk [c] of zone [i] only. *)
Definition user_store (w : world) (i c : Z) (m' : gmap Z Z) : Prop :=
  ∀ x, ¬ in_chunk w i c x → ld8 m' x = ld8 (w_mem w) x.

(** A byte of a chunk in use is in no zone's bitmap. *)
Lemma chunk_off_bitmaps w i c a j : heap_inv w → in_use_at w i c → in_chunk w i c a → 0 <= j < zones_used (w_root w) →
  ¬ (UNMASK_BITMAP_PTR (zone_at w j) <= a < UNMASK_BITMAP_PTR (zone_at w j) + 8 * max_bitmap_idx (zone_at w j)).
Proof.
  intros Hw (Hi & Hc & _) Ha Hj Hb. destruct (hv_zone_at w j Hw Hj) as [_ Hij]. destruct (hv_zone_at w i Hw Hi) as [_ Hii].
  destruct (decide (i = j)) as [->|Hne].
  - destruct (chunk_at_range w j c Hw Hj Hc). unfold in_chunk in Ha. pose proof (zm_disjoint _ _ _ _ (zinv_mapped _ _ _ _ _ Hij)). lia.
  - apply (hv_disj w Hw i j Hi Hj Hne a); eapply footprint_zinv; [exact Hii|left; by exists c|exact Hij|by right].
Qed.

Lemma user_store_bitmap w i c m' j x : heap_inv w → in_use_at w i c → user_store w i c m' → 0 <= j < zones_used (w_root w) →
  UNMASK_BITMAP_PTR (zone_at w j) <= x < UNMASK_BITMAP_PTR (zone_at w j) + 8 * max_bitmap_idx (zone_at w j) → ld8 m' x = ld8 (w_mem w) x.
Proof. intros Hw Hin Hst Hj Hx. apply Hst. intros Ha. by apply (chunk_off_bitmaps w i c x j). Qed.

(** Stores inside a chunk in use disturb nothing the allocator relies on. *)
Lemma user_store_inv w i c m' : heap_inv w → in_use_at w i c → user_store w i c m' → heap_inv (set_w_mem m' w).
Proof.
  intros Hw Hin Hld. pose proof Hin as (Hi & Hc & Hst). destruct (hv_zone_at w i Hw Hi) as [Hz Hinv].
  assert (Hzi : zone_inv (w_vm w) m' (zone_at w i)).
  { apply (zone_inv_agree _ (w_mem w)); [done|intros x; by apply (user_store_bitmap w i c)|].
    intros d x Hd Hb Hx. apply Hld. intros Ha. assert (d ≠ c).
    { intros ->. unfold chunk_st in Hst. rewrite Hb in Hst. by destruct (bm_bit _ _ (2 * c)). }
    pose proof (zinv_size _ _ _ _ _ Hinv).
    destruct (chunks_disjoint (chunk_size (zone_at w i)) c d (UNMASK_USER_PTR (zone_at w i)) ltac:(lia) ltac:(done));
      unfold in_chunk, chunk_at, chunk_addr in *; lia. }
  pose proof (heap_inv_update i (zone_at w i) m' (w_k w) (seed (w_root w)) w Hw Hi Hzi (same_shape_refl _)) as Hh.
  unfold zone_update in Hh. rewrite rng_id in Hh. unfold zput_w in Hh. change (w_zones (set_w_mem m' w)) with (w_zones w) in Hh.
  rewrite insert_id in Hh by done. replace (set_w_zones (w_zones w) (set_w_mem m' w)) with (set_w_mem m' w) in Hh by (by destruct w).
  apply Hh; [|apply Hw]. intros x Hx. apply Hld. intros Ha. apply Hx. eapply footprint_zinv; [exact Hinv|left; by exists c].
Qed.

Lemma user_store_in_use w i c m' : heap_inv w → in_use_at w i c → user_store w i c m' →
  ∀ j d, in_use_at (set_w_mem m' w) j d ↔ in_use_at w j d.
Proof.
  intros Hw Hin Hst j d. unfold in_use_at. change (zone_at (set_w_mem m' w) j) with (zone_at w j).
  change (w_root (set_w_mem m' w)) with (w_root w). change (w_mem (set_w_mem m' w)) with m'.
  assert (Heq : 0 <= j < zones_used (w_root w) → 0 <= d < slots (zone_at w j) →
    chunk_st m' (UNMASK_BITMAP_PTR (zone_at w j)) d = chunk_st (w_mem w) (UNMASK_BITMAP_PTR (zone_at w j)) d).
  { intros Hj Hd. unfold slots in Hd. unfold chunk_st.
    f_equal; apply (bm_bit_ext _ _ _ (max_bitmap_idx (zone_at w j))); try lia; intros x; by apply (user_store_bitmap w i c). }
  split; intros (Hj & Hd & Hs); (split; [done|]); (split; [done|]); rewrite <-Hs; [symmetry|]; by apply Heq.
Qed.

(** ** Big requests *)

Lemma relock w : w_root_lock w = false → set_w_root_lock false (set_w_root_lock true w) = w.
Proof. destruct w. simpl. by intros ->. Qed.

Lemma chunk_size_of_big size : 65536 < size <= 2 ^ 64 - 32 → size <= chunk_size_of size < size + 32 ∧ is_u64 (chunk_size_of size).
Proof.
  intros Hs. unfold chunk_size_of. change SMALLEST_CHUNK_SZ with 32. change SZ_ALIGNMENT with 32. rewrite (proj2 (Z.ltb_ge size 32)) by lia.
  unfold is_u64. destruct (Z.eqb_spec (size mod 32) 0); cbn [negb]; [lia|]. rewrite ALIGN_SZ_UP_eq, u64_small by (unfold is_u64; lia).
  pose proof (Z.mod_pos_bound (size + 31) 32). lia.
Qed.

Lemma iso_alloc_big_run w size : w_root_null w = false → w_root_lock w = false → 65536 < size <= 2 ^ 64 - 32 →
  _iso_alloc None size w = _iso_big_alloc (chunk_size_of size) w.
Proof.
  intros Hr Hl Hs. destruct (chunk_size_of_big size Hs) as [Hle _]. unfold _iso_alloc. unfold mbind at 1, M_bind at 1, get.
  rewrite (proj2 (Z.eqb_neq size 0)), andb_false_r by lia. cbn [andb]. cbv zeta. change SMALL_SIZE_MAX with 65536.
  rewrite (proj2 (Z.leb_gt _ 65536)) by lia. erewrite run_bind by done. cbv iota.
  erewrite run_bind by (unfold LOCK_ROOT; by rewrite Hl). rewrite Hr. erewrite run_bind by done. cbv iota.
  erewrite run_bind by done. by rewrite relock.
Qed.

Lemma chunk_size_of_max size : 65536 < size <= 4294967296 → size <= chunk_size_of size <= 4294967296.
Proof.
  intros Hs. destruct (chunk_size_of_big size ltac:(lia)) as [Hle _]. split; [lia|].
  unfold chunk_size_of in *. change SMALLEST_CHUNK_SZ with 32 in *. change SZ_ALIGNMENT with 32 in *.
  rewrite (proj2 (Z.ltb_ge size 32)) in * by lia. destruct (Z.eqb_spec (size mod 32) 0); cbn [negb] in *; [lia|].
  rewrite ALIGN_SZ_UP_eq, u64_small by (unfold is_u64; lia). pose proof (Z.div_mod (size + 31) 32).
  assert ((size + 31) / 32 <= 4294967327 / 32) by (apply Z.div_le_mono; lia). change (4294967327 / 32) with 134217728 in *. lia.
Qed.

(** A request above 64 KiB and up to 4 GiB. *)
Lemma wp_iso_alloc_big w lu lf size : bigs_inv w lu lf [] → mask_ok w →
  w_root_lock w = false → w_big_used_lock w = false → w_big_free_lock w = false → SMALL_SIZE_MAX < size <= BIG_SZ_MAX →
  wp resource (_iso_alloc None size) (λ p w', big_allocated w w' (chunk_size_of size) lu lf p) w.
Proof.
  intros Hw Hm Hl Hul Hfl Hs. change SMALL_SIZE_MAX with 65536 in Hs. change BIG_SZ_MAX with 4294967296 in Hs.
  pose proof (chunk_size_of_max size Hs). unfold wp. rewrite iso_alloc_big_run; [|apply Hw|done|lia]. apply wp_iso_big_alloc; try done.
  change SMALL_SIZE_MAX with 65536. change BIG_SZ_MAX with 4294967296. lia.
Qed.

(** No zone has the pointer among its user pages. *)
Definition in_no_zone (w : world) (p : Z) : Prop :=
  ∀ j, 0 <= j < zones_used (w_root w) → ¬ (UNMASK_USER_PTR (zone_at w j) <= p < UNMASK_USER_PTR (zone_at w j) + ZONE_USER_SIZE).

Lemma find_zone_range_none w p : heap_inv w → 0 < zones_used (w_root w) → in_no_zone w p → iso_find_zone_range p w = Ret None w.
Proof.
  intros Hw Hpos Hno. destruct (find_zone_spec (in_user_pages p) p w Hw Hpos) as (r & Hf & Hr). unfold iso_find_zone_range. rewrite Hf.
  destruct r as [j|]; [|done]. destruct Hr as [Hj Ht%in_user_pages_spec]. by destruct (Hno j Hj).
Qed.

Lemma bigs_inv_root_lock x w lu lf ld : bigs_inv w lu lf ld → bigs_inv (set_w_root_lock x w) lu lf ld.
Proof.
  intros [B1 B2 B3 B4 B5 B6 B7 B8]. constructor; try done. intros a Ha. destruct (B7 a Ha) as (b & Hb & [] & Hf & Hm).
  exists b. split; [done|]. split; [by constructor|]. done.
Qed.

(** What freeing the used big zone [a] with the root locked does. *)
Definition big_released (w w' : world) (lu1 : list Z) (a : Z) (lu2 lf : list Z) (b : iso_alloc_big_zone_t) : Prop :=
  ∃ w1, bigs_inv w1 (lu1 ++ lu2) lf [a] ∧ w_bigs w1 !! a = Some (set_big_next 0 b) ∧ relinked w w1 ∧
    big_freed w1 w' (lu1 ++ lu2) lf a (set_big_next 0 b).

(** The start of a big zone leads to that zone. *)
Lemma find_remove_run w lu1 a lu2 lf b : bigs_inv w (lu1 ++ a :: lu2) lf [] → w_bigs w !! a = Some b → w_big_used_lock w = false →
  ∃ w1, iso_find_big_zone (big_user_pages_start b) true w = Ret a w1 ∧ a ≠ 0 ∧
    bigs_inv w1 (lu1 ++ lu2) lf [a] ∧ w_bigs w1 !! a = Some (set_big_next 0 b) ∧ relinked w w1.
Proof.
  intros Hb0 Hba Hul.
  assert (Huniq : ∀ x, x ∈ lu1 ++ a :: lu2 → in_big w (big_user_pages_start b) x → x = a).
  { intros x Hx Hin. apply (in_big_unique w (lu1 ++ a :: lu2) lf [] (big_user_pages_start b)); [done|set_solver|set_solver|done|].
    by eapply in_big_start; [exact Hb0|set_solver|]. }
  destruct (find_big_zone_raw (big_user_pages_start b) true w (lu1 ++ a :: lu2) lf Hb0 Hul) as
    [(l & l' & x & b1 & w1 & Hl1 & Hb1 & Hp & Hrun & Hlk & Hw1 & Hbx & Hrel)|[(x & b1 & Hx & Hb1 & Hr1 & _)|[Hnone _]]].
  - assert (x = a) as ->.
    { apply Huniq; [rewrite Hl1; set_solver|]. rewrite <-Hp. by eapply in_big_start; [exact Hb0|rewrite Hl1; set_solver|]. }
    assert (b1 = b) as -> by congruence.
    pose proof (bi_nodup _ _ _ _ Hb0) as Hnd. apply list.NoDup_app in Hnd as (Hnd & _ & _).
    destruct (NoDup_pivot lu1 lu2 l l' a Hnd Hl1) as [<- <-]. exists w1. split; [exact Hrun|]. split; [|done].
    by destruct (bi_entry _ _ _ _ Hw1 a ltac:(set_solver)) as (? & _ & [[? _]] & _).
  - exfalso. assert (x = a) as -> by (apply Huniq; [done|]; exists b1; split; [done|lia]). assert (b1 = b) as -> by congruence. lia.
  - exfalso. apply (Hnone a); [set_solver|]. by eapply in_big_start; [exact Hb0|set_solver|].
Qed.

Lemma wp_free_unlocked_big w lu1 a lu2 lf b : heap_inv w → 0 < zones_used (w_root w) → FUZZ_MODE = false →
  BIG_ZONE_GUARD = false → BIG_ZONE_META_DATA_GUARD = false →
  bigs_inv w (lu1 ++ a :: lu2) lf [] → w_bigs w !! a = Some b → in_no_zone w (big_user_pages_start b) →
  w_big_used_lock w = false → w_big_free_lock w = false →
  wp resource (_iso_free_internal_unlocked (big_user_pages_start b) false None) (λ r w', r = None ∧ big_released w w' lu1 a lu2 lf b) w.
Proof.
  intros Hw Hpos Hfz Hg1 Hg2 Hb0 Hba Hno Hul Hfl. unfold _iso_free_internal_unlocked. rewrite Hfz. wstep. cbn [when]. do 2 wstep.
  eapply wp_eq; [by apply find_zone_range_none|]. cbv iota beta. wstep.
  destruct (find_remove_run w lu1 a lu2 lf b Hb0 Hba Hul) as (w1 & Hrun & Ha0 & Hw1 & Hbx & Hrel). eapply wp_eq; [exact Hrun|].
  rewrite (proj2 (Z.eqb_neq a 0)) by done. wstep. assert (Hfl1 : w_big_free_lock w1 = false) by (destruct Hrel as (? & ? & ? & -> & _); done).
  eapply wp_post; [by apply (wp_iso_free_big w1 (lu1 ++ lu2) lf a (set_big_next 0 b))|]. intros [] w2 Hfr. wsteps. split; [done|]. by exists w1.
Qed.

(** Freeing the start of a big zone through [_iso_free_internal]. *)
Lemma wp_free_internal_big w lu1 a lu2 lf b : heap_inv w → 0 < zones_used (w_root w) → FUZZ_MODE = false →
  BIG_ZONE_GUARD = false → BIG_ZONE_META_DATA_GUARD = false →
  bigs_inv w (lu1 ++ a :: lu2) lf [] → w_bigs w !! a = Some b → in_no_zone w (big_user_pages_start b) →
  w_root_lock w = false → w_big_used_lock w = false → w_big_free_lock w = false →
  wp resource (_iso_free_internal (big_user_pages_start b) false)
    (λ _ w', w_root_lock w' = false ∧ ∃ w2, big_released (set_w_root_lock true w) w2 lu1 a lu2 lf b ∧ w' = set_w_root_lock false w2) w.
Proof.
  intros Hw Hpos Hfz Hg1 Hg2 Hb Hba Hno Hl Hul Hfl. unfold _iso_free_internal. wstep. apply wp_lock_root; [done|]. wstep.
  eapply wp_post; [apply (wp_free_unlocked_big (set_w_root_lock true w) lu1 a lu2 lf b); try done; [by apply heap_inv_root_lock|by apply bigs_inv_root_lock]|].
  intros r w2 [-> Hrel]. unfold UNLOCK_ROOT. wsteps. split; [done|]. by exists w2.
Qed.

(** ** [_iso_chunk_size] *)

Lemma chunk_size_run w i p : heap_inv w → w_root_lock w = false → p ≠ 0 → NO_ZERO_ALLOCATIONS && (p =? zero_alloc_page (w_root w)) = false →
  0 <= i < zones_used (w_root w) → UNMASK_USER_PTR (zone_at w i) <= p < UNMASK_USER_PTR (zone_at w i) + ZONE_USER_SIZE →
  _iso_chunk_size p w = Ret (chunk_size (zone_at w i)) w.
Proof.
  intros Hw Hl Hp Hz Hi Hr. unfold _iso_chunk_size. rewrite (proj2 (Z.eqb_neq p 0)) by done.
  erewrite run_bind by (unfold root; by rewrite (hv_root w Hw)). rewrite Hz. erewrite run_bind by (unfold LOCK_ROOT; by rewrite Hl).
  erewrite run_bind by (apply (find_zone_range_run _ p i); [by apply heap_inv_root_lock|done|done]). cbv iota.
  erewrite run_bind by done. rewrite relock by done. done.
Qed.

Lemma chunk_size_big_run w lu1 a lu2 lf b : heap_inv w → 0 < zones_used (w_root w) → w_root_lock w = false → w_big_used_lock w = false →
  bigs_inv w (lu1 ++ a :: lu2) lf [] → w_bigs w !! a = Some b → in_no_zone w (big_user_pages_start b) →
  NO_ZERO_ALLOCATIONS && (big_user_pages_start b =? zero_alloc_page (w_root w)) = false →
  _iso_chunk_size (big_user_pages_start b) w = Ret (big_size b) w.
Proof.
  intros Hw Hpos Hl Hul Hb Hba Hno Hz. destruct (bi_entry _ _ _ _ Hb a ltac:(set_solver)) as (b0 & Hb0 & He & _).
  assert (b0 = b) as -> by congruence. pose proof (be_pages _ _ _ He) as [Hp0 _].
  unfold _iso_chunk_size. rewrite (proj2 (Z.eqb_neq _ 0)) by lia.
  erewrite run_bind by (unfold root; by rewrite (hv_root w Hw)). rewrite Hz. erewrite run_bind by (unfold LOCK_ROOT; by rewrite Hl).
  erewrite run_bind by (apply find_zone_range_none; [by apply heap_inv_root_lock|done|done]). cbv iota.
  erewrite run_bind by done. rewrite relock by done.
  destruct (find_big_zone_raw (big_user_pages_start b) false w (lu1 ++ a :: lu2) lf Hb Hul) as
    [(l & l' & x & b1 & w1 & Hl1 & Hb1 & Hp & Hrun & Hlk & ->)|[(x & b1 & Hx & Hb1 & Hr1 & _)|[Hnone _]]].
  - assert (x = a) as ->.
    { apply (in_big_unique w (lu1 ++ a :: lu2) lf [] (big_user_pages_start b)); [done|rewrite Hl1; set_solver|set_solver| |].
      - rewrite <-Hp. by eapply in_big_start; [exact Hb|rewrite Hl1; set_solver|].
      - by eapply in_big_start; [exact Hb|set_solver|]. }
    assert ((a =? 0) = false) as Ha0 by (apply Z.eqb_neq; apply He).
    erewrite run_bind by exact Hrun. rewrite Ha0. erewrite run_bind by (apply (bget_ok w a b); [done|apply He]). done.
  - exfalso. assert (x = a) as ->.
    { apply (in_big_unique w (lu1 ++ a :: lu2) lf [] (big_user_pages_start b)); [done|set_solver|set_solver| |].
      - exists b1. split; [done|lia].
      - by eapply in_big_start; [exact Hb|set_solver|]. }
    assert (b1 = b) as -> by congruence. lia.
  - exfalso. apply (Hnone a); [set_solver|]. by eapply in_big_start; [exact Hb|set_solver|].
Qed.
End ops.
