(* ===== verification/Retire.v ===== *)
(** * Retirement

    A zone that served enough allocations is replaced when its last chunk is released
    ([_is_zone_retired], [_iso_alloc_destroy_zone_unlocked] of src/iso_alloc.c): its pages
    are unmapped, its bitmap is given back and a fresh zone of the same chunk size takes its
    index. In between the array of zones has a hole, which the proofs fill with a zone that
    lies above all addresses. *)

From S2P Require Import Prelude Words Conf Memory State Util ZoneBits FreeList Chunks Lookup MemOps Heap Zones BigZones Verify Alloc AllocSpec NewZone HeapOps.

Section retire.
Context `{!Kernel, !KernelLaws, !Config}.

(** ** A heap with a hole *)

(** The heap invariant but for the zone [i], whose record lies above the mapped memory and
    only stands for its chunk size and its place in the lists. *)
Record hole (w : world) (i : Z) : Prop := {
  ho_base : new_base w;
  ho_used : 0 <= i < zones_used (w_root w) ∧ zones_used (w_root w) <= MAX_ZONES;
  ho_zone : ∀ j, 0 <= j < zones_used (w_root w) → j ≠ i → ∃ z, w_zones w !! j = Some z ∧ zone_inv (w_vm w) (w_mem w) z;
  ho_disj : ∀ j l, 0 <= j < zones_used (w_root w) → 0 <= l < zones_used (w_root w) → j ≠ i → l ≠ i → j ≠ l →
    zones_disjoint (zone_at w j) (zone_at w l);
  ho_table : ∀ a, let l := default 0 (w_chunk_lookup_table w !! a) in l = 0 ∨ 0 < l < zones_used (w_root w);
  ho_cache_len : length (w_zone_cache w) = 8%nat ∧ 0 <= w_zone_cache_count w <= 8;
  ho_cache : ∀ e, e ∈ take (Z.to_nat (w_zone_cache_count w)) (w_zone_cache w) →
    0 <= tzc_zone e < zones_used (w_root w) ∧
    tzc_chunk_size e = chunk_size (zone_at w (tzc_zone e)) ∧ internal (zone_at w (tzc_zone e)) = true;
  ho_sizes : ∀ size, 0 <= size → size mod 32 = 0 →
    link_ok w size (default 0 (zone_lookup_table (w_root w) !! SZ_TO_ZONE_LOOKUP_IDX size));
  ho_links : ∀ j, 0 <= j < zones_used (w_root w) →
    let n := next_sz_index (zone_at w j) in n = 0 ∨ (n < j ∧ link_ok w (chunk_size (zone_at w j)) n);
  ho_owned : ∀ j x, 0 <= j < zones_used (w_root w) → j ≠ i → footprint (zone_at w j) x → vm_prot (w_vm w) x ≠ None;
  ho_layouts : layouts w (λ j, zone_ix w j ∧ j ≠ i);
}.

(** The process after [_iso_new_zone] filled the hole. *)
Definition zone_filled (w : world) (i : Z) (zf : iso_alloc_zone_t) (s : Z) (bs : list iso_alloc_bitmap_t) (m : gmap Z Z) (vm : list vma) (k : kst) (U : Z) : world :=
  set_w_root (set_seed s (set_bitmaps bs (w_root w)))
    (set_w_chunk_lookup_table (<[ADDR_TO_CHUNK_TABLE U := i]> (w_chunk_lookup_table w)) (zput_w i zf (after_sys m vm k w))).

Section filled.
Variables (w : world) (i : Z) (zf : iso_alloc_zone_t) (s : Z) (bs : list iso_alloc_bitmap_t) (m : gmap Z Z) (vm : list vma) (k : kst) (U B : Z).
Hypothesis Hw : hole w i.
Hypothesis Hk : page_ok (set_w_k k w).
Hypothesis HU : UNMASK_USER_PTR zf = U.
Hypothesis HB : UNMASK_BITMAP_PTR zf = B.
Hypothesis Hex : extends w bs m vm U B (bitmap_size zf) (preallocated_bitmap_idx zf).
Hypothesis Hidx : index zf = i.
Hypothesis Hinv : zone_inv vm m zf.
Hypothesis Hsame : chunk_size zf = chunk_size (zone_at w i) ∧ internal zf = internal (zone_at w i) ∧ next_sz_index zf = next_sz_index (zone_at w i).
Let w' : world := zone_filled w i zf s bs m vm k U.

Lemma filled_new : zone_at w' i = zf.
Proof. unfold w', zone_at. simpl. by rewrite lookup_insert_eq. Qed.

Lemma filled_old j : j ≠ i → zone_at w' j = zone_at w j.
Proof. intros Hne. unfold w', zone_at. simpl. by rewrite lookup_insert_ne. Qed.

(** The fields the lists, the cache and the tables look at. *)
Lemma filled_same j : chunk_size (zone_at w' j) = chunk_size (zone_at w j) ∧ internal (zone_at w' j) = internal (zone_at w j) ∧
  next_sz_index (zone_at w' j) = next_sz_index (zone_at w j).
Proof using Hsame. destruct (decide (j = i)) as [->|Hne]; [by rewrite filled_new|by rewrite filled_old]. Qed.

Lemma filled_footprint x : footprint zf x ↔ U <= x < U + ZONE_USER_SIZE ∨ B <= x < B + bitmap_size zf.
Proof using HU HB. unfold footprint. by rewrite HU, HB. Qed.

Lemma filled_disjoint j x : 0 <= j < zones_used (w_root w) → j ≠ i → footprint (zone_at w j) x → ¬ footprint zf x.
Proof using Hw HU HB Hex.
  intros Hj Hne Hf. rewrite filled_footprint. intros [Hx|Hx]; [|by apply (ex_apart _ _ _ _ _ _ _ _ Hex j x)].
  by apply (ho_owned w i Hw j x Hj Hne Hf), (ex_user _ _ _ _ _ _ _ _ Hex).
Qed.

Lemma filled_mem j x : 0 <= j < zones_used (w_root w) → j ≠ i → footprint (zone_at w j) x →
  ld8 m x = ld8 (w_mem w) x ∧ vm_prot vm x = vm_prot (w_vm w) x.
Proof using Hw Hex.
  intros Hj Hne Hf. pose proof (ho_owned w i Hw j x Hj Hne Hf) as Hv. split; [|by apply (ex_vm _ _ _ _ _ _ _ _ Hex)].
  apply (ex_mem _ _ _ _ _ _ _ _ Hex); [done|]. by apply (ex_apart _ _ _ _ _ _ _ _ Hex j).
Qed.

Lemma filled_link size l : link_ok w size l → link_ok w' size l.
Proof using Hsame. unfold link_ok. destruct (filled_same l) as (-> & -> & _). done. Qed.

Lemma filled_bitmaps : bitmaps_ok w'.
Proof using Hw HU HB Hex.
  destruct (nb_bitmaps w (ho_base w i Hw)) as [B1 B2 B3]. constructor.
  - intros a n x Hf Hx. destruct (ex_free _ _ _ _ _ _ _ _ Hex a n x Hf Hx) as [Hf' Hnb]. destruct (B1 a n x Hf' Hx) as (C1 & C2 & C3).
    assert (Hv : vm_prot (w_vm w) x ≠ None) by (by rewrite C1). split_and!.
    + change (w_vm w') with vm. by rewrite (ex_vm _ _ _ _ _ _ _ _ Hex).
    + change (w_mem w') with m. by rewrite (ex_mem _ _ _ _ _ _ _ _ Hex).
    + intros j Hj. destruct (decide (j = i)) as [->|Hne]; [|rewrite filled_old by done; by apply C3].
      rewrite filled_new, filled_footprint. intros [Hu|Hb]; [|done]. by apply Hv, (ex_user _ _ _ _ _ _ _ _ Hex).
  - intros l j bi bj Hl Hj. destruct (ex_pages _ _ _ _ _ _ _ _ Hex l bi Hl) as (bi' & A1 & A2 & A3 & _).
    destruct (ex_pages _ _ _ _ _ _ _ _ Hex j bj Hj) as (bj' & C1 & C2 & C3 & _). rewrite A2, A3, C2, C3. by apply B2.
  - intros l b' Hb. destruct (ex_pages _ _ _ _ _ _ _ _ Hex l b' Hb) as (b & A1 & A2 & A3 & A4). rewrite A2, A3. intros Hne.
    destruct (B3 l b A1 Hne) as (D1 & D2 & D3 & D4). split; [done|]. split; [done|]. split; [done|by apply A4].
Qed.

Lemma filled_extends : extends w (bitmaps (w_root w')) (w_mem w') (w_vm w') (UNMASK_USER_PTR (zone_at w' i)) (UNMASK_BITMAP_PTR (zone_at w' i))
  (bitmap_size (zone_at w' i)) (preallocated_bitmap_idx (zone_at w' i)).
Proof using HU HB Hex. rewrite filled_new, HU, HB. exact Hex. Qed.

Lemma filled_ix j : zone_ix w' j → (zone_ix w j ∧ j ≠ i) ∨ j = i.
Proof. intros Hj. destruct (decide (j = i)) as [->|Hne]; [by right|by left]. Qed.

Lemma heap_inv_filled : heap_inv w'.
Proof using Hw Hk HU HB Hex Hidx Hinv Hsame.
  destruct (ho_used w i Hw) as [Hi Hmx]. constructor.
  - apply (nb_root w (ho_base w i Hw)).
  - exact Hk.
  - change (zones_used (w_root w')) with (zones_used (w_root w)). lia.
  - intros j Hj. change (zones_used (w_root w')) with (zones_used (w_root w)) in Hj. destruct (decide (j = i)) as [->|Hne].
    { exists zf. split; [|done]. simpl. by rewrite lookup_insert_eq. }
    destruct (ho_zone w i Hw j Hj Hne) as (z & Hz & Hzi). assert (Ez : zone_at w j = z) by (unfold zone_at; by rewrite Hz).
    exists z. split; [simpl; by rewrite lookup_insert_ne|].
    apply (zone_inv_vm (w_vm w)); [apply (zone_inv_ext _ (w_mem w)); [done|]|]; intros x Hx; rewrite <-Ez in Hx; by apply (filled_mem j).
  - intros j l Hj Hl Hne x. change (zones_used (w_root w')) with (zones_used (w_root w)) in Hj, Hl.
    destruct (decide (j = i)) as [->|Hji], (decide (l = i)) as [->|Hli]; rewrite ?filled_new, ?filled_old by done; try done.
    + intros A1 A2. by apply (filled_disjoint l x).
    + intros A1 A2. by apply (filled_disjoint j x).
    + by apply (ho_disj w i Hw).
  - intros a. cbv zeta. change (w_chunk_lookup_table w') with (<[ADDR_TO_CHUNK_TABLE U := i]> (w_chunk_lookup_table w)).
    change (zones_used (w_root w')) with (zones_used (w_root w)). rewrite lookup_insert. case_decide; [simpl; lia|]. apply (ho_table w i Hw).
  - apply (ho_cache_len w i Hw).
  - intros e He. destruct (filled_same (tzc_zone e)) as (-> & -> & _). by apply (ho_cache w i Hw).
  - intros size Hs Hm. by apply filled_link, (ho_sizes w i Hw).
  - intros j Hj. cbv zeta. destruct (filled_same j) as (-> & _ & ->). destruct (ho_links w i Hw j Hj) as [|[A1 A2]]; [by left|right].
    split; [done|by apply filled_link].
  - by apply filled_bitmaps.
  - intros j x Hj Hf. change (zones_used (w_root w')) with (zones_used (w_root w)) in Hj. change (w_vm w') with vm. destruct (decide (j = i)) as [->|Hne].
    + rewrite filled_new, filled_footprint in Hf. destruct (ex_rw _ _ _ _ _ _ _ _ Hex) as [R1 R2]. destruct Hf as [Hf|Hf]; [by rewrite R1|by rewrite R2].
    + rewrite filled_old in Hf by done. rewrite (proj2 (filled_mem j x Hj Hne Hf)). by apply (ho_owned w i Hw j).
  - eapply layouts_sub; [|apply filled_ix]. apply (layouts_add w); try done; [apply Hw|intros j [_ Hj]; by apply filled_old|by rewrite filled_new|apply filled_extends].
Qed.
End filled.

(** ** Filling the hole *)

(** The fresh zone at [i] and what stays: [w] is the heap with the hole. *)
Record refilled (w w' : world) (i : Z) : Prop := {
  rf_heap : heap_inv w';
  rf_used : zones_used (w_root w') = zones_used (w_root w);
  rf_others : ∀ j, j ≠ i → zone_at w' j = zone_at w j;
  rf_fresh : af_count (zone_at w' i) = 0 ∧ internal (zone_at w' i) = true ∧ tagged (zone_at w' i) = false;
  rf_chosen : chosen w' (chunk_size (zone_at w i)) i ∧ chunk_size (zone_at w' i) = chunk_size (zone_at w i);
  rf_vm : ∀ x, vm_prot (w_vm w) x ≠ None → vm_prot (w_vm w') x = vm_prot (w_vm w) x;
  rf_mem : ∀ x, vm_prot (w_vm w) x ≠ None → (∀ a n, bm_free (bitmaps (w_root w)) (w_page_size w) a n → ¬ (a <= x < a + n)) →
    ld8 (w_mem w') x = ld8 (w_mem w) x;
  rf_new : ∀ x, vm_prot (w_vm w) x = None → vm_prot (w_vm w') x = None ∨ zone_pages (w_page_size w) (zone_at w' i) x;
  rf_slot : ∀ b n, bm_free (bitmaps (w_root w)) (w_page_size w) b n →
    bm_free (bitmaps (w_root w')) (w_page_size w) b n ∨ b = UNMASK_BITMAP_PTR (zone_at w' i);
  rf_reserved : ∀ x, zone_reserved w' x → reserved w (λ j, zone_ix w j ∧ j ≠ i) x ∨ vm_prot (w_vm w) x = None;
  rf_world : ∃ s bs k t, w' = set_w_root (set_seed s (set_bitmaps bs (w_root w))) (set_w_chunk_lookup_table t (zput_w i (zone_at w' i) (after_sys (w_mem w') (w_vm w') k w)));
}.

Lemma refilled_built w i z s bs m vm k U B : hole w i → page_ok (set_w_k k w) → internal (zone_at w i) = true →
  (∀ x, footprint (zone_at w i) x → 2 ^ 47 <= x) →
  zone_built w i (chunk_size (zone_at w i)) (next_sz_index (zone_at w i)) z bs m vm U B →
  refilled w (zone_filled w i (MASK_ZONE_PTRS z) s bs m vm k U) i.
Proof.
  intros Hw Hk Hint Hfar [(m1 & vm1 & m2 & Hbm & Hpm & Hout) Hinv Hsl Hix Hcs Hi Haf [HU HB] Hnx Htg]. set (zf := MASK_ZONE_PTRS z).
  pose proof (ho_base w i Hw) as Hb. pose proof (page_ok_bounds w (nb_page w Hb)) as Hpb.
  assert (HUf : UNMASK_USER_PTR zf = U) by (unfold zf; rewrite masked_user; exact HU).
  assert (HBf : UNMASK_BITMAP_PTR zf = B) by (unfold zf; rewrite masked_bitmap; exact HB).
  assert (Hzf : zone_inv vm m zf) by (unfold zone_inv; rewrite HUf, HBf; by apply zinv_masked).
  pose proof (zone_max_idx z (zinv_geom _ _ _ _ _ Hinv)) as (_ & _ & Hbs).
  assert (Hex : extends w bs m vm U B (bitmap_size zf) (preallocated_bitmap_idx zf)).
  { apply (extends_made w B (bitmap_size z) (preallocated_bitmap_idx z) bs m1 vm1 m2); [done|done|lia|]. intros x Hx1 Hx2. apply Hout; [done|lia]. }
  assert (Hsame : chunk_size zf = chunk_size (zone_at w i) ∧ internal zf = internal (zone_at w i) ∧ next_sz_index zf = next_sz_index (zone_at w i))
    by (split_and!; [exact Hcs|rewrite Hint; exact Hi|exact Hnx]).
  set (w' := zone_filled w i zf s bs m vm k U). assert (Hat : zone_at w' i = zf) by apply filled_new.
  constructor; rewrite ?Hat; try done.
  - by apply (heap_inv_filled w i zf s bs m vm k U B).
  - intros j Hj. by apply filled_old.
  - split; [|exact Hcs]. constructor; rewrite ?Hat.
    + apply (ho_used w i Hw).
    + rewrite <-Hcs. done.
    + rewrite HBf. exact Hsl.
  - apply (ex_vm _ _ _ _ _ _ _ _ Hex).
  - intros x Hv Hno. apply (ex_mem _ _ _ _ _ _ _ _ Hex); [done|]. intros Hx.
    destruct (ex_slot _ _ _ _ _ _ _ _ Hex x Hx) as [[(j & Hj & Hf)|(a & n & Hf & Ha)]|]; [|by apply (Hno a n)|done].
    destruct (decide (j = i)) as [->|Hne]; [|by apply (ex_apart _ _ _ _ _ _ _ _ Hex j x Hj Hf)].
    pose proof (Hfar x Hf). pose proof (bmd_range _ _ _ _ _ _ _ Hbm). change (bitmap_size zf) with (bitmap_size z) in Hx. lia.
  - intros x Hx. destruct (decide (vm_prot vm x = None)) as [Hn|Hn]; [by left|right].
    assert (Hd : pages_at (w_page_size w) U B (bitmap_size zf) (preallocated_bitmap_idx zf) x ∨ ¬ pages_at (w_page_size w) U B (bitmap_size zf) (preallocated_bitmap_idx zf) x)
      by (unfold pages_at; lia).
    destruct Hd as [Hin|Hout']; [unfold zone_pages; by rewrite HUf, HBf|]. by rewrite (ex_out _ _ _ _ _ _ _ _ Hex x Hout') in Hn.
  - intros b n Hf. rewrite HBf. destruct (bmd_left _ _ _ _ _ _ _ Hbm b n Hf) as [?|[-> _]]; [by left|by right].
  - intros x Hx. apply (reserved_add w w' (λ j, zone_ix w j ∧ j ≠ i) i) with (zone_ix w'); try done;
      [intros j [_ Hj]; by apply filled_old|rewrite Hat, HUf, HBf; exact Hex|apply (filled_ix w i zf s bs m vm k U)].
  - by exists s, bs, k, (<[ADDR_TO_CHUNK_TABLE U := i]> (w_chunk_lookup_table w)).
Qed.

Lemma building_over i z0 w z s bs m vm k : building i w z s bs m vm k = building i (zput_w i z0 w) z s bs m vm k.
Proof. unfold building. destruct w. unfold zput_w, set_w_zones, set_w_root, after_sys. simpl. f_equal. symmetry. apply insert_insert_eq. Qed.

Lemma put_table i z z' r t V :
  zput_w i z' (set_w_chunk_lookup_table t (zput_w i z (set_w_root r V))) = set_w_root r (set_w_chunk_lookup_table t (zput_w i z' V)).
Proof. destruct V. unfold zput_w, set_w_zones, set_w_root, set_w_chunk_lookup_table. simpl. f_equal. apply insert_insert_eq. Qed.

(** [_iso_new_zone] with the index of the hole; [z0] is the record that stands for it. *)
Lemma wp_refill_hole (E : failure → Prop) w z0 i cs : let wv := zput_w i z0 w in
  hole wv i → allows E (bitmaps_room w) → (∀ x, footprint z0 x → 2 ^ 47 <= x) → internal z0 = true → chunk_size z0 = cs → 32 <= cs <= 65536 → cs mod 32 = 0 →
  next_sz_index (zone_at w i) = next_sz_index z0 →
  wp E (_iso_new_zone cs true i) (λ r w', r = Some i ∧ refilled wv w' i) w.
Proof.
  intros wv Hw Hroom Hfar Hi Hcs Hc Hm Hnx. pose proof (ho_base wv i Hw) as Hb. pose proof (nb_root wv Hb) as Hr. change (w_root_null w = false) in Hr.
  destruct (ho_used wv i Hw) as [Hu Hmx]. change (zones_used (w_root wv)) with (zones_used (w_root w)) in Hu, Hmx. change MAX_ZONES with 8192 in Hmx.
  assert (Hz0 : zone_at wv i = z0) by apply zone_at_put.
  unfold _iso_new_zone. wsteps. change MAX_ZONES with 8192. destruct (Z.leb_spec 8192 (zones_used (w_root w))) as [Hfull|Hroomz]; [by apply Hroom|].
  cbn [orb]. rewrite (proj2 (Z.leb_gt 8192 i)) by lia. change SMALL_SIZE_MAX with 65536. rewrite (proj2 (Z.ltb_ge 65536 cs)) by lia.
  assert (Hcc : chunk_size_of cs = cs).
  { unfold chunk_size_of. change SMALLEST_CHUNK_SZ with 32. change SZ_ALIGNMENT with 32. rewrite (proj2 (Z.ltb_ge cs 32)) by lia. by rewrite Hm. }
  wstep. apply wp_rand; [apply (nb_page wv Hb)|apply Hroom|]. intros v k Hv Hk. do 2 wstep. rewrite Hcc, (proj2 (Z.leb_le 0 i)) by lia.
  do 2 wstep. change (zone_at _ i) with (zone_at w i) at 1.
  match goal with |- wp _ _ _ ?W => change W with (building i w (new_zone_fields cs true (zone_at w i)) v (bitmaps (w_root w)) (w_mem w) (w_vm w) k) end.
  rewrite (building_over i z0). fold wv. change (bitmaps (w_root w)) with (bitmaps (w_root wv)). change (w_mem w) with (w_mem wv). change (w_vm w) with (w_vm wv).
  apply wp_build_zone; [done|done|done|done|done|]. intros z s bs m vm k' U B Hbz Hk'. rewrite Hnx, <-Hz0, <-Hcs, <-Hz0 in Hbz.
  cbn [andb]. rewrite (proj2 (Z.ltb_ge i 0)) by lia. cbn [andb when]. do 4 wstep. rewrite building_zone.
  pose proof (zb_index _ _ _ _ _ _ _ _ _ _ Hbz) as Hix. destruct (zb_pointers _ _ _ _ _ _ _ _ _ _ Hbz) as [HU _].
  wsteps. split; [done|].
  match goal with |- refilled _ ?W _ => assert (Heq : W = zone_filled wv i (MASK_ZONE_PTRS z) s bs m vm k' U) end.
  { change (zone_at (set_w_chunk_lookup_table _ _) i) with (zone_at (building i wv z s bs m vm k') i). rewrite building_zone, Hix, HU.
    unfold zone_filled, building. change (w_chunk_lookup_table (zput_w i z _)) with (w_chunk_lookup_table wv). apply put_table. }
  rewrite Heq. apply refilled_built with B; [done|done|by rewrite Hz0|by rewrite Hz0|done].
Qed.

(** ** Making the hole *)

(** The memory around zone [i] that is unmapped with it. *)
Definition vicinity (w : world) (i x : Z) : Prop := zone_pages (w_page_size w) (zone_at w i) x.

Lemma zone_bitmap_size w i : heap_inv w → 0 <= i < zones_used (w_root w) → 0 < bitmap_size (zone_at w i) <= 65536.
Proof.
  intros Hw Hi. destruct (hv_zone_at w i Hw Hi) as [_ Hinv]. pose proof (zinv_geom _ _ _ _ _ Hinv) as Hg.
  pose proof (zone_max_idx _ Hg) as (Hm & _ & Hb). destruct (zone_chunk_count _ Hg) as [Hc _]. rewrite (zg_bitmap _ Hg).
  split; [rewrite <-(zg_bitmap _ Hg); lia|]. apply Z.div_le_upper_bound; lia.
Qed.

(** It is apart from the other zones. *)
Lemma vicinity_apart w i j x : heap_inv w → 0 <= i < zones_used (w_root w) → 0 <= j < zones_used (w_root w) → j ≠ i →
  footprint (zone_at w j) x → ¬ vicinity w i x.
Proof.
  intros Hw Hi Hj Hne Hf Hv. pose proof (zone_bitmap_size w j Hw Hj).
  destruct (footprint_reserved w (zone_ix w) j x) as [Hx|(_ & l & bm & Hb & Hx)]; [apply Hw|apply Hw|done|lia|done| |].
  - by apply (lo_apart _ _ (hv_layouts w Hw) i j x).
  - by apply (proj2 (lo_page _ _ (hv_layouts w Hw) l bm x Hb Hx) i).
Qed.

(** A record far above the mapped memory. *)
Definition far : Z := 2 ^ 60.
Definition vacated (z : iso_alloc_zone_t) : iso_alloc_zone_t := set_pointer_mask 0 (set_user_pages_start far (set_bitmap_start far z)).

Lemma vacated_far z x : footprint (vacated z) x → 2 ^ 47 <= x.
Proof.
  assert (E : UNMASK_USER_PTR (vacated z) = far ∧ UNMASK_BITMAP_PTR (vacated z) = far).
  { unfold UNMASK_USER_PTR, UNMASK_BITMAP_PTR, mask_ptr. cbn [user_pages_start bitmap_start pointer_mask vacated set_pointer_mask set_user_pages_start set_bitmap_start].
    rewrite Z.lxor_0_r. by destruct MASK_PTRS. }
  unfold footprint. destruct E as [-> ->]. unfold far. lia.
Qed.

(** Bitmaps, memory and mappings after zone [i] is gone. *)
Record given_back (w : world) (i : Z) (bs : list iso_alloc_bitmap_t) (m : gmap Z Z) (vm : list vma) : Prop := {
  gb_vm : ∀ x, ¬ vicinity w i x → vm_prot vm x = vm_prot (w_vm w) x;
  gb_mem : ∀ x, ¬ footprint (zone_at w i) x → ld8 m x = ld8 (w_mem w) x;
  gb_free : ∀ a n x, bm_free bs (w_page_size w) a n → a <= x < a + n →
    bm_free (bitmaps (w_root w)) (w_page_size w) a n ∨
    footprint (zone_at w i) x ∧ vm_prot (w_vm w) x = Some PROT_RW ∧ ld8 m x = 0;
  gb_pages : ∀ l b', bs !! l = Some b' → ∃ b, bitmaps (w_root w) !! l = Some b ∧ bitmap b' = bitmap b ∧ bucket b' = bucket b ∧
    (0 <= in_use b < 2 ^ 32 → 0 <= in_use b' < 2 ^ 32) ∧ (∀ k, 0 <= k < 32 → Z.testbit (in_use b) k = false → Z.testbit (in_use b') k = false);
  gb_len : length bs = length (bitmaps (w_root w));
  gb_slot : preallocated_bitmap_idx (zone_at w i) ≠ -1 →
    bm_free bs (w_page_size w) (UNMASK_BITMAP_PTR (zone_at w i)) (bitmap_size (zone_at w i));
}.

Lemma gb_same w i bs m vm : given_back w i bs m vm → same_pages (bitmaps (w_root w)) bs.
Proof.
  intros Hg. constructor; [|apply Hg]. intros l b' Hb. destruct (gb_pages _ _ _ _ _ Hg l b' Hb) as (b & A1 & A2 & A3 & _). by exists b.
Qed.

(** The process with the zone [z] in the place of zone [i]. *)
Definition without (w : world) (i : Z) (z : iso_alloc_zone_t) (bs : list iso_alloc_bitmap_t) (m : gmap Z Z) (vm : list vma) (t : gmap Z Z) : world :=
  set_w_vm vm (set_w_mem m (set_w_root (set_bitmaps bs (w_root w)) (set_w_chunk_lookup_table t (zput_w i z w)))).

Lemma without_put w i z z' bs m vm t : zput_w i z' (without w i z bs m vm t) = without w i z' bs m vm t.
Proof.
  change (zput_w i z' (without w i z bs m vm t)) with
    (set_w_vm vm (set_w_mem m (set_w_root (set_bitmaps bs (w_root w)) (set_w_chunk_lookup_table t (zput_w i z' (zput_w i z w)))))).
  unfold without. by rewrite zput_put.
Qed.

Lemma gb_room w i bs m vm t : bitmaps_room w → given_back w i bs m vm → ∀ z, bitmaps_room (without w i z bs m vm t).
Proof.
  intros Hroom Hg z l b' Hb Hne. destruct (gb_pages _ _ _ _ _ Hg l b' Hb) as (b & Hb0 & _ & Hbk & _ & Hbits). rewrite Hbk in *.
  destruct (Hroom l b Hb0 Hne) as [|(k & Hk & Hkb)]; [by left|right]. exists k. split; [done|]. by apply Hbits.
Qed.

Section hole.
Variables (w : world) (i : Z) (bs : list iso_alloc_bitmap_t) (m : gmap Z Z) (vm : list vma) (t : gmap Z Z).
Hypothesis Hw : heap_inv w.
Hypothesis Hi : 0 <= i < zones_used (w_root w).
Hypothesis Hg : given_back w i bs m vm.
Hypothesis Ht : ∀ a, let l := default 0 (t !! a) in l = 0 ∨ 0 < l < zones_used (w_root w).
Let z0 : iso_alloc_zone_t := vacated (zone_at w i).
Let wv : world := without w i z0 bs m vm t.

Lemma hole_at j : j ≠ i → zone_at wv j = zone_at w j.
Proof. intros Hne. unfold wv, zone_at. simpl. by rewrite lookup_insert_ne. Qed.

Lemma hole_same j : chunk_size (zone_at wv j) = chunk_size (zone_at w j) ∧ internal (zone_at wv j) = internal (zone_at w j) ∧
  next_sz_index (zone_at wv j) = next_sz_index (zone_at w j).
Proof. destruct (decide (j = i)) as [->|Hne]; [|by rewrite hole_at]. assert (zone_at wv i = z0) as -> by (unfold wv, zone_at; simpl; by rewrite lookup_insert_eq). done. Qed.

Lemma hole_mem j x : 0 <= j < zones_used (w_root w) → j ≠ i → footprint (zone_at w j) x → ld8 m x = ld8 (w_mem w) x ∧ vm_prot vm x = vm_prot (w_vm w) x.
Proof using Hw Hi Hg.
  intros Hj Hne Hf. split.
  - apply (gb_mem _ _ _ _ _ Hg). intros Hf'. by apply (hv_disj w Hw j i Hj Hi Hne x).
  - apply (gb_vm _ _ _ _ _ Hg). by apply (vicinity_apart w i j x).
Qed.

Lemma hole_bitmaps : bitmaps_ok wv.
Proof using Hw Hi Hg.
  destruct (hv_bitmaps w Hw) as [B1 B2 B3]. pose proof (page_ok_bounds w (hv_page w Hw)) as Hpb. constructor.
  - intros a n x Hf Hx. change (w_page_size wv) with (w_page_size w) in Hf. change (bitmaps (w_root wv)) with bs in Hf.
    destruct (bm_free_page bs (w_page_size w) a n x ltac:(lia) Hf Hx) as (l & b' & Hl & Hne & Hpg).
    destruct (gb_pages _ _ _ _ _ Hg l b' Hl) as (b & Hb & Eb & Ek & _). rewrite Eb in Hpg. rewrite Ek in Hne.
    destruct (B3 l b Hb Hne) as (_ & _ & Htop & _).
    assert (Hvm : vm_prot vm x = vm_prot (w_vm w) x).
    { apply (gb_vm _ _ _ _ _ Hg). by apply (lo_page _ _ (hv_layouts w Hw) l b x Hb (conj Hne Hpg)). }
    change (w_vm wv) with vm. change (w_mem wv) with m. rewrite Hvm.
    assert (Hself : ¬ footprint (zone_at wv i) x).
    { assert (zone_at wv i = z0) as -> by (unfold wv, zone_at; simpl; by rewrite lookup_insert_eq). intros Hfz%vacated_far. lia. }
    destruct (gb_free _ _ _ _ _ Hg a n x Hf Hx) as [Hold|(Hfp & Hrw & Hz)].
    + destruct (B1 a n x Hold Hx) as (C1 & C2 & C3). split_and!; [done|rewrite (gb_mem _ _ _ _ _ Hg); [done|by apply C3]|].
      intros j Hj. destruct (decide (j = i)) as [->|Hji]; [done|]. rewrite hole_at by done. by apply C3.
    + split_and!; [done|done|]. intros j Hj. destruct (decide (j = i)) as [->|Hji]; [done|]. rewrite hole_at by done.
      intros Hfj. by apply (hv_disj w Hw j i Hj Hi Hji x).
  - intros l j bi bj Hl Hj. destruct (gb_pages _ _ _ _ _ Hg l bi Hl) as (bi' & A1 & A2 & A3 & _).
    destruct (gb_pages _ _ _ _ _ Hg j bj Hj) as (bj' & C1 & C2 & C3 & _). rewrite A2, A3, C2, C3. by apply B2.
  - intros l b' Hb. destruct (gb_pages _ _ _ _ _ Hg l b' Hb) as (b & A1 & A2 & A3 & A4 & _). rewrite A2, A3. intros Hne.
    destruct (B3 l b A1 Hne) as (D1 & D2 & D3 & D4). split; [done|]. split; [done|]. split; [done|by apply A4].
Qed.

Lemma hole_made : hole wv i.
Proof using Hw Hi Hg Ht.
  assert (Hown : ∀ j x, 0 <= j < zones_used (w_root w) → j ≠ i → footprint (zone_at w j) x → vm_prot vm x ≠ None).
  { intros j x Hj Hne Hf. rewrite (proj2 (hole_mem j x Hj Hne Hf)). by apply (hv_owned w Hw j). }
  constructor.
  - constructor; [apply (hv_root w Hw)|apply (hv_page w Hw)|apply hole_bitmaps|]. intros j x Hj Hf. destruct (decide (j = i)) as [->|Hne].
    + right. assert (zone_at wv i = z0) as E by (unfold wv, zone_at; simpl; by rewrite lookup_insert_eq). rewrite E in Hf. by apply vacated_far in Hf.
    + left. rewrite hole_at in Hf by done. by apply (Hown j).
  - split; [done|apply (hv_used w Hw)].
  - intros j Hj Hne. destruct (hv_zone_at w j Hw Hj) as [Hz Hzi]. exists (zone_at w j). split; [simpl; by rewrite lookup_insert_ne|].
    apply (zone_inv_vm (w_vm w)); [apply (zone_inv_ext _ (w_mem w)); [done|]|]; intros x Hx; by apply (hole_mem j).
  - intros j l Hj Hl Hji Hli Hne. rewrite !hole_at by done. by apply (hv_disj w Hw).
  - exact Ht.
  - apply (hv_cache_len w Hw).
  - intros e He. destruct (hole_same (tzc_zone e)) as (-> & -> & _). by apply (hv_cache w Hw).
  - intros size Hs Hm. pose proof (hv_sizes w Hw size Hs Hm) as Hl. unfold link_ok in *. destruct (hole_same (default 0 (zone_lookup_table (w_root w) !! SZ_TO_ZONE_LOOKUP_IDX size))) as (E1 & E2 & _).
    change (zone_lookup_table (w_root wv)) with (zone_lookup_table (w_root w)). by rewrite E1, E2.
  - intros j Hj. cbv zeta. destruct (hole_same j) as (-> & _ & ->). destruct (hv_links w Hw j Hj) as [|[A1 A2]]; [by left|right]. split; [done|].
    unfold link_ok in *. destruct (hole_same (next_sz_index (zone_at w j))) as (E1 & E2 & _). by rewrite E1, E2.
  - intros j x Hj Hne Hf. rewrite hole_at in Hf by done. by apply (Hown j).
  - apply (layouts_keep w _ (zone_ix w)); try done.
    + apply Hw.
    + by intros j [Hj _].
    + intros j [_ Hne]. rewrite hole_at by done. apply same_shape_refl.
    + by apply (gb_same w i bs m vm).
    + intros x Hx. apply (gb_vm _ _ _ _ _ Hg). intros Hv. destruct Hx as [(j & [Hj Hne] & Hx)|(l & bm & Hb & Hx)].
      * by apply (lo_apart _ _ (hv_layouts w Hw) i j x).
      * by apply (proj2 (lo_page _ _ (hv_layouts w Hw) l bm x Hb Hx) i).
Qed.
End hole.

(** ** [_iso_alloc_destroy_zone_unlocked] *)

Lemma munmap_run a n w : a mod w_page_size w = 0 → 0 < n → ∃ vm, munmap a n w = Ret tt (set_w_vm vm w) ∧
  ∀ x, vm_prot vm x = if decide (a <= x < a + page_len w n) then None else vm_prot (w_vm w) x.
Proof.
  intros Ha Hn. unfold munmap. rewrite Ha, (proj2 (Z.ltb_lt 0 n)) by done. cbn [Z.eqb andb]. eexists. split; [reflexivity|]. intros x. by rewrite vm_prot_cons.
Qed.

(** Both mappings of a zone, guard pages included, are whole pages. *)
Lemma guarded_len w n : page_ok w → 0 <= n <= 2 ^ 40 → page_len w (n + w_page_size w * 2) = whole_pages (w_page_size w) n + 2 * w_page_size w.
Proof.
  intros Hw Hn. pose proof (page_ok_bounds w Hw). rewrite whole_pages_len by (done || lia). unfold whole_pages.
  rewrite (Z.mul_comm _ 2), Z.mod_add by lia. destruct (n mod w_page_size w =? 0); lia.
Qed.

Lemma sub_page_mod a page : 0 < page → a mod page = 0 → (a - page) mod page = 0.
Proof. intros Hp Ha. replace (a - page) with (a + (-1) * page) by lia. by rewrite Z.mod_add by lia. Qed.

(** The search for the page of preallocated bitmaps. *)
Lemma release_bitmap_run w i l bm n l0 : w_root_null w = false → bitmaps (w_root w) !! l = Some bm → bucket bm = bitmap_size (zone_at w i) →
  0 < bitmap_size (zone_at w i) → (∀ l' bm', (l' < l)%nat → bitmaps (w_root w) !! l' = Some bm' → bucket bm' ≠ bitmap_size (zone_at w i)) →
  (l0 <= l < l0 + n)%nat →
  release_bitmap n l0 i w =
    (put_bitmap l (λ b, set_in_use (u32 (UNSET_BIT (in_use b) (preallocated_bitmap_idx (zone_at w i)))) b);;
     __iso_memset (bitmap_start (zone_at w i)) 0 (bitmap_size (zone_at w i))) w.
Proof.
  intros Hr Hl Hbk Hpos Hbefore. revert l0. induction n as [|n IH]; intros l0 Hn; [lia|]. cbn [release_bitmap].
  unfold mbind at 1 2, M_bind at 1 2. unfold root, zget. rewrite Hr. cbv beta iota. destruct (decide (l0 = l)) as [->|Hne].
  - rewrite nth_lookup, Hl. cbn [default from_option]. unfold id. by rewrite Hbk, Z.eqb_refl.
  - assert (Hnot : bucket (nth l0 (bitmaps (w_root w)) (mk_bitmap 0 0 0)) ≠ bitmap_size (zone_at w i)).
    { rewrite nth_lookup. destruct (bitmaps (w_root w) !! l0) as [bm'|] eqn:E; [apply (Hbefore l0 bm'); [lia|done]|simpl; lia]. }
    rewrite (proj2 (Z.eqb_neq _ _)) by auto. apply IH. lia.
Qed.

(** The part of a bitmap page that is given back. *)
Lemma given_back_slot w i l bm : heap_inv w → 0 <= i < zones_used (w_root w) → preallocated_bitmap_idx (zone_at w i) ≠ -1 →
  bitmaps (w_root w) !! l = Some bm → bucket bm = bitmap_size (zone_at w i) →
  0 <= preallocated_bitmap_idx (zone_at w i) < w_page_size w / bucket bm → preallocated_bitmap_idx (zone_at w i) < 32 →
  UNMASK_BITMAP_PTR (zone_at w i) = bitmap bm + bucket bm * preallocated_bitmap_idx (zone_at w i) →
  mapped_rw (w_vm w) (UNMASK_BITMAP_PTR (zone_at w i)) (bitmap_size (zone_at w i)) →
  given_back w i (alter (λ b, set_in_use (u32 (UNSET_BIT (in_use b) (preallocated_bitmap_idx (zone_at w i)))) b) l (bitmaps (w_root w)))
    (fill (Z.to_nat (bitmap_size (zone_at w i))) (w_mem w) (UNMASK_BITMAP_PTR (zone_at w i)) 0) (w_vm w).
Proof.
  intros Hw Hi Hne Hl Hbk Hidx Hidx32 HB Hrw. destruct (hv_zone_at w i Hw Hi) as [_ Hinv]. set (z := zone_at w i) in *. set (idx := preallocated_bitmap_idx z) in *.
  pose proof (zone_max_idx z (zinv_geom _ _ _ _ _ Hinv)) as (Hmax & _ & Hbs).
  assert (Hpos : 0 < bitmap_size z) by lia.
  assert (Hbits : ∀ x k, 0 <= k < 32 → Z.testbit (u32 (UNSET_BIT x idx)) k = negb (idx =? k) && Z.testbit x k).
  { intros x j Hj. rewrite u32_pow, Z.mod_pow2_bits_low by lia. apply UNSET_BIT_spec; lia. }
  constructor.
  - done.
  - intros x Hx. rewrite ld8_fill, decide_False; [done|]. rewrite Z2Nat.id by lia. intros Hin. apply Hx. by right.
  - intros a n x (l' & b' & j & Hl' & -> & Hn & Hj & Hjb & ->) Hx. destruct (decide (l' = l)) as [->|Hll].
    2:{ left. rewrite list_lookup_alter_ne in Hl' by done. by exists l', b', j. }
    rewrite list_lookup_alter_eq, Hl in Hl'. simplify_eq/=. destruct (decide (j = idx)) as [->|Hji].
    + right. rewrite <-HB in Hx. split_and!; [right; rewrite Hbk in Hx; exact Hx| |].
      * apply Hrw. lia.
      * rewrite ld8_fill, decide_True by (rewrite Z2Nat.id by lia; lia). done.
    + left. exists l, bm, j. split_and!; try done; try lia. destruct (Z.lt_ge_cases j 32) as [H32|H32].
      * rewrite Hbits in Hjb by lia. by rewrite (proj2 (Z.eqb_neq idx j)) in Hjb by done.
      * destruct (bo_range w (hv_bitmaps w Hw) l bm Hl ltac:(lia)) as (_ & _ & _ & Hr). apply (Z_testbit_above _ 32); lia.
  - intros l' b' Hl'. destruct (decide (l' = l)) as [->|Hll].
    + rewrite list_lookup_alter_eq, Hl in Hl'. simplify_eq/=. exists bm. split_and!; try done.
      * intros _. apply u32_range.
      * intros j Hj Hjb. rewrite Hbits by done. by rewrite Hjb, andb_false_r.
    + rewrite list_lookup_alter_ne in Hl' by done. by exists b'.
  - apply length_alter.
  - intros _. exists l, (set_in_use (u32 (UNSET_BIT (in_use bm) idx)) bm), idx. rewrite list_lookup_alter_eq, Hl. fold z.
    cbn [bucket bitmap set_in_use in_use]. rewrite <-Hbk. split_and!; try done; try lia. rewrite Hbits by lia. by rewrite Z.eqb_refl.
Qed.

Lemma given_back_vm w i bs m vm vm' : given_back w i bs m vm → (∀ x, ¬ vicinity w i x → vm_prot vm' x = vm_prot vm x) → given_back w i bs m vm'.
Proof. intros [A1 A2 A3 A4 A5 A6] Hvm. constructor; try done. intros x Hx. rewrite Hvm by done. by apply A1. Qed.

Lemma given_back_refl w i : preallocated_bitmap_idx (zone_at w i) = -1 → given_back w i (bitmaps (w_root w)) (w_mem w) (w_vm w).
Proof. intros Hp. constructor; try done. - intros a n x Hf _. by left. - intros l b Hb. by exists b. Qed.

(** The bitmap is unmapped or given back. *)
Lemma wp_give_back E w i t Q : heap_inv w → 0 <= i < zones_used (w_root w) →
  let z := UNMASK_ZONE_PTRS (zone_at w i) in
  (∀ bs m vm, given_back w i bs m vm → (∀ x, vm_prot (w_vm w) x = None → vm_prot vm x = None) →
     (preallocated_bitmap_idx z = -1 → ∀ x, UNMASK_BITMAP_PTR (zone_at w i) - w_page_size w <= x <
        UNMASK_BITMAP_PTR (zone_at w i) + whole_pages (w_page_size w) (bitmap_size (zone_at w i)) + w_page_size w → vm_prot vm x = None) →
     Q tt (without w i z bs m vm t)) →
  wp E (if preallocated_bitmap_idx z =? -1 then munmap (bitmap_start z - w_page_size w) (bitmap_size z + w_page_size w * 2) else release_bitmap sbsi 0 i) Q
    (set_w_chunk_lookup_table t (zput_w i z w)).
Proof.
  intros Hw Hi z HQ. set (W := set_w_chunk_lookup_table t (zput_w i z w)). assert (HW : zone_at W i = z) by apply zone_at_put.
  pose proof (hv_layouts w Hw) as Hly. pose proof (page_ok_bounds w (hv_page w Hw)) as Hpb. pose proof (zone_bitmap_size w i Hw Hi) as Hbz.
  change (preallocated_bitmap_idx z) with (preallocated_bitmap_idx (zone_at w i)) in *. destruct (Z.eqb_spec (preallocated_bitmap_idx (zone_at w i)) (-1)) as [Hp|Hp].
  - destruct (munmap_run (bitmap_start z - w_page_size w) (bitmap_size z + w_page_size w * 2) W) as (vm & Hrun & Hvm).
    { apply sub_page_mod; [change (w_page_size W) with (w_page_size w); lia|]. by apply (lo_align _ _ Hly i Hi). }
    { change (bitmap_size z) with (bitmap_size (zone_at w i)). lia. }
    change (page_len W (bitmap_size z + w_page_size w * 2)) with (page_len w (bitmap_size (zone_at w i) + w_page_size w * 2)) in Hvm.
    rewrite guarded_len in Hvm by (apply Hw || lia). change (bitmap_start z) with (UNMASK_BITMAP_PTR (zone_at w i)) in Hvm. change (w_vm W) with (w_vm w) in Hvm.
    eapply wp_eq; [exact Hrun|].
    replace (set_w_vm vm W) with (without w i z (bitmaps (w_root w)) (w_mem w) vm t) by (destruct w as [???? [] ???????????]; reflexivity).
    apply HQ.
    + eapply given_back_vm; [by apply given_back_refl|]. intros x Hx. rewrite Hvm, decide_False; [done|]. intros Hin. apply Hx. right. split; [done|lia].
    + intros x Hx. rewrite Hvm. by case_decide.
    + intros _ x Hx. rewrite Hvm, decide_True by lia. done.
  - destruct (lo_slot _ _ Hly i Hi Hp) as (l & bm & Hls & Hl & Hbk & Hidx & H32 & HB).
    destruct (hv_zone_at w i Hw Hi) as [_ Hinv]. pose proof (zone_max_idx _ (zinv_geom _ _ _ _ _ Hinv)) as (Hmax & _ & Hbs).
    assert (Hrwz : mapped_rw (w_vm w) (UNMASK_BITMAP_PTR (zone_at w i)) (bitmap_size (zone_at w i))).
    { intros x Hx. apply (lo_page _ _ Hly l bm x Hl). split; [lia|]. pose proof (Z.mul_div_le (w_page_size w) (bucket bm)). nia. }
    assert (Hbef : ∀ l' bm', (l' < l)%nat → bitmaps (w_root w) !! l' = Some bm' → bucket bm' ≠ bitmap_size (zone_at w i)).
    { intros l' bm' Hlt Hl' Heq. assert (l' = l); [|lia]. apply (lo_buckets _ _ Hly l' l bm' bm); [done|done|congruence|lia]. }
    unfold wp. rewrite (release_bitmap_run W i l bm sbsi 0); rewrite ?HW; [|apply (hv_root w Hw)|exact Hl|exact Hbk|change (0 < bitmap_size (zone_at w i)); lia|exact Hbef|lia].
    change (wp E (put_bitmap l (λ b, set_in_use (u32 (UNSET_BIT (in_use b) (preallocated_bitmap_idx (zone_at w i)))) b);;
      __iso_memset (UNMASK_BITMAP_PTR (zone_at w i)) 0 (bitmap_size (zone_at w i))) Q W).
    unfold put_bitmap. wstep. apply wp_rupd; [apply (hv_root w Hw)|]. apply wp_memset; [exact Hrwz|].
    match goal with |- Q _ ?V => replace V with (without w i z (alter (λ b, set_in_use (u32 (UNSET_BIT (in_use b) (preallocated_bitmap_idx (zone_at w i)))) b) l (bitmaps (w_root w)))
      (fill (Z.to_nat (bitmap_size (zone_at w i))) (w_mem w) (UNMASK_BITMAP_PTR (zone_at w i)) 0) (w_vm w) t) by (destruct w as [???? [] ???????????]; reflexivity) end.
    apply HQ; [by apply (given_back_slot w i l bm)|done|done].
Qed.

(** What replacing zone [i], which has no chunk in use, leaves: its own pages are unmapped,
    unless the fresh zone got them again, and its part of a bitmap page is free, unless it is
    the fresh zone's. *)
Record replaced (w w' : world) (i : Z) : Prop := {
  rp_heap : heap_inv w';
  rp_used : zones_used (w_root w') = zones_used (w_root w);
  rp_others : ∀ j, j ≠ i → zone_at w' j = zone_at w j;
  rp_fresh : chosen w' (chunk_size (zone_at w i)) i ∧ chunk_size (zone_at w' i) = chunk_size (zone_at w i) ∧ internal (zone_at w' i) = true ∧ tagged (zone_at w' i) = false;
  rp_empty : ∀ d, ¬ in_use_at w' i d;
  rp_in_use : ∀ j d, j ≠ i → in_use_at w' j d ↔ in_use_at w j d;
  rp_bytes : ∀ j x, 0 <= j < zones_used (w_root w) → j ≠ i → footprint (zone_at w j) x → ld8 (w_mem w') x = ld8 (w_mem w) x;
  rp_out : ∀ x, vm_prot (w_vm w) x ≠ None → ¬ zone_owned w x → ¬ vicinity w i x →
    vm_prot (w_vm w') x = vm_prot (w_vm w) x ∧ ld8 (w_mem w') x = ld8 (w_mem w) x;
  rp_back : ∀ x, vicinity w i x → vm_prot (w_vm w') x = None ∨ vicinity w' i x;
  rp_slot : preallocated_bitmap_idx (zone_at w i) ≠ -1 →
    bm_free (bitmaps (w_root w')) (w_page_size w) (UNMASK_BITMAP_PTR (zone_at w i)) (bitmap_size (zone_at w i)) ∨
    UNMASK_BITMAP_PTR (zone_at w' i) = UNMASK_BITMAP_PTR (zone_at w i);
  rp_reserved : ∀ x, zone_reserved w' x → zone_reserved w x ∨ vm_prot (w_vm w) x = None;
  rp_rest : w_bigs w' = w_bigs w ∧ big_lists (w_root w') = big_lists (w_root w) ∧ w_root_lock w' = w_root_lock w ∧
    w_big_free_lock w' = w_big_free_lock w ∧ w_big_used_lock w' = w_big_used_lock w ∧ quarantine w' = quarantine w;
  rp_consts : same_policy w w' ∧ big_zone_next_mask (w_root w') = big_zone_next_mask (w_root w) ∧
    big_zone_canary_secret (w_root w') = big_zone_canary_secret (w_root w) ∧ w_page_size w' = w_page_size w;
}.

Lemma no_chunk_in_use w i d : heap_inv w → af_count (zone_at w i) = 0 → ¬ in_use_at w i d.
Proof.
  intros Hw Haf (Hi & Hd & Hst). destruct (hv_zone_at w i Hw Hi) as [_ Hinv]. pose proof (zinv_af _ _ _ _ _ Hinv) as Hc. rewrite Haf in Hc.
  destruct (in_use_chunks (w_mem w) (UNMASK_BITMAP_PTR (zone_at w i)) (zone_at w i)) as [|c l] eqn:Hl; [|simpl in Hc; lia].
  assert (Hin : List.In d (in_use_chunks (w_mem w) (UNMASK_BITMAP_PTR (zone_at w i)) (zone_at w i))).
  { apply List.filter_In. split; [apply list_elem_of_In, elem_of_seqZ; lia|]. by apply bool_decide_eq_true. }
  by rewrite Hl in Hin.
Qed.

Lemma replaced_refilled w w' i bs m vm t : heap_inv w → 0 <= i < zones_used (w_root w) → given_back w i bs m vm →
  (∀ x, vicinity w i x → vm_prot vm x = None) → (∀ x, vm_prot (w_vm w) x = None → vm_prot vm x = None) →
  refilled (without w i (vacated (zone_at w i)) bs m vm t) w' i → replaced w w' i.
Proof.
  intros Hw Hi Hg Hgone Hno [R1 R2 R3 (R4 & R5 & R5') [R6 R7] R8 R9 R11 R12 R13 (s & bs' & k & t' & R10)]. set (wv := without _ _ _ _ _ _ _) in *.
  assert (Hat : ∀ j, j ≠ i → zone_at w' j = zone_at w j) by (intros j Hj; rewrite R3 by done; by apply hole_at).
  assert (Hcs : chunk_size (zone_at wv i) = chunk_size (zone_at w i)) by apply hole_same.
  assert (Hps : w_page_size w' = w_page_size w) by (by rewrite R10).
  assert (Hbytes : ∀ j x, 0 <= j < zones_used (w_root w) → j ≠ i → footprint (zone_at w j) x → ld8 (w_mem w') x = ld8 (w_mem w) x).
  { intros j x Hj Hne Hf. destruct (hole_mem w i bs m vm Hw Hi Hg j x Hj Hne Hf) as [M1 M2].
    rewrite R9; [exact M1|change (w_vm wv) with vm; rewrite M2; by apply (hv_owned w Hw j)|]. intros a n Hf' Hx.
    apply (proj2 (proj2 (bo_slot _ (hole_bitmaps w i bs m vm t Hw Hi Hg) a n x Hf' Hx)) j Hj). by rewrite hole_at. }
  constructor; rewrite ?Hcs in *; try done.
  - intros d. by apply no_chunk_in_use.
  - intros j d Hne. unfold in_use_at. change (zones_used (w_root wv)) with (zones_used (w_root w)) in R2. rewrite R2, Hat by done.
    assert (Hst : 0 <= j < zones_used (w_root w) → 0 <= d < slots (zone_at w j) →
      chunk_st (w_mem w') (UNMASK_BITMAP_PTR (zone_at w j)) d = chunk_st (w_mem w) (UNMASK_BITMAP_PTR (zone_at w j)) d).
    { intros Hj Hd. apply chunk_st_footprint; [done..|]. intros a Ha. by apply (Hbytes j). }
    split; intros (Hj & Hd & Hs); (split; [done|]; split; [done|]); [rewrite <-Hst by done|rewrite Hst by done]; done.
  - intros x Hv Hno' Hnv. pose proof (gb_vm _ _ _ _ _ Hg x Hnv) as Hvm. change (w_vm wv) with vm in R8, R9. change (w_mem wv) with m in R9.
    split; [rewrite R8; by rewrite Hvm|]. rewrite R9; [|by rewrite Hvm|].
    + apply (gb_mem _ _ _ _ _ Hg). intros Hf. apply Hno'. left. by exists i.
    + intros a n Hf Hx. apply Hno'. destruct (gb_free _ _ _ _ _ Hg a n x Hf Hx) as [Hold|[Hf' _]]; [right; by exists a, n|left; by exists i].
  - intros x Hx. unfold vicinity at 1. rewrite Hps. apply R11. by apply Hgone.
  - intros Hne. destruct (R12 _ _ (gb_slot _ _ _ _ _ Hg Hne)) as [Hf|Hf]; [by left|by right].
  - intros x Hx. destruct (R13 x Hx) as [Hr|Hn].
    + left. revert Hr. apply reserved_same; try done; [by intros j [Hj _]|intros j [_ Hj]; unfold wv; rewrite hole_at by done; apply same_shape_refl|].
      by apply (gb_same w i bs m vm).
    + assert (Hd : vicinity w i x ∨ ¬ vicinity w i x) by (unfold vicinity, zone_pages, pages_at; lia). change (w_vm wv) with vm in Hn.
      destruct Hd as [Hv|Hv]; [left; left; by exists i|right]. by rewrite (gb_vm _ _ _ _ _ Hg x Hv) in Hn.
  - rewrite R10. by split_and!.
  - rewrite R10. by split_and!.
Qed.

Lemma wp_destroy_replace (E : failure → Prop) w i : heap_inv w → 0 <= i < zones_used (w_root w) → allows E (bitmaps_room w) →
  internal (zone_at w i) = true → MEMORY_TAGGING && tagged (zone_at w i) = false →
  wp E (destroy_zone_pages i true) (λ _ w', replaced w w' i) w.
Proof.
  intros Hw Hi Hroom Hint Htag. set (z := zone_at w i). set (zu := UNMASK_ZONE_PTRS z). destruct (hv_zone_at w i Hw Hi) as [_ Hinv].
  destruct (zinv_geom _ _ _ _ _ Hinv) as [Hcs Hcm _ _ _]. fold z in Hcs, Hcm, Hint, Htag. pose proof (page_ok_bounds w (hv_page w Hw)) as Hpb.
  unfold destroy_zone_pages. do 6 wstep. rewrite zone_at_put. fold z zu. change (tagged zu) with (tagged z). rewrite Htag. cbn [when]. do 5 wstep.
  set (t := <[_ := 0]> _). apply (wp_give_back E w i t); [done..|]. fold z zu. intros bs m vm Hg Hup Hbm. wstep. fold z zu in Hg |- *.
  set (W := without w i zu bs m vm t).
  destruct (munmap_run (user_pages_start zu - w_page_size w) (ZONE_USER_SIZE + w_page_size w * 2) W) as (vm' & Hrun & Hvm).
  { apply sub_page_mod; [change (w_page_size W) with (w_page_size w); lia|]. by apply (lo_align _ _ (hv_layouts w Hw) i Hi). }
  { change ZONE_USER_SIZE with 4194304. lia. }
  change (page_len W (ZONE_USER_SIZE + w_page_size w * 2)) with (page_len w (ZONE_USER_SIZE + w_page_size w * 2)) in Hvm.
  assert (Hzl : whole_pages (w_page_size w) ZONE_USER_SIZE = ZONE_USER_SIZE) by (unfold whole_pages; by rewrite (zone_size_pages w (hv_page w Hw))).
  rewrite guarded_len in Hvm by (apply Hw || (change ZONE_USER_SIZE with 4194304; lia)). rewrite Hzl in Hvm. change (user_pages_start zu) with (UNMASK_USER_PTR z) in Hvm. change (w_vm W) with vm in Hvm.
  eapply wp_eq; [exact Hrun|]. change (set_w_vm vm' W) with (without w i zu bs m vm' t).
  assert (Hg' : given_back w i bs m vm').
  { eapply given_back_vm; [exact Hg|]. intros x Hx. rewrite Hvm, decide_False; [done|]. intros Hin. apply Hx. left. fold z. lia. }
  assert (Hgone : ∀ x, vicinity w i x → vm_prot vm' x = None).
  { intros x [Hx|[Hp Hx]]; rewrite Hvm; case_decide as Hd; try done; [fold z in Hx; lia|]. by apply Hbm. }
  assert (Hup' : ∀ x, vm_prot (w_vm w) x = None → vm_prot vm' x = None) by (intros x Hx; rewrite Hvm; case_decide; auto).
  clear Hg Hrun Hvm W Hup Hbm. set (W := without w i zu bs m vm' t).
  assert (Ht : ∀ a, let l := default 0 (t !! a) in l = 0 ∨ 0 < l < zones_used (w_root w)).
  { intros a. cbv zeta. unfold t. rewrite lookup_insert. case_decide; [by left|]. apply (hv_table w Hw a). }
  pose proof (hole_made w i bs m vm' t Hw Hi Hg' Ht) as Hhole. set (wv := without w i (vacated (zone_at w i)) bs m vm' t) in Hhole.
  assert (Ewv : wv = zput_w i (vacated z) W) by (symmetry; apply without_put).
  wstep. change (chunk_size zu) with (chunk_size z). change (index zu) with (index z). unfold z at 1 2. rewrite (lo_index _ _ (hv_layouts w Hw) i Hi). fold z.
  eapply wp_post; [apply (wp_refill_hole E W (vacated z) i (chunk_size z))|].
  - by rewrite <-Ewv.
  - eapply allows_mono; [|exact Hroom]. intros Hr. by apply (gb_room w i bs m vm' t).
  - apply vacated_far.
  - exact Hint.
  - done.
  - destruct Hcs as [Hc1 Hc2]. lia.
  - exact Hcm.
  - unfold W, zone_at. simpl. by rewrite lookup_insert_eq.
  - rewrite <-Ewv. intros r w' (-> & Hrf). wsteps. by apply (replaced_refilled w w' i bs m vm' t).
Qed.

(** ** Releasing the last chunk of a worn zone *)

(** The effect on the heap: zone [i] is fresh, the pages and the bitmap it had are given back
    (unmapped, or the fresh zone's again; its part of a bitmap page is free, or the fresh
    zone's again), and nothing else is affected. *)
Record retired (w w' : world) (i : Z) : Prop := {
  re_heap : heap_inv w';
  re_used : zones_used (w_root w') = zones_used (w_root w);
  re_in_use : ∀ j d, in_use_at w' j d ↔ in_use_at w j d ∧ j ≠ i;
  re_bytes : ∀ j d x, in_use_at w j d → j ≠ i → in_chunk w j d x → ld8 (w_mem w') x = ld8 (w_mem w) x;
  re_others : ∀ j, j ≠ i → zone_at w' j = zone_at w j;
  re_fresh : chosen w' (chunk_size (zone_at w i)) i ∧ chunk_size (zone_at w' i) = chunk_size (zone_at w i) ∧ internal (zone_at w' i) = true ∧ tagged (zone_at w' i) = false;
  re_out : ∀ x, vm_prot (w_vm w) x ≠ None → ¬ zone_owned w x → ¬ vicinity w i x →
    vm_prot (w_vm w') x = vm_prot (w_vm w) x ∧ ld8 (w_mem w') x = ld8 (w_mem w) x;
  re_back : ∀ x, vicinity w i x → vm_prot (w_vm w') x = None ∨ vicinity w' i x;
  re_slot : preallocated_bitmap_idx (zone_at w i) ≠ -1 →
    bm_free (bitmaps (w_root w')) (w_page_size w) (UNMASK_BITMAP_PTR (zone_at w i)) (bitmap_size (zone_at w i)) ∨
    UNMASK_BITMAP_PTR (zone_at w' i) = UNMASK_BITMAP_PTR (zone_at w i);
  re_reserved : ∀ x, zone_reserved w' x → zone_reserved w x ∨ vm_prot (w_vm w) x = None;
  re_rest : w_bigs w' = w_bigs w ∧ big_lists (w_root w') = big_lists (w_root w) ∧ w_root_lock w' = w_root_lock w ∧
    w_big_free_lock w' = w_big_free_lock w ∧ w_big_used_lock w' = w_big_used_lock w ∧ quarantine w' = quarantine w;
  re_consts : same_policy w w' ∧ big_zone_next_mask (w_root w') = big_zone_next_mask (w_root w) ∧
    big_zone_canary_secret (w_root w') = big_zone_canary_secret (w_root w) ∧ w_page_size w' = w_page_size w;
}.

Lemma retired_replaced w w' i c : let w1 := after_free false i c w in
  heap_inv w → in_use_at w i c → replaced w1 w' i → retired w w' i.
Proof.
  intros w1 Hw Hin [R1 R2 R3 R4 R5 R6 R7 R8 R9 R10 R11 R12 R13]. destruct (after_free_changed w false i c Hw Hin) as (Hcc & _). fold w1 in Hcc.
  pose proof (cc_shape _ _ _ _ _ Hcc) as Hsh. pose proof Hin as (Hi & _).
  assert (Hoth : ∀ j, j ≠ i → zone_at w1 j = zone_at w j) by (intros j Hne; unfold w1, after_free; by rewrite zone_at_put_ne by auto).
  assert (Hvic : ∀ x, vicinity w1 i x ↔ vicinity w i x) by (intros x; apply zone_pages_same, Hsh).
  rewrite (ss_size _ _ (Hsh i)) in R4. rewrite (ss_prealloc _ _ (Hsh i)), (ss_bitmap _ _ (Hsh i)), (ss_bsize _ _ (Hsh i)) in R10.
  constructor; try done.
  - intros j d. destruct (decide (j = i)) as [->|Hne].
    { split; [intros Hin'; by apply R5 in Hin'|by intros [_ ?]]. }
    rewrite R6, (cc_in_use _ _ _ _ _ Hcc) by done. naive_solver.
  - intros j d x Hin' Hne Hx. rewrite <-(cc_bytes _ _ _ _ _ Hcc j d x Hin') by naive_solver. pose proof Hin' as (Hj & Hd & _).
    apply (R7 j); [done|done|]. rewrite Hoth by done. destruct (hv_zone_at w j Hw Hj) as [_ Hinv].
    eapply footprint_zinv; [exact Hinv|left; by exists d].
  - intros j Hne. rewrite R3 by done. by apply Hoth.
  - intros x Hv Hno Hnv. destruct (R8 x Hv) as [E1 E2].
    + intros Ho. apply Hno. by apply (owned_same w w1).
    + by rewrite Hvic.
    + split; [done|]. rewrite E2. apply (cc_out _ _ _ _ _ Hcc). intros Hf. apply Hno. left. by exists i.
  - intros x Hx. apply R9. by apply Hvic.
  - intros x Hx. destruct (R11 x Hx) as [Hr|Hn]; [left; by apply (zone_reserved_same w w1)|by right].
Qed.

Lemma wp_free_retires (E : failure → Prop) w i c : heap_inv w → FUZZ_MODE = false → in_use_at w i c →
  allows E (bitmaps_room w ∧ neighbour_ok (w_vm w) (w_mem w) (UNMASK_BITMAP_PTR (zone_at w i)) c (zone_at w i)) →
  MEMORY_TAGGING && tagged (zone_at w i) = false → retiring w i = true →
  wp E (_iso_free_internal_unlocked (chunk_at w i c) false None) (λ r w', r = Some i ∧ retired w w' i) w.
Proof.
  intros Hw Hfz Hin [HE Hall] Htag Hret. destruct (after_free_changed w false i c Hw Hin) as (Hcc & Haf & _). pose proof Hin as (Hi & _).
  destruct (after_free_life w false i c i) as (T1 & T2 & T3). set (w1 := after_free false i c w) in *. pose proof (cc_shape _ _ _ _ _ Hcc) as Hsh.
  unfold retiring in Hret. apply andb_true_iff in Hret as [Hret Hret3]. apply andb_true_iff in Hret as [Hret1 Hret2]. apply Z.eqb_eq in Hret1.
  unfold _iso_free_internal_unlocked. rewrite Hfz. cbn [when]. do 3 wstep. eapply wp_eq; [by apply find_chunk_run|]. cbv beta iota. wstep.
  eapply wp_post; [apply wp_free_chunk; [done|done|destruct Hall as [|[_ Hn]]; [by left|by right]]|]. cbv beta. intros _ ? ->. fold w1.
  wstep. eapply wp_eq; [apply is_zone_retired_run, Hw|]. rewrite Haf, Hret1, T2, T3, (ss_internal _ _ (Hsh i)), (ss_size _ _ (Hsh i)).
  change (w_root w1) with (w_root w). rewrite Hret2, Hret3. cbn [Z.sub Z.eqb andb when].
  assert (Hint : internal (zone_at w1 i) = true) by (rewrite (ss_internal _ _ (Hsh i)); by apply andb_true_iff in Hret3 as [? _]).
  wstep. eapply wp_post; [apply (wp_destroy_replace E w1 i); [apply Hcc|done| |done|by rewrite T1]|].
  { split; [done|]. destruct Hall as [|[Hr _]]; [by left|by right]. }
  intros ? w' Hrp. wstep. eapply wp_eq; [apply refresh_tag_untagged|].
  { destruct (rp_fresh _ _ _ Hrp) as (_ & _ & _ & ->). by rewrite andb_false_r. }
  wsteps. split; [done|]. by apply (retired_replaced w w' i c).
Qed.

(** C10. When the last chunk of a zone that has served its share of allocations is released,
    the zone is replaced: the pages it had for itself, guard pages included, are unmapped
    unless the fresh zone was mapped there, its part of a page of preallocated bitmaps is
    free unless the fresh zone took it, and a fresh zone of the same chunk size, with a chunk
    ready, takes its index, its place in the list of its size and in the caches. The heap
    invariant holds again, exactly the chunks of the other zones stay in use with their
    contents, and big zones, locks and quarantine are as before. (The zone has no memory
    tags, the word above its bitmap is harmless and the bitmap pages have room.) *)
Theorem last_free_retires_zone w i c : heap_inv w → FUZZ_MODE = false → bitmaps_room w → in_use_at w i c →
  neighbour_ok (w_vm w) (w_mem w) (UNMASK_BITMAP_PTR (zone_at w i)) c (zone_at w i) →
  MEMORY_TAGGING && tagged (zone_at w i) = false → retiring w i = true →
  wp resource (_iso_free_internal_unlocked (chunk_at w i c) false None) (λ r w', r = Some i ∧ retired w w' i) w.
Proof. intros Hw Hfz Hroom Hin Hn Htag Hret. by apply wp_free_retires; [..|apply allows_resource| |]. Qed.
End retire.
