(* ===== verification/Blocks.v ===== *)
(** * Zones and big zones together

    A process owns zones and big zones in memory of their own. A block of the program is a
    chunk of a zone or a big zone; allocating and releasing one, whichever kind it is, keeps
    the invariants of both kinds ([process]) and every other block. *)

From S2P Require Import Prelude Words Conf Memory State Util ZoneBits FreeList Chunks Lookup Heap Zones BigZones BigSpec Verify MemTags Alloc AllocSpec NewZone HeapOps Retire.

(** What the program holds: chunk [c] of zone [i], or the big zone with its structure at
    [a]. *)
Inductive block :=
  | Small (i c : Z)
  | Big (a : Z).

#[global] Instance block_eq_dec : EqDecision block.
Proof. solve_decision. Defined.

Section blocks.
Context `{!Kernel, !KernelLaws, !Config}.

(** ** The invariant *)

(** The invariants of zones and big zones, whose memory, guard pages included, is apart, and
    the page that answers requests for zero bytes, which is neither's. *)
Record process (w : world) (lu lf : list Z) : Prop := {
  ps_heap : heap_inv w;
  ps_zones : 0 < zones_used (w_root w);
  ps_bigs : bigs_inv w lu lf [];
  ps_apart : ∀ a b x, a ∈ lu ++ lf → w_bigs w !! a = Some b → in_region w a b x → ¬ zone_reserved w x;
  ps_zero : NO_ZERO_ALLOCATIONS = true → let p := zero_alloc_page (w_root w) in
    vm_prot (w_vm w) p ≠ None ∧ ¬ zone_reserved w p ∧ ∀ a b, a ∈ lu ++ lf → w_bigs w !! a = Some b → ¬ in_region w a b p;
}.

Definition live (w : world) (lu : list Z) (k : block) : Prop :=
  match k with Small i c => in_use_at w i c | Big a => a ∈ lu end.
Definition addr (w : world) (k : block) : Z :=
  match k with Small i c => chunk_at w i c | Big a => big_user_pages_start (big_at w a) end.
Definition len (w : world) (k : block) : Z :=
  match k with Small i c => chunk_size (zone_at w i) | Big a => big_size (big_at w a) end.
Definition in_block (w : world) (k : block) (x : Z) : Prop := addr w k <= x < addr w k + len w k.

Lemma zone_owned_mapped w x : heap_inv w → zone_owned w x → vm_prot (w_vm w) x ≠ None.
Proof.
  intros Hw [(j & Hj & Hf)|(a & n & Hf & Hx)]; [by apply (hv_owned w Hw j)|].
  destruct (bo_slot w (hv_bitmaps w Hw) a n x Hf Hx) as [Hv _]. congruence.
Qed.

Lemma owned_reserved w x : heap_inv w → zone_owned w x → zone_reserved w x.
Proof.
  intros Hw [(j & Hj & Hf)|(a & n & Hf & Hx)].
  - pose proof (zone_bitmap_size w j Hw Hj).
    destruct (footprint_reserved w (zone_ix w) j x) as [Hp|[_ Hp]]; [apply Hw|apply Hw|done|lia|done|left; by exists j|by right].
  - right. pose proof (page_ok_bounds w (hv_page w Hw)). destruct (bm_free_page _ (w_page_size w) a n x ltac:(lia) Hf Hx) as (l & bm & Hl & Hne & Hin).
    exists l, bm. split; [done|]. by split.
Qed.

Lemma reserved_vm w x : heap_inv w → zone_reserved w x → vm_prot (w_vm w) x ≠ None.
Proof. intros Hw. apply reserved_mapped, Hw. Qed.

Lemma chunk_owned w i c x : heap_inv w → in_use_at w i c → in_chunk w i c x → zone_reserved w x.
Proof.
  intros Hw (Hi & Hc & _) Hx. apply owned_reserved; [done|]. left. exists i. split; [done|]. destruct (hv_zone_at w i Hw Hi) as [_ Hinv].
  eapply footprint_zinv; [exact Hinv|left; by exists c].
Qed.

Lemma used_entry w lu lf a : process w lu lf → a ∈ lu → w_bigs w !! a = Some (big_at w a) ∧ big_entry w a (big_at w a) ∧
  mapped_rw (w_vm w) (big_user_pages_start (big_at w a)) (big_size (big_at w a)).
Proof.
  intros Hp Ha. destruct (bi_entry _ _ _ _ (ps_bigs _ _ _ Hp) a) as (b & Hb & He & Hf & Hrw); [set_solver|].
  unfold big_at. rewrite Hb. split; [done|]. split; [done|]. apply Hrw. left. intros Hl.
  pose proof (bi_nodup _ _ _ _ (ps_bigs _ _ _ Hp)) as Hnd. apply list.NoDup_app in Hnd as (_ & Hd & _). apply (Hd a Ha). set_solver.
Qed.

(** A block is mapped for reading and writing, aligned, below 2^47 and not the page for
    zero bytes. *)
Lemma live_facts w lu lf k : process w lu lf → live w lu k →
  0 < addr w k ∧ addr w k + len w k <= 2 ^ 47 ∧ addr w k mod 32 = 0 ∧ 32 <= len w k ∧ mapped_rw (w_vm w) (addr w k) (len w k) ∧
  NO_ZERO_ALLOCATIONS && (addr w k =? zero_alloc_page (w_root w)) = false.
Proof.
  intros Hp Hk. destruct k as [i c|a]; simpl in *.
  - destruct (chunk_at_facts w i c (ps_heap _ _ _ Hp) Hk) as (A1 & A2 & A3 & A4 & A5). split_and!; try done; try lia.
    destruct NO_ZERO_ALLOCATIONS eqn:Hz; [|done]. cbn [andb]. apply Z.eqb_neq. intros Heq.
    destruct (ps_zero _ _ _ Hp Hz) as (_ & Hno & _). apply Hno. rewrite <-Heq.
    apply (chunk_owned w i c); [apply Hp|done|]. unfold in_chunk. lia.
  - destruct (used_entry w lu lf a Hp Hk) as (Hb & He & Hrw). destruct (be_pages _ _ _ He) as [B1 B2].
    pose proof (be_size _ _ _ He) as Hs. change SMALL_SIZE_MAX with 65536 in Hs.
    destruct (be_align _ _ _ He) as [Hal _]. pose proof (page_mod_4096 w (bi_page _ _ _ _ (ps_bigs _ _ _ Hp))) as Hpm.
    pose proof (page_ok_bounds w (bi_page _ _ _ _ (ps_bigs _ _ _ Hp))). split_and!; try done; try lia.
    + apply Z.mod_divide in Hal as [q Hq]; [|lia]. apply Z.mod_divide in Hpm as [r Hr]; [|lia]. rewrite Hq, Hr.
      replace (q * (r * 4096)) with ((q * r * 128) * 32) by ring. by apply Z.mod_mul.
    + destruct NO_ZERO_ALLOCATIONS eqn:Hz; [|done]. cbn [andb]. apply Z.eqb_neq. intros Heq.
      destruct (ps_zero _ _ _ Hp Hz) as (_ & _ & Hno). apply (Hno a (big_at w a)); [set_solver|done|]. left. unfold in_pages. lia.
Qed.

(** Blocks that share a byte are the same block. *)
Lemma live_disjoint w lu lf k k' x : process w lu lf → live w lu k → live w lu k' → in_block w k x → in_block w k' x → k = k'.
Proof.
  intros Hp Hk Hk' Hx Hx'.
  assert (Hmix : ∀ i c a, in_use_at w i c → a ∈ lu → in_block w (Small i c) x → in_block w (Big a) x → False).
  { intros i c a Hi Ha Hs Hb. destruct (used_entry w lu lf a Hp Ha) as (Hba & _).
    apply (ps_apart _ _ _ Hp a (big_at w a) x); [set_solver|done|by left|]. by apply (chunk_owned w i c); [apply Hp|..]. }
  destruct k as [i c|a], k' as [j d|a']; simpl in Hk, Hk'; [| |by exfalso; eapply Hmix|].
  - f_equal; by apply (in_use_disjoint w i c j d x (ps_heap _ _ _ Hp)).
  - by exfalso; eapply Hmix.
  - f_equal. destruct (decide (a = a')) as [|Hne]; [done|exfalso]. destruct (used_entry w lu lf a Hp Hk) as (Ha & _).
    destruct (used_entry w lu lf a' Hp Hk') as (Ha' & _).
    destruct (bi_apart _ _ _ _ (ps_bigs _ _ _ Hp) a a' _ _ ltac:(set_solver) ltac:(set_solver) Ha Ha') as [Hd _].
    destruct (Hd Hne) as [Hap _]. unfold in_block, apart in *. simpl in *. lia.
Qed.

Lemma live_inj w lu lf k k' : process w lu lf → live w lu k → live w lu k' → addr w k = addr w k' → k = k'.
Proof.
  intros Hp Hk Hk' Heq. destruct (live_facts w lu lf k Hp Hk) as (_ & _ & _ & A & _). destruct (live_facts w lu lf k' Hp Hk') as (_ & _ & _ & B & _).
  apply (live_disjoint w lu lf k k' (addr w k)); try done; unfold in_block; lia.
Qed.

(** Block [k] is the same block with the same contents in both processes. *)
Record carried (w w' : world) (lu' : list Z) (k : block) : Prop := {
  cd_live : live w' lu' k;
  cd_addr : addr w' k = addr w k;
  cd_len : len w' k = len w k;
  cd_bytes : ∀ x, in_block w k x → ld8 (w_mem w') x = ld8 (w_mem w) x;
}.

Lemma carried_trans w1 w2 w3 lu2 lu3 k : carried w1 w2 lu2 k → carried w2 w3 lu3 k → carried w1 w3 lu3 k.
Proof.
  intros [A1 A2 A3 A4] [B1 B2 B3 B4]. constructor; [done|congruence|congruence|]. intros x Hx. rewrite B4; [by apply A4|].
  unfold in_block in *. by rewrite A2, A3.
Qed.

(** No lock is taken. *)
Definition unlocked (w : world) : Prop := w_root_lock w = false ∧ w_big_used_lock w = false ∧ w_big_free_lock w = false.

(** ** Ordinary chunks *)

(** Zone [i] has handed out enough chunks to be replaced once it is empty. *)
Definition worn (w : world) (i : Z) : bool :=
  let z := zone_at w i in
  (u32 (Z.shiftl (chunk_count z) (zone_retirement_shf (w_root w))) <? alloc_count z)
  && (internal z && (chunk_size z <? MAX_DEFAULT_ZONE_SZ * 2)).

(** A chunk in use whose release is only a release: its neighbour is inside the bitmap or
    it is the last chunk, no tags, a zone that is not worn. *)
Record calm (w : world) (ic : Z * Z) : Prop := {
  ca_in_use : in_use_at w ic.1 ic.2;
  ca_neighbour : ic.2 + 1 < slots (zone_at w ic.1) ∨ ic.2 + 1 = chunk_count (zone_at w ic.1);
  ca_untagged : MEMORY_TAGGING && tagged (zone_at w ic.1) = false;
  ca_worn : worn w ic.1 = false;
}.

Lemma calm_plain w i c : calm w (i, c) → plain_free w i c.
Proof.
  intros [A1 A2 A3 A4]. constructor; [done| |done|].
  - unfold neighbour_ok. simpl in A2. tauto.
  - unfold retiring. unfold worn in A4. simpl in A4. rewrite <-andb_assoc, A4. apply andb_false_r.
Qed.

(** A live block whose release is only a release. Big zones always are. *)
Definition harmless (w : world) (k : block) : Prop := match k with Small i c => calm w (i, c) | Big _ => True end.

Lemma calm_keep w w' ic : calm w ic → in_use_at w' ic.1 ic.2 → same_shape (zone_at w ic.1) (zone_at w' ic.1) →
  same_life (zone_at w ic.1) (zone_at w' ic.1) → zone_retirement_shf (w_root w') = zone_retirement_shf (w_root w) → calm w' ic.
Proof.
  intros [A1 A2 A3 A4] Hin [S1 S2 S3 S4 S5 S6 S7] (L1 & L2 & L3) Hr. constructor; [done| |by rewrite L1|].
  - unfold slots in *. by rewrite S5, L2.
  - unfold worn in *. by rewrite L2, L3, S4, S6, Hr.
Qed.

(** One more allocation from zone [i] does not wear it out either. *)
Definition lasting (w : world) (i : Z) : Prop :=
  let z := zone_at w i in
  (u32 (Z.shiftl (chunk_count z) (zone_retirement_shf (w_root w))) <? u32 (alloc_count z + 1))
  && (internal z && (chunk_size z <? MAX_DEFAULT_ZONE_SZ * 2)) = false.

(** A block that stays harmless when another is allocated. *)
Definition enduring (w : world) (k : block) : Prop := match k with Small i c => calm w (i, c) ∧ lasting w i | Big _ => True end.

Lemma calm_alloc w w' size p j d i c : small_alloc w w' size p j d → calm w (i, c) → lasting w i → calm w' (i, c).
Proof.
  intros Hsa [A1 A2 A3 A4] Hla. simpl in *. pose proof (sa_shape _ _ _ _ _ _ Hsa i (proj1 A1)) as [S1 S2 S3 S4 S5 S6 S7].
  destruct (sa_life _ _ _ _ _ _ Hsa i (proj1 A1)) as (L1 & L2 & L3). destruct (sa_policy _ _ _ _ _ _ Hsa) as [P1 _].
  constructor; simpl; [apply (sa_in_use _ _ _ _ _ _ Hsa); by left| |by rewrite L1|].
  - unfold slots in *. by rewrite S5, L2.
  - unfold worn, lasting in *. rewrite L2, S4, S6, P1. by destruct L3 as [-> | ->].
Qed.

(** ** Operations on zones *)

(** An operation on zones changes neither the big zones nor memory that is not mapped for
    zones; what it maps was theirs or not mapped. *)
Record zones_only (w w' : world) : Prop := {
  zo_bigs : w_bigs w' = w_bigs w ∧ big_lists (w_root w') = big_lists (w_root w);
  zo_secrets : same_secrets w w';
  zo_zero : zero_alloc_page (w_root w') = zero_alloc_page (w_root w);
  zo_out : ∀ x, vm_prot (w_vm w) x ≠ None → ¬ zone_reserved w x →
    vm_prot (w_vm w') x = vm_prot (w_vm w) x ∧ ld8 (w_mem w') x = ld8 (w_mem w) x;
  zo_reserved : ∀ x, zone_reserved w' x → zone_reserved w x ∨ vm_prot (w_vm w) x = None;
}.

Lemma others_zones_only w w' : heap_inv w → others_kept w w' → same_policy w w' → zones_only w w'.
Proof.
  intros Hw [E1 E2 E3 E4 E5 E6 E7] [_ Hz]. constructor; try done. intros x Hx Hno. split; [by apply E4|]. apply E5; [done|].
  intros Ho. by apply Hno, owned_reserved.
Qed.

Lemma retired_zones_only w w' i : heap_inv w → 0 <= i < zones_used (w_root w) → retired w w' i → zones_only w w'.
Proof.
  intros Hw Hi Hre. destruct (re_rest _ _ _ Hre) as (B1 & B2 & _). destruct (re_consts _ _ _ Hre) as ([_ Hz] & S1 & S2 & S3).
  constructor; [by split|by split_and!|done| |apply Hre]. intros x Hx Hno. apply (re_out _ _ _ Hre x Hx).
  - intros Ho. by apply Hno, owned_reserved.
  - intros Hv. apply Hno. left. by exists i.
Qed.

Section zones_only.
Context (w w' : world) (lu lf : list Z) (Hp : process w lu lf) (Hzo : zones_only w w').

Lemma region_same a b x : a ∈ lu ++ lf → w_bigs w !! a = Some b → in_region w a b x →
  vm_prot (w_vm w') x = vm_prot (w_vm w) x ∧ ld8 (w_mem w') x = ld8 (w_mem w) x.
Proof.
  intros Ha Hb Hx. apply (zo_out _ _ Hzo); [|by apply (ps_apart _ _ _ Hp a b)].
  destruct (bi_entry _ _ _ _ (ps_bigs _ _ _ Hp) a) as (b' & Hb' & He & _); [set_solver|]. assert (b' = b) as -> by congruence.
  by apply (be_owned _ _ _ He).
Qed.

(** The structure of a big zone lies in its page. *)
Lemma meta_region a b x : big_entry w a b → a <= x < a + SIZEOF_BIG_ZONE → in_region w a b x.
Proof.
  intros He Hx. right. pose proof (be_in_page _ _ _ He). unfold meta_page.
  pose proof (page_ok_bounds w (bi_page _ _ _ _ (ps_bigs _ _ _ Hp))). pose proof (Z.mod_pos_bound a (w_page_size w)). lia.
Qed.

(** The big zones stay as they are. *)
Lemma bigs_inv_kept : heap_inv w' → bigs_inv w' lu lf [].
Proof.
  intros Hw'. destruct (zo_bigs _ _ Hzo) as [E1 E2]. unfold big_lists in E2. injection E2 as F1 F2 F3 F4. pose proof (ps_bigs _ _ _ Hp) as Hb.
  pose proof (zo_secrets _ _ Hzo) as Hs. pose proof Hs as (S1 & S2 & S3).
  destruct Hb as [C1 C2 C3 C4 C5 C6 C7 C8]. constructor; rewrite ?E1, ?F1, ?F2, ?F3, ?F4, ?(same_secrets_unmask w w' Hs); try done; try apply Hw'.
  - intros a Ha. destruct (C7 a Ha) as (b & Hba & He & Hf & Hm). assert (Ha' : a ∈ lu ++ lf) by set_solver. exists b. split_and!; try done.
    + pose proof (λ x, meta_region a b x He) as Hmr. destruct He as [D1 D2 D3 D4 D5 D6 D7 D8]. constructor; rewrite ?S3; try done.
      * unfold MASK_BIG_ZONE_NEXT, UNMASK_BIG_ZONE_NEXT in *. by rewrite S1.
      * intros x Hx. rewrite (proj1 (region_same a b x Ha' Hba (Hmr x Hx))). by apply D3.
      * unfold big_canary in *. by rewrite S2.
      * intros x. unfold meta_page. rewrite S3. intros Hx. rewrite (proj1 (region_same a b x Ha' Hba Hx)). by apply D8.
    + intros Hor x Hx. rewrite (proj1 (region_same a b x Ha' Hba ltac:(by left))). by apply Hm.
  - unfold meta_page in *. by rewrite S3.
Qed.

Lemma process_zones : heap_inv w' → 0 < zones_used (w_root w') → process w' lu lf.
Proof.
  intros Hw' Hu. pose proof (ps_bigs _ _ _ Hp) as Hb.
  assert (Hreg : ∀ a b x, a ∈ lu ++ lf → w_bigs w' !! a = Some b → in_region w' a b x → w_bigs w !! a = Some b ∧ in_region w a b x).
  { intros a b x Ha Hba Hx. rewrite (proj1 (zo_bigs _ _ Hzo)) in Hba. split; [done|]. unfold in_region, meta_page in *.
    by rewrite (proj2 (proj2 (zo_secrets _ _ Hzo))) in Hx. }
  constructor; [done|lia|by apply bigs_inv_kept| |].
  - intros a b x Ha Hba Hx Ho. destruct (Hreg a b x Ha Hba Hx) as [Hba' Hx']. destruct (zo_reserved _ _ Hzo x Ho) as [Ho'|Hv].
    + by apply (ps_apart _ _ _ Hp a b x).
    + destruct (bi_entry _ _ _ _ Hb a) as (b' & Hb' & He & _); [set_solver|]. assert (b' = b) as -> by congruence.
      by apply (be_owned _ _ _ He x).
  - intros Hzero. cbv zeta. rewrite (zo_zero _ _ Hzo). destruct (ps_zero _ _ _ Hp Hzero) as (Z1 & Z2 & Z3). split_and!.
    + by rewrite (proj1 (zo_out _ _ Hzo _ Z1 Z2)).
    + intros Ho. by destruct (zo_reserved _ _ Hzo _ Ho).
    + intros a b Ha Hba Hx. destruct (Hreg a b _ Ha Hba Hx) as [Hba' Hx']. by apply (Z3 a b).
Qed.

Lemma big_carried a : a ∈ lu → carried w w' lu (Big a).
Proof.
  intros Ha. destruct (used_entry w lu lf a Hp Ha) as (Hba & He & Hrw).
  assert (Heq : big_at w' a = big_at w a) by (unfold big_at; by rewrite (proj1 (zo_bigs _ _ Hzo))).
  constructor; simpl; try done; [by rewrite Heq|by rewrite Heq|]. intros x Hx. unfold in_block in Hx. simpl in Hx.
  apply (region_same a (big_at w a)); [set_solver|done|by left].
Qed.
End zones_only.

Lemma process_kept w w' lu lf : process w lu lf → heap_inv w' → 0 < zones_used (w_root w') →
  others_kept w w' → same_policy w w' → process w' lu lf.
Proof. intros Hp Hw' Hu Hok Hpol. apply (process_zones w w' lu lf Hp); try done. apply others_zones_only; [apply Hp|done|done]. Qed.

Lemma small_carried w w' lu' i c : in_use_at w' i c → same_shape (zone_at w i) (zone_at w' i) →
  (∀ x, in_chunk w i c x → ld8 (w_mem w') x = ld8 (w_mem w) x) → carried w w' lu' (Small i c).
Proof.
  intros Hin Hs Hb. constructor; simpl; [done|by apply same_shape_chunk|by rewrite (ss_size _ _ Hs)|done].
Qed.

(** ** Operations on big zones *)

Lemma big_frame_weaken w w' (R R' : Z → Prop) l l' : big_frame w w' R l → (∀ x, R x → R' x) → l' ⊆ l → big_frame w w' R' l'.
Proof.
  intros [B1 B2 B3 B4 B5 B6 B7 B8] HR Hl. constructor; try done.
  - intros x Hx Hn. apply B1; [done|]. naive_solver.
  - intros x Hx Hn. apply B2; [done|]. naive_solver.
  - intros x b Hx. apply B8. by apply Hl.
Qed.

(** The regions of the big zones in [l]. *)
Definition regions (w : world) (l : list Z) (x : Z) : Prop := ∃ a b, a ∈ l ∧ w_bigs w !! a = Some b ∧ in_region w a b x.

Lemma regions_one w a b x : w_bigs w !! a = Some b → in_region w a b x → regions w [a] x.
Proof. intros Hb Hx. exists a, b. split; [by left|done]. Qed.

Lemma regions_apart w lu lf l x : process w lu lf → l ⊆ lu ++ lf → regions w l x → ¬ zone_reserved w x.
Proof. intros Hp Hl (a & b & Ha & Hb & Hx). apply (ps_apart _ _ _ Hp a b x); [by apply Hl|done|done]. Qed.

(** The zones stay as they are. *)
Lemma heap_inv_frame w w' : heap_inv w → w_root_null w' = false → page_ok w' → w_page_size w' = w_page_size w → w_zones w' = w_zones w →
  w_chunk_lookup_table w' = w_chunk_lookup_table w → w_zone_cache w' = w_zone_cache w → w_zone_cache_count w' = w_zone_cache_count w →
  zones_used (w_root w') = zones_used (w_root w) → zone_lookup_table (w_root w') = zone_lookup_table (w_root w) →
  bitmaps (w_root w') = bitmaps (w_root w) →
  (∀ x, zone_reserved w x → vm_prot (w_vm w') x = vm_prot (w_vm w) x ∧ ld8 (w_mem w') x = ld8 (w_mem w) x) → heap_inv w'.
Proof.
  intros Hw Hr Hpg Hps Hz Ht Hc Hcc Hu Hlt Hbm Hkeep. pose proof Hw as [A1 A2 A3 A4 A5 A6 A7 A8 A9 A10 [B1 B2 B3] A12 A13].
  assert (Hat : ∀ j, zone_at w' j = zone_at w j) by (intros j; unfold zone_at; by rewrite Hz).
  assert (Hfp : ∀ j x, 0 <= j < zones_used (w_root w) → footprint (zone_at w j) x → vm_prot (w_vm w') x = vm_prot (w_vm w) x ∧ ld8 (w_mem w') x = ld8 (w_mem w) x).
  { intros j x Hj Hx. apply Hkeep, owned_reserved; [done|]. left. by exists j. }
  constructor; unfold link_ok in *; rewrite ?Hu, ?Ht, ?Hc, ?Hcc, ?Hlt; try done.
  - intros i Hi. rewrite Hz. destruct (hv_zone_at w i Hw Hi) as [Hzi Hinv]. exists (zone_at w i). split; [done|].
    apply (zone_inv_ext _ (w_mem w)); [apply (zone_inv_vm (w_vm w)); [done|]|]; intros x Hx; by apply (Hfp i).
  - intros i j. rewrite !Hat. apply A5.
  - intros e. rewrite Hat. apply A8.
  - intros size. rewrite Hat. apply A9.
  - intros i. rewrite !Hat. apply A10.
  - constructor; rewrite ?Hbm, ?Hps, ?Hu; try done. intros a n x Hf Hx. destruct (B1 a n x Hf Hx) as (C1 & C2 & C3).
    destruct (Hkeep x) as [K1 K2]; [apply owned_reserved; [done|]; right; by exists a, n|]. rewrite K1, K2. split_and!; [done|done|]. intros j. rewrite Hat. apply C3.
  - intros i x. rewrite Hat. intros Hi Hx. rewrite (proj1 (Hfp i x Hi Hx)). by apply (A12 i).
  - unfold zone_ix. rewrite Hu. apply (layouts_keep w _ (zone_ix w)); try done; [intros j _; rewrite Hat; apply same_shape_refl|
      rewrite Hbm; apply same_pages_refl|intros x Hx; by apply Hkeep].
Qed.

Section frame.
Context (w w' : world) (lu lf lr : list Z) (Hp : process w lu lf) (Hlr : lr ⊆ lu ++ lf) (Hfr : big_frame w w' (regions w lr) (lu ++ lf)).

Lemma frame_zone_at j : zone_at w' j = zone_at w j.
Proof. unfold zone_at. by rewrite (bf_zones _ _ _ _ Hfr). Qed.

Lemma frame_root : zones_used (w_root w') = zones_used (w_root w) ∧ zone_lookup_table (w_root w') = zone_lookup_table (w_root w) ∧
  bitmaps (w_root w') = bitmaps (w_root w) ∧ zero_alloc_page (w_root w') = zero_alloc_page (w_root w) ∧
  zone_retirement_shf (w_root w') = zone_retirement_shf (w_root w) ∧ chunk_quarantine_count (w_root w') = chunk_quarantine_count (w_root w).
Proof. destruct (bf_root _ _ _ _ Hfr) as (s & f & fc & h & hc & ->). by destruct (w_root w). Qed.

Lemma frame_owned x : zone_reserved w x → vm_prot (w_vm w') x = vm_prot (w_vm w) x ∧ ld8 (w_mem w') x = ld8 (w_mem w) x.
Proof.
  intros Ho. pose proof (reserved_vm w x (ps_heap _ _ _ Hp) Ho) as Hm.
  assert (¬ regions w lr x) by (intros Hx; by apply (regions_apart w lu lf lr x)).
  split; [by apply (bf_vm _ _ _ _ Hfr)|by apply (bf_mem _ _ _ _ Hfr)].
Qed.

Lemma frame_owned_same x : zone_reserved w' x → zone_reserved w x.
Proof.
  destruct frame_root as (R1 & R2 & R3 & _). apply zone_reserved_same; [done|done|apply (bf_page _ _ _ _ Hfr)|].
  intros j. rewrite frame_zone_at. apply same_shape_refl.
Qed.

Lemma frame_in_use j d : in_use_at w' j d ↔ in_use_at w j d.
Proof.
  unfold in_use_at. rewrite frame_zone_at, (proj1 frame_root).
  assert (0 <= j < zones_used (w_root w) → 0 <= d < slots (zone_at w j) →
    chunk_st (w_mem w') (UNMASK_BITMAP_PTR (zone_at w j)) d = chunk_st (w_mem w) (UNMASK_BITMAP_PTR (zone_at w j)) d) as Heq.
  { intros Hj Hd. apply (chunk_st_footprint w); [apply Hp|done..|]. intros a Ha. apply frame_owned, owned_reserved; [apply Hp|]. left. by exists j. }
  split; intros (Hj & Hd & Hs); split_and!; try done; try lia; rewrite <-Hs; [symmetry|]; by apply Heq.
Qed.

(** Every zone on the new lists was on the old ones, or has memory that was not mapped. *)
Definition grown (lu' lf' : list Z) : Prop := ∀ a b, a ∈ lu' ++ lf' → w_bigs w' !! a = Some b →
  (a ∈ lu ++ lf ∧ ∃ b0, w_bigs w !! a = Some b0 ∧ same_big b0 b) ∨ (∀ x, in_region w' a b x → vm_prot (w_vm w) x = None).

Lemma frame_process lu' lf' : bigs_inv w' lu' lf' [] → grown lu' lf' → process w' lu' lf'.
Proof.
  intros Hb' Hg. destruct frame_root as (R1 & R2 & R3 & R4 & _). destruct (bf_tables _ _ _ _ Hfr) as (T1 & T2 & T3 & T4).
  assert (Hreg : ∀ a b x, a ∈ lu' ++ lf' → w_bigs w' !! a = Some b → in_region w' a b x →
    (∃ b0, a ∈ lu ++ lf ∧ w_bigs w !! a = Some b0 ∧ in_region w a b0 x) ∨ vm_prot (w_vm w) x = None).
  { intros a b x Ha Hb Hx. destruct (Hg a b Ha Hb) as [(Ha0 & b0 & Hb0 & Hs)|Hn]; [left|right; by apply Hn]. exists b0. split_and!; [done..|].
    unfold in_region, in_pages, meta_page in *. by rewrite (sb_pages _ _ Hs), (sb_size _ _ Hs), (bf_page _ _ _ _ Hfr) in Hx. }
  constructor.
  - apply (heap_inv_frame w); try done; [apply Hp|apply Hb'|apply Hb'|apply Hfr|apply Hfr|apply frame_owned].
  - rewrite R1. apply Hp.
  - done.
  - intros a b x Ha Hb Hx Ho%frame_owned_same. destruct (Hreg a b x Ha Hb Hx) as [(b0 & Ha0 & Hb0 & Hx0)|Hn].
    + by apply (ps_apart _ _ _ Hp a b0 x).
    + by apply (reserved_vm w x (ps_heap _ _ _ Hp)).
  - intros Hz. cbv zeta. rewrite R4. destruct (ps_zero _ _ _ Hp Hz) as (Z1 & Z2 & Z3). split_and!.
    + rewrite (bf_vm _ _ _ _ Hfr); [done|done|]. intros (a & b & Ha & Hb & Hx). apply (Z3 a b); [by apply Hlr|done|done].
    + by intros Ho%frame_owned_same.
    + intros a b Ha Hb Hx. destruct (Hreg a b _ Ha Hb Hx) as [(b0 & Ha0 & Hb0 & Hx0)|Hn]; [|done]. by apply (Z3 a b0).
Qed.

Lemma frame_small lu' i c : in_use_at w i c → carried w w' lu' (Small i c).
Proof.
  intros Hin. apply small_carried; [by apply frame_in_use|rewrite frame_zone_at; apply same_shape_refl|].
  intros x Hx. apply frame_owned. apply (chunk_owned w i c); [apply Hp|done|done].
Qed.

Lemma frame_calm i c : calm w (i, c) → calm w' (i, c).
Proof.
  intros Hc. apply (calm_keep w); try done; rewrite ?frame_zone_at; [by apply frame_in_use, Hc|apply same_shape_refl|done|].
  by destruct frame_root as (_ & _ & _ & _ & Hshf & _).
Qed.

Lemma frame_big lu' a : a ∈ lu → a ∈ lu' → a ∉ lr → carried w w' lu' (Big a).
Proof.
  intros Ha Ha' Hr. destruct (used_entry w lu lf a Hp Ha) as (Hb & He & Hrw).
  destruct (bf_bigs _ _ _ _ Hfr a (big_at w a)) as (b' & Hb' & Hs); [set_solver|done|].
  assert (Heq : big_at w' a = b') by (unfold big_at; by rewrite Hb'). constructor; simpl; try done; rewrite ?Heq; try apply Hs.
  intros x Hx. unfold in_block in Hx. simpl in Hx. apply (bf_mem _ _ _ _ Hfr); [by rewrite Hrw|]. intros (a1 & b1 & Ha1 & Hb1 & Hx1).
  assert (Hne : a1 ≠ a) by (intros ->; done). assert (Hin : a1 ∈ lu ++ lf) by by apply Hlr.
  destruct (bi_apart _ _ _ _ (ps_bigs _ _ _ Hp) a1 a b1 (big_at w a)) as [Hap Hmt]; rewrite ?app_nil_r; [done|set_solver|done|done|].
  destruct (Hap Hne) as [Hpg _]. unfold in_region, in_pages, apart in *. lia.
Qed.
End frame.

(** ** Allocating a block *)

(** The new block [k] is at [p], large enough and was not there before; every other block
    is the same, and there are no others. *)
Record block_alloc (w w' : world) (lu lu' lf' : list Z) (size p : Z) (k : block) : Prop := {
  ba_process : process w' lu' lf';
  ba_block : live w' lu' k ∧ p = addr w' k ∧ size <= len w' k;
  ba_fresh : ¬ live w lu k;
  ba_live : ∀ k', live w' lu' k' ↔ live w lu k' ∨ k' = k;
  ba_kept : ∀ k', live w lu k' → carried w w' lu' k';
  ba_unlocked : unlocked w';
  ba_quar : quarantine w' = quarantine w;
  ba_ages : ∀ k', enduring w k' → harmless w' k';
  ba_mask : big_zone_next_mask (w_root w') = big_zone_next_mask (w_root w);
  ba_zero : zero_alloc_page (w_root w') = zero_alloc_page (w_root w);
}.

Lemma block_alloc_small w w' lu lf size p i c : process w lu lf → unlocked w → small_alloc w w' size p i c →
  block_alloc w w' lu lu lf size p (Small i c).
Proof.
  intros Hp (_ & Hul & Hfl) Hsa. pose proof Hsa as [B1 B2 B3 B4 B5 B6 B7 B8 B9 B10 B11 B12 B13].
  pose proof (others_zones_only w w' (ps_heap _ _ _ Hp) B13 B12) as Hzo. constructor; try done.
  - apply (process_kept w); try done. pose proof (proj1 B2). lia.
  - intros [j d|a]; simpl; [rewrite B6; naive_solver|naive_solver].
  - intros [j d|a] Hk; simpl in Hk; [|by apply (big_carried w w' lu lf)].
    apply small_carried; [apply B6; by left|apply B8, Hk|intros x; by apply (B7 j d)].
  - split_and!; [done|by rewrite (proj2 (ok_locks _ _ B13))|by rewrite (proj1 (ok_locks _ _ B13))].
  - intros [j d|a]; [|done]. intros [Hc Hl]. by apply (calm_alloc w w' size p i c).
  - apply Hzo.
  - apply Hzo.
Qed.

Lemma frame_unlocked w w' R l : big_frame w w' R l → unlocked w → unlocked w'.
Proof. intros Hfr (L1 & L2 & L3). destruct (bf_locks _ _ _ _ Hfr) as (F1 & F2 & F3). unfold unlocked. by rewrite F1, F2, F3. Qed.

Lemma frame_quarantine w w' R l : big_frame w w' R l → quarantine w' = quarantine w.
Proof.
  intros Hfr. destruct (bf_tables _ _ _ _ Hfr) as (_ & T & _). destruct (bf_root _ _ _ _ Hfr) as (s & f & fc & h & hc & R').
  unfold quarantine. rewrite T, R'. by destruct (w_root w).
Qed.

Lemma frame_mask w w' R l : big_frame w w' R l → big_zone_next_mask (w_root w') = big_zone_next_mask (w_root w).
Proof. intros Hfr. destruct (bf_root _ _ _ _ Hfr) as (s & f & fc & h & hc & ->). by destruct (w_root w). Qed.

(** A big zone [a] put in front of the used list. *)
Lemma block_alloc_frame w w' lu lf lf' lr size a : process w lu lf → unlocked w → lr ⊆ lf → big_frame w w' (regions w lr) (lu ++ lf) →
  bigs_inv w' (a :: lu) lf' [] → grown w w' lu lf (a :: lu) lf' → a ∉ lu → size <= big_size (big_at w' a) →
  block_alloc w w' lu (a :: lu) lf' size (big_user_pages_start (big_at w' a)) (Big a).
Proof.
  intros Hp Hun Hlr Hfr Hb Hg Hna Hs. pose proof (frame_process w w' lu lf lr Hp ltac:(set_solver) Hfr (a :: lu) lf' Hb Hg) as Hp'.
  pose proof (bi_nodup _ _ _ _ (ps_bigs _ _ _ Hp)) as Hnd. rewrite app_nil_r in Hnd. apply list.NoDup_app in Hnd as (_ & Hd & _).
  constructor; try done.
  - split_and!; [by left|done|done].
  - intros [j d|a']; simpl; [|set_solver]. rewrite (frame_in_use w w' lu lf lr Hp ltac:(set_solver) Hfr). naive_solver.
  - intros [j d|a'] Hk; simpl in Hk; [by apply (frame_small w w' lu lf lr Hp ltac:(set_solver) Hfr)|].
    apply (frame_big w w' lu lf lr Hp ltac:(set_solver) Hfr); [done|by right|]. intros Hr. by apply (Hd a' Hk), Hlr.
  - by apply (frame_unlocked w w' _ _ Hfr).
  - by apply (frame_quarantine w w' _ _ Hfr).
  - intros [j d|a']; [|done]. intros [Hc _]. by apply (frame_calm w w' lu lf lr Hp ltac:(set_solver) Hfr).
  - by apply (frame_mask w w' _ _ Hfr).
  - destruct (bf_root _ _ _ _ Hfr) as (s & f & fc & h & hc & ->). by destruct (w_root w).
Qed.

(** Every entry of the lists is still described by its structure. *)
Lemma grown_same w w' lu lf lu' lf' R : bigs_inv w lu lf [] → big_frame w w' R (lu ++ lf) → lu' ++ lf' ⊆ lu ++ lf → grown w w' lu lf lu' lf'.
Proof.
  intros Hb Hfr Hsub a b Ha Hba. left. assert (Hin : a ∈ lu ++ lf) by by apply Hsub. split; [done|].
  destruct (bi_entry _ _ _ _ Hb a) as (b0 & Hb0 & _); [by rewrite app_nil_r|]. exists b0. split; [done|].
  destruct (bf_bigs _ _ _ _ Hfr a b0 Hin Hb0) as (b2 & Hb2 & Hs2). by assert (b2 = b) as -> by congruence.
Qed.

Lemma block_alloc_big w w' lu lf size p : process w lu lf → unlocked w → 0 < size <= 4294967296 → big_allocated w w' size lu lf p →
  ∃ a lf', block_alloc w w' lu (a :: lu) lf' size p (Big a).
Proof.
  intros Hp Hun Hs (Hp0 & Hcase). pose proof Hun as (_ & _ & Hfl). pose proof (ps_bigs _ _ _ Hp) as Hb.
  pose proof (page_len_spec w size (bi_page _ _ _ _ Hb) ltac:(lia)) as [Hlen _].
  pose proof (bi_nodup _ _ _ _ Hb) as Hnd. rewrite app_nil_r in Hnd. apply list.NoDup_app in Hnd as (_ & Hd & _).
  assert (Hw0 : set_w_big_free_lock false w = w) by (destruct w; simpl in *; by subst).
  destruct Hcase as [(l1 & a & l2 & b & -> & -> & [R1 R2 R3 R4 R5])|(_ & a & [(b & C1 & <- & C2) C3 C4 C5 C6])]; exists a.
  - rewrite Hw0 in R5. destruct (bf_bigs _ _ _ _ R5 a b) as (b' & Hb' & Hsb); [set_solver|done|].
    assert (Hba : big_at w' a = b') by (unfold big_at; by rewrite Hb'). exists (l1 ++ l2). rewrite <-(sb_pages _ _ Hsb), <-Hba.
    apply (block_alloc_frame w w' lu (l1 ++ a :: l2) (l1 ++ l2) [a]); try done; [set_solver| | | |].
    + eapply big_frame_weaken; [exact R5| |done]. intros x Hx. apply (regions_one w a b); [done|by left].
    + apply (grown_same _ _ _ _ _ _ _ Hb R5). set_solver.
    + intros Ha. apply (Hd a Ha). set_solver.
    + rewrite Hba, (sb_size _ _ Hsb). apply andb_true_iff in R2 as [R2%Z.leb_le _]. lia.
  - assert (Hba : big_at w' a = b) by (unfold big_at; by rewrite C1). exists lf. rewrite <-Hba.
    apply (block_alloc_frame w w' lu lf lf []); try done; [set_solver| | | |].
    + eapply big_frame_weaken; [exact C6|done|done].
    + intros a1 b1 Ha1 Hb1. destruct (decide (a1 = a)) as [->|Hne].
      * right. assert (b1 = b) as -> by congruence. intros x Hx. unfold in_region, in_pages, meta_page in Hx.
        rewrite (bf_page _ _ _ _ C6) in Hx. destruct Hx as [Hx|Hx]; [apply C3; lia|apply C4; done].
      * apply (grown_same w w' lu lf lu lf _ Hb C6 ltac:(done)); [set_solver|done].
    + intros Ha. destruct (used_entry w lu lf a Hp Ha) as (_ & He & _).
      pose proof (page_ok_bounds w (bi_page _ _ _ _ Hb)). apply (be_owned _ _ _ He (meta_page w a)); [right; lia|]. apply C4. lia.
    + rewrite Hba. lia.
Qed.

Lemma block_alloc_weaken w w' lu lu' lf' size size' p k : block_alloc w w' lu lu' lf' size p k → size' <= size → block_alloc w w' lu lu' lf' size' p k.
Proof. intros [B1 (B2 & B3 & B4) B5 B6 B7 B8 B9 B10 B11 B12] Hle. constructor; try done. split_and!; done || lia. Qed.

(** A size the caller may state for block [k]: big zones are recognised by it. *)
Definition size_ok (w : world) (k : block) (size : Z) : Prop :=
  size <= len w k ∧ match k with Small _ _ => True | Big _ => SMALL_SIZE_MAX < size end.

(** A request of any size up to 4 GiB. *)
Lemma wp_alloc_block (E : failure → Prop) w lu lf size : process w lu lf → unlocked w → allows E (bitmaps_room w) → mask_ok w → FUZZ_MODE = false →
  0 <= size <= BIG_SZ_MAX → NO_ZERO_ALLOCATIONS && (size =? 0) = false →
  wp E (_iso_alloc None size) (λ p w', ∃ lu' lf' k, block_alloc w w' lu lu' lf' size p k ∧ size_ok w' k size) w.
Proof.
  intros Hp Hun Hroom Hmask Hfz Hs Hz. pose proof Hun as (Hl & Hul & Hfl). change BIG_SZ_MAX with 4294967296 in Hs.
  destruct (decide (size <= 65536)) as [Hsm|Hbig].
  - eapply wp_post; [apply wp_iso_alloc_small; try done; [apply Hp|apply Hp|change SMALL_SIZE_MAX with 65536; lia]|].
    intros p w' (i & c & Hsa). exists lu, lf, (Small i c). split; [by apply block_alloc_small|]. split; [apply Hsa|done].
  - destruct (chunk_size_of_max size) as [Hc1 Hc2]; [lia|].
    eapply wp_mono; [apply (wp_iso_alloc_big w lu lf); try done; [apply Hp|change SMALL_SIZE_MAX with 65536; change BIG_SZ_MAX with 4294967296; lia]|apply Hroom|].
    intros p w' Hba. destruct (block_alloc_big w w' lu lf (chunk_size_of size) p Hp Hun ltac:(lia) Hba) as (a & lf' & Hba').
    exists (a :: lu), lf', (Big a). pose proof (block_alloc_weaken _ _ _ _ _ _ size _ _ Hba' Hc1) as Hba2. split; [done|].
    split; [apply Hba2|change SMALL_SIZE_MAX with 65536; lia].
Qed.

(** ** The frame of a release *)

Lemma relinked_frame w w1 l : relinked w w1 → big_frame w w1 (λ _, False) l.
Proof.
  intros (bigs & h & n & -> & Hs). constructor; try done.
  - exists (seed (w_root w)), (big_zone_free (w_root w)), (big_zone_free_count (w_root w)), h, n. simpl. by destruct (w_root w).
  - intros x b _. apply Hs.
Qed.

Lemma same_big_trans b1 b2 b3 : same_big b1 b2 → same_big b2 b3 → same_big b1 b3.
Proof. intros [] []. constructor; naive_solver congruence. Qed.

Lemma big_frame_then w w1 w2 R l : big_frame w w1 (λ _, False) l → big_frame w1 w2 R l → big_frame w w2 R l.
Proof.
  intros [A1 A2 A3 (T1 & T2 & T3 & T4) (s & f & fc & h & hc & A5) (L1 & L2 & L3) A7 A8]
    [B1 B2 B3 (U1 & U2 & U3 & U4) (s' & f' & fc' & h' & hc' & B5) (M1 & M2 & M3) B7 B8].
  constructor; [| |congruence|split_and!; congruence| |split_and!; congruence|congruence|].
  - intros x Hx Hn. rewrite B1; [by apply A1; [|intros []]|by rewrite A2; [|done|intros []]|done].
  - intros x Hx Hn. rewrite B2; [by apply A2; [|intros []]|by rewrite A2; [|done|intros []]|done].
  - exists s', f', fc', h', hc'. rewrite B5, A5. by destruct (w_root w).
  - intros x b Hx Hb. destruct (A8 x b Hx Hb) as (b1 & Hb1 & Hs1). destruct (B8 x b1 Hx Hb1) as (b2 & Hb2 & Hs2). exists b2.
    split; [done|by eapply same_big_trans].
Qed.

Lemma big_released_frame w w' lu1 a lu2 lf b : w_bigs w !! a = Some b → big_released w w' lu1 a lu2 lf b →
  ∃ lf', bigs_inv w' (lu1 ++ lu2) lf' [] ∧ lf' ⊆ a :: lf ∧ big_frame w w' (regions w [a]) ((lu1 ++ a :: lu2) ++ lf).
Proof.
  intros Hb (w1 & Hb1 & Hba & Hrel & Hfr). pose proof (relinked_frame w w1 ((lu1 ++ a :: lu2) ++ lf) Hrel) as F1.
  assert (Hps : w_page_size w1 = w_page_size w) by apply F1. unfold big_freed in Hfr.
  assert (Hreg : ∀ x, in_region w1 a (set_big_next 0 b) x → regions w [a] x).
  { intros x Hx. apply (regions_one w a b); [done|]. unfold in_region, meta_page in *. by rewrite Hps in Hx. }
  destruct ((_ <? _) && _).
  - destruct Hfr as [Hinv F2]. exists (a :: lf). split; [done|]. split; [done|]. eapply big_frame_then; [exact F1|].
    eapply big_frame_weaken; [exact F2| |set_solver]. intros x Hx. apply Hreg. by left.
  - destruct Hfr as (Hinv & _ & F2). exists lf. split; [done|]. split; [set_solver|]. eapply big_frame_then; [exact F1|].
    eapply big_frame_weaken; [exact F2| |set_solver]. intros x Hx. by apply Hreg.
Qed.

(** ** Stores of the program *)

(** A memory that differs from the process's inside block [k] only. *)
Definition block_store (w : world) (k : block) (m' : gmap Z Z) : Prop := ∀ x, ¬ in_block w k x → ld8 m' x = ld8 (w_mem w) x.

Lemma bigs_inv_mem m w lu lf ld : bigs_inv w lu lf ld → bigs_inv (set_w_mem m w) lu lf ld.
Proof.
  intros [B1 B2 B3 B4 B5 B6 B7 B8]. constructor; try done. intros a Ha. destruct (B7 a Ha) as (b & Hb & [] & Hf & Hm).
  exists b. split; [done|]. split; [by constructor|]. done.
Qed.

(** Stores inside a block disturb neither the allocator's data nor the other blocks. *)
Lemma block_store_heap w lu lf k m' : process w lu lf → live w lu k → block_store w k m' →
  heap_inv (set_w_mem m' w) ∧ ∀ j d, in_use_at (set_w_mem m' w) j d ↔ in_use_at w j d.
Proof.
  intros Hp Hk Hst. pose proof (ps_heap _ _ _ Hp) as Hw. destruct k as [i c|a]; simpl in Hk.
  { split; [by apply (user_store_inv w i c)|by apply (user_store_in_use w i c)]. }
  destruct (used_entry w lu lf a Hp Hk) as (Hb & _).
  assert (Hout : ∀ x, zone_reserved w x → ld8 m' x = ld8 (w_mem w) x).
  { intros x Ho. apply Hst. intros Hx. apply (ps_apart _ _ _ Hp a (big_at w a) x); [set_solver|done|by left|done]. }
  split; [apply (heap_inv_frame w); try done; [apply Hw|apply Hw|intros x Ho; split; [done|by apply Hout]]|].
  intros j d. unfold in_use_at. change (zone_at (set_w_mem m' w) j) with (zone_at w j). change (w_root (set_w_mem m' w)) with (w_root w).
  change (w_mem (set_w_mem m' w)) with m'. split; intros (Hj & Hd & Hs); split_and!; try done; try lia; rewrite <-Hs;
    [symmetry|]; apply (chunk_st_footprint w m' j d Hw Hj Hd); intros x Hx; apply Hout, owned_reserved; [done| |done|]; left; by exists j.
Qed.

Lemma block_store_process w lu lf k m' : process w lu lf → live w lu k → block_store w k m' →
  process (set_w_mem m' w) lu lf ∧ (∀ k', live (set_w_mem m' w) lu k' ↔ live w lu k') ∧
  ∀ k', live w lu k' → k' ≠ k → carried w (set_w_mem m' w) lu k'.
Proof.
  intros Hp Hk Hst. destruct (block_store_heap w lu lf k m' Hp Hk Hst) as [Hw' Hin].
  assert (Hlive : ∀ k', live (set_w_mem m' w) lu k' ↔ live w lu k') by (intros [j d|a]; [apply Hin|done]).
  split_and!; [|done|].
  - destruct Hp as [P1 P2 P3 P4 P5]. constructor; try done. by apply bigs_inv_mem.
  - intros k' Hk' Hne. constructor; [by apply Hlive|by destruct k'..|]. intros x Hx. apply Hst. intros Hx'.
    by apply Hne, (live_disjoint w lu lf k' k x).
Qed.

Lemma harmless_store w lu lf k m' k' : process w lu lf → live w lu k → block_store w k m' → harmless w k' → harmless (set_w_mem m' w) k'.
Proof.
  intros Hp Hk Hst. destruct (block_store_heap w lu lf k m' Hp Hk Hst) as [_ Hin]. destruct k' as [i c|a]; [|done].
  intros [C1 C2 C3 C4]. constructor; try done. by apply Hin.
Qed.

(** The program may write to the block it was given. *)
Lemma block_alloc_store w w' lu lu' lf' size p k m' : block_alloc w w' lu lu' lf' size p k → block_store w' k m' →
  block_alloc w (set_w_mem m' w') lu lu' lf' size p k.
Proof.
  intros [B1 (B2 & Hp & B3) B4 B5 B6 B7 B8 B9 B10 B11] Hst. destruct (block_store_process w' lu' lf' k m' B1 B2 Hst) as (S1 & S2 & S3).
  constructor; try done.
  - split_and!; [by apply S2|by destruct k|]. replace (len _ k) with (len w' k) by (by destruct k). lia.
  - intros k'. by rewrite S2.
  - intros k' Hk'. eapply carried_trans; [by apply B6|]. apply S3; [by apply B6|]. by intros ->.
  - intros k' Hk'. apply (harmless_store w' lu' lf' k); auto.
Qed.
End blocks.
