(* ===== verification/Quarantine.v ===== *)
(** * The quarantine

    [_iso_free] of src/iso_alloc.c does not release a block: it parks the pointer in an
    array of 64 and releases all of them when the array is full. A parked block is still
    live for the zones and big zones, but no longer the program's. *)

From S2P Require Import Prelude Words Conf Memory State Util ZoneBits FreeList Chunks Lookup Heap Zones BigZones BigSpec Verify MemTags Alloc AllocSpec NewZone HeapOps Retire Blocks.

Section quarantine.
Context `{!Kernel, !KernelLaws, !Config}.

(** ** Releasing a list of blocks *)

(** The blocks [l], and only they, were released. *)
Record flushed (w w' : world) (lu lu' lf' : list Z) (l : list block) : Prop := {
  fl_process : process w' lu' lf';
  fl_live : ∀ k, live w' lu' k ↔ live w lu k ∧ k ∉ l;
  fl_kept : ∀ k, live w lu k → k ∉ l → carried w w' lu' k;
  fl_calm : ∀ i c, calm w (i, c) → Small i c ∉ l → calm w' (i, c);
  fl_locks : w_root_lock w' = w_root_lock w ∧ w_big_used_lock w' = w_big_used_lock w ∧ w_big_free_lock w' = w_big_free_lock w;
  fl_quar : quarantine w' = quarantine w;
  fl_mask : big_zone_next_mask (w_root w') = big_zone_next_mask (w_root w);
}.

Lemma flushed_nil w lu lf : process w lu lf → flushed w w lu lu lf [].
Proof.
  intros Hp. constructor; try done. intros k. split; [intros ?; split; [done|apply not_elem_of_nil]|tauto].
Qed.

Lemma flushed_cons w w1 w2 lu lu1 lf1 lu2 lf2 k l : flushed w w1 lu lu1 lf1 [k] → flushed w1 w2 lu1 lu2 lf2 l → flushed w w2 lu lu2 lf2 (k :: l).
Proof.
  intros [A1 A2 A3 A4 (L1 & L2 & L3) A6 A7] [B1 B2 B3 B4 (M1 & M2 & M3) B6 B7].
  assert (Hsplit : ∀ x : block, ¬ (x ∈ k :: l) ↔ ¬ (x ∈ [k]) ∧ ¬ (x ∈ l)) by (intros x; rewrite not_elem_of_cons, not_elem_of_cons; pose proof (not_elem_of_nil x); tauto).
  constructor; [done| | | |split_and!; congruence|congruence|congruence].
  - intros x. rewrite B2, A2, Hsplit. tauto.
  - intros x Hx [Hk Hl]%Hsplit. eapply carried_trans; [by apply A3|]. apply B3; [by apply A2|done].
  - intros i c Hc [Hk Hl]%Hsplit. auto.
Qed.

(** The release of a chunk that leaves its zone in place. *)
Lemma flushed_after w lu lf i c : process w lu lf → in_use_at w i c → others_kept w (after_free false i c w) →
  flushed w (after_free false i c w) lu lu lf [Small i c].
Proof.
  intros Hp Hic Hok. destruct (after_free_changed w false i c (ps_heap _ _ _ Hp) Hic) as ([C1 C2 C3 C4 C5] & _). set (w1 := after_free false i c w) in *.
  assert (Hzo : zones_only w w1) by (apply others_zones_only; [apply Hp|done|done]).
  assert (Hin : ∀ j d, in_use_at w1 j d ↔ in_use_at w j d ∧ Small j d ∉ [Small i c]).
  { intros j d. rewrite C3, list_elem_of_singleton. naive_solver. }
  constructor; try done.
  - apply (process_zones w w1 lu lf Hp Hzo); [done|]. apply Hp.
  - intros [j d|a]; simpl; [apply Hin|]. rewrite list_elem_of_singleton. naive_solver.
  - intros [j d|a] Hk Hn; [|by apply (big_carried w w1 lu lf)]. apply small_carried; [by apply Hin|apply C2|].
    intros x. apply (C4 j d); [done|]. rewrite list_elem_of_singleton in Hn. naive_solver.
  - intros j d Hc Hn. apply (calm_keep w); try done; [apply Hin; split; [apply Hc|done]|apply after_free_life].
Qed.

Lemma flushed_small w lu lf i c : process w lu lf → FUZZ_MODE = false → calm w (i, c) →
  ∃ w', _iso_free_internal_unlocked (chunk_at w i c) false None w = Ret (Some i) w' ∧ flushed w w' lu lu lf [Small i c].
Proof.
  intros Hp Hfz Hcalm. pose proof (calm_plain w i c Hcalm) as Hpf.
  destruct (free_unlocked_run w false i c (ps_heap _ _ _ Hp) Hfz Hpf) as (Hrun & _ & Hok & _).
  eexists. split; [exact Hrun|]. apply flushed_after; [done|apply Hcalm|done].
Qed.

(** A zone about to be retired has one chunk in use. *)
Lemma last_chunk w i c d : heap_inv w → retiring w i = true → in_use_at w i c → in_use_at w i d → d = c.
Proof.
  intros Hw Hret (Hi & Hc & Hsc) (_ & Hd & Hsd). unfold retiring in Hret. apply andb_true_iff in Hret as [[Haf%Z.eqb_eq _]%andb_true_iff _].
  destruct (hv_zone_at w i Hw Hi) as [_ Hinv]. pose proof (zinv_af _ _ _ _ _ Hinv) as Hl. rewrite Haf in Hl.
  assert (Hin : ∀ x, 0 <= x < slots (zone_at w i) → chunk_st (w_mem w) (UNMASK_BITMAP_PTR (zone_at w i)) x = ChunkInUse →
    List.In x (in_use_chunks (w_mem w) (UNMASK_BITMAP_PTR (zone_at w i)) (zone_at w i))).
  { intros x Hx Hs. apply List.filter_In. split; [apply list_elem_of_In, elem_of_seqZ; lia|]. by apply bool_decide_eq_true. }
  pose proof (Hin c Hc Hsc) as H1'. pose proof (Hin d Hd Hsd) as H2'.
  destruct (in_use_chunks _ _ _) as [|y [|y' l]]; [done| |simpl in Hl; lia]. destruct H1' as [->|[]], H2' as [->|[]]. done.
Qed.

(** The release of the last chunk of a worn zone, which is replaced. *)
Lemma flushed_retired w w' lu lf i c : process w lu lf → in_use_at w i c → retiring w i = true → retired w w' i → flushed w w' lu lu lf [Small i c].
Proof.
  intros Hp Hic Hret Hre. pose proof (ps_heap _ _ _ Hp) as Hw. pose proof Hic as (Hi & _). pose proof (retired_zones_only w w' i Hw Hi Hre) as Hzo.
  destruct Hre as [R1 R2 R3 R4 R5 R6 R7 R8 R9 R10 (E1 & E2 & E3 & E4 & E5 & E6) ([P1 P2] & S1 & S2 & S3)].
  assert (Hin : ∀ j d, in_use_at w' j d ↔ in_use_at w j d ∧ Small j d ∉ [Small i c]).
  { intros j d. rewrite R3, list_elem_of_singleton. split; intros [Hj Hne]; (split; [done|]); [congruence|]. intros ->. apply Hne.
    by rewrite (last_chunk w i c d Hw Hret Hic Hj). }
  assert (Hne : ∀ j d, in_use_at w j d → Small j d ∉ [Small i c] → j ≠ i) by (intros j d Hj Hn; apply (R3 j d); by apply Hin).
  constructor; try done.
  - apply (process_zones w w' lu lf Hp Hzo); [done|]. rewrite R2. apply Hp.
  - intros [j d|a]; simpl; [apply Hin|]. rewrite list_elem_of_singleton. naive_solver.
  - intros [j d|a] Hk Hn; [|by apply (big_carried w w' lu lf)].
    apply small_carried; [by apply Hin|rewrite R5 by (by apply (Hne j d)); apply same_shape_refl|]. intros x. apply (R4 j d); [done|by apply (Hne j d)].
  - intros j d Hc Hn. pose proof (Hne j d (ca_in_use _ _ Hc) Hn) as Hji. apply (calm_keep w); simpl; rewrite ?R5 by done; try done.
    apply Hin. split; [apply Hc|done].
Qed.

(** The start of a big zone in use is in no zone. *)
Lemma big_in_no_zone w lu lf a : process w lu lf → a ∈ lu → in_no_zone w (big_user_pages_start (big_at w a)).
Proof.
  intros Hp Ha j Hj Hx. destruct (used_entry w lu lf a Hp Ha) as (Hb & He & _). pose proof (be_size _ _ _ He) as Hs.
  change SMALL_SIZE_MAX with 65536 in Hs. apply (ps_apart _ _ _ Hp a (big_at w a) (big_user_pages_start (big_at w a))); [set_solver|exact Hb|left; unfold in_pages; lia|].
  apply owned_reserved; [apply Hp|]. left. exists j. split; [done|]. by left.
Qed.

Lemma flushed_big w w' lu1 a lu2 lf : process w (lu1 ++ a :: lu2) lf → big_released w w' lu1 a lu2 lf (big_at w a) →
  ∃ lf', flushed w w' (lu1 ++ a :: lu2) (lu1 ++ lu2) lf' [Big a].
Proof.
  intros Hp Hrel. destruct (used_entry w (lu1 ++ a :: lu2) lf a Hp ltac:(set_solver)) as (Hb & _).
  destruct (big_released_frame w w' lu1 a lu2 lf (big_at w a) Hb Hrel) as (lf' & Hinv & Hsub & Hfr). exists lf'.
  pose proof (bi_nodup _ _ _ _ (ps_bigs _ _ _ Hp)) as Hnd. apply list.NoDup_app in Hnd as (Hnd & _ & _). apply NoDup_app_cons_perm in Hnd.
  assert (Hr : [a] ⊆ (lu1 ++ a :: lu2) ++ lf) by set_solver.
  pose proof (frame_in_use w w' _ lf [a] Hp Hr Hfr) as Hin. constructor.
  - apply (frame_process w w' _ lf [a] Hp Hr Hfr); [done|]. apply (grown_same _ _ _ _ _ _ _ (ps_bigs _ _ _ Hp) Hfr). set_solver.
  - intros [j d|a']; simpl; rewrite list_elem_of_singleton; [rewrite Hin; naive_solver|]. split.
    + intros Ha'. split; [set_solver|]. intros [= ->]. done.
    + intros [Ha' Hne]. assert (a' ≠ a) by congruence. set_solver.
  - intros [j d|a'] Hk Hn; [by apply (frame_small w w' _ lf [a] Hp Hr Hfr)|]. rewrite list_elem_of_singleton in Hn. simpl in Hk.
    assert (a' ≠ a) by congruence. apply (frame_big w w' _ lf [a] Hp Hr Hfr); set_solver.
  - intros i c Hc _. by apply (frame_calm w w' _ lf [a] Hp Hr Hfr).
  - split; [apply Hfr|]. destruct (bf_locks _ _ _ _ Hfr) as (_ & ? & ?). done.
  - apply (frame_quarantine w w' _ _ Hfr).
  - apply (frame_mask w w' _ _ Hfr).
Qed.

(** The builds the release of big zones is proved for: no fuzzing hooks and no guard pages
    around big zones, as shipped. *)
Definition plain_build : Prop := FUZZ_MODE = false ∧ BIG_ZONE_GUARD = false ∧ BIG_ZONE_META_DATA_GUARD = false.

(** A claim for releases with [P], and for those that return in builds without memory tags
    when [E] is [anything]. *)
Definition frees (E : failure → Prop) (P : Prop) : Prop := (∀ f, resource f → E f) ∧ ((∀ f, E f) ∧ MEMORY_TAGGING = false ∨ P).

Lemma frees_resource (P : Prop) : P → frees resource P.
Proof. intros HP. split; [done|by right]. Qed.
Lemma frees_anything (P : Prop) : MEMORY_TAGGING = false → frees anything P.
Proof. intros Ht. split; [done|by left]. Qed.
Lemma frees_mono E (P P' : Prop) : (P → P') → frees E P → frees E P'.
Proof. intros Hi [HE [HA|HP]]; (split; [done|]); [by left|right; auto]. Qed.

Lemma frees_allows E (P P' : Prop) : frees E P → (P → P') → allows E P'.
Proof. intros [HE [[HA _]|HP]] Hi; (split; [done|]); [by left|right; auto]. Qed.

(** Releasing a chunk in use, whatever becomes of its zone. *)
Lemma wp_free_small w lu lf i c : process w lu lf → FUZZ_MODE = false → MEMORY_TAGGING = false → in_use_at w i c →
  wp anything (_iso_free_internal_unlocked (chunk_at w i c) false None) (λ _ w', flushed w w' lu lu lf [Small i c]) w.
Proof.
  intros Hp Hfz Hmt Hic. pose proof (ps_heap _ _ _ Hp) as Hw. assert (Htag : MEMORY_TAGGING && tagged (zone_at w i) = false) by by rewrite Hmt.
  destruct (retiring w i) eqn:Hret.
  - eapply wp_post; [apply (wp_free_retires anything w i c); try done; apply allows_anything|]. intros r w' [_ Hre]. by apply (flushed_retired w w' lu lf i c).
  - eapply wp_post; [by apply wp_free_unlocked|]. intros r w' [-> Hok]. by apply flushed_after.
Qed.

(** Releasing one block of either kind. *)
Lemma wp_free_block (E : failure → Prop) w lu lf k : process w lu lf → plain_build → w_big_used_lock w = false → w_big_free_lock w = false →
  live w lu k → frees E (harmless w k) →
  wp E (_iso_free_internal_unlocked (addr w k) false None) (λ _ w', ∃ lu' lf', flushed w w' lu lu' lf' [k]) w.
Proof.
  intros Hp (Hfz & Hg1 & Hg2) Hul Hfl Hk [HE Hc]. destruct k as [i c|a]; simpl in *.
  - destruct Hc as [[HA Hmt]|Hc].
    + eapply wp_mono; [by apply (wp_free_small w lu lf i c)|done|]. intros r w' Hf. by exists lu, lf.
    + destruct (flushed_small w lu lf i c Hp Hfz Hc) as (w' & Hrun & Hf). eapply wp_eq; [exact Hrun|]. by exists lu, lf.
  - destruct (list_elem_of_split _ _ Hk) as (lu1 & lu2 & ->). destruct (used_entry _ _ _ a Hp Hk) as (Hb & _).
    eapply wp_mono; [apply (wp_free_unlocked_big w lu1 a lu2 lf); try done; [apply Hp|apply Hp|apply Hp|by apply (big_in_no_zone _ _ _ _ Hp)]|done|].
    intros r w' (_ & Hrel). destruct (flushed_big w w' lu1 a lu2 lf Hp Hrel) as (lf' & Hf). by exists (lu1 ++ lu2), lf'.
Qed.

Lemma wp_free_quarantined (E : failure → Prop) l k w lu lf : process w lu lf → plain_build → w_big_used_lock w = false → w_big_free_lock w = false →
  NoDup l → (∀ b, b ∈ l → live w lu b ∧ frees E (harmless w b)) → (∀ t b, l !! t = Some b → w_chunk_quarantine w !! (k + t)%nat = Some (addr w b)) →
  wp E (free_quarantined (length l) k) (λ _ w', ∃ lu' lf', flushed w w' lu lu' lf' l) w.
Proof.
  intros Hp Hg. revert k w lu lf Hp. induction l as [|b l IH]; intros k w lu lf Hp Hul Hfl Hnd Hh Hq; simpl length; cbn [free_quarantined].
  { apply wp_ret. exists lu, lf. by apply flushed_nil. }
  apply list.NoDup_cons in Hnd as [Hni Hnd]. pose proof (Hq 0%nat b eq_refl) as Hk. rewrite Nat.add_0_r in Hk.
  destruct (Hh b ltac:(by left)) as [Hlive Hharm]. do 2 wstep. rewrite nth_lookup, Hk. cbn [from_option id]. wstep.
  eapply wp_post; [by apply (wp_free_block E w lu lf b)|]. intros r w1 (lu1 & lf1 & Hf1). pose proof Hf1 as [F1 F2 F3 F4 (F5 & F6 & F7) F8 _].
  assert (Hout : ∀ b', b' ∈ l → b' ∉ [b]) by (intros b' Hb' ->%list_elem_of_singleton; done).
  eapply wp_post; [apply (IH (S k) w1 lu1 lf1); try done; [by rewrite F6|by rewrite F7| |]|].
  - intros b' Hb'. destruct (Hh b' ltac:(by right)) as [Hl' Hh']. pose proof (Hout b' Hb'). split; [by apply F2|]. eapply frees_mono; [|exact Hh']. intros Hc. destruct b'; [by apply F4|done].
  - intros t b' Ht. pose proof (list_elem_of_lookup_2 _ _ _ Ht) as Hb'. rewrite (cd_addr _ _ _ _ (F3 b' (proj1 (Hh b' ltac:(by right))) (Hout b' Hb'))).
    injection F8 as -> _. rewrite <-(Hq (S t) b' Ht). f_equal. lia.
  - intros u w2 (lu2 & lf2 & Hf2). exists lu2, lf2. by eapply flushed_cons.
Qed.

(** ** The array *)

(** The blocks [l] wait in the quarantine of [w]. *)
Record quarantined (w : world) (lu : list Z) (l : list block) : Prop := {
  qr_len : length (w_chunk_quarantine w) = 64%nat;
  qr_count : chunk_quarantine_count (w_root w) = Z.of_nat (length l);
  qr_max : (length l <= 64)%nat;
  qr_entries : ∀ t k, l !! t = Some k → w_chunk_quarantine w !! t = Some (addr w k);
  qr_nodup : NoDup l;
  qr_live : ∀ k, k ∈ l → live w lu k;
}.

Lemma quarantined_nil w lu : length (w_chunk_quarantine w) = 64%nat → chunk_quarantine_count (w_root w) = 0 → quarantined w lu [].
Proof. intros Hl Hc. constructor; try done; [simpl; lia|constructor|by intros k ?%not_elem_of_nil]. Qed.

(** Live blocks that stay where they are keep waiting. *)
Lemma quarantined_keep w w' lu lu' l : quarantined w lu l → quarantine w' = quarantine w → (∀ k, live w lu k → carried w w' lu' k) →
  quarantined w' lu' l.
Proof.
  intros [Q1 Q2 Q3 Q4 Q5 Q6] [= Hq Hc] Hk. constructor; try done; [by rewrite Hq|by rewrite Hc| |].
  - intros t k Ht. rewrite Hq, (Q4 t k Ht). f_equal. symmetry. apply Hk, Q6. by eapply list_elem_of_lookup_2.
  - intros k Hl. by apply Hk, Q6.
Qed.

(** A quarantine array and counter in place of the old ones, and a state of the root lock. *)
Definition requarantine (q : list Z) (n : Z) (b : bool) (w : world) : world :=
  set_w_root_lock b (set_w_root (set_chunk_quarantine_count n (w_root w)) (set_w_chunk_quarantine q w)).

Lemma process_requarantine q n b w lu lf : process w lu lf → process (requarantine q n b w) lu lf.
Proof.
  intros Hp. pose proof (ps_heap _ _ _ Hp) as Hw. apply (process_kept w); try done.
  - apply heap_inv_root_lock, (heap_inv_root _ (set_w_chunk_quarantine q w)); try done. apply (heap_inv_same w); try done. apply Hw.
  - apply Hp.
  - constructor; try done; intros x Ho; left; exact Ho.
Qed.

(** The lock taken, the rest as it was. *)
Lemma requarantine_same b w : set_w_root_lock b w = requarantine (w_chunk_quarantine w) (chunk_quarantine_count (w_root w)) b w.
Proof. unfold requarantine. destruct w as [? ? ? ? [] ? ? ? ? ? ? ? ? ? ? ?]. done. Qed.

Lemma wp_flush (E : failure → Prop) l w lu lf : process w lu lf → plain_build → w_big_used_lock w = false → w_big_free_lock w = false →
  quarantined w lu l → (∀ k, k ∈ l → frees E (harmless w k)) →
  wp E flush_chunk_quarantine (λ _ w', ∃ w1 lu' lf', flushed w w1 lu lu' lf' l ∧ w' = requarantine (replicate 64 0) 0 (w_root_lock w) w1) w.
Proof.
  intros Hp Hg Hul Hfl [Q1 Q2 Q3 Q4 Q5 Q6] Hh. unfold flush_chunk_quarantine. wstep. apply wp_root; [apply Hp|].
  rewrite Q2, Nat2Z.id. wstep. eapply wp_post; [apply (wp_free_quarantined E l 0 w lu lf); try done; intros k Hk; split; [by apply Q6|by apply Hh]|].
  intros u w1 (lu' & lf' & Hf). pose proof (hv_root w1 (ps_heap _ _ _ (fl_process _ _ _ _ _ _ Hf))) as Hr. wsteps.
  exists w1, lu', lf'. split; [done|]. unfold requarantine. rewrite <-(proj1 (fl_locks _ _ _ _ _ _ Hf)). by destruct w1.
Qed.

(** What [_iso_free] leaves: the blocks [gone] were released, the blocks [l'] wait. *)
Record parked (w w' : world) (lu lu' lf' : list Z) (gone l' : list block) : Prop := {
  pk_process : process w' lu' lf';
  pk_live : ∀ k, live w' lu' k ↔ live w lu k ∧ k ∉ gone;
  pk_kept : ∀ k, live w lu k → k ∉ gone → carried w w' lu' k;
  pk_quar : quarantined w' lu' l';
  pk_big_locks : w_big_used_lock w' = w_big_used_lock w ∧ w_big_free_lock w' = w_big_free_lock w;
  pk_mask : big_zone_next_mask (w_root w') = big_zone_next_mask (w_root w);
}.

(** Nothing but the quarantine and the root lock changed. *)
Lemma parked_requarantine w w1 lu lu' lf' q n b gone l' :
  process w1 lu' lf' → (∀ k, live w1 lu' k ↔ live w lu k ∧ k ∉ gone) → (∀ k, live w lu k → k ∉ gone → carried w w1 lu' k) →
  w_big_used_lock w1 = w_big_used_lock w ∧ w_big_free_lock w1 = w_big_free_lock w → big_zone_next_mask (w_root w1) = big_zone_next_mask (w_root w) →
  length q = 64%nat → n = Z.of_nat (length l') → (length l' <= 64)%nat → (∀ t k, l' !! t = Some k → q !! t = Some (addr w1 k)) →
  NoDup l' → (∀ k, k ∈ l' → live w1 lu' k) → parked w (requarantine q n b w1) lu lu' lf' gone l'.
Proof.
  intros Hp Hl Hk Hbl Hmask Hq Hn Hmax He Hnd Hlv. constructor; try done.
  - by apply process_requarantine.
  - intros k Hlive Hng. destruct (Hk k Hlive Hng) as [C1 C2 C3 C4]. by constructor; destruct k.
Qed.

(** Parking the block [k] behind [l]. *)
Lemma parked_one w w1 lu lu' lf' gone l k : parked w w1 lu lu' lf' gone l → (length l < 64)%nat → k ∉ l → live w lu k → k ∉ gone →
  parked w (requarantine (<[length l := addr w k]> (w_chunk_quarantine w1)) (Z.of_nat (length l) + 1) false w1) lu lu' lf' gone (l ++ [k]).
Proof.
  intros [P1 P2 P3 [Q1 Q2 Q3 Q4 Q5 Q6] P5 P6] Hl Hni Hk Hng. apply parked_requarantine; try done.
  - by rewrite length_insert.
  - rewrite length_app. simpl. lia.
  - rewrite length_app. simpl. lia.
  - intros t k' Ht. apply lookup_app_Some in Ht as [Ht|[Hge [Hz <-]%list_lookup_singleton_Some]].
    + pose proof (lookup_lt_Some _ _ _ Ht). rewrite list_lookup_insert_ne by lia. by apply Q4.
    + replace t with (length l) by lia. rewrite list_lookup_insert_eq by lia. f_equal. symmetry. by apply P3.
  - apply list.NoDup_app. split; [done|]. split; [set_solver|apply NoDup_singleton].
  - intros k' [Hk'|Hk']%elem_of_app; [by apply Q6|]. apply list_elem_of_singleton in Hk' as ->. by apply P2.
Qed.

Lemma parked_nil w lu lf l b : process w lu lf → quarantined w lu l → parked w (set_w_root_lock b w) lu lu lf [] l.
Proof.
  intros Hp [Q1 Q2 Q3 Q4 Q5 Q6]. rewrite requarantine_same. apply parked_requarantine; try done.
  intros k. split; [intros ?; split; [done|apply not_elem_of_nil]|tauto].
Qed.

Lemma aligned_32 p : 0 <= p → p mod 32 = 0 → IS_ALIGNED p = 0.
Proof.
  intros Hp Hm. unfold IS_ALIGNED. change (CHUNK_ALIGNMENT - 1) with (Z.ones 3). rewrite Z.land_ones by lia. change (2 ^ 3) with 8.
  rewrite (Z.div_mod p 32), Hm by lia. replace (32 * (p / 32) + 0) with (0 + (4 * (p / 32)) * 8) by lia. by rewrite Z.mod_add.
Qed.

(** The lists after block [k] is freed while [l] wait. *)
Definition full (l : list block) : bool := bool_decide (length l = 64%nat).
Definition evicted (l : list block) : list block := if full l then l else [].
Definition parked_list (l : list block) (k : block) : list block := if full l then [k] else l ++ [k].

Lemma wp_maybe_flush (E : failure → Prop) w lu lf l : process w lu lf → plain_build → w_big_used_lock w = false → w_big_free_lock w = false →
  quarantined w lu l → (full l = true → ∀ k, k ∈ l → frees E (harmless w k)) →
  wp (λ e, full l = true ∧ E e) (when (CHUNK_QUARANTINE_SZ <=? chunk_quarantine_count (w_root w)) flush_chunk_quarantine)
    (λ _ w', ∃ lu' lf', parked w w' lu lu' lf' (evicted l) (if full l then [] else l)) w.
Proof.
  intros Hp Hg Hul Hfl Hq Hh. change CHUNK_QUARANTINE_SZ with 64. pose proof (qr_max _ _ _ Hq). rewrite (qr_count _ _ _ Hq).
  unfold evicted. destruct (full l) eqn:Hf; unfold full in Hf; [apply bool_decide_eq_true in Hf|apply bool_decide_eq_false in Hf].
  - rewrite (proj2 (Z.leb_le 64 _)) by lia. cbn [when]. pose proof (wp_flush E l w lu lf Hp Hg Hul Hfl Hq (Hh eq_refl)) as Hwp.
    unfold wp in *. destruct (flush_chunk_quarantine w); try done. destruct Hwp as (w1 & lu' & lf' & [F1 F2 F3 F4 (_ & F5 & F6) F7 F8] & ->).
    exists lu', lf'. apply parked_requarantine; try done; [simpl; lia|constructor|by intros k ?%not_elem_of_nil].
  - rewrite (proj2 (Z.leb_gt 64 _)) by lia. cbn [when]. apply wp_ret. exists lu, lf.
    pose proof (parked_nil w lu lf l (w_root_lock w) Hp Hq) as Hpk. by replace (set_w_root_lock (w_root_lock w) w) with w in Hpk by by destruct w.
Qed.

(** Freeing a block of the program's: it waits behind the others, or, when 64 blocks are
    waiting, those are released and it is the first to wait. *)
Lemma wp_iso_free (E : failure → Prop) w lu lf l k : process w lu lf → plain_build → unlocked w → quarantined w lu l → live w lu k → k ∉ l →
  (full l = true → ∀ b, b ∈ l → frees E (harmless w b)) →
  wp (λ e, full l = true ∧ E e) (_iso_free (addr w k) false)
    (λ _ w', unlocked w' ∧ ∃ lu' lf', parked w w' lu lu' lf' (evicted l) (parked_list l k)) w.
Proof.
  intros Hp Hg (Hl & Hul & Hfl) Hq Hk Hn Hh. destruct (live_facts w lu lf k Hp Hk) as (P1 & _ & P3 & _ & _ & P6).
  pose proof (hv_root w (ps_heap _ _ _ Hp)) as Hr. unfold _iso_free. rewrite (proj2 (Z.eqb_neq (addr w k) 0)) by lia. rewrite aligned_32 by (done || lia).
  cbn [negb Z.eqb]. wstep. apply wp_root; [done|]. rewrite P6. wstep. apply wp_lock_root; [done|]. set (w0 := set_w_root_lock true w).
  wstep. apply wp_root; [done|]. pose proof (parked_nil w lu lf l true Hp Hq) as [N1 N2 N3 N4 N5 N6]. fold w0 in N1, N2, N3, N4, N5, N6. wstep.
  eapply wp_post; [apply (wp_maybe_flush E w0 lu lf l); try done|].
  { intros Hf b Hb. eapply frees_mono; [|by apply (Hh Hf b)]. destruct b; [|done]. intros [D1 D2 D3 D4]. by constructor. }
  intros u w1 (lu' & lf' & Hpk). set (l0 := if full l then [] else l) in *.
  assert (Hpk0 : parked w w1 lu lu' lf' (evicted l) l0).
  { destruct Hpk as [D1 D2 D3 D4 D5 D6]. constructor; try done. intros b Hb Hnb. destruct (D3 b ltac:(by destruct b) Hnb). by constructor; destruct b. }
  pose proof (pk_process _ _ _ _ _ _ _ Hpk0) as Hp1. pose proof (hv_root w1 (ps_heap _ _ _ Hp1)) as Hr1. pose proof (pk_quar _ _ _ _ _ _ _ Hpk0) as Hq1.
  destruct (pk_big_locks _ _ _ _ _ _ _ Hpk0) as [L1 L2].
  wsteps. split; [unfold unlocked; simpl; by rewrite L1, L2|]. exists lu', lf'.
  assert (Hlen : (length l0 < 64)%nat).
  { pose proof (qr_max _ _ _ Hq). unfold l0, full. case_bool_decide; simpl; lia. }
  assert (parked_list l k = l0 ++ [k]) as -> by (unfold parked_list, l0; by destruct (full l)).
  pose proof (parked_one w w1 lu lu' lf' (evicted l) l0 k Hpk0 Hlen) as Hone.
  rewrite <-(qr_count _ _ _ Hq1) in Hone. replace (Z.to_nat _) with (length l0) by (by rewrite (qr_count _ _ _ Hq1), Nat2Z.id).
  apply Hone; try done; unfold l0, evicted; destruct (full l); try done; apply not_elem_of_nil.
Qed.
End quarantine.
