(* ===== verification/Realloc.v ===== *)
(** * Zeroed and resized allocations

    [_iso_calloc], [_iso_chunk_size], [_iso_free_size] and [iso_realloc]: allocation
    composed with filling, copying and releasing, of src/iso_alloc.c and
    src/iso_alloc_interfaces.c, for blocks of every size. *)

From S2P Require Import Prelude Words Conf Memory State Util ZoneBits FreeList Chunks Lookup Heap Zones BigZones BigSpec Verify MemTags Alloc MemOps Profiler Interfaces AllocSpec NewZone HeapOps Blocks Quarantine.

Section realloc.
Context `{!Kernel, !KernelLaws, !Config}.

(** ** Zeroed blocks *)

Lemma chunk_size_of_le size : 0 <= size <= 4294967296 → size <= chunk_size_of size ∧ 0 < chunk_size_of size.
Proof.
  intros Hs. destruct (decide (size <= 65536)) as [Hsm|Hbig].
  - destruct (chunk_size_of_raw size ltac:(lia)) as (? & _ & ? & _). lia.
  - pose proof (chunk_size_of_max size ltac:(lia)). lia.
Qed.

Lemma wp_calloc_block (E : failure → Prop) w lu lf nmemb size : process w lu lf → unlocked w → allows E (bitmaps_room w) → mask_ok w → FUZZ_MODE = false →
  0 < nmemb → 0 <= size <= BIG_SZ_MAX → nmemb * chunk_size_of size <= BIG_SZ_MAX →
  wp E (iso_calloc nmemb size) (λ p w', ∃ lu' lf' k, (∀ a, p <= a < p + nmemb * size → ld8 (w_mem w') a = 0) ∧
    block_alloc w w' lu lu' lf' (nmemb * size) p k) w.
Proof.
  intros Hp Hun Hroom Hmask Hfz Hn Hs Hmx. change BIG_SZ_MAX with 4294967296 in *. destruct (chunk_size_of_le size Hs) as [Hle Hpos].
  unfold iso_calloc, _iso_calloc. change BIG_SZ_MAX with 4294967296. set (cs := chunk_size_of size) in *. clearbody cs.
  assert (0 < nmemb * cs) by lia. assert (nmemb * size <= nmemb * cs) by nia. assert (0 <= nmemb * size) by lia.
  set (t := nmemb * cs) in *. rewrite (proj2 (Z.leb_gt (2 ^ 64) t)) by lia. rewrite (proj2 (Z.ltb_ge 4294967296 t)) by lia. cbn [orb].
  rewrite (proj2 (Z.eqb_neq t 0)), andb_false_r by lia. wstep.
  eapply wp_post; [apply (wp_alloc_block E w lu lf t); try done; [change BIG_SZ_MAX with 4294967296; lia|by rewrite (proj2 (Z.eqb_neq t 0)), andb_false_r by lia]|].
  cbv beta. intros p w' (lu' & lf' & k & Hba & _). destruct (ba_block _ _ _ _ _ _ _ _ Hba) as (Hk & -> & Hsz).
  destruct (live_facts w' lu' lf' k (ba_process _ _ _ _ _ _ _ _ Hba) Hk) as (_ & _ & _ & _ & Hmap & _).
  wstep. apply wp_memset; [intros a Ha; apply Hmap; lia|]. wstep. exists lu', lf', k. split.
  - intros a Ha. simpl. rewrite ld8_fill, decide_True by lia. done.
  - apply block_alloc_store; [by eapply block_alloc_weaken|]. intros x Hx. unfold in_block in Hx. rewrite ld8_fill, decide_False by lia. done.
Qed.

(** Rounding an element size up: it wraps within 31 bytes of 2^64 and nowhere else. *)
Lemma chunk_size_of_cases size : 0 <= size < 2 ^ 64 →
  chunk_size_of size = 0 ∧ 2 ^ 64 - 31 <= size ∨ 0 < chunk_size_of size ∧ size <= chunk_size_of size ∧ size < 2 ^ 64 - 31.
Proof.
  intros Hs. unfold chunk_size_of. change SMALLEST_CHUNK_SZ with 32. change SZ_ALIGNMENT with 32.
  destruct (Z.ltb_spec size 32); [right; lia|]. destruct (Z.eqb_spec (size mod 32) 0) as [Hm|Hm]; cbn [negb].
  { right. split; [lia|]. split; [lia|]. pose proof (Z.div_mod size 32 ltac:(lia)). lia. }
  rewrite ALIGN_SZ_UP_eq. destruct (Z.lt_ge_cases size (2 ^ 64 - 31)) as [Hlt|Hge]; [right|left].
  - rewrite u64_small by (unfold is_u64; lia). pose proof (Z.mod_pos_bound (size + 31) 32 ltac:(lia)). lia.
  - assert (u64 (size + 31) = size + 31 - 2 ^ 64) as ->; [|rewrite Z.mod_small; lia].
    rewrite u64_pow. replace (size + 31) with ((size + 31 - 2 ^ 64) + 1 * 2 ^ 64) at 1 by lia. rewrite Z.mod_add by lia. apply Z.mod_small. lia.
Qed.

Lemma chunk_size_of_near size : 0 <= size < 2 ^ 64 - 31 → chunk_size_of size <= size + 32.
Proof.
  intros Hs. unfold chunk_size_of. change SMALLEST_CHUNK_SZ with 32. change SZ_ALIGNMENT with 32. destruct (Z.ltb_spec size 32); [lia|].
  destruct (negb _); [|lia]. rewrite ALIGN_SZ_UP_eq, u64_small by (unfold is_u64; lia). pose proof (Z.mod_pos_bound (size + 31) 32 ltac:(lia)). lia.
Qed.

(** A product of zero is answered like a request of no bytes. *)
Lemma calloc_nothing (E : failure → Prop) w lu lf nmemb size : process w lu lf → unlocked w → allows E (bitmaps_room w) → mask_ok w → FUZZ_MODE = false →
  nmemb * chunk_size_of size = 0 →
  if NO_ZERO_ALLOCATIONS then iso_calloc nmemb size w = Ret (zero_alloc_page (w_root w)) w
  else wp E (iso_calloc nmemb size) (λ p w', ∃ lu' lf' k, block_alloc w w' lu lu' lf' 0 p k) w.
Proof.
  intros Hp Hun Hroom Hmask Hfz Hz. unfold iso_calloc, _iso_calloc. rewrite Hz.
  change (BIG_SZ_MAX <? 0) with false. change (2 ^ 64 <=? 0) with false. cbn [orb]. destruct NO_ZERO_ALLOCATIONS eqn:Hnz.
  - unfold mbind, M_bind, _iso_alloc. pose proof (hv_root _ (ps_heap _ _ _ Hp)) as Hr. rewrite Hnz. cbn [andb Z.eqb]. unfold get, mbind, M_bind. by rewrite Hr.
  - wstep. eapply wp_post; [apply (wp_alloc_block E w lu lf 0); try done; by rewrite Hnz|].
    cbv beta. intros p w' (lu' & lf' & k & Hba & _). rewrite ?Hnz. cbn [andb]. wstep. apply wp_memset; [intros a Ha; lia|]. wstep.
    exists lu', lf', k. simpl. by destruct w'.
Qed.

(** C12. [iso_calloc] multiplies the number of elements with the element size rounded up to a
    multiple of 32 and at least 32. It refuses every product above 4 GiB, also those that
    overflow 64 bits, and with them requests whose plain product is smaller; for any other it
    answers a block that was not live, holds all the elements, and is zero throughout,
    whatever was freed into it before; the other blocks keep their contents and the
    invariants hold again. Element sizes within 31 bytes of 2^64 wrap to zero: they are not
    refused but answered like a request of no bytes. *)
Theorem iso_calloc_correct w lu lf nmemb size : process w lu lf → unlocked w → bitmaps_room w → mask_ok w → FUZZ_MODE = false →
  0 < nmemb → 0 <= size < 2 ^ 64 →
  let total := nmemb * chunk_size_of size in
  (size < 2 ^ 64 - 31 → BIG_SZ_MAX < total → iso_calloc nmemb size w = Ret 0 w) ∧
  (size < 2 ^ 64 - 31 → total <= BIG_SZ_MAX →
   wp resource (iso_calloc nmemb size) (λ p w', ∃ lu' lf' k, (∀ a, p <= a < p + nmemb * size → ld8 (w_mem w') a = 0) ∧
     block_alloc w w' lu lu' lf' (nmemb * size) p k) w) ∧
  (2 ^ 64 - 31 <= size → if NO_ZERO_ALLOCATIONS then iso_calloc nmemb size w = Ret (zero_alloc_page (w_root w)) w
     else wp resource (iso_calloc nmemb size) (λ p w', ∃ lu' lf' k, block_alloc w w' lu lu' lf' 0 p k) w).
Proof.
  intros Hp Hun Hroom Hmask Hfz Hn Hs total. unfold total. clear total. pose proof (chunk_size_of_cases size Hs) as Hc. split_and!.
  - intros _ Hbig. unfold iso_calloc, _iso_calloc. by rewrite (proj2 (Z.ltb_lt BIG_SZ_MAX _)), orb_true_r.
  - intros Hlt Hle. destruct Hc as [[_ ?]|(C1 & C2 & _)]; [lia|]. apply (wp_calloc_block resource w lu lf); try done; [by apply allows_resource|]. split; [lia|]. nia.
  - intros Hw. destruct Hc as [[Hz _]|(_ & _ & ?)]; [|lia]. apply (calloc_nothing resource w lu lf); try done; [by apply allows_resource|by rewrite Hz, Z.mul_0_r].
Qed.

(** ** The size of a block *)

Lemma chunk_size_block w lu lf k : process w lu lf → unlocked w → live w lu k → _iso_chunk_size (addr w k) w = Ret (len w k) w.
Proof.
  intros Hp (Hl & Hul & _) Hk. pose proof (ps_heap _ _ _ Hp) as Hw. destruct (live_facts w lu lf k Hp Hk) as (P1 & _ & _ & _ & _ & P6).
  destruct k as [i c|a]; simpl in *.
  - pose proof Hk as (Hi & Hc & _). pose proof (chunk_in_pages w i c Hw Hk). apply (chunk_size_run w i); try done; lia.
  - destruct (list_elem_of_split _ _ Hk) as (lu1 & lu2 & ->). destruct (used_entry _ _ _ a Hp Hk) as (Hb & _).
    apply (chunk_size_big_run w lu1 a lu2 lf); try done; [apply Hp|apply Hp|by apply (big_in_no_zone w _ lf a Hp)].
Qed.

(** ** Releasing with a size *)

Lemma flushed_relock w w2 lu lu' lf' l : w_root_lock w = false → flushed (set_w_root_lock true w) w2 lu lu' lf' l →
  flushed w (set_w_root_lock false w2) lu lu' lf' l.
Proof.
  intros Hl [F1 F2 F3 F4 (_ & F5 & F6) F7 F8]. constructor; try done.
  - rewrite requarantine_same. by apply process_requarantine.
  - intros k Hk Hn. destruct (F3 k ltac:(by destruct k) Hn). by constructor; destruct k.
  - intros i c [C1 C2 C3 C4] Hn. destruct (F4 i c) as [D1 D2 D3 D4]; [by constructor|done|]. by constructor.
Qed.

(** A zone the caller already knows spares the search. *)
Lemma free_zone_given w permanent i c : heap_inv w → FUZZ_MODE = false → in_use_at w i c →
  _iso_free_internal_unlocked (chunk_at w i c) permanent (Some i) w = _iso_free_internal_unlocked (chunk_at w i c) permanent None w.
Proof.
  intros Hw Hfz Hin. unfold _iso_free_internal_unlocked. rewrite Hfz. cbn [when].
  erewrite run_bind by done. symmetry. erewrite run_bind by done. symmetry.
  erewrite run_bind by done. symmetry. erewrite run_bind by (by apply find_chunk_run). done.
Qed.

Lemma process_locked b w lu lf : process w lu lf → process (set_w_root_lock b w) lu lf.
Proof. rewrite requarantine_same. apply process_requarantine. Qed.

Lemma wp_free_size_small (E : failure → Prop) w lu lf i c size : process w lu lf → plain_build → unlocked w → in_use_at w i c →
  frees E (calm w (i, c)) → size <= chunk_size (zone_at w i) →
  wp E (_iso_free_size (chunk_at w i c) size) (λ _ w', ∃ lu' lf', flushed w w' lu lu' lf' [Small i c]) w.
Proof.
  intros Hp Hg (Hl & Hul & Hfl) Hin Hfr Hs. pose proof (ps_heap _ _ _ Hp) as Hw.
  destruct (chunk_at_facts w i c Hw Hin) as (P1 & _ & _ & _ & P5). destruct (live_facts w lu lf (Small i c) Hp Hin) as (_ & _ & _ & _ & _ & Hz). simpl in Hz.
  set (w1 := set_w_root_lock true w). pose proof (process_locked true w lu lf Hp : process w1 lu lf) as Hp1.
  unfold _iso_free_size. rewrite (proj2 (Z.eqb_neq _ 0)) by lia. wstep. apply wp_root; [apply Hw|]. rewrite Hz. cbn [andb].
  change SMALL_SIZE_MAX with 65536. rewrite (proj2 (Z.ltb_ge 65536 size)) by lia. wstep. apply wp_lock_root; [done|]. fold w1. wstep.
  eapply wp_eq; [by apply (find_chunk_run w1); [apply Hp1|]|]. cbv iota. wstep. wstep.
  change (zone_at w1 i) with (zone_at w i). rewrite (proj2 (Z.ltb_ge _ size)) by lia. wstep.
  unfold wp at 1. change (chunk_at w i c) with (chunk_at w1 i c). rewrite free_zone_given; [|apply Hp1|apply Hg|exact Hin].
  apply (wp_post E (_iso_free_internal_unlocked (addr w1 (Small i c)) false None) (λ _ w', ∃ lu' lf', flushed w1 w' lu lu' lf' [Small i c])).
  - apply (wp_free_block E w1 lu lf (Small i c)); try done. eapply frees_mono; [|exact Hfr]. intros [C1 C2 C3 C4]. by constructor.
  - intros r w2 (lu' & lf' & Hf). unfold UNLOCK_ROOT. wsteps. exists lu', lf'. by apply flushed_relock.
Qed.

Lemma wp_free_size_big w lu1 a lu2 lf size : process w (lu1 ++ a :: lu2) lf → plain_build → unlocked w →
  SMALL_SIZE_MAX < size <= big_size (big_at w a) →
  wp resource (_iso_free_size (big_user_pages_start (big_at w a)) size) (λ _ w', ∃ lf', flushed w w' (lu1 ++ a :: lu2) (lu1 ++ lu2) lf' [Big a]) w.
Proof.
  intros Hp (Hfz & Hg1 & Hg2) (Hl & Hul & Hfl) [Hs1 Hs2]. assert (Ha : a ∈ lu1 ++ a :: lu2) by set_solver.
  destruct (live_facts w _ lf (Big a) Hp Ha) as (P1 & _ & _ & _ & _ & Hz). destruct (used_entry _ _ _ a Hp Ha) as (Hb & He & _). simpl in *.
  unfold _iso_free_size. rewrite (proj2 (Z.eqb_neq _ 0)) by lia. wstep. apply wp_root; [apply Hp|]. rewrite Hz. cbn [andb].
  rewrite (proj2 (Z.ltb_lt _ size)) by done. wstep.
  destruct (find_remove_run w lu1 a lu2 lf (big_at w a) (ps_bigs _ _ _ Hp) Hb Hul) as (w1 & Hrun & Ha0 & Hw1 & Hbx & Hrel). eapply wp_eq; [exact Hrun|].
  rewrite (proj2 (Z.eqb_neq a 0)) by done. destruct (bi_entry _ _ _ _ Hw1 a ltac:(set_solver)) as (b1 & Hb1 & He1 & _).
  assert (b1 = set_big_next 0 (big_at w a)) as -> by congruence. wstep. eapply wp_bget; [exact Hbx|apply He1|].
  change (big_size (set_big_next 0 (big_at w a))) with (big_size (big_at w a)). rewrite (proj2 (Z.ltb_ge _ size)) by done.
  assert (Hfl1 : w_big_free_lock w1 = false) by (destruct Hrel as (? & ? & ? & -> & _); done).
  eapply wp_post; [by apply (wp_iso_free_big w1 (lu1 ++ lu2) lf a (set_big_next 0 (big_at w a)))|]. intros [] w2 Hfr.
  apply (flushed_big w w2 lu1 a lu2 lf Hp). by exists w1.
Qed.

Lemma wp_free_size_block (E : failure → Prop) w lu lf k size : process w lu lf → plain_build → unlocked w → live w lu k → frees E (harmless w k) → size_ok w k size →
  wp E (_iso_free_size (addr w k) size) (λ _ w', ∃ lu' lf', flushed w w' lu lu' lf' [k]) w.
Proof.
  intros Hp Hg Hun Hk Hh [Hs Hs']. destruct k as [i c|a]; simpl in *.
  - by apply (wp_free_size_small E w lu lf).
  - destruct (list_elem_of_split _ _ Hk) as (lu1 & lu2 & ->).
    eapply wp_mono; [by apply (wp_free_size_big w lu1 a lu2 lf size)|apply Hh|]. intros u w' (lf' & Hf). by exists (lu1 ++ lu2), lf'.
Qed.

(** The size belongs to the other kind of block. *)
Definition wrong_kind (k : block) (size : Z) : Prop := match k with Small _ _ => SMALL_SIZE_MAX < size | Big _ => size <= SMALL_SIZE_MAX end.

(** A chunk is in no big zone. *)
Lemma chunk_not_big w lu lf i c remove : process w lu lf → w_big_used_lock w = false → in_use_at w i c →
  iso_find_big_zone (chunk_at w i c) remove w = Ret 0 w.
Proof.
  intros Hp Hul Hin. pose proof (ps_heap _ _ _ Hp) as Hw. destruct (chunk_at_facts w i c Hw Hin) as (_ & _ & _ & _ & P5).
  assert (Hno : ∀ x, x ∈ lu → ¬ in_big w (chunk_at w i c) x).
  { intros x Hx (b & Hb & Hr). apply (ps_apart _ _ _ Hp x b (chunk_at w i c)); [set_solver|done|by left|].
    apply (chunk_owned w i c); [done|done|unfold in_chunk; lia]. }
  destruct (find_big_zone_raw (chunk_at w i c) remove w lu lf (ps_bigs _ _ _ Hp) Hul) as
    [(l & l' & x & b & w1 & Hlu & Hb & Heq & _)|[(x & b & Hx & Hb & Hr & _)|[_ Hrun]]]; [| |exact Hrun]; exfalso.
  - apply (Hno x); [rewrite Hlu; set_solver|]. rewrite <-Heq. apply (in_big_start w lu lf []); [apply Hp|rewrite Hlu; set_solver|done].
  - apply (Hno x Hx). exists b. split; [done|lia].
Qed.

Lemma free_size_unowned w lu lf k size : process w lu lf → unlocked w → live w lu k → ABORT_ON_UNOWNED_PTR = true → wrong_kind k size →
  _iso_free_size (addr w k) size w = Abort UnownedPointer.
Proof.
  intros Hp (Hl & Hul & Hfl) Hk Hab Hwr. destruct (live_facts w lu lf k Hp Hk) as (P1 & P2 & _ & P4 & _ & Hz). pose proof (ps_heap _ _ _ Hp) as Hw.
  unfold _iso_free_size. rewrite (proj2 (Z.eqb_neq _ 0)) by lia. erewrite run_bind by (unfold root; by rewrite (hv_root w Hw)). rewrite Hz, Hab. cbn [andb].
  destruct k as [i c|a]; simpl in *.
  - assert (Hrun : iso_find_big_zone (chunk_at w i c) true w = Ret 0 w) by (by apply (chunk_not_big w lu lf i c)).
    rewrite (proj2 (Z.ltb_lt _ size)) by done. by erewrite run_bind by exact Hrun.
  - rewrite (proj2 (Z.ltb_ge _ size)) by done. erewrite run_bind by (unfold LOCK_ROOT; by rewrite Hl).
    erewrite run_bind by (apply find_zone_range_none; [by apply heap_inv_root_lock|apply Hp|exact (big_in_no_zone w lu lf a Hp Hk)]). done.
Qed.

Lemma free_size_mismatch w lu lf k size : process w lu lf → unlocked w → live w lu k → len w k < size → ¬ wrong_kind k size →
  _iso_free_size (addr w k) size w = Abort (match k with Small _ _ => SizeMismatch | Big _ => BigSizeMismatch end).
Proof.
  intros Hp (Hl & Hul & Hfl) Hk Hs Hwr. destruct (live_facts w lu lf k Hp Hk) as (P1 & P2 & _ & P4 & _ & Hz). pose proof (ps_heap _ _ _ Hp) as Hw.
  unfold _iso_free_size. rewrite (proj2 (Z.eqb_neq _ 0)) by lia. erewrite run_bind by (unfold root; by rewrite (hv_root w Hw)). rewrite Hz. cbn [andb].
  destruct k as [i c|a]; simpl in *; apply Z.nlt_ge in Hwr || apply Z.nle_gt in Hwr.
  - rewrite (proj2 (Z.ltb_ge _ size)) by done. erewrite run_bind by (unfold LOCK_ROOT; by rewrite Hl).
    erewrite run_bind by (by apply (find_chunk_run (set_w_root_lock true w)); [apply heap_inv_root_lock|]).
    cbv iota. erewrite run_bind by done. change (zone_at (set_w_root_lock true w) i) with (zone_at w i).
    by rewrite (proj2 (Z.ltb_lt (chunk_size (zone_at w i)) size)) by lia.
  - rewrite (proj2 (Z.ltb_lt _ size)) by done. destruct (list_elem_of_split _ _ Hk) as (lu1 & lu2 & ->). destruct (used_entry _ _ _ a Hp Hk) as (Hb & _).
    destruct (find_remove_run w lu1 a lu2 lf (big_at w a) (ps_bigs _ _ _ Hp) Hb Hul) as (w1 & Hrun & Ha0 & Hw1 & Hbx & Hrel).
    erewrite run_bind by exact Hrun. rewrite (proj2 (Z.eqb_neq a 0)) by done. destruct (bi_entry _ _ _ _ Hw1 a ltac:(set_solver)) as (b1 & Hb1 & He1 & _).
    erewrite run_bind by (apply (bget_ok w1 a _ Hbx), He1). change (big_size (set_big_next 0 (big_at w a))) with (big_size (big_at w a)).
    by rewrite (proj2 (Z.ltb_lt _ size)) by lia.
Qed.

(** C19. [iso_free_size] releases a block at once, without the quarantine, when the size
    the caller states fits it; a size larger than the block stops the process, and so does
    a size of the other kind, a big zone freed as a chunk or the reverse. *)
Theorem iso_free_size_correct w lu lf k size : process w lu lf → plain_build → unlocked w → live w lu k →
  (harmless w k → size_ok w k size → wp resource (iso_free_size (addr w k) size) (λ _ w', ∃ lu' lf', flushed w w' lu lu' lf' [k]) w) ∧
  (len w k < size → ¬ wrong_kind k size →
     iso_free_size (addr w k) size w = Abort (match k with Small _ _ => SizeMismatch | Big _ => BigSizeMismatch end)) ∧
  (ABORT_ON_UNOWNED_PTR = true → wrong_kind k size → iso_free_size (addr w k) size w = Abort UnownedPointer).
Proof.
  intros Hp Hg Hun Hk. split_and!.
  - intros Hh Hs. apply (wp_free_size_block resource w lu lf); try done. by apply frees_resource.
  - by apply (free_size_mismatch w lu lf).
  - by apply (free_size_unowned w lu lf).
Qed.

(** ** Copying a block *)

(** The bounds check of [memcpy] never accuses a copy that stays inside a block, whatever
    zone the lookup table names. (The limit computed for the zone must not wrap: a copy of
    more than 64 KiB between big zones may exceed it where zones are mapped below 4 GiB.) *)
Lemma mem_check_run w lu lf k n e : process w lu lf → live w lu k → 0 <= n <= len w k → n <= 65536 → mem_check (addr w k) n e w = Ret tt w.
Proof.
  intros Hp Hk Hn Hmx. pose proof (ps_heap _ _ _ Hp) as Hw. unfold mem_check, search_chunk_lookup_table.
  pose proof (hv_table w Hw (ADDR_TO_CHUNK_TABLE (addr w k))) as Ht. cbv zeta in Ht. set (j := default 0 _) in *. pose proof (ps_zones _ _ _ Hp).
  assert (Hj : 0 <= j < zones_used (w_root w)) by lia.
  unfold mbind, M_bind, root, get, zget. rewrite (hv_root w Hw). rewrite (proj2 (Z.ltb_ge _ j)) by lia. unfold mret, M_ret. cbv beta iota zeta.
  fold j. destruct (MEM_SANITY_CHK _ _ _ n) eqn:Hchk; [|done]. exfalso. unfold MEM_SANITY_CHK in Hchk.
  apply andb_prop in Hchk as [[C2%Z.leb_le C3%Z.ltb_lt]%andb_prop C4%Z.ltb_lt].
  destruct (hv_zone_at w j Hw Hj) as [_ Hik]. pose proof (zm_user _ _ _ _ (zinv_mapped _ _ _ _ _ Hik)) as [U1 U2].
  rewrite u64_small in C3 by (unfold is_u64, ZONE_USER_SIZE in *; lia). destruct k as [i c|a]; cbn [addr len live] in *.
  - pose proof Hk as (Hi & Hc & _). destruct (decide (j = i)) as [->|Hne]; [lia|]. destruct (chunk_at_range w i c Hw Hi Hc) as [R1 R2].
    destruct (chunk_at_facts w i c Hw Hk) as (_ & _ & _ & _ & P5).
    apply (hv_disj w Hw j i Hj Hi Hne (chunk_at w i c)); unfold footprint; left; lia.
  - apply (big_in_no_zone w lu lf a Hp Hk j Hj). lia.
Qed.

Lemma blocks_separate w lu lf k k' n : process w lu lf → live w lu k → live w lu k' → k ≠ k' → 0 < n → n <= len w k → n <= len w k' →
  addr w k' + n <= addr w k ∨ addr w k + n <= addr w k'.
Proof.
  intros Hp Hk Hk' Hne Hn Hl Hl'. destruct (decide (addr w k' <= addr w k)) as [Hle|Hle]; [left|right]; apply Z.nlt_ge; intros Hlt; apply Hne.
  - apply (live_disjoint w lu lf k k' (addr w k)); try done; unfold in_block; lia.
  - apply (live_disjoint w lu lf k k' (addr w k')); try done; unfold in_block; lia.
Qed.

(** A check that returns changed nothing. *)
Lemma wp_mem_check (E : failure → Prop) p n e w : (∀ f, E f) → wp E (mem_check p n e) (λ _ w', w' = w) w.
Proof.
  intros HE. unfold wp, mem_check, search_chunk_lookup_table, mbind, M_bind, root, get, zget, mret, M_ret, abort.
  destruct (w_root_null w); [apply HE|]. cbv beta iota zeta. destruct (_ <? _); [apply HE|]. by destruct (MEM_SANITY_CHK _ _ _ _).
Qed.

(** The checks of a copy of [n] bytes between two blocks do not accuse it, or the run ends. *)
Lemma wp_copy_checks (E : failure → Prop) w lu lf k k' n : process w lu lf → live w lu k → live w lu k' →
  0 <= n → n <= len w k → n <= len w k' → frees E (MEMCPY_SANITY = false ∨ n <= 65536) →
  wp E (when (MEMCPY_SANITY && (SMALLEST_CHUNK_SZ <? n)) (mem_check (addr w k') n OutOfBoundsWrite;; mem_check (addr w k) n OutOfBoundsRead))
    (λ _ w', w' = w) w.
Proof.
  intros Hp Hk Hk' Hn Hl Hl' [_ [[HE _]|Hsan]]; destruct (MEMCPY_SANITY && _) eqn:Hc; cbn [when]; try by apply wp_ret.
  - wstep. eapply wp_post; [by apply wp_mem_check|]. intros u w' ->. by apply wp_mem_check.
  - destruct Hsan as [Hsan|Hmx]; [by rewrite Hsan in Hc|]. wstep. eapply wp_eq; [by apply (mem_check_run w lu lf)|].
    eapply wp_eq; [by apply (mem_check_run w lu lf)|done].
Qed.

(** Copying between two blocks. *)
Lemma wp_memcpy_blocks (E : failure → Prop) w lu lf k k' n : process w lu lf → live w lu k → live w lu k' → k ≠ k' →
  0 <= n → n <= len w k → n <= len w k' → frees E (MEMCPY_SANITY = false ∨ n <= 65536) →
  wp E (_iso_alloc_memcpy (addr w k') (addr w k) n) (λ r w', ∃ m, r = addr w k' ∧ w' = set_w_mem m w ∧ block_store w k' m ∧
    ∀ x, 0 <= x < n → ld8 m (addr w k' + x) = ld8 (w_mem w) (addr w k + x)) w.
Proof.
  intros Hp Hk Hk' Hne Hn Hl Hl' Hsan. destruct (live_facts w lu lf k Hp Hk) as (_ & _ & _ & _ & Mk & _). destruct (live_facts w lu lf k' Hp Hk') as (_ & _ & _ & _ & Mk' & _).
  assert (Hld : ∀ x, ld8 (copy (Z.to_nat n) (w_mem w) (addr w k') (addr w k)) x =
    if decide (addr w k' <= x < addr w k' + n) then ld8 (w_mem w) (addr w k + (x - addr w k')) else ld8 (w_mem w) x).
  { intros x. destruct (decide (n = 0)) as [->|Hpos]; [by rewrite decide_False by lia|].
    pose proof (blocks_separate w lu lf k k' n Hp Hk Hk' Hne). rewrite ld8_copy_up, Z2Nat.id by lia. done. }
  unfold _iso_alloc_memcpy. wstep. eapply wp_post; [by apply (wp_copy_checks E w lu lf k k' n)|]. intros u w' ->.
  unfold wp, __iso_memcpy. rewrite !range_access_mapped; [|intros a Ha; apply Mk; lia|intros a Ha; apply Mk'; lia].
  cbn [andb]. eexists. split_and!; [done|done| |].
  - intros x Hx. rewrite Hld, decide_False; [done|]. unfold in_block in Hx. lia.
  - intros x Hx. rewrite Hld, decide_True by lia. f_equal. lia.
Qed.

(** ** [iso_realloc] *)

(** What resizing block [k] to [size] bytes does: the answer [q] is block [k']. *)
Record reallocated (w w' : world) (lu lu' lf' : list Z) (k : block) (size q : Z) (k' : block) : Prop := {
  ra_process : process w' lu' lf';
  ra_block : live w' lu' k' ∧ q = addr w' k' ∧ size <= len w' k';
  ra_fresh : ¬ live w lu k';
  ra_live : ∀ x, live w' lu' x ↔ (live w lu x ∧ x ≠ k) ∨ x = k';
  ra_copied : ∀ x, 0 <= x < Z.min size (len w k) → ld8 (w_mem w') (q + x) = ld8 (w_mem w) (addr w k + x);
  ra_kept : ∀ x, live w lu x → x ≠ k → carried w w' lu' x;
  ra_apart : ∀ x a, live w lu x → in_block w x a → ¬ in_block w' k' a;
  ra_unlocked : unlocked w';
  ra_quar : quarantine w' = quarantine w;
  ra_mask : big_zone_next_mask (w_root w') = big_zone_next_mask (w_root w);
}.

Lemma flushed_unlocked w w' lu lu' lf' l : flushed w w' lu lu' lf' l → unlocked w → unlocked w'.
Proof. intros Hf (L1 & L2 & L3). destruct (fl_locks _ _ _ _ _ _ Hf) as (F1 & F2 & F3). unfold unlocked. by rewrite F1, F2, F3. Qed.

Lemma realloc_effect w w1 w3 lu lu1 lf1 lu3 lf3 k size q k' m : block_alloc w w1 lu lu1 lf1 size q k' → live w lu k → block_store w1 k' m →
  (∀ x, 0 <= x < Z.min size (len w k) → ld8 m (q + x) = ld8 (w_mem w1) (addr w1 k + x)) →
  flushed (set_w_mem m w1) w3 lu1 lu3 lf3 [k] → reallocated w w3 lu lu3 lf3 k size q k'.
Proof.
  intros Hba Hk Hst Hcopy Hf. pose proof (block_alloc_store _ _ _ _ _ _ _ _ m Hba Hst) as Hba2. set (w2 := set_w_mem m w1) in *.
  pose proof Hba2 as [B1 (B2 & B2' & B3) B4 B5 B6 B7 B8 _ B10 _]. pose proof Hf as [F1 F2 F3 _ _ F6 F7]. pose proof (ba_kept _ _ _ _ _ _ _ _ Hba k Hk) as Ck.
  assert (Hne : k' ∉ [k]) by (intros ->%list_elem_of_singleton; done). pose proof (F3 k' B2 Hne) as C'.
  constructor; [done| |done| | | | |by apply (flushed_unlocked _ _ _ _ _ _ Hf)|congruence|congruence].
  - split_and!; [by apply F2|by rewrite (cd_addr _ _ _ _ C')|by rewrite (cd_len _ _ _ _ C')].
  - intros x. rewrite F2, B5, list_elem_of_singleton. rewrite list_elem_of_singleton in Hne. naive_solver.
  - intros x Hx. rewrite (cd_bytes _ _ _ _ C') by (unfold in_block; lia). change (w_mem w2) with m. rewrite Hcopy, (cd_addr _ _ _ _ Ck) by done.
    apply (cd_bytes _ _ _ _ Ck). unfold in_block. lia.
  - intros x Hx Hn. eapply carried_trans; [by apply B6|]. apply F3; [by apply B6|]. by rewrite list_elem_of_singleton.
  - intros x a Hx Ha Ha'. pose proof (B6 x Hx) as Cx. apply B4. replace k' with x; [done|].
    apply (live_disjoint w2 lu1 lf1 x k' a B1); [apply Cx|done| |]; unfold in_block in *.
    + by rewrite (cd_addr _ _ _ _ Cx), (cd_len _ _ _ _ Cx).
    + by rewrite (cd_addr _ _ _ _ C'), (cd_len _ _ _ _ C') in Ha'.
Qed.

(** What keeps a resize to [size] from running into the allocator's limits. *)
Definition resizable (w : world) (k : block) (size : Z) : Prop :=
  bitmaps_room w ∧ enduring w k ∧ (MEMCPY_SANITY = false ∨ Z.min size (len w k) <= 65536).

Lemma wp_iso_realloc (E : failure → Prop) w lu lf k size : process w lu lf → plain_build → unlocked w → mask_ok w → PERM_FREE_REALLOC = false →
  live w lu k → 0 < size <= BIG_SZ_MAX → frees E (resizable w k size) →
  wp E (iso_realloc (addr w k) size) (λ q w', ∃ lu' lf' k', reallocated w w' lu lu' lf' k size q k') w.
Proof.
  intros Hp Hg Hun Hmask Hpf Hk Hs Hfr. unfold iso_realloc. rewrite (proj2 (Z.eqb_neq size 0)) by lia. wstep.
  eapply wp_post; [apply (wp_alloc_block E w lu lf size); try done; [by apply (frees_allows E _ _ Hfr); intros []|apply Hg|lia|by rewrite (proj2 (Z.eqb_neq size 0)), andb_false_r by lia]|].
  cbv beta. intros q w1 (lu1 & lf1 & k' & Hba & _). pose proof Hba as [B1 (B2 & Hq & B3) B4 B5 B6 B7 B8 B9 _ _]. pose proof (B6 k Hk) as Ck.
  pose proof (cd_addr _ _ _ _ Ck) as Ha. pose proof (cd_len _ _ _ _ Ck) as Hlen. pose proof (cd_live _ _ _ _ Ck) as Hk1.
  destruct (live_facts w1 lu1 lf1 k' B1 B2) as (Q1 & _). destruct (live_facts w1 lu1 lf1 k B1 Hk1) as (K1 & _).
  rewrite (proj2 (Z.eqb_neq q 0)), <-Ha by lia. wstep. eapply wp_eq; [by apply (chunk_size_block w1 lu1 lf1)|]. cbv beta zeta.
  rewrite (proj2 (Z.eqb_neq (addr w1 k) 0)), Hpf by lia. cbn [negb].
  replace (if len w1 k <? size then len w1 k else size) with (Z.min size (len w k)) by (destruct (Z.ltb_spec (len w1 k) size); lia).
  assert (Hne : k ≠ k') by (intros ->; done). destruct (live_facts w lu lf k Hp Hk) as (_ & _ & _ & K4 & _).
  wstep. wstep. rewrite Hq. eapply wp_post; [apply (wp_memcpy_blocks E w1 lu1 lf1 k k' (Z.min size (len w k))); try done; [lia|lia|lia|]|].
  { eapply frees_mono; [|exact Hfr]. intros (_ & _ & ?). done. }
  intros r w2 (m & -> & -> & Hst & Hcopy). rewrite <-Hq in Hcopy. wsteps. set (w2 := set_w_mem m w1).
  pose proof (block_alloc_store _ _ _ _ _ _ _ _ m Hba Hst) as Hba2. fold w2 in Hba2. pose proof (ba_kept _ _ _ _ _ _ _ _ Hba2 k Hk) as Ck2.
  replace (addr w1 k) with (addr w2 k) by (by rewrite (cd_addr _ _ _ _ Ck2)). rewrite Hlen, <-(cd_len _ _ _ _ Ck2).
  eapply wp_post; [apply (wp_free_size_block E w2 lu1 lf1 k); try done; [apply Hba2|apply Ck2| |]|].
  - eapply frees_mono; [|exact Hfr]. intros (_ & He & _). by apply Hba2.
  - split; [done|]. destruct k as [i c|a]; [done|]. destruct (used_entry w2 lu1 lf1 a) as (_ & He & _); [apply Hba2|apply Ck2|]. apply He.
  - intros u w3 (lu3 & lf3 & Hf). wsteps. exists lu3, lf3, k'. rewrite <-Hq. by apply (realloc_effect w w1 w3 lu lu1 lf1 lu3 lf3 k size q k' m).
Qed.

(** C11. [iso_realloc] of a block to at most 4 GiB answers a block that was not live, is
    large enough and overlaps no block that was live, with the old contents up to the smaller
    of both sizes; exactly the old block is released, every other block keeps its contents,
    and the invariants hold again. Where the copy is checked ([MEMCPY_SANITY]) this is for
    copies of at most 64 KiB, which the check never accuses: its limit wraps for larger ones.
    The old block's zone must not be worn out ([enduring]), a bitmap slot must be left for a
    new zone ([bitmaps_room]), and the build must not free permanently on a resize. *)
Theorem iso_realloc_correct w lu lf k size : process w lu lf → plain_build → unlocked w → bitmaps_room w → mask_ok w → PERM_FREE_REALLOC = false →
  live w lu k → enduring w k → 0 < size <= BIG_SZ_MAX → MEMCPY_SANITY = false ∨ Z.min size (len w k) <= 65536 →
  wp resource (iso_realloc (addr w k) size) (λ q w', ∃ lu' lf' k', reallocated w w' lu lu' lf' k size q k') w.
Proof. intros. apply (wp_iso_realloc resource w lu lf); try done. by apply frees_resource. Qed.
End realloc.
