(* ===== verification/Hooks.v ===== *)
(** * Hooks: the C++ operators and the remaining entry points

    The operators new and delete of src/iso_alloc.cpp ([CPP_SUPPORT], [MALLOC_HOOK]), the
    entries of src/malloc_hook.c that other C libraries and platforms use, the constructor
    and destructor of the library, the protection of the root and the interface to the
    profiler's traces. The proof at
    the end is about the one pair among them that relies on more than a forwarded call: a
    sized delete of what new answered. *)

From S2P Require Import Prelude Words Conf Memory State Util Heap MemOps Alloc Interfaces Zones Profiler BigSpec AllocSpec NewZone HeapOps Blocks Quarantine Realloc.

Section hooks.
Context `{!Kernel, !Config}.

(** ** src/iso_alloc.cpp

    An alignment is an argument [val] of its own, as in the source. *)

Definition operator_new (size : Z) : M Z := iso_alloc size.
Definition operator_delete (p : Z) : M unit := iso_free p.
Definition operator_new_array (size : Z) : M Z := iso_alloc size.
Definition operator_delete_array (p : Z) : M unit := iso_free p.
Definition operator_new_nothrow (size : Z) : M Z := iso_alloc size.
Definition operator_new_array_nothrow (size : Z) : M Z := iso_alloc size.
Definition operator_delete_size (ptr size : Z) : M unit := iso_free_size ptr size.
Definition operator_delete_array_size (ptr size : Z) : M unit := iso_free_size ptr size.
Definition operator_delete_nothrow (ptr : Z) : M unit := iso_free ptr.
Definition operator_delete_array_nothrow (ptr : Z) : M unit := iso_free ptr.
Definition operator_new_align (size val : Z) : M Z := iso_alloc size.
Definition operator_new_array_align (size val : Z) : M Z := iso_alloc size.
Definition operator_delete_align (p val : Z) : M unit := iso_free p.
Definition operator_delete_array_align (p val : Z) : M unit := iso_free p.
Definition operator_new_align_nothrow (size val : Z) : M Z := iso_alloc size.
Definition operator_new_array_align_nothrow (size val : Z) : M Z := iso_alloc size.
Definition operator_delete_align_nothrow (p val : Z) : M unit := iso_free p.
Definition operator_delete_array_align_nothrow (p val : Z) : M unit := iso_free p.

(** ** src/malloc_hook.c: the C library's own names, Apple's names, the glibc hooks *)

Definition __libc_malloc (s : Z) : M Z := iso_alloc s.
Definition __libc_free (p : Z) : M unit := iso_free p.
Definition __libc_calloc (n s : Z) : M Z := iso_calloc n s.
Definition __libc_realloc (p s : Z) : M Z := iso_realloc p s.
Definition __libc_reallocarray (p n s : Z) : M Z := iso_reallocarray p n s.
Definition __libc_memalign (alignment s : Z) : M Z := iso_alloc s.
Definition malloc_size (ptr : Z) : M Z := iso_chunksz ptr.
Definition malloc_good_size (size : Z) : Z := ALIGN_SZ_UP size.
Definition libc_malloc (s caller : Z) : M Z := iso_alloc s.
Definition libc_realloc (ptr s caller : Z) : M Z := iso_realloc ptr s.
Definition libc_free (ptr caller : Z) : M unit := iso_free ptr.
Definition libc_memalign (alignment s caller : Z) : M Z := iso_alloc s.

(** ** src/libc_hook.c, src/iso_alloc.c, src/iso_alloc_interfaces.c *)

Definition bzero (dest n : Z) : M unit := _iso_alloc_memset dest 0 n;; mret tt.
Definition iso_alloc_ctor : M unit := _iso_alloc_initialize.
Definition iso_alloc_dtor : M unit := _iso_alloc_destroy.
(** [_root] lies in pages of its own, at [root_page]. *)
Definition _iso_alloc_protect_root (root_page : Z) : M unit := LOCK_ROOT;; mprotect_pages root_page SIZEOF_ROOT PROT_NONE.
Definition _iso_alloc_unprotect_root (root_page : Z) : M unit := mprotect_pages root_page SIZEOF_ROOT PROT_RW;; UNLOCK_ROOT.
Definition iso_alloc_protect_root (root_page : Z) : M unit := _iso_alloc_protect_root root_page.
Definition iso_alloc_unprotect_root (root_page : Z) : M unit := _iso_alloc_unprotect_root root_page.
Definition iso_get_alloc_traces (p : prof) : M (trace * Z) := _iso_get_alloc_traces p.
Definition iso_get_free_traces (p : prof) : M (trace * Z) := _iso_get_free_traces p.
Definition iso_alloc_reset_traces (p : prof) : M prof := _iso_alloc_reset_traces p.
End hooks.

Section theorems.
Context `{!Kernel, !KernelLaws, !Config}.

(** C20. What [operator new] answers for a size can be given to the sized [operator delete]
    with the same size, for every size up to 4 GiB, as long as the release does not wear
    its zone out: the sizes of chunks and of big zones never make the check of
    [iso_free_size] fail. Afterwards exactly the blocks of before are live, with their
    addresses, lengths and contents. *)
Theorem new_delete_sized_correct w lu lf size : process w lu lf → plain_build → unlocked w → bitmaps_room w → mask_ok w →
  0 <= size <= BIG_SZ_MAX → NO_ZERO_ALLOCATIONS && (size =? 0) = false →
  wp resource (operator_new size) (λ p w', ∃ lu' lf' k, block_alloc w w' lu lu' lf' size p k ∧
    (harmless w' k → wp resource (operator_delete_size p size) (λ _ w'', ∃ lu'' lf'', process w'' lu'' lf'' ∧
       (∀ k', live w'' lu'' k' ↔ live w lu k') ∧ (∀ k', live w lu k' → carried w w'' lu'' k')) w')) w.
Proof.
  intros Hp Hg Hun Hroom Hmask Hs Hz. eapply wp_post; [apply (wp_alloc_block resource w lu lf); try done; [by apply allows_resource|apply Hg]|].
  intros p w' (lu' & lf' & k & Hba & Hok). exists lu', lf', k. split; [done|]. intros Hh.
  destruct (ba_block _ _ _ _ _ _ _ _ Hba) as (Hk & -> & _).
  eapply wp_post; [apply (wp_free_size_block resource w' lu' lf' k size (ba_process _ _ _ _ _ _ _ _ Hba) Hg (ba_unlocked _ _ _ _ _ _ _ _ Hba) Hk (frees_resource _ Hh) Hok)|].
  intros _ w'' (lu'' & lf'' & Hf). exists lu'', lf''.
  assert (Hne : ∀ k', live w lu k' → k' ∉ [k]).
  { intros k' Hk' ->%list_elem_of_singleton. by apply (ba_fresh _ _ _ _ _ _ _ _ Hba). }
  split_and!; [apply Hf| |].
  - intros k'. rewrite (fl_live _ _ _ _ _ _ Hf), (ba_live _ _ _ _ _ _ _ _ Hba), list_elem_of_singleton.
    split; [naive_solver|]. intros Hk'. split; [by left|]. rewrite <-list_elem_of_singleton. by apply Hne.
  - intros k' Hk'. eapply carried_trans; [by apply (ba_kept _ _ _ _ _ _ _ _ Hba)|].
    apply (fl_kept _ _ _ _ _ _ Hf); [|by apply Hne]. apply (ba_live _ _ _ _ _ _ _ _ Hba). by left.
Qed.
End theorems.
