(* ===== verification/MallocSpec.v ===== *)
(** * What the allocator promises to a program

    The abstract specification of a memory manager: the live blocks with their contents;
    allocating adds a block that overlaps no other and leaves the others' contents alone,
    freeing removes one, reads and writes inside a block see that block only. The lemmas
    show that [iso_alloc], [iso_calloc], [iso_realloc], [iso_chunksz], [iso_free] with its
    quarantine and the program's own loads and stores implement it, step by step, for blocks
    of every size: chunks of zones and big zones. *)

From S2P Require Import Prelude Words Conf Memory State Util ZoneBits FreeList Chunks Lookup Heap Zones BigZones BigSpec Verify MemTags Alloc MemOps Profiler Interfaces AllocSpec NewZone HeapOps Blocks Quarantine Realloc.

(** ** The specification *)

(** The live blocks: address and contents. *)
Abbreviation blocks := (gmap Z (list Z)).

(** What a program does with the heap, and the answers it gets. *)
Inductive event :=
  | EAlloc (size p : Z)
  | ECalloc (nmemb size p : Z)
  | ERealloc (p size q : Z)
  | EFree (p : Z)
  | EUsable (p n : Z)
  | EWrite (p off v : Z)
  | ERead (p off v : Z).

Definition occupies (p : Z) (bs : list Z) (a : Z) : Prop := p <= a < p + Z.of_nat (length bs).

(** A block of [size] bytes at [p] that overlaps no live block. *)
Definition fresh_block (A : blocks) (size p : Z) (bs : list Z) : Prop :=
  0 < p ∧ p mod 32 = 0 ∧ size = Z.of_nat (length bs) ∧ A !! p = None ∧
  ∀ q cs a, A !! q = Some cs → occupies q cs a → ¬ occupies p bs a.

(** The answer [p] to a request of [size] bytes: a new block whose contents are as [P] says,
    or, for no bytes, an address in no block, which several requests may share. *)
Inductive provides (A : blocks) (size p : Z) (P : list Z → Prop) : blocks → Prop :=
  | provide_block bs : fresh_block A size p bs → P bs → provides A size p P (<[p := bs]> A)
  | provide_none : size = 0 → A !! p = None → (∀ q cs, A !! q = Some cs → ¬ occupies q cs p) → provides A size p P A.

(** The requests that may be answered with NULL: above 4 GiB, where [calloc] counts up to 32
    bytes more for each element. *)
Definition too_large (e : event) : Prop :=
  match e with
  | EAlloc size p => p = 0 ∧ BIG_SZ_MAX < size
  | ECalloc nmemb size p => p = 0 ∧ BIG_SZ_MAX < nmemb * (size + 32)
  | ERealloc _ size q => q = 0 ∧ BIG_SZ_MAX < size
  | _ => False
  end.

(** Addresses without a block, NULL among them, stand for an empty one. *)
Definition block_at (A : blocks) (p : Z) : list Z := default [] (A !! p).

Inductive spec_step (A : blocks) : event → blocks → Prop :=
  | spec_alloc size p A' : provides A size p (λ _, True) A' → spec_step A (EAlloc size p) A'
  | spec_calloc nmemb size p A' : provides A (nmemb * size) p (Forall (λ b, b = 0)) A' → spec_step A (ECalloc nmemb size p) A'
  | spec_realloc p size q bs' : 0 < size → fresh_block A size q bs' →
      (let n := Nat.min (length (block_at A p)) (length bs') in take n bs' = take n (block_at A p)) →
      spec_step A (ERealloc p size q) (<[q := bs']> (delete p A))
  | spec_realloc_zero p : spec_step A (ERealloc p 0 0) (delete p A)
  | spec_free p : spec_step A (EFree p) (delete p A)
  | spec_usable p n : Z.of_nat (length (block_at A p)) <= n → spec_step A (EUsable p n) A
  | spec_write p off v bs : A !! p = Some bs → 0 <= off < Z.of_nat (length bs) →
      spec_step A (EWrite p off v) (<[p := <[Z.to_nat off := u8 v]> bs]> A)
  | spec_read p off v bs : A !! p = Some bs → bs !! Z.to_nat off = Some v → 0 <= off →
      spec_step A (ERead p off v) A
  | spec_refused e : too_large e → spec_step A e A.

Inductive spec_run (A : blocks) : list event → blocks → Prop :=
  | spec_nil : spec_run A [] A
  | spec_cons e A1 l A2 : spec_step A e A1 → spec_run A1 l A2 → spec_run A (e :: l) A2.

(** ** The implementation *)

Section impl.
Context `{!Kernel, !KernelLaws, !Config}.

(** The builds: as [plain_build], without memory tags and permanent frees on a resize. *)
Definition run_build : Prop := plain_build ∧ MEMORY_TAGGING = false ∧ PERM_FREE_REALLOC = false.

(** The answers that are no block: NULL and the page for requests of no bytes. *)
Definition no_block (w : world) (p : Z) : bool := (p =? 0) || (NO_ZERO_ALLOCATIONS && (p =? zero_alloc_page (w_root w))).

(** What the program holds once it was answered [p] to a request of [n] bytes. *)
Definition hold (w : world) (p n : Z) (h : gmap Z Z) : gmap Z Z := if no_block w p then h else <[p := n]> h.

(** The pointers a program may pass on. *)
Definition may_pass (w : world) (h : gmap Z Z) (p : Z) : Prop := is_Some (h !! p) ∨ no_block w p = true.

(** One operation of the program on the process that returns; [h] are the blocks it holds,
    with the sizes it asked for. The conditions are the program's alone: it resizes, frees
    and measures what it holds or was answered for no bytes, or NULL, and accesses what it
    asked for; sizes are below those that wrap when they are rounded up. *)
Inductive heap_step (w : world) (h : gmap Z Z) : event → world → gmap Z Z → Prop :=
  | heap_alloc size p w' : 0 <= size < 2 ^ 64 - 31 →
      iso_alloc size w = Ret p w' → heap_step w h (EAlloc size p) w' (hold w' p size h)
  | heap_calloc nmemb size p w' : 0 <= nmemb → 0 <= size < 2 ^ 64 - 31 →
      iso_calloc nmemb size w = Ret p w' → heap_step w h (ECalloc nmemb size p) w' (hold w' p (nmemb * size) h)
  | heap_realloc p size q w' : may_pass w h p → 0 <= size < 2 ^ 64 - 31 → iso_realloc p size w = Ret q w' →
      heap_step w h (ERealloc p size q) w' (if (q =? 0) && negb (size =? 0) then h else hold w' q size (delete p h))
  | heap_free p w' : may_pass w h p → iso_free p w = Ret tt w' → heap_step w h (EFree p) w' (delete p h)
  | heap_usable p m w' : may_pass w h p → iso_chunksz p w = Ret m w' → heap_step w h (EUsable p m) w' h
  | heap_write p n off v w' : h !! p = Some n → 0 <= off < n → wr8 (p + off) v w = Ret tt w' → heap_step w h (EWrite p off v) w' h
  | heap_read p n off v w' : h !! p = Some n → 0 <= off < n → rd8 (p + off) w = Ret v w' → heap_step w h (ERead p off v) w' h.

Inductive heap_run (w : world) (h : gmap Z Z) : list event → world → gmap Z Z → Prop :=
  | heap_nil : heap_run w h [] w h
  | heap_cons e w1 h1 es w2 h2 : heap_step w h e w1 h1 → heap_run w1 h1 es w2 h2 → heap_run w h (e :: es) w2 h2.

(** The contents of [n] bytes at [p]. *)
Definition bytes_at (w : world) (p n : Z) : list Z := (λ k, ld8 (w_mem w) (p + k)) <$> seqZ 0 n.

(** The blocks of the specification that the held blocks [h] stand for. *)
Definition contents (w : world) (h : gmap Z Z) : blocks := map_imap (λ p n, Some (bytes_at w p n)) h.

(** [n] bytes at [p] are in a live block that does not wait to be freed. *)
Definition holds (w : world) (lu : list Z) (l : list block) (p n : Z) (k : block) : Prop :=
  live w lu k ∧ ¬ (k ∈ l) ∧ p = addr w k ∧ 0 <= n <= len w k.

(** The program holds exactly the live blocks that do not wait in the quarantine. *)
Record holding (w : world) (h : gmap Z Z) (lu lf : list Z) (l : list block) : Prop := {
  ho_process : process w lu lf;
  ho_unlocked : unlocked w;
  ho_quar : quarantined w lu l;
  ho_block : ∀ p n, h !! p = Some n → ∃ k, holds w lu l p n k;
  ho_all : ∀ k, live w lu k → k ∉ l → is_Some (h !! addr w k);
}.

Definition running (w : world) (h : gmap Z Z) : Prop := ∃ lu lf l, holding w h lu lf l.

(** ** Contents *)

Lemma length_bytes_at w p n : 0 <= n → Z.of_nat (length (bytes_at w p n)) = n.
Proof. intros Hn. unfold bytes_at. rewrite length_fmap, length_seqZ. lia. Qed.

Lemma bytes_at_lookup w p n k : 0 <= k < n → bytes_at w p n !! Z.to_nat k = Some (ld8 (w_mem w) (p + k)).
Proof.
  intros Hk. unfold bytes_at. rewrite list_lookup_fmap, lookup_seqZ_lt by lia. simpl. do 2 f_equal. lia.
Qed.

Lemma bytes_at_ext w w' p n : (∀ a, p <= a < p + n → ld8 (w_mem w') a = ld8 (w_mem w) a) → bytes_at w' p n = bytes_at w p n.
Proof.
  intros He. unfold bytes_at. apply list_fmap_ext. intros i k Hk%list_elem_of_lookup_2%elem_of_seqZ. apply He. lia.
Qed.

Lemma bytes_at_zero w p n : (∀ a, p <= a < p + n → ld8 (w_mem w) a = 0) → Forall (λ b, b = 0) (bytes_at w p n).
Proof.
  intros He. unfold bytes_at. apply Forall_fmap, list.Forall_forall. intros k Hk%elem_of_seqZ. simpl. apply He. lia.
Qed.

Lemma bytes_at_write w p n off v : 0 <= off < n →
  bytes_at (set_w_mem (<[p + off := u8 v]> (w_mem w)) w) p n = <[Z.to_nat off := u8 v]> (bytes_at w p n).
Proof.
  intros Ho. set (w' := set_w_mem _ w). apply list_eq. intros k. destruct (decide (Z.of_nat k < n)) as [Hk|Hk].
  - rewrite list_lookup_insert, <-(Nat2Z.id k) at 1. rewrite bytes_at_lookup by lia.
    assert (Hl : (k < length (bytes_at w p n))%nat) by (pose proof (length_bytes_at w p n); lia).
    unfold w', ld8; simpl. case_decide as Hd.
    + destruct Hd as [Hd _]. replace (p + Z.of_nat k) with (p + off) by lia. rewrite lookup_insert_eq. simpl. f_equal. apply u8_idem.
    + rewrite lookup_insert_ne; [|intros Heq; apply Hd; lia]. pose proof (bytes_at_lookup w p n (Z.of_nat k) ltac:(lia)) as Hb.
      rewrite Nat2Z.id in Hb. by rewrite Hb.
  - rewrite !lookup_ge_None_2; [done|rewrite length_insert|]; pose proof (length_bytes_at w p n); pose proof (length_bytes_at w' p n); lia.
Qed.

Lemma contents_lookup w h p : contents w h !! p = (λ n, bytes_at w p n) <$> h !! p.
Proof. unfold contents. rewrite map_lookup_imap. by destruct (h !! p). Qed.

Lemma contents_ext w w' h : (∀ p n a, h !! p = Some n → p <= a < p + n → ld8 (w_mem w') a = ld8 (w_mem w) a) → contents w' h = contents w h.
Proof.
  intros He. apply map_eq. intros p. rewrite !contents_lookup. destruct (h !! p) as [n|] eqn:Hp; [|done]. simpl. f_equal.
  apply bytes_at_ext. intros a. by apply He.
Qed.

Lemma contents_insert w h p n : contents w (<[p := n]> h) = <[p := bytes_at w p n]> (contents w h).
Proof. unfold contents. by apply map_imap_insert_Some. Qed.

Lemma contents_delete w h p : contents w (delete p h) = delete p (contents w h).
Proof. apply map_imap_delete. Qed.

(** ** Held blocks *)

Lemma holds_in w lu l p n k a : holds w lu l p n k → p <= a < p + n → in_block w k a.
Proof. intros (_ & _ & -> & Hn) Ha. unfold in_block. lia. Qed.

Lemma holds_carried w w' lu lu' l l' p n k : holds w lu l p n k → carried w w' lu' k → k ∉ l' → holds w' lu' l' p n k.
Proof. intros (Hk & _ & -> & Hn) [C1 C2 C3 _] Hl'. split_and!; [done|done|done|lia|rewrite C3; lia]. Qed.

Lemma holds_bytes w w' lu lu' l p n k a : holds w lu l p n k → carried w w' lu' k → p <= a < p + n → ld8 (w_mem w') a = ld8 (w_mem w) a.
Proof. intros Hk Hc Ha. apply (cd_bytes _ _ _ _ Hc). by apply (holds_in w lu l p n). Qed.

Section held.
Context (w : world) (h : gmap Z Z) (lu lf : list Z) (l : list block) (Hh : holding w h lu lf l).

Lemma held_unique p n k k' : holds w lu l p n k → live w lu k' → addr w k' = p → k' = k.
Proof. intros (Hk & _ & -> & _) Hk' Heq. by apply (live_inj w lu lf); [apply Hh|..]. Qed.

(** ** Each step *)

Lemma holding_alloc w' lu' lf' size p k : 0 <= size → block_alloc w w' lu lu' lf' size p k →
  fresh_block (contents w h) size p (bytes_at w' p size) ∧ contents w' (<[p := size]> h) = <[p := bytes_at w' p size]> (contents w h) ∧
  holding w' (<[p := size]> h) lu' lf' l.
Proof.
  intros Hs [B1 (B2 & -> & B3) B4 B5 B6 B7 B8 B9 _ _]. destruct (live_facts w' lu' lf' k B1 B2) as (P1 & _ & P3 & _).
  assert (Hkl : k ∉ l) by (intros Hkl; apply B4; by apply (qr_live _ _ _ (ho_quar _ _ _ _ _ Hh))).
  assert (Hnone : h !! addr w' k = None).
  { destruct (h !! addr w' k) as [n|] eqn:Hl; [|done]. destruct (ho_block _ _ _ _ _ Hh _ _ Hl) as (k0 & Hk0 & _ & Heq & _).
    pose proof (B6 k0 Hk0) as Hc. assert (k = k0) as ->; [|done].
    apply (live_inj w' lu' lf' _ _ B1 B2 (cd_live _ _ _ _ Hc)). by rewrite (cd_addr _ _ _ _ Hc). }
  split; [unfold fresh_block; split_and!; try done|split].
  - symmetry. by apply length_bytes_at.
  - by rewrite contents_lookup, Hnone.
  - intros q cs a. rewrite contents_lookup. destruct (h !! q) as [n|] eqn:Hq; [|done]. intros [= <-]. unfold occupies.
    destruct (ho_block _ _ _ _ _ Hh _ _ Hq) as (k0 & Hk0). rewrite !length_bytes_at by (done || apply Hk0). intros Ha Ha'. apply B4.
    pose proof (B6 k0 (proj1 Hk0)) as Hc. assert (k = k0) as ->; [|apply Hk0]. apply (live_disjoint w' lu' lf' k k0 a B1 B2 (cd_live _ _ _ _ Hc)).
    + unfold in_block. lia.
    + pose proof (holds_in w lu l q n k0 a Hk0 Ha). unfold in_block in *. by rewrite (cd_addr _ _ _ _ Hc), (cd_len _ _ _ _ Hc).
  - rewrite contents_insert. f_equal. apply contents_ext. intros q n a Hq Ha. destruct (ho_block _ _ _ _ _ Hh _ _ Hq) as (k0 & Hk0).
    apply (holds_bytes w w' lu lu' l q n k0); [done|apply B6, Hk0|done].
  - constructor; try done.
    + by apply (quarantined_keep w w' lu); [apply Hh|..].
    + intros q n [[<- <-]|[Hne Hq]]%lookup_insert_Some; [by exists k|]. destruct (ho_block _ _ _ _ _ Hh _ _ Hq) as (k0 & Hk0).
      exists k0. apply (holds_carried w w' lu lu' l l); [done|apply B6, Hk0|apply Hk0].
    + intros k0 [Hk0| ->]%B5 Hn; [|rewrite lookup_insert_eq; by eexists]. rewrite (cd_addr _ _ _ _ (B6 k0 Hk0)).
      rewrite lookup_insert_is_Some. destruct (decide (addr w' k = addr w k0)); [by left|right]. split; [done|]. by apply (ho_all _ _ _ _ _ Hh).
Qed.

Lemma holding_free w' lu' lf' gone l' p n k : holds w lu l p n k → unlocked w' → parked w w' lu lu' lf' gone l' → gone ++ l' ≡ₚ l ++ [k] →
  contents w' (delete p h) = delete p (contents w h) ∧ holding w' (delete p h) lu' lf' l'.
Proof.
  intros Hk Hun [P1 P2 P3 P4 P5 _] Hperm.
  assert (Hmem : ∀ x, (x ∉ gone ∧ x ∉ l') ↔ (x ∉ l ∧ x ≠ k)).
  { intros x. rewrite <-not_elem_of_app. rewrite Hperm, not_elem_of_app, list_elem_of_singleton. done. }
  assert (Hother : ∀ q m, delete p h !! q = Some m → ∃ k0, holds w lu l q m k0 ∧ k0 ∉ gone ∧ k0 ∉ l' ∧ carried w w' lu' k0).
  { intros q m [Hne Hq]%lookup_delete_Some. destruct (ho_block _ _ _ _ _ Hh _ _ Hq) as (k0 & Hk0). exists k0.
    assert (k0 ≠ k) as Hkk by (intros ->; apply Hne; by rewrite (proj1 (proj2 (proj2 Hk0))), (proj1 (proj2 (proj2 Hk)))).
    destruct (proj2 (Hmem k0) (conj (proj1 (proj2 Hk0)) Hkk)) as [Hg Hl']. split_and!; try done. apply P3; [apply Hk0|done]. }
  split.
  - rewrite contents_delete, <-!contents_delete. apply contents_ext. intros q m a Hq Ha. destruct (Hother q m Hq) as (k0 & Hk0 & _ & _ & Hc).
    by apply (holds_bytes w w' lu lu' l q m k0).
  - constructor; try done.
    + intros q m Hq. destruct (Hother q m Hq) as (k0 & Hk0 & _ & Hl' & Hc). exists k0. by apply (holds_carried w w' lu lu' l l').
    + intros k0 [Hk0 Hg]%P2 Hl'. destruct (proj1 (Hmem k0) (conj Hg Hl')) as [Hl Hne]. rewrite (cd_addr _ _ _ _ (P3 k0 Hk0 Hg)).
      rewrite lookup_delete_ne; [by apply (ho_all _ _ _ _ _ Hh)|]. intros Heq. by apply Hne, (held_unique p n k k0).
Qed.

Lemma holding_write p n k off v : h !! p = Some n → holds w lu l p n k → 0 <= off < n →
  let w' := set_w_mem (<[p + off := u8 v]> (w_mem w)) w in
  contents w' h = <[p := <[Z.to_nat off := u8 v]> (bytes_at w p n)]> (contents w h) ∧ holding w' h lu lf l.
Proof.
  intros Hp Hk Ho w'. assert (Hst : block_store w k (w_mem w')).
  { intros x Hx. unfold w', ld8. simpl. rewrite lookup_insert_ne; [done|]. intros <-. apply Hx, (holds_in w lu l p n); [done|lia]. }
  destruct (block_store_process w lu lf k _ (ho_process _ _ _ _ _ Hh) (proj1 Hk) Hst) as (S1 & S2 & S3).
  change (set_w_mem (w_mem w') w) with w' in S1, S2, S3. split.
  - rewrite <-(insert_id h p n Hp) at 1. rewrite contents_insert. apply map_eq. intros q.
    rewrite !lookup_insert. case_decide as Hd; [subst q; f_equal; by apply bytes_at_write|]. rewrite !contents_lookup.
    destruct (h !! q) as [m|] eqn:Hq; [|done]. simpl. f_equal. apply bytes_at_ext. intros a Ha.
    destruct (ho_block _ _ _ _ _ Hh _ _ Hq) as (k0 & Hk0). apply (holds_bytes w w' lu lu l q m k0); [done| |done].
    apply S3; [apply Hk0|]. intros ->. apply Hd. by rewrite (proj1 (proj2 (proj2 Hk0))), (proj1 (proj2 (proj2 Hk))).
  - destruct Hh as [A1 A2 A3 A4 A5]. constructor; try done.
    + destruct A3 as [Q1 Q2 Q3 Q4 Q5 Q6]. constructor; try done. intros k0 Hk0. by apply S2, Q6.
    + intros q m Hq. destruct (A4 q m Hq) as (k0 & B1 & B2 & B3 & B4). exists k0. split_and!; [by apply S2|done|by destruct k0|lia|destruct k0; apply B4].
    + intros k0 Hk0%S2 Hl. destruct k0; by apply (A5 _ Hk0).
Qed.
End held.

Lemma bytes_at_take w w' p q n m t : 0 <= n → 0 <= m → t = Nat.min (Z.to_nat n) (Z.to_nat m) →
  (∀ x, 0 <= x < Z.of_nat t → ld8 (w_mem w') (q + x) = ld8 (w_mem w) (p + x)) → take t (bytes_at w' q m) = take t (bytes_at w p n).
Proof.
  intros Hn Hm -> He. apply list_eq. intros x. rewrite !lookup_take. case_decide as Hx; [|done].
  rewrite <-(Nat2Z.id x), !bytes_at_lookup by lia. f_equal. apply He. lia.
Qed.

Lemma holding_realloc w h lu lf l w' lu' lf' p n k size q k' : holding w h lu lf l → holds w lu l p n k → 0 < size →
  reallocated w w' lu lu' lf' k size q k' → h !! p = Some n →
  spec_step (contents w h) (ERealloc p size q) (contents w' (<[q := size]> (delete p h))) ∧ holding w' (<[q := size]> (delete p h)) lu' lf' l.
Proof.
  intros Hh Hk Hs [R1 (R2 & -> & R3) R4 R5 R6 R7 R8 R9 R10 _] Hp. pose proof Hk as (Hlive & Hkl & Hpk & Hn).
  destruct (live_facts w' lu' lf' k' R1 R2) as (P1 & _ & P3 & P4 & _).
  assert (Hother : ∀ r m, delete p h !! r = Some m → ∃ k0, holds w lu l r m k0 ∧ carried w w' lu' k0).
  { intros r m [Hne Hr]%lookup_delete_Some. destruct (ho_block _ _ _ _ _ Hh _ _ Hr) as (k0 & Hk0). exists k0. split; [done|].
    apply R7; [apply Hk0|]. intros ->. apply Hne. by rewrite (proj1 (proj2 (proj2 Hk0))), Hpk. }
  assert (Hnone : h !! addr w' k' = None).
  { destruct (h !! addr w' k') as [m|] eqn:Hl; [|done]. destruct (ho_block _ _ _ _ _ Hh _ _ Hl) as (k0 & Hk0 & _ & Heq & _).
    destruct (live_facts w lu lf k0 (ho_process _ _ _ _ _ Hh) Hk0) as (_ & _ & _ & L4 & _).
    exfalso. apply (R8 k0 (addr w' k')); [done|unfold in_block; lia|unfold in_block; lia]. }
  split.
  - rewrite contents_insert.
    assert (Hdel : contents w' (delete p h) = delete p (contents w h)).
    { rewrite <-contents_delete. apply contents_ext. intros r m a Hr Ha. destruct (Hother r m Hr) as (k0 & Hk0 & Hc). by apply (holds_bytes w w' lu lu' l r m k0). }
    assert (Hba : block_at (contents w h) p = bytes_at w p n) by (unfold block_at; by rewrite contents_lookup, Hp).
    rewrite Hdel. apply spec_realloc; rewrite ?Hba; [done| |].
    + unfold fresh_block. split_and!; try done; [symmetry; apply length_bytes_at; lia|by rewrite contents_lookup, Hnone|].
      intros r cs a. rewrite contents_lookup. destruct (h !! r) as [m|] eqn:Hr; [|done]. intros [= <-]. unfold occupies.
      destruct (ho_block _ _ _ _ _ Hh _ _ Hr) as (k0 & Hk0). rewrite !length_bytes_at by (lia || apply Hk0). intros Ha Ha'.
      apply (R8 k0 a); [apply Hk0|by apply (holds_in w lu l r m)|unfold in_block; lia].
    + apply (bytes_at_take w w' p (addr w' k') n size); try lia.
      * pose proof (length_bytes_at w p n). pose proof (length_bytes_at w' (addr w' k') size). lia.
      * pose proof (length_bytes_at w p n). pose proof (length_bytes_at w' (addr w' k') size). intros x Hx. rewrite R6, Hpk by lia. done.
  - constructor; try done.
    + destruct (ho_quar _ _ _ _ _ Hh) as [Q1 Q2 Q3 Q4 Q5 Q6]. injection R10 as E1 E2.
      assert (Hql : ∀ k0, k0 ∈ l → carried w w' lu' k0) by (intros k0 Hk0; apply R7; [by apply Q6|intros ->; done]).
      constructor; try done; [by rewrite E1|by rewrite E2| |intros k0 Hk0; by apply Hql].
      intros t k0 Ht. rewrite E1, (Q4 t k0 Ht). f_equal. symmetry. apply Hql. by eapply list_elem_of_lookup_2.
    + intros r m [[<- <-]|[Hne Hr]]%lookup_insert_Some.
      * exists k'. split_and!; try done; [|lia]. intros Hl. apply R4. by apply (qr_live _ _ _ (ho_quar _ _ _ _ _ Hh)).
      * destruct (Hother r m Hr) as (k0 & Hk0 & Hc). exists k0. apply (holds_carried w w' lu lu' l l); [done|done|apply Hk0].
    + intros k0 [[Hk0 Hne]| ->]%R5 Hl; [|rewrite lookup_insert_eq; by eexists]. rewrite (cd_addr _ _ _ _ (R7 k0 Hk0 Hne)).
      rewrite lookup_insert_is_Some. destruct (decide (addr w' k' = addr w k0)); [by left|right]. split; [done|].
      rewrite lookup_delete_ne; [by apply (ho_all _ _ _ _ _ Hh)|]. intros Heq. apply Hne. by apply (held_unique w h lu lf l Hh p n k k0).
Qed.

(** ** Answers that are no block *)

Lemma no_block_cases w p : no_block w p = true → p = 0 ∨ p ≠ 0 ∧ NO_ZERO_ALLOCATIONS && (p =? zero_alloc_page (w_root w)) = true.
Proof. unfold no_block. destruct (Z.eqb_spec p 0); [by left|]. intros Hz. by right. Qed.

(** Live blocks are neither NULL nor the page for requests of no bytes. *)
Lemma no_block_live w lu lf k x : process w lu lf → live w lu k → no_block w x = true → ¬ in_block w k x.
Proof.
  intros Hp Hk Hx Hin. destruct (live_facts w lu lf k Hp Hk) as (P1 & _). pose proof (ps_heap _ _ _ Hp) as Hw.
  destruct (no_block_cases w x Hx) as [->|(_ & [Hnz ->%Z.eqb_eq]%andb_true_iff)]; [unfold in_block in Hin; lia|].
  destruct (ps_zero _ _ _ Hp Hnz) as (_ & Hz1 & Hz2). destruct k as [i c|a]; simpl in Hk.
  - apply Hz1. by apply (chunk_owned w i c).
  - destruct (used_entry w lu lf a Hp Hk) as (Hb & _). apply (Hz2 a (big_at w a)); [set_solver|done|by left].
Qed.

Lemma hold_live w lu lf k n h : process w lu lf → live w lu k → hold w (addr w k) n h = <[addr w k := n]> h.
Proof.
  intros Hp Hk. unfold hold. destruct (no_block w (addr w k)) eqn:Hno; [|done]. destruct (live_facts w lu lf k Hp Hk) as (_ & _ & _ & P4 & _).
  exfalso. apply (no_block_live w lu lf k (addr w k) Hp Hk Hno). unfold in_block. lia.
Qed.

(** Nothing is held at such an address, or around it. *)
Lemma no_block_held w h lu lf l p : holding w h lu lf l → no_block w p = true →
  h !! p = None ∧ ∀ q cs, contents w h !! q = Some cs → ¬ occupies q cs p.
Proof.
  intros Hh Hno. pose proof (ho_process _ _ _ _ _ Hh) as Hp. split.
  - destruct (h !! p) as [n|] eqn:Hl; [|done]. destruct (ho_block _ _ _ _ _ Hh p n Hl) as (k & Hk & _ & -> & _).
    destruct (live_facts w lu lf k Hp Hk) as (_ & _ & _ & P4 & _). exfalso. apply (no_block_live w lu lf k (addr w k) Hp Hk Hno). unfold in_block. lia.
  - intros q cs. rewrite contents_lookup. destruct (h !! q) as [n|] eqn:Hq; [|done]. intros [= <-] Ho.
    destruct (ho_block _ _ _ _ _ Hh q n Hq) as (k & Hk). unfold occupies in Ho. rewrite length_bytes_at in Ho by apply Hk.
    apply (no_block_live w lu lf k p Hp (proj1 Hk) Hno). by apply (holds_in w lu l q n).
Qed.

(** ** The calls *)

Section calls.
Context (w : world) (lu lf : list Z) (Hp : process w lu lf) (Hun : unlocked w) (Hmask : mask_ok w) (Hg : run_build).

(** More than 4 GiB are refused. *)
Lemma wp_alloc_refused size : BIG_SZ_MAX < size < 2 ^ 64 - 31 → wp anything (iso_alloc size) (λ p w', p = 0 ∧ w' = w) w.
Proof.
  clear Hmask Hg. intros Hs. pose proof (hv_root w (ps_heap _ _ _ Hp)) as Hr. destruct Hun as (Hl & _). change BIG_SZ_MAX with 4294967296 in Hs.
  destruct (chunk_size_of_cases size ltac:(lia)) as [[_ ?]|(_ & Hc & _)]; [lia|]. unfold iso_alloc, _iso_alloc. do 2 wstep.
  rewrite (proj2 (Z.eqb_neq size 0)), andb_false_r by lia. cbn [andb]. do 2 wstep. wstep. apply wp_lock_root; [done|]. rewrite Hr. do 2 wstep.
  change SMALL_SIZE_MAX with 65536. rewrite (proj2 (Z.leb_gt _ 65536)) by lia. unfold UNLOCK_ROOT. do 2 wstep. unfold _iso_big_alloc. do 2 wstep.
  change BIG_SZ_MAX with 4294967296. set (n := page_len _ _). destruct (Z.ltb_spec n (chunk_size_of size)); cbn [orb].
  2: rewrite (proj2 (Z.ltb_lt 4294967296 n)) by lia; cbn [orb].
  all: destruct ABORT_ON_NULL; [done|]; apply wp_ret; split; [done|]; destruct w; simpl in *; by subst.
Qed.

(** A request: refused when [P], answered with the page for no bytes, or served with [Q]. *)
Definition answered (size p : Z) (w' : world) (P Q : Prop) : Prop :=
  (P ∧ p = 0 ∧ w' = w) ∨ (size = 0 ∧ no_block w p = true ∧ w' = w) ∨ ∃ lu' lf' k, block_alloc w w' lu lu' lf' size p k ∧ Q.

Lemma zero_page_no_block : NO_ZERO_ALLOCATIONS = true → no_block w (zero_alloc_page (w_root w)) = true.
Proof. intros Hnz. unfold no_block. rewrite Hnz, Z.eqb_refl. apply orb_true_r. Qed.

Lemma wp_alloc_answers size : 0 <= size < 2 ^ 64 - 31 → wp anything (iso_alloc size) (λ p w', answered size p w' (BIG_SZ_MAX < size) True) w.
Proof.
  intros Hs. destruct (Z.lt_ge_cases BIG_SZ_MAX size) as [Hbig|Hle].
  { eapply wp_post; [apply wp_alloc_refused; lia|]. intros p w' [-> ->]. by left. }
  destruct (NO_ZERO_ALLOCATIONS && (size =? 0)) eqn:Hz.
  - pose proof Hz as [Hnz Hsz%Z.eqb_eq]%andb_true_iff. unfold iso_alloc, _iso_alloc. do 2 wstep. rewrite Hz, (hv_root w (ps_heap _ _ _ Hp)).
    cbn [andb negb]. wstep. right. left. split_and!; [done|by apply zero_page_no_block|done].
  - eapply wp_post; [apply (wp_alloc_block anything w lu lf size Hp Hun); try done; [apply allows_anything|apply Hg|lia]|].
    intros p w' (lu' & lf' & k & Hba & _). right. right. by exists lu', lf', k.
Qed.
Lemma wp_calloc_answers nmemb size : 0 <= nmemb → 0 <= size < 2 ^ 64 - 31 →
  wp anything (iso_calloc nmemb size) (λ p w', answered (nmemb * size) p w' (BIG_SZ_MAX < nmemb * (size + 32))
    (∀ a, p <= a < p + nmemb * size → ld8 (w_mem w') a = 0)) w.
Proof.
  intros Hn Hs. destruct (chunk_size_of_cases size ltac:(lia)) as [[_ ?]|(Hc & Hle & _)]; [lia|].
  destruct (Z.lt_ge_cases BIG_SZ_MAX (nmemb * chunk_size_of size)) as [Hbig|Hsm].
  { eapply wp_eq; [unfold iso_calloc, _iso_calloc; by rewrite (proj2 (Z.ltb_lt BIG_SZ_MAX _)), orb_true_r|]. left. split; [|done]. pose proof (chunk_size_of_near size ltac:(lia)). nia. }
  destruct (Z.eq_dec nmemb 0) as [->|Hpos].
  - pose proof (calloc_nothing anything w lu lf 0 size Hp Hun (allows_anything _) Hmask (proj1 (proj1 Hg)) eq_refl) as Hz.
    destruct NO_ZERO_ALLOCATIONS eqn:Hnz.
    + eapply wp_eq; [exact Hz|]. right. left. split_and!; [done|by apply zero_page_no_block|done].
    + eapply wp_post; [exact Hz|]. intros p w' (lu' & lf' & k & Hba). right. right. exists lu', lf', k. split; [done|]. intros a Ha. lia.
  - eapply wp_post; [apply (wp_calloc_block anything w lu lf nmemb size Hp Hun); try done; [apply allows_anything|apply Hg|lia|split; [lia|nia]]|].
    intros p w' (lu' & lf' & k & Hzero & Hba). right. right. by exists lu', lf', k.
Qed.

(** Freeing and measuring no block changes nothing. *)
Lemma wp_free_nothing p : no_block w p = true → wp anything (iso_free p) (λ _ w', w' = w) w.
Proof.
  intros Hno. unfold iso_free, _iso_free. destruct (no_block_cases w p Hno) as [->|[Hp0 Hz]]; [by apply wp_ret|]. rewrite (proj2 (Z.eqb_neq p 0)) by done.
  destruct (negb _); [done|]. wstep. apply wp_root; [apply Hp|]. rewrite Hz. by wstep.
Qed.

Lemma chunksz_nothing p : no_block w p = true → iso_chunksz p w = Ret 0 w.
Proof.
  intros Hno. unfold iso_chunksz, _iso_chunk_size. destruct (no_block_cases w p Hno) as [->|[Hp0 Hz]]; [done|]. rewrite (proj2 (Z.eqb_neq p 0)) by done.
  erewrite run_bind by (unfold root; by rewrite (hv_root w (ps_heap _ _ _ Hp))). by rewrite Hz.
Qed.

Lemma free_size_nothing p : no_block w p = true → _iso_free_size p 0 w = Ret tt w.
Proof.
  intros Hno. unfold _iso_free_size. destruct (no_block_cases w p Hno) as [->|[Hp0 Hz]]; [done|]. rewrite (proj2 (Z.eqb_neq p 0)) by done.
  erewrite run_bind by (unfold root; by rewrite (hv_root w (ps_heap _ _ _ Hp))). by rewrite Hz.
Qed.
End calls.

(** Resizing no block is allocating. *)
Lemma wp_realloc_nothing w lu lf p size : process w lu lf → unlocked w → mask_ok w → run_build → no_block w p = true → 0 < size <= BIG_SZ_MAX →
  wp anything (iso_realloc p size) (λ q w', ∃ lu' lf' k, block_alloc w w' lu lu' lf' size q k) w.
Proof.
  intros Hp Hun Hmask Hg Hno Hs. change BIG_SZ_MAX with 4294967296 in Hs. unfold iso_realloc. rewrite (proj2 (Z.eqb_neq size 0)) by lia. wstep.
  eapply wp_post; [apply (wp_alloc_answers w lu lf Hp Hun Hmask Hg); lia|]. intros q w1 [[? _]|[[? _]|(lu' & lf' & k & Hba & _)]]; [change BIG_SZ_MAX with 4294967296 in *; lia|lia|].
  pose proof (ba_process _ _ _ _ _ _ _ _ Hba) as Hp1. destruct (ba_block _ _ _ _ _ _ _ _ Hba) as (Hk & Hq & _).
  destruct (live_facts w1 lu' lf' k Hp1 Hk) as (Q1 & _). rewrite (proj2 (Z.eqb_neq q 0)) by lia.
  assert (Hno1 : no_block w1 p = true) by (unfold no_block in *; by rewrite (ba_zero _ _ _ _ _ _ _ _ Hba)).
  wstep. eapply wp_eq; [by apply (chunksz_nothing w1 lu' lf')|]. rewrite (proj2 (Z.ltb_lt 0 size)) by lia. cbv zeta. destruct Hg as (_ & _ & ->). wstep.
  apply (wp_post _ _ (λ _ w2, w2 = w1)).
  - destruct (negb _); [|by wstep]. wstep. unfold _iso_alloc_memcpy. wstep. rewrite andb_false_r. cbn [when]. wstep.
    eapply wp_eq; [unfold __iso_memcpy; rewrite !range_access_mapped by (intros a Ha; lia); done|]. wstep. by destruct w1.
  - intros _ w2 ->. wstep. eapply wp_eq; [by apply (free_size_nothing w1 lu' lf')|]. wstep. by exists lu', lf', k.
Qed.
(** ** The refinement of a step *)

(** The process runs as before, and the mask of the big zone lists is as good as it was. *)
Definition sound (w : world) (h : gmap Z Z) : Prop := running w h ∧ mask_ok w.

Lemma mask_kept w w' : big_zone_next_mask (w_root w') = big_zone_next_mask (w_root w) → mask_ok w → mask_ok w'.
Proof. unfold mask_ok. by intros ->. Qed.

Section steps.
Context (w : world) (h : gmap Z Z) (lu lf : list Z) (l : list block) (Hh : holding w h lu lf l) (Hmask : mask_ok w) (Hg : run_build).

Lemma sound_same : sound w h.
Proof. split; [by exists lu, lf, l|done]. Qed.

(** A served request, seen by the specification. *)
Lemma step_served w' lu' lf' size p k (P : list Z → Prop) : 0 <= size → block_alloc w w' lu lu' lf' size p k → P (bytes_at w' p size) →
  provides (contents w h) size p P (contents w' (hold w' p size h)) ∧ sound w' (hold w' p size h).
Proof.
  intros Hs Hba HP. destruct (holding_alloc w h lu lf l Hh w' lu' lf' size p k Hs Hba) as (F1 & F2 & F3). pose proof (ba_process _ _ _ _ _ _ _ _ Hba) as Hp'.
  destruct (ba_block _ _ _ _ _ _ _ _ Hba) as (Hk & -> & _). rewrite (hold_live w' lu' lf' k size h Hp' Hk), F2.
  split; [by constructor|]. split; [by exists lu', lf', l|]. by apply (mask_kept w); [apply Hba|].
Qed.

Lemma step_empty p (P : list Z → Prop) : no_block w p = true → provides (contents w h) 0 p P (contents w (hold w p 0 h)) ∧ sound w (hold w p 0 h).
Proof.
  intros Hno. unfold hold. rewrite Hno. destruct (no_block_held w h lu lf l p Hh Hno) as [N1 N2]. split; [|apply sound_same].
  apply provide_none; [done|by rewrite contents_lookup, N1|done].
Qed.

Lemma hold_null size : hold w 0 size h = h.
Proof. done. Qed.

Lemma step_alloc size p w' : 0 <= size < 2 ^ 64 - 31 → iso_alloc size w = Ret p w' →
  spec_step (contents w h) (EAlloc size p) (contents w' (hold w' p size h)) ∧ sound w' (hold w' p size h).
Proof.
  intros Hs Hrun. pose proof (wp_alloc_answers w lu lf (ho_process _ _ _ _ _ Hh) (ho_unlocked _ _ _ _ _ Hh) Hmask Hg size Hs) as Hwp.
  unfold wp in Hwp. rewrite Hrun in Hwp. destruct Hwp as [(Hbig & -> & ->)|[(-> & Hno & ->)|(lu' & lf' & k & Hba & _)]].
  - rewrite hold_null. split; [by apply spec_refused|apply sound_same].
  - destruct (step_empty p (λ _, True) Hno) as [S1 S2]. split; [by constructor|done].
  - destruct (step_served w' lu' lf' size p k (λ _, True)) as [S1 S2]; [lia|done|done|]. split; [by constructor|done].
Qed.

Lemma step_calloc nmemb size p w' : 0 <= nmemb → 0 <= size < 2 ^ 64 - 31 → iso_calloc nmemb size w = Ret p w' →
  spec_step (contents w h) (ECalloc nmemb size p) (contents w' (hold w' p (nmemb * size) h)) ∧ sound w' (hold w' p (nmemb * size) h).
Proof.
  intros Hn Hs Hrun. pose proof (wp_calloc_answers w lu lf (ho_process _ _ _ _ _ Hh) (ho_unlocked _ _ _ _ _ Hh) Hmask Hg nmemb size Hn Hs) as Hwp.
  unfold wp in Hwp. rewrite Hrun in Hwp. destruct Hwp as [(Hbig & -> & ->)|[(Hz & Hno & ->)|(lu' & lf' & k & Hba & Hzero)]].
  - rewrite hold_null. split; [by apply spec_refused|apply sound_same].
  - rewrite Hz. destruct (step_empty p (Forall (λ b, b = 0)) Hno) as [S1 S2]. split; [constructor; by rewrite Hz|done].
  - destruct (step_served w' lu' lf' (nmemb * size) p k (Forall (λ b, b = 0))) as [S1 S2]; [lia|done| |split; [by constructor|done]].
    by apply bytes_at_zero.
Qed.

Lemma step_free p w' : may_pass w h p → iso_free p w = Ret tt w' →
  contents w' (delete p h) = delete p (contents w h) ∧ sound w' (delete p h).
Proof.
  intros [[n Hq]|Hno] Hrun; pose proof (ho_process _ _ _ _ _ Hh) as Hp; pose proof (ho_unlocked _ _ _ _ _ Hh) as Hun.
  - destruct (ho_block _ _ _ _ _ Hh p n Hq) as (k & Hk). pose proof Hk as (Hlive & Hkl & -> & Hlen).
    pose proof (wp_iso_free anything w lu lf l k Hp (proj1 Hg) Hun (ho_quar _ _ _ _ _ Hh) Hlive Hkl (λ _ b _, frees_anything _ (proj1 (proj2 Hg)))) as Hwp.
    unfold wp in Hwp. unfold iso_free in Hrun. rewrite Hrun in Hwp. destruct Hwp as (Hun' & lu' & lf' & Hpk).
    destruct (holding_free w h lu lf l Hh w' lu' lf' (evicted l) (parked_list l k) (addr w k) n k Hk Hun' Hpk) as [F1 F2].
    { unfold evicted, parked_list. by destruct (full l). }
    split; [done|]. split; [by exists lu', lf', (parked_list l k)|by apply (mask_kept w); [apply Hpk|]].
  - pose proof (wp_free_nothing w lu lf Hp p Hno) as Hwp. unfold wp in Hwp. rewrite Hrun in Hwp. subst w'.
    destruct (no_block_held w h lu lf l p Hh Hno) as [N1 _]. rewrite contents_delete. split; [done|]. rewrite delete_id by done. apply sound_same.
Qed.

Lemma step_realloc p size q w' : may_pass w h p → 0 <= size < 2 ^ 64 - 31 → iso_realloc p size w = Ret q w' →
  let h' := if (q =? 0) && negb (size =? 0) then h else hold w' q size (delete p h) in
  spec_step (contents w h) (ERealloc p size q) (contents w' h') ∧ sound w' h'.
Proof.
  intros Hpass Hs Hrun. pose proof (ho_process _ _ _ _ _ Hh) as Hp. pose proof (ho_unlocked _ _ _ _ _ Hh) as Hun.
  destruct (Z.eqb_spec size 0) as [->|Hpos]; cbn [negb].
  { unfold iso_realloc in Hrun. cbn [Z.eqb] in Hrun. unfold mbind, M_bind in Hrun. destruct (iso_free p w) as [[] w1| | | | |] eqn:Hf; try done.
    injection Hrun as <- <-. destruct (step_free p w1 Hpass Hf) as [S1 S2]. cbn [andb Z.eqb]. change (hold w1 0 0 (delete p h)) with (delete p h). rewrite S1. split; [apply spec_realloc_zero|done]. }
  destruct (Z.lt_ge_cases BIG_SZ_MAX size) as [Hbig|Hle].
  { assert (Hwp : wp anything (iso_realloc p size) (λ q w', q = 0 ∧ w' = w) w).
    { unfold iso_realloc. rewrite (proj2 (Z.eqb_neq size 0)) by done. wstep. eapply wp_post; [apply (wp_alloc_refused w lu lf Hp Hun size); lia|].
      intros r w1 [-> ->]. by apply wp_ret. }
    unfold wp in Hwp. rewrite Hrun in Hwp. destruct Hwp as [-> ->]. split; [by apply spec_refused|apply sound_same]. }
  destruct Hpass as [[n Hq]|Hno].
  - destruct (ho_block _ _ _ _ _ Hh p n Hq) as (k & Hk). pose proof Hk as (Hlive & _ & -> & Hlen). destruct Hg as (Hg1 & Hg2 & Hg3).
    pose proof (wp_iso_realloc anything w lu lf k size Hp Hg1 Hun Hmask Hg3 Hlive ltac:(lia) (frees_anything _ Hg2)) as Hwp.
    unfold wp in Hwp. rewrite Hrun in Hwp. destruct Hwp as (lu' & lf' & k' & Hre).
    destruct (holding_realloc w h lu lf l w' lu' lf' (addr w k) n k size q k' Hh Hk ltac:(lia) Hre Hq) as [F1 F2].
    destruct (ra_block _ _ _ _ _ _ _ _ _ Hre) as (Hk' & -> & _). pose proof (ra_process _ _ _ _ _ _ _ _ _ Hre) as Hp'.
    destruct (live_facts w' lu' lf' k' Hp' Hk') as (Q1 & _). rewrite (proj2 (Z.eqb_neq _ 0)) by lia. cbn [andb].
    rewrite (hold_live w' lu' lf' k' size _ Hp' Hk'). split; [done|]. split; [by exists lu', lf', l|by apply (mask_kept w); [apply Hre|]].
  - pose proof (wp_realloc_nothing w lu lf p size Hp Hun Hmask Hg Hno ltac:(lia)) as Hwp. unfold wp in Hwp. rewrite Hrun in Hwp.
    destruct Hwp as (lu' & lf' & k & Hba). destruct (no_block_held w h lu lf l p Hh Hno) as [N1 _]. rewrite delete_id by done.
    destruct (holding_alloc w h lu lf l Hh w' lu' lf' size q k ltac:(lia) Hba) as (F1 & F2 & F3). pose proof (ba_process _ _ _ _ _ _ _ _ Hba) as Hp'.
    destruct (ba_block _ _ _ _ _ _ _ _ Hba) as (Hk & -> & _). destruct (live_facts w' lu' lf' k Hp' Hk) as (Q1 & _).
    rewrite (proj2 (Z.eqb_neq _ 0)) by lia. cbn [andb]. rewrite (hold_live w' lu' lf' k size h Hp' Hk), F2.
    split; [|split; [by exists lu', lf', l|by apply (mask_kept w); [apply Hba|]]].
    assert (Hnone : contents w h !! p = None) by by rewrite contents_lookup, N1. rewrite <-(delete_id (contents w h) p) at 2 by done.
    apply spec_realloc; [lia|done|]. unfold block_at. by rewrite Hnone.
Qed.
End steps.

Lemma running_step w h e w' h' : run_build → sound w h → heap_step w h e w' h' → spec_step (contents w h) e (contents w' h') ∧ sound w' h'.
Proof.
  intros Hg [(lu & lf & l & Hh) Hmask]. pose proof (ho_process _ _ _ _ _ Hh) as Hp. pose proof (ho_unlocked _ _ _ _ _ Hh) as Hun.
  intros [size p w1 Hs Hrun|nmemb size p w1 Hn Hs Hrun|p size q w1 Hq Hs Hrun|p w1 Hq Hrun|p m w1 Hq Hrun|p n off v w1 Hq Ho Hrun|p n off v w1 Hq Ho Hrun].
  - by apply (step_alloc w h lu lf l).
  - by apply (step_calloc w h lu lf l).
  - by apply (step_realloc w h lu lf l).
  - destruct (step_free w h lu lf l Hh Hmask Hg p w1 Hq Hrun) as [-> S2]. split; [constructor|done].
  - destruct Hq as [[n Hq]|Hno].
    + destruct (ho_block _ _ _ _ _ Hh p n Hq) as (k & Hlive & _ & -> & Hn). pose proof (chunk_size_block w lu lf k Hp Hun Hlive) as Hsz.
      unfold iso_chunksz in Hrun. rewrite Hrun in Hsz. injection Hsz as -> ->. split; [|by apply (sound_same w h lu lf l)].
      constructor. unfold block_at. rewrite contents_lookup, Hq. simpl. rewrite length_bytes_at; lia.
    + rewrite (chunksz_nothing w lu lf Hp p Hno) in Hrun. injection Hrun as <- <-. split; [|by apply (sound_same w h lu lf l)].
      constructor. unfold block_at. destruct (no_block_held w h lu lf l p Hh Hno) as [N1 _]. by rewrite contents_lookup, N1.
  - destruct (ho_block _ _ _ _ _ Hh p n Hq) as (k & Hk). unfold wr8 in Hrun. case_match; [|done]. injection Hrun as <-.
    destruct (holding_write w h lu lf l Hh p n k off v Hq Hk Ho) as [F1 F2]. rewrite F1. split; [|split; [by exists lu, lf, l|done]].
    constructor; [by rewrite contents_lookup, Hq|rewrite length_bytes_at; lia].
  - unfold rd8 in Hrun. case_match; [|done]. injection Hrun as <- <-. split; [|by apply (sound_same w h lu lf l)].
    econstructor; [by rewrite contents_lookup, Hq| |lia]. by apply bytes_at_lookup.
Qed.
End impl.
