(* ===== verification/Init.v ===== *)
(** * Starting up

    [_iso_alloc_initialize] and [iso_alloc_initialize_global_root] of src/iso_alloc.c: from
    a process that never called the allocator to a heap on which every theorem about
    allocation and release applies. *)

From S2P Require Import Prelude Words Conf Memory State Util ZoneBits FreeList Chunks Lookup Heap Zones BigZones BigSpec Verify MemTags Alloc AllocSpec NewZone HeapOps Blocks Quarantine Realloc MallocSpec.

Section init.
Context `{!Kernel, !KernelLaws, !Config}.

(** ** Mappings the heap does not own *)

Lemma after_sys_in_use w m vm k j d : heap_inv w → (∀ x, vm_prot (w_vm w) x ≠ None → ld8 m x = ld8 (w_mem w) x) →
  in_use_at (after_sys m vm k w) j d ↔ in_use_at w j d.
Proof.
  intros Hw Hm. unfold in_use_at. change (w_root (after_sys m vm k w)) with (w_root w). change (zone_at (after_sys m vm k w) j) with (zone_at w j).
  change (w_mem (after_sys m vm k w)) with m. split; intros (Hj & Hd & Hst); split_and!; try done; try lia; rewrite <-Hst;
    [symmetry|]; apply (chunk_st_footprint w m j d Hw Hj Hd); intros a Ha; apply Hm; by apply (hv_owned w Hw j).
Qed.

(** A new mapping leaves the heap as it is. *)
Lemma heap_inv_mapped w m vm k : heap_inv w → page_ok (set_w_k k w) →
  (∀ x, vm_prot (w_vm w) x ≠ None → vm_prot vm x = vm_prot (w_vm w) x) →
  (∀ x, vm_prot (w_vm w) x ≠ None → ld8 m x = ld8 (w_mem w) x) → heap_inv (after_sys m vm k w).
Proof.
  intros Hw Hk Hvm Hm. apply (heap_inv_frame w); try done; [apply Hw|]. intros x Ho%(reserved_vm w x Hw). auto.
Qed.

(** ** The default zones *)

(** A heap with zones for the sizes [sizes] and no chunk in use. *)
Record booted (w : world) (sizes : list Z) : Prop := {
  bt_heap : heap_inv w;
  bt_idle : ∀ j d, ¬ in_use_at w j d;
  bt_zones : zones_used (w_root w) = Z.of_nat (length sizes);
  bt_sizes : ∀ i s, sizes !! i = Some s →
    chunk_size (zone_at w (Z.of_nat i)) = chunk_size_of s ∧ internal (zone_at w (Z.of_nat i)) = true;
  bt_bigs : big_lists (w_root w) = (0, 0, 0, 0);
  bt_quar : quarantine w = (replicate 64 0, 0);
}.

(** No page of preallocated bitmaps, or only unused ones. *)
Definition no_bitmaps (w : world) : Prop := bitmaps (w_root w) = replicate 8 (mk_bitmap 0 0 0).
Definition unused_bitmaps (w : world) : Prop := ∀ l bm, bitmaps (w_root w) !! l = Some bm → in_use bm = 0 ∧
  (bucket bm ≠ 0 → mapped_rw (w_vm w) (bitmap bm) (w_page_size w)).

Lemma no_bitmaps_zero w l bm : no_bitmaps w → bitmaps (w_root w) !! l = Some bm → bm = mk_bitmap 0 0 0.
Proof. intros ->. by intros [-> _]%lookup_replicate. Qed.

Lemma booted_zone w w' sizes s i : booted w sizes → zone_created w w' s i → booted w' (sizes ++ [s]).
Proof.
  intros [A1 A2 A3 A4 A5 A6] [[Hi Hu] Hk _ Hs Hint _ _ _ [_ Hb]]. constructor; [apply Hk| | | |by rewrite Hb|by rewrite (kp_quar _ _ Hk)].
  - intros j d Hin. by apply (A2 j d), (kp_in_use _ _ Hk).
  - rewrite Hu, Hi, A3, length_app. simpl. lia.
  - intros l t [Hl|[Hl Ht]]%lookup_app_Some.
    + pose proof (lookup_lt_Some _ _ _ Hl). destruct (A4 l t Hl) as [B1 B2]. destruct (kp_shape _ _ Hk (Z.of_nat l)) as [_ _ _ C1 _ C2 _ _ _]; [lia|].
      by rewrite C1, C2.
    + apply list_lookup_singleton_Some in Ht as [Hz <-]. replace (Z.of_nat l) with i by lia. by split.
Qed.

Lemma wp_default_zones sizes w made : booted w made → no_bitmaps w → Forall (λ s, 0 <= s <= SMALL_SIZE_MAX) sizes →
  wp resource (new_default_zones sizes) (λ _ w', booted w' (made ++ sizes) ∧ no_bitmaps w') w.
Proof.
  intros Hb Hn Hs. revert w made Hb Hn. induction Hs as [|s sizes Hs Hsizes IH]; intros w made Hb Hn; cbn [new_default_zones].
  { apply wp_ret. by rewrite app_nil_r. }
  wstep. eapply wp_post; [apply wp_iso_new_zone; [apply Hb|apply allows_resource|done]|].
  { intros l bm Hl Hbk. by rewrite (no_bitmaps_zero w l bm Hn Hl) in Hbk. }
  intros r w' (i & -> & Hc). eapply wp_post; [apply (IH w' (made ++ [s])); [by eapply booted_zone|]|].
  - unfold no_bitmaps. rewrite (zc_bitmaps _ _ _ _ Hc); [done|]. intros l b Hl. by rewrite (no_bitmaps_zero w l b Hn Hl).
  - intros u w2. by rewrite <-app_assoc.
Qed.

(** ** The pages of preallocated bitmaps *)

Lemma booted_mapped w sizes m vm k : booted w sizes → page_ok (set_w_k k w) →
  (∀ x, vm_prot (w_vm w) x ≠ None → vm_prot vm x = vm_prot (w_vm w) x) →
  (∀ x, vm_prot (w_vm w) x ≠ None → ld8 m x = ld8 (w_mem w) x) → booted (after_sys m vm k w) sizes.
Proof.
  intros [A1 A2 A3 A4 A5 A6] Hk Hvm Hm. constructor; try done; [by apply heap_inv_mapped|].
  intros j d Hin. by apply (A2 j d), (after_sys_in_use w m vm k j d).
Qed.

(** A page of bitmaps of [n] bytes at [p], fresh from the system. *)
Lemma booted_bitmaps w sizes l n p : booted w sizes → unused_bitmaps w → (l < length (bitmaps (w_root w)))%nat → 0 < n <= w_page_size w →
  (∀ bm, bitmaps (w_root w) !! l = Some bm → bucket bm = 0) → (∀ i bm, bitmaps (w_root w) !! i = Some bm → bucket bm ≠ n) →
  0 < p ∧ p + w_page_size w <= 2 ^ 47 → mapped_rw (w_vm w) p (w_page_size w) → (∀ x, p <= x < p + w_page_size w → ld8 (w_mem w) x = 0) →
  (∀ x, zone_reserved w x → ¬ (p <= x < p + w_page_size w)) →
  let w' := set_w_root (set_bitmaps (alter (λ b, set_bucket n (set_bitmap p b)) l (bitmaps (w_root w))) (w_root w)) w in
  booted w' sizes ∧ unused_bitmaps w'.
Proof.
  intros [A1 A2 A3 A4 A5 A6] Hun Hl Hn Hzero Hnew Hp Hrw Hz Hres w'. set (page := w_page_size w) in *.
  pose proof (page_ok_bounds w (hv_page w A1)) as Hpg. fold page in Hpg.
  assert (Hlk : ∀ i bm, bitmaps (w_root w') !! i = Some bm →
    (i = l ∧ ∃ b, bitmaps (w_root w) !! l = Some b ∧ bm = set_bucket n (set_bitmap p b)) ∨ (i ≠ l ∧ bitmaps (w_root w) !! i = Some bm)).
  { intros i bm. unfold w'. simpl. destruct (decide (i = l)) as [->|Hne]; [|rewrite list_lookup_alter_ne by done; by right].
    rewrite list_lookup_alter_eq. intros (b & Hb & ->)%fmap_Some. left. split; [done|]. by exists b. }
  assert (Hun' : unused_bitmaps w').
  { intros i bm [[-> (b & Hb & ->)]|[Hne Hi]]%Hlk; [split; [by apply (Hun l b)|by intros _]|by apply (Hun i)]. }
  split; [|done]. constructor; try done. pose proof A1 as [C1 C2 C3 C4 C5 C6 C7 C8 C9 C10 [B1 B2 B3] C12 [D1 D2 D3 D4 D5 D6 D7]].
  assert (Hap : ∀ i bm x, bitmaps (w_root w) !! i = Some bm → bucket bm ≠ 0 → bitmap bm <= x < bitmap bm + page → ¬ (p <= x < p + page)).
  { intros i bm x Hi Hb Hx. apply Hres. right. by exists i, bm. }
  constructor; try done; constructor; try done.
  - intros a s x (i & bm & k & Hi & -> & Hs & Hk & Hbit & ->) Hx. destruct (Hlk i bm Hi) as [[-> (b & Hb & ->)]|[Hne Hi']].
    + change (w_page_size w') with page in Hk. cbn [bucket bitmap set_bucket set_bitmap] in *. pose proof (Z.mul_div_le page n ltac:(lia)).
      assert (n * k + n <= page) by nia. assert (p <= x < p + page) by nia. split; [by apply Hrw|]. split; [by apply Hz|].
      intros j Hj Hf. apply (Hres x); [|done]. apply owned_reserved; [done|]. left. by exists j.
    + apply (B1 (bitmap bm + bucket bm * k) (bucket bm) x); [|done]. by exists i, bm, k.
  - intros i j bi bj Hi Hj Hne Hbi Hbj.
    assert (Hone : ∀ i' b', i' ≠ l → bitmaps (w_root w) !! i' = Some b' → bucket b' ≠ 0 → bitmap b' + page <= p ∨ p + page <= bitmap b').
    { intros i' b' _ Hi' Hb'. destruct (Z.le_gt_cases (bitmap b' + page) p); [by left|]. destruct (Z.le_gt_cases (p + page) (bitmap b')); [by right|].
      exfalso. apply (Hap i' b' (Z.max p (bitmap b')) Hi' Hb'); lia. }
    destruct (Hlk i bi Hi) as [[-> (b & Hb & ->)]|[Hni Hi']], (Hlk j bj Hj) as [[-> (b2 & Hb2 & ->)]|[Hnj Hj']]; simpl in *; try done.
    + destruct (Hone j bj Hnj Hj' Hbj); [right|left]; done.
    + by apply (Hone i bi).
    + by apply (B2 i j).
  - intros i bm Hi Hbk. destruct (Hlk i bm Hi) as [[-> (b & Hb & ->)]|[Hne Hi']]; [|by apply (B3 i)].
    simpl. split; [exact Hn|]. split; [apply Hp|]. split; [apply Hp|]. destruct (Hun l b Hb) as [-> _]. lia.
  - intros i Hi Hne. destruct (D5 i Hi Hne) as (l' & bm & E1 & E2 & E3 & E4 & E5). exists l', bm. split; [done|]. split; [|exact (conj E3 (conj E4 E5))]. unfold w'. simpl.
    rewrite list_lookup_alter_ne; [done|]. intros <-. rewrite (Hzero bm E2), Z.div_0_r in E4. lia.
  - intros i bm x Hi Hx. destruct (Hlk i bm Hi) as [[-> (b & Hb & ->)]|[Hne Hi']]; [|by apply (D6 i bm x)].
    destruct Hx as [_ Hx]. split; [by apply Hrw|]. intros j Hj Hzp. apply (Hres x); [|done]. left. by exists j.
  - intros i j bi bj Hi Hj Heq Hne.
    destruct (Hlk i bi Hi) as [[-> (b & Hb & ->)]|[Hni Hi']], (Hlk j bj Hj) as [[-> (b2 & Hb2 & ->)]|[Hnj Hj']]; simpl in *; try done.
    + by destruct (Hnew j bj Hj').
    + by destruct (Hnew i bi Hi').
    + by apply (D7 i j bi bj).
Qed.

(** The sizes of the first [l] pages. *)
Definition pages_made (l : nat) (bs : list iso_alloc_bitmap_t) : Prop :=
  ∀ i bm, bs !! i = Some bm → bucket bm = if decide (i < l)%nat then nth i small_bitmap_sizes 0 else 0.

Lemma small_bitmap_sizes_distinct i l : (i < l)%nat → (l < 6)%nat → nth i small_bitmap_sizes 0 ≠ nth l small_bitmap_sizes 0.
Proof. intros Hi Hl. do 6 (destruct l as [|l]; [do 6 (destruct i as [|i]; [simpl; lia|]); lia|]). lia. Qed.

Lemma wp_prealloc_bitmaps n l w sizes : booted w sizes → unused_bitmaps w → length (bitmaps (w_root w)) = 8%nat → (l + n <= 6)%nat →
  pages_made l (bitmaps (w_root w)) →
  wp resource (prealloc_bitmaps n l) (λ _ w', booted w' sizes ∧ unused_bitmaps w') w.
Proof.
  revert l w. induction n as [|n IH]; intros l w Hb Hun Hlen Hln Hnew; cbn [prealloc_bitmaps]; [by apply wp_ret|].
  pose proof (hv_page w (bt_heap _ _ Hb)) as Hpg. pose proof (page_ok_bounds w Hpg) as Hpb. pose proof (hv_root w (bt_heap _ _ Hb)) as Hr.
  do 2 wstep. wstep. eapply wp_post; [apply wp_map_rw; [done|lia]|]. intros p w1 [F1 F2 F3 F4 F5 F6 F7 F8 F9].
  assert (Hpl : page_len w (w_page_size w) = w_page_size w) by (apply page_len_aligned; [done|lia|apply Z.mod_same; lia]).
  rewrite Hpl in *. assert (Hk1 : page_ok (set_w_k (w_k w1) w)) by (rewrite F9 in F8; exact F8).
  set (m := w_mem w1) in *. set (vm := w_vm w1) in *. set (k := w_k w1) in *. rewrite F9. clear F8 F9. clearbody m vm k. clear w1.
  pose proof (booted_mapped w sizes m vm k Hb Hk1 F6 F7) as Hb1. set (w1 := after_sys m vm k w) in *.
  assert (Hout : ∀ x, vm_prot (w_vm w) x ≠ None → ¬ (p <= x < p + w_page_size w)) by (intros x Hx Hxr; apply Hx, F4; lia).
  assert (Hun1 : unused_bitmaps w1).
  { intros i bm Hi. destruct (Hun i bm Hi) as [U1 U2]. split; [done|]. intros Hbk x Hx. change (w_vm w1) with vm. rewrite F6; rewrite (U2 Hbk x Hx); done. }
  destruct (booted_bitmaps w1 sizes l (nth l small_bitmap_sizes 0) p Hb1 Hun1) as [Hb2 Hun2]; try done.
  - change (bitmaps (w_root w1)) with (bitmaps (w_root w)). lia.
  - change (w_page_size w1) with (w_page_size w). do 6 (destruct l as [|l]; [simpl; lia|]). lia.
  - intros bm Hbm. rewrite (Hnew l bm Hbm), decide_False by lia. done.
  - intros i bm Hbm. rewrite (Hnew i bm Hbm). case_decide; [by apply small_bitmap_sizes_distinct; lia|].
    do 6 (destruct l as [|l]; [simpl; lia|]). lia.
  - change (w_page_size w1) with (w_page_size w). lia.
  - intros x Hx. apply Hout. apply (reserved_vm w x (bt_heap _ _ Hb)). exact Hx.
  - unfold put_bitmap. wsteps. apply IH; [done|done| |lia|].
    + simpl. by rewrite length_alter.
    + intros i bm. simpl. destruct (decide (i = l)) as [->|Hne].
      * rewrite list_lookup_alter_eq. intros (b & Hb' & ->)%fmap_Some. by rewrite decide_True by lia.
      * rewrite list_lookup_alter_ne by done. intros Hi. rewrite (Hnew i bm Hi). case_decide; case_decide; done || lia.
Qed.

(** ** The root *)

Lemma wp_map_some n w Q : page_ok w → 0 < n <= 2 ^ 40 →
  (∀ p m vm k, p ≠ 0 → page_ok (set_w_k k w) → Q p (after_sys m vm k w)) → wp resource (mmap_guarded_rw_pages n) Q w.
Proof.
  intros Hw Hn HQ. pose proof (page_ok_bounds w Hw). eapply wp_post; [by apply wp_map_guarded|]. intros p w' [_ F2 _ _ _ _ _ F8 F9].
  rewrite F9. apply HQ; [lia|]. rewrite F9 in F8. exact F8.
Qed.

(** A root without zones. *)
Lemma booted_empty w r : page_ok w → w_root_null w = false → zones_used r = 0 → zone_lookup_table r = ∅ → bitmaps r = replicate 8 (mk_bitmap 0 0 0) →
  big_lists r = (0, 0, 0, 0) → quarantine w = (replicate 64 0, 0) → w_root w = r → w_chunk_lookup_table w = ∅ → length (w_zone_cache w) = 8%nat → w_zone_cache_count w = 0 →
  booted w [] ∧ no_bitmaps w.
Proof.
  intros Hpg Hr Hu Ht Hb Hbig Hqu <- Hct Hcl Hcc. assert (Hno : ∀ i, ¬ 0 <= i < zones_used (w_root w)) by lia.
  pose proof (λ l bm, no_bitmaps_zero w l bm Hb) as Hbm. split; [|done]. constructor; try done; [|by intros j d [Hj _]%(λ H, conj (proj1 H) H); apply (Hno j)].
  constructor; try done; try (by intros i Hi; destruct (Hno i)); try (by intros i j Hi; destruct (Hno i)).
  - rewrite Hu. unfold MAX_ZONES. lia.
  - intros a. rewrite Hct, lookup_empty. by left.
  - rewrite Hcl, Hcc. lia.
  - intros e. rewrite Hcc. simpl. by intros ?%not_elem_of_nil.
  - intros size _ _. rewrite Ht, lookup_empty. by left.
  - constructor.
    + intros a n x (i & bm & k & Hi%Hbm & -> & Hn & _). by subst.
    + intros i j bi bj ->%Hbm _ _ Hn. done.
    + intros i bm ->%Hbm Hn. done.
  - constructor; try (by intros i Hi; destruct (Hno i)); try (by intros i j Hi; destruct (Hno i)); try (by intros i j x Hi; destruct (Hno i)).
    + by intros l bm x ->%Hbm [Hn _].
    + by intros l l' bm bm' ->%Hbm _ _ Hn.
Qed.

(** A thread that has not called the allocator yet: its zone cache is zeroed storage. *)
Definition unstarted (w : world) : Prop := w_root_null w = true ∧ length (w_zone_cache w) = 8%nat ∧ w_zone_cache_count w = 0.

Lemma default_zones_small : Forall (λ s, 0 <= s <= SMALL_SIZE_MAX) default_zones.
Proof. unfold default_zones, SMALL_SIZE_MAX. destruct SMALL_MEM_STARTUP; repeat constructor; lia. Qed.

Lemma default_zones_exact i s : default_zones !! i = Some s → chunk_size_of s = s.
Proof.
  unfold default_zones. intros Hi%list_elem_of_lookup_2. destruct SMALL_MEM_STARTUP;
    repeat (apply elem_of_cons in Hi as [->|Hi]; [reflexivity|]); by apply not_elem_of_nil in Hi.
Qed.

(** The random numbers of the root. *)
Lemma booted_root w sizes r : booted w sizes → zones_used r = zones_used (w_root w) → zone_lookup_table r = zone_lookup_table (w_root w) →
  bitmaps r = bitmaps (w_root w) → big_lists r = big_lists (w_root w) → chunk_quarantine_count r = chunk_quarantine_count (w_root w) →
  booted (set_w_root r w) sizes.
Proof.
  intros [A1 A2 A3 A4 A5 A6] Hu Ht Hb Hl Hq. constructor; try done; [by apply heap_inv_root| |by rewrite <-A3|by rewrite <-A5|].
  2: { unfold quarantine in *. simpl. by rewrite Hq. }
  intros j d (Hj & Hd). apply (A2 j d). split; [|done]. simpl in Hj. by rewrite Hu in Hj.
Qed.

Lemma booted_kernel w sizes k : booted w sizes → page_ok (set_w_k k w) → booted (set_w_k k w) sizes.
Proof. intros Hb Hk. by apply (booted_mapped w sizes (w_mem w) (w_vm w) k). Qed.

Lemma wp_seeded w sizes (f : Z → iso_alloc_root → iso_alloc_root) (draw : M Z) :
  (draw = rand_uint64 ∨ draw = us_rand_uint64) → booted w sizes ∧ unused_bitmaps w →
  (∀ v r, zones_used (f v r) = zones_used r ∧ zone_lookup_table (f v r) = zone_lookup_table r ∧ bitmaps (f v r) = bitmaps r ∧ big_lists (f v r) = big_lists r ∧
    chunk_quarantine_count (f v r) = chunk_quarantine_count r) →
  wp resource draw (λ v, wp resource (rupd (f v)) (λ _ w', booted w' sizes ∧ unused_bitmaps w')) w.
Proof.
  intros Hd [Hb Hun] Hf. pose proof (hv_root w (bt_heap _ _ Hb)) as Hr. destruct Hd as [-> | ->].
  - apply wp_rand; [apply Hb|done|]. intros v k _ Hk. wsteps. destruct (Hf v (w_root w)) as (F1 & F2 & F3 & F4 & F5). split.
    + apply booted_root; try done. by apply booted_kernel.
    + intros l bm. simpl. rewrite F3. apply Hun.
  - apply wp_us_rand; [done|]. intros s v _ _. wsteps. destruct (Hf v (set_seed s (w_root w))) as (F1 & F2 & F3 & F4 & F5). split.
    + apply (booted_root w); try done.
    + intros l bm. simpl. rewrite F3. apply Hun.
Qed.

(** One random field of the root drawn and stored. *)
Ltac seeded f H :=
  apply wp_bind; eapply wp_post; [apply (wp_seeded _ default_zones f); [(by left) || (by right)|exact H|done]|];
  clear H; let v := fresh in let w' := fresh in let Hv := fresh in intros v w' Hv; apply wp_bind; eapply wp_post; [exact Hv|]; clear Hv;
  let u := fresh in let w2 := fresh "w" in intros u w2 H.

Lemma wp_global_root w : page_ok w → unstarted w →
  wp resource iso_alloc_initialize_global_root (λ _ w', booted w' default_zones ∧ unused_bitmaps w') w.
Proof.
  intros Hpg (Hnull & Hcl & Hcc). pose proof (page_ok_bounds w Hpg) as Hpb. unfold iso_alloc_initialize_global_root. do 2 wstep.
  rewrite Hnull. cbn [negb]. set (zsz := page_len w (MAX_ZONES * SIZEOF_ZONE + w_page_size w * 2)). set (qsz := page_len w (CHUNK_QUARANTINE_SZ * 8)).
  assert (Hzsz : 0 < zsz <= 2 ^ 40).
  { unfold zsz. change (MAX_ZONES * SIZEOF_ZONE) with 17301504. destruct (page_len_spec w (17301504 + w_page_size w * 2) Hpg) as [Hl _]; [lia|]. lia. }
  assert (Hqsz : 0 < qsz <= 2 ^ 40).
  { unfold qsz. change (CHUNK_QUARANTINE_SZ * 8) with 512. destruct (page_len_spec w 512 Hpg) as [Hl _]; [lia|]. lia. }
  clearbody zsz qsz. unfold iso_alloc_new_root. wstep. wstep. apply wp_map_some; [done|change SIZEOF_ROOT with 8520; lia|].
  intros p m vm k Hp Hk. rewrite (proj2 (Z.eqb_neq p 0)) by done. wsteps. apply wp_map_some; [exact Hk|done|].
  intros p1 m1 vm1 k1 _ Hk1. wsteps. apply wp_map_some; [exact Hk1|done|]. intros p2 m2 vm2 k2 _ Hk2. wsteps.
  apply wp_map_some; [exact Hk2|change CHUNK_TO_ZONE_TABLE_SZ with 131070; lia|]. intros p3 m3 vm3 k3 _ Hk3. wsteps.
  match goal with |- wp _ _ _ ?W => destruct (booted_empty W (w_root W)) as [Hb Hn]; [exact Hk3|reflexivity..|exact Hcl|exact Hcc|set (w1 := W) in *] end.
  eapply wp_post; [apply (wp_default_zones _ w1 []); [done|done|apply default_zones_small]|]. intros u w2 [Hb2 Hn2].
  wstep. eapply wp_post; [apply (wp_prealloc_bitmaps _ _ w2 default_zones)|]; [done| | |simpl; lia| |].
  - intros l bm Hl. by rewrite (no_bitmaps_zero w2 l bm Hn2 Hl).
  - by rewrite Hn2.
  - intros l bm Hl. rewrite (no_bitmaps_zero w2 l bm Hn2 Hl), decide_False by lia. done.
  - intros u' w3 Hs. seeded set_seed Hs. seeded set_zone_handle_mask Hs. seeded set_big_zone_next_mask Hs.
    apply wp_bind. apply (wp_seeded _ default_zones set_big_zone_canary_secret); [by right|exact Hs|done].
Qed.

Lemma page_size_ok w : page_ok (set_w_page_size_shift (_log2 (k_page_size (w_k w))) (set_w_page_size (k_page_size (w_k w)) w)).
Proof.
  destruct (kl_page (w_k w)) as (s & Hs & Hr). unfold page_ok. simpl. rewrite Hs, log2_raw, Z.log2_pow2; [done|lia|].
  split; [lia|]. apply Z.pow_lt_mono_r; lia.
Qed.

Lemma booted_unlocked w sizes : booted w sizes → booted (set_w_root_lock false (set_w_big_free_lock false (set_w_big_used_lock false w))) sizes.
Proof.
  intros [A1 A2 A3 A4 A5 A6]. constructor; try done. apply (heap_inv_same w); try done. apply A1.
Qed.

(** What a started process can rely on. *)
Definition ready (w : world) : Prop :=
  process w [] [] ∧ running w ∅ ∧ bitmaps_room w ∧
  zones_used (w_root w) = DEFAULT_ZONE_COUNT ∧
  ∀ i s, default_zones !! i = Some s → chunk_size (zone_at w (Z.of_nat i)) = s ∧ internal (zone_at w (Z.of_nat i)) = true.

Definition zero_page_set (w : world) : Prop :=
  NO_ZERO_ALLOCATIONS = true → vm_prot (w_vm w) (zero_alloc_page (w_root w)) ≠ None ∧ ¬ zone_reserved w (zero_alloc_page (w_root w)).

Lemma booted_ready w : booted w default_zones → unused_bitmaps w → unlocked w → zero_page_set w → ready w.
Proof.
  intros Hb Hun Hul Hz. pose proof Hb as [A1 A2 A3 A4 A5 A6]. unfold big_lists in A5. injection A5 as B1 B2 B3 B4. injection A6 as C1 C2.
  assert (Hpos : 0 < zones_used (w_root w)) by (rewrite A3; unfold default_zones; destruct SMALL_MEM_STARTUP; simpl; lia).
  assert (Hp : process w [] []).
  { constructor; try done; [|by intros a b x ?%not_elem_of_nil|].
    - constructor; try done; try apply A1; [constructor|by intros a Ha%not_elem_of_nil|by intros a a' b b' Ha%not_elem_of_nil].
    - intros Hzero. destruct (Hz Hzero). split_and!; [done|done|]. by intros a b ?%not_elem_of_nil. }
  assert (Hidle : ∀ k, ¬ live w [] k) by (intros [i c|a]; [apply A2|apply not_elem_of_nil]).
  split; [done|]. split; [|split; [|split; [done|]]].
  - exists [], [], []. constructor; try done; [apply quarantined_nil; [by rewrite C1|done]|]. intros k Hk. by destruct (Hidle k).
  - intros l bm Hl' _. destruct (Hun l bm Hl') as [-> _]. right. exists 0. split; [lia|done].
  - intros i s Hi. destruct (A4 i s Hi) as [-> ?]. by rewrite (default_zones_exact i s Hi).
Qed.

Lemma wp_initialize w : unstarted w → wp resource _iso_alloc_initialize (λ _ w', ready w') w.
Proof.
  intros Hun. unfold _iso_alloc_initialize. do 2 wstep. rewrite (proj1 Hun). cbn [negb]. unfold read_page_size. do 2 wstep.
  pose proof (page_size_ok w) as Hpg. set (w1 := set_w_page_size_shift _ _) in *. wstep.
  eapply wp_post; [apply (wp_global_root w1); [done|exact Hun]|]. intros u w2 [Hb Hbm]. do 2 wstep.
  apply booted_unlocked in Hb. set (w3 := set_w_root_lock _ _) in *. assert (Hbm3 : unused_bitmaps w3) by exact Hbm.
  pose proof (hv_page w3 (bt_heap _ _ Hb)) as Hpg3. pose proof (page_ok_bounds w3 Hpg3). do 2 wstep. destruct NO_ZERO_ALLOCATIONS eqn:Hnz; [|wstep; apply booted_ready; try done; intros Hy; congruence].
  wstep. apply wp_mmap_pages; [done|lia|done|]. intros p m k _ _ _ Hfr Hz Hk. wsteps.
  { apply (hv_root w3 (bt_heap _ _ Hb)). }
  assert (Hout : ∀ x, vm_prot (w_vm w3) x ≠ None → ¬ (p <= x < p + page_len w3 (w_page_size w3))) by (intros x Hx Hxr; apply Hx, Hfr; lia).
  apply booted_ready; try done.
  - apply booted_root; try done. apply booted_mapped; try done.
    + intros x Hx. rewrite vm_prot_cons, decide_False; [done|]. by apply Hout.
    + intros x Hx. rewrite Hz, decide_False; [done|]. by apply Hout.
  - intros l bm Hl. destruct (Hbm3 l bm Hl) as [U1 U2]. split; [done|]. intros Hbk x Hx. pose proof (U2 Hbk x Hx) as Hv. simpl.
    rewrite vm_prot_cons, decide_False; [done|]. apply Hout. change (w_vm w3) with (w_vm w2). simpl in Hv. by rewrite Hv.
  - destruct (page_len_spec w3 (w_page_size w3) Hpg3) as [Hl _]; [lia|].
    assert (Hv : vm_prot (Vma p (page_len w3 (w_page_size w3)) (Some PROT_NONE) :: w_vm w3) p = Some PROT_NONE)
      by (rewrite vm_prot_cons; cbn [vma_start vma_len vma_prot]; by rewrite decide_True by lia).
    intros _. split; [intros Hnone; by assert (Some PROT_NONE = None) by (rewrite <-Hv; exact Hnone)|]. intros Ho.
    apply (reserved_vm w3 p (bt_heap _ _ Hb)); [exact Ho|]. apply Hfr. lia.
Qed.

(** C4. Starting up: from a process that never called the allocator,
    [_iso_alloc_initialize] returns, unless the system refuses memory or entropy, with a
    process that holds no block, satisfies the invariants of zones and big zones, has room
    for the bitmaps of new zones and one internal zone for every default size. *)
Theorem iso_alloc_initialize_correct w : unstarted w → wp resource _iso_alloc_initialize (λ _ w', ready w') w.
Proof. apply wp_initialize. Qed.
End init.
