(* ===== verification/HeapTheorems.v ===== *)
(** * Theorems about allocation and release

    The statements a caller of src/iso_alloc.c relies on, for every process that satisfies
    the invariants [heap_inv] and [bigs_inv], or both at once ([process]). *)

From S2P Require Import Prelude Words Conf Memory State Util ZoneBits FreeList Chunks Lookup Heap Zones BigZones BigSpec Verify MemTags Alloc AllocSpec NewZone MemOps Profiler Interfaces HeapOps Blocks Quarantine Realloc MallocSpec Init.

Section zones.
Context `{!Kernel, !KernelLaws, !Config}.

(** C9. [_iso_new_zone] on a well-formed heap with room for one more zone: unless the
    system refuses memory or entropy, a zone is added at the end of the zone array whose
    chunk size is the request rounded up to 32 bytes; its user pages lie between two
    guard pages, it has a chunk to hand out, the heap invariant holds again and every
    chunk in use keeps its place and its contents. *)
Theorem iso_new_zone_correct w size : heap_inv w → bitmaps_room w → 0 <= size <= SMALL_SIZE_MAX →
  wp resource (_iso_new_zone size true (-1)) (λ r w', ∃ i, r = Some i ∧ zone_created w w' size i) w.
Proof. intros Hw Hroom Hs. apply wp_iso_new_zone; [done|by apply allows_resource|done]. Qed.

(** C3. [_iso_alloc] on a request of at most 4 GiB, whether the thread's cache, the lists
    by size, the search through all zones, a new zone, a free big zone or a new one serves
    it: it returns (or stops because the system refuses memory or entropy) the address of a
    block that was not live and is at least as large as the request, a big zone only if more
    than 64 KiB were asked for; all other live blocks,
    chunks and big zones, and only they, stay live, in place and with their contents, the
    invariants hold again and no lock is taken. *)
Theorem iso_alloc_correct w lu lf size : process w lu lf → unlocked w → bitmaps_room w → mask_ok w → FUZZ_MODE = false →
  0 <= size <= BIG_SZ_MAX → NO_ZERO_ALLOCATIONS && (size =? 0) = false →
  wp resource (_iso_alloc None size) (λ p w', ∃ lu' lf' k, block_alloc w w' lu lu' lf' size p k ∧ size_ok w' k size) w.
Proof. intros. apply (wp_alloc_block resource w lu lf); try done. by apply allows_resource. Qed.

(** C40. A request within 31 bytes of the top of the address space wraps to zero when it
    is rounded up, and [_iso_alloc] answers it with a chunk of at most 64 KiB instead of
    refusing it. *)
Theorem iso_alloc_wraps w size : heap_inv w → bitmaps_room w → 0 < zones_used (w_root w) → FUZZ_MODE = false →
  w_root_lock w = false → 2 ^ 64 - 31 <= size < 2 ^ 64 →
  wp resource (_iso_alloc None size) (λ p w', ∃ i c, in_use_at w' i c ∧ p = chunk_at w' i c ∧ chunk_size (zone_at w' i) <= 65536) w.
Proof.
  intros Hw Hroom Hpos Hfz Hl Hs.
  assert (Hcs : chunk_size_of size = 0).
  { unfold chunk_size_of. change SMALLEST_CHUNK_SZ with 32. change SZ_ALIGNMENT with 32. rewrite (proj2 (Z.ltb_ge size 32)) by lia.
    assert (Hm : size mod 32 = size - (2 ^ 64 - 32)).
    { symmetry. apply (Z.mod_unique size 32 576460752303423487); [left; lia|]. lia. }
    rewrite (proj2 (Z.eqb_neq _ 0)) by lia. cbn [negb]. rewrite ALIGN_SZ_UP_eq.
    assert (u64 (size + 31) = size + 31 - 2 ^ 64) as ->; [|rewrite Z.mod_small; lia].
    rewrite u64_pow. replace (size + 31) with ((size + 31 - 2 ^ 64) + 1 * 2 ^ 64) at 1 by lia. rewrite Z.mod_add by lia. apply Z.mod_small. lia. }
  assert (NO_ZERO_ALLOCATIONS && (size =? 0) = false) as Hz by (rewrite (proj2 (Z.eqb_neq size 0)) by lia; apply andb_false_r).
  eapply wp_post; [apply wp_iso_alloc_rounded; rewrite ?Hcs; try done; by apply allows_resource|]. intros p w' (i & c & Hsa). exists i, c.
  destruct (chunk_at_facts w' i c (sa_heap _ _ _ _ _ _ Hsa) (sa_chunk _ _ _ _ _ _ Hsa)) as (_ & _ & _ & _ & Hcsz).
  split_and!; [apply Hsa|apply Hsa|lia].
Qed.

(** C6. [_iso_free_internal] on the address of a chunk in use finds its zone, releases
    the chunk (a permanent free retires it for good), keeps every other chunk in use
    with its contents, re-establishes the invariant and unlocks the root. *)
Theorem iso_free_correct w permanent i c : heap_inv w → FUZZ_MODE = false → w_root_lock w = false → plain_free w i c →
  ∃ w', _iso_free_internal (chunk_at w i c) permanent w = Ret tt w' ∧ small_free w w' permanent i c.
Proof. apply free_internal_run. Qed.

(** C8. The bytes [_iso_alloc] answers are not shared: the address is not NULL, aligned to 32
    bytes and below 2^47, the bytes asked for are readable and writable, and none of them lies
    in a block, chunk or big zone, that was live when the call was made. *)
Theorem iso_alloc_apart w lu lf size : process w lu lf → unlocked w → bitmaps_room w → mask_ok w → FUZZ_MODE = false →
  0 <= size <= BIG_SZ_MAX → NO_ZERO_ALLOCATIONS && (size =? 0) = false →
  wp resource (_iso_alloc None size) (λ p w', 0 < p ∧ p + size <= 2 ^ 47 ∧ p mod 32 = 0 ∧ mapped_rw (w_vm w') p size ∧
    ∀ k x, live w lu k → in_block w k x → ¬ (p <= x < p + size)) w.
Proof.
  intros Hp Hun Hroom Hmask Hfz Hs Hz. eapply wp_post; [apply (wp_alloc_block resource w lu lf); try done; by apply allows_resource|].
  cbv beta. intros p w' (lu' & lf' & k & Hba & _). destruct (ba_block _ _ _ _ _ _ _ _ Hba) as (Hk & -> & Hsz). pose proof (ba_process _ _ _ _ _ _ _ _ Hba) as Hp'.
  destruct (live_facts w' lu' lf' k Hp' Hk) as (F1 & F2 & F3 & _ & F5 & _). split_and!; [done|lia|done|intros x Hx; apply F5; lia|].
  intros k0 x Hk0 Hx Hin. pose proof (ba_kept _ _ _ _ _ _ _ _ Hba k0 Hk0) as Hc. apply (ba_fresh _ _ _ _ _ _ _ _ Hba).
  assert (k = k0) as ->; [|done]. apply (live_disjoint w' lu' lf' k k0 x Hp' Hk (cd_live _ _ _ _ Hc)); [unfold in_block; lia|].
  unfold in_block in *. by rewrite (cd_addr _ _ _ _ Hc), (cd_len _ _ _ _ Hc).
Qed.

(** C5. [iso_free] on a block the program holds: the block is parked behind the blocks
    [l] of the quarantine, still live and with its contents; when 64 blocks are parked
    already, exactly those are released, chunks to their zones and big zones to the free
    list or the system, and the block is the first of a new round. All other live blocks
    keep their contents, the invariants hold again and no lock is taken; unless the array
    was full the call always returns. *)
Theorem iso_free_parks w lu lf l k : process w lu lf → plain_build → unlocked w → quarantined w lu l → live w lu k → k ∉ l →
  (full l = true → ∀ b, b ∈ l → harmless w b) →
  wp (λ e, full l = true ∧ resource e) (iso_free (addr w k))
    (λ _ w', unlocked w' ∧ ∃ lu' lf', parked w w' lu lu' lf' (evicted l) (parked_list l k)) w.
Proof. intros Hp Hg Hun Hq Hk Hn Hh. apply (wp_iso_free resource w lu lf); try done. intros Hf b Hb. apply frees_resource. by apply Hh. Qed.

(** Every run refines the specification. *)
Lemma run_refines w h es w' h' : run_build → sound w h → heap_run w h es w' h' → spec_run (contents w h) es (contents w' h') ∧ sound w' h'.
Proof.
  intros Hg Hr Hrun. induction Hrun as [w h|w h e w1 h1 es w2 h2 Hstep Hrun IH]; [split; [constructor|done]|].
  destruct (running_step w h e w1 h1 Hg Hr Hstep) as [Hs Hr1]. destruct (IH Hr1) as [Hs2 Hr2]. split; [by econstructor|done].
Qed.

(** C1. Every run of a program that allocates with [iso_alloc], [iso_calloc] and
    [iso_realloc], frees with [iso_free], asks [iso_chunksz], reads and writes, as long as
    its calls return, is a run of the abstract memory manager: blocks never overlap, keep the
    bytes last written to them, and disappear only when freed or resized, whatever the
    quarantine holds, whichever zones are worn out and retired, however full the pages of
    bitmaps are; requests for no bytes and NULL pointers are harmless, requests above 4 GiB
    are answered with NULL; and the process keeps its invariants. The program passes on only
    what it holds and asks for less than [2 ^ 64 - 31] bytes, from where sizes wrap. The build
    has no guard pages around big zones, no memory tags, no fuzzing and no permanent free on
    a resize, as shipped; the random mask of the big zone lists, drawn once, is at least
    [2 ^ 47], so that it equals no address. *)
Theorem heap_refines_spec w h es w' h' : run_build → mask_ok w → running w h → heap_run w h es w' h' →
  spec_run (contents w h) es (contents w' h') ∧ running w' h'.
Proof. intros Hg Hm Hr Hrun. destruct (run_refines w h es w' h' Hg (conj Hr Hm) Hrun) as [Hs [Hr' _]]. done. Qed.

(** C2. The same from the first call on: a process that never called the allocator starts
    up, unless the system refuses memory or entropy, and, if the mask it drew for the big zone
    lists is at least [2 ^ 47], every run of a program from there is a run of the abstract
    memory manager that starts with no block, for programs and builds as above. *)
Theorem started_program_refines_spec w : run_build → unstarted w →
  wp resource _iso_alloc_initialize (λ _ w0, mask_ok w0 → ∀ es w' h', heap_run w0 ∅ es w' h' → spec_run ∅ es (contents w' h') ∧ running w' h') w.
Proof.
  intros Hg Hun. eapply wp_post; [by apply wp_initialize|]. intros u w0 (_ & Hr & _) Hm es w' h' Hrun.
  assert (contents w0 ∅ = ∅) as He by apply map_imap_empty. rewrite <-He.
  destruct (run_refines w0 ∅ es w' h' Hg (conj Hr Hm) Hrun) as [Hs [Hr' _]]. done.
Qed.

(** C16. A request above 64 KiB and up to 4 GiB is served by the big zones: [_iso_alloc]
    rounds it up, gives the root lock back and moves the first free big zone that is large
    enough and wastes at most [2 * BIG_ZONE_WASTE] bytes, twice what include/conf.h says, to
    the used list, or, when there is none, maps pages that were not mapped before; both lists stay well formed, their
    zones stay apart, and no byte of another big zone changes. *)
Theorem iso_alloc_big_correct w lu lf size : bigs_inv w lu lf [] → mask_ok w →
  w_root_lock w = false → w_big_used_lock w = false → w_big_free_lock w = false → SMALL_SIZE_MAX < size <= BIG_SZ_MAX →
  size <= chunk_size_of size ∧
  wp resource (_iso_alloc None size) (λ p w', big_allocated w w' (chunk_size_of size) lu lf p) w.
Proof.
  intros Hw Hm Hl Hul Hfl Hs. split; [apply chunk_size_of_max, Hs|by apply wp_iso_alloc_big].
Qed.

(** C17. [_iso_free_internal] on the start of a big zone in use, which no zone contains,
    unlinks exactly that zone from the used list; it goes to the front of the free list with
    its structure and canaries kept, as long as the list has room and the zone was not
    reused too often, otherwise its pages are unmapped. The other zones of both lists are
    untouched either way. (Builds without guard pages around big zones, as shipped.) *)
Theorem iso_free_big_correct w lu1 a lu2 lf b : heap_inv w → 0 < zones_used (w_root w) → FUZZ_MODE = false →
  BIG_ZONE_GUARD = false → BIG_ZONE_META_DATA_GUARD = false →
  bigs_inv w (lu1 ++ a :: lu2) lf [] → w_bigs w !! a = Some b → in_no_zone w (big_user_pages_start b) →
  w_root_lock w = false → w_big_used_lock w = false → w_big_free_lock w = false →
  wp resource (_iso_free_internal (big_user_pages_start b) false)
    (λ _ w', w_root_lock w' = false ∧ ∃ w2, big_released (set_w_root_lock true w) w2 lu1 a lu2 lf b ∧ w' = set_w_root_lock false w2) w.
Proof. apply wp_free_internal_big. Qed.

(** C21. [_iso_chunk_size] reports, without changing anything, the size of a live block at
    its address, the chunk size of the zone for any pointer into a zone, and 0 for NULL. *)
Theorem iso_chunk_size_correct w lu lf : process w lu lf → unlocked w →
  (∀ k, live w lu k → _iso_chunk_size (addr w k) w = Ret (len w k) w) ∧
  (∀ i p, 0 <= i < zones_used (w_root w) → UNMASK_USER_PTR (zone_at w i) <= p < UNMASK_USER_PTR (zone_at w i) + ZONE_USER_SIZE →
     _iso_chunk_size p w = Ret (chunk_size (zone_at w i)) w) ∧
  _iso_chunk_size 0 w = Ret 0 w.
Proof.
  intros Hp Hun. pose proof (ps_heap _ _ _ Hp) as Hw. split_and!; [intros k; by apply (chunk_size_block w lu lf)| |done].
  intros i p Hi Hr. destruct (hv_zone_at w i Hw Hi) as [_ Hinv]. pose proof (zm_user _ _ _ _ (zinv_mapped _ _ _ _ _ Hinv)) as [U1 _].
  apply (chunk_size_run w i); try done; [apply Hun|lia|]. destruct NO_ZERO_ALLOCATIONS eqn:Hz; [|done]. cbn [andb]. apply Z.eqb_neq. intros ->.
  destruct (ps_zero _ _ _ Hp Hz) as (_ & Hno & _). apply Hno, owned_reserved; [done|]. left. exists i. split; [done|by left].
Qed.

(** The chunk a pointer into zone [i] would free. *)
Lemma free_internal_rejects w permanent i p e : heap_inv w → FUZZ_MODE = false → w_root_lock w = false → 0 <= i < zones_used (w_root w) →
  UNMASK_USER_PTR (zone_at w i) <= p < UNMASK_USER_PTR (zone_at w i) + ZONE_USER_SIZE →
  iso_free_chunk_from_zone i p permanent (set_w_root_lock true w) = Abort e → _iso_free_internal p permanent w = Abort e.
Proof.
  intros Hw Hfz Hl Hi Hp He. unfold _iso_free_internal. erewrite run_bind by (unfold LOCK_ROOT; by rewrite Hl).
  unfold mbind at 1, M_bind at 1. unfold _iso_free_internal_unlocked. rewrite Hfz. cbn [when]. erewrite run_bind by done.
  erewrite run_bind by (apply (find_zone_range_run _ p i); [by apply heap_inv_root_lock|done|done]). cbv iota.
  unfold mbind at 1, M_bind at 1. by rewrite He.
Qed.

(** C7. [_iso_free_internal] stops the process on a pointer into a zone that is not at the
    start of a chunk, is past the chunks the bitmap describes, or is at a chunk whose in-use
    bit is clear (a double free or a chunk never handed out). Canary chunks and chunks that
    were freed permanently have that bit set and are not among them. *)
Theorem iso_free_rejects w permanent i p : heap_inv w → FUZZ_MODE = false → w_root_lock w = false → 0 <= i < zones_used (w_root w) →
  UNMASK_USER_PTR (zone_at w i) <= p < UNMASK_USER_PTR (zone_at w i) + ZONE_USER_SIZE →
  let z := zone_at w i in
  let off := p - UNMASK_USER_PTR z in
  (off mod chunk_size z ≠ 0 → _iso_free_internal p permanent w = Abort ChunkMisaligned) ∧
  (off mod chunk_size z = 0 → slots z <= off / chunk_size z → _iso_free_internal p permanent w = Abort ChunkOutsideBitmap) ∧
  (off mod chunk_size z = 0 → off / chunk_size z < slots z →
     bm_bit (w_mem w) (UNMASK_BITMAP_PTR z) (2 * (off / chunk_size z)) = false → _iso_free_internal p permanent w = Abort DoubleFree).
Proof.
  intros Hw Hfz Hl Hi Hp z off. destruct (hv_zone_at w i Hw Hi) as [_ Hinv].
  pose proof (zm_user _ _ _ _ (zinv_mapped _ _ _ _ _ Hinv)) as [_ Htop].
  destruct (free_rejects_misuse_raw i p (set_w_root_lock true w) permanent Hinv) as (A1 & A2 & A3); [change (zone_at _ i) with z; fold z in Hp, Htop; lia|].
  split_and!; intros; apply (free_internal_rejects w permanent i); auto.
Qed.

End zones.
