(* ===== verification/Demo.v ===== *)
(** * A concrete process

    A kernel that satisfies the laws of [KernelLaws], and a process with one zone, of which
    two chunks are in use, and one big zone, on which the hypotheses of the theorems are
    discharged by evaluation. *)

From S2P Require Import Prelude Words Conf Memory State Util ZoneBits FreeList Chunks Lookup Heap BigZones BigSpec.

(** ** A kernel *)

(** The first page above every mapping. *)
Definition demo_top (vm : list vma) : Z :=
  foldr (λ v acc, Z.max (vma_start v + Z.max 0 (vma_len v)) acc) 1048576 vm.
Definition demo_addr (vm : list vma) : Z := (demo_top vm + 4095) / 4096 * 4096.

#[global] Instance demo_kernel : Kernel := {|
  kst := Z;
  k_page_size := λ _, 4096;
  k_mmap := λ k vm _ n,
    (if demo_addr vm + n <=? 2 ^ 47 then Some (demo_addr vm) else None, k);
  k_mprotect := λ k _ _, (true, k);
  k_madvise_free := λ k m _ _, (m, k);
  k_getrandom := λ k, (Some (u64 (k * 0x9E3779B97F4A7C15)), k + 1);
|}.

Lemma demo_top_above vm x : demo_top vm <= x → vm_prot vm x = None.
Proof.
  induction vm as [|v vm IH]; [done|]. simpl. intros Hx. rewrite vm_prot_cons, decide_False by lia.
  apply IH. lia.
Qed.

Lemma demo_addr_bounds vm : 1048576 <= demo_top vm <= demo_addr vm ∧ demo_addr vm mod 4096 = 0.
Proof.
  split; [split|].
  - induction vm as [|v vm IH]; simpl; lia.
  - unfold demo_addr. pose proof (Z.div_mod (demo_top vm + 4095) 4096). pose proof (Z.mod_pos_bound (demo_top vm + 4095) 4096). lia.
  - unfold demo_addr. by rewrite Z.mod_mul.
Qed.

#[global] Instance demo_laws : KernelLaws.
Proof.
  split; try (intros; simpl in *; by simplify_eq).
  - intros k. exists 12. simpl. lia.
  - intros k vm h n p k' Heq. simpl in Heq. destruct (_ <=? _); simplify_eq. apply demo_addr_bounds.
  - intros k vm h n p k' Heq. simpl in *. destruct (Z.leb_spec (demo_addr vm + n) (2 ^ 47)); simplify_eq.
    pose proof (demo_addr_bounds vm). lia.
  - intros k vm h n p k' Heq x Hx. simpl in Heq. destruct (_ <=? _); simplify_eq.
    apply demo_top_above. pose proof (demo_addr_bounds vm). lia.
  - intros k m a n m' k' Heq x. simpl in Heq. simplify_eq. by left.
  - intros k v k' Heq. simpl in Heq. simplify_eq. apply u64_range.
Defined.

#[global] Existing Instance makefile_config.

(** ** A zone *)

Definition demo_U : Z := 0x40000000.
Definition demo_B : Z := 0x20000000.
Definition demo_mask : Z := 0x5a5a12345678.

(** 128 chunks of 32 KiB; chunks 0 and 1 are in use. *)
Definition demo_zone : iso_alloc_zone_t :=
  mk_zone (Z.lxor demo_U demo_mask) (Z.lxor demo_B demo_mask) BAD_BIT_SLOT 0x1122334455667788 demo_mask
    4 32768 0 0 false true false (-1) 32 2 128 2 0 0 (replicate 255 BAD_BIT_SLOT).

(** The same zone with its pointers in the clear, as inside the allocator. *)
Definition demo_zone_clear : iso_alloc_zone_t := UNMASK_ZONE_PTRS demo_zone.

(** A big zone of 128 KiB. *)
Definition demo_A : Z := 0x60000000.
Definition demo_big_pages : Z := 0x61000000.
Definition demo_next_mask : Z := 0x1234567812345678.
(** The page for requests of zero bytes. *)
Definition demo_zero_page : Z := 0x30000000.

Definition demo_vm : list vma :=
  [Vma demo_U ZONE_USER_SIZE (Some PROT_RW); Vma demo_B 4096 (Some PROT_RW);
   Vma demo_A 4096 (Some PROT_RW); Vma demo_big_pages 131072 (Some PROT_RW);
   Vma demo_zero_page 4096 (Some PROT_NONE);
   Vma (demo_U - 4096) (ZONE_USER_SIZE + 8192) (Some PROT_NONE); Vma (demo_B - 4096) 12288 (Some PROT_NONE)].
Definition demo_mem : gmap Z Z := st64 ∅ demo_B 5.

(** The root, with the head and the length of the used list. *)
Definition demo_root (used count : Z) : iso_alloc_root :=
  mk_root 0x10000000 0 used demo_zero_page ∅ (replicate 8 (mk_bitmap 0 0 0)) 0x77 demo_next_mask 0x4242424242424242 1 0 0 5 0 count 1.

Definition demo_big : iso_alloc_big_zone_t :=
  let canary := big_canary (demo_root 0 0) demo_A demo_big_pages in
  mk_big canary false 131072 0 demo_big_pages 0 canary.

Definition demo_process (r : iso_alloc_root) (z : iso_alloc_zone_t) : world :=
  mk_world demo_mem demo_vm (0 : kst) false
    r {[ 0 := z ]} {[ demo_A := demo_big ]} ∅ (replicate 64 0) (replicate 8 (mk_tzc 0 0)) 0 4096 12 false false false.
Definition demo_with (z : iso_alloc_zone_t) : world := demo_process (demo_root (Z.lxor demo_next_mask demo_A) 1) z.
Definition demo_world : world := demo_with demo_zone.
(** The same process while the big zone is in no list. *)
Definition demo_unlinked : world := demo_process (demo_root 0 0) demo_zone.

Lemma demo_page_ok r z : page_ok (demo_process r z).
Proof. unfold page_ok. simpl. lia. Qed.

(** No chunk of the bitmap at [demo_B] was released or is a canary. *)
Definition unused_bits (m : gmap Z Z) (n : Z) : bool := forallb (λ c, negb (bm_bit m demo_B (2 * c + 1))) (seqZ 0 n).

Lemma demo_bits m n c : unused_bits m n = true → 0 <= c < n → bm_bit m demo_B (2 * c + 1) = false.
Proof.
  intros Hall Hc. unfold unused_bits in Hall. rewrite forallb_forall in Hall. apply negb_true_iff, Hall, list_elem_of_In, elem_of_seqZ. lia.
Qed.

Lemma demo_mapped : mapped_rw demo_vm demo_U ZONE_USER_SIZE ∧ mapped_rw demo_vm demo_B 4096 ∧
  mapped_rw demo_vm demo_A 4096 ∧ mapped_rw demo_vm demo_big_pages 131072.
Proof.
  split_and!; intros x Hx; unfold demo_vm; rewrite !vm_prot_cons; unfold demo_U, demo_B, demo_A, demo_big_pages, ZONE_USER_SIZE in *; simpl;
    repeat case_decide; done || lia.
Qed.

(** The mappings of the zone, with the guard pages. *)
Lemma demo_guarded n x : 0 < n <= 4096 → pages_at 4096 demo_U demo_B n (-1) x →
  (demo_U - 4096 <= x < demo_U + ZONE_USER_SIZE + 4096 ∨ demo_B - 4096 <= x < demo_B + 8192) ∧ vm_prot demo_vm x ≠ None.
Proof.
  intros Hn Hx. assert (whole_pages 4096 n = 4096) as Hwp.
  { unfold whole_pages. destruct (decide (n = 4096)) as [->|Hne]; [done|]. rewrite Z.mod_small by lia. destruct (Z.eqb_spec n 0); lia. }
  unfold pages_at in Hx. rewrite Hwp in Hx. split; [lia|]. unfold demo_vm. rewrite !vm_prot_cons.
  unfold demo_U, demo_B, demo_A, demo_big_pages, demo_zero_page, ZONE_USER_SIZE in *. simpl. repeat case_decide; done || lia.
Qed.

(** A zone at [demo_U] with an empty cache of free bit slots. *)
Record demo_like (m : gmap Z Z) (z : iso_alloc_zone_t) : Prop := {
  dl_geom : zone_geom z;
  dl_size : 0 < bitmap_size z <= 4096;
  dl_bits : unused_bits m (slots z) = true;
  dl_in_use : af_count z = Z.of_nat (length (in_use_chunks m demo_B z));
  dl_secret : is_u64 (canary_secret z);
  dl_cache : free_bit_slots z = replicate 255 BAD_BIT_SLOT ∧ free_bit_slots_index z = 0 ∧ free_bit_slots_usable z = 0
    ∧ next_free_bit_slot z = BAD_BIT_SLOT ∧ is_full z = false;
  dl_place : index z = 0 ∧ preallocated_bitmap_idx z = -1;
}.

Lemma demo_like_zinv m z : demo_like m z → zinv demo_vm m demo_U demo_B z.
Proof.
  intros [Hg Hsz Hbits Haf Hsec (Hfb & Hi & Hu & Hn & Hfull) _]. pose proof (zone_max_idx z Hg) as (Hmax & Hle & Hbs).
  destruct demo_mapped as (HU & HB & _). constructor; try done.
  - constructor; unfold demo_U, demo_B, ZONE_USER_SIZE; try done; try lia.
    eapply mapped_rw_sub; [exact HB|unfold demo_B; lia..].
  - assert (Hlive : live_cache z = []) by (unfold live_cache; by rewrite Hfb, Hi, Hu).
    constructor; rewrite ?Hlive, ?Hfb, ?Hi, ?Hu, ?Hn, ?Hfull; try done; try lia.
    + intros i Hr. rewrite nth_lookup, lookup_replicate_2 by lia. done.
    + by left.
  - intros _ c Hc Hb. by rewrite (demo_bits m (slots z)) in Hb.
Qed.

Lemma demo_zone_like z : z = demo_zone ∨ z = demo_zone_clear → demo_like demo_mem z.
Proof.
  intros Hz. destruct Hz as [-> | ->]; constructor; try (vm_compute; reflexivity); try (by split_and!);
    try (unfold is_u64; simpl; lia); constructor; simpl; reflexivity || lia.
Qed.

Lemma demo_zinv z : z = demo_zone ∨ z = demo_zone_clear → zinv demo_vm demo_mem demo_U demo_B z.
Proof. intros Hz. by apply demo_like_zinv, demo_zone_like. Qed.

Lemma demo_zone_inv : zone_inv demo_vm demo_mem demo_zone.
Proof. apply (demo_zinv demo_zone). by left. Qed.

(** ** The invariants hold *)

Lemma demo_bitmaps used count (i : nat) bm : bitmaps (demo_root used count) !! i = Some bm → bm = mk_bitmap 0 0 0.
Proof. change (bitmaps _) with (replicate 8 (mk_bitmap 0 0 0)). by intros [-> _]%lookup_replicate. Qed.

Lemma demo_like_heap m z used count : demo_like m z → UNMASK_USER_PTR z = demo_U → UNMASK_BITMAP_PTR z = demo_B → next_sz_index z = 0 →
  heap_inv (set_w_mem m (demo_process (demo_root used count) z)).
Proof.
  intros Hl HUz HBz Hnx. assert (Hi : ∀ i, 0 <= i < zones_used (demo_root used count) → i = 0) by (simpl; lia).
  set (w := set_w_mem m _). assert (Hat : zone_at w 0 = z) by reflexivity.
  destruct demo_mapped as (HU & HB & _ & _). constructor; try done.
  - intros i ->%Hi. exists z. split; [done|]. unfold zone_inv. rewrite HUz, HBz. by apply demo_like_zinv.
  - intros i j ->%Hi ->%Hi. done.
  - intros a. by left.
  - intros e He. by apply not_elem_of_nil in He.
  - intros size _ _. by left.
  - intros i ->%Hi. left. by rewrite Hat.
  - constructor.
    + intros a n x (i & bm & k & Hb & -> & Hn & _). by rewrite (demo_bitmaps _ _ _ _ Hb) in Hn.
    + intros i j bi bj Hb _ _ Hn. by rewrite (demo_bitmaps _ _ _ _ Hb) in Hn.
    + intros i bm Hb Hn. by rewrite (demo_bitmaps _ _ _ _ Hb) in Hn.
  - intros i x ->%Hi. rewrite Hat. unfold footprint. rewrite HUz, HBz. pose proof (dl_size _ _ Hl).
    intros [Hx|Hx]; [rewrite HU; [done|exact Hx]|]. rewrite HB; [done|lia].
  - destruct (dl_place _ _ Hl) as [Hix Hpre]. pose proof (zone_max_idx z (dl_geom _ _ Hl)) as (_ & _ & Hbs). pose proof (dl_size _ _ Hl).
    constructor; change (w_page_size w) with 4096.
    + by intros i ->%Hi.
    + intros i ->%Hi. rewrite Hat, HUz, HBz. done.
    + intros i x ->%Hi. rewrite Hat. unfold zone_pages. rewrite HUz, HBz, Hpre. intros Hx. apply (demo_guarded (bitmap_size z) x); [lia|done].
    + intros i j x ->%Hi ->%Hi. done.
    + intros i ->%Hi. by rewrite Hat, Hpre.
    + intros l bm x Hb [Hn _]. by rewrite (demo_bitmaps _ _ _ _ Hb) in Hn.
    + intros l l' bm bm' Hb _ _ Hn. by rewrite (demo_bitmaps _ _ _ _ Hb) in Hn.
Qed.

Lemma demo_heap used count : heap_inv (demo_process (demo_root used count) demo_zone).
Proof. apply (demo_like_heap demo_mem demo_zone used count); [|done..]. apply demo_zone_like. by left. Qed.

Lemma demo_big_entry used count : big_entry (demo_process (demo_root used count) demo_zone) demo_A demo_big.
Proof.
  destruct demo_mapped as (_ & _ & HA & HP). constructor; try done.
  - eapply mapped_rw_sub; [exact HA|lia|change SIZEOF_BIG_ZONE with 48; autounfold with conf; lia].
  - simpl w_vm. intros x [Hx|Hx]; [rewrite HP; [done|exact Hx]|rewrite HA; [done|]]. exact Hx.
Qed.

(** The big zone is in the used list, or a running call holds it. *)
Lemma demo_bigs (used count : Z) (lu ld : list Z) : lu = [demo_A] ∧ ld = [] ∧ used = Z.lxor demo_next_mask demo_A ∧ count = 1 ∨
  lu = [] ∧ ld = [demo_A] ∧ used = 0 ∧ count = 0 → bigs_inv (demo_process (demo_root used count) demo_zone) lu [] ld.
Proof.
  intros Hl. assert (He : lu ++ [] ++ ld = [demo_A]) by (destruct Hl as [(-> & -> & _)|(-> & -> & _)]; done).
  assert (Hone : ∀ a, a ∈ lu ++ [] ++ ld → a = demo_A) by (intros a; rewrite He; apply list_elem_of_singleton).
  destruct demo_mapped as (_ & _ & _ & HP). constructor; try done.
  - destruct Hl as [(-> & _ & -> & _)|(-> & _ & -> & _)]; [|done]. simpl. split_and!; try done.
    exists demo_big. split; [|done]. apply lookup_singleton_eq.
  - rewrite He. apply NoDup_singleton.
  - simpl. destruct Hl as [(-> & _ & _ & ->)|(-> & _ & _ & ->)]; done.
  - intros a ->%Hone. exists demo_big. split; [apply lookup_singleton_eq|]. split; [apply demo_big_entry|]. split; [done|]. intros _. exact HP.
  - intros a a' b b' ->%Hone ->%Hone Hb Hb'. simpl in Hb, Hb'. rewrite lookup_singleton_eq in Hb, Hb'. simplify_eq.
    split; [done|]. left. change (0x60000000 + 4096 <= 0x61000000). lia.
Qed.

Lemma demo_inv : heap_inv demo_world ∧ bigs_inv demo_world [demo_A] [] [] ∧ bigs_inv demo_unlinked [] [] [demo_A].
Proof. split_and!; [apply demo_heap|apply demo_bigs; by left|apply demo_bigs; by right]. Qed.

(** The value of a call that returns, and the reason of one that aborts. *)
Definition value {A} (o : outcome A) : option A := match o with Ret a _ => Some a | _ => None end.
Definition reason {A} (o : outcome A) : option abort_reason := match o with Abort e => Some e | _ => None end.
