(* ===== verification/Witnesses.v ===== *)
(** * Witnesses

    Each theorem with hypotheses, applied to the concrete process of [Demo]. *)

From S2P Require Import Prelude Words Conf Memory State Util ZoneBits FreeList Chunks Demo.

(** ** Utilities *)

Lemma log2_correct_witness : 0 < 4096 < 2 ^ 32 ∧ _log2 4096 = 12.
Proof. split; [lia|]. apply (log2_correct 4096). lia. Defined.

Lemma round_up_page_correct_witness :
  ROUND_UP_PAGE 4096 12 4097 mod 4096 = 0 ∧ ROUND_UP_PAGE 4096 12 (2 ^ 64 - 1) = 0.
Proof.
  split.
  - apply (round_up_page_correct 4096 12 ltac:(lia) ltac:(reflexivity) 4097); unfold is_u64; lia.
  - apply (round_up_page_correct 4096 12 ltac:(lia) ltac:(reflexivity) (2 ^ 64 - 1)); unfold is_u64; lia.
Defined.

Lemma mmap_guarded_rw_pages_correct_witness :
  wp resource (mmap_guarded_rw_pages 5000) (λ p w', guarded_mapping demo_world w' p 5000) demo_world.
Proof. apply (mmap_guarded_rw_pages_correct 5000 demo_world); [apply demo_page_ok|lia]. Defined.

(** ** The free bit slot cache *)

Lemma cache_is_fifo_queue_witness :
  ∃ z', insert_free_bit_slot 0 6 demo_world = Ret tt (zput_w 0 z' demo_world) ∧ live_cache z' = [6].
Proof.
  destruct (cache_is_fifo_queue 0 demo_zone demo_world demo_mem demo_B) as [Hins _].
  - reflexivity.
  - apply (zinv_cache _ _ _ _ _ demo_zone_inv).
  - destruct (Hins 6) as (z' & Heq & _ & Hl); [discriminate|apply not_elem_of_nil|].
    exists z'. split; [exact Heq|exact Hl].
Defined.

Lemma fill_free_bit_slots_correct_witness :
  wp resource (fill_free_bit_slots 0)
    (λ _ w', ∃ l k s, w' = zput_w 0 (refilled l demo_zone_clear) (rng k s (demo_with demo_zone_clear)) ∧
       filled demo_mem demo_zone_clear l ∧ (length l <= 255)%nat ∧ NoDup l ∧
       Forall (free_slot demo_mem demo_B demo_zone_clear) l) (demo_with demo_zone_clear).
Proof.
  apply (fill_free_bit_slots_correct 0 (demo_with demo_zone_clear)).
  - apply demo_page_ok.
  - reflexivity.
  - apply (zinv_geom demo_vm demo_mem demo_U demo_B). apply demo_zinv. right. reflexivity.
  - apply (zm_bitmap_rw demo_vm demo_U demo_B). apply (zinv_mapped demo_vm demo_mem). apply demo_zinv. right. reflexivity.
Defined.

Lemma iso_scan_zone_free_slot_slow_correct_witness :
  ∃ r, iso_scan_zone_free_slot_slow 0 (demo_with demo_zone_clear) = Ret r (demo_with demo_zone_clear) ∧ r = 4.
Proof.
  destruct (iso_scan_zone_free_slot_slow_correct 0 (demo_with demo_zone_clear)) as (r & Heq & _).
  - vm_compute. reflexivity.
  - apply (zm_bitmap_rw demo_vm demo_U demo_B). apply (zinv_mapped demo_vm demo_mem). apply demo_zinv. right. reflexivity.
  - exists r. split; [exact Heq|].
    assert (Hv : value (iso_scan_zone_free_slot_slow 0 (demo_with demo_zone_clear)) = Some 4) by (vm_compute; reflexivity).
    rewrite Heq in Hv. injection Hv. auto.
Defined.

Lemma is_zone_usable_correct_witness :
  wp resource (is_zone_usable 0 32768) (λ b _, b = true) demo_world.
Proof.
  eapply wp_post.
  - apply (is_zone_usable_correct 0 32768 demo_zone demo_world);
      [lia|reflexivity|apply demo_page_ok|reflexivity|apply demo_zone_inv].
  - intros b w' (z' & k & s & _ & _ & _ & Hiff & _). apply Hiff. split; [unfold size_policy; simpl; split_and!; intros; first [lia|done]|].
    exists 4. unfold free_slot. split; [unfold slots, demo_U, demo_B; simpl; lia|].
    split; vm_compute; reflexivity.
Defined.

(** ** Chunks *)

Lemma alloc_bitslot_correct_witness :
  ∃ m', _iso_alloc_bitslot_from_zone 4 0 (demo_with demo_zone_clear) =
    Ret (demo_U + 2 * 32768) (zput_w 0 (allocated demo_zone_clear) (set_w_mem m' (demo_with demo_zone_clear))) ∧
    chunk_st m' demo_B 2 = ChunkInUse.
Proof.
  destruct (alloc_bitslot_correct 0 2 (demo_with demo_zone_clear) demo_U demo_B) as (m' & Heq & _ & _ & Hst & _).
  - apply demo_zinv. right. reflexivity.
  - reflexivity.
  - reflexivity.
  - unfold free_slot. split; [split; [lia|reflexivity]|]. split; vm_compute; reflexivity.
  - apply not_elem_of_nil.
  - reflexivity.
  - exists m'. split; [exact Heq|]. apply (Hst 2). split; [lia|reflexivity].
Defined.

Lemma demo_neighbour_ok : neighbour_ok demo_vm demo_mem demo_B 1 demo_zone.
Proof. left. reflexivity. Qed.

Lemma free_chunk_correct_witness :
  ∃ m' z', iso_free_chunk_from_zone 0 (demo_U + 32768) true demo_world = Ret tt (zput_w 0 z' (set_w_mem m' demo_world)) ∧
    chunk_st m' demo_B 1 = ChunkCanary ∧ af_count z' = 1.
Proof.
  destruct (free_chunk_correct 0 1 demo_zone demo_world true) as (m' & z' & Heq & _ & Hst & _ & Haf).
  - reflexivity.
  - apply demo_zone_inv.
  - unfold slots; simpl; lia.
  - vm_compute. reflexivity.
  - apply demo_neighbour_ok.
  - exists m', z'. split; [exact Heq|]. split; [|exact Haf]. apply (Hst 1). unfold slots; simpl; lia.
Defined.

Lemma free_rejects_misuse_witness :
  iso_free_chunk_from_zone 0 (demo_U + 8) false demo_world = Abort ChunkMisaligned ∧
  iso_free_chunk_from_zone 0 (demo_U + 3 * 32768) false demo_world = Abort DoubleFree.
Proof.
  split.
  - apply (free_rejects_misuse 0 (demo_U + 8) demo_world false); [apply demo_zone_inv|change (demo_U <= demo_U + 8 < 2 ^ 63); unfold demo_U; lia|].
    vm_compute. discriminate.
  - apply (free_rejects_misuse 0 (demo_U + 3 * 32768) demo_world false);
      [apply demo_zone_inv|change (demo_U <= demo_U + 3 * 32768 < 2 ^ 63); unfold demo_U; lia|vm_compute; reflexivity..].
Defined.

Lemma double_free_detected_witness :
  let p := chunk_addr (UNMASK_USER_PTR demo_zone) demo_zone 1 in
  p = demo_U + 32768 ∧
  (iso_free_chunk_from_zone 0 p false;; iso_free_chunk_from_zone 0 p false) demo_world = Abort DoubleFree.
Proof.
  split; [reflexivity|].
  apply (double_free_detected 0 1 demo_zone demo_world false).
  - reflexivity.
  - apply demo_zone_inv.
  - unfold slots; simpl; lia.
  - vm_compute. reflexivity.
  - apply demo_neighbour_ok.
Defined.
