(* ===== verification/HeapWitnesses.v ===== *)
(** * Witnesses for the heap

    The theorems about whole operations, applied to the concrete process of [Demo]. *)

From S2P Require Import Prelude Words Printf Conf Memory State Util Sanity ZoneBits FreeList Chunks Lookup MemOps Heap Zones BigZones BigSpec Verify Profiler MemTags Alloc Interfaces AllocSpec NewZone HeapOps Blocks Quarantine Realloc MallocSpec Init HeapTheorems Search Demo.

(** ** Facts about the demonstration process *)

Lemma demo_room : bitmaps_room demo_world.
Proof. intros i bm Hb Hn. by rewrite (demo_bitmaps _ _ _ _ Hb) in Hn. Qed.

Lemma demo_no_zone : in_no_zone demo_world demo_big_pages.
Proof.
  intros j Hj. assert (j = 0) as -> by (simpl in Hj; lia). change (UNMASK_USER_PTR _) with demo_U.
  unfold demo_U, demo_big_pages, ZONE_USER_SIZE. lia.
Qed.

Lemma demo_in_use j d : in_use_at demo_world j d ↔ j = 0 ∧ (d = 0 ∨ d = 1).
Proof.
  unfold in_use_at. split.
  - intros (Hj & Hd & Hst). assert (j = 0) as -> by (simpl in Hj; lia). split; [done|].
    assert (Hall : forallb (λ c, negb (bool_decide (chunk_st demo_mem demo_B c = ChunkInUse)) || (c <? 2)) (seqZ 0 128) = true)
      by (vm_compute; reflexivity).
    rewrite forallb_forall in Hall. change (slots _) with 128 in Hd. specialize (Hall d). rewrite <-list_elem_of_In, elem_of_seqZ in Hall.
    specialize (Hall ltac:(lia)). rewrite bool_decide_eq_true_2 in Hall by exact Hst. cbn [negb orb] in Hall. apply Z.ltb_lt in Hall. lia.
  - intros [-> Hd]. split; [simpl; lia|]. split; [change (slots _) with 128; lia|]. by destruct Hd as [-> | ->]; vm_compute.
Qed.

Lemma demo_plain c : c = 0 ∨ c = 1 → plain_free demo_world 0 c.
Proof.
  intros Hc. constructor; [by apply demo_in_use|left|done|done].
  change (slots _) with 128. lia.
Qed.

Lemma demo_calm c : c = 0 ∨ c = 1 → calm demo_world (0, c).
Proof.
  intros Hc. constructor; [by apply demo_in_use|left; change (slots _) with 128; simpl; lia|done|done].
Qed.

Lemma demo_chunk c : c = 0 ∨ c = 1 → chunk_at demo_world 0 c = demo_U + c * 32768 ∧ chunk_size (zone_at demo_world 0) = 32768.
Proof. by intros [-> | ->]. Qed.

Lemma demo_mask_ok : mask_ok demo_world.
Proof. right. change (2 ^ 47 <= demo_next_mask). unfold demo_next_mask. lia. Qed.

Lemma demo_reserved x : zone_reserved demo_world x → demo_U - 4096 <= x < demo_U + ZONE_USER_SIZE + 4096 ∨ demo_B - 4096 <= x < demo_B + 8192.
Proof.
  intros [(j & Hj & Hx)|(l & bm & Hb & [Hn _])].
  - assert (j = 0) as -> by (unfold zone_ix in Hj; simpl in Hj; lia). apply (demo_guarded 32 x); [lia|exact Hx].
  - by rewrite (demo_bitmaps _ _ _ _ Hb) in Hn.
Qed.

Lemma demo_region a b x : a ∈ [demo_A] ++ [] → w_bigs demo_world !! a = Some b → in_region demo_world a b x →
  demo_big_pages <= x < demo_big_pages + 131072 ∨ demo_A <= x < demo_A + 4096.
Proof.
  intros ->%list_elem_of_singleton Hb. assert (b = demo_big) as -> by (injection Hb; auto). unfold in_region, in_pages.
  change (meta_page demo_world demo_A) with demo_A. done.
Qed.

Lemma demo_process_ok : process demo_world [demo_A] [].
Proof.
  destruct demo_inv as (Hw & Hb & _). constructor; [exact Hw|done|exact Hb| |].
  - intros a b x Ha Hb' Hx Ho%demo_reserved. pose proof (demo_region a b x Ha Hb' Hx).
    unfold demo_A, demo_big_pages, demo_U, demo_B, ZONE_USER_SIZE in *. lia.
  - intros _. cbv zeta. change (zero_alloc_page _) with demo_zero_page. split_and!.
    + change (vm_prot demo_vm demo_zero_page ≠ None). unfold demo_vm. rewrite !vm_prot_cons.
      unfold demo_zero_page, demo_U, demo_B, demo_A, demo_big_pages, ZONE_USER_SIZE. simpl. repeat case_decide; done || lia.
    + intros Ho%demo_reserved. unfold demo_zero_page, demo_U, demo_B, ZONE_USER_SIZE in *. lia.
    + intros a b Ha Hb' Hx. pose proof (demo_region a b _ Ha Hb' Hx). unfold demo_A, demo_big_pages, demo_zero_page in *. lia.
Qed.

Lemma demo_unlocked : unlocked demo_world.
Proof. done. Qed.

Lemma demo_build : plain_build.
Proof. done. Qed.

Lemma demo_quarantined : quarantined demo_world [demo_A] [].
Proof. by apply quarantined_nil. Qed.

(** What the program of [Demo] holds: two chunks and the big zone. *)
Definition demo_held : gmap Z Z := {[ demo_U := 32000; demo_U + 32768 := 500; demo_big_pages := 100000 ]}.

Lemma demo_live k : live demo_world [demo_A] k → k = Small 0 0 ∨ k = Small 0 1 ∨ k = Big demo_A.
Proof. destruct k as [i c|a]; simpl; [intros [-> [-> | ->]]%demo_in_use|intros ->%list_elem_of_singleton]; auto. Qed.

Lemma demo_holding : holding demo_world demo_held [demo_A] [] [].
Proof.
  constructor; [apply demo_process_ok|done|apply demo_quarantined| |].
  - intros p n Hp. unfold demo_held in Hp.
    assert (Hin : ∀ c, c = 0 ∨ c = 1 → in_use_at demo_world 0 c) by (intros c Hc; by apply demo_in_use).
    apply lookup_insert_Some in Hp as [[<- <-]|[_ Hp]]; [exists (Small 0 0)|apply lookup_insert_Some in Hp as [[<- <-]|[_ Hp]]; [exists (Small 0 1)|
      apply lookup_singleton_Some in Hp as [<- <-]; exists (Big demo_A)]].
    + split_and!; [by apply Hin; left|apply not_elem_of_nil|done|done|done].
    + split_and!; [by apply Hin; right|apply not_elem_of_nil|done|done|done].
    + split_and!; [by left|apply not_elem_of_nil|done|done|done].
  - intros k [-> |[-> | ->]]%demo_live _; eexists; reflexivity.
Qed.

Lemma demo_running : running demo_world demo_held.
Proof. exists [demo_A], [], []. apply demo_holding. Qed.

(** ** A run *)

(** The value an operation returns, and the process it leaves. *)
Definition returns {A} (o : outcome A) : option A := match o with Ret a _ => Some a | _ => None end.
Definition world_of {A} (w : world) (o : outcome A) : world := match o with Ret _ w' => w' | _ => w end.

Lemma returned {A} w (o : outcome A) a : returns o = Some a → o = Ret a (world_of w o).
Proof. destruct o; [|done..]. by intros [= ->]. Qed.

Lemma read_returned a v w : returns (rd8 a w) = Some v → rd8 a w = Ret v w.
Proof. unfold rd8. case_match; [|done]. by intros [= ->]. Qed.

(** The program stores a byte in its big block, shrinks it to a chunk, reads the byte back,
    asks for the size, allocates a big block and one that is zeroed, and frees the chunk. *)
Definition demo_p1 : Z := 1630932992.
Definition demo_p2 : Z := 1631735808.
Definition demo_p3 : Z := 1630697472.
Definition demo_w1 : world := world_of demo_world (wr8 (demo_big_pages + 7) 0x41 demo_world).
Definition demo_w2 : world := world_of demo_world (iso_realloc demo_big_pages 1000 demo_w1).
Definition demo_w2b : world := world_of demo_world (iso_chunksz demo_p1 demo_w2).
Definition demo_w3 : world := world_of demo_world (iso_alloc 100000 demo_w2b).
Definition demo_w4 : world := world_of demo_world (iso_calloc 3 10 demo_w3).
Definition demo_w5 : world := world_of demo_world (iso_free demo_p1 demo_w4).

Definition demo_events : list event :=
  [EWrite demo_big_pages 7 0x41; ERealloc demo_big_pages 1000 demo_p1; ERead demo_p1 7 0x41; EUsable demo_p1 1024;
   EAlloc 100000 demo_p2; ECalloc 3 10 demo_p3; EFree demo_p1].
(** The blocks held after each step that changes them. *)
Definition demo_h2 : gmap Z Z := hold demo_w2 demo_p1 1000 (delete demo_big_pages demo_held).
Definition demo_h3 : gmap Z Z := hold demo_w3 demo_p2 100000 demo_h2.
Definition demo_h4 : gmap Z Z := hold demo_w4 demo_p3 (3 * 10) demo_h3.
Definition demo_held' : gmap Z Z := delete demo_p1 demo_h4.

Lemma demo_run : heap_run demo_world demo_held demo_events demo_w5 demo_held'.
Proof.
  apply (heap_cons _ _ _ demo_w1 demo_held).
  { apply (heap_write _ _ demo_big_pages 100000); [reflexivity|lia|apply returned; vm_compute; reflexivity]. }
  apply (heap_cons _ _ _ demo_w2 demo_h2).
  { apply (heap_realloc demo_w1 demo_held demo_big_pages 1000 demo_p1); [left; by eexists|lia|apply returned; vm_compute; reflexivity]. }
  assert (Hh2 : demo_h2 !! demo_p1 = Some 1000) by (vm_compute; reflexivity).
  apply (heap_cons _ _ _ demo_w2 demo_h2).
  { apply (heap_read _ _ demo_p1 1000); [exact Hh2|lia|]. apply read_returned. vm_compute. reflexivity. }
  apply (heap_cons _ _ _ demo_w2b demo_h2).
  { apply heap_usable; [left; rewrite Hh2; by eexists|apply returned; vm_compute; reflexivity]. }
  apply (heap_cons _ _ _ demo_w3 demo_h3).
  { apply heap_alloc; [lia|apply returned; vm_compute; reflexivity]. }
  apply (heap_cons _ _ _ demo_w4 demo_h4).
  { apply heap_calloc; [lia|lia|apply returned; vm_compute; reflexivity]. }
  apply (heap_cons _ _ _ demo_w5 demo_held'); [|constructor].
  assert (Hh4 : demo_h4 !! demo_p1 = Some 1000) by (vm_compute; reflexivity).
  apply heap_free; [left; rewrite Hh4; by eexists|apply returned; vm_compute; reflexivity].
Qed.

(** ** Zones and chunks *)

Lemma iso_new_zone_correct_witness :
  returns (_iso_new_zone 100 true (-1) demo_world) = Some (Some 1) ∧
  wp resource (_iso_new_zone 100 true (-1)) (λ r w', ∃ i, r = Some i ∧ zone_created demo_world w' 100 i) demo_world.
Proof. split; [vm_compute; reflexivity|]. apply (iso_new_zone_correct demo_world 100); [apply demo_inv|apply demo_room|autounfold with conf; lia]. Defined.

Lemma iso_alloc_correct_witness :
  returns (_iso_alloc None 32768 demo_world) = Some 1073971200 ∧ returns (_iso_alloc None 200000 demo_world) = Some 1627521024 ∧
  wp resource (_iso_alloc None 32768) (λ p w', ∃ lu' lf' k, block_alloc demo_world w' [demo_A] lu' lf' 32768 p k ∧ size_ok w' k 32768) demo_world ∧
  wp resource (_iso_alloc None 200000) (λ p w', ∃ lu' lf' k, block_alloc demo_world w' [demo_A] lu' lf' 200000 p k ∧ size_ok w' k 200000) demo_world.
Proof.
  split; [vm_compute; reflexivity|]. split; [vm_compute; reflexivity|].
  split; [apply (iso_alloc_correct demo_world [demo_A] [] 32768)|apply (iso_alloc_correct demo_world [demo_A] [] 200000)];
    (apply demo_process_ok || apply demo_unlocked || apply demo_room || apply demo_mask_ok || reflexivity || (autounfold with conf; lia)).
Defined.

Lemma iso_alloc_wraps_witness :
  returns (_iso_alloc None (2 ^ 64 - 1) demo_world) = Some 1630555776 ∧
  wp resource (_iso_alloc None (2 ^ 64 - 1))
    (λ p w', ∃ i c, in_use_at w' i c ∧ p = chunk_at w' i c ∧ chunk_size (zone_at w' i) <= 65536) demo_world.
Proof. split; [vm_compute; reflexivity|]. apply (iso_alloc_wraps demo_world (2 ^ 64 - 1)); [apply demo_inv|apply demo_room|reflexivity..|lia]. Defined.

Lemma iso_free_correct_witness :
  chunk_at demo_world 0 1 = demo_U + 1 * 32768 ∧
  ∃ w', _iso_free_internal (chunk_at demo_world 0 1) false demo_world = Ret tt w' ∧ small_free demo_world w' false 0 1.
Proof.
  split; [apply demo_chunk; lia|]. apply (iso_free_correct demo_world false 0 1); [apply demo_inv|reflexivity|reflexivity|].
  apply demo_plain. right. reflexivity.
Defined.

Lemma iso_alloc_apart_witness :
  returns (_iso_alloc None 32768 demo_world) = Some 1073971200 ∧
  wp resource (_iso_alloc None 32768) (λ p w', 0 < p ∧ p + 32768 <= 2 ^ 47 ∧ p mod 32 = 0 ∧ mapped_rw (w_vm w') p 32768 ∧
    ∀ k x, live demo_world [demo_A] k → in_block demo_world k x → ¬ (p <= x < p + 32768)) demo_world.
Proof.
  split; [vm_compute; reflexivity|].
  apply (iso_alloc_apart demo_world [demo_A] [] 32768);
    (apply demo_process_ok || apply demo_unlocked || apply demo_room || apply demo_mask_ok || reflexivity || (autounfold with conf; lia)).
Defined.

Lemma iso_free_parks_witness :
  returns (iso_free demo_big_pages demo_world) = Some tt ∧
  wp (λ e, full [] = true ∧ resource e) (iso_free (addr demo_world (Big demo_A)))
    (λ _ w', unlocked w' ∧ ∃ lu' lf', parked demo_world w' [demo_A] lu' lf' [] [Big demo_A]) demo_world.
Proof.
  split; [vm_compute; reflexivity|].
  apply (iso_free_parks demo_world [demo_A] [] [] (Big demo_A)); [apply demo_process_ok|apply demo_build|apply demo_unlocked|apply demo_quarantined|left|
    apply not_elem_of_nil|discriminate].
Defined.

Lemma heap_refines_spec_witness :
  heap_run demo_world demo_held demo_events demo_w5 demo_held' ∧
  spec_run (contents demo_world demo_held) demo_events (contents demo_w5 demo_held') ∧ running demo_w5 demo_held'.
Proof.
  split; [exact demo_run|].
  apply (heap_refines_spec demo_world demo_held demo_events demo_w5 demo_held'); [done|apply demo_mask_ok|apply demo_running|exact demo_run].
Defined.

Lemma iso_calloc_correct_witness :
  returns (iso_calloc 4 8000 demo_world) = Some 1073971200 ∧ iso_calloc (2 ^ 32) 8000 demo_world = Ret 0 demo_world ∧
  iso_calloc 200000000 1 demo_world = Ret 0 demo_world ∧ iso_calloc 1 (2 ^ 64 - 1) demo_world = Ret demo_zero_page demo_world ∧
  wp resource (iso_calloc 4 8000) (λ p w', ∃ lu' lf' k, (∀ a, p <= a < p + 4 * 8000 → ld8 (w_mem w') a = 0) ∧
    block_alloc demo_world w' [demo_A] lu' lf' (4 * 8000) p k) demo_world.
Proof.
  split; [vm_compute; reflexivity|].
  pose proof (λ n s Hn Hs, iso_calloc_correct demo_world [demo_A] [] n s demo_process_ok demo_unlocked demo_room demo_mask_ok eq_refl Hn Hs) as Hc.
  destruct (Hc 4 8000) as (_ & Hok & _); [lia..|]. destruct (Hc (2 ^ 32) 8000) as (Hbig & _); [lia..|].
  destruct (Hc 200000000 1) as (Hone & _); [lia..|]. destruct (Hc 1 (2 ^ 64 - 1)) as (_ & _ & Hwrap); [lia..|].
  change (chunk_size_of 8000) with 8000 in *. change (chunk_size_of 1) with 32 in *.
  split; [apply Hbig; autounfold with conf; lia|]. split; [apply Hone; autounfold with conf; lia|].
  split; [apply Hwrap; lia|apply Hok; autounfold with conf; lia].
Defined.

Lemma iso_realloc_correct_witness :
  returns (iso_realloc (demo_U + 1 * 32768) 30000 demo_world) = Some 1073971200 ∧
  wp resource (iso_realloc (addr demo_world (Small 0 1)) 30000)
    (λ q w', ∃ lu' lf' k', reallocated demo_world w' [demo_A] lu' lf' (Small 0 1) 30000 q k') demo_world.
Proof.
  split; [vm_compute; reflexivity|].
  apply (iso_realloc_correct demo_world [demo_A] [] (Small 0 1) 30000); [apply demo_process_ok|apply demo_build|apply demo_unlocked|apply demo_room|
    apply demo_mask_ok|reflexivity|apply demo_in_use; lia| |autounfold with conf; lia|right; discriminate].
  split; [apply demo_calm; right; reflexivity|reflexivity].
Defined.

Lemma iso_free_size_correct_witness :
  wp resource (iso_free_size demo_big_pages 100000) (λ _ w', ∃ lu' lf', flushed demo_world w' [demo_A] lu' lf' [Big demo_A]) demo_world ∧
  iso_free_size (demo_U + 1 * 32768) 32769 demo_world = Abort SizeMismatch ∧
  iso_free_size demo_big_pages 100 demo_world = Abort UnownedPointer.
Proof.
  destruct (iso_free_size_correct demo_world [demo_A] [] (Big demo_A) 100000) as (Hok & _);
    [apply demo_process_ok|apply demo_build|apply demo_unlocked|left|].
  destruct (iso_free_size_correct demo_world [demo_A] [] (Small 0 1) 32769) as (_ & Hbad & _);
    [apply demo_process_ok|apply demo_build|apply demo_unlocked|apply demo_in_use; lia|].
  destruct (iso_free_size_correct demo_world [demo_A] [] (Big demo_A) 100) as (_ & _ & Hwr);
    [apply demo_process_ok|apply demo_build|apply demo_unlocked|left|].
  split; [apply Hok; [exact I|split; [discriminate|reflexivity]]|]. split; [apply Hbad; [reflexivity|simpl; autounfold with conf; lia]|].
  apply Hwr; [reflexivity|simpl; autounfold with conf; lia].
Defined.

Lemma memmove_correct_witness :
  ∃ m, __iso_memmove (demo_B + 3) demo_B 5 demo_world = Ret (demo_B + 3) (set_w_mem m demo_world) ∧ ld8 m (demo_B + 3) = 5.
Proof.
  destruct (memmove_correct (demo_B + 3) demo_B 5 demo_world) as (m & Hrun & Hm); [lia|vm_compute; reflexivity|vm_compute; reflexivity|].
  exists m. split; [exact Hrun|]. rewrite Hm. rewrite decide_True by lia. vm_compute. reflexivity.
Defined.

(** A process that has not called the allocator. *)
Definition demo_fresh : world :=
  mk_world ∅ [] (0 : kst) true zero_root ∅ ∅ ∅ [] (replicate 8 (mk_tzc 0 0)) 0 0 0 false false false.

(** A build for small devices: four default zones, no canaries, no shuffling. *)
Definition embedded_config : Config := {|
  MASK_PTRS := true; DISABLE_CANARY := true; SANITIZE_CHUNKS := false; VERIFY_FREE_BIT_SLOTS := false; RANDOMIZE_FREELIST := false;
  STRONG_SIZE_ISOLATION := false; SMALL_MEM_STARTUP := true; MEMORY_TAGGING := false; NO_ZERO_ALLOCATIONS := true;
  ABORT_ON_NULL := false; ABORT_ON_UNOWNED_PTR := true; ABORT_NO_ENTROPY := true; FUZZ_MODE := false;
  PROTECT_FREE_BIG_ZONES := false; BIG_ZONE_GUARD := false; BIG_ZONE_META_DATA_GUARD := false; PERM_FREE_REALLOC := false;
  AUTO_CTOR_DTOR := true; ISO_DTOR_CLEANUP := false; MEMCPY_SANITY := false; MEMSET_SANITY := false
|}.

Lemma iso_alloc_initialize_correct_witness :
  returns (@_iso_alloc_initialize demo_kernel embedded_config demo_fresh) = Some tt ∧
  wp resource (@_iso_alloc_initialize demo_kernel embedded_config) (λ _ w', @ready demo_kernel embedded_config w') demo_fresh ∧
  wp resource _iso_alloc_initialize (λ _ w', ready w') demo_fresh.
Proof.
  split; [vm_compute; reflexivity|]. split.
  - apply (@iso_alloc_initialize_correct demo_kernel demo_laws embedded_config demo_fresh). split; [reflexivity|]. split; reflexivity.
  - apply (iso_alloc_initialize_correct demo_fresh). split; [reflexivity|]. split; reflexivity.
Defined.

Lemma started_program_refines_spec_witness :
  (let o := _iso_alloc_initialize demo_fresh in returns o = Some tt ∧ (2 ^ 47 <=? big_zone_next_mask (w_root (world_of demo_fresh o))) = true) ∧
  wp resource _iso_alloc_initialize
    (λ _ w0, mask_ok w0 → ∀ es w' h', heap_run w0 ∅ es w' h' → spec_run ∅ es (contents w' h') ∧ running w' h') demo_fresh.
Proof. split; [vm_compute; split; reflexivity|]. apply (started_program_refines_spec demo_fresh); [done|]. split; [reflexivity|]. split; reflexivity. Defined.

(** No eight bytes of the zone of [Demo] are the pointer. *)
Lemma ptr_search_correct_witness :
  (∃ j a, 0 <= j < 1 ∧ _iso_alloc_ptr_search 0x7000 (demo_U + 64) demo_world = Ret a (set_w_mem (st64 demo_mem a 0x7000) demo_world)) ∨
  _iso_alloc_ptr_search 0x7000 (demo_U + 64) demo_world = Ret 0 demo_world.
Proof.
  destruct (ptr_search_correct 0x7000 (demo_U + 64) demo_world) as [(j & a & Hj & _ & _ & Heq)|[_ Heq]]; [apply demo_inv| |].
  - left. exists j, a. split; [exact Hj|exact Heq].
  - right. exact Heq.
Defined.

Lemma iso_chunk_size_correct_witness :
  _iso_chunk_size (chunk_at demo_world 0 1) demo_world = Ret (chunk_size demo_zone) demo_world ∧
  _iso_chunk_size demo_big_pages demo_world = Ret (big_size demo_big) demo_world.
Proof.
  destruct (iso_chunk_size_correct demo_world [demo_A] []) as (Hk & _); [apply demo_process_ok|apply demo_unlocked|].
  split; [apply (Hk (Small 0 1)); apply demo_in_use; lia|apply (Hk (Big demo_A)); left].
Defined.

Lemma iso_free_rejects_witness :
  _iso_free_internal (demo_U + 8) false demo_world = Abort ChunkMisaligned ∧
  _iso_free_internal (demo_U + 3 * 32768) false demo_world = Abort DoubleFree.
Proof.
  assert (HU : UNMASK_USER_PTR (zone_at demo_world 0) = demo_U) by reflexivity. split.
  - apply (iso_free_rejects demo_world false 0 (demo_U + 8)); rewrite ?HU;
      [apply demo_inv|reflexivity|reflexivity|simpl; lia|unfold demo_U, ZONE_USER_SIZE; lia|vm_compute; discriminate].
  - apply (iso_free_rejects demo_world false 0 (demo_U + 3 * 32768)); rewrite ?HU;
      [apply demo_inv|reflexivity|reflexivity|simpl; lia|unfold demo_U, ZONE_USER_SIZE; lia|vm_compute; reflexivity..].
Defined.

Lemma iso_find_zone_range_correct_witness :
  iso_find_zone_range (demo_U + 100) demo_world = Ret (Some 0) demo_world.
Proof.
  destruct (iso_find_zone_range_correct (demo_U + 100) demo_world) as (r & Heq & Hr); [apply demo_inv|reflexivity|].
  rewrite Heq. f_equal. apply (Hr 0). split; [simpl; lia|]. change (UNMASK_USER_PTR _) with demo_U. unfold demo_U, ZONE_USER_SIZE. lia.
Defined.

(** ** Big zones *)

Lemma iso_find_big_zone_correct_witness :
  ∃ w', iso_find_big_zone (big_user_pages_start demo_big) true demo_world = Ret demo_A w' ∧
    bigs_inv w' [] [] [demo_A] ∧ iso_find_big_zone 0x7000 true demo_world = Ret 0 demo_world.
Proof.
  destruct demo_inv as (_ & Hb & _).
  destruct (iso_find_big_zone_correct (big_user_pages_start demo_big) true demo_world [demo_A] [] Hb) as (Hf & _ & _); [reflexivity|].
  destruct (iso_find_big_zone_correct 0x7000 true demo_world [demo_A] [] Hb) as (_ & _ & Hn); [reflexivity|].
  destruct (Hf [] demo_A [] demo_big) as (w' & Hrun & _ & Hinv & _); [reflexivity..|].
  exists w'. split; [exact Hrun|]. split; [exact Hinv|]. apply Hn. intros x ->%list_elem_of_singleton (b & Heq & Hin).
  assert (b = demo_big) as -> by (injection Heq; auto). unfold demo_big, demo_big_pages in Hin. simpl in Hin. lia.
Defined.

Lemma iso_big_alloc_refuses_witness : _iso_big_alloc (2 ^ 64 - 5) demo_world = Ret 0 demo_world.
Proof.
  exact (iso_big_alloc_refuses demo_world (2 ^ 64 - 5) (demo_page_ok _ _) ltac:(unfold is_u64; lia) ltac:(autounfold with conf; lia)).
Defined.

Lemma iso_alloc_big_correct_witness :
  returns (_iso_alloc None 100000 demo_world) = Some 1627521024 ∧
  wp resource (_iso_alloc None 100000) (λ p w', big_allocated demo_world w' (chunk_size_of 100000) [demo_A] [] p) demo_world.
Proof.
  split; [vm_compute; reflexivity|]. destruct demo_inv as (_ & Hb & _).
  assert (Hs : SMALL_SIZE_MAX < 100000 <= BIG_SZ_MAX) by (autounfold with conf; lia).
  exact (proj2 (iso_alloc_big_correct demo_world [demo_A] [] 100000 Hb demo_mask_ok eq_refl eq_refl eq_refl Hs)).
Defined.

Lemma iso_free_big_correct_witness :
  returns (_iso_free_internal (big_user_pages_start demo_big) false demo_world) = Some tt ∧
  wp resource (_iso_free_internal (big_user_pages_start demo_big) false) (λ _ w', w_root_lock w' = false) demo_world.
Proof. split; [vm_compute; reflexivity|].
  destruct demo_inv as (Hw & Hb & _). eapply wp_post.
  - apply (iso_free_big_correct demo_world [] demo_A [] [] demo_big);
      try reflexivity; [exact Hw|exact Hb|apply demo_no_zone].
  - intros u w' (Hl & _). exact Hl.
Defined.

(** ** Verification *)

Lemma verify_zone_decides_witness : verdict (zone_canaries demo_world demo_zone) (_verify_zone 0) demo_world.
Proof.
  apply (verify_zone_decides 0 demo_zone demo_world).
  - reflexivity.
  - reflexivity.
  - apply (zinv_geom demo_vm demo_mem demo_U demo_B). apply demo_zinv. left. reflexivity.
  - apply (zinv_mapped demo_vm demo_mem demo_U demo_B). apply demo_zinv. left. reflexivity.
  - simpl. lia.
  - left. reflexivity.
Defined.

Lemma demo_walkable : walkable_heap demo_world [demo_A] [].
Proof.
  destruct demo_inv as (Hw & Hb & _). apply heap_walkable; [exact Hw|exact Hb|]. intros i Hi.
  assert (i = 0) as -> by (simpl in Hi; lia). split; vm_compute; discriminate.
Qed.

(** Chunk 3 is marked as released before, but does not hold the canary. *)
Definition demo_damaged : world := set_w_mem (<[demo_B := 0x85]> (w_mem demo_world)) demo_world.

Lemma verify_all_zones_decides_witness :
  verify_all_zones demo_world = Ret tt demo_world ∧ returns (verify_all_zones demo_damaged) = None ∧
  decides damage_abort ((∀ i, 0 <= i < zones_used (w_root demo_world) → zone_canaries demo_world (zone_at demo_world i)) ∧
    (∀ a, a ∈ [demo_A] ++ [] → big_sound demo_world a)) verify_all_zones demo_world.
Proof.
  pose proof (verify_all_zones_decides demo_world [demo_A] [] demo_walkable eq_refl) as Hd. split; [|split; [vm_compute; reflexivity|exact Hd]].
  destruct Hd as [[_ Hr]|[Hn _]]; [exact Hr|]. destruct Hn. destruct demo_inv as (Hw & Hb & _). apply heap_sound; [exact Hw|exact Hb].
Defined.

(** ** Memory tags *)

(** A build with memory tagging, and the zone with its page of tags. *)
Definition tagging_config : Config := {|
  MASK_PTRS := true; DISABLE_CANARY := false; SANITIZE_CHUNKS := false; VERIFY_FREE_BIT_SLOTS := false;
  RANDOMIZE_FREELIST := true; STRONG_SIZE_ISOLATION := false; SMALL_MEM_STARTUP := false; MEMORY_TAGGING := true;
  NO_ZERO_ALLOCATIONS := true; ABORT_ON_NULL := false; ABORT_ON_UNOWNED_PTR := true; ABORT_NO_ENTROPY := true;
  FUZZ_MODE := false; PROTECT_FREE_BIG_ZONES := false; BIG_ZONE_GUARD := false; BIG_ZONE_META_DATA_GUARD := false;
  PERM_FREE_REALLOC := false; AUTO_CTOR_DTOR := true; ISO_DTOR_CLEANUP := false; MEMCPY_SANITY := false; MEMSET_SANITY := false;
|}.
Definition demo_tagged : world :=
  set_w_mem (<[demo_U - 8192 + 1 := 0x5a]> demo_mem) (set_w_vm (Vma (demo_U - 8192) 4096 (Some PROT_RW) :: demo_vm) demo_world).

Lemma demo_taggable : @taggable demo_kernel tagging_config demo_tagged 0 1 15.
Proof.
  constructor; done.
Qed.

Lemma tag_untag_roundtrip_witness :
  let p := @chunk_addr (@UNMASK_USER_PTR tagging_config demo_zone) demo_zone 1 in
  (q ← @_tag_ptr demo_kernel tagging_config p (Some 0); @_untag_ptr demo_kernel tagging_config q (Some 0)) demo_tagged = Ret p demo_tagged.
Proof. apply (@tag_untag_roundtrip demo_kernel tagging_config 0 1 15 demo_tagged). apply demo_taggable. Defined.

Lemma verify_tag_rejects_valid_tag_witness :
  let p := @chunk_addr (@UNMASK_USER_PTR tagging_config demo_zone) demo_zone 1 in
  (q ← @_tag_ptr demo_kernel tagging_config p (Some 0); @_iso_alloc_verify_tag demo_kernel tagging_config q (Some 0)) demo_tagged
    = Abort TagMismatch.
Proof.
  apply (@verify_tag_rejects_valid_tag demo_kernel tagging_config 0 1 15 demo_tagged); [apply demo_taggable|vm_compute; discriminate].
Defined.

Lemma refresh_never_happens_witness : @_refresh_zone_mem_tags demo_kernel tagging_config 0 demo_tagged = Ret false demo_tagged.
Proof. apply (@refresh_never_happens demo_kernel tagging_config 0 demo_tagged). reflexivity. Defined.

(** ** The profiler and the sampler *)

Lemma leak_detector_exact_witness : _iso_alloc_zone_leak_detector 0 false demo_world = Ret 2 demo_world.
Proof. apply (leak_detector_exact 0 demo_zone demo_world); [reflexivity|apply demo_zone_inv]. Defined.

Definition demo_prof : prof := mk_prof 0 0 0 0 ∅ [mk_trace 5 [] 1 32 64] [].

Lemma demo_traces : traces_ok (_alloc_bts demo_prof) ∧ traces_ok (_free_bts demo_prof).
Proof. split; (split; [vm_compute; discriminate|]); simpl; repeat constructor. by intros ?%not_elem_of_nil. Qed.

Lemma demo_chunk_sizes j : 0 <= j < zones_used (w_root demo_world) → chunk_size (zone_at demo_world j) < SMALL_SIZE_MAX.
Proof. intros Hj. assert (j = 0) as -> by (simpl in Hj; lia). reflexivity. Qed.

(** Two frames and the end of the chain; and a function that uses the frame pointer for
    something else, so that the walk runs into an address that is not mapped. *)
Definition demo_stack : call_stack :=
  mk_stack (λ n, Some (if n <=? 2 then 0x7ffe1000 + n * 64 else 0)) (λ n, Some (0x401000 + n)).
Definition broken_stack : call_stack := mk_stack (λ n, if n =? 1 then Some 0x123 else None) (λ n, None).

Lemma profiler_traces_bounded_witness :
  (∃ p' w', _iso_alloc_profile demo_stack 48 demo_prof demo_world = Ret p' w' ∧ traces_ok (_alloc_bts p')) ∧
  ((∃ p' w', _iso_free_profile broken_stack demo_prof demo_world = Ret p' w' ∧ traces_ok (_free_bts p')) ∨
   _iso_free_profile broken_stack demo_prof demo_world = Fault).
Proof.
  destruct demo_inv as [Hw _]. destruct demo_traces as [Ha Hf].
  destruct (profiler_traces_bounded demo_stack 48 demo_prof demo_world Hw demo_chunk_sizes Ha Hf) as [[(p1 & w1 & R1 & R2 & _)|[Hn _]] _];
    [|discriminate Hn].
  destruct (profiler_traces_bounded broken_stack 48 demo_prof demo_world Hw demo_chunk_sizes Ha Hf) as [_ [(p2 & w2 & R3 & R4 & _)|[_ Hfault]]];
    (split; [exists p1, w1; split; [exact R1|exact R2]|]).
  - left. exists p2, w2. split; [exact R3|exact R4].
  - right. exact Hfault.
Defined.

Definition demo_sanity : sanity := mk_sanity 0xa1b2c3d4e5f60718 0 ∅ [] false.
(** A request of 100 bytes at the right end of the page. *)
Definition demo_sane : sane_allocation := mk_sane demo_B 100 true.

Lemma demo_red_zone : mapped_rw demo_vm demo_B (demo_B + 4096 - 100 - demo_B).
Proof. destruct demo_mapped as (_ & HB & _). eapply mapped_rw_sub; [exact HB|lia..]. Qed.

Lemma sanity_check_exact_witness :
  check_sanity_canary demo_sanity demo_sane demo_world = Abort SanityCanaryCorrupt.
Proof.
  apply (sanity_check_exact demo_sanity demo_sane demo_world demo_B (demo_B + 4096 - 100)).
  - vm_compute. split; [discriminate|reflexivity].
  - reflexivity.
  - apply demo_red_zone.
  - unfold demo_world. simpl. lia.
  - intros Hi. specialize (Hi demo_B ltac:(lia)). vm_compute in Hi. discriminate.
Defined.

Lemma sanity_write_check_witness :
  ∃ w', write_sanity_canary demo_sanity demo_B demo_world = Ret tt w' ∧ check_sanity_canary demo_sanity demo_sane w' = Ret tt w'.
Proof.
  destruct (sanity_write_check demo_sanity demo_sane demo_world) as (w' & Hrun & Hm).
  - apply demo_page_ok.
  - vm_compute. split; [discriminate|reflexivity].
  - reflexivity.
  - apply demo_mapped.
  - simpl. lia.
  - exists w'. split; [exact Hrun|]. destruct (Hm (w_mem w')) as [Hok _]. replace (set_w_mem (w_mem w') w') with w' in Hok by (destruct w'; reflexivity). apply Hok. reflexivity.
Defined.

(** ** Log lines *)

Lemma fmt_roundtrip_witness : parse 16 (_fmt 0xdeadbeef 16) = 0xdeadbeef.
Proof. apply (fmt_roundtrip 0xdeadbeef 16); [right; reflexivity|unfold is_u64; lia]. Defined.

(** "zone 7 at 0x1000\n" *)
Definition demo_message : message := ([([122; 111; 110; 101; 32], IDec 7); ([32; 97; 116; 32; 48; 120], IHex 4096)], []).

Lemma printf_correct_witness :
  _iso_alloc_printf (Some (message_format demo_message)) (message_args demo_message) = POut (message_text demo_message).
Proof.
  apply (printf_correct demo_message).
  - repeat constructor; discriminate.
  - constructor.
  - vm_compute. reflexivity.
Defined.

Lemma printf_overreads_witness : _iso_alloc_printf (Some [104; 105]) [] = PUndef.
Proof. apply (printf_overreads [104; 105] []); [repeat constructor; discriminate|discriminate|vm_compute; discriminate]. Defined.
