(* ===== verification/HookWitnesses.v ===== *)
(** * Witnesses for memory tagging, sampling, page faults, the C++ operators and retirement

    The theorems of [Mte], [Faults], [Sampling], [Hooks] and [Retire] at concrete inputs; the process is
    the one of [Demo]. *)

From S2P Require Import Prelude Words Conf Memory State Util Sanity Faults Sampling Mte Printf ZoneBits Heap Profiler Report Zones BigZones BigSpec Alloc Interfaces AllocSpec NewZone HeapOps Retire Blocks Quarantine Realloc Hooks Demo HeapWitnesses.

(** ** A source of tags: the first one that is not excluded *)

Definition first_tag (mask : Z) : Z := default 0 (head (List.filter (λ t, negb (Z.testbit mask t)) (seqZ 0 16))).

Lemma first_tag_ok mask : (∃ t, 0 <= t < 16 ∧ Z.testbit mask t = false) → 0 <= first_tag mask < 16 ∧ Z.testbit mask (first_tag mask) = false.
Proof.
  intros (t & Ht & Hb). unfold first_tag.
  assert (Hin : In t (List.filter (λ t, negb (Z.testbit mask t)) (seqZ 0 16))).
  { apply filter_In. split; [apply list_elem_of_In, elem_of_seqZ; lia|by rewrite Hb]. }
  destruct (List.filter (λ t, negb (Z.testbit mask t)) (seqZ 0 16)) as [|u l] eqn:E; [done|]. simpl.
  assert (Hu : In u (List.filter (λ t, negb (Z.testbit mask t)) (seqZ 0 16))) by (rewrite E; by left).
  apply filter_In in Hu as [Hu1 Hu2]. apply list_elem_of_In, elem_of_seqZ in Hu1. apply negb_true_iff in Hu2. split; [lia|exact Hu2].
Qed.

#[global] Instance demo_tag_unit : TagUnit := {| irg_choice := λ _ mask, first_tag mask; irg_choice_ok := λ _, first_tag_ok |}.

(** Ten granules without a tag from 0x1000 on. *)
Definition demo_tags : tags := mk_tags (list_to_map ((λ g, (g, 0)) <$> seqZ 256 10)) 0.

Lemma demo_tagged_memory : tagged_memory demo_tags (iso_mte_untag_ptr 0x1000) 100.
Proof.
  intros g Hg. assert (Hg' : 256 <= g < 263) by exact Hg.
  assert (Hall : forallb (λ g, bool_decide (is_Some (granule_tag demo_tags !! g))) (seqZ 256 7) = true) by (vm_compute; reflexivity).
  rewrite forallb_forall in Hall. specialize (Hall g). rewrite <-list_elem_of_In, elem_of_seqZ in Hall.
  exact (proj1 (bool_decide_eq_true _) (Hall ltac:(lia))).
Qed.

Definition tagged_ptr {A} (o : tagging A) : option A := match o with Tagged a _ => Some a | _ => None end.

Lemma mte_set_tag_range_correct_witness : tagged_ptr (iso_mte_set_tag_range 0x1000 100 demo_tags) = Some 0x100000000001000 ∧
  ∃ q t', iso_mte_set_tag_range 0x1000 100 demo_tags = Tagged q t' ∧ access_ok t' (q + 99) = true ∧ access_ok t' (iso_mte_untag_ptr 0x1000 + 99) = false.
Proof.
  split; [vm_compute; reflexivity|].
  pose proof (mte_set_tag_range_correct 0x1000 100 demo_tags eq_refl eq_refl ltac:(vm_compute; discriminate) demo_tagged_memory) as Hw.
  change (100 <=? INT_MAX - 15) with true in Hw. cbv iota in Hw. destruct Hw as (q & t' & Hr & _ & _ & Hacc & _).
  exists q, t'. split; [exact Hr|]. destruct (Hacc 99 ltac:(lia)) as (A1 & A2 & _). split; [exact A1|exact A2].
Defined.

Definition demo_tags' : tags := match iso_mte_set_tag_range 0x1000 100 demo_tags with Tagged _ t => t | _ => demo_tags end.

Lemma mte_free_retags_witness : ∃ q' t'', retag_on_free 0x100000000001000 demo_tags' = Tagged q' t'' ∧
  iso_mte_extract_tag q' ≠ 1 ∧ access_ok t'' 0x100000000001000 = false ∧ access_ok t'' (0x100000000001000 + 20) = true.
Proof.
  destruct (mte_free_retags 0x1000 100 demo_tags 0x100000000001000 demo_tags') as (q' & t'' & Hr & _ & _ & Hne & Hacc).
  - reflexivity.
  - vm_compute. split; [reflexivity|discriminate].
  - vm_compute. discriminate.
  - apply demo_tagged_memory.
  - vm_compute. reflexivity.
  - exists q', t''. split; [exact Hr|]. split; [exact Hne|]. split; [exact (Hacc 0 ltac:(lia))|exact (Hacc 20 ltac:(lia))].
Defined.

(** ** Page faults and crashes *)

(** Two writes and then a read, each to a page of its own. *)
Definition demo_fault (flags page : Z) : event := mk_event 1 32 (mk_msg UFFD_EVENT_PAGEFAULT (page * 4096) flags) 0.
Definition demo_uffd : uffd := mk_uffd 5 0 1 {[ 7 * 4096; 8 * 4096; 9 * 4096 ]}.

Lemma demo_fault_ok flags page : page_fault demo_world (demo_fault flags page).
Proof.
  unfold page_fault, ERR, OK. cbn [demo_fault poll_ret read_ret umsg msg_event pf_address unregister_ret].
  change (w_page_size demo_world) with 4096. split_and!; try done. apply Z.mod_mul. lia.
Qed.

Lemma page_fault_thread_correct_witness :
  (∃ u', _page_fault_thread_handler [demo_fault 1 7; demo_fault 1 8] (demo_sanity, demo_uffd) demo_world = Ret (demo_sanity, u') demo_world ∧
     registered u' = registered demo_uffd ∖ fault_pages [demo_fault 1 7; demo_fault 1 8]) ∧
  _page_fault_thread_handler [demo_fault 1 7; demo_fault 0 8] (demo_sanity, demo_uffd) demo_world = Abort UninitRead.
Proof.
  assert (Hok : ∀ f, Forall (page_fault demo_world) [demo_fault 1 7; demo_fault f 8]) by (intros f; repeat constructor; apply demo_fault_ok).
  split.
  - apply (page_fault_thread_correct demo_sanity demo_uffd [demo_fault 1 7; demo_fault 1 8] demo_world (demo_page_ok _ _) eq_refl (Hok 1)).
    repeat constructor.
  - apply (page_fault_thread_correct demo_sanity demo_uffd [demo_fault 1 7; demo_fault 0 8] demo_world (demo_page_ok _ _) eq_refl (Hok 0)).
    intros Hw. apply list.Forall_cons in Hw as [_ Hw]. apply list.Forall_cons in Hw as [Hw _]. discriminate Hw.
Defined.

Lemma handle_signal_correct_witness :
  handle_signal true 0x70000000 (0x70000000 + 24) demo_world = Abort UseAfterFree ∧ handle_signal true 0x70000000 0 demo_world = Abort CrashAtNull.
Proof.
  destruct (handle_signal_correct 0x70000000 demo_world (demo_page_ok _ _)) as (A1 & A2 & _); [change (w_page_size demo_world) with 4096; lia|].
  split; [|exact A2]. rewrite A1; [reflexivity|unfold is_u64; lia|lia].
Defined.

(** ** Samples *)

(** No sample yet. *)
Definition demo_no_samples : sanity := mk_sanity 0xa1b2c3d4e5f60718 0 ∅ (replicate MAX_SANE_SAMPLES free_entry) false.

Lemma demo_no_samples_ok w : samples_ok w demo_no_samples.
Proof.
  assert (Hl : ∀ i a, replicate MAX_SANE_SAMPLES free_entry !! i = Some a → a = free_entry) by (intros i a Hi; by apply lookup_replicate in Hi as [-> _]).
  constructor; cbn [demo_no_samples _sanity_canary _sane_allocations _sane_cache _sane_sampled].
  - unfold is_u64. lia.
  - intros i a ->%Hl. done.
  - by intros i j a b ->%Hl _ _ Hu.
  - intros k. by rewrite countb_replicate.
  - by rewrite countb_replicate.
Qed.

(** A seed with which the next request is sampled, at the right and at the left end. *)
Definition demo_right : world := set_w_root (set_seed 34096 (w_root demo_world)) demo_world.
Definition demo_left : world := set_w_root (set_seed 361 (w_root demo_world)) demo_world.

Lemma iso_alloc_sample_correct_witness : fst <$> returns (_iso_alloc_sample demo_no_samples 1000 demo_right) = Some 1627528216 ∧
  match _iso_alloc_sample demo_no_samples 1000 demo_right with
  | Ret (p, s') w' => p = 0 ∨ samples_ok w' s'
  | Abort e => resource e ∨ e = NoSaneSlot
  | _ => False
  end.
Proof.
  split; [vm_compute; reflexivity|].
  pose proof (iso_alloc_sample_correct demo_no_samples 1000 demo_right (demo_page_ok _ _) eq_refl (demo_no_samples_ok _) eq_refl
    ltac:(change (w_page_size demo_right) with 4096; lia)) as Hw.
  destruct (_iso_alloc_sample demo_no_samples 1000 demo_right) as [[p s'] w'|e| | | |].
  - destruct Hw as [(Hp & _)|(i & a & _ & _ & _ & _ & _ & _ & Hs & _)]; [left; exact Hp|right; exact Hs].
  - destruct Hw as [Hr|[He _]]; [left; exact Hr|right; exact He].
  - exact Hw.
  - exact (Hw eq_refl).
  - exact Hw.
  - exact Hw.
Defined.

Lemma uninit_sample_watches_witness : (λ r, elements (registered (snd r))) <$> returns (_iso_alloc_sample_uninit 0 demo_no_samples (mk_uffd 5 0 1 ∅) 1000 demo_left) = Some [1627521024] ∧
  match _iso_alloc_sample_uninit 0 demo_no_samples (mk_uffd 5 0 1 ∅) 1000 demo_left with
  | Ret (p, s', u') w' => p = 0 ∨ ∃ a, placed demo_left w' a ∧
      registered u' = {[ if right_aligned a then sane_address a else sane_address a - 4096 ]} ∪ ∅
  | Abort e => resource e ∨ e = NoSaneSlot
  | _ => False
  end.
Proof.
  split; [vm_compute; reflexivity|].
  pose proof (uninit_sample_watches 0 demo_no_samples (mk_uffd 5 0 1 ∅) 1000 demo_left (demo_page_ok _ _) eq_refl (demo_no_samples_ok _) eq_refl
    ltac:(change (w_page_size demo_left) with 4096; lia) ltac:(discriminate) ltac:(discriminate)) as Hw.
  destruct (_iso_alloc_sample_uninit 0 demo_no_samples (mk_uffd 5 0 1 ∅) 1000 demo_left) as [[[p s'] u'] w'|e| | | |].
  - destruct Hw as [(Hp & _)|(a & _ & _ & Hpl & Hreg)]; [left; exact Hp|right; exists a; split; [exact Hpl|exact Hreg]].
  - exact Hw.
  - exact Hw.
  - exact (Hw eq_refl).
  - exact Hw.
  - exact Hw.
Defined.

(** One sample, of 1000 bytes at the right end of its page. *)
Definition demo_entry : sane_allocation := mk_sane 0x70001000 1000 true.
Definition demo_sample_ptr : Z := 0x70001000 + 3096.
Definition demo_one_sample : sanity :=
  mk_sanity 0xa1b2c3d4e5f60718 1 {[ SANE_CACHE_IDX demo_sample_ptr := 1 ]} (demo_entry :: replicate (MAX_SANE_SAMPLES - 1) free_entry) false.
Definition demo_sampled : world :=
  set_w_vm (Vma 0x70001000 4096 (Some PROT_RW) :: Vma 0x70000000 12288 (Some PROT_NONE) :: demo_vm) demo_world.

Lemma demo_one_sample_ok m : samples_ok (set_w_mem m demo_sampled) demo_one_sample.
Proof.
  assert (Hl : ∀ i a, (demo_entry :: replicate (MAX_SANE_SAMPLES - 1) free_entry) !! i = Some a → (i = O ∧ a = demo_entry) ∨ a = free_entry).
  { intros [|i] a Hi; [left; by injection Hi|right]. by apply lookup_replicate in Hi as [-> _]. }
  constructor; cbn [demo_one_sample _sanity_canary _sane_allocations _sane_cache _sane_sampled].
  - unfold is_u64. lia.
  - intros i a [[_ ->]| ->]%Hl; [|done]. change (in_use demo_entry) with true. cbv iota.
    constructor; change (w_page_size (set_w_mem m demo_sampled)) with 4096; change (sane_address demo_entry) with 0x70001000; change (orig_size demo_entry) with 1000.
    + reflexivity.
    + lia.
    + lia.
    + intros x Hx. change (w_vm _) with (w_vm demo_sampled). cbn [w_vm demo_sampled set_w_vm]. rewrite vm_prot_cons, decide_True by (simpl; lia). done.
    + intros x Hx. change (w_vm _) with (w_vm demo_sampled). cbn [w_vm demo_sampled set_w_vm].
      rewrite vm_prot_cons, decide_False, vm_prot_cons, decide_True by (simpl; lia). done.
    + lia.
  - intros i j a b [[-> ->]| ->]%Hl [[-> ->]| ->]%Hl Hne Ha Hb; done.
  - intros k. rewrite countb_cons, countb_replicate by done. unfold cached_at. change (in_use demo_entry) with true.
    change (sample_ptr _ demo_entry) with demo_sample_ptr. rewrite <-(insert_empty (SANE_CACHE_IDX demo_sample_ptr)), default_insert.
    destruct (SANE_CACHE_IDX demo_sample_ptr =? k); done.
  - rewrite countb_cons, countb_replicate by done. done.
Qed.

Lemma free_sane_sample_correct_witness : ∃ m vm s',
  _iso_alloc_free_sane_sample demo_one_sample demo_sample_ptr (set_w_mem m demo_sampled) = Ret (true, s') (set_w_vm vm (set_w_mem m demo_sampled)) ∧
  vm_prot vm 0x70001000 = None.
Proof.
  destruct (write_sanity_run demo_one_sample 0x70001000 demo_sampled) as (m & _ & Hint & _).
  - apply demo_page_ok.
  - vm_compute. split; [discriminate|reflexivity].
  - reflexivity.
  - exact (sm_rw _ _ (so_entry _ _ (demo_one_sample_ok ∅) 0%nat demo_entry eq_refl)).
  - destruct (free_sane_sample_correct demo_one_sample (set_w_mem m demo_sampled) (demo_page_ok _ _) (demo_one_sample_ok m) eq_refl) as [Hf _].
    specialize (Hf 0%nat demo_entry). cbv zeta in Hf.
    destruct (red_zone (w_page_size (set_w_mem m demo_sampled)) demo_entry) as [lo hi] eqn:Hrz.
    assert (lo = 0x70001000 ∧ hi = 0x70001000 + 3096) as [-> ->] by (vm_compute in Hrz; injection Hrz as <- <-; done).
    destruct (Hf eq_refl eq_refl) as [Hok _].
    + reflexivity.
    + vm_compute. reflexivity.
    + destruct Hok as (vm & s' & Hr & _ & _ & _ & Hvm).
      * intros x Hx. apply Hint. change (w_page_size demo_sampled) with 4096. lia.
      * exists m, vm, s'. split; [exact Hr|]. rewrite Hvm, decide_True; [reflexivity|]. change (w_page_size _) with 4096. simpl. lia.
Defined.

(** ** Operators *)

Lemma new_delete_sized_correct_witness : returns (operator_new 200000 demo_world) = Some 1627521024 ∧
  wp resource (operator_new 200000) (λ p w', ∃ lu' lf' k, block_alloc demo_world w' [demo_A] lu' lf' 200000 p k) demo_world.
Proof.
  split; [vm_compute; reflexivity|].
  eapply wp_post; [apply (new_delete_sized_correct demo_world [demo_A] [] 200000);
    (apply demo_process_ok || apply demo_build || apply demo_unlocked || apply demo_room || apply demo_mask_ok || reflexivity || (autounfold with conf; lia))|].
  intros p w' (lu' & lf' & k & Hb & _). exists lu', lf', k. exact Hb.
Defined.

(** ** The profile *)

(** No symbol is known; one earlier report was made. *)
Definition demo_dladdr (c : Z) : option dl_info := Some (mk_dl None None).
Definition demo_totals : gmap Z Z := {[ 32768 := 1 ]}.

Lemma output_profile_correct_witness : ∃ totals,
  _iso_output_profile demo_dladdr demo_prof demo_totals demo_world =
    Ret (POut (concat (message_text <$> report demo_dladdr demo_prof totals)), totals, -1) demo_world ∧
  default 0 (totals !! 32768) = 2.
Proof.
  destruct demo_inv as (Hw & _).
  destruct (output_profile_correct demo_dladdr demo_prof demo_totals demo_world Hw) as (totals & Hr & Ht).
  - intros t c _ _ _. eexists. split; [reflexivity|]. intros s Hs. discriminate Hs.
  - intros t c _ _ _. eexists. split; [reflexivity|]. intros s Hs. discriminate Hs.
  - apply demo_chunk_sizes.
  - intros s. unfold demo_totals. destruct (decide (s = 32768)) as [->|Hne]; [rewrite lookup_singleton_eq; simpl; lia|].
    rewrite lookup_singleton_ne by done. simpl. lia.
  - exists totals. split; [exact Hr|]. rewrite Ht. reflexivity.
Defined.

(** ** A worn zone *)

(** 512 chunks of 8 KiB that served 20000 allocations; chunk 0 is in use. *)
Definition worn_zone : iso_alloc_zone_t :=
  mk_zone (Z.lxor demo_U demo_mask) (Z.lxor demo_B demo_mask) BAD_BIT_SLOT 0x1122334455667788 demo_mask
    16 8192 0 0 false true false (-1) 128 1 512 20000 0 0 (replicate 255 BAD_BIT_SLOT).
Definition worn_world : world := set_w_mem (st64 ∅ demo_B 1) (demo_with worn_zone).

Lemma worn_like : demo_like (st64 ∅ demo_B 1) worn_zone.
Proof.
  constructor; try (vm_compute; reflexivity); try (by split_and!); try (unfold is_u64; simpl; lia).
  constructor; simpl; reflexivity || lia.
Qed.

Lemma last_free_retires_zone_witness :
  wp resource (_iso_free_internal_unlocked (chunk_at worn_world 0 0) false None) (λ r w', r = Some 0 ∧ retired worn_world w' 0) worn_world.
Proof.
  apply (last_free_retires_zone worn_world 0 0).
  - by apply (demo_like_heap (st64 ∅ demo_B 1) worn_zone), worn_like.
  - reflexivity.
  - intros i bm Hb Hn. by rewrite (demo_bitmaps _ _ _ _ Hb) in Hn.
  - split; [simpl; lia|]. split; [change (slots _) with 512; lia|vm_compute; reflexivity].
  - left. change (slots _) with 512. lia.
  - reflexivity.
  - vm_compute. reflexivity.
Defined.

(** The call returns, and the fresh zone lies elsewhere and is empty. *)
Example worn_zone_replaced : let o := _iso_free_internal_unlocked demo_U false None worn_world in
  returns o = Some (Some 0) ∧ af_count (zone_at (world_of worn_world o) 0) = 0 ∧ alloc_count (zone_at (world_of worn_world o) 0) = 0 ∧
  (UNMASK_USER_PTR (zone_at (world_of worn_world o) 0) =? demo_U) = false.
Proof. vm_compute. done. Qed.
